(* ===== verification/_CoqProject ===== *)
-Q . S2P
Prelude.v
Float64.v
FloatBounds.v
Go.v
Utf8.v
Csv.v
CsvProps.v
Strings.v
StringsProps.v
TrimProps.v
Marshal.v
Fairness.v
Sql.v
Tx.v
Schema.v
Calendar.v
Strconv.v
StrconvProps.v
Gotime.v
GotimeProps.v
Demo.v
Common.v
Auth.v
DemoCrypto.v
Authz.v
AuditTrail.v
Matrix.v
Payroll.v
PayrollProps.v
PayrollScenarios.v
PayrollLoop.v
Workflow.v
WorkflowProps.v
User.v
UserProps.v
Importer.v
ImporterProps.v
ImportScenarios.v
Employee.v
EmployeeProps.v
Jobs.v
JobsProps.v
Security.v
Lifecycle.v
Document.v
Onboarding.v
Organization.v
Performance.v
Recruitment.v
Configuration.v
Helpdesk.v
HelpdeskProps.v
Leave.v
LeaveProps.v
Attendance.v
AttendanceAdmin.v
AttendanceProps.v
AttendanceReports.v
Reports.v
Api.v
ApiProps.v
References.v
History.v
HistoryStmts.v
HistoryRoutes.v
Witnesses.v
PeopleWitnesses.v
ApiWitnesses.v
Seeds.v
SeedDemo.v
SeedTestEmployees.v
SeedPayroll.v
SeedRbac.v
SeedEnterprise.v
SeedsProps.v
SeedPayrollProps.v
SeedUsersProps.v
SeedScenarios.v
