(* ===== verification/Prelude.v ===== *)
(** * HR portal backend: a verification library

    The program is the Go backend of an HR portal ([src/backend]): HTTP handlers
    over one PostgreSQL pool, grouped in packages under [src/backend/internal]. A
    request passes the authentication middleware of package [auth], is checked by the
    role predicates of [authz], runs SQL statements one by one (the creation of
    accounts, of employees and of import batches and the change of a role in a
    transaction), and often ends in a row of the audit trail ([audit]). The packages
    share nothing but the database, the job service keeps a history in memory: payroll reads the attendance days, advances and
    salary structures that other handlers write; the approval workflow updates the
    rows that leave, attendance and payroll insert. This library models those handlers
    and proves what they do, what they refuse, and what they let happen.

    ** How the program is embedded

    - [Prelude]: tactics, the hint database [portal], lemmas on lists of rows
      ([where_], [set_where], [order_by]), options and sums.
    - [Float64]: Go's float64, computed by the Standard Library's [SpecFloat] at
      binary64, with the sign lemmas and the decimal rounding of formatting and of
      NUMERIC columns; [FloatBounds] has the error of a rounded sum and product. [Calendar]: days and dates ([time.AddDate], [Weekday]).
    - [Go]: a handler is a value of the free monad [prog] over SQL statements, reads
      of the clock and random bytes, with [Halt] for a response written before a
      [return] inside a loop and [Crash] for a panic. [run] executes it in an [Env],
      which says which statements fail, the time and the fresh identifiers; [wp]
      quantifies over every environment (or every [reliable] one) at once; [steps]
      interleaves the statements of any number of requests. [all_stmts] and [respects]
      lift a relation kept by every statement to runs ([run_respects]) and to
      interleavings ([steps_respect]).
    - [Utf8] and [Csv] are packages of the Go library in src/local_go: the decoding of
      runes of unicode/utf8 and the reader and the writer of encoding/csv (module
      [csv]); [CsvProps] has the automaton of RFC 4180 as their reference. [Gotime] is
      package time for UTC (module [time]): the words of an instant, the arithmetic on
      instants and the calendar; [GotimeProps] proves it to be [Calendar]. [Strconv] is
      the integers of package strconv (module [strconv]); [StrconvProps] proves them to be
      those of [Go]. [Strings] is the searching, splitting, joining, replacing,
      repeating and trimming of package strings (module [strings]), with the search in assembly as the
      class [strings.Bytealg] and its documented promise as a law of [StringsProps]; [TrimProps] proves [TrimSpace] to be that of [Go].
      [Marshal] is what a reader of the JSON of a map of strings gets from encoding/json
      (module [marshal]), which the importer stores.
    - [Fairness]: what a schedule that gives every request enough turns does with
      requests that end within a number of steps.
    - [Tx]: transactions at READ COMMITTED: the handle keeps the writes, the commit
      applies them to the committed database, all or none, and fails when they would
      answer otherwise than they did; a refused statement aborts the transaction.
    - [Sql]: statements as functions on tables. [Server] is the class of what is not
      under [src]: the nil tests of the pool and the audit service, the columns of
      the migrated schema, PostgreSQL's casts, ILIKE and collation. [LawfulTable] and
      [Indep] are the interface of a table.
    - [Schema]: the tables of [src/backend/migrations] as records; [Demo]: one
      concrete server and company, [DemoCrypto] its cryptography, at which
      [Witnesses], [PeopleWitnesses] and [ApiWitnesses] apply the theorems.

    ** The parts of the program

    - [Common] is common/pagination.go and error.go; [Auth] is auth/auth.go, with JWT,
      bcrypt and SHA-256 a class ([Crypto]) with laws; [Authz] is authz/authz.go, the
      text of the scope condition being rendered and given its meaning by the
      precedence of AND and OR; [AuditTrail] is audit/audit.go.
    - [Matrix] is payroll/matrix.go and [Payroll] payroll/payroll.go; their theorems
      are in [Matrix], [PayrollProps] (guards, states, scoping), [PayrollLoop] (what
      the processing loop writes) and [PayrollScenarios] (closed executions).
    - [Workflow] is workflow/workflow.go with the view of src/create_view.sql: the six
      tables of requests meet the interface [Approvable], against which
      [WorkflowProps] proves who decides and that decisions are final.
    - [Leave] is leave/leave.go, policy.go and encashment.go; [LeaveProps] its theorems.
    - [Attendance] is attendance/requests.go and the punches of attendance.go,
      [AttendanceAdmin] its validation queue, exceptions.go and config.go;
      [AttendanceProps] their theorems. [AttendanceReports] is the logs, the page of
      the day, the dashboard, the activities and the month of attendance.go.
    - [Helpdesk] is helpdesk/helpdesk.go, [HelpdeskProps] its theorems.
    - [User] is user/user.go, with the transactions of [Tx]; [Employee] is
      employee/employee.go, the client of the scope condition of [Authz]; [UserProps]
      and [EmployeeProps] their theorems.
    - [Importer] is importer/importer.go; its theorems are in [ImporterProps], and
      [ImportScenarios] imports files from beginning to end.
    - [Jobs] is jobs/jobs.go, a program over the state behind the mutex instead of the
      database; [JobsProps] has its abstract specification ([JobsProps.Spec]), the
      simulation and what follows from it.
    - [Security] is security/security.go, [Lifecycle] lifecycle.go and exits.go,
      [Document] document.go, [Onboarding] onboarding.go, [Organization]
      organization.go, [Performance] performance.go, [Recruitment] recruitment.go and
      [Configuration] configuration.go, each with its theorems: the probation
      dashboard, the lists that the migrated schema leaves empty or replaced by
      samples, and the requests that are acknowledged and kept nowhere.

    - [Reports] is reports/reports.go. [Api] is the routing of cmd/api/main.go and of
      every RegisterRoutes, as a table of routes with their handlers and the middleware
      [Auth.RequireAuth] in front of them; [ApiProps] composes it with the login, for
      every choice of a route by the router (class [Api.Mux]).
    - [References] is the foreign keys of the migrations as an invariant of the database;
      [History] is a relation between databases, of what the server only ever adds to
      and of the keys that stay unique, with the rules for statements and transactions;
      [HistoryStmts] shows both of every statement that writes, [HistoryRoutes] of every
      route, and from there of any interleaving of any requests.

    - [Seeds] has the statements of the five programs of src/backend/scripts, which are
      [SeedDemo] (seed.go), [SeedTestEmployees] (seed_50_test_employees.go), [SeedPayroll]
      (seed_payroll_test_data.go), [SeedRbac] (seed_rbac_audit.go) and [SeedEnterprise]
      (seed_50_employees.go). [SeedsProps] proves what all of them keep, [SeedPayrollProps]
      and [SeedUsersProps] what they leave behind, [SeedScenarios] runs them on concrete
      databases.

    Handlers, types and fields keep the names of the source; SQL statements are
    definitions of their own, named after what they do. A row type has the columns the
    backend reads or writes under a prefix of its table.

    ** What the theorems show

    - Authentication and authorization: logins need credentials, tokens round-trip,
      the scope of a set of roles is its broadest, scoped lists stay in scope, and
      the account takeover that the forgotten-password response allows.
    - Payroll: the amounts of a breakdown are never negative, the net pay included, for
      every float64; the loop pays everyone the computed amounts and deducts exactly one
      advance due of each employee that has any,
      locked and published runs are left alone by one request at a time and not by
      two, a save leaves one active structure unless it is refused or concurrent.
    - Workflow: decisions are final under every interleaving and need another,
      entitled person; a bulk action stores its word literally.
    - Leave, attendance, helpdesk: the functional behaviour of the operations, the
      statuses they overwrite, the statements that the migrated schema refuses.
    - Accounts and employees: an account, an employee and an imported file are stored
      whole or not at all; no interleaving leaves an account without a role; lists and
      profiles stay within the rights of the caller, apart from the DEPARTMENT scope;
      an update changes the fields given and nothing else.
    - Files: the reader of CSV is its reference automaton and reads back what the writer
      writes, up to the empty lines and the CRs that it loses, so that an export has the
      fields of the database but for the CR of a CRLF; an upload never panics, whatever its
      bytes, and keeps what is UTF-8.
    - Imports: processing a batch ends with every valid row settled, or panics at a
      missing key; a failed row leaves its account behind.
    - Jobs: under every interleaving the service refines its specification, so that
      executions of one key are five minutes apart; a fair schedule answers every
      trigger and leaves no key active.
    - The database as a whole: no interleaving of any requests loses or rewrites the audit
      trail, a record of pay, attendance, leave or staff, makes a key ambiguous or leaves
      a reference to a row that is not there; the dashboard counts people after any of
      them.
    - Dates: the calendar of the Go library is that of the model, months carrying into
      years and days into months; the difference of two instants is exact or the nearest
      duration.
    - Numbers: in every base an integer is written within its buffer and read back; the
      parsing of query parameters is that of the Go library.
    - Texts: every method of [Index] finds the first occurrence; [Split] cuts at the
      occurrences, [Join] undoes it, [ReplaceAll] is the two together, and the split at one
      byte is that by which the handlers are modelled; [Repeat] is the repeated text; [TrimSpace], on any
      bytes, is the trimming of the handlers.
    - Seed programs: none of them, whatever fails, breaks a reference or duplicates a key;
      the attendance month of the payroll seed is the planned one, and the readiness check
      counts it as meant; the demo accounts have the published passwords after every
      run, with which those that are not suspended log in; which second runs fail or do nothing.
    - The server: without a token a request stops at 401 before any handler, apart from
      seven public routes; a login opens a session of 24 hours with the roles it
      shows; nineteen routes treat every account alike.
    - Security: masks show four bytes and keep the length; the published matrix
      against the scopes that are enforced; the log of accesses.
    Theorems that describe a defect of the program are listed with it in the findings
    of the manifest.

    ** Assumptions and bounds

    - Each statement is atomic and fails without effect. A statement that the
      environment fails, or that does not prepare, is reported by [Query] itself; an
      offset refused at execution shows as an empty result ([Common.paginate]). Reading a
      result set does not break off in the middle, except that a [Scan] that fails closes
      it ([Prelude.scanned]), and encoding the JSON of a response
      does not fail.
    - Rows come in the order of the table's list where the query gives none; the
      theorems hold for every list.
    - The clock and the session time zone are UTC; times are microseconds, except in
      the durations of Go, which are 64-bit nanoseconds and wrap around. [int] values
      are integers with the wrap-around written where the code can reach it.
    - Dates are those of the proleptic Gregorian calendar, with its year 0 and without
      bounds; a DATE of PostgreSQL goes to the year 5874897, and its years before 1 have
      other numbers. The dates of the portal are far from both.
    - Request bodies are decoded values; [None] is a decoding error.
    - The fresh identifier of an INSERT is that of its step; an insertion that meets its
      own identifier fails on the primary key. In [Jobs] each critical section reads the
      clock once, and times are nanoseconds.
    - [Importer.ToLower] and [Security.ToUpper] are exact where their result is an ASCII
      word, which is all that the code compares it with.
    - The float64 of a NUMERIC quotient is the class [AttendanceReports.NumericRatio].
    - What the driver does with a DATE scanned into a [*string] is the class
      [Employee.Driver]: a text or an error.
    - Fuel: [Csv.csv.ReadAll] takes at least a byte per step and has the length of its
      source, which [CsvProps.ReadAll_reference] proves to be enough; [Strconv.strconv.formatBits] writes at most 64 digits, which
      [StrconvProps.FormatInt_roundtrip] proves to be enough; the loops of [Strings] take at
      least a byte per round, the power of the rolling hash a bit of a length per round, which
      [StringsProps] proves to be enough; [Go.TrimSpace] recurses at most the length of its string, and
      [Leave.sandwich_loop] once per day between its dates, which
      [LeaveProps.sandwich_loop_spec] proves to be enough. The float counter of
      that loop is proved exact up to 3660 days, and the whole minutes of
      [AttendanceAdmin.int_minutes] below twelve hours, by evaluating every case.

    ** What is not modelled

    Of cmd/api: the environment variables, the middlewares of chi (request identifiers,
    log, recovery from panics, timeout, CORS), the start and shutdown of the server; the
    headers of responses other than the content type; the frontend. Multipart and JSON
    parsing are inputs ([Importer.Upload], [Api.Bodies]); of the Go library, what [Csv],
    [Utf8], [Marshal], [Gotime], [Strconv] and [Strings] do not hold is either stated where it is used
    (floats, the change of case) or left aside: zones, formatting, parsing and rounding of times
    among it, and searches of a text from the right or for sets of runes. Texts are shorter than the
    bounds in the theorems, which no memory reaches. Of the seed programs, the environment
    variable, the opening of the pool and the messages on the way. The foreign keys of tables
    without rows in [Schema] (notifications, sessions, goals and reviews) are not stated. The
    rest of src/local_go is the Go compiler, its tools and the packages that the backend does
    not call. *)

From stdpp Require Export base list strings numbers option relations pretty.
From Stdlib Require Export ZArith Lia Ascii Sorted.

#[global] Set Warnings "-clear-no-such-hyp,-notation-incompatible-prefix".
#[global] Set Default Goal Selector "!".
#[global] Open Scope Z_scope.

(** ** Tactics of the development *)

(** Case analysis on the scrutinee of every [match] or [if] of the goal or of
    the hypotheses, with the equation kept. *)
Ltac break_match :=
  match goal with
  | |- context [ match ?x with _ => _ end ] =>
      lazymatch x with context [ match _ with _ => _ end ] => fail | _ => idtac end;
      destruct x eqn:?
  | H : context [ match ?x with _ => _ end ] |- _ =>
      lazymatch x with context [ match _ with _ => _ end ] => fail | _ => idtac end;
      destruct x eqn:?
  end.

(** Boolean connectives and comparisons turned into propositions. *)
Ltac bool_prop :=
  repeat match goal with
  | H : (_ && _)%bool = true |- _ => apply andb_true_iff in H; destruct H
  | H : (_ || _)%bool = false |- _ => apply orb_false_iff in H; destruct H
  | H : (_ || _)%bool = true |- _ => apply orb_true_iff in H
  | H : (_ && _)%bool = false |- _ => apply andb_false_iff in H
  | H : negb _ = true |- _ => apply negb_true_iff in H
  | H : negb _ = false |- _ => apply negb_false_iff in H
  | H : String.eqb _ _ = true |- _ => apply String.eqb_eq in H
  | H : String.eqb _ _ = false |- _ => apply String.eqb_neq in H
  | H : Z.eqb _ _ = true |- _ => apply Z.eqb_eq in H
  | H : Z.eqb _ _ = false |- _ => apply Z.eqb_neq in H
  | H : Z.leb _ _ = true |- _ => apply Z.leb_le in H
  | H : Z.leb _ _ = false |- _ => apply Z.leb_gt in H
  | H : Z.ltb _ _ = true |- _ => apply Z.ltb_lt in H
  | H : Z.ltb _ _ = false |- _ => apply Z.ltb_ge in H
  end.

(** ** Lemma and hint databases *)

Create HintDb portal.
Create Rewrite HintDb portal_rw.

(** ** Booleans and strings *)

(** Go's [==] on strings. *)
Infix "=?s" := String.eqb (at level 70, no associativity).

Lemma eqb_refl_s (s : string) : (s =?s s) = true.
Proof. apply String.eqb_refl. Qed.
#[export] Hint Rewrite eqb_refl_s : portal_rw.

(** Membership of a string in a literal list: SQL's [IN ('a', 'b')]. *)
Definition mem_s (s : string) (l : list string) : bool := existsb (String.eqb s) l.

Lemma mem_s_spec s l : mem_s s l = true <-> s ∈ l.
Proof.
  unfold mem_s. rewrite existsb_exists. split.
  - intros (x & Hin & ->%String.eqb_eq). by apply list_elem_of_In.
  - intros Hin. exists s. split; [by apply list_elem_of_In | apply String.eqb_refl].
Qed.

Lemma mem_s_false s l : mem_s s l = false <-> s ∉ l.
Proof. rewrite <- mem_s_spec. by destruct (mem_s s l). Qed.

(** ** Lists filtered, counted and updated by boolean predicates *)

Section Lists.
Context {A : Type}.
  Implicit Types (l : list A) (p : A -> bool) (f : A -> A).

(** The rows of [l] that satisfy [p], in order. *)
Definition where_ (p : A -> bool) (l : list A) : list A := List.filter p l.

(** Rows satisfying [p] are replaced by their image under [f]. *)
Definition set_where (p : A -> bool) (f : A -> A) (l : list A) : list A :=
  map (fun x => if p x then f x else x) l.

Definition count_where (p : A -> bool) (l : list A) : Z := Z.of_nat (length (where_ p l)).

Lemma elem_of_where p l x : x ∈ where_ p l <-> x ∈ l /\ p x = true.
Proof. unfold where_. by rewrite !list_elem_of_In, filter_In. Qed.

Lemma where_Forall p l : Forall (fun x => p x = true) (where_ p l).
Proof. apply Forall_forall. intros x Hx. by apply elem_of_where in Hx as [_ ?]. Qed.

Lemma where_app p l1 l2 : where_ p (l1 ++ l2) = where_ p l1 ++ where_ p l2.
Proof. apply List.filter_app. Qed.

Lemma where_none p l : Forall (fun x => p x = false) l -> where_ p l = [].
Proof. unfold where_. induction 1 as [|x l Hx Hl IH]; simpl; [done|]. by rewrite Hx. Qed.

Lemma where_ext p q l : (forall x, x ∈ l -> p x = q x) -> where_ p l = where_ q l.
Proof.
  intros H. apply filter_ext_in. intros x Hx. apply H. by apply list_elem_of_In.
Qed.

Lemma count_where_nonneg p l : 0 <= count_where p l.
Proof. unfold count_where. lia. Qed.

Lemma count_where_zero p l : count_where p l = 0 <-> Forall (fun x => p x = false) l.
Proof.
  unfold count_where. induction l as [|x l IH]; simpl.
  - split; [intros _; constructor | done].
  - destruct (p x) eqn:E; simpl.
  + split; [lia|]. inversion_clear 1. congruence.
  + rewrite IH. split; [by constructor|]. by inversion_clear 1.
Qed.

Lemma count_where_app p l1 l2 : count_where p (l1 ++ l2) = count_where p l1 + count_where p l2.
Proof. unfold count_where. rewrite where_app, length_app. lia. Qed.

Lemma count_where_le p q l :
  (forall x, p x = true -> q x = true) -> count_where p l <= count_where q l.
Proof.
  intros H. unfold count_where. induction l as [|x l IH]; simpl; [lia|].
  specialize (H x). destruct (p x), (q x); simpl; try lia.
Qed.

Lemma length_set_where p f l : length (set_where p f l) = length l.
Proof. apply length_map. Qed.

Lemma elem_of_set_where p f l y :
  y ∈ set_where p f l <-> exists x, x ∈ l /\ y = if p x then f x else x.
Proof.
  unfold set_where. rewrite list_elem_of_In, in_map_iff.
  split; intros (x & H1 & H2); exists x; rewrite ?list_elem_of_In in *; naive_solver.
Qed.

Lemma set_where_app p f l1 l2 : set_where p f (l1 ++ l2) = set_where p f l1 ++ set_where p f l2.
Proof. apply map_app. Qed.

Lemma set_where_none p f l : Forall (fun x => p x = false) l -> set_where p f l = l.
Proof. induction 1 as [|x l Hx Hl IH]; simpl; [done|]. by rewrite Hx, IH. Qed.

Lemma set_where_Forall (P : A -> Prop) p f l :
  Forall P l -> (forall x, P x -> p x = true -> P (f x)) -> Forall P (set_where p f l).
Proof.
  intros Hl Hf. unfold set_where. induction Hl as [|x l Hx Hl IH]; constructor; [|done].
  destruct (p x) eqn:E; auto.
Qed.

(** An update that leaves a projection of every row alone leaves the list of
    projections alone. *)
Lemma map_set_where {B} (g : A -> B) p f l :
  (forall x, p x = true -> g (f x) = g x) -> map g (set_where p f l) = map g l.
Proof.
  intros H. unfold set_where. rewrite map_map. apply map_ext. intros x.
  destruct (p x) eqn:E; auto.
Qed.

Lemma Forall2_set_where (R : A -> A -> Prop) p f l :
  (forall x, x ∈ l -> R x (if p x then f x else x)) -> Forall2 R l (set_where p f l).
Proof.
  unfold set_where. induction l as [|x l IH]; intros H; simpl; constructor.
  - apply H. by left.
  - apply IH. intros y Hy. apply H. by right.
Qed.

Lemma where_set_where_other p f q l :
  (forall x, p x = true -> q x = false /\ q (f x) = false) ->
  where_ q (set_where p f l) = where_ q l.
Proof.
  intros H. unfold set_where. induction l as [|x l IH]; simpl; [done|].
  destruct (p x) eqn:E.
  - destruct (H x E) as [-> ->]. done.
  - by rewrite IH.
Qed.

Lemma find_some_elem p l x : List.find p l = Some x -> x ∈ l /\ p x = true.
Proof. intros H%find_some. by rewrite list_elem_of_In. Qed.

Lemma find_none_Forall p l : List.find p l = None <-> Forall (fun x => p x = false) l.
Proof.
  induction l as [|x l IH]; simpl; [by split|].
  destruct (p x) eqn:E.
  - split; [done|]. inversion_clear 1. congruence.
  - rewrite IH. split; [by constructor|]. by inversion_clear 1.
Qed.

Lemma find_set_where_other p f q l :
  (forall x, x ∈ l -> p x = true -> q x = false /\ q (f x) = false) ->
  List.find q (set_where p f l) = List.find q l.
Proof.
  unfold set_where. induction l as [|x l IH]; intros H; simpl; [done|].
  rewrite IH by (intros y Hy; apply H; by right).
  destruct (p x) eqn:E; [|done]. by destruct (H x (list_elem_of_here _ _) E) as [-> ->].
Qed.

(** What [find] returns is the first element satisfying the predicate. *)
Lemma find_first p l x : List.find p l = Some x ->
  exists pre post, l = pre ++ x :: post /\ p x = true /\ Forall (fun y => p y = false) pre.
Proof.
  induction l as [|y l IH]; simpl; [done|]. destruct (p y) eqn:E.
  - intros [= ->]. exists [], l. split_and!; [done|done|constructor].
  - intros (pre & post & -> & Hx & Hpre)%IH. exists (y :: pre), post.
  split_and!; [done|done|by constructor].
Qed.

(** On a list without duplicated keys the first row with a key is the only one. *)
Lemma find_key_unique {K} (key : A -> K) p l x :
  NoDup (map key l) -> x ∈ l -> p x = true ->
  (forall y, y ∈ l -> p y = true -> key y = key x) -> List.find p l = Some x.
Proof.
  intros Hnd Hin Hp Hk. induction l as [|y l IH]; simpl; [by apply not_elem_of_nil in Hin|].
  simpl in Hnd. apply NoDup_cons in Hnd as [Hy Hnd].
  apply elem_of_cons in Hin as [->|Hin]; [by rewrite Hp|].
  destruct (p y) eqn:E.
  - exfalso. apply Hy. rewrite (Hk y) by (by left || done).
  apply list_elem_of_In, in_map, list_elem_of_In, Hin.
  - apply IH; auto. intros z Hz. apply Hk. by right.
Qed.
End Lists.

#[export] Hint Rewrite @length_set_where : portal_rw.
#[export] Hint Resolve count_where_nonneg where_Forall : portal.

Lemma NoDup_map_elem_inj {A K} (key : A -> K) (l : list A) x y :
  NoDup (map key l) -> x ∈ l -> y ∈ l -> key x = key y -> x = y.
Proof.
  intros Hnd Hx Hy Hk. induction l as [|z l IH]; [by apply not_elem_of_nil in Hx|].
  simpl in Hnd. apply NoDup_cons in Hnd as [Hz Hnd].
  assert (Hmem : forall w, w ∈ l -> key w ∈ map key l).
  { intros w Hw. apply list_elem_of_In, in_map, list_elem_of_In, Hw. }
  apply elem_of_cons in Hx as [->|Hx]; apply elem_of_cons in Hy as [->|Hy]; auto.
  - exfalso. apply Hz. rewrite Hk. auto.
  - exfalso. apply Hz. rewrite <- Hk. auto.
Qed.

Lemma NoDup_map_snoc {A K} (key : A -> K) (l : list A) x :
  NoDup (map key l) -> key x ∉ map key l -> NoDup (map key (l ++ [x])).
Proof.
  intros Hnd Hx. rewrite map_app. apply NoDup_app. split_and!; [done| |].
  - intros y Hy Hy'. apply list_elem_of_singleton in Hy'. subst. done.
  - apply NoDup_singleton.
Qed.

Lemma existsb_false {A} (f : A -> bool) l :
  existsb f l = false -> Forall (fun x => f x = false) l.
Proof. induction l; simpl; intros H; constructor; bool_prop; auto. Qed.

(** [col::text = $k]: NULL compares to nothing. *)
Definition opt_is (o : option string) (s : string) : bool :=
  match o with Some x => x =?s s | None => false end.

Lemma opt_is_spec o s : opt_is o s = true <-> o = Some s.
Proof. destruct o; simpl; [rewrite String.eqb_eq|]; naive_solver. Qed.

Lemma opt_is_refl s : opt_is (Some s) s = true.
Proof. by apply opt_is_spec. Qed.

(** [ORDER BY]: stable insertion sort for a boolean "comes no later than". *)
Fixpoint insert_by {A} (le : A -> A -> bool) (x : A) (l : list A) : list A :=
  match l with
  | [] => [x]
  | y :: l' => if le x y then x :: y :: l' else y :: insert_by le x l'
  end.

Fixpoint order_by {A} (le : A -> A -> bool) (l : list A) : list A :=
  match l with [] => [] | x :: l' => insert_by le x (order_by le l') end.

Lemma insert_by_perm {A} (le : A -> A -> bool) x l : insert_by le x l ≡ₚ x :: l.
Proof.
  induction l as [|y l IH]; simpl; [done|]. destruct (le x y); [done|].
  rewrite IH. apply perm_swap.
Qed.

Lemma order_by_perm {A} (le : A -> A -> bool) l : order_by le l ≡ₚ l.
Proof. induction l as [|x l IH]; simpl; [done|]. by rewrite insert_by_perm, IH. Qed.

Lemma elem_of_order_by {A} (le : A -> A -> bool) l x : x ∈ order_by le l <-> x ∈ l.
Proof. by rewrite order_by_perm. Qed.

(** Descending and lexicographic orders. *)
Definition desc {A} (key : A -> Z) (x y : A) : bool := key y <=? key x.
Definition asc {A} (key : A -> Z) (x y : A) : bool := key x <=? key y.
Definition then_by {A} (le1 le2 : A -> A -> bool) (x y : A) : bool :=
  le1 x y && (negb (le1 y x) || le2 x y).

Lemma insert_by_sorted {A} (key : A -> Z) x (l : list A) :
  StronglySorted (fun x y => key x <= key y) l ->
  StronglySorted (fun x y => key x <= key y) (insert_by (asc key) x l).
Proof.
  induction 1 as [|y l Hs IH Hf]; simpl; [by repeat constructor|]. unfold asc at 1.
  destruct (Z.leb_spec (key x) (key y)).
  - constructor; [by constructor|]. constructor; [done|]. eapply Forall_impl; [exact Hf|]. simpl. lia.
  - constructor; [done|]. rewrite insert_by_perm. constructor; [lia|done].
Qed.

Lemma order_by_sorted {A} (key : A -> Z) (l : list A) :
  StronglySorted (fun x y => key x <= key y) (order_by (asc key) l).
Proof. induction l; simpl; [constructor|by apply insert_by_sorted]. Qed.

Lemma insert_by_desc_head {A} (key : A -> Z) x (l : list A) :
  exists y l', insert_by (desc key) x l = y :: l' /\ key x <= key y /\ (forall z k, l = z :: k -> key z <= key y).
Proof.
  destruct l as [|z l]; simpl; [exists x, []; by split_and!|]. unfold desc at 1.
  destruct (Z.leb_spec (key z) (key x)); eexists _, _; split_and!; try done; try lia; intros ? ? [= <- <-]; lia.
Qed.

(** The first row of a descending order is the greatest. *)
Lemma order_by_desc_head {A} (key : A -> Z) (l : list A) y l' z :
  order_by (desc key) l = y :: l' -> z ∈ l -> key z <= key y.
Proof.
  revert y l'. induction l as [|x l IH]; intros y l' Ho Hz; [by apply not_elem_of_nil in Hz|]. simpl in Ho.
  destruct (insert_by_desc_head key x (order_by (desc key) l)) as (y0 & k & E & Hx & Hh).
  rewrite E in Ho. injection Ho as <- <-. apply elem_of_cons in Hz as [->|Hz]; [done|].
  destruct (order_by (desc key) l) as [|w ws] eqn:El.
  - apply (elem_of_order_by (desc key)) in Hz. rewrite El in Hz. by apply not_elem_of_nil in Hz.
  - specialize (IH w ws eq_refl Hz). specialize (Hh w ws eq_refl). lia.
Qed.

(** [for rows.Next() { if rows.Scan(...) == nil { append } }]: a [Scan] that fails
    closes the rows, so that [Next] ends the loop; the rows before it are kept. *)
Fixpoint scanned {A B} (f : A -> option B) (l : list A) : list B :=
  match l with
  | [] => []
  | x :: l' => match f x with Some y => y :: scanned f l' | None => [] end
  end.

Lemma scanned_all {A B} (f : A -> option B) (g : A -> B) l :
  (forall x, x ∈ l -> f x = Some (g x)) -> scanned f l = map g l.
Proof.
  induction l as [|x l IH]; intros Hf; simpl; [done|].
  rewrite (Hf x) by apply list_elem_of_here. f_equal. apply IH. intros y Hy.
  by apply Hf, list_elem_of_further.
Qed.

Lemma elem_of_scanned {A B} (f : A -> option B) l y : y ∈ scanned f l -> exists x, x ∈ l /\ f x = Some y.
Proof.
  induction l as [|x l IH]; simpl; [by intros ?%not_elem_of_nil|].
  destruct (f x) as [z|] eqn:Ef; [|by intros ?%not_elem_of_nil]. intros [->|Hy]%elem_of_cons.
  - exists x. split; [apply list_elem_of_here|done].
  - destruct (IH Hy) as (x' & Hx & Hf). exists x'. split; [by apply list_elem_of_further|done].
Qed.

Lemma forallb_elem {A} (p : A -> bool) l x : forallb p l = true -> x ∈ l -> p x = true.
Proof. rewrite forallb_forall. intros Hl Hx. by apply Hl, list_elem_of_In. Qed.

Definition sum_Z (l : list Z) : Z := foldr Z.add 0 l.

Lemma sum_Z_nonneg l : Forall (fun x => 0 <= x) l -> 0 <= sum_Z l.
Proof. induction 1; simpl; lia. Qed.

(** The largest element of a list of integers, at least [b]. *)
Lemma foldr_max_le (b m : Z) (l : list Z) :
  foldr Z.max b l <= m <-> b <= m /\ Forall (fun x => x <= m) l.
Proof.
  induction l as [|x l IH]; simpl.
  - split; [by split|]. by intros [? _].
  - rewrite Z.max_lub_iff, IH, Forall_cons. tauto.
Qed.

Lemma foldr_max_unique (b m : Z) (l : list Z) :
  b <= m -> Forall (fun x => x <= m) l -> (m = b \/ m ∈ l) -> foldr Z.max b l = m.
Proof.
  intros Hb Hl Hm. apply Z.le_antisymm; [by apply foldr_max_le|].
  assert (Hle : foldr Z.max b l <= foldr Z.max b l) by lia.
  apply foldr_max_le in Hle as [Hb' Hl'].
  destruct Hm as [->|Hm]; [done|]. by eapply Forall_forall in Hl'.
Qed.
