(* ===== verification/Float64.v ===== *)
(** * Go's float64

    IEEE 754 binary64 arithmetic, computed by the Standard Library's [SpecFloat]
    operations at precision 53 and maximal exponent 1024 with rounding to
    nearest even, which is what the Go compiler emits for [+], [-], [*], [/] and
    the comparisons on [float64]. A decimal literal is the quotient of two exactly
    represented integers, hence the correctly rounded value of the literal.
    The lemmas follow the sign of results through the operations. *)

From S2P Require Import Prelude.
From Stdlib Require Import SpecFloat.

Abbreviation f64 := spec_float.

Definition fadd : f64 -> f64 -> f64 := SFadd 53 1024.
Definition fsub : f64 -> f64 -> f64 := SFsub 53 1024.
Definition fmul : f64 -> f64 -> f64 := SFmul 53 1024.
Definition fdiv : f64 -> f64 -> f64 := SFdiv 53 1024.

(** [x < y], [x <= y], [x > y]: false as soon as one side is NaN. *)
Definition fltb (x y : f64) : bool := SFltb x y.
Definition fleb (x y : f64) : bool := SFleb x y.
Definition fgtb (x y : f64) : bool := SFltb y x.
Definition feqb (x y : f64) : bool := SFeqb x y.

Declare Scope f64_scope.
Delimit Scope f64_scope with f64.
Bind Scope f64_scope with spec_float.
Infix "+" := fadd : f64_scope.
Infix "-" := fsub : f64_scope.
Infix "*" := fmul : f64_scope.
Infix "/" := fdiv : f64_scope.
Infix "<?" := fltb : f64_scope.
Infix "<=?" := fleb : f64_scope.
Infix ">?" := fgtb (at level 70, no associativity) : f64_scope.

(** Conversion [float64(n)] of an integer. *)
Definition of_Z (n : Z) : f64 := binary_normalize 53 1024 n 0 false.

(** The literal [a/b], e.g. [lit 12 100] for [0.12]. *)
Definition lit (a b : Z) : f64 := fdiv (of_Z a) (of_Z b).

Definition f0 : f64 := S754_zero false.

(** Decidable equality of representations. *)
#[export] Instance f64_eq_dec : EqDecision f64.
Proof. solve_decision. Defined.

Example lit_012 : lit 12 100 = S754_finite false 8646911284551352 (-56).
Proof. reflexivity. Qed.

(** ** Signs

    [nonneg x]: [x] is not strictly negative ([x < 0] is false); NaN and both
    zeros qualify. *)
Definition nonneg (x : f64) : Prop := fltb x f0 = false.

#[export] Instance nonneg_dec x : Decision (nonneg x) := decide (fltb x f0 = false).

Definition sign_ok (x : f64) : Prop :=
  match x with
  | S754_infinity s | S754_finite s _ _ => s = false
  | S754_zero _ | S754_nan => True
  end.

Lemma nonneg_sign x : nonneg x <-> sign_ok x.
Proof. unfold nonneg, fltb, SFltb. by destruct x as [[]|[]| |[] m e]. Qed.

Lemma binary_round_aux_sign m e l : sign_ok (binary_round_aux 53 1024 false m e l).
Proof.
  unfold binary_round_aux.
  destruct (shr_fexp 53 1024 m e l) as [mrs' e'].
  destruct (shr_fexp 53 1024 _ e' loc_Exact) as [mrs'' e''].
  by repeat case_match.
Qed.

Lemma binary_round_sign m e : sign_ok (binary_round 53 1024 false m e).
Proof.
  unfold binary_round. destruct (shl_align _ _ _). apply binary_round_aux_sign.
Qed.

Lemma binary_normalize_sign m e s : 0 <= m -> sign_ok (binary_normalize 53 1024 m e s).
Proof. intros Hm. destruct m; simpl; [done|apply binary_round_sign|lia]. Qed.

Lemma nonneg_of_Z n : 0 <= n -> nonneg (of_Z n).
Proof. intros. by apply nonneg_sign, binary_normalize_sign. Qed.

Lemma nonneg_fadd x y : nonneg x -> nonneg y -> nonneg (x + y)%f64.
Proof.
  rewrite !nonneg_sign. unfold fadd, SFadd.
  destruct x as [sx|sx| |sx mx ex], y as [sy|sy| |sy my ey]; cbn -[binary_normalize shl_align]; intros; subst;
    try done; try (by destruct sx, sy).
  apply binary_normalize_sign. simpl. lia.
Qed.

Lemma nonneg_fmul x y : nonneg x -> nonneg y -> nonneg (x * y)%f64.
Proof.
  rewrite !nonneg_sign. unfold fmul, SFmul.
  destruct x as [sx|sx| |sx mx ex], y as [sy|sy| |sy my ey]; simpl; intros; subst;
    try done.
  apply binary_round_aux_sign.
Qed.

Lemma nonneg_fdiv x y : nonneg x -> nonneg y -> y <> S754_zero true -> nonneg (x / y)%f64.
Proof.
  rewrite !nonneg_sign. unfold fdiv, SFdiv.
  destruct x as [sx|sx| |sx mx ex], y as [[]|sy| |sy my ey]; simpl; intros; subst;
    try done.
  destruct (SFdiv_core_binary _ _ _ _ _ _) as [[mz ez] lz]. apply binary_round_aux_sign.
Qed.

(** [if x < 0 { x = 0 }] *)
Definition clamp0 (x : f64) : f64 := if (x <? f0)%f64 then f0 else x.

Lemma nonneg_clamp0 x : nonneg (clamp0 x).
Proof. unfold clamp0. by destruct (fltb x f0) eqn:E. Qed.

Lemma nonneg_f0 : nonneg f0.
Proof. done. Qed.

#[export] Hint Resolve nonneg_of_Z nonneg_fadd nonneg_fmul nonneg_fdiv nonneg_clamp0
  nonneg_f0 : portal.

(** A finite, strictly positive value, as [0 < x] asks. *)
Lemma fgtb_nonneg x : fgtb x f0 = true -> nonneg x.
Proof. rewrite nonneg_sign. unfold fgtb, SFltb. by destruct x as [[]|[]| |[] m e]. Qed.

Lemma fleb_zero_false x : fleb x f0 = false -> nonneg x.
Proof. rewrite nonneg_sign. unfold fleb, SFleb. by destruct x as [[]|[]| |[] m e]. Qed.

(** ** Exact values, for formatting and for fixed-point columns

    A finite float is [m * 2^e]; [scaled d x] is [x * 10^d] rounded to the
    nearest integer, ties to even, which is what [strconv.FormatFloat(x, 'f', d)]
    prints; [None] for NaN and infinities. *)
Definition round_div_even (n d : Z) : Z :=
  let q := n / d in
  let r := n mod d in
  if 2 * r <? d then q
  else if d <? 2 * r then q + 1
  else if Z.even q then q else q + 1.

Definition scaled_mag (d : Z) (m : positive) (e : Z) : Z :=
  if 0 <=? e then Zpos m * 2 ^ e * 10 ^ d
  else round_div_even (Zpos m * 10 ^ d) (2 ^ (- e)).

Definition scaled (d : Z) (x : f64) : option Z :=
  match x with
  | S754_zero _ => Some 0
  | S754_finite s m e => Some (if s then - scaled_mag d m e else scaled_mag d m e)
  | S754_infinity _ | S754_nan => None
  end.

Example scaled_ex : scaled 2 (lit 83800 1) = Some 8380000.
Proof. reflexivity. Qed.
