(* ===== verification/FloatBounds.v ===== *)
(** * Rounding errors of float64 operations

    The value of a finite number that is not negative is a number of units of 2^-1074,
    the least positive float64. The lemmas give the standard error model of the operations:
    a sum of such numbers is exact up to a factor 1 +- 2^-52, a product with a literal below
    one up to the same factor and one unit; neither overflows unless its value does. *)

From S2P Require Import Prelude Float64.
From Stdlib Require Import SpecFloat.

#[local] Open Scope Z_scope.

(** ** Digits and shifts *)

Lemma digits2_bounds m : 2 ^ (Zpos (digits2_pos m) - 1) <= Zpos m < 2 ^ Zpos (digits2_pos m).
Proof.
  induction m as [m IH|m IH|]; [..|by simpl]; cbn [digits2_pos]; rewrite Pos2Z.inj_succ.
  all: set (n := Zpos (digits2_pos m)) in *.
  all: assert (Hn : 0 < n) by done.
  all: replace (Z.succ n - 1) with (Z.succ (n - 1)) by lia; rewrite !Z.pow_succ_r by lia; lia.
Qed.

Lemma shr_1_half mrs : 0 <= shr_m mrs -> shr_m (shr_1 mrs) = shr_m mrs / 2.
Proof.
  destruct mrs as [[|[p|p|]|p] r s]; simpl; intros Hm; try done; try lia.
  - rewrite Pos2Z.inj_xI. apply (Z.div_unique_pos _ _ _ 1); lia.
  - rewrite Pos2Z.inj_xO, Z.mul_comm. symmetry. by apply Z.div_mul.
Qed.

Lemma iter_shr n : forall mrs, 0 <= shr_m mrs -> shr_m (iter_pos shr_1 n mrs) = shr_m mrs / 2 ^ Zpos n.
Proof.
  assert (Hpos : forall z p, 0 <= z -> 0 <= z / 2 ^ Zpos p) by (intros z p Hz; apply Z.div_pos; lia).
  induction n as [n IH|n IH|]; intros mrs Hm; cbn [iter_pos].
  - assert (H1 : 0 <= shr_m (shr_1 mrs)) by (rewrite shr_1_half by done; apply Z.div_pos; lia).
    rewrite IH by (rewrite IH by done; by apply Hpos). rewrite IH, shr_1_half by done.
    rewrite !Z.div_div by lia. f_equal. rewrite Pos2Z.inj_xI. replace (2 * Zpos n + 1) with (1 + Zpos n + Zpos n) by lia.
    rewrite !Z.pow_add_r by lia. ring.
  - rewrite IH by (rewrite IH by done; by apply Hpos). rewrite IH by done. rewrite Z.div_div by lia. f_equal.
    rewrite Pos2Z.inj_xO, <- Z.pow_add_r by lia. f_equal. lia.
  - by apply shr_1_half.
Qed.

(** The shift of [shr_fexp]. *)
Definition shift_of (m e : Z) : Z := Z.max 0 (fexp 53 1024 (Zdigits2 m + e) - e).

Lemma shr_fexp_exact m e : 0 <= m -> exists mrs,
  shr_fexp 53 1024 m e loc_Exact = (mrs, e + shift_of m e) /\ shr_m mrs = m / 2 ^ shift_of m e
  /\ (shift_of m e = 0 -> mrs = Build_shr_record m false false).
Proof.
  intros Hm. unfold shr_fexp, shift_of. set (k := fexp 53 1024 (Zdigits2 m + e) - e). destruct k as [|n|n] eqn:Ek; cbn [shr].
  - eexists. split_and!; [by rewrite Z.add_0_r|by rewrite Z.div_1_r|done].
  - eexists. split_and!; [done| |done]. by rewrite (iter_shr n (shr_record_of_loc m loc_Exact)).
  - eexists. split_and!; [by rewrite Z.add_0_r|by rewrite Z.div_1_r|done].
Qed.

(** ** Rounding *)

(** The number with mantissa [q] and exponent [e]; a mantissa rounded up to 2^53 is renormalised. *)
Definition pack (s : bool) (q e : Z) : f64 :=
  match (if (q =? 2 ^ 53)%Z then 2 ^ 52 else q)%Z, (if (q =? 2 ^ 53)%Z then e + 1 else e)%Z with
  | Zpos m, e => if (e <=? 971)%Z then S754_finite s m e else S754_infinity s
  | _, _ => S754_zero s
  end.

Lemma shift_small q e : 0 <= q < 2 ^ 53 -> -1074 <= e -> shift_of q e = 0.
Proof.
  intros Hq He. unfold shift_of, fexp, emin. destruct q as [|m|m]; [simpl; lia| |lia]. cbn [Zdigits2].
  assert (Zpos (digits2_pos m) <= 53); [|lia]. pose proof (digits2_bounds m) as [Hlo _].
  apply Z.nlt_ge. intros Hd. assert (2 ^ 53 <= 2 ^ (Zpos (digits2_pos m) - 1)) by (apply Z.pow_le_mono_r; lia). lia.
Qed.

Lemma aux_pack s m e : let k := shift_of (Zpos m) e in exists q,
  binary_round_aux 53 1024 s (Zpos m) e loc_Exact = pack s q (e + k)
  /\ 0 <= q <= 2 ^ 53 /\ (q = Zpos m / 2 ^ k \/ q = Zpos m / 2 ^ k + 1 /\ k <> 0).
Proof.
  intros k. unfold binary_round_aux. destruct (shr_fexp_exact (Zpos m) e) as (mrs & -> & Hm & Hex); [done|]. fold k in Hm, Hex |- *.
  set (q := round_nearest_even _ _). assert (Hk : 0 <= k) by (unfold k, shift_of; lia).
  assert (Hq : q = Zpos m / 2 ^ k \/ q = Zpos m / 2 ^ k + 1 /\ k <> 0).
  { destruct (decide (k = 0)) as [Hk0|Hk0].
    - left. unfold q. rewrite (Hex Hk0), Hk0. simpl. by rewrite Z.div_1_r.
    - rewrite <- Hm. unfold q, round_nearest_even. repeat case_match; auto. }
  assert (Hd : -1074 <= e + k) by (unfold k, shift_of, fexp, emin; lia).
  assert (Hlt : Zpos m / 2 ^ k < 2 ^ 53).
  { apply Z.div_lt_upper_bound; [lia|]. pose proof (digits2_bounds m) as [_ Hhi]. rewrite <- Z.pow_add_r by lia.
    eapply Z.lt_le_trans; [exact Hhi|]. apply Z.pow_le_mono_r; [lia|]. unfold k, shift_of, fexp. cbn [Zdigits2]. lia. }
  assert (H0 : 0 <= Zpos m / 2 ^ k) by (apply Z.div_pos; lia).
  exists q. split; [|lia]. clearbody q. clear Hex. unfold pack. destruct (Z.eqb_spec q (2 ^ 53)) as [->|Hne].
  - destruct (shr_fexp_exact (2 ^ 53) (e + k)) as (mrs' & -> & Hm' & _); [lia|].
    replace (shift_of (2 ^ 53) (e + k)) with 1 in * by (unfold shift_of, fexp, emin; simpl; lia).
    rewrite Hm'. simpl. done.
  - destruct (shr_fexp_exact q (e + k)) as (mrs' & -> & Hm' & _); [lia|].
    rewrite shift_small in * by lia. rewrite Z.add_0_r, Hm', Z.div_1_r. by destruct q; [| |lia].
Qed.

(** ** Values *)

(** The absolute value of a finite number, in units of 2^-1074. *)
Definition units (f : f64) : Z := match f with S754_finite _ m e => Zpos m * 2 ^ (e + 1074) | _ => 0 end.

(** Finite and not negative. *)
Definition fin (f : f64) : Prop :=
  match f with S754_zero _ => True | S754_finite s _ _ => s = false | _ => False end.

(** The representations of binary64. *)
Definition canonical (f : f64) : Prop :=
  match f with
  | S754_finite _ m e => -1074 <= e <= 971 /\ Zpos m < 2 ^ 53 /\ (2 ^ 52 <= Zpos m \/ e = -1074)
  | _ => True
  end.

Lemma valid_canonical f : valid_binary 53 1024 f = true -> canonical f.
Proof.
  destruct f as [| | |s m e]; try done. simpl. unfold bounded, canonical_mantissa, fexp, emin.
  intros [Hc He]%andb_true_iff. apply Z.eqb_eq in Hc. apply Z.leb_le in He. pose proof (digits2_bounds m) as [Hlo Hhi].
  split_and!; [lia|lia| |].
  - eapply Z.lt_le_trans; [exact Hhi|]. apply Z.pow_le_mono_r; lia.
  - destruct (decide (e = -1074)); [by right|]. left. eapply Z.le_trans; [|exact Hlo]. apply Z.pow_le_mono_r; lia.
Qed.

Lemma units_nonneg f : 0 <= units f.
Proof. destruct f; simpl; lia. Qed.

Lemma units_bound f : canonical f -> units f < 2 ^ 2098.
Proof.
  destruct f as [| | |s m e]; try done. intros (He & Hm & _). cbn [units].
  assert (2 ^ (e + 1074) <= 2 ^ 2045) by (apply Z.pow_le_mono_r; lia).
  replace (2 ^ 2098) with (2 ^ 53 * 2 ^ 2045) by (by vm_compute). nia.
Qed.

(** A product or sum that is [x] units times 2^[j] before rounding: it is rounded with a relative error
    of at most 2^-52 and, when bits below the unit are lost, an error of at most one unit. *)
Definition close (j x : Z) (f : f64) : Prop :=
  match f with
  | S754_nan => False
  | S754_infinity s => s = false /\ 2 ^ 2097 * 2 ^ j <= x
  | _ => fin f /\ let r := units f * 2 ^ j in let lost := if decide (j = 0) then 0 else 2 ^ 52 * 2 ^ j in
         2 ^ 52 * r <= 2 ^ 52 * x + x + lost /\ 2 ^ 52 * x <= 2 ^ 52 * r + x + lost
  end.

Lemma pack_cases q e : 0 <= q <= 2 ^ 53 -> -1074 <= e ->
  pack false q e = S754_infinity false /\ (971 < e \/ 971 <= e /\ q = 2 ^ 53)
  \/ fin (pack false q e) /\ units (pack false q e) = q * 2 ^ (e + 1074).
Proof.
  intros Hq He. unfold pack. destruct (Z.eqb_spec q (2 ^ 53)) as [->|Hne].
  - change (2 ^ 52) with (Zpos (2 ^ 52)). cbv iota. destruct (Z.leb_spec (e + 1) 971) as [Hle|Hgt]; [right|left; split; [done|lia]].
    split; [done|]. cbn [units]. replace (e + 1 + 1074) with (1 + (e + 1074)) by lia. rewrite Z.pow_add_r by lia.
    change (Z.pos (2 ^ 52)) with (2 ^ 52). change (2 ^ 53) with (2 ^ 52 * 2 ^ 1). ring.
  - destruct q as [|m|m]; [by right| |lia]. by destruct (Z.leb_spec e 971); [right|left; split; [done|lia]].
Qed.

Lemma pack_canonical s q e : 0 <= q <= 2 ^ 53 -> -1074 <= e -> 2 ^ 52 <= q \/ e = -1074 -> canonical (pack s q e).
Proof.
  intros Hq He Hc. unfold pack. destruct (Z.eqb_spec q (2 ^ 53)) as [->|Hne].
  - change (2 ^ 52) with (Zpos (2 ^ 52)). cbv iota. destruct (Z.leb_spec (e + 1) 971); [|done].
    split_and!; [lia|lia|by vm_compute|]. left. by vm_compute.
  - destruct q as [|m|m]; [done| |lia]. destruct (Z.leb_spec e 971); [|done]. split_and!; [lia|lia|lia|done].
Qed.

Lemma error_scaled m q k e j (B := 2 ^ (e + j + 1074)) : 0 <= k -> 0 <= j -> -1074 <= e + j ->
  k = 0 /\ q = m \/ k <> 0 /\ q * 2 ^ k <= m + 2 ^ k /\ m <= q * 2 ^ k + 2 ^ k ->
  k = 0 \/ e + k = -1074 \/ 2 ^ 52 * 2 ^ k <= m -> 0 <= m ->
  let r := q * 2 ^ k * B in let x := m * B in let lost := if decide (j = 0) then 0 else 2 ^ 52 * 2 ^ j in
  2 ^ 52 * r <= 2 ^ 52 * x + x + lost /\ 2 ^ 52 * x <= 2 ^ 52 * r + x + lost.
Proof.
  intros Hk Hj He Herr Hlast Hm r x lost. assert (HB : 0 < B) by (apply Z.pow_pos_nonneg; lia).
  assert (Hl : 0 <= lost) by (unfold lost; case_decide; lia).
  destruct Herr as [[-> ->]|(Hk' & H1 & H2)]; [unfold r, x; rewrite Z.pow_0_r, Z.mul_1_r; nia|].
  assert (H3 : r <= x + 2 ^ k * B) by (unfold r, x; nia). assert (H4 : x <= r + 2 ^ k * B) by (unfold r, x; nia).
  enough (2 ^ 52 * (2 ^ k * B) <= x + lost) by lia. destruct Hlast as [?|[Hl'|Hl']]; [done| |unfold x; nia].
  assert (HAB : 2 ^ k * B = 2 ^ j) by (unfold B; rewrite <- Z.pow_add_r by lia; f_equal; lia).
  rewrite HAB. unfold lost. case_decide; [lia|]. assert (0 <= x) by (unfold x; nia). lia.
Qed.

Lemma aux_close m e j : 0 <= j -> -1074 <= e + j -> e <= 971 ->
  close j (Zpos m * 2 ^ (e + j + 1074)) (binary_round_aux 53 1024 false (Zpos m) e loc_Exact).
Proof.
  intros Hj He1 He2. destruct (aux_pack false m e) as (q & -> & Hq1 & Hq). set (k := shift_of (Zpos m) e) in *.
  assert (Hk : 0 <= k /\ -1074 <= e + k) by (unfold k, shift_of, fexp, emin; lia). destruct Hk as [Hk0 Hk].
  assert (Hp : 0 < 2 ^ k) by lia. pose proof (Z.div_mod (Zpos m) (2 ^ k) ltac:(lia)) as Hdm.
  pose proof (Z.mod_pos_bound (Zpos m) (2 ^ k) Hp) as Hmod.
  (* the error is below one unit in the last place *)
  assert (Herr : k = 0 /\ q = Zpos m \/ k <> 0 /\ q * 2 ^ k <= Zpos m + 2 ^ k /\ Zpos m <= q * 2 ^ k + 2 ^ k).
  { destruct (decide (k = 0)) as [Hz|Hz]; [left; split; [done|]|right; split; [done|]].
    - rewrite Hz, Z.div_1_r in Hq. destruct Hq as [?|[_ ?]]; [done|congruence].
    - destruct Hq as [->|[-> _]]; nia. }
  pose proof (digits2_bounds m) as [Hlo Hhi]. set (dg := Zpos (digits2_pos m)) in *.
  assert (Hlast : k = 0 \/ e + k = -1074 \/ 2 ^ 52 * 2 ^ k <= Zpos m).
  { unfold k, shift_of, fexp, emin. cbn [Zdigits2]. fold dg. destruct (decide (dg + e - 53 <= -1074)); [lia|].
    destruct (decide (dg <= 53)); [left; lia|]. right. right. rewrite <- Z.pow_add_r by lia.
    eapply Z.le_trans; [|exact Hlo]. apply Z.pow_le_mono_r; lia. }
  clearbody k dg. set (B := 2 ^ (e + j + 1074)). assert (HB : 0 < B) by (apply Z.pow_pos_nonneg; lia).
  assert (HAB : 2 ^ k * B = 2 ^ (e + k + 1074) * 2 ^ j) by (unfold B; rewrite <- !Z.pow_add_r by lia; f_equal; lia).
  destruct (pack_cases q (e + k)) as [[-> Hinf]|[Hfin Hu]]; [done|done| |].
  - split; [done|]. assert (Hm : 2 ^ 52 * 2 ^ k <= Zpos m).
    { destruct Hlast as [->|[Hl|Hl]]; [|lia|done]. destruct Herr as [[_ <-]|[Hz _]]; [|done]. simpl. lia. }
    assert (2 ^ 2045 <= 2 ^ (e + k + 1074)) by (apply Z.pow_le_mono_r; lia).
    assert (0 < 2 ^ j) by lia. replace (2 ^ 2097) with (2 ^ 52 * 2 ^ 2045) by (by vm_compute). nia.
  - assert (Hr : units (pack false q (e + k)) * 2 ^ j = q * 2 ^ k * B) by (rewrite Hu, <- (Z.mul_assoc q (2 ^ k)), HAB; ring).
    unfold close. destruct (pack false q (e + k)) as [s|s| |s m' e']; try done; (split; [done|]); rewrite Hr; cbv zeta;
      by apply error_scaled.
Qed.

Lemma aux_canonical s m e : e <= fexp 53 1024 (Zpos (digits2_pos m) + e) ->
  canonical (binary_round_aux 53 1024 s (Zpos m) e loc_Exact).
Proof.
  intros He. destruct (aux_pack s m e) as (q & -> & Hq1 & Hq). revert Hq He.
  unfold shift_of, fexp, emin. cbn [Zdigits2]. pose proof (digits2_bounds m) as [Hlo _].
  set (dg := Zpos (digits2_pos m)) in *. clearbody dg. replace (3 - 1024 - 53) with (-1074) by lia. intros Hq He.
  destruct (decide (dg + e - 53 <= -1074)); [apply pack_canonical; [done|lia|lia]|].
  replace (Z.max 0 (Z.max (dg + e - 53) (-1074) - e)) with (dg - 53) in * by lia.
  apply pack_canonical; [done|lia|]. left. enough (2 ^ 52 <= Zpos m / 2 ^ (dg - 53)) by lia.
  apply Z.div_le_lower_bound; [lia|]. rewrite Z.mul_comm, <- Z.pow_add_r by lia. by replace (52 + (dg - 53)) with (dg - 1) by lia.
Qed.

(** ** Sums *)

Lemma iter_xO m d : Zpos (Pos.iter xO m d) = Zpos m * 2 ^ Zpos d /\ Zpos (digits2_pos (Pos.iter xO m d)) = Zpos (digits2_pos m) + Zpos d.
Proof.
  induction d as [|d [IH1 IH2]] using Pos.peano_ind; [simpl; lia|].
  rewrite Pos.iter_succ, Pos2Z.inj_xO, IH1. cbn [digits2_pos].
  rewrite !Pos2Z.inj_succ, IH2, Z.pow_succ_r by lia. lia.
Qed.

Lemma align_exact m e t m' e' : shl_align m e t = (m', e') ->
  e' = Z.min e t /\ Zpos m' = Zpos m * 2 ^ (e - e') /\ Zpos (digits2_pos m') + e' = Zpos (digits2_pos m) + e.
Proof.
  unfold shl_align. destruct (t - e) as [|d|d] eqn:Ed; intros [= <- <-].
  - split_and!; [lia| |lia]. by rewrite Z.sub_diag, Z.mul_1_r.
  - split_and!; [lia| |lia]. by rewrite Z.sub_diag, Z.mul_1_r.
  - destruct (iter_xO m d) as [-> ->]. split_and!; [lia| |lia]. do 2 f_equal. lia.
Qed.

Lemma round_canonical s m e : canonical (binary_round 53 1024 s m e).
Proof.
  unfold binary_round. destruct (shl_align _ _ _) as [m' e'] eqn:Ea. apply align_exact in Ea as (He & _ & Hd).
  apply aux_canonical. rewrite Hd. lia.
Qed.

Lemma round_close m e : -1074 <= e <= 971 -> close 0 (Zpos m * 2 ^ (e + 1074)) (binary_round 53 1024 false m e).
Proof.
  intros He. unfold binary_round. destruct (shl_align _ _ _) as [m' e'] eqn:Ea. apply align_exact in Ea as (He' & Hm & _).
  assert (-1074 <= e') by (revert He'; unfold fexp, emin; lia).
  replace (Zpos m * 2 ^ (e + 1074)) with (Zpos m' * 2 ^ (e' + 0 + 1074)); [apply aux_close; lia|].
  rewrite Hm, <- Z.mul_assoc, <- Z.pow_add_r by lia. do 2 f_equal. lia.
Qed.

Lemma close_self f : fin f -> close 0 (units f) f.
Proof.
  intros Hf. pose proof (units_nonneg f). destruct f as [s|s| |s m e]; try done; (split; [done|]); cbv zeta; rewrite decide_True by done; lia.
Qed.

Lemma aligned_sum mx ex my ey : -1074 <= ex -> -1074 <= ey -> let ez := Z.min ex ey in
  (Zpos (fst (shl_align mx ex ez)) + Zpos (fst (shl_align my ey ez))) * 2 ^ (ez + 1074)
  = Zpos mx * 2 ^ (ex + 1074) + Zpos my * 2 ^ (ey + 1074).
Proof.
  intros Hx Hy ez. destruct (shl_align mx ex ez) as [m1 e1] eqn:E1, (shl_align my ey ez) as [m2 e2] eqn:E2.
  apply align_exact in E1 as (He1 & H1 & _). apply align_exact in E2 as (He2 & H2 & _). cbn [fst].
  assert (Hez : ez = Z.min ex ey) by done. clearbody ez.
  rewrite Z.mul_add_distr_r, H1, H2, <- !Z.mul_assoc, <- !Z.pow_add_r by lia.
  replace (ex - e1 + (ez + 1074)) with (ex + 1074) by lia. by replace (ey - e2 + (ez + 1074)) with (ey + 1074) by lia.
Qed.

Lemma fadd_close x y : fin x -> fin y -> canonical x -> canonical y -> close 0 (units x + units y) (fadd x y).
Proof.
  intros Hx Hy Cx Cy. unfold fadd, SFadd. destruct x as [sx|sx| |sx mx ex], y as [sy|sy| |sy my ey]; try done.
  - destruct sx, sy; by apply (close_self (S754_zero _)).
  - by apply (close_self (S754_finite sy my ey)).
  - cbn [units]. rewrite Z.add_0_r. by apply (close_self (S754_finite sx mx ex)).
  - simpl in Hx, Hy. subst. destruct Cx as (Hx & _), Cy as (Hy & _). cbn [units cond_Zopp binary_normalize]. cbv zeta.
    rewrite <- aligned_sum by lia. cbn [Z.add]. apply round_close. lia.
Qed.

Lemma fadd_canonical x y : canonical x -> canonical y -> canonical (fadd x y).
Proof.
  intros Cx Cy. unfold fadd, SFadd. destruct x as [sx|[]| |sx mx ex], y as [sy|[]| |sy my ey]; try done; try by destruct sx, sy.
  cbv zeta. destruct (_ + _)%Z; [done|apply round_canonical..].
Qed.

(** ** Products with a literal *)

Lemma fmul_close x ml j : 0 <= j -> fin x -> canonical x -> close j (units x * Zpos ml) (fmul x (S754_finite false ml (- j))).
Proof.
  intros Hj Hx Cx. unfold fmul, SFmul. destruct x as [sx|sx| |sx mx ex]; try done.
  - split; [done|]. cbv zeta. cbn [units]. rewrite !Z.mul_0_l, Z.mul_0_r. case_decide; lia.
  - simpl in Hx. subst. destruct Cx as (Hx & _). cbn [units xorb].
    replace (Zpos mx * 2 ^ (ex + 1074) * Zpos ml) with (Zpos (mx * ml) * 2 ^ (ex + - j + j + 1074)); [apply aux_close; lia|].
    rewrite Pos2Z.inj_mul. replace (ex + - j + j + 1074) with (ex + 1074) by lia. ring.
Qed.

Lemma fmul_canonical x ml e : 2 ^ 52 <= Zpos ml -> canonical (fmul x (S754_finite false ml e)).
Proof.
  intros Hml. unfold fmul, SFmul. destruct x as [sx|sx| |sx mx ex]; try done. apply aux_canonical.
  enough (53 <= Zpos (digits2_pos (mx * ml))) by (unfold fexp, emin; lia).
  pose proof (digits2_bounds (mx * ml)) as [_ Hhi]. apply Z.nlt_ge. intros Hd.
  assert (2 ^ Zpos (digits2_pos (mx * ml)) <= 2 ^ 52) by (apply Z.pow_le_mono_r; lia). lia.
Qed.

(** ** Differences *)

Lemma fsub_nonneg x y : fin x -> fin y -> canonical x -> canonical y -> units y <= units x -> nonneg (fsub x y).
Proof.
  intros Hx Hy Cx Cy Hle. apply nonneg_sign. unfold fsub, SFsub.
  destruct x as [sx|sx| |sx mx ex], y as [sy|sy| |sy my ey]; try done.
  - by destruct sx, sy.
  - cbn [units] in Hle. exfalso. destruct Cy as (? & _). assert (0 < 2 ^ (ey + 1074)) by (apply Z.pow_pos_nonneg; lia). lia.
  - simpl in Hx, Hy. subst. destruct Cx as (Hx & _), Cy as (Hy & _). cbv zeta. apply binary_normalize_sign. cbn [cond_Zopp].
    pose proof (aligned_sum mx ex my ey ltac:(lia) ltac:(lia)) as Hsum. cbv zeta in Hsum.
    cbn [units] in Hle.
    set (a := Zpos (fst (shl_align mx ex _))) in *. set (b := Zpos (fst (shl_align my ey (Z.min ex ey)))) in *.
    assert (HP : 0 < 2 ^ (Z.min ex ey + 1074)) by (apply Z.pow_pos_nonneg; lia).
    assert (Hb : b * 2 ^ (Z.min ex ey + 1074) = Zpos my * 2 ^ (ey + 1074)).
    { unfold b. destruct (shl_align my ey (Z.min ex ey)) as [m2 e2] eqn:E2. apply align_exact in E2 as (He2 & H2 & _). cbn [fst].
      rewrite H2, <- Z.mul_assoc, <- Z.pow_add_r by lia. do 2 f_equal. lia. }
    nia.
Qed.

Lemma fsub_canonical x y : canonical x -> canonical y -> canonical (fsub x y).
Proof.
  intros Cx Cy. unfold fsub, SFsub. destruct x as [sx|[]| |sx mx ex], y as [sy|[]| |sy my ey]; try done; try by destruct sx, sy.
  cbv zeta. destruct (_ - _)%Z; [done|apply round_canonical..].
Qed.

Lemma clamp0_canonical x : canonical x -> canonical (clamp0 x).
Proof. unfold clamp0. by destruct (fltb x f0). Qed.

(** ** Cases *)

(** A number that is not negative is a NaN, the infinity or finite. *)
Lemma sign_cases f : nonneg f -> f = S754_nan \/ f = S754_infinity false \/ fin f.
Proof. rewrite nonneg_sign. destruct f as [s|s| |s m e]; simpl; intros H; subst; auto. Qed.

Lemma fadd_fin x y : fin (fadd x y) -> nonneg x -> nonneg y -> fin x /\ fin y.
Proof.
  intros Hf [->|[->|Hx]]%sign_cases [->|[->|Hy]]%sign_cases; try done;
    exfalso; try (by destruct x as [| | |]); by destruct y as [| | |].
Qed.

Lemma close_fin j x f : close j x f -> 0 <= j -> x < 2 ^ 2097 -> fin f.
Proof. intros Hf Hj Hx. destruct f as [s|s| |s m e]; simpl in Hf; [done| |done|tauto]. destruct Hf as [_ Hf]. nia. Qed.

Lemma close_spec j x f : close j x f -> fin f -> let lost := if decide (j = 0) then 0 else 2 ^ 52 * 2 ^ j in
  2 ^ 52 * (units f * 2 ^ j) <= 2 ^ 52 * x + x + lost /\ 2 ^ 52 * x <= 2 ^ 52 * (units f * 2 ^ j) + x + lost.
Proof. intros Hf Hfin. destruct f as [s|s| |s m e]; simpl in Hfin; try done; apply Hf. Qed.
