(* ===== verification/Go.v ===== *)
(** * Handlers as programs

    The shallow embedding of the HTTP handlers. A handler is a tree of the
    interactions it performs: a SQL statement sent to the pool, a reading of the
    clock, an early [return] after writing a response, a run-time panic. Two
    semantics are given to the tree: [run], one request alone against the
    database, and [step], any number of requests whose statements interleave.
    The logic of the file is relational: when every statement of a program
    respects a preorder on databases, so does the program, alone or interleaved. *)

From S2P Require Import Prelude Float64.
#[local] Set Warnings "-register-all".

(** ** JSON values and responses *)

(** What [json.NewEncoder(w).Encode] receives. *)
Inductive json : Type :=
  | JNull
  | JBool (b : bool)
  | JInt (n : Z)
  | JNum (x : f64)
  | JStr (s : string)
  | JTime (t : Z)
  | JArr (l : list json)
  | JObj (l : list (string * json)).

Inductive payload : Type :=
  | BJson (j : json)
  | BText (s : string)
  | BCsv (rows : list (list string)).

Record Response := {
  status : Z;
  ctype : string;
  content : payload
}.

Definition StatusOK := 200.
Definition StatusCreated := 201.
Definition StatusBadRequest := 400.
Definition StatusUnauthorized := 401.
Definition StatusForbidden := 403.
Definition StatusNotFound := 404.
Definition StatusConflict := 409.
Definition StatusInternalServerError := 500.

(** [w.Header().Set("Content-Type", "application/json"); w.WriteHeader(code); Encode(j)] *)
Definition json_response (code : Z) (j : json) : Response :=
  {| status := code; ctype := "application/json"; content := BJson j |}.

(** [http.Error(w, msg, code)] *)
Definition http_error (msg : string) (code : Z) : Response :=
  {| status := code; ctype := "text/plain; charset=utf-8"; content := BText (msg +:+ String "010"%char "") |}.

(** [{"success": false, "error": msg}], written inline by most handlers. *)
Definition fail_json (code : Z) (msg : string) : Response :=
  json_response code (JObj [("success", JBool false); ("error", JStr msg)]).

Definition created_json (fields : list (string * json)) : Response :=
  json_response StatusCreated (JObj (("success", JBool true) :: fields)).

Definition db_unavailable : Response :=
  fail_json StatusInternalServerError "database connection unavailable".

(** A string field tagged [omitempty]. *)
Definition opt_field (k s : string) : list (string * json) :=
  if String.eqb s "" then [] else [(k, JStr s)].

Definition ok_json (fields : list (string * json)) : Response :=
  json_response StatusOK (JObj (("success", JBool true) :: fields)).

(** A field of a response's JSON object. *)
Definition field (k : string) (r : Response) : option json :=
  match content r with
  | BJson (JObj l) => snd <$> List.find (fun kv => fst kv =?s k) l
  | _ => None
  end.

Definition succeeded (r : Response) : bool :=
  match field "success" r with Some (JBool b) => b | _ => false end.

(** ** Results of fallible calls: Go's [(value, error)] *)

Inductive result (A : Type) : Type :=
  | Ok (a : A)
  | Err (e : string).
Arguments Ok {A} a.
Arguments Err {A} e.

Definition result_map {A B} (f : A -> B) (r : result A) : result B :=
  match r with Ok a => Ok (f a) | Err e => Err e end.

(** The value left in a variable by an ignored [Scan] error. *)
Definition scan {A} (dflt : A) (r : result A) : A :=
  match r with Ok a => a | Err _ => dflt end.

Definition is_ok {A} (r : result A) : bool := match r with Ok _ => true | Err _ => false end.

(** ** Programs *)

(** What the server supplies to a statement: [NOW()] and fresh UUIDs. *)
Record StmtCtx := { sc_now : Z; sc_uuid : string }.

Section Programs.
(** The state of the database. *)
Context {D : Type}.

(** A statement is atomic: it fails and leaves the database alone, or it
    returns rows and the next state. *)
Definition stmt (B : Type) : Type := StmtCtx -> D -> result (B * D).

Inductive prog (A : Type) : Type :=
  | Ret (a : A)
  | Sql (B : Type) (s : stmt B) (k : result B -> prog A)
  | Clock (k : Z -> prog A)
  | Rand (k : string -> prog A)
  | Halt (r : Response)
  | Crash (msg : string).
Arguments Ret {A} a.
Arguments Sql {A B} s k.
Arguments Clock {A} k.
Arguments Rand {A} k.
Arguments Halt {A} r.
Arguments Crash {A} msg.

Fixpoint bind {A B} (p : prog A) (f : A -> prog B) : prog B :=
  match p with
  | Ret a => f a
  | Sql s k => Sql s (fun r => bind (k r) f)
  | Clock k => Clock (fun t => bind (k t) f)
  | Rand k => Rand (fun t => bind (k t) f)
  | Halt r => Halt r
  | Crash m => Crash m
  end.

#[export] Instance prog_ret : MRet prog := @Ret.
#[export] Instance prog_bind : MBind prog := fun A B f p => bind p f.

(** [if b { write r; return }] *)
Definition return_if (b : bool) (r : Response) : prog unit :=
  if b then Halt r else Ret tt.

(** [for _, x := range l { acc = body(acc, x) }] *)
Fixpoint for_each {X S} (l : list X) (acc : S) (body : S -> X -> prog S) : prog S :=
  match l with
  | [] => Ret acc
  | x :: l' => bind (body acc x) (fun acc' => for_each l' acc' body)
  end.

(** [time.Now()] *)
Definition now : prog Z := Clock Ret.

(** Thirty-two random bytes, in hexadecimal. *)
Definition rand_hex : prog string := Rand Ret.

(** [l[i]]: an index out of range panics. *)
Definition index {X} (l : list X) (i : nat) : prog X :=
  match l !! i with
  | Some x => Ret x
  | None => Crash "runtime error: index out of range"
  end.

(** ** One request alone *)

(** The environment answers the n-th interaction: the connection or the server
    may fail it, and it supplies times and identifiers. *)
Record Env := {
  env_fail : nat -> option string;
  env_ctx : nat -> StmtCtx;
  env_clock : nat -> Z;
  env_rand : nat -> string
}.

Inductive outcome (A : Type) : Type :=
  | Done (a : A)
  | Replied (r : Response)
  | Panicked (msg : string).
Arguments Done {A} a.
Arguments Replied {A} r.
Arguments Panicked {A} msg.

(** The answer to a statement and the state after it. *)
Definition answer {B} (E : Env) (s : stmt B) (n : nat) (d : D) : result B * D :=
  match env_fail E n with
  | Some e => (Err e, d)
  | None => match s (env_ctx E n) d with
          | Ok (b, d') => (Ok b, d')
          | Err e => (Err e, d)
          end
  end.

Fixpoint run {A} (E : Env) (p : prog A) (n : nat) (d : D) : outcome A * nat * D :=
  match p with
  | Ret a => (Done a, n, d)
  | Sql s k => let (r, d') := answer E s n d in run E (k r) (S n) d'
  | Clock k => run E (k (env_clock E n)) (S n) d
  | Rand k => run E (k (env_rand E n)) (S n) d
  | Halt r => (Replied r, n, d)
  | Crash m => (Panicked m, n, d)
  end.

Definition out {A} (x : outcome A * nat * D) : outcome A := fst (fst x).
Definition db_of {A} (x : outcome A * nat * D) : D := snd x.

(** The response of a handler, however it returned; [None] when it panicked
    (chi's Recoverer turns a panic into a 500). *)
Definition replied (o : outcome Response) : option Response :=
  match o with Done r | Replied r => Some r | Panicked _ => None end.

Definition reply (x : outcome Response * nat * D) : option Response := replied (out x).

Lemma run_bind {A B} E (p : prog A) (f : A -> prog B) n d :
  run E (bind p f) n d =
  match run E p n d with
  | (Done a, n', d') => run E (f a) n' d'
  | (Replied r, n', d') => (Replied r, n', d')
  | (Panicked m, n', d') => (Panicked m, n', d')
  end.
Proof.
  revert n d. induction p as [a|C s k IH|k IH|k IH|r|m]; intros n d; simpl; auto.
  destruct (answer E s n d) as [r d']. apply IH.
Qed.

Lemma bind_ret_r {A} E (p : prog A) n d : run E (bind p Ret) n d = run E p n d.
Proof. rewrite run_bind. by destruct (run E p n d) as [[[a|r|m] n'] d']. Qed.

(** ** Programs whose statements all satisfy a predicate *)

Section AllStmts.
Variable P : forall B, stmt B -> Prop.

Fixpoint all_stmts {A} (p : prog A) : Prop :=
  match p with
  | Ret _ | Halt _ | Crash _ => True
  | Sql s k => P _ s /\ forall r, all_stmts (k r)
  | Clock k => forall t, all_stmts (k t)
  | Rand k => forall t, all_stmts (k t)
  end.

Lemma all_stmts_bind {A B} (p : prog A) (f : A -> prog B) :
  all_stmts p -> (forall a, all_stmts (f a)) -> all_stmts (bind p f).
Proof. induction p; simpl; naive_solver. Qed.

Lemma all_stmts_assoc {A B C} (p : prog A) (f : A -> prog B) (g : B -> prog C) :
  all_stmts (bind p (fun a => bind (f a) g)) -> all_stmts (bind (bind p f) g).
Proof. induction p; simpl; naive_solver. Qed.

Lemma all_stmts_return_if b r : all_stmts (return_if b r).
Proof. by destruct b. Qed.

Lemma all_stmts_index {X} (l : list X) i : all_stmts (index l i).
Proof. unfold index. by destruct (l !! i). Qed.

Lemma all_stmts_for_each {X S} (l : list X) (acc : S) body :
  (forall acc x, x ∈ l -> all_stmts (body acc x)) -> all_stmts (for_each l acc body).
Proof.
  revert acc. induction l as [|x l IH]; intros acc H; simpl; [done|].
  apply all_stmts_bind.
  - apply H. apply elem_of_cons. by left.
  - intros acc'. apply IH. intros ? y Hy. apply H. apply elem_of_cons. by right.
Qed.
End AllStmts.

Lemma all_stmts_mono (P Q : forall B, stmt B -> Prop) {A} (p : prog A) :
  (forall B s, P B s -> Q B s) -> all_stmts P p -> all_stmts Q p.
Proof. intros H. induction p; simpl; naive_solver. Qed.

(** A program without statements: it can neither read nor change the database. *)
Definition no_stmts {A} (p : prog A) : Prop := all_stmts (fun _ _ => False) p.

(** ** Respecting a relation between databases *)

Definition respects (R : relation D) {B} (s : stmt B) : Prop :=
  forall c d b d', s c d = Ok (b, d') -> R d d'.

(** [I] is kept by every statement. *)
Definition keeps (I : D -> Prop) : relation D := fun d d' => I d -> I d'.

#[export] Instance keeps_preorder I : PreOrder (keeps I).
Proof. split; unfold keeps; repeat intro; auto. Qed.

Lemma answer_respects (R : relation D) `{!PreOrder R} {B} E (s : stmt B) n d :
  respects R s -> R d (snd (answer E s n d)).
Proof.
  intros H. unfold answer. destruct (env_fail E n); [reflexivity|].
  destruct (s (env_ctx E n) d) as [[b d']|e] eqn:Es; simpl; [eauto|reflexivity].
Qed.

Lemma run_respects (R : relation D) `{!PreOrder R} {A} E (p : prog A) n d :
  all_stmts (fun _ s => respects R s) p -> R d (db_of (run E p n d)).
Proof.
  revert n d. induction p as [a|C s k IH|k IH|k IH|r|m]; intros n d H; simpl in *;
  try reflexivity; [|by apply IH|by apply IH].
  destruct H as [Hs Hk].
  pose proof (answer_respects R E s n d Hs) as Hd.
  destruct (answer E s n d) as [r d']. simpl in Hd.
  etransitivity; [exact Hd|]. by apply IH.
Qed.

Lemma run_no_stmts {A} E (p : prog A) n d : no_stmts p -> db_of (run E p n d) = d.
Proof.
  intros H. symmetry. apply (run_respects eq).
  eapply all_stmts_mono; [|exact H]. done.
Qed.

(** ** Every possible run

    [wp fl p d Q]: whatever the environment answers, the run of [p] from [d] ends
    in an outcome and a database satisfying [Q]; [fl] says whether statements
    may also fail for reasons outside the database. *)
Fixpoint wp (fl : bool) {A} (p : prog A) (d : D) (Q : outcome A -> D -> Prop) : Prop :=
  match p with
  | Ret a => Q (Done a) d
  | Sql s k =>
    (forall c b d', s c d = Ok (b, d') -> wp fl (k (Ok b)) d' Q)
    /\ (forall e, fl = true \/ (exists c, s c d = Err e) -> wp fl (k (Err e)) d Q)
  | Clock k => forall t, wp fl (k t) d Q
  | Rand k => forall t, wp fl (k t) d Q
  | Halt r => Q (Replied r) d
  | Crash m => Q (Panicked m) d
  end.

(** Without connection failures a statement answers what it computes. *)
Definition reliable (E : Env) : Prop := forall n, env_fail E n = None.

Lemma answer_reliable {B} E (s : stmt B) n d : reliable E ->
  answer E s n d = match s (env_ctx E n) d with
                 | Ok (b, d') => (Ok b, d')
                 | Err e => (Err e, d)
                 end.
Proof. intros H. unfold answer. by rewrite H. Qed.

Lemma wp_run {A} fl E (p : prog A) n d Q :
  (fl = false -> reliable E) ->
  wp fl p d Q -> Q (out (run E p n d)) (db_of (run E p n d)).
Proof.
  intros HE. revert n d. induction p as [a|C s k IH|k IH|k IH|r|m]; intros n d H; simpl in *; auto.
  destruct H as [Hok Herr]. unfold answer.
  destruct (env_fail E n) eqn:Ef.
  - apply IH, Herr. left. destruct fl; [done|]. specialize (HE eq_refl n). congruence.
  - destruct (s (env_ctx E n) d) as [[b d']|e] eqn:Es; apply IH; eauto.
Qed.

Lemma wp_mono {A} fl (p : prog A) d (Q Q' : outcome A -> D -> Prop) :
  (forall o d', Q o d' -> Q' o d') -> wp fl p d Q -> wp fl p d Q'.
Proof. intros HQ. revert d. induction p; simpl; naive_solver. Qed.

Lemma wp_True {A} fl (p : prog A) d : wp fl p d (fun _ _ => True).
Proof. revert d. induction p; simpl; auto. Qed.

Lemma wp_and {A} fl (p : prog A) d (Q Q' : outcome A -> D -> Prop) :
  wp fl p d Q -> wp fl p d Q' -> wp fl p d (fun o d' => Q o d' /\ Q' o d').
Proof. revert d. induction p; simpl; naive_solver. Qed.

(** A relation respected by every statement holds at the end. *)
Lemma wp_respects (R : relation D) `{!PreOrder R} {A} fl (p : prog A) d :
  all_stmts (fun _ s => respects R s) p -> wp fl p d (fun _ d' => R d d').
Proof.
  revert d. induction p as [a|C s k IH|k IH|k IH|r|m]; intros d H; simpl in *; try reflexivity; auto.
  destruct H as [Hs Hk]. split.
  - intros c b d' Hst. eapply wp_mono; [|by apply IH]. intros o d2 H2.
  etransitivity; [by eapply Hs|exact H2].
  - intros e _. by apply IH.
Qed.

(** How [bind] continues from an outcome. *)
Definition wp_then (fl : bool) {A B} (f : A -> prog B) (Q : outcome B -> D -> Prop)
  (o : outcome A) (d : D) : Prop :=
  match o with
  | Done a => wp fl (f a) d Q
  | Replied r => Q (Replied r) d
  | Panicked m => Q (Panicked m) d
  end.

Lemma wp_bind {A B} fl (p : prog A) (f : A -> prog B) d Q :
  wp fl p d (wp_then fl f Q) -> wp fl (bind p f) d Q.
Proof. revert d. induction p; simpl; naive_solver. Qed.

Lemma wp_return_if fl b r d (Q : outcome unit -> D -> Prop) :
  (b = true -> Q (Replied r) d) -> (b = false -> Q (Done tt) d) -> wp fl (return_if b r) d Q.
Proof. destruct b; simpl; auto. Qed.

Lemma wp_rand {B} fl (f : string -> prog B) d Q :
  (forall t, wp fl (f t) d Q) -> wp fl (bind rand_hex f) d Q.
Proof. done. Qed.

Lemma wp_now {B} fl (f : Z -> prog B) d Q :
  (forall t, wp fl (f t) d Q) -> wp fl (bind now f) d Q.
Proof. done. Qed.

Lemma wp_index {X} fl (l : list X) i d (Q : outcome X -> D -> Prop) :
  (forall x, l !! i = Some x -> Q (Done x) d) ->
  (l !! i = None -> forall m, Q (Panicked m) d) -> wp fl (index l i) d Q.
Proof. unfold index. destruct (l !! i); simpl; auto. Qed.

(** A loop with an invariant on the elements done and to do, the accumulator and
    the database. *)
Lemma wp_for_each {X S} fl (I : list X -> list X -> S -> D -> Prop) (l : list X) (acc : S) body d Q :
  I [] l acc d ->
  (forall pre x post acc d, l = pre ++ x :: post -> I pre (x :: post) acc d ->
   wp fl (body acc x) d (fun o d' => match o with
                                     | Done acc' => I (pre ++ [x]) post acc' d'
                                     | Replied r => Q (Replied r) d'
                                     | Panicked m => Q (Panicked m) d'
                                     end)) ->
  (forall acc d, I l [] acc d -> Q (Done acc) d) ->
  wp fl (for_each l acc body) d Q.
Proof.
  intros HI Hb HQ.
  enough (H : forall post pre acc d, l = pre ++ post -> I pre post acc d ->
          wp fl (for_each post acc body) d Q) by (by apply (H l [])).
  clear HI acc d. induction post as [|x post IH]; intros pre acc d Hl HI; simpl.
  - apply HQ. by rewrite Hl, app_nil_r.
  - apply wp_bind. eapply wp_mono; [|by eapply (Hb pre x post)].
  intros [acc'|r|m] d' Ho; simpl; auto.
  apply (IH (pre ++ [x])); [|done]. by rewrite Hl, <- app_assoc.
Qed.

(** ** Interleaved requests *)

(** A configuration: the requests in flight and the database they share. *)
Definition config : Type := list (prog Response) * D.

(** One request performs its next interaction. A statement succeeds with
    whatever time and identifiers the server supplies, or fails. *)
Inductive step : config -> config -> Prop :=
  | step_sql pre post B (s : stmt B) k d c b d' :
  s c d = Ok (b, d') ->
  step (pre ++ Sql s k :: post, d) (pre ++ k (Ok b) :: post, d')
  | step_sql_fail pre post B (s : stmt B) k d e :
  step (pre ++ Sql s k :: post, d) (pre ++ k (Err e) :: post, d)
  | step_clock pre post k d t :
  step (pre ++ Clock k :: post, d) (pre ++ k t :: post, d)
  | step_rand pre post k d t :
  step (pre ++ Rand k :: post, d) (pre ++ k t :: post, d).

Definition steps : relation config := rtc step.

(** The request number [i] takes its next step at time and with the fresh
    identifier [c]; a schedule is a list of such choices. *)
Definition step_at (cfg : config) (ic : nat * StmtCtx) : config :=
  let '(ps, d) := cfg in
  let '(i, c) := ic in
  match ps !! i with
  | Some (Sql s k) =>
    match s c d with
    | Ok (b, d') => (<[i := k (Ok b)]> ps, d')
    | Err e => (<[i := k (Err e)]> ps, d)
    end
  | Some (Clock k) => (<[i := k (sc_now c)]> ps, d)
  | Some (Rand k) => (<[i := k (sc_uuid c)]> ps, d)
  | _ => cfg
  end.

Definition run_schedule (l : list (nat * StmtCtx)) (cfg : config) : config := fold_left step_at l cfg.

Lemma step_at_steps cfg ic : steps cfg (step_at cfg ic).
Proof.
  destruct cfg as [ps d], ic as [i c]. simpl. destruct (ps !! i) as [p|] eqn:Ei; [|reflexivity].
  pose proof (take_drop_middle ps i p Ei) as Hps.
  assert (Hins : forall q, <[i := q]> ps = take i ps ++ q :: drop (S i) ps).
  { intros q. apply insert_take_drop. by eapply lookup_lt_Some. }
  destruct p as [a|B s k|k|k|r|m]; try reflexivity.
  - destruct (s c d) as [[b d']|e] eqn:Es; rewrite Hins, <- Hps at 1; apply rtc_once.
  + by eapply step_sql.
  + apply step_sql_fail.
  - rewrite Hins, <- Hps at 1. apply rtc_once, step_clock.
  - rewrite Hins, <- Hps at 1. apply rtc_once, step_rand.
Qed.

Lemma run_schedule_steps l cfg : steps cfg (run_schedule l cfg).
Proof.
  revert cfg. induction l as [|ic l IH]; intros cfg; simpl; [reflexivity|].
  etransitivity; [apply step_at_steps|apply IH].
Qed.

Lemma steps_respect (R : relation D) `{!PreOrder R} ps d ps' d' :
  Forall (all_stmts (fun _ s => respects R s)) ps ->
  steps (ps, d) (ps', d') ->
  R d d' /\ Forall (all_stmts (fun _ s => respects R s)) ps'.
Proof.
  intros Hps Hst. remember (ps, d) as c1 eqn:E1. remember (ps', d') as c2 eqn:E2.
  revert ps d ps' d' E1 E2 Hps.
  induction Hst as [c|c1 c c2 H1 _ IH]; intros ps d ps' d' E1 E2 Hps; subst.
  - injection E2 as <- <-. split; [reflexivity|done].
  - destruct c as [ps1 d1].
  assert (R d d1 /\ Forall (all_stmts (fun _ s => respects R s)) ps1) as [HR Hps1].
  { inversion H1; subst; apply Forall_app in Hps as [Hpre Hpost];
      apply Forall_cons in Hpost as [Hp Hpost]; simpl in Hp.
    - split; [by eapply (proj1 Hp)|]. apply Forall_app; split; [done|].
      constructor; [apply (proj2 Hp)|done].
    - split; [reflexivity|]. apply Forall_app; split; [done|].
      constructor; [apply (proj2 Hp)|done].
    - split; [reflexivity|]. apply Forall_app; split; [done|].
      constructor; [apply Hp|done].
    - split; [reflexivity|]. apply Forall_app; split; [done|].
      constructor; [apply Hp|done]. }
  destruct (IH ps1 d1 ps' d') as [HR' ?]; auto. split; [|done].
  by etransitivity.
Qed.
End Programs.

Arguments prog : clear implicits.
Arguments stmt : clear implicits.
Arguments Ret {D A} a.
Arguments Sql {D A B} s k.
Arguments Clock {D A} k.
Arguments Rand {D A} k.
Arguments Halt {D A} r.
Arguments Crash {D A} msg.
Arguments Done {A} a.
Arguments Replied {A} r.
Arguments Panicked {A} msg.

Declare Scope prog_scope.
Delimit Scope prog_scope with prog.
Bind Scope prog_scope with prog.

(** [x <- p ; q] for sequencing, [p ;;; q] when the value is ignored. *)
Notation "x <- p ; q" := (bind p (fun x => q))
  (at level 100, p at next level, q at level 200, right associativity) : prog_scope.
Notation "p ;;; q" := (bind p (fun _ => q))
  (at level 100, q at level 200, right associativity) : prog_scope.

(** An environment without failures, at a fixed time. *)
Definition calm (t : Z) (uuid : nat -> string) : Env :=
  {| env_fail := fun _ => None;
     env_ctx := fun n => {| sc_now := t; sc_uuid := uuid n |};
     env_clock := fun _ => t;
     env_rand := uuid |}.

(** ** Requests *)

Record Claims := {
  UserID : string;
  Email : string;
  Roles : list string;
  Scope : string
}.

(** The parts of [*http.Request] the handlers read. [claims] is what the
    authentication middleware put in the context, [urlParam] chi's path
    parameters, [query] the query string, [body] the decoded JSON body ([None]
    when [json.Decode] returns an error). *)
Record Request (B : Type) := {
  claims : option Claims;
  urlParam : string -> string;
  query : string -> string;
  body : option B
}.
Arguments claims {B} r.
Arguments urlParam {B} r.
Arguments query {B} r.
Arguments body {B} r.

(** ** Formatting *)

(** [strconv.Itoa] and [%d] *)
Definition itoa (n : Z) : string := pretty n.

(** A string between double quotes. *)
Definition dquote : string := String (ascii_of_nat 34) "".
Definition quoted (s : string) : string := dquote +:+ s +:+ dquote.

(** [%0wd] *)
Fixpoint zeros (n : nat) : string :=
  match n with O => "" | S n => String "0"%char (zeros n) end.

Definition pad0 (w : nat) (n : Z) : string :=
  if n <? 0 then "-" +:+ (let s := itoa (- n) in zeros (w - 1 - String.length s) +:+ s)
  else let s := itoa n in zeros (w - String.length s) +:+ s.

(** [%.df] for a finite value. *)
Definition fmt_float (d : nat) (x : f64) : string :=
  match scaled (Z.of_nat d) x with
  | Some v =>
      let a := Z.abs v in
      let p := 10 ^ Z.of_nat d in
      (if match x with SpecFloat.S754_finite s _ _ | SpecFloat.S754_zero s => s | _ => false end
       then "-" else "") +:+
      itoa (a / p) +:+ (if Nat.eqb d 0 then "" else "." +:+ pad0 d (a mod p))
  | None => match x with
            | SpecFloat.S754_nan => "NaN"
            | SpecFloat.S754_infinity true => "-Inf"
            | _ => "+Inf"
            end
  end.

Example fmt_ex : fmt_float 2 (lit 837995 10) = "83799.50" /\ pad0 2 7 = "07".
Proof. by vm_compute. Qed.

(** ** Machine integers: Go's [int] is 64 bits wide and wraps around. *)
Definition wrap64 (n : Z) : Z := (n + 2 ^ 63) mod 2 ^ 64 - 2 ^ 63.

Lemma wrap64_id n : - 2 ^ 63 <= n < 2 ^ 63 -> wrap64 n = n.
Proof. intros H. unfold wrap64. rewrite Z.mod_small; lia. Qed.

Lemma wrap64_range n : - 2 ^ 63 <= wrap64 n < 2 ^ 63.
Proof. unfold wrap64. pose proof (Z.mod_pos_bound (n + 2 ^ 63) (2 ^ 64)). lia. Qed.

(** ** strconv *)

Definition digit (c : ascii) : option Z :=
  let n := Z.of_nat (nat_of_ascii c) in
  if (48 <=? n) && (n <=? 57) then Some (n - 48) else None.

Fixpoint digits (s : string) (acc : Z) : option Z :=
  match s with
  | EmptyString => Some acc
  | String c s' => match digit c with Some k => digits s' (10 * acc + k) | None => None end
  end.

(** [strconv.Atoi]: an optional sign, at least one decimal digit, in range. *)
Definition Atoi (s : string) : option Z :=
  let go neg t :=
    match t with
    | EmptyString => None
    | _ => match digits t 0 with
           | Some v => let v := if neg : bool then - v else v in
                       if (- 2 ^ 63 <=? v) && (v <? 2 ^ 63) then Some v else None
           | None => None
           end
    end in
  match s with
  | String "-"%char t => go true t
  | String "+"%char t => go false t
  | _ => go false s
  end.

Lemma Atoi_range s v : Atoi s = Some v -> - 2 ^ 63 <= v < 2 ^ 63.
Proof.
  unfold Atoi. intros H. repeat break_match; simplify_eq; bool_prop; lia.
Qed.

Example Atoi_ex : Atoi "42" = Some 42 /\ Atoi "-7" = Some (-7) /\ Atoi "4x" = None
  /\ Atoi "" = None /\ Atoi "9223372036854775808" = None.
Proof. by vm_compute. Qed.

(** [fmt.Sscanf(s, "%d", &n)]: leading blanks other than newlines, a sign, the
    longest run of digits; what follows is ignored. *)
Fixpoint digit_prefix (s : list ascii) : list ascii :=
  match s with
  | c :: s' => match digit c with Some _ => c :: digit_prefix s' | None => [] end
  | [] => []
  end.

Fixpoint skip_blanks (s : list ascii) : list ascii :=
  match s with
  | c :: s' => if existsb (Ascii.eqb c) (map ascii_of_nat [9; 11; 12; 13; 32]%nat)
               then skip_blanks s' else s
  | [] => []
  end.

Definition Sscanf_d (s : string) : option Z :=
  match skip_blanks (String.list_ascii_of_string s) with
  | "-"%char :: t => Atoi (String "-" (String.string_of_list_ascii (digit_prefix t)))
  | "+"%char :: t => Atoi (String "+" (String.string_of_list_ascii (digit_prefix t)))
  | t => Atoi (String.string_of_list_ascii (digit_prefix t))
  end.

Example Sscanf_ex : Sscanf_d " 12/2026" = Some 12 /\ Sscanf_d "x" = None.
Proof. by vm_compute. Qed.

(** ** strings *)

Fixpoint drop_prefix (p s : list ascii) : option (list ascii) :=
  match p, s with
  | [], _ => Some s
  | a :: p', b :: s' => if Ascii.eqb a b then drop_prefix p' s' else None
  | _, [] => None
  end.

Definition bytes (l : list nat) : list ascii := map ascii_of_nat l.

(** The UTF-8 encodings of the runes [unicode.IsSpace] accepts. *)
Definition space_runes : list (list ascii) :=
  map bytes
    ([[9]; [10]; [11]; [12]; [13]; [32]; [194; 133]; [194; 160]; [225; 154; 128];
      [226; 128; 168]; [226; 128; 169]; [226; 128; 175]; [226; 129; 159]; [227; 128; 128]]
     ++ map (fun k => [226; 128; 128 + k]) (seq 0 11))%nat.

Fixpoint first_prefix (ps : list (list ascii)) (s : list ascii) : option (list ascii) :=
  match ps with
  | [] => None
  | p :: ps' => match drop_prefix p s with Some t => Some t | None => first_prefix ps' s end
  end.

(** Drops the runes of [ps] at the head of [s]; every rune has a byte, so the
    length of [s] is enough fuel. *)
Fixpoint trim_with (ps : list (list ascii)) (fuel : nat) (s : list ascii) : list ascii :=
  match fuel with
  | O => s
  | S f => match first_prefix ps s with Some t => trim_with ps f t | None => s end
  end.

Definition TrimSpace (s : string) : string :=
  let l := String.list_ascii_of_string s in
  let l := trim_with space_runes (List.length l) l in
  let r := trim_with (map (@rev ascii) space_runes) (List.length l) (rev l) in
  String.string_of_list_ascii (rev r).

Example TrimSpace_ex : TrimSpace " emp-1  " = "emp-1" /\ TrimSpace "   " = "".
Proof. by vm_compute. Qed.

(** [strings.Split(s, sep)] for a one-byte separator. *)
Fixpoint Split1 (sep : ascii) (s : string) : list string :=
  match s with
  | EmptyString => [EmptyString]
  | String c s' =>
      if Ascii.eqb c sep then EmptyString :: Split1 sep s'
      else match Split1 sep s' with
           | [] => [String c EmptyString]
           | x :: xs => String c x :: xs
           end
  end.

Example Split1_ex : Split1 " " "Bearer abc" = ["Bearer"; "abc"].
Proof. by vm_compute. Qed.
