(* ===== verification/Utf8.v ===== *)
(** * unicode/utf8 and the white space of unicode

    The decoder and the encoder of the Go library that the program is built with
    (local_go/src/unicode), as far as encoding/csv uses them. A string of Go is its
    bytes, a rune an integer. *)

From Stdlib Require Import Ascii String.
From stdpp Require Import list.
From S2P Require Import Prelude.

#[local] Open Scope Z_scope.

Definition uint8 (c : ascii) : Z := Z.of_N (N_of_ascii c).
Definition byte (z : Z) : ascii := ascii_of_N (Z.to_N (z mod 256)).

(** ** utf8.go *)

Definition RuneError : Z := 0xFFFD.
Definition RuneSelf : Z := 0x80.
Definition MaxRune : Z := 0x10FFFF.

Definition surrogateMin : Z := 0xD800.
Definition surrogateMax : Z := 0xDFFF.

Definition tx : Z := 0x80.
Definition t2 : Z := 0xC0.
Definition t3 : Z := 0xE0.
Definition t4 : Z := 0xF0.
Definition maskx : Z := 0x3F.
Definition mask2 : Z := 0x1F.
Definition mask3 : Z := 0x0F.
Definition mask4 : Z := 0x07.
Definition rune1Max : Z := 2 ^ 7 - 1.
Definition rune2Max : Z := 2 ^ 11 - 1.
Definition rune3Max : Z := 2 ^ 16 - 1.
Definition locb : Z := 0x80.
Definition hicb : Z := 0xBF.

Definition xx : Z := 0xF1.
Definition as_ : Z := 0xF0.
Definition s1 : Z := 0x02.
Definition s2 : Z := 0x13.
Definition s3 : Z := 0x03.
Definition s4 : Z := 0x23.
Definition s5 : Z := 0x34.
Definition s6 : Z := 0x04.
Definition s7 : Z := 0x44.

(** The table of the first bytes, row by row. *)
Definition first : list Z :=
  repeat as_ 128 ++ repeat xx 64
  ++ [xx; xx] ++ repeat s1 30
  ++ [s2] ++ repeat s3 12 ++ [s4; s3; s3]
  ++ [s5; s6; s6; s6; s7] ++ repeat xx 11.

Definition acceptRanges : list (Z * Z) :=
  [(locb, hicb); (0xA0, hicb); (locb, 0x9F); (0x90, hicb); (locb, 0x8F)] ++ repeat (0, 0) 11.

Definition first_of (c : ascii) : Z := nth (Z.to_nat (uint8 c)) first 0.
Definition accept_of (x : Z) : Z * Z := nth (Z.to_nat (Z.shiftr x 4)) acceptRanges (0, 0).
Definition outside (r : Z * Z) (b : Z) : bool := (b <? fst r) || (snd r <? b).

(** The two functions have the same body. Indexing below the tested length cannot
    panic: the missing bytes of the pattern are the test [n < sz]. *)
Definition DecodeRune (p : list ascii) : Z * Z :=
  match p with
  | [] => (RuneError, 0)
  | c0 :: p1 =>
    let x := first_of c0 in
    if as_ <=? x then ((if Z.testbit x 0 then RuneError else uint8 c0), 1) else
    let sz := Z.land x 7 in
    if Z.of_nat (length p) <? sz then (RuneError, 1) else
    let b n := uint8 (nth n p zero) in
    if outside (accept_of x) (b 1%nat) then (RuneError, 1) else
    if sz <=? 2 then (Z.lor (Z.shiftl (Z.land (b 0%nat) mask2) 6) (Z.land (b 1%nat) maskx), 2) else
    if outside (locb, hicb) (b 2%nat) then (RuneError, 1) else
    if sz <=? 3 then
      (Z.lor (Z.shiftl (Z.land (b 0%nat) mask3) 12)
         (Z.lor (Z.shiftl (Z.land (b 1%nat) maskx) 6) (Z.land (b 2%nat) maskx)), 3) else
    if outside (locb, hicb) (b 3%nat) then (RuneError, 1) else
    (Z.lor (Z.shiftl (Z.land (b 0%nat) mask4) 18)
       (Z.lor (Z.shiftl (Z.land (b 1%nat) maskx) 12)
          (Z.lor (Z.shiftl (Z.land (b 2%nat) maskx) 6) (Z.land (b 3%nat) maskx))), 4)
  end.

Definition DecodeRuneInString (s : string) : Z * Z := DecodeRune (list_ascii_of_string s).

Definition appendRuneNonASCII (p : list ascii) (r : Z) : list ascii :=
  let cont k r := byte (Z.lor tx (Z.land (Z.shiftr r k) maskx)) in
  let three r := p ++ [byte (Z.lor t3 (Z.shiftr r 12)); cont 6 r; cont 0 r] in
  let i := r mod 2 ^ 32 in
  if i <=? rune2Max then p ++ [byte (Z.lor t2 (Z.shiftr r 6)); cont 0 r]
  else if (MaxRune <? i) || ((surrogateMin <=? i) && (i <=? surrogateMax)) then three RuneError
  else if i <=? rune3Max then three r
  else p ++ [byte (Z.lor t4 (Z.shiftr r 18)); cont 12 r; cont 6 r; cont 0 r].

Definition AppendRune (p : list ascii) (r : Z) : list ascii :=
  if r mod 2 ^ 32 <=? rune1Max then p ++ [byte r] else appendRuneNonASCII p r.

Definition RuneLen (r : Z) : Z :=
  if r <? 0 then -1
  else if r <=? rune1Max then 1
  else if r <=? rune2Max then 2
  else if (surrogateMin <=? r) && (r <=? surrogateMax) then -1
  else if r <=? rune3Max then 3
  else if r <=? MaxRune then 4
  else -1.

Definition ValidRune (r : Z) : bool :=
  ((0 <=? r) && (r <? surrogateMin)) || ((surrogateMax <? r) && (r <=? MaxRune)).

(** ** graphic.go, letter.go and tables.go *)

(** [Range16]: the lowest and the highest rune, and the stride. *)
Definition Range16 : Type := Z * Z * Z.

Definition White_Space : list Range16 :=
  [(0x0009, 0x000d, 1); (0x0020, 0x0085, 101); (0x00a0, 0x1680, 5600); (0x2000, 0x200a, 1);
   (0x2028, 0x2029, 1); (0x202f, 0x205f, 48); (0x3000, 0x3000, 1)].

(** A table of at most [linearMax] ranges is searched from its start. *)
Fixpoint is16 (ranges : list Range16) (r : Z) : bool :=
  match ranges with
  | [] => false
  | (lo, hi, stride) :: ranges =>
      if r <? lo then false
      else if r <=? hi then (stride =? 1) || ((r - lo) mod stride =? 0)
      else is16 ranges r
  end.

(** The table has no [R32] and a [LatinOffset] of 2. *)
Definition isExcludingLatin (r : Z) : bool :=
  if r mod 2 ^ 32 <=? 0x3000 then is16 (drop 2 White_Space) (r mod 2 ^ 16) else false.

Definition IsSpace (r : Z) : bool :=
  if r mod 2 ^ 32 <=? 0xFF
  then existsb (Z.eqb r) [0x09; 0x0A; 0x0B; 0x0C; 0x0D; 0x20; 0x85; 0xA0]
  else isExcludingLatin r.

Example first_is_a_table : length first = 256%nat.
Proof. reflexivity. Qed.

Example decode_euro : DecodeRune (AppendRune [] 0x20AC) = (0x20AC, 3).
Proof. by vm_compute. Qed.

Example decode_overlong : DecodeRune [byte 0xC0; byte 0x80] = (RuneError, 1).
Proof. by vm_compute. Qed.

(** The white space beyond Latin-1, as the table has it. *)
Example spaces_listed :
  filter (fun r => IsSpace r = true) (seqZ 0 0x3100)
  = [0x09; 0x0A; 0x0B; 0x0C; 0x0D; 0x20; 0x85; 0xA0; 0x1680] ++ seqZ 0x2000 11 ++ [0x2028; 0x2029; 0x202f; 0x205f; 0x3000].
Proof. by vm_compute. Qed.

(** ** The first rune of a text *)

Lemma all_bytes (P : ascii -> bool) : forallb (fun n => P (ascii_of_nat n)) (seq 0 256) = true -> forall c, P c = true.
Proof.
  intros HP c. rewrite forallb_forall in HP. rewrite <- (ascii_nat_embedding c). apply HP, in_seq.
  pose proof (nat_ascii_bounded c). lia.
Qed.

Lemma uint8_inj c c' : uint8 c = uint8 c' -> c = c'.
Proof.
  unfold uint8. intros E%N2Z.inj. rewrite <- (ascii_N_embedding c), <- (ascii_N_embedding c'). by f_equal.
Qed.

(** A first byte of several says that the rune is beyond ASCII: by itself, or with the
    range of the second. *)
Lemma lead_bytes c : (if as_ <=? first_of c then (128 <=? uint8 c) || negb (Z.testbit (first_of c) 0) else
  let x := first_of c in
  if Z.land x 7 <=? 2 then negb (Z.shiftr (Z.land (uint8 c) mask2) 1 =? 0)
  else if Z.land x 7 <=? 3 then negb (Z.land (uint8 c) mask3 =? 0) || (0xA0 <=? fst (accept_of x))
  else negb (Z.land (uint8 c) mask4 =? 0) || (0x90 <=? fst (accept_of x))) = true.
Proof. revert c. apply all_bytes. by vm_compute. Qed.

Lemma second_byte c : ((uint8 c <? 0x90) || (0xBF <? uint8 c) || negb (Z.shiftr (Z.land (uint8 c) maskx) 1 =? 0)) = true.
Proof. revert c. apply all_bytes. by vm_compute. Qed.

Lemma accept_hi c : (snd (accept_of (first_of c)) <=? 0xBF) = true.
Proof. revert c. apply all_bytes. by vm_compute. Qed.

Lemma small_shift v : 0 <= v < 128 -> Z.shiftr v 7 = 0.
Proof. intros Hv. rewrite Z.shiftr_div_pow2 by lia. by apply Z.div_small. Qed.

(** A byte in the range of its predecessor has one of its high payload bits. *)
Lemma second_in_range c b lo : 0x90 <= lo -> lo <= fst (accept_of (first_of c)) ->
  outside (accept_of (first_of c)) (uint8 b) = false -> Z.shiftr (Z.land (uint8 b) maskx) 1 <> 0.
Proof.
  intros Hlo Hc Ho E. unfold outside in Ho. pose proof (second_byte b) as Hb. pose proof (accept_hi c) as Hh.
  rewrite E in Hb. simpl in Hb. rewrite orb_false_r in Hb. apply orb_true_iff in Hb. bool_prop.
  destruct Hb as [Hb|Hb]; bool_prop; lia.
Qed.

Lemma shifted_nonzero a k n : 0 <= k <= n -> Z.shiftr (Z.shiftl a n) k = 0 -> a = 0.
Proof. intros Hk E. rewrite Z.shiftr_shiftl_l in E by lia. apply Z.shiftl_eq_0_iff in E; [done|lia]. Qed.

Lemma shifted_twice a : Z.shiftr (Z.shiftl a 6) 7 = Z.shiftr a 1.
Proof. by rewrite Z.shiftr_shiftl_r by lia. Qed.

(** The first rune is an ASCII character exactly when the first byte is. *)
Lemma DecodeRune_ascii c l d : uint8 d < 128 -> fst (DecodeRune (c :: l)) = uint8 d -> c = d.
Proof.
  intros Hd. assert (Hd' : 0 <= uint8 d) by (unfold uint8; lia).
  pose proof (lead_bytes c) as Hc. unfold DecodeRune. set (x := first_of c) in *.
  destruct (as_ <=? x).
  - destruct (Z.testbit x 0); simpl; [unfold RuneError; lia|]. apply uint8_inj.
  - cbv zeta in *. destruct (_ <? _); [simpl; unfold RuneError; lia|].
    destruct (outside (accept_of x) _) eqn:Ho; [simpl; unfold RuneError; lia|]. simpl nth in *.
    destruct (_ <=? 2); [|destruct (outside (locb, hicb) _); [simpl; unfold RuneError; lia|]; destruct (_ <=? 3);
      [|destruct (outside (locb, hicb) _); [simpl; unfold RuneError; lia|]]]; cbn [fst]; intros E; exfalso;
    apply (f_equal (fun v => Z.shiftr v 7)) in E; cbv beta in E; rewrite (small_shift (uint8 d)) in E by lia; repeat rewrite Z.shiftr_lor in E;
    apply Z.lor_eq_0_iff in E as [E1 E2].
    + rewrite shifted_twice in E1. bool_prop. lia.
    + apply Z.lor_eq_0_iff in E2 as [E2 _]. rewrite shifted_twice in E2. apply shifted_nonzero in E1; [|lia].
      rewrite E1 in Hc. simpl in Hc. bool_prop. by apply (second_in_range c (nth 0 l zero) 0xA0).
    + apply Z.lor_eq_0_iff in E2 as [E2 _]. apply shifted_nonzero in E1; [|lia]. apply shifted_nonzero in E2; [|lia].
      rewrite E1 in Hc. simpl in Hc. bool_prop. apply (second_in_range c (nth 0 l zero) 0x90); [lia|done|done|by rewrite E2].
Qed.

Lemma DecodeRune_self d l : uint8 d < 128 -> DecodeRune (d :: l) = (uint8 d, 1).
Proof.
  intros Hd. assert (Hb : ((128 <=? uint8 d) || ((as_ <=? first_of d) && negb (Z.testbit (first_of d) 0))) = true)
    by (revert d Hd; intros d _; revert d; apply all_bytes; by vm_compute).
  apply orb_true_iff in Hb as [Hb|Hb]; bool_prop; [lia|]. unfold DecodeRune.
  assert (Ha : (as_ <=? first_of d) = true) by by apply Z.leb_le. cbv zeta. rewrite Ha.
  match goal with H : Z.testbit _ _ = false |- _ => by rewrite H end.
Qed.
