(* ===== verification/Csv.v ===== *)
(** * encoding/csv

    The reader and the writer of the Go library that the program is built with
    (local_go/src/encoding/csv), in the configuration of [NewReader] and [NewWriter]:
    [Comma] is a comma, [Comment] is 0 and [TrimLeadingSpace] false, and the records are
    read with ReadAll and written with Write. The source is a string in memory, whose
    reading does not fail; a line is what [bufio.Reader.ReadSlice] returns, joined over
    the fillings of the buffer. *)

From Stdlib Require Import Ascii String.
From stdpp Require Import list.
From S2P Require Import Prelude Go Utf8.

#[local] Open Scope Z_scope.

Module csv.

Definition NL : ascii := "010".
Definition CR : ascii := "013".
Definition QUOTE : ascii := "034".
Definition Comma : ascii := ",".

(** ** reader.go *)

(** The causes of a [ParseError]; an error of the reader is one, or io.EOF. *)
Inductive Cause := ErrBareQuote | ErrQuote | ErrFieldCount.

Record ParseError := { pe_StartLine : Z; pe_Line : Z; pe_Column : Z; pe_Err : Cause }.

Inductive Error := EOF | Malformed (e : ParseError).

Record Reader := {
  FieldsPerRecord : Z;
  LazyQuotes : bool;
  source : list ascii;
  numLine : Z;
  offset : Z
}.

Definition NewReader (s : list ascii) : Reader :=
  {| FieldsPerRecord := 0; LazyQuotes := false; source := s; numLine := 0; offset := 0 |}.

(** The bytes up to the delimiter, the rest, and whether there was one. *)
Fixpoint ReadSlice (delim : ascii) (s : list ascii) : list ascii * list ascii * bool :=
  match s with
  | [] => ([], [], false)
  | c :: s =>
      if Ascii.eqb c delim then ([c], s, true)
      else let '(line, rest, found) := ReadSlice delim s in (c :: line, rest, found)
  end.

(** [line[i] == c] *)
Definition byte_at (line : list ascii) (i : nat) (c : ascii) : bool := bool_decide (line !! i = Some c).

(** The line, and whether the error is io.EOF. *)
Definition readLine (r : Reader) : list ascii * bool * Reader :=
  let '(line, rest, found) := ReadSlice NL (source r) in
  let readSize := length line in
  let eof := negb found && Nat.eqb readSize 0 in
  let line := if negb found && negb (Nat.eqb readSize 0) && byte_at line (readSize - 1) CR
              then take (readSize - 1) line else line in
  let n := length line in
  let line := if Nat.leb 2 n && byte_at line (n - 2) CR && byte_at line (n - 1) NL
              then take (n - 2) line ++ [NL] else line in
  (line, eof, {| FieldsPerRecord := FieldsPerRecord r; LazyQuotes := LazyQuotes r; source := rest;
                 numLine := numLine r + 1; offset := offset r + Z.of_nat readSize |}).

Definition lengthNL (b : list ascii) : nat :=
  if Nat.ltb 0 (length b) && byte_at b (length b - 1) NL then 1%nat else 0%nat.

Definition nextRune (b : list ascii) : Z := fst (DecodeRune b).

(** bytes.IndexByte; bytes.IndexRune for a rune of one byte. *)
Fixpoint IndexByte (b : list ascii) (c : ascii) : option nat :=
  match b with
  | [] => None
  | x :: b => if Ascii.eqb x c then Some 0%nat else option_map S (IndexByte b c)
  end.

(** The loop that skips empty lines: the line and whether the source has ended. *)
Fixpoint next_line (fuel : nat) (r : Reader) : option (list ascii * bool * Reader) :=
  match fuel with
  | O => None
  | S fuel =>
      let '(line, eof, r) := readLine r in
      if negb eof && Nat.eqb (length line) (lengthNL line) then next_line fuel r
      else Some (line, eof, r)
  end.

(** The variables of the loop [parseField]; [quoted] is the loop inside of quotes. *)
Record Parser := {
  line : list ascii;
  pos_line : Z;
  pos_col : Z;
  recordBuffer : list ascii;
  fieldIndexes : list nat;
  reader : Reader
}.

Definition advance (n : nat) (p : Parser) : Parser :=
  {| line := drop n (line p); pos_line := pos_line p; pos_col := pos_col p + Z.of_nat n;
     recordBuffer := recordBuffer p; fieldIndexes := fieldIndexes p; reader := reader p |}.

Definition append (b : list ascii) (p : Parser) : Parser :=
  {| line := line p; pos_line := pos_line p; pos_col := pos_col p;
     recordBuffer := recordBuffer p ++ b; fieldIndexes := fieldIndexes p; reader := reader p |}.

Definition end_field (p : Parser) : Parser :=
  {| line := line p; pos_line := pos_line p; pos_col := pos_col p;
     recordBuffer := recordBuffer p; fieldIndexes := fieldIndexes p ++ [length (recordBuffer p)];
     reader := reader p |}.

(** [line, errRead = r.readLine()]: an EOF is forgotten. *)
Definition next_part (p : Parser) : Parser :=
  let pos_col := pos_col p + Z.of_nat (length (line p)) in
  let '(l, _, r) := readLine (reader p) in
  let more := Nat.ltb 0 (length l) in
  {| line := l; pos_line := if more then pos_line p + 1 else pos_line p;
     pos_col := if more then 1 else pos_col;
     recordBuffer := recordBuffer p; fieldIndexes := fieldIndexes p; reader := r |}.

Definition parse_error (recLine ln col : Z) (e : Cause) : ParseError :=
  {| pe_StartLine := recLine; pe_Line := ln; pe_Column := col; pe_Err := e |}.

Fixpoint parse (fuel : nat) (recLine : Z) (quoted : bool) (p : Parser) : option (option ParseError * Parser) :=
  match fuel with
  | O => None
  | S fuel =>
    if negb quoted then
      if Nat.eqb (length (line p)) 0 || negb (byte_at (line p) 0 QUOTE) then
        (* Non-quoted string field *)
        let i := IndexByte (line p) Comma in
        let field := match i with
                     | Some i => take i (line p)
                     | None => take (length (line p) - lengthNL (line p)) (line p)
                     end in
        match (if LazyQuotes (reader p) then None else IndexByte field QUOTE) with
        | Some j => Some (Some (parse_error recLine (numLine (reader p)) (pos_col p + Z.of_nat j) ErrBareQuote), p)
        | None =>
            let p := end_field (append field p) in
            match i with
            | Some i => parse fuel recLine false (advance (i + 1) p)
            | None => Some (None, p)
            end
        end
      else parse fuel recLine true (advance 1 p)
    else
      match IndexByte (line p) QUOTE with
      | Some i =>
          (* Hit next quote. *)
          let p := advance (i + 1) (append (take i (line p)) p) in
          let rn := nextRune (line p) in
          if rn =? uint8 QUOTE then parse fuel recLine true (advance 1 (append [QUOTE] p))
          else if rn =? uint8 Comma then parse fuel recLine false (end_field (advance 1 p))
          else if Nat.eqb (lengthNL (line p)) (length (line p)) then Some (None, end_field p)
          else if LazyQuotes (reader p) then parse fuel recLine true (append [QUOTE] p)
          else Some (Some (parse_error recLine (numLine (reader p)) (pos_col p - 1) ErrQuote), p)
      | None =>
          if Nat.ltb 0 (length (line p)) then
            (* Hit end of line (copy all data so far). *)
            parse fuel recLine true (next_part (append (line p) p))
          else
            (* Abrupt end of file (EOF or error). *)
            if negb (LazyQuotes (reader p))
            then Some (Some (parse_error recLine (pos_line p) (pos_col p) ErrQuote), p)
            else Some (None, end_field p)
      end
  end.

(** [str[preIdx:idx]] for each index. *)
Fixpoint cut (preIdx : nat) (str : list ascii) (idxs : list nat) : list (list ascii) :=
  match idxs with
  | [] => []
  | idx :: idxs => take (idx - preIdx) (drop preIdx str) :: cut idx str idxs
  end.

Definition set_fields (n : Z) (r : Reader) : Reader :=
  {| FieldsPerRecord := n; LazyQuotes := LazyQuotes r; source := source r; numLine := numLine r; offset := offset r |}.

(** The record, its error and the reader after it; [None] when the fuel is out. *)
Definition readRecord (fuel : nat) (r : Reader) : option (list (list ascii) * option Error * Reader) :=
  match next_line fuel r with
  | None => None
  | Some (_, true, r) => Some ([], Some EOF, r)
  | Some (l, false, r) =>
      let recLine := numLine r in
      match parse fuel recLine false
              {| line := l; pos_line := numLine r; pos_col := 1; recordBuffer := []; fieldIndexes := []; reader := r |} with
      | None => None
      | Some (err, p) =>
          let dst := cut 0 (recordBuffer p) (fieldIndexes p) in
          let n := Z.of_nat (length dst) in
          let r := reader p in
          if 0 <? FieldsPerRecord r then
            Some (dst, match err with
                       | None => if negb (n =? FieldsPerRecord r)
                                 then Some (Malformed (parse_error recLine recLine 1 ErrFieldCount)) else None
                       | Some e => Some (Malformed e)
                       end, r)
          else Some (dst, option_map Malformed err, if FieldsPerRecord r =? 0 then set_fields n r else r)
      end
  end.

(** Every record takes at least a byte: the bytes are fuel enough. *)
Fixpoint read_all (fuel : nat) (r : Reader) (records : list (list (list ascii)))
  : option (list (list (list ascii)) + ParseError) :=
  match fuel with
  | O => None
  | S fuel =>
      match readRecord (S (S (length (source r)))) r with
      | None => None
      | Some (record, None, r) => read_all fuel r (records ++ [record])
      | Some (_, Some EOF, _) => Some (inl records)
      | Some (_, Some (Malformed e), _) => Some (inr e)
      end
  end.

Definition ReadAll (r : Reader) : option (list (list (list ascii)) + ParseError) :=
  read_all (S (length (source r))) r [].

(** ** writer.go *)

Record Writer := { UseCRLF : bool; written : list ascii }.

Definition NewWriter : Writer := {| UseCRLF := false; written := [] |}.

Definition emit (b : list ascii) (w : Writer) : Writer :=
  {| UseCRLF := UseCRLF w; written := written w ++ b |}.

Definition special (c : ascii) : bool := Ascii.eqb c NL || Ascii.eqb c CR || Ascii.eqb c QUOTE || Ascii.eqb c Comma.

Definition fieldNeedsQuotes (field : list ascii) : bool :=
  match field with
  | [] => false
  | _ =>
      bool_decide (field = ["092"%char; "."%char]) || existsb special field || IsSpace (fst (DecodeRune field))
  end.

(** What is written for a byte inside of quotes; the bytes between the special ones are
    copied verbatim. *)
Definition encode (useCRLF : bool) (c : ascii) : list ascii :=
  if Ascii.eqb c QUOTE then [QUOTE; QUOTE]
  else if Ascii.eqb c CR then (if useCRLF then [] else [CR])
  else if Ascii.eqb c NL then (if useCRLF then [CR; NL] else [NL])
  else [c].

Definition write_field (w : Writer) (field : list ascii) : Writer :=
  if negb (fieldNeedsQuotes field) then emit field w
  else emit [QUOTE] (emit (flat_map (encode (UseCRLF w)) field) (emit [QUOTE] w)).

Fixpoint write_fields (n : nat) (record : list (list ascii)) (w : Writer) : Writer :=
  match record with
  | [] => w
  | field :: record =>
      let w := if Nat.ltb 0 n then emit [Comma] w else w in
      write_fields (S n) record (write_field w field)
  end.

Definition Write (w : Writer) (record : list (list ascii)) : Writer :=
  let w := write_fields 0 record w in
  emit (if UseCRLF w then [CR; NL] else [NL]) w.

Definition WriteAll (w : Writer) (records : list (list (list ascii))) : Writer := fold_left Write records w.

(** What the program reads of a file: its records, as strings, unless there was an
    error. *)
Definition read_file (s : string) : option (list (list string)) :=
  match ReadAll (NewReader (list_ascii_of_string s)) with
  | Some (inl records) => Some (map (map string_of_list_ascii) records)
  | _ => None
  end.

(** What the program writes for records: [Write] for each, then [Flush]. *)
Definition write_file (records : list (list string)) : string :=
  string_of_list_ascii (written (WriteAll NewWriter (map (map list_ascii_of_string) records))).

(** *** Examples of the documentation *)

Definition text (s : string) : list ascii := list_ascii_of_string s.
Definition lines (l : list string) : list ascii := flat_map (fun s => text s ++ [NL]) l.

Example read_two : ReadAll (NewReader (lines ["a,b"; ""; "c,d"])) = Some (inl [[text "a"; text "b"]; [text "c"; text "d"]]).
Proof. by vm_compute. Qed.

Example read_short : ReadAll (NewReader (lines ["a,b"; "c"]))
  = Some (inr {| pe_StartLine := 2; pe_Line := 2; pe_Column := 1; pe_Err := ErrFieldCount |}).
Proof. by vm_compute. Qed.

Example read_bare : ReadAll (NewReader (text "a " ++ [QUOTE] ++ text "word" ++ [QUOTE]))
  = Some (inr {| pe_StartLine := 1; pe_Line := 1; pe_Column := 3; pe_Err := ErrBareQuote |}).
Proof. by vm_compute. Qed.

Example write_quoted : written (WriteAll NewWriter [[text "a,b"; [QUOTE]; text " c"; text "d"]])
  = [QUOTE] ++ text "a,b" ++ [QUOTE; Comma; QUOTE; QUOTE; QUOTE; QUOTE; Comma; QUOTE] ++ text " c" ++ [QUOTE] ++ text ",d" ++ [NL].
Proof. by vm_compute. Qed.

End csv.
