(* ===== verification/CsvProps.v ===== *)
(** * encoding/csv: what the reader and the writer do

    The reader, which works line by line in a buffer, is an automaton of four states over
    the text with its line ends normalised; what the writer writes the reader reads back. *)

From Stdlib Require Import Ascii String.
From stdpp Require Import list.
From S2P Require Import Prelude Go Utf8 Csv.

Import csv.

#[local] Open Scope Z_scope.

Module Rfc.

(** ** The reference: RFC 4180 as an automaton *)

(** Line ends are LF; a CR at the very end is dropped. *)
Fixpoint normalize (s : list ascii) : list ascii :=
  match s with
  | [] => []
  | c :: s' =>
      if Ascii.eqb c CR && match s' with [] => true | d :: _ => Ascii.eqb d NL end
      then normalize s' else c :: normalize s'
  end.

Inductive State := Start | Bare | Quoted | Closed.

Abbreviation Fields := (list (list ascii)).

(** The fields of a record and the text after it. *)
Fixpoint scan (lazy : bool) (st : State) (s buf : list ascii) (done : Fields) : ((Fields * list ascii) + Cause)%type :=
  match s with
  | [] => match st with
          | Quoted => if lazy then inl (done ++ [buf], []) else inr ErrQuote
          | _ => inl (done ++ [buf], [])
          end
  | x :: s =>
      match st with
      | Start | Bare =>
          if Ascii.eqb x QUOTE then
            match st with
            | Start => scan lazy Quoted s buf done
            | _ => if lazy then scan lazy Bare s (buf ++ [x]) done else inr ErrBareQuote
            end
          else if Ascii.eqb x Comma then scan lazy Start s [] (done ++ [buf])
          else if Ascii.eqb x NL then inl (done ++ [buf], s)
          else scan lazy Bare s (buf ++ [x]) done
      | Quoted => if Ascii.eqb x QUOTE then scan lazy Closed s buf done else scan lazy Quoted s (buf ++ [x]) done
      | Closed =>
          if Ascii.eqb x QUOTE then scan lazy Quoted s (buf ++ [QUOTE]) done
          else if Ascii.eqb x Comma then scan lazy Start s [] (done ++ [buf])
          else if Ascii.eqb x NL then inl (done ++ [buf], s)
          else if lazy then scan lazy Quoted s (buf ++ [QUOTE; x]) done
          else inr ErrQuote
      end
  end.

Fixpoint skip_empty (s : list ascii) : list ascii :=
  match s with x :: s' => if Ascii.eqb x NL then skip_empty s' else s | [] => [] end.

(** The records of a text, each of [n] fields when [n] is positive; of as many as the
    first when it is 0. *)
Fixpoint records_of (fuel : nat) (lazy : bool) (n : Z) (s : list ascii) (acc : list Fields) : (list Fields + Cause)%type :=
  match fuel, skip_empty s with
  | O, _ | _, [] => inl acc
  | S fuel, s =>
      match scan lazy Start s [] [] with
      | inr e => inr e
      | inl (fs, rest) =>
          let k := Z.of_nat (length fs) in
          if (0 <? n) && negb (k =? n) then inr ErrFieldCount
          else records_of fuel lazy (if n =? 0 then k else n) rest (acc ++ [fs])
      end
  end.

(** ** Lines *)

Ltac eqb c d := destruct (Ascii.eqb_spec c d); [subst c|].

Lemma ReadSlice_ok s : let '(l, rest, found) := ReadSlice NL s in
  s = l ++ rest
  /\ (found = true -> exists b, l = b ++ [NL] /\ (NL ∉ b)) /\ (found = false -> (NL ∉ l) /\ rest = []).
Proof.
  induction s as [|c s IH]; simpl; [split_and!; [done|done|set_solver]|].
  destruct (Ascii.eqb_spec c NL) as [->|Hc].
  - split_and!; [done| |done]. intros _. exists []. split; [done|apply not_elem_of_nil].
  - destruct (ReadSlice NL s) as [[l rest] []]; destruct IH as (-> & Ht & Hf); split_and!; try done; intros _.
    + destruct Ht as (b & -> & Hb); [done|]. exists (c :: b). set_solver.
    + destruct Hf as [Hl ->]; [done|]. set_solver.
Qed.

Lemma normalize_cons c d s : c <> CR -> normalize (c :: d ++ s) = c :: normalize (d ++ s).
Proof. intros Hc. simpl. by eqb c CR. Qed.

(** A text without CR is its own normal form, also before another. *)
Lemma normalize_app b s : CR ∉ b -> normalize (b ++ s) = b ++ normalize s.
Proof.
  induction b as [|c b IH]; intros Hb; [done|]. simpl app.
  rewrite normalize_cons by set_solver. f_equal. apply IH. set_solver.
Qed.

(** [line[:n-1]] when the last byte is a CR. *)
Definition chomp (l : list ascii) : list ascii :=
  if byte_at l (length l - 1) CR then take (length l - 1) l else l.

Lemma byte_at_snoc b x c : byte_at (b ++ [x]) (length (b ++ [x]) - 1) c = Ascii.eqb x c.
Proof.
  unfold byte_at. rewrite length_app. simpl. rewrite Nat.add_sub, lookup_app_r, Nat.sub_diag by lia. simpl.
  eqb x c; [by rewrite bool_decide_eq_true_2|]. rewrite bool_decide_eq_false_2; congruence.
Qed.

Lemma chomp_snoc b x : chomp (b ++ [x]) = if Ascii.eqb x CR then b else b ++ [x].
Proof.
  unfold chomp. rewrite byte_at_snoc, length_app. simpl. rewrite Nat.add_sub, take_app_length. done.
Qed.

Lemma chomp_cons c d l : chomp (c :: d :: l) = c :: chomp (d :: l).
Proof.
  destruct (exists_last (l := d :: l)) as (b & x & ->); [done|].
  change (c :: b ++ [x]) with ((c :: b) ++ [x]). rewrite !chomp_snoc. by destruct (Ascii.eqb x CR).
Qed.

Lemma normalize_cons2 c d s :
  normalize (c :: d :: s) = if Ascii.eqb c CR && Ascii.eqb d NL then normalize (d :: s) else c :: normalize (d :: s).
Proof. done. Qed.

(** The normal form of a line. *)
Lemma normalize_line b s : NL ∉ b -> normalize (b ++ NL :: s) = chomp b ++ NL :: normalize s.
Proof.
  induction b as [|c [|d b] IH]; intros Hb; [done|..].
  - simpl. unfold chomp, byte_at. simpl. eqb c CR; [done|]. by rewrite bool_decide_eq_false_2 by congruence.
  - simpl app. rewrite normalize_cons2, chomp_cons. destruct (Ascii.eqb_spec d NL) as [->|_]; [set_solver|].
    rewrite andb_false_r. simpl app in IH. rewrite IH by set_solver. done.
Qed.

Lemma normalize_last l : NL ∉ l -> normalize l = chomp l.
Proof.
  induction l as [|c [|d l] IH]; intros Hl; [done|..].
  - simpl. unfold chomp, byte_at. simpl. eqb c CR; [done|]. by rewrite bool_decide_eq_false_2 by congruence.
  - rewrite normalize_cons2, chomp_cons. destruct (Ascii.eqb_spec d NL) as [->|_]; [set_solver|].
    rewrite andb_false_r, IH by set_solver. done.
Qed.

(** A line ends with its line end, or is the last one. *)
Definition is_line (l rest : list ascii) : Prop := (exists b, l = b ++ [NL] /\ (NL ∉ b)) \/ ((NL ∉ l) /\ rest = []).

Lemma elem_of_take_list {A} n (l : list A) x : x ∈ take n l -> x ∈ l.
Proof. intros Hx. rewrite <- (take_drop n l). set_solver. Qed.

Lemma NL_chomp l : NL ∉ l -> NL ∉ chomp l.
Proof. unfold chomp. case_match; [|done]. intros Hl Hin. by apply Hl, (elem_of_take_list (length l - 1)). Qed.

Lemma chomp_length l : (length (chomp l) <= length l)%nat.
Proof. unfold chomp. case_match; [rewrite length_take|]; lia. Qed.

(** The last two bytes of a line that ends with NL. *)
Lemma line_crlf b :
  (if Nat.leb 2 (length (b ++ [NL])) && byte_at (b ++ [NL]) (length (b ++ [NL]) - 2) CR
      && byte_at (b ++ [NL]) (length (b ++ [NL]) - 1) NL
   then take (length (b ++ [NL]) - 2) (b ++ [NL]) ++ [NL] else b ++ [NL]) = chomp b ++ [NL].
Proof.
  rewrite byte_at_snoc. replace (Ascii.eqb NL NL) with true by done. rewrite andb_true_r, length_app.
  destruct (nil_or_length_pos b) as [->|Hb]; [done|]. change (length [NL]) with 1%nat.
  rewrite (leb_correct 2) by lia. cbn [andb].
  replace (length b + 1 - 2)%nat with (length b - 1)%nat by lia. unfold chomp.
  replace (byte_at (b ++ [NL]) (length b - 1) CR) with (byte_at b (length b - 1) CR)
    by (unfold byte_at; by rewrite lookup_app_l by lia).
  case_match; [|done]. by rewrite take_app_le by lia.
Qed.

Lemma readLine_ok r : let '(l, eof, r') := readLine r in
  normalize (source r) = l ++ normalize (source r') /\ is_line l (source r')
  /\ LazyQuotes r' = LazyQuotes r /\ FieldsPerRecord r' = FieldsPerRecord r
  /\ (eof = true -> source r = [] /\ l = [])
  /\ (eof = false -> (length l + length (source r') <= length (source r) /\ length (source r') < length (source r))%nat).
Proof.
  unfold readLine. pose proof (ReadSlice_ok (source r)) as Hs.
  destruct (ReadSlice NL (source r)) as [[l rest] [|]]; destruct Hs as (Hs & Ht & Hf); cbn [negb andb source].
  - destruct Ht as (b & -> & Hb); [done|]. rewrite line_crlf, Hs, <- app_assoc. simpl app.
    rewrite normalize_line, <- app_assoc by done. split_and!; try done.
    + left. exists (chomp b). split; [done|by apply NL_chomp].
    + intros _. pose proof (chomp_length b). rewrite !length_app. simpl. lia.
  - destruct Hf as [Hl ->]; [done|]. rewrite app_nil_r in Hs. rewrite Hs.
    assert (Hc : (if negb (length l =? 0)%nat && byte_at l (length l - 1) CR then take (length l - 1) l else l) = chomp l)
      by (by destruct l).
    rewrite Hc. assert (Hn : byte_at (chomp l) (length (chomp l) - 1) NL = false).
    { apply bool_decide_eq_false_2. intros Hin%list_elem_of_lookup_2. by apply (NL_chomp l). }
    rewrite Hn, andb_false_r, normalize_last, app_nil_r by done. split_and!; try done.
    + right. split; [by apply NL_chomp|done].
    + intros He. destruct l; [done|discriminate].
    + intros He. pose proof (chomp_length l). destruct l; [discriminate|]. simpl in *. lia.
Qed.

(** ** The automaton over pieces of text *)

Lemma scan_bare_run lazy f s buf done : (Comma ∉ f) -> (NL ∉ f) -> lazy = true \/ (QUOTE ∉ f) ->
  scan lazy Bare (f ++ s) buf done = scan lazy Bare s (buf ++ f) done.
Proof.
  revert buf. induction f as [|x f IH]; intros buf Hc Hn Hq; simpl app; [by rewrite app_nil_r|].
  cbn [scan]. assert (Hrec : scan lazy Bare (f ++ s) (buf ++ [x]) done = scan lazy Bare s (buf ++ x :: f) done).
  { rewrite IH, <- app_assoc; [done|set_solver|set_solver|]. destruct Hq; [by left|right; set_solver]. }
  eqb x QUOTE; [destruct Hq as [->|Hq]; [done|set_solver]|].
  eqb x Comma; [set_solver|]. eqb x NL; [set_solver|]. done.
Qed.

Lemma scan_quoted_run lazy f s buf done : (QUOTE ∉ f) ->
  scan lazy Quoted (f ++ s) buf done = scan lazy Quoted s (buf ++ f) done.
Proof.
  revert buf. induction f as [|x f IH]; intros buf Hq; simpl app; [by rewrite app_nil_r|].
  cbn [scan]. eqb x QUOTE; [set_solver|]. rewrite IH, <- app_assoc; [done|set_solver].
Qed.

Lemma IndexByte_some b c i : IndexByte b c = Some i -> b = take i b ++ c :: drop (i + 1) b /\ (c ∉ take i b).
Proof.
  revert i. induction b as [|x b IH]; intros i; simpl; [done|]. eqb x c.
  - intros [= <-]. simpl. split; [done|apply not_elem_of_nil].
  - destruct (IndexByte b c) as [j|]; [|done]. intros [= <-]. destruct (IH j eq_refl) as [Hb Hc]. simpl.
    split; [by f_equal|set_solver].
Qed.

Lemma IndexByte_none b c : IndexByte b c = None -> c ∉ b.
Proof.
  induction b as [|x b IH]; simpl; [intros _; apply not_elem_of_nil|]. eqb x c; [done|].
  destruct (IndexByte b c); [done|]. intros _. specialize (IH eq_refl). set_solver.
Qed.

(** What ends a field that is not quoted. *)
Definition after_field (lazy : bool) (t f : list ascii) (done : Fields) : ((Fields * list ascii) + Cause)%type :=
  match t with
  | [] => inl (done ++ [f], [])
  | x :: t => if Ascii.eqb x Comma then scan lazy Start t [] (done ++ [f]) else inl (done ++ [f], t)
  end.

Definition ends_field (t : list ascii) : Prop := match t with [] => True | x :: _ => x = Comma \/ x = NL end.

Lemma scan_bare_end lazy t f done : ends_field t -> scan lazy Bare t f done = after_field lazy t f done.
Proof. destruct t as [|x t]; [done|]. by intros [->| ->]. Qed.

Lemma scan_start lazy t f done : ends_field (t : list ascii) -> (Comma ∉ f) -> (NL ∉ f) -> head f <> Some QUOTE ->
  scan lazy Start (f ++ t) [] done
  = match (if lazy then None else IndexByte f QUOTE) with
    | Some _ => inr ErrBareQuote
    | None => after_field lazy t f done
    end.
Proof.
  intros Ht Hc Hn Hq.
  assert (Hb : scan lazy Start (f ++ t) [] done = scan lazy Bare (f ++ t) [] done).
  { destruct f as [|x f]; simpl; [destruct t as [|y t]; [done|]; by destruct Ht as [->| ->]|].
    eqb x QUOTE; [done|]. done. }
  rewrite Hb. destruct lazy.
  - rewrite scan_bare_run by auto. by apply scan_bare_end.
  - destruct (IndexByte f QUOTE) as [i|] eqn:E.
    + destruct (IndexByte_some _ _ _ E) as [Hf Hi]. rewrite Hf, <- app_assoc, scan_bare_run; [done|..].
      * intros Hin. by apply Hc, (elem_of_take_list i).
      * intros Hin. by apply Hn, (elem_of_take_list i).
      * by right.
    + rewrite scan_bare_run; [by apply scan_bare_end|done|done|right; by apply IndexByte_none].
Qed.

(** ** Fields in the buffer *)

Fixpoint ends (n : nat) (fs : Fields) : list nat :=
  match fs with [] => [] | f :: fs => (n + length f)%nat :: ends (n + length f) fs end.

Lemma ends_snoc n fs f : ends n (fs ++ [f]) = ends n fs ++ [(n + length (concat fs ++ f))%nat].
Proof.
  revert n. induction fs as [|g fs IH]; intros n; simpl; [done|]. rewrite IH, !length_app. do 3 f_equal. lia.
Qed.

Lemma cut_ends pre fs cur : cut (length pre) (pre ++ concat fs ++ cur) (ends (length pre) fs) = fs.
Proof.
  revert pre. induction fs as [|f fs IH]; intros pre; simpl; [done|].
  rewrite drop_app_length. replace (length pre + length f - length pre)%nat with (length f) by lia.
  rewrite <- !app_assoc, take_app_length. f_equal. rewrite <- length_app. specialize (IH (pre ++ f)).
  by rewrite <- app_assoc in IH.
Qed.

(** ** The parser is the automaton *)

Definition rest_of (r : Reader) : list ascii := normalize (source r).
Definition stream (p : Parser) : list ascii := line p ++ rest_of (reader p).
Definition measure (p : Parser) : nat := length (line p) + length (source (reader p)).

(** The fields [done] and the beginning [cur] of the next are in the buffer. *)
Record parsing (done : Fields) (cur : list ascii) (p : Parser) : Prop := {
  pg_line : is_line (line p) (source (reader p));
  pg_buffer : recordBuffer p = concat done ++ cur;
  pg_indexes : fieldIndexes p = ends 0 done
}.

Lemma is_line_suffix f x l rest : x <> NL -> is_line (f ++ x :: l) rest -> is_line l rest.
Proof.
  intros Hx [(b & Hb & Hn)|[Hn ->]]; [left|right; set_solver].
  destruct (exists_last (l := x :: l)) as (l' & y & E); [done|].
  rewrite E, app_assoc in Hb. apply app_inj_tail in Hb as [<- ->].
  destruct l' as [|z l']; injection E as -> E; [by destruct Hx|]. exists l'. split; [done|set_solver].
Qed.

Lemma is_line_prefix f x l rest : x <> NL -> is_line (f ++ x :: l) rest -> NL ∉ f.
Proof.
  intros Hx [(b & Hb & Hn)|[Hn _]]; [|set_solver].
  destruct (exists_last (l := x :: l)) as (l' & y & E); [done|].
  rewrite E, app_assoc in Hb. apply app_inj_tail in Hb as [<- _]. set_solver.
Qed.

Lemma is_line_cons_nl l rest : is_line (NL :: l) rest -> l = [].
Proof.
  intros [([|x b] & Hb & Hn)|[Hn _]]; [by injection Hb|injection Hb as <- _|]; destruct Hn; apply list_elem_of_here.
Qed.

Lemma is_line_nil rest : is_line [] rest -> rest = [].
Proof. intros [(b & Hb & _)|[_ ->]]; [by destruct b|done]. Qed.

Lemma lengthNL_snoc b : lengthNL (b ++ [NL]) = 1%nat.
Proof. unfold lengthNL. rewrite byte_at_snoc, length_app. simpl. by rewrite Nat.add_comm. Qed.

Lemma lengthNL_none l : (NL ∉ l) -> lengthNL l = 0%nat.
Proof.
  intros Hl. unfold lengthNL, byte_at. rewrite bool_decide_eq_false_2, andb_false_r; [done|].
  by intros Hin%list_elem_of_lookup_2.
Qed.

Lemma parsing_append done cur b p : parsing done cur p -> parsing done (cur ++ b) (append b p).
Proof. intros [Hl Hb Hi]. split; simpl; [done|by rewrite Hb, app_assoc|done]. Qed.

Lemma parsing_end done cur p : parsing done cur p -> parsing (done ++ [cur]) [] (end_field p).
Proof.
  intros [Hl Hb Hi]. split; simpl; [done|..].
  - by rewrite concat_app, Hb; simpl; rewrite !app_nil_r.
  - by rewrite ends_snoc, Hb, Hi.
Qed.

Lemma parsing_advance done cur n p : is_line (drop n (line p)) (source (reader p)) ->
  parsing done cur p -> parsing done cur (advance n p).
Proof. intros Hn [Hl Hb Hi]. by split. Qed.

Lemma parsing_fields done p : parsing done [] p -> cut 0 (recordBuffer p) (fieldIndexes p) = done.
Proof. intros [_ Hb Hi]. rewrite Hb, Hi. apply (cut_ends []). Qed.

Definition same_reader (r r' : Reader) : Prop :=
  LazyQuotes r' = LazyQuotes r /\ FieldsPerRecord r' = FieldsPerRecord r
  /\ (length (source r') <= length (source r))%nat.

#[export] Instance same_reader_preorder : PreOrder same_reader.
Proof. split; [by intros r|]. intros x y z (?&?&?) (?&?&?). split_and!; [congruence|congruence|lia]. Qed.

Lemma next_part_ok done cur p : parsing done cur p ->
  parsing done cur (next_part p) /\ rest_of (reader p) = stream (next_part p)
  /\ same_reader (reader p) (reader (next_part p)) /\ (measure (next_part p) <= length (source (reader p)))%nat.
Proof.
  intros [Hl Hb Hi]. pose proof (readLine_ok (reader p)) as Hr. unfold next_part, stream, measure, same_reader, rest_of.
  destruct (readLine (reader p)) as [[l eof] r]; destruct Hr as (Hs & Hli & Hz & Hf & He & Hn). simpl.
  split_and!; try done.
  - destruct eof; [|destruct (Hn eq_refl); lia]. destruct (He eq_refl) as [Hs0 ->]. by rewrite (is_line_nil _ Hli), Hs0.
  - destruct eof; [|by destruct (Hn eq_refl)]. destruct (He eq_refl) as [Hs0 ->]. by rewrite (is_line_nil _ Hli), Hs0.
Qed.

(** The outcome of the parser for that of the automaton. *)
Definition agrees (res : ((Fields * list ascii) + Cause)%type) (err : option ParseError) (p : Parser) : Prop :=
  match res with
  | inl (fs, rest) => err = None /\ cut 0 (recordBuffer p) (fieldIndexes p) = fs /\ rest = rest_of (reader p)
  | inr e => exists pe, err = Some pe /\ pe_Err pe = e
  end.

Definition parses (o : option (option ParseError * Parser)) (r : Reader) (res : ((Fields * list ascii) + Cause)%type) : Prop :=
  exists err p, o = Some (err, p) /\ same_reader r (reader p) /\ agrees res err p.

Lemma parses_mono o r r' res : same_reader r r' -> parses o r' res -> parses o r res.
Proof. intros Hr (err & p & ? & ? & ?). exists err, p. split_and!; try done. by etransitivity. Qed.

(** The end of a record at the end of its last field. *)
Lemma parses_done done cur p rest : parsing done cur p -> rest = rest_of (reader p) ->
  parses (Some (None, end_field p)) (reader p) (inl (done ++ [cur], rest)).
Proof.
  intros Hp ->. exists None, (end_field p). split; [done|]. split; [simpl; reflexivity|].
  split; [done|]. split; [|done]. by apply parsing_fields, parsing_end.
Qed.

Lemma parses_error r rl ln col e p : same_reader r (reader p) ->
  parses (Some (Some (parse_error rl ln col e), p)) r (inr e).
Proof. intros Hr. eexists _, p. split_and!; [done|done|]. by eexists. Qed.

Lemma nextRune_byte x l d : uint8 d < 128 -> (nextRune (x :: l) =? uint8 d) = Ascii.eqb x d.
Proof.
  intros Hd. destruct (Ascii.eqb_spec x d) as [->|Hx].
  - apply Z.eqb_eq. unfold nextRune. by rewrite DecodeRune_self.
  - apply Z.eqb_neq. intros E. by apply Hx, (DecodeRune_ascii x l d).
Qed.

(** The line and the text after it, at a field that no quote begins. *)
Lemma field_line p done cur : parsing done cur p -> IndexByte (line p) Comma = None ->
  let f := take (length (line p) - lengthNL (line p)) (line p) in
  exists t, stream p = f ++ t /\ (Comma ∉ f) /\ (NL ∉ f)
  /\ ((t = [] /\ rest_of (reader p) = []) \/ t = NL :: rest_of (reader p)).
Proof.
  intros [[(b & Hb & Hn)|[Hn Hr]] _ _] Hc%IndexByte_none; unfold stream; cbv zeta.
  - rewrite Hb, lengthNL_snoc, length_app. change (length [NL]) with 1%nat.
    rewrite Nat.add_sub, take_app_length, <- app_assoc. eexists. split; [done|]. rewrite Hb in Hc.
    split; [set_solver|]. split; [done|by right].
  - rewrite lengthNL_none, Nat.sub_0_r, firstn_all by done. eexists. split; [done|].
    unfold rest_of. rewrite Hr. split_and!; [done|done|by left].
Qed.

Lemma nonempty_line l : Nat.ltb 0 (length l) = true -> (l : list ascii) <> [].
Proof. by destruct l. Qed.

Definition parser_ok (fuel : nat) (rl : Z) : Prop := forall quoted done cur p,
  parsing done cur p -> (quoted = false -> cur = []) -> (measure p < fuel)%nat ->
  parses (parse fuel rl quoted p) (reader p) (scan (LazyQuotes (reader p)) (if quoted then Quoted else Start) (stream p) cur done).

Lemma parse_bare fuel rl done p : parser_ok fuel rl -> parsing done [] p -> head (line p) <> Some QUOTE ->
  (measure p < S fuel)%nat ->
  parses (parse (S fuel) rl false p) (reader p) (scan (LazyQuotes (reader p)) Start (stream p) [] done).
Proof.
  intros IH Hp Hq Hfuel. cbn [parse negb].
  assert (Eq : Nat.eqb (length (line p)) 0 || negb (byte_at (line p) 0 QUOTE) = true).
  { destruct (line p) as [|x l]; [done|]. unfold byte_at. simpl. simpl in Hq. by rewrite bool_decide_eq_false_2. }
  rewrite Eq. destruct (IndexByte (line p) Comma) as [i|] eqn:Ec.
  - destruct (IndexByte_some _ _ _ Ec) as [Hl Hc]. pose proof (pg_line _ _ _ Hp) as Hli. rewrite Hl in Hli.
    assert (Hs : stream p = take i (line p) ++ Comma :: drop (i + 1) (line p) ++ rest_of (reader p))
      by (unfold stream; by rewrite Hl at 1; rewrite <- app_assoc).
    rewrite Hs, scan_start; [|by left|done|by eapply is_line_prefix, Hli|].
    2:{ rewrite Hl in Hq. by destruct (take i (line p)). }
    destruct (if LazyQuotes _ then _ else _) eqn:Eb; [by apply parses_error|].
    cbn [after_field]. set (p' := advance (i + 1) (end_field (append (take i (line p)) p))).
    assert (Hp' : parsing (done ++ [take i (line p)]) [] p').
    { apply parsing_advance; [by eapply is_line_suffix, Hli|]. by apply parsing_end, (parsing_append done []). }
    assert (Hm : (measure p' < measure p)%nat).
    { unfold measure, p'. simpl. rewrite Hl at 2. rewrite length_app. simpl. lia. }
    apply (IH false (done ++ [take i (line p)]) [] p' Hp'); [done|lia].
  - destruct (field_line _ _ _ Hp Ec) as (t & Hs & Hc & Hn & Ht). set (f := take _ (line p)) in *.
    assert (Hf : head f <> Some QUOTE).
    { unfold f. destruct (line p); [done|]. simpl in Hq |- *. destruct (S _ - _)%nat; [done|]. done. }
    rewrite Hs, scan_start; [|destruct Ht as [[-> _]| ->]; [done|by right]|done|done|done].
    destruct (if LazyQuotes _ then _ else _) eqn:Eb; [by apply parses_error|].
    pose proof (parsing_append _ _ f _ Hp) as Hp'.
    assert (Ha : after_field (LazyQuotes (reader p)) t f done = inl (done ++ [f], rest_of (reader p))).
    { destruct Ht as [[-> E]| ->]; simpl; [by rewrite E|done]. }
    rewrite Ha. by apply (parses_done _ _ _ _ Hp').
Qed.

Lemma parse_quote fuel rl done p : parser_ok fuel rl -> parsing done [] p -> head (line p) = Some QUOTE ->
  (measure p < S fuel)%nat ->
  parses (parse (S fuel) rl false p) (reader p) (scan (LazyQuotes (reader p)) Start (stream p) [] done).
Proof.
  intros IH Hp Hq Hfuel. destruct (line p) as [|x l] eqn:El; [done|]. injection Hq as ->.
  cbn [parse negb]. rewrite El. cbn [length Nat.eqb orb]. replace (byte_at (QUOTE :: l) 0 QUOTE) with true
    by (unfold byte_at; by rewrite bool_decide_eq_true_2). cbn [negb].
  assert (Hs : stream p = QUOTE :: stream (advance 1 p)) by (unfold stream; simpl; by rewrite El).
  rewrite Hs. cbn [scan]. replace (Ascii.eqb QUOTE QUOTE) with true by done.
  apply (IH true done [] (advance 1 p)); [|done|unfold measure in Hfuel |- *; simpl line; rewrite El in Hfuel |- *; simpl in *; rewrite ?drop_0; lia].
  apply parsing_advance; [|done]. pose proof (pg_line _ _ _ Hp) as Hl. rewrite El in Hl |- *. by apply (is_line_suffix [] QUOTE).
Qed.

(** After a quote inside of quotes. *)
Lemma parse_after_quote fuel rl done cur p q : parser_ok fuel rl -> parsing done cur q -> (measure q < fuel)%nat ->
  same_reader (reader p) (reader q) -> LazyQuotes (reader p) = LazyQuotes (reader q) ->
  let rn := nextRune (line q) in
  parses (if rn =? uint8 QUOTE then parse fuel rl true (advance 1 (append [QUOTE] q))
          else if rn =? uint8 Comma then parse fuel rl false (end_field (advance 1 q))
          else if Nat.eqb (lengthNL (line q)) (length (line q)) then Some (None, end_field q)
          else if LazyQuotes (reader q) then parse fuel rl true (append [QUOTE] q)
          else Some (Some (parse_error rl (numLine (reader q)) (pos_col q - 1) ErrQuote), q))
    (reader p) (scan (LazyQuotes (reader p)) Closed (stream q) cur done).
Proof.
  intros IH Hq Hfuel Hr Hz rn. apply (parses_mono _ _ _ _ Hr). rewrite Hz. clear p Hr Hz.
  pose proof (pg_line _ _ _ Hq) as Hl. unfold rn. destruct (line q) as [|x l] eqn:El.
  - assert (Hs : stream q = rest_of (reader q)) by (unfold stream; by rewrite El).
    assert (Hn : rest_of (reader q) = []) by (unfold rest_of; by rewrite (is_line_nil _ Hl)).
    rewrite Hs, Hn. simpl. apply parses_done; [done|by rewrite Hn].
  - assert (Hs : stream q = x :: stream (advance 1 q)) by (unfold stream; simpl; by rewrite El).
    assert (Hm : (measure (advance 1 q) < measure q)%nat)
      by (unfold measure; simpl line; rewrite El; simpl; rewrite ?drop_0; lia).
    rewrite Hs, !nextRune_byte by done. cbn [scan].
    assert (Hadv : x <> NL -> is_line (drop 1 (line q)) (source (reader q))).
    { intros Hx. rewrite El. simpl. by apply (is_line_suffix [] x). }
    eqb x QUOTE; [|eqb x Comma; [|eqb x NL]].
    + apply (IH true done (cur ++ [QUOTE]) (advance 1 (append [QUOTE] q))); [|done|unfold measure in *; simpl in *; lia].
      apply parsing_advance; [by apply Hadv|by apply parsing_append].
    + apply (IH false (done ++ [cur]) [] (end_field (advance 1 q))); [|done|unfold measure in *; simpl in *; lia].
      apply parsing_end, parsing_advance; [by apply Hadv|done].
    + rewrite (is_line_cons_nl _ _ Hl) in *. cbn. apply parses_done; [done|]. unfold stream. simpl. by rewrite El.
    + replace (Nat.eqb (lengthNL (x :: l)) (length (x :: l))) with false.
      2:{ symmetry. apply Nat.eqb_neq. unfold lengthNL. destruct l as [|y l]; [|case_match; simpl; lia].
          unfold byte_at. simpl. rewrite bool_decide_eq_false_2; [done|congruence]. }
      destruct (LazyQuotes (reader q)) eqn:Ez; [|by apply parses_error].
      pose proof (IH true done (cur ++ [QUOTE]) (append [QUOTE] q)) as Hi.
      assert (Hst : stream (append [QUOTE] q) = x :: stream (advance 1 q)) by (unfold stream; simpl; by rewrite El).
      rewrite Hst in Hi. cbn [scan] in Hi. destruct (Ascii.eqb_spec x QUOTE) as [|_]; [done|].
      rewrite <- app_assoc in Hi. cbn [reader append] in Hi. rewrite Ez in Hi.
      apply Hi; [by apply parsing_append|done|unfold measure in *; simpl; lia].
Qed.

Lemma parse_inside fuel rl done cur p : parser_ok fuel rl -> parsing done cur p -> (measure p < S fuel)%nat ->
  parses (parse (S fuel) rl true p) (reader p) (scan (LazyQuotes (reader p)) Quoted (stream p) cur done).
Proof.
  intros IH Hp Hfuel. cbn [parse negb]. destruct (IndexByte (line p) QUOTE) as [i|] eqn:Ec.
  - destruct (IndexByte_some _ _ _ Ec) as [Hl Hc]. pose proof (pg_line _ _ _ Hp) as Hli. rewrite Hl in Hli.
    set (q := advance (i + 1) (append (take i (line p)) p)).
    assert (Hs : stream p = take i (line p) ++ QUOTE :: stream q)
      by (unfold stream; rewrite Hl at 1; by rewrite <- app_assoc).
    rewrite Hs, scan_quoted_run by done. cbn [scan]. replace (Ascii.eqb QUOTE QUOTE) with true by done.
    apply (parse_after_quote fuel rl done (cur ++ take i (line p)) p q); [done|..|simpl; reflexivity|done].
    + apply parsing_advance; [by eapply is_line_suffix, Hli|by apply parsing_append].
    + unfold measure, q in *. simpl. rewrite Hl in Hfuel at 1. rewrite length_app in Hfuel. simpl in Hfuel. lia.
  - apply IndexByte_none in Ec. destruct (Nat.ltb 0 (length (line p))) eqn:El.
    + destruct (next_part_ok _ _ _ (parsing_append _ _ (line p) _ Hp)) as (Hp' & Hs & Hr & Hm).
      set (p' := next_part _) in *. simpl in Hs, Hr, Hm. unfold stream at 1. rewrite Hs, scan_quoted_run by done.
      apply (parses_mono _ _ _ _ Hr). destruct Hr as (Hz & _). rewrite <- Hz.
      apply IH; [done|done|]. unfold measure in Hfuel. apply Nat.ltb_lt in El. lia.
    + destruct (line p) as [|x l] eqn:E; [|done]. pose proof (pg_line _ _ _ Hp) as Hli. rewrite E in Hli.
      apply is_line_nil in Hli. unfold stream, rest_of. rewrite E, Hli. simpl.
      destruct (LazyQuotes (reader p)); cbn [negb]; [|by apply parses_error].
      apply parses_done; [done|]. unfold rest_of. by rewrite Hli.
Qed.

Lemma parse_scan fuel rl : parser_ok fuel rl.
Proof.
  induction fuel as [|fuel IH]; intros quoted done cur p Hp Hcur Hfuel; [lia|].
  destruct quoted; [by apply parse_inside|]. rewrite (Hcur eq_refl) in Hp |- *.
  destruct (decide (head (line p) = Some QUOTE)); [by apply parse_quote|by apply parse_bare].
Qed.

(** ** Records *)

Lemma skip_empty_line l s : is_line l s -> length l <> lengthNL l -> forall t, skip_empty (l ++ t) = l ++ t.
Proof.
  intros Hl Hn t. destruct l as [|x l]; [done|]. simpl. eqb x NL; [|done].
  rewrite (is_line_cons_nl _ _ Hl) in Hn. by destruct Hn.
Qed.

Lemma next_line_ok fuel r : (length (source r) < fuel)%nat ->
  exists l eof r', next_line fuel r = Some (l, eof, r') /\ LazyQuotes r' = LazyQuotes r /\ FieldsPerRecord r' = FieldsPerRecord r
  /\ if eof : bool then skip_empty (rest_of r) = []
     else skip_empty (rest_of r) = l ++ rest_of r' /\ l <> [] /\ is_line l (source r')
          /\ (length l + length (source r') <= length (source r) /\ length (source r') < length (source r))%nat.
Proof.
  revert r. induction fuel as [|fuel IH]; intros r Hfuel; [lia|]. cbn [next_line].
  pose proof (readLine_ok r) as Hr. destruct (readLine r) as [[l eof] r1]; destruct Hr as (Hs & Hl & Hz & Hf & He & Hn).
  destruct eof; cbn [negb andb].
  - destruct (He eq_refl) as [Hs0 _]. exists l, true, r1. unfold rest_of. rewrite Hs0. by split_and!.
  - destruct (Hn eq_refl) as [Hle Hlt]. destruct (Nat.eqb_spec (length l) (lengthNL l)) as [El|El].
    + destruct (IH r1) as (l2 & eof & r2 & Hnx & Hz2 & Hf2 & Hres); [lia|].
      assert (Hsk : skip_empty (rest_of r) = skip_empty (rest_of r1)).
      { unfold rest_of. rewrite Hs. destruct l as [|x [|y l]].
        - done.
        - simpl. unfold lengthNL, byte_at in El. simpl in El. eqb x NL; [done|].
          rewrite bool_decide_eq_false_2 in El; [done|congruence].
        - unfold lengthNL in El. destruct (_ && _); simpl in El; lia. }
      exists l2, eof, r2. rewrite Hsk, Hz2, Hf2. split_and!; try done.
      destruct eof; [done|]. destruct Hres as (? & ? & ? & ? & ?). split_and!; try done; lia.
    + exists l, false, r1. unfold rest_of. rewrite Hs, (skip_empty_line _ _ Hl El). split_and!; try done.
      intros ->. by destruct El.
Qed.

Definition malformed (c : Cause) (err : option Error) : Prop := exists pe, err = Some (Malformed pe) /\ pe_Err pe = c.

Lemma readRecord_ok fuel r : (length (source r) < fuel)%nat ->
  exists rec err r', readRecord fuel r = Some (rec, err, r') /\ LazyQuotes r' = LazyQuotes r
  /\ match skip_empty (rest_of r) with
     | [] => err = Some EOF
     | s => match scan (LazyQuotes r) Start s [] [] with
            | inr e => malformed e err
            | inl (fs, rest) =>
                let n := FieldsPerRecord r in let k := Z.of_nat (length fs) in
                rec = fs /\
                if (0 <? n) && negb (k =? n) then malformed ErrFieldCount err
                else err = None /\ rest = rest_of r' /\ FieldsPerRecord r' = (if n =? 0 then k else n)
                     /\ (length (source r') < length (source r))%nat
            end
     end.
Proof.
  intros Hfuel. unfold readRecord. destruct (next_line_ok fuel r Hfuel) as (l & eof & r1 & -> & Hz & Hf & Hres).
  destruct eof; [rewrite Hres; by exists [], (Some EOF), r1|]. destruct Hres as (Hs & Hne & Hl & Hle & Hlt).
  rewrite Hs. destruct l as [|x l]; [done|]. cbn [app]. change (x :: l ++ rest_of r1) with ((x :: l) ++ rest_of r1).
  set (p := {| line := x :: l |}).
  destruct (parse_scan fuel (numLine r1) false [] [] p) as (err & p' & -> & Hr & Ha); [by split|done|unfold measure; simpl in *; lia|].
  change (stream p) with ((x :: l) ++ rest_of r1) in Ha. change (LazyQuotes (reader p)) with (LazyQuotes r1) in Ha.
  rewrite Hz in Ha. destruct Hr as (Hz' & Hf' & Hlen). simpl in Hz', Hf', Hlen. rewrite <- Hf, <- Hf'.
  destruct (scan _ _ _ _ _) as [[fs rest]|e].
  - destruct Ha as (-> & -> & ->). destruct (0 <? FieldsPerRecord (reader p')) eqn:En.
    + eexists _, _, _. split; [done|]. split; [congruence|]. split; [done|]. cbn [andb].
      destruct (negb _); [by eexists|]. split_and!; try done; [|lia]. by destruct (FieldsPerRecord (reader p')).
    + eexists _, _, _. split; [done|]. split; [by case_match; simpl; congruence|]. split; [done|]. cbn [andb].
      split; [done|]. by destruct (FieldsPerRecord (reader p') =? 0) eqn:E0; simpl; (split_and!; [done|done|lia]).
  - destruct Ha as (pe & -> & <-). destruct (0 <? FieldsPerRecord (reader p')).
    + eexists _, _, _. split; [done|]. split; [congruence|]. by eexists.
    + eexists _, _, _. split; [done|]. split; [by case_match; simpl; congruence|]. by eexists.
Qed.

(** ** The whole source *)

Definition cause_of (x : (list Fields + ParseError)%type) : (list Fields + Cause)%type :=
  match x with inl l => inl l | inr e => inr (pe_Err e) end.

Lemma read_all_ok fuel r acc : (length (source r) < fuel)%nat ->
  option_map cause_of (read_all fuel r acc)
  = Some (records_of fuel (LazyQuotes r) (FieldsPerRecord r) (rest_of r) acc).
Proof.
  revert r acc. induction fuel as [|fuel IH]; intros r acc Hfuel; [lia|]. cbn [read_all records_of].
  destruct (readRecord_ok (S (S (length (source r)))) r) as (rec & err & r' & -> & Hz & Hres); [lia|].
  destruct (skip_empty (rest_of r)) as [|x s]; [by rewrite Hres|].
  destruct (scan _ Start (x :: s) [] []) as [[fs rest]|e]; [|by destruct Hres as (pe & -> & <-)].
  destruct Hres as (-> & Hres). cbv zeta. destruct (_ && _); [by destruct Hres as (pe & -> & <-)|].
  destruct Hres as (-> & -> & <- & Hlt). rewrite <- Hz. apply IH. lia.
Qed.

Lemma ReadAll_records s recs : ReadAll (NewReader s) = Some (inl recs) ->
  records_of (S (length s)) false 0 (normalize s) [] = inl recs.
Proof.
  intros E. pose proof (read_all_ok (S (length s)) (NewReader s) []) as Hr. fold (ReadAll (NewReader s)) in Hr.
  change (read_all (S (length s)) (NewReader s) []) with (ReadAll (NewReader s)) in Hr. rewrite E in Hr.
  assert (Hs : (length (source (NewReader s)) < S (length s))%nat) by (simpl; lia). specialize (Hr Hs). by injection Hr.
Qed.

Lemma ReadAll_complete s recs : records_of (S (length s)) false 0 (normalize s) [] = inl recs ->
  ReadAll (NewReader s) = Some (inl recs).
Proof.
  intros E. pose proof (read_all_ok (S (length s)) (NewReader s) []) as Hr.
  change (read_all (S (length s)) (NewReader s) []) with (ReadAll (NewReader s)) in Hr.
  assert (Hs : (length (source (NewReader s)) < S (length s))%nat) by (simpl; lia). specialize (Hr Hs).
  change (rest_of (NewReader s)) with (normalize s) in Hr. simpl in Hr. simpl in E. rewrite E in Hr.
  destruct (ReadAll (NewReader s)) as [[l|e]|]; simpl in Hr; congruence.
Qed.

Lemma scan_fields lazy st s buf done fs rest : scan lazy st s buf done = inl (fs, rest) -> fs <> [].
Proof.
  revert st buf done. induction s as [|x s IH]; intros st buf done; cbn [scan].
  - intros E. assert (Hf : fs = done ++ [buf]) by (repeat case_match; congruence). rewrite Hf. by destruct done.
  - intros E. repeat case_match; first [discriminate | by eapply IH | injection E as <- _; by destruct done].
Qed.

Lemma records_of_width fuel lazy n s acc recs : 0 <= n -> records_of fuel lazy n s acc = inl recs ->
  exists l k, recs = acc ++ l /\ (0 < n -> k = n) /\ 0 <= k
  /\ Forall (fun rec => rec <> [] /\ Z.of_nat (length rec) = k) l.
Proof.
  revert n s acc. induction fuel as [|fuel IH]; intros n s acc Hn; cbn [records_of].
  { intros [= <-]. exists [], n. rewrite app_nil_r. by split_and!. }
  destruct (skip_empty s) as [|x s']; [intros [= <-]; exists [], n; rewrite app_nil_r; by split_and!|].
  destruct (scan _ _ _ _ _) as [[fs rest]|e] eqn:Es; [|done]. apply scan_fields in Es. cbv zeta.
  assert (Hpos : 0 < Z.of_nat (length fs)) by (destruct fs; [done|simpl; lia]).
  destruct (_ && _) eqn:Ew; [done|]. intros Hr. apply IH in Hr as (l & k & -> & Hk & Hk0 & Hl); [|case_match; lia].
  exists (fs :: l), k. rewrite <- app_assoc. destruct (Z.eqb_spec n 0) as [->|Hne].
  - split; [done|]. split; [lia|]. split; [done|]. constructor; [|done]. split; [done|]. symmetry. by apply Hk.
  - assert (Hfs : Z.of_nat (length fs) = n).
    { replace (0 <? n) with true in Ew by (symmetry; apply Z.ltb_lt; lia). simpl in Ew. bool_prop. lia. }
    split; [done|]. split; [done|]. split; [done|]. constructor; [|done]. split; [done|]. rewrite Hfs. symmetry. apply Hk. lia.
Qed.

(** The records of a file have one width, and a field at least. *)
Lemma ReadAll_rectangular s recs : ReadAll (NewReader s) = Some (inl recs) ->
  exists k, (0 < length recs -> 0 < k)%nat /\ Forall (fun rec => length rec = k) recs.
Proof.
  intros (l & k & -> & _ & Hk & Hl)%ReadAll_records%records_of_width; [|done]. simpl. exists (Z.to_nat k).
  split; [|eapply Forall_impl; [exact Hl|]; intros rec [_ Hr]; lia].
  destruct l as [|rec l]; [simpl; lia|]. intros _. apply Forall_cons in Hl as [[Hne Hr] _]. destruct rec; [done|]. simpl in Hr. lia.
Qed.

(** ** What is written is read back *)

(** A field comes back without the CR of its line ends, or of all when lines end in CRLF. *)
Fixpoint lf_only (f : list ascii) : list ascii :=
  match f with
  | [] => []
  | c :: f' => if Ascii.eqb c CR && match f' with [] => false | d :: _ => Ascii.eqb d NL end
               then lf_only f' else c :: lf_only f'
  end.

Definition read_back (useCRLF : bool) (f : list ascii) : list ascii :=
  if useCRLF then filter (fun c => c <> CR) f else lf_only f.

Definition escape (f : list ascii) : list ascii := flat_map (encode false) f.

Definition field_text (u : bool) (f : list ascii) : list ascii :=
  if negb (fieldNeedsQuotes f) then f else QUOTE :: flat_map (encode u) f ++ [QUOTE].

Fixpoint fields_text (u : bool) (n : nat) (record : Fields) : list ascii :=
  match record with
  | [] => []
  | f :: record => (if Nat.ltb 0 n then [Comma] else []) ++ field_text u f ++ fields_text u (S n) record
  end.

Definition line_end (u : bool) : list ascii := if u then [CR; NL] else [NL].

Definition record_text (u : bool) (record : Fields) : list ascii := fields_text u 0 record ++ line_end u.

Lemma write_field_text w f : write_field w f = emit (field_text (UseCRLF w) f) w.
Proof.
  unfold write_field, field_text, emit. destruct (negb _); [done|]. simpl. by rewrite <- !app_assoc.
Qed.

Lemma write_fields_text n record w : write_fields n record w = emit (fields_text (UseCRLF w) n record) w.
Proof.
  revert n w. induction record as [|f record IH]; intros n w; simpl; [unfold emit; rewrite app_nil_r; by destruct w|].
  rewrite write_field_text, IH. destruct (Nat.ltb 0 n); unfold emit; simpl; by rewrite <- !app_assoc.
Qed.

Lemma WriteAll_text w records :
  written (WriteAll w records) = written w ++ flat_map (record_text (UseCRLF w)) records.
Proof.
  unfold WriteAll. revert w. induction records as [|record records IH]; intros w; simpl; [by rewrite app_nil_r|].
  rewrite IH. unfold Write. rewrite write_fields_text. unfold record_text, line_end.
  destruct w as [[] w]; simpl; by rewrite <- !app_assoc.
Qed.

(** *** The text with its line ends normalised *)

Definition field_line_text (u : bool) (f : list ascii) : list ascii :=
  if negb (fieldNeedsQuotes f) then f else QUOTE :: escape (read_back u f) ++ [QUOTE].

Lemma unquoted_plain f : fieldNeedsQuotes f = false -> forall c, special c = true -> c ∉ f.
Proof.
  destruct f as [|x f]; [intros _ c _; apply not_elem_of_nil|]. unfold fieldNeedsQuotes.
  intros [[_ Hs]%orb_false_iff _]%orb_false_iff c Hc Hin. apply not_true_iff_false in Hs. apply Hs.
  apply existsb_exists. exists c. by rewrite <- list_elem_of_In.
Qed.

Lemma read_back_plain u f : (CR ∉ f) -> read_back u f = f.
Proof.
  intros Hf. destruct u; simpl.
  - induction f as [|c f IH]; [done|]. rewrite filter_cons_True by set_solver. f_equal. apply IH. set_solver.
  - induction f as [|c f IH]; [done|]. simpl. eqb c CR; [set_solver|]. simpl. f_equal. apply IH. set_solver.
Qed.

Lemma normalize_head c s : c <> CR \/ (exists d s', s = d :: s' /\ d <> NL) -> normalize (c :: s) = c :: normalize s.
Proof.
  intros Hc. simpl. eqb c CR; [|done]. destruct Hc as [|(d & s' & -> & Hd)]; [done|]. simpl. by eqb d NL.
Qed.

Lemma escape_app f g : escape (f ++ g) = escape f ++ escape g.
Proof. apply flat_map_app. Qed.

Lemma encode_head u c : c <> CR -> c <> NL -> exists d l, encode u c = d :: l /\ d <> NL.
Proof.
  intros Hc Hn. unfold encode. eqb c QUOTE; [by eexists _, _|]. eqb c CR; [done|]. eqb c NL; [done|]. by eexists _, _.
Qed.

Lemma normalize_encoded c s : c <> CR -> c <> NL -> normalize (encode false c ++ s) = encode false c ++ normalize s.
Proof.
  intros Hc Hn. apply normalize_app. unfold encode. eqb c QUOTE; [set_solver|]. eqb c CR; [done|]. eqb c NL; [done|]. set_solver.
Qed.

Lemma normalize_quoted u f s :
  normalize (flat_map (encode u) f ++ QUOTE :: s) = escape (read_back u f) ++ normalize (QUOTE :: s).
Proof.
  destruct u.
  - unfold read_back. induction f as [|c f IH]; [done|]. cbn [flat_map]. rewrite <- app_assoc.
    destruct (decide (c = CR)) as [->|Hc].
    + rewrite filter_cons_False by auto. exact IH.
    + rewrite filter_cons_True by done. unfold escape. cbn [flat_map]. fold (escape (filter (fun c => c <> CR) f)).
      rewrite <- app_assoc. destruct (decide (c = NL)) as [->|Hn].
      * change (encode true NL) with [CR; NL]. change (encode false NL) with [NL]. cbn [app].
        rewrite <- IH. done.
      * assert (He : encode true c = encode false c) by (unfold encode; eqb c CR; [done|]; by eqb c NL).
        by rewrite He, normalize_encoded, IH.
  - induction f as [|c f IH]; [done|]. cbn [flat_map read_back lf_only]. rewrite <- app_assoc.
    destruct (decide (c = CR)) as [->|Hc].
    + change (encode false CR) with [CR]. cbn [app]. destruct f as [|d f].
      * cbn [flat_map app lf_only]. by rewrite normalize_head by (right; by eexists _, _).
      * destruct (decide (d = NL)) as [->|Hn]; [exact IH|].
        replace (Ascii.eqb CR CR && Ascii.eqb d NL) with false by (by eqb d NL).
        rewrite normalize_head; [unfold read_back in IH; by rewrite IH|]. right.
        destruct (decide (d = CR)) as [->|Hd]; [by eexists _, _|].
        destruct (encode_head false d Hd Hn) as (e & l & He & Hne). cbn [flat_map]. rewrite He. by eexists _, _.
    + replace (Ascii.eqb c CR && _) with false by (by eqb c CR). unfold escape. cbn [flat_map].
      fold (escape (lf_only f)). rewrite <- app_assoc. unfold read_back in IH. rewrite <- IH.
      destruct (decide (c = NL)) as [->|Hn]; [done|]. by apply normalize_encoded.
Qed.

Lemma normalize_field u f s : normalize (field_text u f ++ s) = field_line_text u f ++ normalize s.
Proof.
  unfold field_text, field_line_text. destruct (fieldNeedsQuotes f) eqn:E; cbn [negb].
  - cbn [app]. rewrite normalize_head by (by left). rewrite <- !app_assoc. cbn [app]. rewrite normalize_quoted.
    by rewrite normalize_head by (by left).
  - apply normalize_app. by apply (unquoted_plain f).
Qed.

Fixpoint fields_line_text (u : bool) (n : nat) (record : Fields) : list ascii :=
  match record with
  | [] => []
  | f :: record => (if Nat.ltb 0 n then [Comma] else []) ++ field_line_text u f ++ fields_line_text u (S n) record
  end.

Lemma normalize_record u record s :
  normalize (record_text u record ++ s) = fields_line_text u 0 record ++ NL :: normalize s.
Proof.
  unfold record_text. generalize 0%nat as n. induction record as [|f record IH]; intros n; cbn [fields_text fields_line_text].
  - destruct u; done.
  - rewrite <- !app_assoc. specialize (IH (S n)). rewrite <- app_assoc in IH.
    destruct (Nat.ltb 0 n); cbn [app]; [rewrite normalize_head by (by left)|]; by rewrite normalize_field, IH.
Qed.

(** *** The text read *)

Lemma scan_escaped lazy g s buf done :
  scan lazy Quoted (escape g ++ QUOTE :: s) buf done = scan lazy Closed s (buf ++ g) done.
Proof.
  revert buf. induction g as [|c g IH]; intros buf; [by rewrite app_nil_r|].
  unfold escape. cbn [flat_map]. fold (escape g). rewrite <- app_assoc. destruct (decide (c = QUOTE)) as [->|Hc].
  - change (encode false QUOTE) with [QUOTE; QUOTE]. cbn [app scan]. change (Ascii.eqb QUOTE QUOTE) with true. cbv iota.
    by rewrite IH, <- app_assoc.
  - replace (encode false c) with [c]; [|unfold encode; eqb c QUOTE; [done|]; eqb c CR; [done|]; by eqb c NL].
    cbn [app scan]. eqb c QUOTE; [done|]. by rewrite IH, <- app_assoc.
Qed.

Lemma scan_field lazy u f t done : ends_field t -> t <> [] ->
  scan lazy Start (field_line_text u f ++ t) [] done = after_field lazy t (read_back u f) done.
Proof.
  intros Ht Hne. unfold field_line_text. destruct (fieldNeedsQuotes f) eqn:E; cbn [negb].
  - cbn [app scan]. change (Ascii.eqb QUOTE QUOTE) with true. cbv iota. rewrite <- app_assoc. cbn [app].
    rewrite scan_escaped. destruct t as [|x t]; [done|]. by destruct Ht as [->| ->].
  - pose proof (unquoted_plain f E) as Hp. rewrite scan_start; [|done|by apply Hp|by apply Hp|].
    + rewrite (read_back_plain u f) by by apply Hp. destruct lazy; [done|].
      destruct (IndexByte f QUOTE) as [i|] eqn:Ei; [|done]. destruct (IndexByte_some _ _ _ Ei) as [Hf _].
      exfalso. apply (Hp QUOTE); [done|]. rewrite Hf. set_solver.
    + intros Hh. apply (Hp QUOTE); [done|]. destruct f; [done|]. injection Hh as ->. apply list_elem_of_here.
Qed.

Lemma fields_line_text_later u n record : fields_line_text u (S n) record = fields_line_text u 1 record.
Proof.
  revert n. induction record as [|f record IH]; intros n; [done|]. cbn [fields_line_text Nat.ltb Nat.leb].
  by rewrite !(IH (S _)).
Qed.

Lemma scan_record lazy u record t done : record <> [] ->
  scan lazy Start (fields_line_text u 0 record ++ NL :: t) [] done = inl (done ++ map (read_back u) record, t).
Proof.
  intros Hne. destruct record as [|f record]; [done|]. clear Hne. cbn [fields_line_text Nat.ltb Nat.leb app].
  revert f done. induction record as [|g record IH]; intros f done; rewrite <- app_assoc.
  - rewrite scan_field; [done|by right|done].
  - rewrite scan_field; [|by left|done]. cbn [fields_line_text Nat.ltb Nat.leb app after_field].
    change (Ascii.eqb Comma Comma) with true. cbv iota.
    rewrite fields_line_text_later, IH. by rewrite <- app_assoc.
Qed.

Lemma record_text_nonempty u record t : record <> [] -> record <> [[]] ->
  skip_empty (fields_line_text u 0 record ++ NL :: t) = fields_line_text u 0 record ++ NL :: t
  /\ fields_line_text u 0 record ++ NL :: t <> [].
Proof.
  intros Hne Hne'. destruct record as [|f record]; [done|]. cbn [fields_line_text Nat.ltb Nat.leb app].
  assert (Hh : exists x l, field_line_text u f ++ fields_line_text u 1 record = x :: l /\ x <> NL).
  { unfold field_line_text. destruct (fieldNeedsQuotes f) eqn:E; cbn [negb app]; [by eexists _, _|].
    destruct f as [|x f]; [|eexists _, _; split; [done|]].
    - destruct record as [|g record]; [done|]. by eexists _, _.
    - intros ->. apply (unquoted_plain _ E NL); [done|apply list_elem_of_here]. }
  destruct Hh as (x & l & -> & Hx). split; [|done]. cbn [app skip_empty]. by eqb x NL.
Qed.

(** The records that are written as an empty line: without a field, or of one empty field. *)
Definition empty_line (record : Fields) : bool := match record with [] | [[]] => true | _ => false end.

Lemma empty_line_text u record : empty_line record = true -> fields_line_text u 0 record = [].
Proof. by destruct record as [|[|c f] [|g record]]. Qed.

Lemma records_of_skip fuel lazy n s acc : records_of fuel lazy n (NL :: s) acc = records_of fuel lazy n s acc.
Proof. by destruct fuel. Qed.

Lemma records_of_text u k records : Forall (fun record : Fields => length record = k) records ->
  forall fuel n acc, n = 0 \/ n = Z.of_nat k -> (length records < fuel)%nat ->
  records_of fuel false n (flat_map (fun record => fields_line_text u 0 record ++ [NL]) records) acc
  = inl (acc ++ map (map (read_back u)) (where_ (fun record => negb (empty_line record)) records)).
Proof.
  induction 1 as [|record records Hk Hw IH]; intros fuel n acc Hn Hfuel.
  { destruct fuel; simpl; by rewrite app_nil_r. }
  unfold where_ in *. cbn [flat_map List.filter]. rewrite <- app_assoc. cbn [app length] in *.
  destruct (empty_line record) eqn:E; cbn [negb].
  { rewrite (empty_line_text u record E). cbn [app]. rewrite records_of_skip. apply IH; [done|lia]. }
  assert (record <> [] /\ record <> [[]]) as [Hne Hne'] by (split; by intros ->).
  destruct fuel as [|fuel]; [lia|]. cbn [records_of map].
  destruct (record_text_nonempty u record (flat_map (fun record => fields_line_text u 0 record ++ [NL]) records) Hne Hne')
    as [-> Hs].
  destruct (_ ++ _) as [|x s] eqn:Et; [done|]. rewrite <- Et, scan_record by done. cbv zeta. cbn [app].
  rewrite length_map, Hk. replace ((0 <? n) && negb (Z.of_nat k =? n)) with false
    by (destruct Hn as [->| ->]; [done|]; by rewrite Z.eqb_refl, andb_false_r).
  rewrite IH; [|right; destruct Hn as [->| ->]; [done|]; by case_match|lia].
  by rewrite <- app_assoc.
Qed.

Lemma normalize_records u records :
  normalize (flat_map (record_text u) records) = flat_map (fun record => fields_line_text u 0 record ++ [NL]) records.
Proof.
  induction records as [|record records IH]; [done|]. cbn [flat_map]. rewrite normalize_record, IH.
  by rewrite <- app_assoc.
Qed.

Lemma records_text_length u records : (length records <= length (flat_map (record_text u) records))%nat.
Proof.
  induction records as [|record records IH]; [done|]. cbn [flat_map]. rewrite length_app. unfold record_text at 1.
  rewrite length_app. assert (0 < length (line_end u))%nat by (destruct u; simpl; lia). simpl. lia.
Qed.

Lemma write_read u k records : Forall (fun record : Fields => length record = k) records ->
  ReadAll (NewReader (written (WriteAll {| UseCRLF := u; written := [] |} records)))
  = Some (inl (map (map (read_back u)) (where_ (fun record => negb (empty_line record)) records))).
Proof.
  intros Hw. apply ReadAll_complete. rewrite WriteAll_text. cbn [written UseCRLF app]. rewrite normalize_records.
  rewrite (records_of_text u k); [done|done|by left|]. pose proof (records_text_length u records). lia.
Qed.

End Rfc.

Import Rfc.

(** C20: ReadAll is the automaton of RFC 4180 over the text with its line ends
    normalised: the same records, or an error for the same cause, for every text and
    every setting of LazyQuotes and FieldsPerRecord; its loops always end. *)
Theorem ReadAll_reference r :
  option_map cause_of (ReadAll r)
  = Some (records_of (S (length (source r))) (LazyQuotes r) (FieldsPerRecord r) (normalize (source r)) []).
Proof. apply read_all_ok. lia. Qed.

(** C12: for all records of one width and all bytes in their fields (commas, quotes, line
    ends, NUL or broken UTF-8), ReadAll reads what WriteAll writes without an error, record by
    record and field by field. What is lost is exactly this: a record that is written as an
    empty line, because it has no field or one empty field, is skipped; each CRLF within a
    field becomes LF, and with UseCRLF each CR within a field is dropped. A field without CR
    comes back byte for byte. *)
Theorem csv_roundtrip u k records : Forall (fun record : Fields => length record = k) records ->
  ReadAll (NewReader (written (WriteAll {| UseCRLF := u; written := [] |} records)))
    = Some (inl (map (map (read_back u)) (where_ (fun record => negb (empty_line record)) records)))
  /\ forall f, (CR ∉ f) -> read_back u f = f.
Proof. intros Hr. split; [by apply (write_read u k)|apply read_back_plain]. Qed.

(** The records that the program reads of a file have one width. *)
Lemma read_file_rectangular s headers rows : csv.read_file s = Some (headers :: rows) ->
  Forall (fun row => length row = length headers) rows.
Proof.
  unfold read_file. destruct (ReadAll _) as [[recs|]|] eqn:E; [|done|done]. intros [= Er].
  destruct (ReadAll_rectangular _ _ E) as (k & _ & Hk). destruct recs as [|h recs]; [done|]. injection Er as <- <-.
  apply Forall_cons in Hk as [Hh Hk]. rewrite length_map. apply Forall_map. eapply Forall_impl; [exact Hk|].
  intros row Hr. simpl. rewrite length_map. congruence.
Qed.

(** The text of a field after its way through a file. *)
Definition lf_text (s : string) : string := string_of_list_ascii (lf_only (list_ascii_of_string s)).

Lemma lf_text_plain s : (CR ∉ list_ascii_of_string s) -> lf_text s = s.
Proof.
  intros Hs. unfold lf_text. change (lf_only ?x) with (read_back false x).
  rewrite read_back_plain by done. apply string_of_list_ascii_of_string.
Qed.

Lemma filter_all {A} (P : A -> bool) l : Forall (fun x => P x = true) l -> List.filter P l = l.
Proof. induction 1 as [|x l Hx Hl IH]; simpl; [done|]. by rewrite Hx, IH. Qed.

(** A file of at least two columns that the program has written, read back. *)
Lemma write_file_read k records : (2 <= k)%nat -> Forall (fun record : list string => length record = k) records ->
  csv.read_file (csv.write_file records) = Some (map (map lf_text) records).
Proof.
  intros Hk Hr. unfold read_file, write_file. rewrite list_ascii_of_string_of_list_ascii.
  change NewWriter with {| UseCRLF := false; written := [] |}. rewrite (write_read false k).
  - f_equal. unfold where_. rewrite filter_all.
    + rewrite !map_map. apply map_ext. intros record. by rewrite !map_map.
    + apply Forall_map. eapply Forall_impl; [exact Hr|]. intros record Hl. simpl.
      destruct record as [|f [|g record]]; simpl in Hl; [lia|lia|]. by destruct f.
  - apply Forall_map. eapply Forall_impl; [exact Hr|]. intros record Hl. simpl. by rewrite length_map.
Qed.

(** Three fields with a comma, a quote and a CRLF; and the empty line that is skipped. *)
Lemma csv_roundtrip_witness :
  let fields := [[text "Das, Kiran"; [QUOTE] ++ text "KD"; text "a" ++ [CR; NL]]; [text " x"; []; text "y"]] in
  ReadAll (NewReader (written (WriteAll {| UseCRLF := false; written := [] |} fields)))
    = Some (inl [[text "Das, Kiran"; [QUOTE] ++ text "KD"; text "a" ++ [NL]]; [text " x"; []; text "y"]])
  /\ ReadAll (NewReader (written (WriteAll {| UseCRLF := false; written := [] |} [[text "a"]; [[]]; [text "b"]])))
    = Some (inl [[text "a"]; [text "b"]]).
Proof.
  intros fields. split; [|apply (csv_roundtrip false 1); by repeat constructor].
  apply (csv_roundtrip false 3 fields). by repeat constructor.
Defined.
