(* ===== verification/Strings.v ===== *)
(** * strings

    The functions of the package strings of the Go library that the program is built with
    (local_go/src/strings, with internal/stringslite and internal/bytealg below it) by which
    the handlers take texts apart: searching with its three methods, splitting, joining,
    replacing, repeating and trimming. A string is its bytes; an index or a slice out of range, which
    panics, is [None]. The lengths of strings fit an int, and so do the sums of indices into
    them. *)

From Stdlib Require Import Ascii String.
From stdpp Require Import list.
From S2P Require Import Prelude Go Utf8.

#[local] Open Scope Z_scope.

Module strings.

(** ** Strings as values of Go *)

Abbreviation text := (list ascii).

Definition len (s : text) : Z := Z.of_nat (length s).
Definition maxInt : Z := 2 ^ 63 - 1.

(** [s[i]] *)
Definition at_ (s : text) (i : Z) : option ascii := if i <? 0 then None else s !! Z.to_nat i.

(** [s[a:b]] *)
Definition slice (s : text) (a b : Z) : option text :=
  if (0 <=? a) && (a <=? b) && (b <=? len s)
  then Some (firstn (Z.to_nat (b - a)) (skipn (Z.to_nat a) s)) else None.

Definition equal (s t : text) : bool := bool_decide (s = t).

(** ** internal/bytealg *)

Definition PrimeRK : Z := 16777619.
Definition uint32 (n : Z) : Z := n mod 2 ^ 32.

(** [h*PrimeRK + uint32(c)] *)
Definition add_byte (h : Z) (c : ascii) : Z := uint32 (h * PrimeRK + uint8 c).

Fixpoint pow_loop (fuel : nat) (i pow sq : Z) : Z :=
  match fuel with
  | O => pow
  | S f =>
      if 0 <? i then
        let pow := if negb (Z.land i 1 =? 0) then uint32 (pow * sq) else pow in
        pow_loop f (Z.shiftr i 1) pow (uint32 (sq * sq))
      else pow
  end.

(** A length has at most 63 bits. *)
Definition HashStr (sep : text) : Z * Z := (fold_left add_byte sep 0, pow_loop 64 (len sep) 1 PrimeRK).

Fixpoint rk_loop (fuel : nat) (s sep : text) (hashss pow h i : Z) : option Z :=
  match fuel with
  | O => None
  | S f =>
      if i <? len s then
        c ← at_ s i;
        b ← at_ s (i - len sep);
        let h := uint32 (uint32 (uint32 (h * PrimeRK) + uint8 c) - uint32 (pow * uint8 b)) in
        let i := i + 1 in
        w ← slice s (i - len sep) i;
        if (h =? hashss) && equal w sep then Some (i - len sep)
        else rk_loop f s sep hashss pow h i
      else Some (-1)
  end.

Definition IndexRabinKarp (s sep : text) : option Z :=
  let '(hashss, pow) := HashStr sep in
  let n := len sep in
  w ← slice s 0 n;
  let h := fold_left add_byte w 0 in
  if (h =? hashss) && equal w sep then Some 0
  else rk_loop (S (length s)) s sep hashss pow h n.

(** [IndexByteString], as in indexbyte_generic.go *)
Fixpoint IndexByteString (s : text) (c : ascii) : Z :=
  match s with
  | [] => -1
  | x :: s => if Ascii.eqb x c then 0 else let r := IndexByteString s c in if r <? 0 then -1 else r + 1
  end.

(** [CountString], as in count_generic.go *)
Definition CountString (s : text) (c : ascii) : Z := Z.of_nat (length (List.filter (fun x => Ascii.eqb x c) s)).

(** What depends on the machine: the lengths up to which [IndexString] is used, when it is
    preferred, and the function itself, which is written in assembly. *)
Class Bytealg := {
  MaxLen : Z;
  MaxBruteForce : Z;
  Cutover : Z -> Z;
  IndexString : text -> text -> Z
}.

(** ** Searching: internal/stringslite *)

Definition HasPrefix (s prefix : text) : bool :=
  (len prefix <=? len s) && match slice s 0 (len prefix) with Some t => equal t prefix | None => false end.

Definition HasSuffix (s suffix : text) : bool :=
  (len suffix <=? len s) && match slice s (len s - len suffix) (len s) with Some t => equal t suffix | None => false end.

(** [if s[i] != c0 { o := IndexByte(s[i+1:t], c0); if o < 0 { return -1 }; i += o + 1 }] *)
Definition advance (s : text) (c0 : ascii) (t i : Z) : option (option Z) :=
  c ← at_ s i;
  if Ascii.eqb c c0 then Some (Some i)
  else
    r ← slice s (i + 1) t;
    let o := IndexByteString r c0 in
    Some (if o <? 0 then None else Some (i + (o + 1))).

(** [s[i+1] == c1 && s[i:i+n] == substr] *)
Definition matches (s substr : text) (c1 : ascii) (i : Z) : option bool :=
  c ← at_ s (i + 1);
  if Ascii.eqb c c1 then w ← slice s i (i + len substr); Some (equal w substr) else Some false.

Section Index.
Context `{Bytealg}.

(** The loop for short [substr]. *)
Fixpoint short_loop (fuel : nat) (s substr : text) (c0 c1 : ascii) (t i fails : Z) : option Z :=
  match fuel with
  | O => None
  | S f =>
      if i <? t then
        r ← advance s c0 t i;
        match r with
        | None => Some (-1)
        | Some i =>
            b ← matches s substr c1 i;
            if (b : bool) then Some i
            else
              let fails := fails + 1 in
              let i := i + 1 in
              if Cutover i <? fails then
                rest ← slice s i (len s);
                let r := IndexString rest substr in
                Some (if 0 <=? r then r + i else -1)
              else short_loop f s substr c0 c1 t i fails
        end
      else Some (-1)
  end.

(** The loop for long [substr]. *)
Fixpoint long_loop (fuel : nat) (s substr : text) (c0 c1 : ascii) (t i fails : Z) : option Z :=
  match fuel with
  | O => None
  | S f =>
      if i <? t then
        r ← advance s c0 t i;
        match r with
        | None => Some (-1)
        | Some i =>
            b ← matches s substr c1 i;
            if (b : bool) then Some i
            else
              let i := i + 1 in
              let fails := fails + 1 in
              if (4 + Z.shiftr i 4 <=? fails) && (i <? t) then
                rest ← slice s i (len s);
                j ← IndexRabinKarp rest substr;
                Some (if j <? 0 then -1 else i + j)
              else long_loop f s substr c0 c1 t i fails
        end
      else Some (-1)
  end.

Definition Index (s substr : text) : option Z :=
  let n := len substr in
  if n =? 0 then Some 0
  else if n =? 1 then c ← at_ substr 0; Some (IndexByteString s c)
  else if n =? len s then Some (if equal substr s then 0 else -1)
  else if len s <? n then Some (-1)
  else if (n <=? MaxLen) && (len s <=? MaxBruteForce) then Some (IndexString s substr)
  else
    c0 ← at_ substr 0;
    c1 ← at_ substr 1;
    let t := len s - n + 1 in
    if n <=? MaxLen then short_loop (S (length s)) s substr c0 c1 t 0 0
    else long_loop (S (length s)) s substr c0 c1 t 0 0.

(** [Index(s, substr) >= 0] *)
Definition Contains (s substr : text) : option bool := r ← Index s substr; Some (0 <=? r).

Definition Cut (s sep : text) : option (text * text * bool) :=
  i ← Index s sep;
  if 0 <=? i then
    before ← slice s 0 i;
    after ← slice s (i + len sep) (len s);
    Some (before, after, true)
  else Some (s, [], false).

(** ** Counting and splitting: strings.go *)

Fixpoint count_loop (fuel : nat) (s substr : text) (n : Z) : option Z :=
  match fuel with
  | O => None
  | S f =>
      i ← Index s substr;
      if i =? -1 then Some n
      else s ← slice s (i + len substr) (len s); count_loop f s substr (n + 1)
  end.

(** The runes of a string, as utf8.RuneCountInString counts them. *)
Definition rune_size (s : text) : option Z :=
  c ← at_ s 0;
  if uint8 c <? RuneSelf then Some 1 else
  let x := first_of c in
  if x =? xx then Some 1 else
  let size := Z.land x 7 in
  if len s <? size then Some 1 else
  let accept := accept_of x in
  c1 ← at_ s 1;
  if outside accept (uint8 c1) then Some 1
  else if size =? 2 then Some 2 else
  c2 ← at_ s 2;
  if outside (locb, hicb) (uint8 c2) then Some 1
  else if size =? 3 then Some 3 else
  c3 ← at_ s 3;
  if outside (locb, hicb) (uint8 c3) then Some 1 else Some size.

Fixpoint rune_loop (fuel : nat) (s : text) (i n : Z) : option Z :=
  match fuel with
  | O => None
  | S f =>
      if i <? len s then
        rest ← slice s i (len s);
        k ← rune_size rest;
        rune_loop f s (i + k) (n + 1)
      else Some n
  end.

Definition RuneCountInString (s : text) : option Z := rune_loop (S (length s)) s 0 0.

Definition Count (s substr : text) : option Z :=
  if len substr =? 0 then n ← RuneCountInString s; Some (n + 1)
  else if len substr =? 1 then c ← at_ substr 0; Some (CountString s c)
  else count_loop (S (length s)) s substr 0.

(** [for i := 0; i < n-1; i++ { a[i] = s[:size]; s = s[size:] }] *)
Fixpoint explode_loop (k : nat) (s : text) : option (list text) :=
  match k with
  | O => Some [s]
  | S k =>
      let size := snd (DecodeRune s) in
      a ← slice s 0 size;
      s ← slice s size (len s);
      l ← explode_loop k s;
      Some (a :: l)
  end.

Definition explode (s : text) (n : Z) : option (list text) :=
  l ← RuneCountInString s;
  let n := if (n <? 0) || (l <? n) then l else n in
  if 0 <? n then explode_loop (Z.to_nat (n - 1)) s else Some [].

(** [for i < n { m := Index(s, sep); ... }; a[i] = s] *)
Fixpoint split_loop (n : nat) (s sep : text) (sepSave : Z) : option (list text) :=
  match n with
  | O => Some [s]
  | S k =>
      m ← Index s sep;
      if m <? 0 then Some [s]
      else
        a ← slice s 0 (m + sepSave);
        s ← slice s (m + len sep) (len s);
        l ← split_loop k s sep sepSave;
        Some (a :: l)
  end.

(** [a[:i+1]] of a fresh slice of [n] strings; with [n] equal to 0 the result is nil. *)
Definition genSplit (s sep : text) (sepSave n : Z) : option (list text) :=
  if n =? 0 then Some []
  else if len sep =? 0 then explode s n
  else
    n ← (if n <? 0 then k ← Count s sep; Some (k + 1) else Some n);
    let n := if len s + 1 <? n then len s + 1 else n in
    split_loop (Z.to_nat (n - 1)) s sep sepSave.

Definition SplitN (s sep : text) (n : Z) : option (list text) := genSplit s sep 0 n.
Definition SplitAfterN (s sep : text) (n : Z) : option (list text) := genSplit s sep (len sep) n.
Definition Split (s sep : text) : option (list text) := genSplit s sep 0 (-1).

(** ** Joining and repeating *)

(** [for _, elem := range elems { if len(elem) > maxInt-n { panic }; n += len(elem) }] *)
Fixpoint join_len (elems : list text) (n : Z) : option Z :=
  match elems with
  | [] => Some n
  | e :: elems => if maxInt - n <? len e then None else join_len elems (n + len e)
  end.

(** The builder grows to the length computed, and appends. *)
Definition Join (elems : list text) (sep : text) : option text :=
  match elems with
  | [] => Some []
  | [e] => Some e
  | e :: rest =>
      let k := Z.of_nat (length rest) in
      if (0 <? len sep) && (maxInt / k <=? len sep) then None
      else
        _ ← join_len elems (len sep * k);
        Some (fold_left (fun b x => (b ++ sep) ++ x) rest e)
  end.

Definition repeatedSpaces : text := repeat " "%char 128.
Definition repeatedDashes : text := repeat "-"%char 128.
Definition repeatedZeroes : text := repeat "0"%char 64.
Definition repeatedEquals : text := repeat "="%char 128.
Definition repeatedTabs : text := repeat "009"%char 64.

(** The cases of the switch on the first byte, in order. *)
Definition common_repeats : list text := [repeatedSpaces; repeatedDashes; repeatedZeroes; repeatedEquals; repeatedTabs].

Definition chunkLimit : Z := 8 * 1024.

Definition chunk_max (s : text) (n : Z) : Z :=
  if chunkLimit <? n then
    let m := Z.quot chunkLimit (len s) * len s in
    if m =? 0 then len s else m
  else n.

(** [for b.Len() < n { ... b.WriteString(b.String()[:chunk]) }] *)
Fixpoint repeat_loop (fuel : nat) (n chunkMax : Z) (b : text) : option text :=
  match fuel with
  | O => None
  | S f =>
      if len b <? n then
        let chunk := n - len b in
        let chunk := if len b <? chunk then len b else chunk in
        let chunk := if chunkMax <? chunk then chunkMax else chunk in
        w ← slice b 0 chunk;
        repeat_loop f n chunkMax (b ++ w)
      else Some b
  end.

Definition Repeat (s : text) (count : Z) : option text :=
  if count =? 0 then Some []
  else if count =? 1 then Some s
  else if count <? 0 then None
  else if Z.quot maxInt count <? len s then None
  else
    let n := len s * count in
    match s with
    | [] => Some []
    | c :: _ =>
        let common := existsb (Ascii.eqb c) [" "; "-"; "0"; "="; "009"]%char in
        match (if common then List.find (fun r => (n <=? len r) && HasPrefix r s) common_repeats else None) with
        | Some r => slice r 0 n
        | None => repeat_loop (Z.to_nat count) n (chunk_max s n) s
        end
    end.

(** ** Replacing *)

(** [n] more replacements from [start], the builder holding [b]; [first] in the first round. *)
Fixpoint replace_loop (k : nat) (s old new : text) (is_first : bool) (start : Z) (b : text) : option text :=
  match k with
  | O => rest ← slice s start (len s); Some (b ++ rest)
  | S k =>
      rest ← slice s start (len s);
      j ← (if len old =? 0 then Some (if is_first then start else start + snd (DecodeRune rest))
           else m ← Index rest old; Some (start + m));
      w ← slice s start j;
      replace_loop k s old new false (j + len old) ((b ++ w) ++ new)
  end.

Definition Replace (s old new : text) (n : Z) : option text :=
  if equal old new || (n =? 0) then Some s
  else
    m ← Count s old;
    if m =? 0 then Some s
    else replace_loop (Z.to_nat (if (n <? 0) || (m <? n) then m else n)) s old new true 0 [].

Definition ReplaceAll (s old new : text) : option text := Replace s old new (-1).

End Index.

(** ** Trimming *)

Definition UTFMax : Z := 4.

Definition RuneStart (b : ascii) : bool := negb (Z.land (uint8 b) 0xC0 =? 0x80).

(** [for start--; start >= lim; start-- { if RuneStart(s[start]) { break } }] *)
Fixpoint rune_start_loop (fuel : nat) (s : text) (lim start : Z) : option Z :=
  match fuel with
  | O => None
  | S f =>
      if lim <=? start then
        c ← at_ s start;
        if RuneStart c then Some start else rune_start_loop f s lim (start - 1)
      else Some start
  end.

Definition DecodeLastRuneInString (s : text) : option (Z * Z) :=
  let end_ := len s in
  if end_ =? 0 then Some (RuneError, 0) else
  let start := end_ - 1 in
  c ← at_ s start;
  if uint8 c <? RuneSelf then Some (uint8 c, 1) else
  let lim := if end_ - UTFMax <? 0 then 0 else end_ - UTFMax in
  start ← rune_start_loop 5 s lim (start - 1);
  let start := if start <? 0 then 0 else start in
  q ← slice s start end_;
  let '(r, size) := DecodeRune q in
  if start + size =? end_ then Some (r, size) else Some (RuneError, 1).

(** [for i, r := range s { if f(r) == truth { return i } }], from [i] *)
Fixpoint index_loop (fuel : nat) (s : text) (f : Z -> bool) (truth : bool) (i : Z) : option Z :=
  match fuel with
  | O => None
  | S k =>
      if i <? len s then
        rest ← slice s i (len s);
        let '(r, size) := DecodeRune rest in
        if Bool.eqb (f r) truth then Some i else index_loop k s f truth (i + size)
      else Some (-1)
  end.

Definition indexFunc (s : text) (f : Z -> bool) (truth : bool) : option Z := index_loop (S (length s)) s f truth 0.

Fixpoint last_index_loop (fuel : nat) (s : text) (f : Z -> bool) (truth : bool) (i : Z) : option Z :=
  match fuel with
  | O => None
  | S k =>
      if 0 <? i then
        p ← slice s 0 i;
        rs ← DecodeLastRuneInString p;
        let '(r, size) := (rs : Z * Z) in
        let i := i - size in
        if Bool.eqb (f r) truth then Some i else last_index_loop k s f truth i
      else Some (-1)
  end.

Definition lastIndexFunc (s : text) (f : Z -> bool) (truth : bool) : option Z :=
  last_index_loop (S (length s)) s f truth (len s).

Definition IndexFunc (s : text) (f : Z -> bool) : option Z := indexFunc s f true.
Definition LastIndexFunc (s : text) (f : Z -> bool) : option Z := lastIndexFunc s f true.

Definition TrimLeftFunc (s : text) (f : Z -> bool) : option text :=
  i ← indexFunc s f false;
  if i =? -1 then Some [] else slice s i (len s).

Definition TrimRightFunc (s : text) (f : Z -> bool) : option text :=
  i ← lastIndexFunc s f false;
  wide ← (if 0 <=? i then c ← at_ s i; Some (RuneSelf <=? uint8 c) else Some false);
  if (wide : bool)
  then rest ← slice s i (len s); slice s 0 (i + snd (DecodeRune rest))
  else slice s 0 (i + 1).

Definition TrimFunc (s : text) (f : Z -> bool) : option text := t ← TrimLeftFunc s f; TrimRightFunc t f.

Definition asciiSpace (c : ascii) : bool := existsb (Z.eqb (uint8 c)) [0x09; 0x0A; 0x0B; 0x0C; 0x0D; 0x20].

(** The two loops: whether they stop at a byte that is not ASCII, and where. *)
Fixpoint start_scan (fuel : nat) (s : text) (start : Z) : option (bool * Z) :=
  match fuel with
  | O => None
  | S f =>
      if start <? len s then
        c ← at_ s start;
        if RuneSelf <=? uint8 c then Some (true, start)
        else if negb (asciiSpace c) then Some (false, start)
        else start_scan f s (start + 1)
      else Some (false, start)
  end.

Fixpoint stop_scan (fuel : nat) (s : text) (start stop : Z) : option (bool * Z) :=
  match fuel with
  | O => None
  | S f =>
      if start <? stop then
        c ← at_ s (stop - 1);
        if RuneSelf <=? uint8 c then Some (true, stop)
        else if negb (asciiSpace c) then Some (false, stop)
        else stop_scan f s start (stop - 1)
      else Some (false, stop)
  end.

Definition TrimSpace (s : text) : option text :=
  a ← start_scan (S (length s)) s 0;
  let '(wide, start) := (a : bool * Z) in
  if wide then rest ← slice s start (len s); TrimFunc rest IsSpace
  else
    b ← stop_scan (S (length s)) s start (len s);
    let '(wide, stop) := (b : bool * Z) in
    w ← slice s start stop;
    if wide then TrimRightFunc w IsSpace else Some w.

End strings.
