(* ===== verification/StringsProps.v ===== *)
(** * Searching and splitting of strings

    [Index], with its three methods, finds the first occurrence: the rolling hash of
    Rabin and Karp is that of the window, at 32 bits. [Split] cuts at the occurrences so
    that [Join] puts the text together again. *)

From Stdlib Require Import Ascii String ZArith Zpow_facts.
From stdpp Require Import list.
From S2P Require Import Prelude Go Utf8 Strings.

#[local] Open Scope Z_scope.

Import strings.

(** ** Lengths, indices and slices *)

Lemma len_app s t : len (s ++ t) = len s + len t.
Proof. unfold len. rewrite length_app. lia. Qed.

Lemma len_cons c s : len (c :: s) = len s + 1.
Proof. unfold len. simpl. lia. Qed.

Lemma len_nonneg s : 0 <= len s.
Proof. unfold len. lia. Qed.

Lemma at_app a c r : at_ (a ++ c :: r) (len a) = Some c.
Proof.
  unfold at_. rewrite (proj2 (Z.ltb_ge _ _)) by apply len_nonneg. unfold len. rewrite Nat2Z.id.
  by apply list_lookup_middle.
Qed.

Lemma slice_app a w r : slice (a ++ w ++ r) (len a) (len a + len w) = Some w.
Proof.
  unfold slice. rewrite !len_app. pose proof (len_nonneg a). pose proof (len_nonneg w). pose proof (len_nonneg r).
  rewrite !(proj2 (Z.leb_le _ _)) by lia. cbn [andb]. f_equal. replace (len a + len w - len a) with (len w) by lia.
  unfold len. rewrite !Nat2Z.id, drop_app_length. apply take_app_length.
Qed.

Lemma slice_inv s i j w : slice s i j = Some w -> exists a r, s = a ++ w ++ r /\ len a = i /\ len w = j - i.
Proof.
  unfold slice. destruct (_ && _) eqn:E; [|done]. bool_prop. intros [= <-].
  exists (firstn (Z.to_nat i) s), (skipn (Z.to_nat (j - i)) (skipn (Z.to_nat i) s)).
  rewrite !firstn_skipn. split; [done|]. unfold len in *. rewrite !length_firstn, length_skipn. lia.
Qed.

Lemma slice_some s i j : 0 <= i <= j -> j <= len s -> exists w, slice s i j = Some w.
Proof. intros Hi Hj. unfold slice. rewrite !(proj2 (Z.leb_le _ _)) by lia. by eexists. Qed.

Lemma at_some s i : 0 <= i < len s -> exists c, at_ s i = Some c.
Proof.
  intros Hi. unfold at_. rewrite (proj2 (Z.ltb_ge _ _)) by lia. apply lookup_lt_is_Some. unfold len in Hi. lia.
Qed.

Lemma slice_prefix a r : slice (a ++ r) 0 (len a) = Some a.
Proof. exact (slice_app [] a r). Qed.

Lemma slice_suffix a r : slice (a ++ r) (len a) (len (a ++ r)) = Some r.
Proof. rewrite len_app. pose proof (slice_app a r []) as Hs. by rewrite app_nil_r in Hs. Qed.

(** ** Occurrences *)

(** [sep] stands in [s] at [i]. *)
Definition occurs (s sep : text) (i : Z) : Prop := exists a r, s = a ++ sep ++ r /\ len a = i.

(** [r] is the index of the first occurrence, or -1. *)
Definition first_index (s sep : text) (r : Z) : Prop :=
  (r = -1 /\ forall i, ~ occurs s sep i) \/ (occurs s sep r /\ forall i, i < r -> ~ occurs s sep i).

Lemma occurs_range s sep i : occurs s sep i -> 0 <= i /\ i + len sep <= len s.
Proof.
  intros (a & r & -> & <-). rewrite !len_app. pose proof (len_nonneg a). pose proof (len_nonneg r). lia.
Qed.

Lemma slice_occurs s sep i w : slice s i (i + len sep) = Some w -> w = sep <-> occurs s sep i.
Proof.
  intros Hs. split.
  - intros ->. apply slice_inv in Hs as (a & r & -> & Ha & _). by exists a, r.
  - intros (a & r & -> & <-). rewrite slice_app in Hs. congruence.
Qed.

Lemma occurs_at s sep i k c : occurs s sep i -> at_ sep k = Some c -> at_ s (i + k) = Some c.
Proof.
  intros (a & r & -> & <-) Hk. unfold at_ in *. destruct (k <? 0) eqn:E; [done|]. bool_prop.
  pose proof (len_nonneg a). rewrite (proj2 (Z.ltb_ge _ _)) by lia.
  rewrite lookup_app_r by (unfold len; lia). replace (Z.to_nat (len a + k) - length a)%nat with (Z.to_nat k) by (unfold len in *; lia).
  by apply lookup_app_l_Some.
Qed.

Lemma first_index_unique s sep r r' : first_index s sep r -> first_index s sep r' -> r = r'.
Proof.
  intros [[-> Hn]|[Ho Hf]] [[-> Hn']|[Ho' Hf']]; try done; [by destruct (Hn _ Ho')|by destruct (Hn' _ Ho)|].
  destruct (Z.lt_trichotomy r r') as [?|[?|?]]; [by destruct (Hf' r)|done|by destruct (Hf r')].
Qed.

(** An occurrence in the rest of [s] from [k]. *)
Lemma occurs_shift a b sep i : 0 <= i -> occurs b sep i <-> occurs (a ++ b) sep (len a + i).
Proof.
  intros Hi. split.
  - intros (x & r & -> & <-). exists (a ++ x), r. by rewrite len_app, <- app_assoc.
  - intros (x & r & Heq & Hx). assert (Hl : (length a <= length x)%nat) by (unfold len in Hx; lia).
    assert (Hp : take (length a) x = a).
    { apply (f_equal (take (length a))) in Heq. rewrite take_app_length, take_app_le in Heq by done. congruence. }
    exists (drop (length a) x), r. split.
    + apply (f_equal (drop (length a))) in Heq. by rewrite drop_app_length, drop_app_le in Heq by done.
    + unfold len in *. rewrite length_drop. lia.
Qed.

Lemma first_index_shift a b sep r : first_index b sep r -> (forall i, i < len a -> ~ occurs (a ++ b) sep i) ->
  first_index (a ++ b) sep (if r <? 0 then -1 else len a + r).
Proof.
  intros [[-> Hn]|[Ho Hf]] Ha.
  - left. split; [done|]. intros i Hi. destruct (Z.lt_ge_cases i (len a)); [by apply (Ha i)|].
    apply (Hn (i - len a)). apply (occurs_shift a); [lia|]. by replace (len a + (i - len a)) with i by lia.
  - pose proof (occurs_range _ _ _ Ho) as [H0 _]. rewrite (proj2 (Z.ltb_ge _ _)) by lia. right.
    split; [by apply occurs_shift|]. intros i Hi Hoi. destruct (Z.lt_ge_cases i (len a)); [by apply (Ha i)|].
    apply (Hf (i - len a)); [lia|]. apply (occurs_shift a); [lia|]. by replace (len a + (i - len a)) with i by lia.
Qed.

(** ** Rabin and Karp *)

Definition step (h : Z) (c : ascii) : Z := h * PrimeRK + uint8 c.

(** The hash without the width. *)
Definition poly (l : text) : Z := fold_left step l 0.

Lemma poly_acc l a : fold_left step l a = a * PrimeRK ^ len l + poly l.
Proof.
  unfold poly. revert a. induction l as [|c l IH]; intros a; [unfold len; simpl; lia|].
  cbn [fold_left]. rewrite IH, (IH (step 0 c)), len_cons, Z.pow_add_r, Z.pow_1_r by (lia || apply len_nonneg).
  unfold step. ring.
Qed.

Lemma hash_poly l h : fold_left add_byte l (uint32 h) = uint32 (fold_left step l h).
Proof.
  revert h. induction l as [|c l IH]; intros h; [done|]. cbn [fold_left]. rewrite <- IH. f_equal.
  unfold add_byte, step, uint32. by rewrite <- Zplus_mod_idemp_l, Zmult_mod_idemp_l, Zplus_mod_idemp_l.
Qed.

Lemma hash_spec l : fold_left add_byte l 0 = uint32 (poly l).
Proof. exact (hash_poly l 0). Qed.

Lemma pow_loop_spec fuel i pow sq : 0 <= i < 2 ^ Z.of_nat fuel ->
  uint32 (pow_loop fuel i pow sq) = uint32 (pow * sq ^ i).
Proof.
  revert i pow sq. induction fuel as [|f IH]; intros i pow sq Hi.
  - assert (i = 0) as -> by (simpl in Hi; lia). by rewrite Z.mul_1_r.
  - cbn [pow_loop]. destruct (0 <? i) eqn:E; bool_prop; [|assert (i = 0) as -> by lia; by rewrite Z.mul_1_r].
    rewrite Nat2Z.inj_succ, Z.pow_succ_r in Hi by lia. rewrite Z.shiftr_div_pow2 by done. change (2 ^ 1) with 2.
    rewrite IH by (split; [apply Z.div_pos; lia|apply Z.div_lt_upper_bound; lia]).
    change 1 with (Z.ones 1) at 1. rewrite Z.land_ones by done. change (2 ^ 1) with 2.
    pose proof (Z.div_mod i 2 ltac:(done)) as Hdm. pose proof (Z.mod_pos_bound i 2 ltac:(done)) as Hmod.
    assert (Hsq : forall a, uint32 (a * uint32 (sq * sq) ^ (i / 2)) = uint32 (a * sq ^ (2 * (i / 2)))).
    { intros a. rewrite Z.pow_mul_r by (lia || (apply Z.div_pos; lia)). change (sq ^ 2) with (sq * (sq * 1)). rewrite Z.mul_1_r.
      unfold uint32. rewrite <- (Zmult_mod_idemp_r ((_ mod _) ^ _)), <- Zpower_mod, Zmult_mod_idemp_r by done. done. }
    destruct (negb _) eqn:Eb; bool_prop; rewrite Hsq.
    + assert (i mod 2 = 1) as Hm by lia. rewrite Hdm at 2. rewrite Hm, Z.pow_add_r, Z.pow_1_r by (lia || (pose proof (Z.div_pos i 2); lia)).
      unfold uint32. rewrite Zmult_mod_idemp_l. f_equal. ring.
    + rewrite Hdm at 2. match goal with H : i mod 2 = 0 |- _ => rewrite H end. by rewrite Z.add_0_r.
Qed.

(** The hash of the next window. *)
Lemma roll b m c pow : uint32 pow = uint32 (PrimeRK ^ (len m + 1)) ->
  uint32 (uint32 (uint32 (uint32 (poly (b :: m)) * PrimeRK) + uint8 c) - uint32 (pow * uint8 b)) = uint32 (poly (m ++ [c])).
Proof.
  intros Hp. unfold uint32 in *. rewrite Zminus_mod_idemp_l, Zminus_mod_idemp_r, Zmult_mod_idemp_l.
  rewrite <- (Zminus_mod_idemp_r _ (pow * _)), <- (Zmult_mod_idemp_l pow), Hp, Zmult_mod_idemp_l, Zminus_mod_idemp_r.
  rewrite <- Zminus_mod_idemp_l, Zplus_mod_idemp_l, Zminus_mod_idemp_l. f_equal.
  unfold poly at 2. rewrite fold_left_app. fold (poly m). cbn [fold_left]. unfold step at 1.
  unfold poly at 1. cbn [fold_left]. rewrite poly_acc. unfold step. rewrite Z.pow_add_r by (lia || apply len_nonneg). ring.
Qed.


Lemma equal_spec s t : equal s t = true <-> s = t.
Proof. apply bool_decide_eq_true. Qed.

Lemma hashed_equal w sep : (uint32 (poly w) =? uint32 (poly sep)) && equal w sep = equal w sep.
Proof.
  destruct (equal w sep) eqn:E; [|apply andb_false_r]. apply equal_spec in E as ->. by rewrite Z.eqb_refl.
Qed.

Lemma not_longer s sep i : len s < len sep -> ~ occurs s sep i.
Proof. intros Hl Ho. apply occurs_range in Ho. lia. Qed.

Lemma rk_loop_first rest : forall fuel s sep a w pow,
  s = a ++ w ++ rest -> len w = len sep -> 1 <= len sep -> uint32 pow = uint32 (PrimeRK ^ len sep) ->
  (length rest < fuel)%nat -> (forall j, j <= len a -> ~ occurs s sep j) ->
  exists r, rk_loop fuel s sep (uint32 (poly sep)) pow (uint32 (poly w)) (len a + len sep) = Some r /\ first_index s sep r.
Proof.
  induction rest as [|c rest IH]; intros fuel s sep a w pow Hs Hw Hn Hp Hf Hno;
    (destruct fuel as [|f]; [simpl in Hf; lia|]); cbn [rk_loop].
  - exists (-1). assert (len s = len a + len sep) as Hl by (rewrite Hs, app_nil_r, len_app; lia).
    rewrite Hl, Z.ltb_irrefl. split; [done|]. left. split; [done|]. intros i Ho.
    apply (Hno i); [|done]. apply occurs_range in Ho. lia.
  - destruct w as [|b m]; [unfold len in *; simpl in *; lia|].
    assert (len s = len a + len sep + (len rest + 1)) as Hl by (rewrite Hs, !len_app, Hw, len_cons; lia).
    pose proof (len_nonneg rest) as H0. rewrite Hl, (proj2 (Z.ltb_lt _ _)) by lia.
    assert (at_ s (len a + len sep) = Some c) as Hc.
    { rewrite Hs, <- Hw, <- len_app, (app_assoc a). apply at_app. }
    assert (at_ s (len a) = Some b) as Hb by (rewrite Hs; apply at_app).
    rewrite Hc. cbn [mbind option_bind]. replace (len a + len sep - len sep) with (len a) by lia. rewrite Hb. cbn [mbind option_bind].
    rewrite len_cons in Hw. rewrite roll by (by rewrite Hw).
    assert (Hs' : s = (a ++ [b]) ++ (m ++ [c]) ++ rest) by (rewrite Hs; by simplify_list_eq).
    assert (Hw' : len (m ++ [c]) = len sep) by (rewrite len_app, <- Hw; done).
    assert (Ha' : len (a ++ [b]) = len a + 1) by (by rewrite len_app).
    replace (len a + len sep + 1 - len sep) with (len a + 1) by lia.
    assert (Hsl : slice s (len a + 1) (len a + len sep + 1) = Some (m ++ [c])).
    { rewrite Hs', <- Ha'. replace (len a + len sep + 1) with (len (a ++ [b]) + len (m ++ [c])) by lia. apply slice_app. }
    rewrite Hsl. cbn [mbind option_bind]. rewrite hashed_equal.
    destruct (equal _ sep) eqn:E.
    + apply equal_spec in E. exists (len a + 1). split; [done|]. right. split; [|intros i Hi; apply Hno; lia].
      exists (a ++ [b]), rest. by rewrite <- E.
    + replace (len a + len sep + 1) with (len (a ++ [b]) + len sep) by lia.
      apply IH; [done|done|done|done|simpl in Hf; lia|]. intros j Hj Ho.
      destruct (Z.lt_ge_cases (len a) j) as [Hlt|Hge]; [|by apply (Hno j)].
      assert (j = len a + 1) as -> by lia.
      replace (len a + len sep + 1) with (len a + 1 + len sep) in Hsl by lia.
      apply (slice_occurs _ _ _ _ Hsl) in Ho. rewrite Ho in E. by rewrite (proj2 (equal_spec _ _)) in E.
Qed.

Lemma len_fits sep : len sep < 2 ^ 63 -> 0 <= len sep < 2 ^ Z.of_nat 64.
Proof. pose proof (len_nonneg sep). change (Z.of_nat 64) with 64. lia. Qed.

Lemma pow_spec sep : len sep < 2 ^ 63 -> uint32 (pow_loop 64 (len sep) 1 PrimeRK) = uint32 (PrimeRK ^ len sep).
Proof. intros Hl. rewrite pow_loop_spec by by apply len_fits. by rewrite Z.mul_1_l. Qed.

Lemma IndexRabinKarp_spec s sep : 1 <= len sep <= len s -> len sep < 2 ^ 63 ->
  exists r, IndexRabinKarp s sep = Some r /\ first_index s sep r.
Proof.
  intros Hn Hl. unfold IndexRabinKarp, HashStr. destruct (slice_some s 0 (len sep)) as [w Hw]; [lia|lia|].
  rewrite Hw. cbn [mbind option_bind]. rewrite !hash_spec, hashed_equal.
  pose proof (slice_inv _ _ _ _ Hw) as (a & rest & Hs & Ha & Hlw).
  destruct (equal w sep) eqn:E.
  - exists 0. split; [done|]. apply equal_spec in E as ->. right. split; [by exists a, rest|].
    intros i Hi Ho. apply occurs_range in Ho. lia.
  - pose proof (rk_loop_first rest (S (length s)) s sep a w (pow_loop 64 (len sep) 1 PrimeRK)) as Hr.
    rewrite Ha in Hr. apply Hr; [done|lia|lia|by apply pow_spec| |].
    + rewrite Hs, !length_app. lia.
    + intros j Hj Ho. pose proof (occurs_range _ _ _ Ho). assert (j = 0) as -> by lia.
      apply (slice_occurs s sep 0 w Hw) in Ho. rewrite Ho in E. by rewrite (proj2 (equal_spec _ _)) in E.
Qed.

(** ** The two loops of [Index] *)

Lemma at_occurs s c i : at_ s i = Some c <-> occurs s [c] i.
Proof.
  split.
  - unfold at_. destruct (i <? 0) eqn:E; [done|]. bool_prop. intros Hl.
    exists (take (Z.to_nat i) s), (drop (S (Z.to_nat i)) s). split; [symmetry; by apply take_drop_middle|].
    apply lookup_lt_Some in Hl. unfold len. rewrite length_take. lia.
  - intros (a & r & -> & <-). apply at_app.
Qed.

Lemma at_mid a r e j : len a <= j < len a + len r -> at_ (a ++ r ++ e) j = at_ r (j - len a).
Proof.
  intros Hj. pose proof (len_nonneg a). unfold at_. rewrite !(proj2 (Z.ltb_ge _ _)) by lia. unfold len in *.
  rewrite lookup_app_r, lookup_app_l by lia. f_equal. lia.
Qed.

Lemma IndexByteString_first s c : first_index s [c] (IndexByteString s c).
Proof.
  induction s as [|x s IH]; simpl.
  - left. split; [done|]. intros i. by apply not_longer.
  - destruct (Ascii.eqb_spec x c) as [->|Hx].
    + right. split; [by exists [], s|]. intros i Hi Ho. apply occurs_range in Ho. lia.
    + rewrite (Z.add_comm _ 1). apply (first_index_shift [x] s); [done|]. intros i Hi Ho.
      pose proof (occurs_range _ _ _ Ho). change (len [x]) with 1 in Hi. assert (i = 0) as -> by lia.
      apply at_occurs in Ho. compute in Ho. congruence.
Qed.

(** Where [advance] stops, nothing before it is an occurrence. *)
Lemma advance_spec s substr c0 i : at_ substr 0 = Some c0 ->
  0 <= i < len s - len substr + 1 -> (forall j, j < i -> ~ occurs s substr j) ->
  exists o, advance s c0 (len s - len substr + 1) i = Some o /\
    match o with
    | None => forall j, ~ occurs s substr j
    | Some i' => i <= i' < len s - len substr + 1 /\ at_ s i' = Some c0 /\ forall j, j < i' -> ~ occurs s substr j
    end.
Proof.
  intros Hc Hi Hno. set (t := len s - len substr + 1) in *.
  assert (1 <= len substr) as Hn. { apply at_occurs, occurs_range in Hc. change (len [c0]) with 1 in Hc. lia. }
  assert (Hat : forall j, occurs s substr j -> at_ s j = Some c0).
  { intros j Ho. pose proof (occurs_at _ _ _ _ _ Ho Hc) as Hj. by rewrite Z.add_0_r in Hj. }
  unfold advance. destruct (at_some s i) as [c Hci]; [lia|]. rewrite Hci. cbn [mbind option_bind].
  destruct (Ascii.eqb_spec c c0) as [->|Hne]; [by exists (Some i); repeat split; try lia|].
  destruct (slice_some s (i + 1) t) as [r Hr]; [lia|lia|]. rewrite Hr. cbn [mbind option_bind]. eexists. split; [done|].
  apply slice_inv in Hr as (a & e & Hs & Ha & Hlr).
  assert (Hin : forall j, occurs s substr j -> i < j /\ occurs r [c0] (j - len a)).
  { intros j Ho. pose proof (occurs_range _ _ _ Ho) as Hrange. pose proof (Hat _ Ho) as Hj.
    assert (i < j) as Hij.
    { destruct (Z.lt_trichotomy j i) as [?|[->|?]]; [by destruct (Hno j)|congruence|done]. }
    split; [done|]. apply at_occurs. rewrite Hs, at_mid in Hj by lia. done. }
  destruct (IndexByteString_first r c0) as [[-> Hn0]|[Ho Hf]]; [by intros j Hj; apply Hin in Hj as [_ Hj]; apply (Hn0 _ Hj)|].
  pose proof (occurs_range _ _ _ Ho) as [H0 Hl]. change (len [c0]) with 1 in Hl. rewrite (proj2 (Z.ltb_ge _ _)) by lia.
  split; [lia|]. split.
  - apply at_occurs in Ho. rewrite Hs, at_mid by lia. rewrite <- Ho. f_equal. lia.
  - intros j Hj Hoc. apply Hin in Hoc as [Hij Hoc]. apply (Hf (j - len a)); [lia|done].
Qed.

Lemma matches_spec s substr c1 i : at_ substr 1 = Some c1 -> 0 <= i < len s - len substr + 1 ->
  exists b, matches s substr c1 i = Some b /\ (b = true <-> occurs s substr i).
Proof.
  intros Hc Hi. assert (2 <= len substr) as Hn. { apply at_occurs, occurs_range in Hc. change (len [c1]) with 1 in Hc. lia. }
  unfold matches. destruct (at_some s (i + 1)) as [c Hci]; [lia|]. rewrite Hci. cbn [mbind option_bind].
  destruct (Ascii.eqb_spec c c1) as [->|Hne].
  - destruct (slice_some s i (i + len substr)) as [w Hw]; [lia|lia|]. rewrite Hw. cbn [mbind option_bind].
    eexists. split; [done|]. rewrite equal_spec. by apply slice_occurs.
  - exists false. split; [done|]. split; [done|]. intros Ho. pose proof (occurs_at _ _ _ _ _ Ho Hc). congruence.
Qed.

Lemma first_index_here s sep i : occurs s sep i -> (forall j, j < i -> ~ occurs s sep j) -> first_index s sep i.
Proof. by right. Qed.

Lemma first_index_none s sep : (forall j, ~ occurs s sep j) -> first_index s sep (-1).
Proof. by left. Qed.

Lemma no_more s substr i : ~ i < len s - len substr + 1 -> (forall j, j < i -> ~ occurs s substr j) ->
  first_index s substr (-1).
Proof.
  intros Hi Hno. apply first_index_none. intros j Ho. apply (Hno j); [|done]. apply occurs_range in Ho. lia.
Qed.

Lemma before_next s substr i : (forall j, j < i -> ~ occurs s substr j) -> ~ occurs s substr i ->
  forall j, j < i + 1 -> ~ occurs s substr j.
Proof. intros Hno Hi j Hj. destruct (Z.eq_dec j i) as [->|]; [done|]. apply Hno. lia. Qed.

(** One round: the next place where both bytes match, and whether [substr] stands there. *)
Lemma round s substr c0 c1 i : at_ substr 0 = Some c0 -> at_ substr 1 = Some c1 ->
  0 <= i < len s - len substr + 1 -> (forall j, j < i -> ~ occurs s substr j) ->
  exists o, advance s c0 (len s - len substr + 1) i = Some o /\
    match o with
    | None => first_index s substr (-1)
    | Some i' => i <= i' < len s - len substr + 1 /\ exists b, matches s substr c1 i' = Some b /\
        if b then first_index s substr i' else forall j, j < i' + 1 -> ~ occurs s substr j
    end.
Proof.
  intros Hc0 Hc1 Hi Hno. destruct (advance_spec s substr c0 i) as (o & Ho & Hadv); [done..|].
  exists o. split; [done|]. destruct o as [i'|]; [|by apply first_index_none].
  destruct Hadv as (Hi' & _ & Hno'). split; [done|]. destruct (matches_spec s substr c1 i') as (b & Hb & Hbo); [done|lia|].
  exists b. split; [done|]. destruct b; [apply first_index_here; [by apply Hbo|done]|].
  apply before_next; [done|]. intros Hoc. by apply Hbo in Hoc.
Qed.

Lemma slice_rest s i : 0 <= i <= len s -> exists a rest, slice s i (len s) = Some rest /\ s = a ++ rest /\ len a = i.
Proof.
  intros Hi. destruct (slice_some s i (len s)) as [rest Hr]; [lia|lia|].
  pose proof (slice_inv _ _ _ _ Hr) as (a & e & Hs & Ha & Hl). exists a, rest. split; [done|]. split; [|done].
  destruct e as [|c e]; [by rewrite app_nil_r in Hs|]. apply (f_equal len) in Hs. rewrite !len_app, len_cons in Hs.
  pose proof (len_nonneg e). lia.
Qed.

Lemma two_bytes substr c : at_ substr 1 = Some c -> 2 <= len substr.
Proof. intros Hc. apply at_occurs, occurs_range in Hc. change (len [c]) with 1 in Hc. lia. Qed.

(** The promise of the function in assembly. *)
Class BytealgLaws `{Bytealg} := {
  index_string_first a b : 2 <= len b <= MaxLen -> first_index a b (IndexString a b)
}.

Lemma len_0 s : len s <= 0 -> s = [].
Proof. unfold len. destruct s; [done|simpl; lia]. Qed.

Section Searching.
Context `{BytealgLaws}.

Lemma short_loop_first fuel : forall s substr c0 c1 i fails,
  at_ substr 0 = Some c0 -> at_ substr 1 = Some c1 -> len substr <= MaxLen -> 0 <= i -> (Z.to_nat (len s - i) < fuel)%nat ->
  (forall j, j < i -> ~ occurs s substr j) ->
  exists r, short_loop fuel s substr c0 c1 (len s - len substr + 1) i fails = Some r /\ first_index s substr r.
Proof.
  induction fuel as [|f IH]; intros s substr c0 c1 i fails Hc0 Hc1 Hmax Hi Hf Hno; [lia|]. cbn [short_loop].
  pose proof (two_bytes _ _ Hc1) as Hn.
  destruct (i <? _) eqn:E; bool_prop; [|exists (-1); split; [done|]; apply (no_more _ _ i); [lia|done]].
  destruct (round s substr c0 c1 i) as (o & Ho & Hround); [done|done|lia|done|]. rewrite Ho. cbn [mbind option_bind].
  destruct o as [i'|]; [|by exists (-1)]. destruct Hround as (Hi' & b & Hb & Hcase).
  rewrite Hb. cbn [mbind option_bind]. destruct b; [by exists i'|].
  destruct (Cutover _ <? _); [|apply IH; (done || lia)].
  destruct (slice_rest s (i' + 1)) as (a & rest & Hrest & Hs & Ha); [lia|]. rewrite Hrest. cbn [mbind option_bind].
  eexists. split; [done|]. assert (first_index rest substr (IndexString rest substr)) as Hr by by apply index_string_first.
  apply (first_index_shift a) in Hr; [|by rewrite <- Hs, Ha]. rewrite <- Hs in Hr. rewrite Z.leb_antisym.
  destruct (_ <? 0); [done|]. cbn [negb]. by rewrite Z.add_comm, <- Ha.
Qed.

Lemma long_loop_first fuel : forall s substr c0 c1 i fails,
  at_ substr 0 = Some c0 -> at_ substr 1 = Some c1 -> len substr < 2 ^ 63 -> 0 <= i -> (Z.to_nat (len s - i) < fuel)%nat ->
  (forall j, j < i -> ~ occurs s substr j) ->
  exists r, long_loop fuel s substr c0 c1 (len s - len substr + 1) i fails = Some r /\ first_index s substr r.
Proof.
  induction fuel as [|f IH]; intros s substr c0 c1 i fails Hc0 Hc1 Hmax Hi Hf Hno; [lia|]. cbn [long_loop].
  pose proof (two_bytes _ _ Hc1) as Hn.
  destruct (i <? _) eqn:E; bool_prop; [|exists (-1); split; [done|]; apply (no_more _ _ i); [lia|done]].
  destruct (round s substr c0 c1 i) as (o & Ho & Hround); [done|done|lia|done|]. rewrite Ho. cbn [mbind option_bind].
  destruct o as [i'|]; [|by exists (-1)]. destruct Hround as (Hi' & b & Hb & Hcase).
  rewrite Hb. cbn [mbind option_bind]. destruct b; [by exists i'|].
  destruct (_ && _) eqn:Eb; [|apply IH; (done || lia)]. apply andb_prop in Eb as [_ Et]. apply Z.ltb_lt in Et.
  destruct (slice_rest s (i' + 1)) as (a & rest & Hrest & Hs & Ha); [lia|]. rewrite Hrest. cbn [mbind option_bind].
  destruct (IndexRabinKarp_spec rest substr) as (r & Hr & Hfirst); [apply (f_equal len) in Hs; rewrite len_app in Hs; lia|done|].
  rewrite Hr. cbn [mbind option_bind]. eexists. split; [done|].
  apply (first_index_shift a) in Hfirst; [|by rewrite <- Hs, Ha]. rewrite <- Hs in Hfirst. by rewrite <- Ha.
Qed.

Lemma Index_spec s substr : len s < 2 ^ 63 -> exists r, Index s substr = Some r /\ first_index s substr r.
Proof.
  intros Hl. unfold Index. pose proof (len_nonneg s) as Hs0. pose proof (len_nonneg substr) as Hn0.
  destruct (len substr =? 0) eqn:E0; bool_prop.
  { exists 0. split; [done|]. rewrite (len_0 substr) by lia.
    right. split; [by exists [], s|]. intros i Hi Ho. apply occurs_range in Ho. lia. }
  destruct (len substr =? 1) eqn:E1; bool_prop.
  { destruct substr as [|c t]; [done|]. rewrite len_cons in E1. rewrite (len_0 t) by lia.
    eexists. split; [done|]. apply IndexByteString_first. }
  destruct (len substr =? len s) eqn:E2; bool_prop.
  { eexists. split; [done|]. destruct (equal substr s) eqn:E.
    - apply equal_spec in E as ->. right. split; [exists [], []; by rewrite app_nil_r|].
      intros i Hi Ho. apply occurs_range in Ho. lia.
    - apply first_index_none. intros i (a & r & Heq & <-). pose proof (f_equal len Heq) as Hlen. rewrite !len_app in Hlen.
      pose proof (len_nonneg a). pose proof (len_nonneg r). rewrite (len_0 a), (len_0 r), app_nil_r in Heq by lia. symmetry in Heq. apply equal_spec in Heq. simpl in Heq. congruence. }
  destruct (len s <? len substr) eqn:E3; bool_prop.
  { exists (-1). split; [done|]. apply first_index_none. intros j. by apply not_longer. }
  destruct (_ && _) eqn:E4.
  { apply andb_prop in E4 as [E4 _]. apply Z.leb_le in E4. eexists. split; [done|]. apply index_string_first. lia. }
  destruct (at_some substr 0) as [c0 Hc0]; [lia|]. destruct (at_some substr 1) as [c1 Hc1]; [lia|].
  rewrite Hc0, Hc1. cbn [mbind option_bind].
  assert (forall j, j < 0 -> ~ occurs s substr j) as Hno by (intros j Hj Ho; apply occurs_range in Ho; lia).
  assert (Z.to_nat (len s - 0) < S (length s))%nat as Hf by (unfold len; lia).
  destruct (len substr <=? MaxLen) eqn:E5; bool_prop; [by apply short_loop_first|by apply long_loop_first; try lia].
Qed.

Lemma Index_is s substr r : len s < 2 ^ 63 -> first_index s substr r -> Index s substr = Some r.
Proof.
  intros Hl Hr. destruct (Index_spec s substr Hl) as (r' & -> & Hr'). by rewrite (first_index_unique _ _ _ _ Hr' Hr).
Qed.

(** ** Cutting at the occurrences *)

(** The pieces of [s] between the occurrences, taken from the left. *)
Inductive pieces (sep : text) : text -> list text -> Prop :=
| pieces_last s : first_index s sep (-1) -> pieces sep s [s]
| pieces_cut a r l : first_index (a ++ sep ++ r) sep (len a) -> pieces sep r l -> pieces sep (a ++ sep ++ r) (a :: l).

Lemma pieces_exist sep s : 1 <= len sep -> len s < 2 ^ 63 -> exists l, pieces sep s l.
Proof.
  intros Hn. remember (length s) as k eqn:Hk. revert s Hk. induction k as [k IH] using lt_wf_ind. intros s -> Hl.
  destruct (Index_spec s sep Hl) as (r & _ & [[-> Hno]|[Ho Hf]]); [exists [s]; by constructor; left|].
  destruct Ho as (a & e & -> & <-). rewrite !len_app in Hl. pose proof (len_nonneg a).
  destruct (IH (length e)) with (s := e) as (l & Hl'); [|done|lia|].
  - unfold len in Hn. rewrite !length_app. lia.
  - exists (a :: l). constructor; [|done]. right. split; [by exists a, e|done].
Qed.

Lemma not_found s sep : first_index s sep (-1) -> forall i, ~ occurs s sep i.
Proof. intros [[_ Hno]|[Ho _]]; [done|]. apply occurs_range in Ho. lia. Qed.

Lemma pieces_length sep s l : 1 <= len sep -> pieces sep s l -> 1 <= Z.of_nat (length l) <= len s + 1.
Proof.
  intros Hn. induction 1 as [s Hs|a r l Hf Hp IH]; simpl.
  - pose proof (len_nonneg s). lia.
  - rewrite !len_app. pose proof (len_nonneg a). lia.
Qed.

Lemma cut_suffix a sep r : slice (a ++ sep ++ r) (len a + len sep) (len (a ++ sep ++ r)) = Some r.
Proof. rewrite app_assoc, <- len_app. apply slice_suffix. Qed.

Lemma len_cut a sep r n : len (a ++ sep ++ r) < n -> len r < n.
Proof. rewrite !len_app. pose proof (len_nonneg a). pose proof (len_nonneg sep). lia. Qed.

Lemma count_loop_pieces sep s l : 1 <= len sep -> pieces sep s l -> forall fuel n,
  len s < 2 ^ 63 -> (length s < fuel)%nat -> count_loop fuel s sep n = Some (n + (Z.of_nat (length l) - 1)).
Proof.
  intros Hn. induction 1 as [s Hs|a r l Hf Hp IH]; intros fuel n Hl Hfuel; (destruct fuel as [|f]; [lia|]);
    cbn [count_loop]; (erewrite Index_is by done); cbn [mbind option_bind].
  - rewrite Z.eqb_refl. f_equal. simpl. lia.
  - pose proof (len_nonneg a). rewrite (proj2 (Z.eqb_neq _ _)) by lia. rewrite cut_suffix. cbn [mbind option_bind].
    rewrite IH; [f_equal; simpl; lia|by eapply len_cut|]. rewrite !length_app in Hfuel. unfold len in Hn. lia.
Qed.

Lemma CountString_app s t c : CountString (s ++ t) c = CountString s c + CountString t c.
Proof. unfold CountString. rewrite List.filter_app, length_app. lia. Qed.

Lemma CountString_none s c : (forall i, ~ occurs s [c] i) -> CountString s c = 0.
Proof.
  induction s as [|x s IH]; intros Hno; [done|]. change (x :: s) with ([x] ++ s). rewrite CountString_app, IH.
  - unfold CountString. simpl. destruct (Ascii.eqb_spec x c) as [->|]; [|done]. destruct (Hno 0). by exists [], s.
  - intros i Hi. apply (Hno (1 + i)). pose proof (occurs_range _ _ _ Hi) as [Hi0 _].
    exact (proj1 (occurs_shift [x] s [c] i Hi0) Hi).
Qed.

Lemma CountString_pieces c s l : pieces [c] s l -> CountString s c = Z.of_nat (length l) - 1.
Proof.
  induction 1 as [s Hs|a r l Hf Hp IH].
  - by apply CountString_none, not_found.
  - rewrite !CountString_app, IH, CountString_none.
    + unfold CountString. cbn [List.filter]. rewrite Ascii.eqb_refl. simpl. lia.
    + intros i Hi. pose proof (occurs_range _ _ _ Hi) as Hr. change (len [c]) with 1 in Hr.
      apply at_occurs in Hi. destruct Hf as [[Hneg _]|[_ Hf]]; [lia|].
      apply (Hf i); [lia|]. apply at_occurs.
      assert (at_ (a ++ [c] ++ r) i = at_ a (i - 0)) as -> by (apply (at_mid []); change (len []) with 0; lia).
      by rewrite Z.sub_0_r.
Qed.

Lemma Count_pieces sep s l : 1 <= len sep -> len s < 2 ^ 63 -> pieces sep s l -> Count s sep = Some (Z.of_nat (length l) - 1).
Proof.
  intros Hn Hl Hp. unfold Count. rewrite (proj2 (Z.eqb_neq _ _)) by lia. destruct (len sep =? 1) eqn:E; bool_prop.
  - destruct sep as [|c t]; [done|]. rewrite len_cons in E. assert (t = []) as -> by (apply len_0; lia).
    change (at_ [c] 0) with (Some c). cbn [mbind option_bind]. f_equal. by apply CountString_pieces.
  - rewrite (count_loop_pieces sep s l) by (done || lia). done.
Qed.

(** The cuts made with a limit: the text comes back, with and without the separators kept. *)
Definition rejoined (sep : text) (l : list text) : text := match l with [] => [] | e :: l => e ++ concat (map (app sep) l) end.

Lemma rejoined_cons sep a l : l <> [] -> rejoined sep (a :: l) = a ++ sep ++ rejoined sep l.
Proof. destruct l as [|b l]; [done|]. intros _. simpl. by rewrite <- app_assoc. Qed.

Lemma pieces_rejoined sep s l : pieces sep s l -> rejoined sep l = s.
Proof.
  induction 1 as [s Hs|a r l Hf Hp IH]; [apply app_nil_r|]. by rewrite rejoined_cons, IH by by destruct Hp.
Qed.

Lemma pieces_free sep s l : 1 <= len sep -> pieces sep s l -> Forall (fun p => forall i, ~ occurs p sep i) l.
Proof.
  intros Hn. induction 1 as [s Hs|a r l Hf Hp IH]; constructor; [|done| |done].
  - by apply not_found.
  - intros i Hi. pose proof (occurs_range _ _ _ Hi) as Hr. destruct Hf as [[Hneg _]|[_ Hf]]; [pose proof (len_nonneg a); lia|].
    apply (Hf i); [lia|]. destruct Hi as (x & y & -> & <-). exists x, (y ++ sep ++ r). by simplify_list_eq.
Qed.

Lemma split_loop_pieces sep s l : pieces sep s l -> forall n, len s < 2 ^ 63 -> (length l <= S n)%nat ->
  split_loop n s sep 0 = Some l.
Proof.
  induction 1 as [s Hs|a r l Hf Hp IH]; intros n Hl Hlen.
  - destruct n; [done|]. cbn [split_loop]. by erewrite Index_is by done.
  - assert (1 <= length l)%nat by (destruct Hp; simpl; lia). destruct n as [|n]; [simpl in Hlen; lia|].
    cbn [split_loop]. erewrite Index_is by done. cbn [mbind option_bind].
    rewrite (proj2 (Z.ltb_ge _ _)) by apply len_nonneg. rewrite Z.add_0_r, slice_prefix, cut_suffix.
    cbn [mbind option_bind]. rewrite IH; [done|by eapply len_cut|simpl in Hlen; lia].
Qed.

Lemma split_loop_rejoined sep n : forall s, len s < 2 ^ 63 ->
  exists l, split_loop n s sep 0 = Some l /\ l <> [] /\ rejoined sep l = s /\ (length l <= S n)%nat.
Proof.
  induction n as [|n IH]; intros s Hl; cbn [split_loop]; [exists [s]; repeat split; [done|apply app_nil_r|done]|].
  destruct (Index_spec s sep Hl) as (r & Hr & Hf). rewrite Hr. cbn [mbind option_bind].
  destruct (r <? 0) eqn:E; bool_prop; [exists [s]; repeat split; [done|apply app_nil_r|simpl; lia]|].
  destruct Hf as [[-> _]|[(a & e & -> & <-) _]]; [done|].
  rewrite Z.add_0_r, slice_prefix, cut_suffix. cbn [mbind option_bind].
  destruct (IH e) as (l & -> & Hne & Hj & Hlen); [by eapply len_cut|].
  exists (a :: l). repeat split; [done|by rewrite rejoined_cons, Hj|simpl; lia].
Qed.

End Searching.

(** ** Joining *)

Lemma join_fold (sep : text) (rest : list text) : forall e : text, fold_left (fun b x => (b ++ sep) ++ x) rest e = e ++ concat (map (app sep) rest).
Proof.
  induction rest as [|x rest IH]; intros e; simpl; [by rewrite app_nil_r|]. rewrite IH. by simplify_list_eq.
Qed.

Definition total_len (elems : list text) : Z := fold_right (fun e n => len e + n) 0 elems.

Lemma len_concat sep (rest : list text) :
  len (concat (map (app sep) rest)) = len sep * Z.of_nat (length rest) + total_len rest.
Proof.
  induction rest as [|x rest IH]; [unfold len; simpl; lia|]. cbn [map concat total_len fold_right length].
  rewrite !len_app, IH. unfold total_len. cbn [fold_right]. lia.
Qed.

Lemma total_len_nonneg l : 0 <= total_len l.
Proof. induction l as [|e l IH]; [done|]. unfold total_len in *. cbn [fold_right]. pose proof (len_nonneg e). lia. Qed.

Lemma join_len_some l : forall n, 0 <= n -> n + total_len l <= maxInt -> join_len l n = Some (n + total_len l).
Proof.
  induction l as [|e l IH]; intros n Hn Hl; cbn [join_len]; [f_equal; unfold total_len; simpl; lia|].
  assert (total_len (e :: l) = len e + total_len l) as Ht by done. pose proof (total_len_nonneg l). pose proof (len_nonneg e).
  rewrite (proj2 (Z.ltb_ge _ _)) by lia. rewrite IH by lia. f_equal. lia.
Qed.

Lemma Join_rejoined sep l : len (rejoined sep l) < 2 ^ 62 -> Join l sep = Some (rejoined sep l).
Proof.
  destruct l as [|e [|x rest]]; intros Hl; [done|cbn [rejoined map concat]; by rewrite app_nil_r|].
  unfold Join. cbn [rejoined] in Hl |- *. rewrite join_fold. remember (x :: rest) as l eqn:El. rewrite len_app, len_concat in Hl.
  assert (1 <= Z.of_nat (length l)) as Hk by (subst; simpl; lia). clear El.
  pose proof (len_nonneg e). pose proof (len_nonneg sep). pose proof (total_len_nonneg l).
  assert ((0 <? len sep) && (maxInt `div` Z.of_nat (length l) <=? len sep) = false) as ->.
  { apply andb_false_iff. destruct (Z.eq_dec (len sep) 0) as [->|Hs]; [by left|]. right. apply Z.leb_gt.
    assert (len sep + 1 <= maxInt `div` Z.of_nat (length l)); [|lia]. apply Z.div_le_lower_bound; [lia|]. unfold maxInt. nia. }
  rewrite join_len_some; [done|nia|]. assert (total_len (e :: l) = len e + total_len l) as -> by done. unfold maxInt. lia.
Qed.

(** ** Splitting and replacing *)

Section Cutting.
Context `{BytealgLaws}.

Lemma Split_pieces sep s l n : 1 <= len sep -> len s < 2 ^ 63 -> pieces sep s l -> n < 0 -> SplitN s sep n = Some l.
Proof.
  intros Hn Hl Hp Hneg. unfold SplitN, genSplit. rewrite !(proj2 (Z.eqb_neq _ _)), (proj2 (Z.ltb_lt _ _)) by lia.
  rewrite (Count_pieces sep s l) by done. cbn [mbind option_bind]. pose proof (pieces_length _ _ _ Hn Hp).
  rewrite (proj2 (Z.ltb_ge _ _)) by lia. apply split_loop_pieces; [done|done|lia].
Qed.

Lemma SplitN_limit sep s n : 1 <= len sep -> len s < 2 ^ 63 -> 0 < n ->
  exists l, SplitN s sep n = Some l /\ rejoined sep l = s /\ Z.of_nat (length l) <= n.
Proof.
  intros Hn Hl Hpos. unfold SplitN, genSplit. rewrite !(proj2 (Z.eqb_neq _ _)), (proj2 (Z.ltb_ge _ _)) by lia.
  cbn [mbind option_bind].
  destruct (split_loop_rejoined sep (Z.to_nat ((if len s + 1 <? n then len s + 1 else n) - 1)) s Hl) as (l & Hs & _ & Hj & Hlen).
  exists l. repeat split; [done|done|]. pose proof (len_nonneg s). destruct (len s + 1 <? n) eqn:E; bool_prop; lia.
Qed.

Lemma replace_loop_pieces old new s' l : pieces old s' l -> forall s a b is_first,
  1 <= len old -> len s < 2 ^ 63 -> s = a ++ s' ->
  replace_loop (length l - 1) s old new is_first (len a) b = Some (b ++ rejoined new l).
Proof.
  induction 1 as [s' Hs'|a' r l Hf Hp IH]; intros s a b is_first Hn Hl ->.
  - cbn [length Nat.sub replace_loop]. rewrite slice_suffix. cbn [mbind option_bind rejoined map concat]. by rewrite app_nil_r.
  - replace (length (a' :: l) - 1)%nat with (length l) by (simpl; lia).
    destruct (length l) as [|k] eqn:Ek; [by destruct Hp|]. cbn [replace_loop]. rewrite slice_suffix. cbn [mbind option_bind].
    rewrite (proj2 (Z.eqb_neq _ _)) by lia. rewrite len_app in Hl. pose proof (len_nonneg a).
    erewrite Index_is; [|lia|done]. cbn [mbind option_bind]. rewrite slice_app. cbn [mbind option_bind].
    rewrite rejoined_cons by by destruct Hp. replace k with (S k - 1)%nat by lia.
    replace (len a + len a' + len old) with (len (a ++ a' ++ old)) by (rewrite !len_app; lia).
    rewrite IH; [by simplify_list_eq|done|rewrite len_app; lia|by simplify_list_eq].
Qed.

Lemma ReplaceAll_pieces old new s l : 1 <= len old -> len s < 2 ^ 63 -> pieces old s l ->
  ReplaceAll s old new = Some (rejoined new l).
Proof.
  intros Hn Hl Hp. unfold ReplaceAll, Replace. destruct (equal old new) eqn:E; cbn [orb].
  - apply equal_spec in E as <-. by rewrite (pieces_rejoined old s l).
  - change (-1 =? 0) with false. cbv iota. rewrite (Count_pieces old s l) by done. cbn [mbind option_bind].
    destruct (_ =? 0) eqn:E0; bool_prop.
    + destruct Hp as [s Hs|a r l Hf Hp]; [simpl; by rewrite app_nil_r|]. destruct Hp; simpl in E0; lia.
    + change (-1 <? 0) with true. cbn [orb]. pose proof (replace_loop_pieces old new s l Hp s [] [] true Hn Hl eq_refl) as Hr.
      cbn [app] in Hr. rewrite <- Hr. f_equal. lia.
Qed.

End Cutting.

(** ** Repeating *)

Definition copies (s : text) (k : nat) : text := concat (repeat s k).

Lemma copies_add s j k : copies s (j + k) = copies s j ++ copies s k.
Proof. unfold copies. by rewrite repeat_app, concat_app. Qed.

Lemma len_copies s k : len (copies s k) = len s * Z.of_nat k.
Proof.
  induction k as [|k IH]; [unfold len; simpl; lia|]. change (copies s (S k)) with (s ++ copies s k). rewrite len_app, IH. lia.
Qed.

Lemma copies_char (c : ascii) m k : copies (repeat c m) k = repeat c (m * k).
Proof.
  induction k as [|k IH]; [by rewrite Nat.mul_0_r|]. change (copies (repeat c m) (S k)) with (repeat c m ++ copies (repeat c m) k).
  rewrite IH, <- repeat_app. f_equal. lia.
Qed.

Lemma slice_copies s m k : (m <= k)%nat -> slice (copies s k) 0 (len s * Z.of_nat m) = Some (copies s m).
Proof.
  intros Hm. replace k with (m + (k - m))%nat by lia. rewrite copies_add, <- len_copies. apply slice_prefix.
Qed.

Lemma chunk_max_copies s count : 1 <= len s -> 1 <= count -> exists cm : nat, (1 <= cm)%nat /\ chunk_max s (len s * count) = len s * Z.of_nat cm.
Proof.
  intros Hs Hc. unfold chunk_max. destruct (_ <? _) eqn:E; [|exists (Z.to_nat count); split; lia].
  rewrite Z.quot_div_nonneg by (unfold chunkLimit; lia). assert (0 <= chunkLimit `div` len s) as H0 by (apply Z.div_pos; unfold chunkLimit; lia).
  destruct (_ =? 0) eqn:E0; bool_prop; [exists 1%nat; split; lia|].
  exists (Z.to_nat (chunkLimit `div` len s)). split; [|rewrite Z2Nat.id; lia]. nia.
Qed.

Lemma repeat_loop_copies s count cm : 1 <= len s -> (1 <= cm)%nat -> forall fuel k, (1 <= k <= count)%nat -> (count - k < fuel)%nat ->
  repeat_loop fuel (len s * Z.of_nat count) (len s * Z.of_nat cm) (copies s k) = Some (copies s count).
Proof.
  intros Hs Hcm. induction fuel as [|f IH]; intros k Hk Hf; [lia|]. cbn [repeat_loop]. rewrite len_copies.
  destruct (_ <? _) eqn:E; bool_prop; [|by replace k with count by nia]. assert (k < count)%nat as Hlt by nia.
  set (m := Nat.min (Nat.min (count - k) k) cm).
  assert (Hchunk : (let c := len s * Z.of_nat count - len s * Z.of_nat k in
    let c := if len s * Z.of_nat k <? c then len s * Z.of_nat k else c in
    if len s * Z.of_nat cm <? c then len s * Z.of_nat cm else c) = len s * Z.of_nat m).
  { cbv zeta. rewrite <- Z.mul_sub_distr_l. unfold m.
    destruct (len s * Z.of_nat k <? _) eqn:E1; destruct (len s * Z.of_nat cm <? _) eqn:E2; bool_prop; f_equal; nia. }
  cbv zeta in Hchunk. rewrite Hchunk, slice_copies by lia. cbn [mbind option_bind]. rewrite <- copies_add. apply IH; lia.
Qed.

Lemma common_char r : In r common_repeats -> exists c m, r = repeat c m.
Proof. intros [<-|[<-|[<-|[<-|[<-|[]]]]]]; by eexists _, _. Qed.

Lemma prefix_copies r s count : In r common_repeats -> HasPrefix r s = true -> len s * Z.of_nat count <= len r ->
  slice r 0 (len s * Z.of_nat count) = Some (copies s count).
Proof.
  intros Hr Hp Hn. apply common_char in Hr as (c & m & ->). unfold HasPrefix in Hp. apply andb_prop in Hp as [_ Hp].
  destruct (slice _ 0 (len s)) as [t|] eqn:Et; [|done]. apply equal_spec in Hp as ->.
  apply slice_inv in Et as (a & e & Heq & Ha & _). rewrite (len_0 a) in Heq by lia. cbn [app] in Heq.
  apply repeat_eq_app in Heq as [Hs _].
  rewrite <- Hs at 2. rewrite copies_char. replace (len s * Z.of_nat count) with (len (repeat c (length s * count))).
  - unfold len in Hn |- *. rewrite repeat_length in Hn |- *. replace m with (length s * count + (m - length s * count))%nat by lia.
    rewrite repeat_app. rewrite <- (repeat_length c (length s * count)) at 3. apply slice_prefix.
  - unfold len. rewrite repeat_length. lia.
Qed.

Lemma Repeat_copies s count : 0 <= count -> len s * count <= maxInt -> Repeat s count = Some (copies s (Z.to_nat count)).
Proof.
  intros Hc Hn. destruct (Z_of_nat_complete count Hc) as [k ->]. unfold Repeat. rewrite Nat2Z.id.
  destruct (_ =? 0) eqn:E0; bool_prop; [by replace k with 0%nat by lia|].
  destruct (_ =? 1) eqn:E1; bool_prop; [replace k with 1%nat by lia; unfold copies; simpl; by rewrite app_nil_r|].
  rewrite (proj2 (Z.ltb_ge (Z.of_nat k) 0)) by lia. rewrite Z.quot_div_nonneg by (unfold maxInt; lia).
  rewrite (proj2 (Z.ltb_ge _ _)) by (apply Z.div_le_lower_bound; lia).
  destruct s as [|c s'] eqn:Es; [unfold copies; by clear; induction k|]. rewrite <- Es in *. cbv zeta.
  assert (1 <= len s) as Hs by (subst; rewrite len_cons; pose proof (len_nonneg s'); lia).
  destruct (if existsb _ _ then _ else None) as [r|] eqn:Ef.
  - destruct (existsb _ _); [|done]. apply List.find_some in Ef as [Hr Hfound]. apply andb_prop in Hfound as [Hlen Hp].
    apply Z.leb_le in Hlen. by apply prefix_copies.
  - destruct (chunk_max_copies s (Z.of_nat k)) as (cm & Hcm & ->); [done|lia|].
    replace s with (copies s 1) at 3 by (unfold copies; simpl; by rewrite app_nil_r).
    apply repeat_loop_copies; [done|done|lia|lia].
Qed.

(** ** One byte, as the handlers split *)

Definition chars (s : string) : text := String.list_ascii_of_string s.

Lemma not_in_tail x s sep : first_index (x :: s) sep (-1) <-> first_index s sep (-1) /\ ~ occurs (x :: s) sep 0.
Proof.
  split.
  - intros Hf. pose proof (not_found _ _ Hf) as Hno. split; [|done]. apply first_index_none. intros i Hi.
    pose proof (occurs_range _ _ _ Hi) as [H0 _]. by apply (Hno (1 + i)), (occurs_shift [x] s sep i H0).
  - intros [Hf Hx]. apply (first_index_shift [x] s sep (-1)); [done|]. intros i Hi Ho. change (len [x]) with 1 in Hi.
    pose proof (occurs_range _ _ _ Ho) as [H0 _]. by replace i with 0 in Ho by lia.
Qed.

Lemma occurs_head x s c : occurs (x :: s) [c] 0 <-> x = c.
Proof. rewrite <- at_occurs. split; [by intros [= ->]|by intros ->]. Qed.

Lemma Split1_pieces c s : pieces [c] (chars s) (map chars (Split1 c s)).
Proof.
  induction s as [|x s IH]; unfold chars in *; cbn [Split1 String.list_ascii_of_string].
  - apply pieces_last, first_index_none. intros i. by apply not_longer.
  - destruct (Ascii.eqb_spec x c) as [->|Hx].
    + apply (pieces_cut [c] []); [|done]. right. split; [by exists [], (String.list_ascii_of_string s)|].
      intros i Hi Ho. apply occurs_range in Ho. change (len []) with 0 in Hi. lia.
    + destruct (Split1 c s) as [|p ps]; [inversion IH|]. cbn [map] in IH |- *. inversion IH as [t Hf Ht Hp|a r l Hf Hp Ht Hl].
      * destruct ps; [|done]. cbn [map String.list_ascii_of_string]. rewrite <- Hp. apply pieces_last, not_in_tail. by rewrite occurs_head.
      * cbn [String.list_ascii_of_string]. apply (pieces_cut [c] (x :: _) r); [|done].
        pose proof (len_nonneg (String.list_ascii_of_string p)) as H0.
        apply (first_index_shift [x]) in Hf.
        -- rewrite (proj2 (Z.ltb_ge _ _)) in Hf by done. by rewrite len_cons, Z.add_comm.
        -- intros i Hi Ho. change (len [x]) with 1 in Hi. pose proof (occurs_range _ _ _ Ho) as [Hi0 _].
           replace i with 0 in Ho by lia. by apply occurs_head in Ho.
Qed.

Lemma pieces_unique sep s l : pieces sep s l -> 1 <= len sep -> forall l', pieces sep s l' -> l = l'.
Proof.
  induction 1 as [s Hs|a r l Hf Hp IH]; intros Hn l' Hp'.
  - inversion Hp' as [|a r l Hf Hp]; subst; [done|]. pose proof (first_index_unique _ _ _ _ Hs Hf). pose proof (len_nonneg a). lia.
  - inversion Hp' as [t Hs|a' r' l0 Hf' Hp'' Heq]; subst.
    + pose proof (first_index_unique _ _ _ _ Hs Hf). pose proof (len_nonneg a). lia.
    + rewrite Heq in Hf'. pose proof (first_index_unique _ _ _ _ Hf Hf') as Hl.
      apply app_inj_1 in Heq as [-> Heq]; [|unfold len in Hl; lia]. apply app_inj_1 in Heq as [_ ->]; [|done].
      f_equal. by apply IH.
Qed.

(** ** What the functions promise *)

Section Promises.
Context `{BytealgLaws}.

(** C16: for any text shorter than 2^63 bytes and any substring, [Index] ends without an index
    out of range and returns the place of the first occurrence, or -1 when there is none,
    whichever of its methods it takes: the byte search, the brute force of the machine, the
    loop that falls back to it after too many false starts, and the rolling hash of Rabin and
    Karp, computed at 32 bits. *)
Theorem Index_first s substr : len s < 2 ^ 63 -> exists r, Index s substr = Some r /\ first_index s substr r.
Proof. exact (Index_spec s substr). Qed.

(** C17: with a separator of at least one byte, [Split] cuts the text at the successive first
    occurrences: no part contains the separator, [Join] gives the text back, [Count] is the
    number of cuts, [ReplaceAll] writes the new text at every cut, and for one byte the parts
    are those by which the handlers are modelled. [SplitN] gives at most [n] parts, which
    join to the text too. *)
Theorem Split_cuts s sep : 1 <= len sep -> len s < 2 ^ 62 ->
  exists l, Split s sep = Some l /\ pieces sep s l
    /\ Forall (fun p => forall i, ~ occurs p sep i) l /\ Join l sep = Some s
    /\ Count s sep = Some (Z.of_nat (length l) - 1)
    /\ (forall new, exists t, ReplaceAll s sep new = Some t /\ (len t < 2 ^ 62 -> Join l new = Some t))
    /\ (forall c t, sep = [c] -> s = chars t -> l = map chars (Split1 c t))
    /\ (forall n, 0 < n -> exists l', SplitN s sep n = Some l' /\ Z.of_nat (length l') <= n /\ Join l' sep = Some s).
Proof.
  intros Hn Hl. assert (len s < 2 ^ 63) as Hl' by lia. destruct (pieces_exist sep s Hn Hl') as [l Hp].
  pose proof (pieces_rejoined _ _ _ Hp) as Hj. exists l. split; [by apply Split_pieces|]. split; [done|].
  split; [by eapply pieces_free|]. split; [rewrite Join_rejoined, Hj; [done|rewrite Hj; lia]|].
  split; [by apply Count_pieces|]. split; [intros new; exists (rejoined new l); split; [by apply ReplaceAll_pieces|apply Join_rejoined]|].
  split; [intros c t -> ->; eapply pieces_unique; [done|done|apply Split1_pieces]|].
  intros n Hpos. destruct (SplitN_limit sep s n) as (l' & Hs & Hj' & Hlen); [done|done|done|].
  exists l'. split; [done|]. split; [done|]. rewrite Join_rejoined, Hj'; [done|rewrite Hj'; lia].
Qed.

End Promises.

(** ** A machine *)

(** The search in assembly as its documentation puts it: place by place. *)
Fixpoint place (s t : text) : Z :=
  if HasPrefix s t then 0 else
  match s with [] => -1 | _ :: s => let r := place s t in if r <? 0 then -1 else 1 + r end.

Lemma HasPrefix_occurs s t : HasPrefix s t = true <-> occurs s t 0.
Proof.
  unfold HasPrefix. split.
  - intros E. apply andb_prop in E as [_ E]. destruct (slice _ _ _) as [w|] eqn:Ew; [|done].
    apply (slice_occurs s t 0 w Ew). by apply equal_spec in E.
  - intros Ho. pose proof (occurs_range _ _ _ Ho). rewrite (proj2 (Z.leb_le _ _)) by lia. cbn [andb].
    destruct (slice_some s 0 (len t)) as [w Hw]; [pose proof (len_nonneg t); lia|lia|]. rewrite Hw.
    by apply equal_spec, (slice_occurs s t 0 w Hw).
Qed.

Lemma place_first s t : first_index s t (place s t).
Proof.
  induction s as [|x s IH]; cbn [place]; (destruct (HasPrefix _ t) eqn:E;
    [right; split; [by apply HasPrefix_occurs|]; intros i Hi Ho; apply occurs_range in Ho; lia|]).
  - apply first_index_none. intros i Ho. pose proof (occurs_range _ _ _ Ho) as Hr. change (len []) with 0 in Hr.
    pose proof (len_nonneg t). replace i with 0 in Ho by lia. apply (proj2 (HasPrefix_occurs _ _)) in Ho. congruence.
  - apply (first_index_shift [x]); [done|]. intros i Hi Ho. change (len [x]) with 1 in Hi.
    pose proof (occurs_range _ _ _ Ho). replace i with 0 in Ho by lia. apply (proj2 (HasPrefix_occurs _ _)) in Ho. cbn [app] in Ho. congruence.
Qed.

(** amd64 with AVX2, as in index_amd64.go. *)
#[local] Instance avx2 : Bytealg :=
  {| MaxLen := 63; MaxBruteForce := 64; Cutover := fun n => (n + 16) / 8; IndexString := place |}.

#[local] Instance avx2_laws : BytealgLaws.
Proof. split. intros a b _. apply place_first. Qed.

(** A separator of 64 bytes and more, which goes the way of Rabin and Karp. *)
Definition sixty : text := repeat "a"%char 64 ++ ["b"%char].

Example strings_examples :
  Index (chars "the cat sat on the mat") (chars "the m") = Some 15
  /\ Index (repeat "a"%char 200 ++ sixty) sixty = Some 200
  /\ Split (chars "a,b,,c") (chars ",") = Some (map chars ["a"; "b"; ""; "c"])
  /\ SplitN (chars "a, b, c") (chars ", ") 2 = Some (map chars ["a"; "b, c"])
  /\ SplitAfterN (chars "a,b") (chars ",") (-1) = Some (map chars ["a,"; "b"])
  /\ Split (chars "abc") [] = Some (map chars ["a"; "b"; "c"])
  /\ Count (chars "five") [] = Some 5 /\ Count (chars "cheese") (chars "e") = Some 3
  /\ Replace (chars "oink oink oink") (chars "k") (chars "ky") 2 = Some (chars "oinky oinky oink")
  /\ ReplaceAll (chars "ab") [] (chars "-") = Some (chars "-a-b-")
  /\ Repeat (chars "-") 5 = Some (chars "-----") /\ Repeat (chars "ab") 5 = Some (chars "ababababab")
  /\ Repeat (chars "ab") (-1) = None /\ Repeat (chars "ab") (2 ^ 62) = None
  /\ Cut (chars "k=v") (chars "=") = Some (chars "k", chars "v", true).
Proof. repeat split; by vm_compute. Qed.

Lemma Index_first_witness : len (repeat "a"%char 200 ++ sixty) < 2 ^ 63
  /\ exists r, Index (repeat "a"%char 200 ++ sixty) sixty = Some r /\ first_index (repeat "a"%char 200 ++ sixty) sixty r.
Proof. split; [by vm_compute|apply Index_first; by vm_compute]. Defined.

Lemma Split_cuts_witness : exists l, Split (chars "2024-01-31") (chars "-") = Some l
  /\ Join l (chars "-") = Some (chars "2024-01-31") /\ Forall (fun p => forall i, ~ occurs p (chars "-") i) l
  /\ l = map chars (Split1 "-" "2024-01-31").
Proof.
  destruct (Split_cuts (chars "2024-01-31") (chars "-")) as (l & Hs & _ & Hno & Hj & _ & _ & H1 & _); [by vm_compute|by vm_compute|].
  exists l. split; [exact Hs|]. split; [exact Hj|]. split; [exact Hno|]. exact (H1 "-"%char "2024-01-31"%string eq_refl eq_refl).
Defined.
