(* ===== verification/TrimProps.v ===== *)
(** * Trimming of strings

    [TrimSpace] of the Go library, which scans ASCII from both ends and decodes runes
    forwards and backwards where it meets another byte, is the trimming by encodings that
    the handlers are modelled with. *)

From Stdlib Require Import Ascii String ZArith.
From stdpp Require Import list.
From S2P Require Import Prelude Go Utf8 Strings StringsProps.

#[local] Open Scope Z_scope.

Import strings.

(** ** Trimming by prefixes *)

Lemma drop_prefix_spec p : forall s t, drop_prefix p s = Some t <-> s = p ++ t.
Proof.
  induction p as [|a p IH]; intros s t; simpl; [split; [by intros [= ->]|by intros ->]|].
  destruct s as [|b s]; [done|]. destruct (Ascii.eqb_spec a b) as [->|Hne]; [|split; [done|by intros [= -> _]]].
  rewrite IH. split; [by intros ->|by intros [= ->]].
Qed.

Section Trim.
Context (ps : list text).
Hypothesis free : Forall (fun p => p <> [] /\ Forall (fun q => forall t u, p ++ t = q ++ u -> p = q) ps) ps.

Lemma first_prefix_some p t : p ∈ ps -> first_prefix ps (p ++ t) = Some t.
Proof.
  intros Hp. assert (forall l, (forall q, q ∈ l -> q ∈ ps) -> p ∈ l -> first_prefix l (p ++ t) = Some t) as H; [|by apply H].
  induction l as [|q l IH]; intros Hsub Hin; [by apply not_elem_of_nil in Hin|]. cbn [first_prefix].
  destruct (drop_prefix q (p ++ t)) as [u|] eqn:E.
  - apply drop_prefix_spec in E. rewrite Forall_forall in free. destruct (free p Hp) as [_ Hq].
    rewrite Forall_forall in Hq. assert (p = q) as <- by (eapply Hq; [apply Hsub; by left|exact E]).
    by apply app_inv_head in E as ->.
  - apply elem_of_cons in Hin as [->|Hin].
    + assert (drop_prefix q (q ++ t) = Some t) by by apply drop_prefix_spec. congruence.
    + apply IH; [|done]. intros q' Hq'. apply Hsub. by right.
Qed.

Lemma first_prefix_none s : (forall p t, p ∈ ps -> s <> p ++ t) -> first_prefix ps s = None.
Proof.
  clear free. induction ps as [|q l IH]; intros Hno; [done|]. cbn [first_prefix].
  destruct (drop_prefix q s) as [u|] eqn:E.
  - apply drop_prefix_spec in E. by destruct (Hno q u ltac:(by left)).
  - apply IH. intros p t Hp. apply Hno. by right.
Qed.

Lemma first_prefix_inv s t : first_prefix ps s = Some t -> exists p, p ∈ ps /\ s = p ++ t.
Proof.
  clear free. induction ps as [|q l IH]; [done|]. cbn [first_prefix]. destruct (drop_prefix q s) as [u|] eqn:E.
  - intros [= ->]. apply drop_prefix_spec in E. exists q. split; [by left|done].
  - intros (p & Hp & ->)%IH. exists p. split; [by right|done].
Qed.

Lemma trim_with_fuel f : forall g s, (length s <= f)%nat -> (length s <= g)%nat -> trim_with ps f s = trim_with ps g s.
Proof.
  induction f as [|f IH]; intros g s Hf Hg.
  - destruct s; [|simpl in Hf; lia]. destruct g; [done|]. cbn [trim_with]. destruct (first_prefix ps []) as [t|] eqn:E; [|done].
    apply first_prefix_inv in E as (p & Hp & E). rewrite Forall_forall in free. destruct (free p Hp) as [Hne _]. by destruct p.
  - destruct (first_prefix ps s) as [t|] eqn:E; (destruct g as [|g]; cbn [trim_with]; rewrite ?E); [| |done|done].
    + apply first_prefix_inv in E as (p & Hp & ->). rewrite Forall_forall in free. destruct (free p Hp) as [Hne _].
      destruct p; [done|]. simpl in Hg. lia.
    + apply first_prefix_inv in E as (p & Hp & ->). rewrite Forall_forall in free. destruct (free p Hp) as [Hne _].
      destruct p; [done|]. simpl in Hf, Hg. rewrite length_app in Hf, Hg. apply IH; lia.
Qed.

Definition trimmed (s : text) : text := trim_with ps (length s) s.

Lemma trimmed_app p t : p ∈ ps -> trimmed (p ++ t) = trimmed t.
Proof.
  intros Hp. pose proof free as Hf. rewrite Forall_forall in Hf. destruct (Hf p Hp) as [Hne _].
  unfold trimmed. destruct (length (p ++ t)) as [|n] eqn:E; [by destruct p|]. cbn [trim_with].
  rewrite first_prefix_some by done. apply trim_with_fuel; [|done]. destruct p; [done|]. simpl in E. rewrite length_app in E. lia.
Qed.

Lemma trimmed_none s : (forall p t, p ∈ ps -> s <> p ++ t) -> trimmed s = s.
Proof. intros Hno. unfold trimmed. destruct (length s); [done|]. cbn [trim_with]. by rewrite first_prefix_none. Qed.
End Trim.

(** ** The shape of what [DecodeRune] reads *)

Definition cont (b : ascii) : Prop := 0x80 <= uint8 b <= 0xBF.

Lemma lead_sizes c : (let x := first_of c in
  if as_ <=? x then Bool.eqb (Z.testbit x 0) (128 <=? uint8 c)
  else (128 <=? uint8 c) && (2 <=? Z.land x 7) && (Z.land x 7 <=? 4) && (128 <=? fst (accept_of x)) && (snd (accept_of x) <=? 0xBF)) = true.
Proof. revert c. apply all_bytes. by vm_compute. Qed.

Lemma outside_cont b : outside (locb, hicb) (uint8 b) = false -> cont b.
Proof. unfold outside, locb, hicb, cont. simpl. intros H. bool_prop. lia. Qed.


(** A rune of several bytes is read from these bytes alone. *)
Definition reads (q : text) (r : Z) : Prop :=
  (2 <= length q <= 4)%nat /\ Forall cont (tail q) /\ forall u, DecodeRune (q ++ u) = (r, len q).

Lemma DecodeRune_shape c l :
  (uint8 c < 128 /\ forall u, DecodeRune (c :: u) = (uint8 c, 1))
  \/ 128 <= uint8 c /\ (DecodeRune (c :: l) = (RuneError, 1) \/ exists q t r, c :: l = q ++ t /\ reads q r).
Proof.
  destruct (Z.lt_ge_cases (uint8 c) 128) as [Hc|Hc]; [left; split; [done|]; intros u; by apply DecodeRune_self|].
  right. split; [done|]. pose proof (lead_sizes c) as Hs. cbv zeta in Hs. unfold reads, DecodeRune. cbv zeta.
  destruct (as_ <=? first_of c) eqn:Ex.
  { apply eqb_prop in Hs. rewrite Hs, (proj2 (Z.leb_le _ _)) by done. by left. }
  repeat (apply andb_prop in Hs as [Hs ?]). bool_prop. rename select (2 <= _) into Hlo. rename select (_ <= 4) into Hhi. apply Z.leb_gt in Ex.
  destruct (Z.of_nat (length (c :: l)) <? Z.land (first_of c) 7) eqn:El; [by left|].
  destruct l as [|c1 l]; [bool_prop; simpl in El; lia|]. cbn [nth]. 
  destruct (outside (accept_of (first_of c)) (uint8 c1)) eqn:E1; [by left|].
  assert (cont c1) as Hc1 by (unfold outside in E1; bool_prop; unfold cont; lia).
  destruct (Z.land (first_of c) 7 <=? 2) eqn:E2.
  { right. exists [c; c1], l. eexists. split; [done|]. split; [simpl; lia|]. split; [repeat first [apply Forall_nil_2|apply Forall_cons_2; [done|]]|]. intros u.
    cbn [app nth]. rewrite Ex, E1, E2, (proj2 (Z.ltb_ge _ _)) by (simpl; bool_prop; lia). done. }
  destruct l as [|c2 l]; [bool_prop; simpl in El; lia|]. cbn [nth].
  destruct (outside (locb, hicb) (uint8 c2)) eqn:Eo2; [by left|]. pose proof (outside_cont _ Eo2) as Hc2.
  destruct (Z.land (first_of c) 7 <=? 3) eqn:E3.
  { right. exists [c; c1; c2], l. eexists. split; [done|]. split; [simpl; lia|]. split; [repeat first [apply Forall_nil_2|apply Forall_cons_2; [done|]]|]. intros u.
    cbn [app nth]. rewrite Ex, E1, E2, Eo2, E3, (proj2 (Z.ltb_ge _ _)) by (simpl; bool_prop; lia). done. }
  destruct l as [|c3 l]; [bool_prop; simpl in El; lia|]. cbn [nth].
  destruct (outside (locb, hicb) (uint8 c3)) eqn:Eo3; [by left|]. pose proof (outside_cont _ Eo3) as Hc3.
  right. exists [c; c1; c2; c3], l. eexists. split; [done|]. split; [simpl; lia|]. split; [repeat first [apply Forall_nil_2|apply Forall_cons_2; [done|]]|]. intros u.
  cbn [app nth]. rewrite Ex, E1, E2, Eo2, E3, Eo3, (proj2 (Z.ltb_ge _ _)) by (simpl; bool_prop; lia). done.
Qed.

(** Behind a byte that is not ASCII, anything but a continuation. *)
Lemma DecodeRune_alone c u : 128 <= uint8 c -> (forall b v, u = b :: v -> ~ cont b) -> DecodeRune (c :: u) = (RuneError, 1).
Proof.
  intros Hc Hu. destruct (DecodeRune_shape c u) as [[Hlt _]|[_ [He|(q & t & r & Heq & Hlen & Hcont & _)]]]; [lia|done|].
  destruct q as [|a [|b q]]; [simpl in Hlen; lia|simpl in Hlen; lia|]. simplify_eq/=.
  destruct (Hu b (q ++ t) eq_refl). by apply Forall_inv in Hcont.
Qed.

(** ** White space *)

Definition in_spaces (q : text) : bool := existsb (fun p => bool_decide (q = p)) space_runes.

Lemma in_spaces_spec q : in_spaces q = true <-> q ∈ space_runes.
Proof.
  unfold in_spaces. rewrite existsb_exists. split.
  - intros (p & Hp & Hq). apply bool_decide_eq_true in Hq as ->. by apply list_elem_of_In.
  - intros Hq. exists q. split; [by apply list_elem_of_In|by apply bool_decide_eq_true].
Qed.

Lemma space_ascii c : uint8 c < 128 -> asciiSpace c = IsSpace (uint8 c) /\ in_spaces [c] = IsSpace (uint8 c).
Proof.
  intros Hc. assert (((128 <=? uint8 c) || (Bool.eqb (asciiSpace c) (IsSpace (uint8 c)) && Bool.eqb (in_spaces [c]) (IsSpace (uint8 c)))) = true)
    as H by (clear Hc; revert c; apply all_bytes; by vm_compute).
  apply orb_true_iff in H as [H|H]; bool_prop; [lia|]. by split; apply eqb_prop.
Qed.

(** That a rune of [q], when it is white space, is in the list. *)
Definition space_listed (q : text) : bool :=
  let '(r, n) := DecodeRune q in if n =? len q then if IsSpace r then in_spaces q else true else true.

Lemma space_listed_spec q r : space_listed q = true -> DecodeRune q = (r, len q) -> IsSpace r = true -> q ∈ space_runes.
Proof.
  unfold space_listed. intros H Hq Hr. rewrite Hq, Z.eqb_refl, Hr in H. by apply in_spaces_spec.
Qed.

(** Every continuation byte satisfies [P]. *)
Definition every_cont (P : ascii -> bool) : bool := forallb (fun n => P (ascii_of_nat n)) (seq 128 64).

Lemma every_cont_spec P c : cont c -> every_cont P = true -> P c = true.
Proof.
  intros [Hlo Hhi] H. unfold every_cont in H. rewrite forallb_forall in H. rewrite <- (ascii_nat_embedding c). apply H, in_seq.
  unfold uint8, nat_of_ascii in *. lia.
Qed.

Definition is_cont (c : ascii) : bool := (0x80 <=? uint8 c) && (uint8 c <=? 0xBF).

Lemma is_cont_spec c : cont c -> is_cont c = true.
Proof. intros [? ?]. unfold is_cont. by rewrite !(proj2 (Z.leb_le _ _)). Qed.

(** A first byte of a rune of [n] bytes. *)
Definition leads (n : Z) (c : ascii) : bool := (Z.land (first_of c) 7 =? n) && (first_of c <? as_).

(** The blocks of 64 runes with white space. *)
Definition blocks : list Z := [0; 1; 2; 3; 0x5A; 0x80; 0x81; 0xC0].
Definition block (c c1 : ascii) : Z := Z.lor (Z.shiftl (Z.land (uint8 c) mask3) 6) (Z.land (uint8 c1) maskx).

Lemma space_pairs c : (if leads 2 c then every_cont (fun c1 => space_listed [c; c1]) else true) = true.
Proof. revert c. apply all_bytes. by vm_compute. Qed.

Lemma space_triples c : (if leads 3 c then every_cont (fun c1 => if existsb (Z.eqb (block c c1)) (blocks) then
    every_cont (fun c2 => space_listed [c; c1; c2]) else true) else true) = true.
Proof. revert c. apply all_bytes. by vm_compute. Qed.

Lemma lead_of c l r n : 2 <= n -> DecodeRune (c :: l) = (r, n) ->
  (as_ <=? first_of c) = false /\ (n = 2 -> leads 2 c = true) /\ (n = 3 -> leads 3 c = true).
Proof.
  intros Hn Hd. pose proof (lead_sizes c) as Hs. cbv zeta in Hs. unfold leads. unfold DecodeRune in Hd. cbv zeta in Hd.
  destruct (as_ <=? first_of c) eqn:E0; [destruct (Z.testbit _ _); injection Hd; lia|]. split; [done|].
  rewrite Z.ltb_antisym, E0, andb_true_r. bool_prop. rewrite !Z.eqb_eq.
  repeat match type of Hd with context [if ?b then _ else _] => destruct b eqn:?; try (injection Hd; lia) end;
    injection Hd as _ <-; bool_prop; lia.
Qed.

Lemma space_pair c c1 r : cont c1 -> DecodeRune [c; c1] = (r, 2) -> IsSpace r = true -> [c; c1] ∈ space_runes.
Proof.
  intros H1 Hd. destruct (lead_of _ _ _ _ (Z.le_refl 2) Hd) as (_ & Hc & _). pose proof (space_pairs c) as H.
  rewrite Hc in H by done. apply (every_cont_spec _ c1 H1) in H. revert Hd. by apply space_listed_spec.
Qed.

Lemma lor_bound a b n : 0 <= n -> 0 <= a < 2 ^ n -> 0 <= b < 2 ^ n -> 0 <= Z.lor a b < 2 ^ n.
Proof.
  intros Hn [Ha Ha'] [Hb Hb']. assert (0 <= Z.lor a b) as H0 by by apply Z.lor_nonneg. split; [done|].
  rewrite Z.bounded_iff_bits_nonneg in Ha', Hb' |- * by done. intros l Hl. by rewrite Z.lor_spec, Ha', Hb'.
Qed.

Lemma high_second b : (if outside (0x90, 0xBF) (uint8 b) then true else negb (Z.shiftr (Z.land (uint8 b) maskx) 2 =? 0)) = true.
Proof. revert b. apply all_bytes. by vm_compute. Qed.

Lemma payload b : 0 <= Z.land (uint8 b) mask4 < 8 /\ 0 <= Z.land (uint8 b) maskx < 64.
Proof.
  assert ((0 <=? Z.land (uint8 b) mask4) && (Z.land (uint8 b) mask4 <? 8) && (0 <=? Z.land (uint8 b) maskx) && (Z.land (uint8 b) maskx <? 64) = true)
    as H by (revert b; apply all_bytes; by vm_compute).
  bool_prop. lia.
Qed.

Lemma payload3 b : 0 <= Z.land (uint8 b) mask3 < 16.
Proof.
  assert ((0 <=? Z.land (uint8 b) mask3) && (Z.land (uint8 b) mask3 <? 16) = true) as H by (revert b; apply all_bytes; by vm_compute).
  bool_prop. lia.
Qed.

Lemma space_block r : 0 <= r < 2 ^ 16 -> IsSpace r = true -> existsb (Z.eqb (Z.shiftr r 6)) blocks = true.
Proof.
  intros Hr Hs. assert (r <= 0x3000) as Hle.
  { unfold IsSpace, isExcludingLatin in Hs. rewrite !(Z.mod_small r (2 ^ 32)) in Hs by lia.
    destruct (r <=? 0xFF) eqn:E1; bool_prop; [lia|]. destruct (r <=? 0x3000) eqn:E2; [|done]. by bool_prop. }
  assert (r ∈ filter (fun r => IsSpace r = true) (seqZ 0 0x3100)) as Hin
    by (apply list_elem_of_filter; split; [done|apply elem_of_seqZ; lia]).
  rewrite spaces_listed in Hin. apply list_elem_of_In in Hin.
  match type of Hin with In _ ?l => assert (forallb (fun r => existsb (Z.eqb (Z.shiftr r 6)) blocks) l = true) as H by by vm_compute end.
  rewrite forallb_forall in H. by apply H.
Qed.

Lemma space_triple c c1 c2 r : cont c1 -> cont c2 -> DecodeRune [c; c1; c2] = (r, 3) -> IsSpace r = true ->
  [c; c1; c2] ∈ space_runes.
Proof.
  intros H1 H2 Hd Hs. destruct (lead_of c [c1; c2] r 3) as (E0 & _ & Hc); [done|done|].
  assert (r = Z.lor (Z.shiftl (Z.land (uint8 c) mask3) 12)
    (Z.lor (Z.shiftl (Z.land (uint8 c1) maskx) 6) (Z.land (uint8 c2) maskx))) as Hr.
  { unfold DecodeRune in Hd. cbv zeta in Hd. rewrite E0 in Hd.
    repeat match type of Hd with context [if ?b then _ else _] => destruct b eqn:?; try done end. by injection Hd as <-. }
  pose proof (payload3 c). pose proof (payload c1). pose proof (payload c2).
  assert (existsb (Z.eqb (block c c1)) blocks = true) as Hb.
  { replace (block c c1) with (Z.shiftr r 6).
    - apply space_block; [|done]. rewrite Hr. repeat apply lor_bound; try done; rewrite ?Z.shiftl_mul_pow2 by done; lia.
    - rewrite Hr, !Z.shiftr_lor, !Z.shiftr_shiftl_l by done. unfold block. change (12 - 6) with 6. change (6 - 6) with 0.
      rewrite Z.shiftl_0_r. f_equal. rewrite (Z.shiftr_div_pow2 _ 6), Z.div_small by lia. apply Z.lor_0_r. }
  pose proof (space_triples c) as H'. rewrite Hc in H' by done. apply (every_cont_spec _ c1 H1) in H'. cbv beta in H'.
  rewrite Hb in H'. apply (every_cont_spec _ c2 H2) in H'. revert Hd Hs. by apply space_listed_spec.
Qed.

Lemma quad_bound c c1 c2 c3 :
  0 <= Z.lor (Z.shiftl (Z.land (uint8 c) mask4) 18) (Z.lor (Z.shiftl (Z.land (uint8 c1) maskx) 12)
    (Z.lor (Z.shiftl (Z.land (uint8 c2) maskx) 6) (Z.land (uint8 c3) maskx))) < 2 ^ 32.
Proof.
  pose proof (payload c). pose proof (payload c1). pose proof (payload c2). pose proof (payload c3).
  repeat apply lor_bound; try done; rewrite ?Z.shiftl_mul_pow2 by done; lia.
Qed.

(** A rune of four bytes is beyond the table. *)
Lemma space_quad c c1 c2 c3 r : DecodeRune [c; c1; c2; c3] = (r, 4) -> IsSpace r = false.
Proof.
  intros Hd. assert (Z.shiftr r 14 <> 0 /\ 0 <= r < 2 ^ 32) as [Hhigh Hr].
  { pose proof (lead_sizes c) as Hs. pose proof (lead_bytes c) as Hl. cbv zeta in Hs, Hl. unfold DecodeRune in Hd. cbv zeta in Hd.
    destruct (as_ <=? first_of c) eqn:E0; [by destruct (Z.testbit _ _)|].
    repeat match type of Hd with context [if ?b then _ else _] => destruct b eqn:?; try done end.
    cbn [nth] in *. injection Hd as <-. split; [|apply quad_bound].
    intros E. rewrite !Z.shiftr_lor in E. apply Z.lor_eq_0_iff in E as [Ec E]. apply Z.lor_eq_0_iff in E as [Ec1 _].
    apply shifted_nonzero in Ec; [|lia]. rewrite Z.shiftr_shiftl_r in Ec1 by done. rewrite Ec in Hl. simpl in Hl.
    pose proof (high_second c1) as Hh. change (14 - 12) with 2 in Ec1. rewrite Ec1 in Hh.
    assert (outside (0x90, 0xBF) (uint8 c1) = false) as Ho; [|by rewrite Ho in Hh].
    unfold outside in *. cbn [fst snd]. bool_prop. apply orb_false_iff. split; apply Z.ltb_ge; lia. }
  destruct (IsSpace r) eqn:E; [|done]. exfalso. apply Hhigh. rewrite Z.shiftr_div_pow2 by done. apply Z.div_small.
  unfold IsSpace, isExcludingLatin in E. rewrite !(Z.mod_small r (2 ^ 32)) in E by done.
  destruct (r <=? 0xFF) eqn:E1; bool_prop; [lia|]. destruct (r <=? 0x3000) eqn:E2; [|done]. bool_prop. lia.
Qed.

(** What the list of encodings is like: the heads begin runes, the tails continue them, no
    encoding begins or ends another. *)
Definition sound_space (p : text) : bool :=
  match p with
  | [] => false
  | a :: q => IsSpace (fst (DecodeRune p)) && (snd (DecodeRune p) =? len p) && RuneStart a
              && forallb (fun b => is_cont b && negb (RuneStart b)) q && (len p <=? 3)
              && Bool.eqb (uint8 a <? 128) (len p =? 1)
  end.

Definition free_of (ps : list text) : bool :=
  forallb (fun p => forallb (fun q => match drop_prefix p q with None => true | Some t => bool_decide (t = []) end) ps) ps.

Lemma spaces_sound p : p ∈ space_runes -> sound_space p = true.
Proof.
  assert (forallb sound_space space_runes = true) as H by by vm_compute. rewrite forallb_forall in H.
  intros Hp. apply H. by apply list_elem_of_In.
Qed.

Lemma free_of_spec ps : Forall (fun p => p <> []) ps -> free_of ps = true ->
  Forall (fun p => p <> [] /\ Forall (fun q => forall t u, p ++ t = q ++ u -> p = q) ps) ps.
Proof.
  intros Hne Hf. assert (forall p q t, p ∈ ps -> q ∈ ps -> q = p ++ t -> t = []) as Hd.
  { intros p q t Hp%list_elem_of_In Hq%list_elem_of_In ->. unfold free_of in Hf. rewrite forallb_forall in Hf. specialize (Hf p Hp).
    rewrite forallb_forall in Hf. specialize (Hf _ Hq). rewrite (proj2 (drop_prefix_spec p (p ++ t) t) eq_refl) in Hf.
    by apply bool_decide_eq_true in Hf. }
  rewrite Forall_forall in Hne |- *. intros p Hp. split; [by apply Hne|]. rewrite Forall_forall. intros q Hq t u Heq.
  apply app_eq_inv in Heq as [(k & -> & _)|(k & -> & _)].
  - rewrite (Hd q (q ++ k) k) by done. by rewrite app_nil_r.
  - rewrite (Hd p (p ++ k) k) by done. by rewrite app_nil_r.
Qed.

Lemma spaces_free : Forall (fun p => p <> [] /\ Forall (fun q => forall t u, p ++ t = q ++ u -> p = q) space_runes) space_runes.
Proof.
  apply free_of_spec; [|by vm_compute]. rewrite Forall_forall. intros p Hp%spaces_sound. by destruct p.
Qed.

Lemma rev_spaces_free : let ps := map (@rev ascii) space_runes in
  Forall (fun p => p <> [] /\ Forall (fun q => forall t u, p ++ t = q ++ u -> p = q) ps) ps.
Proof.
  apply free_of_spec; [|by vm_compute]. rewrite Forall_forall. intros p Hp. apply list_elem_of_In, in_map_iff in Hp as (q & <- & Hq).
  apply list_elem_of_In, spaces_sound in Hq. destruct q as [|a q]; [done|]. simpl. by destruct (rev q).
Qed.

Lemma space_front p t : p ∈ space_runes -> exists r, DecodeRune (p ++ t) = (r, len p) /\ IsSpace r = true.
Proof.
  intros Hp%spaces_sound. destruct p as [|a q]; [done|]. unfold sound_space in Hp. repeat (apply andb_prop in Hp as [Hp ?]).
  destruct (DecodeRune (a :: q)) as [r n] eqn:E. cbn [fst snd] in *. bool_prop. subst n. exists r. split; [|done].
  destruct (DecodeRune_shape a q) as [[Ha Hself]|[Ha [He|(x & y & r' & Heq & Hx)]]].
  - rewrite Hself in E. injection E as <- E. cbn [app]. by rewrite Hself, E.
  - rewrite He in E. injection E as <- E. by vm_compute in Hp.
  - destruct Hx as (_ & _ & Hx). rewrite Heq in E |- *. rewrite Hx in E. injection E as -> E.
    rewrite len_app in E. assert (y = []) as -> by (apply len_0; lia). rewrite app_nil_r. apply Hx.
Qed.

Lemma reads_space q r : reads q r -> IsSpace r = true -> q ∈ space_runes.
Proof.
  intros (Hlen & Hc & Hq) Hr. specialize (Hq []). rewrite app_nil_r in Hq.
  destruct q as [|c [|c1 [|c2 [|c3 [|? ?]]]]]; try (simpl in Hlen; lia); cbn [tail] in Hc; rewrite !Forall_cons in Hc.
  - destruct Hc as [? _]. by apply (space_pair c c1 r).
  - destruct Hc as (? & ? & _). by apply (space_triple c c1 c2 r).
  - by rewrite (space_quad c c1 c2 c3 r) in Hr.
Qed.

Lemma front_space s r n : DecodeRune s = (r, n) -> IsSpace r = true -> exists p t, s = p ++ t /\ p ∈ space_runes /\ n = len p.
Proof.
  intros Hd Hr. destruct s as [|c l]; [injection Hd as <- _; by vm_compute in Hr|].
  destruct (DecodeRune_shape c l) as [[Ha Hself]|[Ha [He|(q & t & r' & Heq & Hq)]]].
  - rewrite Hself in Hd. injection Hd as <- <-. exists [c], l. split; [done|]. split; [|done].
    apply in_spaces_spec. by rewrite (proj2 (space_ascii c Ha)).
  - rewrite He in Hd. injection Hd as <- _. by vm_compute in Hr.
  - rewrite Heq in Hd |- *. rewrite (proj2 (proj2 Hq)) in Hd. injection Hd as -> <-. exists q, t. split; [done|]. split; [|done].
    by eapply reads_space.
Qed.

Lemma decode_size s : s <> [] -> 1 <= snd (DecodeRune s) <= len s.
Proof.
  destruct s as [|c l]; [done|]. intros _. pose proof (len_nonneg l).
  destruct (DecodeRune_shape c l) as [[Ha Hself]|[Ha [He|(q & t & r' & Heq & Hlen & _ & Hq)]]].
  - rewrite Hself, len_cons. simpl. lia.
  - rewrite He, len_cons. simpl. lia.
  - rewrite Heq, Hq, len_app. pose proof (len_nonneg t). unfold len in *. simpl. lia.
Qed.

(** ** Trimming on the left *)

Definition ltrim (s : text) : text := trimmed space_runes s.

Lemma ltrim_app p t : p ∈ space_runes -> ltrim (p ++ t) = ltrim t.
Proof. apply trimmed_app, spaces_free. Qed.

Lemma ltrim_none s : (forall p t, p ∈ space_runes -> s <> p ++ t) -> ltrim s = s.
Proof. apply trimmed_none. Qed.

Lemma ltrim_stop s : IsSpace (fst (DecodeRune s)) = false -> ltrim s = s.
Proof. intros Hs. apply ltrim_none. intros p t Hp ->. destruct (space_front p t Hp) as (r & Hr & Hsp). rewrite Hr in Hs. simpl in Hs. congruence. Qed.

Lemma index_loop_ltrim fuel : forall a b, (length b < fuel)%nat ->
  exists x, b = x ++ ltrim b /\
    index_loop fuel (a ++ b) IsSpace false (len a) = Some (match ltrim b with [] => -1 | _ => len (a ++ x) end).
Proof.
  induction fuel as [|f IH]; intros a b Hf; [lia|]. cbn [index_loop]. destruct b as [|c l] eqn:Eb.
  { exists []. split; [done|]. by rewrite app_nil_r, Z.ltb_irrefl. }
  rewrite <- Eb in *. assert (b <> []) as Hb by (by subst). clear Eb c l. rewrite (proj2 (Z.ltb_lt _ _)).
  2:{ rewrite len_app. destruct b; [done|]. rewrite len_cons. pose proof (len_nonneg b). lia. }
  rewrite slice_suffix. cbn [mbind option_bind]. destruct (DecodeRune b) as [r n] eqn:Hd.
  destruct (IsSpace r) eqn:Hr; cbn [Bool.eqb].
  - destruct (front_space _ _ _ Hd Hr) as (p & t & -> & Hp & ->). rewrite ltrim_app by done.
    assert (0 < length p)%nat as Hlp by (apply spaces_sound in Hp; destruct p; [done|simpl; lia]).
    destruct (IH (a ++ p) t) as (x & Hx & Hi); [rewrite length_app in Hf; lia|].
    exists (p ++ x). rewrite <- app_assoc, <- Hx. split; [done|]. rewrite <- len_app, (app_assoc a), Hi.
    by rewrite <- (app_assoc a).
  - assert (ltrim b = b) as -> by (apply ltrim_stop; by rewrite Hd). exists []. split; [done|]. rewrite app_nil_r. by destruct b.
Qed.

Lemma TrimLeftFunc_ltrim s : TrimLeftFunc s IsSpace = Some (ltrim s).
Proof.
  unfold TrimLeftFunc, indexFunc. destruct (index_loop_ltrim (S (length s)) [] s) as (x & Hx & Hi); [lia|].
  cbn [app] in Hi. change (len []) with 0 in Hi. rewrite Hi. cbn [mbind option_bind]. destruct (ltrim s) as [|c l] eqn:E; [done|].
  pose proof (len_nonneg x). rewrite (proj2 (Z.eqb_neq _ _)) by lia. rewrite Hx. apply slice_suffix.
Qed.

(** ** The last rune *)

Definition rtrim (s : text) : text := rev (trimmed (map (@rev ascii) space_runes) (rev s)).

Lemma rtrim_app t p : p ∈ space_runes -> rtrim (t ++ p) = rtrim t.
Proof.
  intros Hp. unfold rtrim. rewrite rev_app_distr. f_equal. apply trimmed_app; [apply rev_spaces_free|].
  apply list_elem_of_In, in_map. by apply list_elem_of_In.
Qed.

Lemma rtrim_none s : (forall p t, p ∈ space_runes -> s <> t ++ p) -> rtrim s = s.
Proof.
  intros Hno. unfold rtrim. rewrite trimmed_none; [apply rev_involutive|]. intros p t Hp Heq.
  apply list_elem_of_In, in_map_iff in Hp as (q & <- & Hq%list_elem_of_In). apply (Hno q (rev t) Hq).
  apply (f_equal (@rev ascii)) in Heq. by rewrite rev_involutive, rev_app_distr, rev_involutive in Heq.
Qed.

(** Where a rune starts, looking back from [x]: at most [lim] places on. *)
Lemma rune_start_some fuel s lim : forall x, 0 <= lim -> lim - 1 <= x < len s -> x - lim + 1 < Z.of_nat fuel ->
  exists y, rune_start_loop fuel s lim x = Some y /\ lim - 1 <= y <= x.
Proof.
  induction fuel as [|f IH]; intros x Hlim Hx Hf; cbn [rune_start_loop]; (destruct (lim <=? x) eqn:E; bool_prop); try lia.
  - destruct (at_some s x) as [c Hc]; [lia|]. rewrite Hc. cbn [mbind option_bind]. destruct (RuneStart c).
    + exists x. split; [done|lia].
    + destruct (IH (x - 1)) as (y & Hy & Hle); [lia|lia|lia|]. exists y. split; [done|lia].
  - exists x. split; [done|lia].
Qed.

(** The last rune of [s], of the bytes [q]. *)
Definition last_of (s : text) (r n : Z) : Prop :=
  exists t q, s = t ++ q /\ len q = n /\ q <> [] /\ match q with
  | [] => False
  | c :: l => (uint8 c < 128 /\ l = [] /\ r = uint8 c) \/ (128 <= uint8 c /\
      (DecodeRune q = (r, n) \/ (r = RuneError /\ l = [])))
  end.

Lemma snoc_cases (s : text) : s = [] \/ exists t c, s = t ++ [c].
Proof. destruct s as [|x t] using rev_ind; [by left|]. right. by exists t, x. Qed.

Lemma DecodeLast_spec s : s <> [] -> exists r n, DecodeLastRuneInString s = Some (r, n) /\ last_of s r n.
Proof.
  intros Hs. destruct (snoc_cases s) as [->|(t & c & ->)]; [done|]. clear Hs. unfold DecodeLastRuneInString.
  pose proof (len_nonneg t). assert (len (t ++ [c]) = len t + 1) as Hl by (by rewrite len_app).
  rewrite Hl, (proj2 (Z.eqb_neq _ _)) by lia. replace (len t + 1 - 1) with (len t) by lia.
  rewrite at_app. cbn [mbind option_bind]. destruct (uint8 c <? RuneSelf) eqn:Ec; unfold RuneSelf in Ec; bool_prop.
  { exists (uint8 c), 1. split; [done|]. exists t, [c]. split; [done|]. split; [done|]. split; [done|]. by left. }
  destruct (rune_start_some 5 (t ++ [c]) (if len t + 1 - UTFMax <? 0 then 0 else len t + 1 - UTFMax) (len t - 1)) as (y & Hy & _ & Hle).
  { destruct (_ <? 0) eqn:E; bool_prop; lia. }
  { destruct (_ <? 0) eqn:E; unfold UTFMax in *; bool_prop; lia. }
  { unfold UTFMax. destruct (_ <? 0) eqn:E; bool_prop; lia. }
  rewrite Hy. cbn [mbind option_bind]. set (k := if y <? 0 then 0 else y).
  assert (0 <= k <= len t) as Hk by (unfold k; destruct (y <? 0) eqn:E; bool_prop; lia).
  destruct (slice_rest (t ++ [c]) k) as (x & q & Hq & Heq & Hx); [lia|]. rewrite Hl in Hq. rewrite Hq. cbn [mbind option_bind].
  assert (q <> []) as Hne by (intros ->; apply (f_equal len) in Heq; rewrite Hl, app_nil_r in Heq; lia).
  assert (len t + 1 = k + len q) as Hlen by (rewrite <- Hl, Heq, len_app; lia).
  assert (exists m, q = m ++ [c]) as (m & Hm).
  { destruct (snoc_cases q) as [->|(m & d & ->)]; [done|]. rewrite app_assoc in Heq. apply app_inj_tail in Heq as [_ ->]. by exists m. }
  destruct (DecodeRune q) as [r size] eqn:Hd. destruct (k + size =? len t + 1) eqn:E; bool_prop.
  - exists r, size. split; [done|]. exists x, q. split; [done|]. split; [lia|]. split; [done|].
    destruct q as [|a l] eqn:Eq; [done|]. destruct (Z.lt_ge_cases (uint8 a) 128) as [Ha|Ha].
    + left. rewrite DecodeRune_self in Hd by done. injection Hd as <- <-. split; [done|]. split; [|done].
      apply len_0. rewrite len_cons in Hlen. lia.
    + right. split; [done|]. by left.
  - exists RuneError, 1. split; [done|]. exists t, [c]. split; [done|]. split; [done|]. split; [done|]. right. split; [done|]. by right.
Qed.

(** From the first byte of an encoding at the end on. *)
Lemma finish_last t p r k : IsSpace r = true -> DecodeRune p = (r, len p) -> k = len t ->
  (let start := if k <? 0 then 0 else k in
   q ← slice (t ++ p) start (len (t ++ p));
   let '(r, size) := DecodeRune q in
   if start + size =? len (t ++ p) then Some (r, size) else Some (RuneError, 1)) = Some (r, len p).
Proof.
  intros Hr Hp ->. cbv zeta. rewrite (proj2 (Z.ltb_ge _ _)) by apply len_nonneg. rewrite slice_suffix. cbn [mbind option_bind].
  by rewrite Hp, len_app, Z.eqb_refl.
Qed.

Lemma at_second t a b l : at_ (t ++ a :: b :: l) (len t + 1) = Some b.
Proof. pose proof (at_app (t ++ [a]) b l) as H. rewrite len_app, <- app_assoc in H. exact H. Qed.

Lemma at_third t a b c l : at_ (t ++ a :: b :: c :: l) (len t + 2) = Some c.
Proof. pose proof (at_app (t ++ [a; b]) c l) as H. rewrite len_app, <- app_assoc in H. exact H. Qed.

Lemma last_space t p : p ∈ space_runes -> exists r, DecodeLastRuneInString (t ++ p) = Some (r, len p) /\ IsSpace r = true.
Proof.
  intros Hp. destruct (space_front p [] Hp) as (r & Hr & Hsp). rewrite app_nil_r in Hr. exists r. split; [|done].
  apply spaces_sound in Hp. pose proof (len_nonneg t).
  destruct p as [|a q]; [done|]. unfold sound_space in Hp. repeat (apply andb_prop in Hp as [Hp ?]). bool_prop.
  match goal with Hf : forallb _ q = true |- _ => rename Hf into Hq end.
  match goal with Hf : RuneStart a = true |- _ => rename Hf into Hstart end.
  match goal with Hf : Bool.eqb _ _ = true |- _ => apply eqb_prop in Hf; rename Hf into Hone end.
  assert (forall b, is_cont b = true -> (uint8 b <? RuneSelf) = false) as Hwide
    by (intros b Hb; unfold is_cont in Hb; bool_prop; by apply Z.ltb_ge).
  destruct q as [|b [|c [|d q]]].
  - unfold DecodeLastRuneInString. rewrite len_app. change (len [a]) with 1 in *. rewrite (proj2 (Z.eqb_neq _ _)) by lia.
    replace (len t + 1 - 1) with (len t) by lia. rewrite at_app. cbn [mbind option_bind]. change RuneSelf with 128. rewrite Hone.
    change (1 =? 1) with true. cbv iota. rewrite DecodeRune_self in Hr by by apply Z.ltb_lt. injection Hr as <-. done.
  - cbn [forallb] in Hq. bool_prop. assert (len (t ++ [a; b]) = len t + 2) as Hl by by rewrite len_app.
    rewrite <- (finish_last t [a; b] r (len t)) by done. unfold DecodeLastRuneInString. rewrite Hl, (proj2 (Z.eqb_neq _ _)) by lia.
    replace (len t + 2 - 1) with (len t + 1) by lia. rewrite at_second. cbn [mbind option_bind]. rewrite Hwide by done.
    replace (len t + 1 - 1) with (len t) by lia. cbn [rune_start_loop]. rewrite (proj2 (Z.leb_le _ _)).
    2:{ unfold UTFMax. destruct (_ <? 0) eqn:E; bool_prop; lia. }
    rewrite at_app. cbn [mbind option_bind]. rewrite Hstart. done.
  - cbn [forallb] in Hq. bool_prop. assert (len (t ++ [a; b; c]) = len t + 3) as Hl by by rewrite len_app.
    rewrite <- (finish_last t [a; b; c] r (len t)) by done. unfold DecodeLastRuneInString. rewrite Hl, (proj2 (Z.eqb_neq _ _)) by lia.
    replace (len t + 3 - 1) with (len t + 2) by lia. rewrite at_third. cbn [mbind option_bind]. rewrite Hwide by done.
    replace (len t + 2 - 1) with (len t + 1) by lia. cbn [rune_start_loop].
    assert ((if len t + 3 - UTFMax <? 0 then 0 else len t + 3 - UTFMax) <= len t) as Hlim
      by (unfold UTFMax; destruct (_ <? 0) eqn:E; bool_prop; lia).
    rewrite (proj2 (Z.leb_le _ (len t + 1))) by lia.
    rewrite at_second. cbn [mbind option_bind]. match goal with Hf : RuneStart b = false |- _ => rewrite Hf end.
    replace (len t + 1 - 1) with (len t) by lia. rewrite (proj2 (Z.leb_le _ (len t))) by done. rewrite at_app. cbn [mbind option_bind]. rewrite Hstart. done.
  - match goal with Hf : len _ <= 3 |- _ => rewrite !len_cons in Hf; pose proof (len_nonneg q); lia end.
Qed.

(** ** Trimming on the right *)

(** What may follow a rune without changing it. *)
Definition ends_rune (z : text) : Prop := forall b v, z = b :: v -> ~ cont b.

Lemma start_not_cont a : RuneStart a = true -> ~ cont a.
Proof.
  assert (negb (RuneStart a && is_cont a) = true) as H by (revert a; apply all_bytes; by vm_compute).
  intros Ha Hc%is_cont_spec. by rewrite Ha, Hc in H.
Qed.

Lemma space_ends_rune p z : p ∈ space_runes -> ends_rune (p ++ z).
Proof.
  intros Hp%spaces_sound b v Heq. destruct p as [|a p]; [done|]. injection Heq as -> _. apply start_not_cont.
  unfold sound_space in Hp. by bool_prop.
Qed.

Lemma rune_width c l u r : 128 <= uint8 c -> DecodeRune (c :: l) = (r, len (c :: l)) \/ l = [] -> ends_rune u ->
  snd (DecodeRune ((c :: l) ++ u)) = len (c :: l).
Proof.
  intros Hc Hq Hu. assert (l = [] \/ exists r, reads (c :: l) r) as [->|[r' Hr]].
  - destruct Hq as [Hd|]; [|by left]. destruct (DecodeRune_shape c l) as [[Hlt _]|[_ [He|(q & t & r' & Heq & Hr)]]]; [lia| |].
    + left. rewrite He in Hd. assert (len (c :: l) = 1) as Hl by congruence. apply len_0. rewrite len_cons in Hl. lia.
    + right. exists r'. rewrite Heq in *. destruct Hr as (H1 & H2 & H3). rewrite H3 in Hd. assert (len (q ++ t) = len q) as Hl by congruence.
      rewrite len_app in Hl. rewrite (len_0 t), app_nil_r by lia. done.
  - cbn [app]. by rewrite DecodeRune_alone.
  - by rewrite (proj2 (proj2 Hr)).
Qed.

(** The last rune of a trimmed text, by its bytes. *)
Definition last_rune (q : text) : Prop :=
  match q with
  | [] => False
  | c :: l => (uint8 c < 128 /\ l = []) \/ (128 <= uint8 c /\ forall u, ends_rune u -> snd (DecodeRune (q ++ u)) = len q)
  end.

Lemma last_of_rune s r n : last_of s r n -> exists t q, s = t ++ q /\ len q = n /\ last_rune q /\ (IsSpace r = true -> q ∈ space_runes).
Proof.
  intros (t & q & -> & Hn & _ & Hq). destruct q as [|c l]; [done|]. exists t, (c :: l). split; [done|]. split; [done|].
  destruct Hq as [(Hc & -> & ->)|(Hc & Hd)].
  - split; [by left|]. intros Hs. apply in_spaces_spec. by rewrite (proj2 (space_ascii c Hc)).
  - split.
    + right. split; [done|]. intros u. apply (rune_width c l u r Hc). rewrite Hn. destruct Hd as [Hd|[_ Hl]]; [by left|by right].
    + intros Hs. destruct Hd as [Hd|[-> _]]; [|by vm_compute in Hs].
      destruct (front_space _ _ _ Hd Hs) as (p & t' & Heq & Hp & Hlen). rewrite Heq in Hn |- *. rewrite len_app in Hn.
      rewrite (len_0 t'), app_nil_r by lia. done.
Qed.

Lemma last_index_loop_rtrim fuel : forall b z, (length b < fuel)%nat -> ends_rune z ->
  exists z' i, b = rtrim b ++ z' /\ ends_rune (z' ++ z) /\
    last_index_loop fuel (b ++ z) IsSpace false (len b) = Some i /\
    ((rtrim b = [] /\ i = -1) \/ exists y q, rtrim b = y ++ q /\ i = len y /\ last_rune q).
Proof.
  induction fuel as [|f IH]; intros b z Hf Hz; [lia|]. cbn [last_index_loop].
  destruct (decide (b = [])) as [->|Hb]; [exists [], (-1); by repeat split; [..|left]|].
  assert (0 < len b) as Hpos by (destruct b; [done|rewrite len_cons; pose proof (len_nonneg b); lia]).
  rewrite (proj2 (Z.ltb_lt _ _)), slice_prefix by done. cbn [mbind option_bind].
  destruct (DecodeLast_spec b Hb) as (r & n & Hd & Hlast). rewrite Hd. cbn [mbind option_bind].
  destruct (last_of_rune _ _ _ Hlast) as (t & q & Heq & Hn & Hq & Hspace). destruct (IsSpace r) eqn:Hr; cbn [Bool.eqb].
  - specialize (Hspace eq_refl). assert (q <> []) as Hne by (by destruct q).
    rewrite Heq, rtrim_app by done. replace (len (t ++ q) - n) with (len t) by (rewrite len_app; lia).
    destruct (IH t (q ++ z)) as (z' & i & Ht & Hz' & Hi & Hcase).
    { rewrite Heq, length_app in Hf. destruct q; [done|simpl in Hf; lia]. }
    { by apply space_ends_rune. }
    exists (z' ++ q), i. rewrite <- !app_assoc in *. split; [by rewrite app_assoc, <- Ht|]. by split.
  - assert (rtrim b = b) as ->.
    { apply rtrim_none. intros p x Hp Hx. destruct (last_space x p Hp) as (r' & Hr' & Hs). rewrite <- Hx, Hd in Hr'. congruence. }
    exists [], (len b - n). rewrite app_nil_r. split; [done|]. split; [done|]. split; [done|]. right. exists t, q.
    split; [done|]. split; [rewrite Heq, len_app; lia|done].
Qed.

Lemma TrimRightFunc_rtrim s : TrimRightFunc s IsSpace = Some (rtrim s).
Proof.
  unfold TrimRightFunc, lastIndexFunc. destruct (last_index_loop_rtrim (S (length s)) s []) as (z & i & Hs & Hz & Hi & Hcase); [lia|done|].
  rewrite app_nil_r in Hi, Hz. rewrite Hi. cbn [mbind option_bind].
  destruct Hcase as [[Hr ->]|(y & q & Hr & -> & Hq)].
  - rewrite Hr. change (slice s 0 0 = Some []). exact (slice_prefix [] s).
  - pose proof (len_nonneg y). rewrite (proj2 (Z.leb_le _ _)) by done. destruct q as [|c l]; [done|].
    rewrite Hr in Hs |- *. rewrite <- app_assoc in Hs. cbn [app] in Hs. rewrite Hs, at_app. cbn [mbind option_bind]. change RuneSelf with 128.
    change (c :: l ++ z) with ((c :: l) ++ z).
    assert (slice (y ++ (c :: l) ++ z) 0 (len y + len (c :: l)) = Some (y ++ c :: l)) as Hsl
      by (rewrite app_assoc, <- len_app; apply slice_prefix).
    destruct Hq as [[Hc ->]|[Hc Hq]].
    + by rewrite (proj2 (Z.leb_gt _ _)) by done.
    + rewrite (proj2 (Z.leb_le _ _)) by done. rewrite slice_suffix. cbn [mbind option_bind]. by rewrite Hq.
Qed.

(** ** [TrimSpace] *)

Lemma start_scan_ltrim fuel : forall a b, (length b < fuel)%nat ->
  exists x b' wide, b = x ++ b' /\ start_scan fuel (a ++ b) (len a) = Some (wide, len (a ++ x)) /\
    ltrim b = ltrim b' /\ (wide = false -> ltrim b' = b').
Proof.
  induction fuel as [|f IH]; intros a b Hf; [lia|]. cbn [start_scan]. destruct b as [|c l].
  { exists [], [], false. rewrite !app_nil_r, Z.ltb_irrefl. by repeat split. }
  rewrite (proj2 (Z.ltb_lt _ _)) by (rewrite len_app, len_cons; pose proof (len_nonneg l); lia).
  rewrite at_app. cbn [mbind option_bind]. change RuneSelf with 128. destruct (128 <=? uint8 c) eqn:Ec; bool_prop.
  { exists [], (c :: l), true. rewrite app_nil_r. by repeat split. }
  destruct (space_ascii c Ec) as [Ha Hin]. destruct (asciiSpace c) eqn:Es; cbn [negb].
  - destruct (IH (a ++ [c]) l) as (x & b' & wide & -> & Hs & Hl & Hw); [simpl in Hf; lia|].
    exists (c :: x), b', wide. rewrite <- app_assoc, len_app in Hs. change (len [c]) with 1 in Hs. cbn [app] in Hs |- *.
    split; [done|]. rewrite Hs, <- app_assoc. cbn [app]. split; [done|]. split; [|done]. rewrite <- Hl.
    apply (ltrim_app [c]). apply in_spaces_spec. congruence.
  - exists [], (c :: l), false. rewrite app_nil_r. split; [done|]. split; [done|]. split; [done|]. intros _.
    apply ltrim_stop. rewrite DecodeRune_self by done. cbn [fst]. congruence.
Qed.

Lemma stop_scan_rtrim fuel : forall a w z, (length w < fuel)%nat ->
  exists w' x wide, w = w' ++ x /\ stop_scan fuel (a ++ w ++ z) (len a) (len a + len w) = Some (wide, len a + len w') /\
    rtrim w = rtrim w' /\ (wide = false -> rtrim w' = w').
Proof.
  induction fuel as [|f IH]; intros a w z Hf; [lia|]. cbn [stop_scan]. destruct (snoc_cases w) as [->|(t & c & ->)].
  { exists [], [], false. change (len []) with 0. rewrite Z.add_0_r, Z.ltb_irrefl. by repeat split. }
  pose proof (len_nonneg t). assert (len (t ++ [c]) = len t + 1) as Hl by by rewrite len_app.
  rewrite Hl, (proj2 (Z.ltb_lt _ _)) by lia. replace (len a + (len t + 1) - 1) with (len (a ++ t)) by (rewrite len_app; lia).
  assert (a ++ (t ++ [c]) ++ z = (a ++ t) ++ c :: z) as Heq by by simplify_list_eq. rewrite Heq, at_app. cbn [mbind option_bind].
  change RuneSelf with 128. destruct (128 <=? uint8 c) eqn:Ec; bool_prop.
  { exists (t ++ [c]), [], true. rewrite app_nil_r, Hl. by repeat split. }
  destruct (space_ascii c Ec) as [Ha Hin]. destruct (asciiSpace c) eqn:Es; cbn [negb].
  - destruct (IH a t (c :: z)) as (w' & x & wide & -> & Hs & Hr & Hw); [rewrite length_app in Hf; simpl in Hf; lia|].
    exists w', (x ++ [c]), wide. split; [by rewrite app_assoc|]. rewrite len_app, <- (app_assoc a). split; [done|]. split; [|done].
    rewrite <- Hr. apply rtrim_app. apply in_spaces_spec. congruence.
  - exists (t ++ [c]), [], false. rewrite app_nil_r, Hl. split; [done|]. split; [done|]. split; [done|]. intros _.
    apply rtrim_none. intros p y Hp Hy. destruct (last_space y p Hp) as (r & Hr & Hsp). rewrite <- Hy in Hr.
    unfold DecodeLastRuneInString in Hr. rewrite Hl, (proj2 (Z.eqb_neq _ _)) in Hr by lia.
    replace (len t + 1 - 1) with (len t) in Hr by lia. rewrite at_app in Hr. cbn [mbind option_bind] in Hr.
    rewrite (proj2 (Z.ltb_lt _ _)) in Hr by done. injection Hr as <- _. congruence.
Qed.

Lemma TrimSpace_trims s : TrimSpace s = Some (rtrim (ltrim s)).
Proof.
  unfold TrimSpace. destruct (start_scan_ltrim (S (length s)) [] s) as (x & b & wide & Hs & Hscan & Hl & Hw); [lia|].
  cbn [app] in Hscan. change (len []) with 0 in Hscan. rewrite Hscan, Hl. cbn [mbind option_bind]. destruct wide.
  - rewrite Hs, slice_suffix. cbn [mbind option_bind]. unfold TrimFunc. rewrite TrimLeftFunc_ltrim. cbn [mbind option_bind].
    apply TrimRightFunc_rtrim.
  - rewrite (Hw eq_refl). destruct (stop_scan_rtrim (S (length s)) x b []) as (w & y & wide & Hb & Hstop & Hr & Hw').
    { rewrite Hs, length_app. lia. }
    rewrite app_nil_r, <- Hs, <- len_app, <- Hs in Hstop. rewrite Hstop. cbn [mbind option_bind].
    rewrite Hs, Hb, slice_app. cbn [mbind option_bind]. rewrite <- Hb, Hr. destruct wide; [apply TrimRightFunc_rtrim|by rewrite Hw'].
Qed.

(** C18: for every text, valid UTF-8 or not, [TrimSpace] never reads out of range and gives the
    text without the encodings of white space at its ends, by which the handlers are
    modelled: its ASCII scans from both ends, its decoding of runes forwards and backwards
    and its width of the last rune come to the same. *)
Theorem TrimSpace_model s : TrimSpace (chars s) = Some (chars (Go.TrimSpace s)).
Proof.
  rewrite TrimSpace_trims. f_equal. unfold chars, Go.TrimSpace. rewrite String.list_ascii_of_string_of_list_ascii.
  unfold rtrim, ltrim, trimmed. by rewrite length_rev.
Qed.
