(* ===== verification/Marshal.v ===== *)
(** * encoding/json: the texts that Marshal writes

    [json.Marshal] of a map of strings, as far as a reader of the JSON can tell: the bytes of
    a key or value that are not UTF-8 are written as U+FFFD, one for each, and the entries
    are written by the order of their keys. The escapes that it writes for the other
    characters are undone by every reader of JSON. Of equal names in an object PostgreSQL's
    JSONB keeps the last. *)

From Stdlib Require Import Ascii String.
From stdpp Require Import gmap.
From S2P Require Import Prelude Go Utf8 Strings StringsProps TrimProps.

#[local] Open Scope Z_scope.

Module marshal.

(** U+FFFD, written as the escape \ufffd *)
Definition ufffd : list ascii := AppendRune [] RuneError.

(** The loop of [appendString] over the rest of the text; every round takes a byte. *)
Fixpoint coerce (fuel : nat) (src : list ascii) : list ascii :=
  match fuel, src with
  | O, _ | _, [] => []
  | S f, b :: rest =>
      if uint8 b <? RuneSelf then b :: coerce f rest
      else
        let '(c, size) := DecodeRune (firstn 4 src) in
        if (c =? RuneError) && (size =? 1) then ufffd ++ coerce f rest
        else firstn (Z.to_nat size) src ++ coerce f (skipn (Z.to_nat size) src)
  end.

(** The text that is read from what [appendString] writes for [s]. *)
Definition appendString (s : string) : string :=
  let src := String.list_ascii_of_string s in String.string_of_list_ascii (coerce (length src) src).

(** [slices.SortFunc(sv, ... strings.Compare(i.ks, j.ks))] *)
Definition sorted_keys (m : gmap string string) : list (string * string) :=
  order_by (fun i j => String.leb (fst i) (fst j)) (map_to_list m).

(** The object that is read from what [mapEncoder.encode] writes for [m]. *)
Definition encode_map (m : gmap string string) : gmap string string :=
  fold_left (fun acc kv => <[appendString (fst kv) := appendString (snd kv)]> acc) (sorted_keys m) ∅.

Definition bytes_text (l : list nat) : string := String.string_of_list_ascii (map ascii_of_nat l).

(** Latin-1 is not UTF-8; the euro sign and U+FFFD itself are; two keys become one. *)
Example appendString_ex :
  appendString (bytes_text [74; 111; 115; 233]%nat) = bytes_text [74; 111; 115; 239; 191; 189]%nat
  /\ appendString (bytes_text [226; 130; 172; 239; 191; 189]%nat) = bytes_text [226; 130; 172; 239; 191; 189]%nat
  /\ appendString (bytes_text [226; 130]%nat) = bytes_text [239; 191; 189; 239; 191; 189]%nat
  /\ map_to_list (encode_map {[bytes_text [255]%nat := "z"; bytes_text [254]%nat := "a"]}) = [(bytes_text [239; 191; 189]%nat, "z")].
Proof. by vm_compute. Qed.

End marshal.

Import marshal.

(** ** UTF-8 comes through, and what has come through is UTF-8 *)

(** A text that [appendString] writes as it is. *)
Definition utf8_text (s : string) : Prop := appendString s = s.

Lemma reads_first_four q t r : reads q r -> DecodeRune (firstn 4 (q ++ t)) = (r, strings.len q).
Proof.
  intros (Hlen & _ & Hq). rewrite firstn_app, (firstn_all2 q) by lia. apply Hq.
Qed.

(** What the loop writes for a byte that is not ASCII, and the rest that it goes on with. *)
Lemma coerce_wide f b rest : 128 <= uint8 b ->
  coerce (S f) (b :: rest) = ufffd ++ coerce f rest
  \/ exists q t r, b :: rest = q ++ t /\ reads q r /\ coerce (S f) (b :: rest) = q ++ coerce f t.
Proof.
  intros Hb. cbn [coerce]. change RuneSelf with 128. rewrite (proj2 (Z.ltb_ge _ _)) by done.
  destruct (DecodeRune_shape b (firstn 3 rest)) as [[Hlt _]|[_ [He|(q & t & r & Heq & Hr)]]]; [lia| |].
  - left. change (firstn 4 (b :: rest)) with (b :: firstn 3 rest). by rewrite He.
  - right. exists q, (t ++ skipn 3 rest), r.
    assert (b :: rest = q ++ t ++ skipn 3 rest) as Hs by (rewrite app_assoc, <- Heq; simpl; by rewrite firstn_skipn).
    split; [done|]. split; [done|]. rewrite Hs, (reads_first_four q _ r) by done.
    assert ((strings.len q =? 1) = false) as -> by (destruct Hr as [Hlen _]; apply Z.eqb_neq; unfold strings.len; lia).
    rewrite andb_false_r. unfold strings.len. by rewrite Nat2Z.id, take_app_length, drop_app_length.
Qed.

Lemma reads_ufffd : reads ufffd RuneError.
Proof.
  destruct (DecodeRune_shape (ascii_of_nat 239) (map ascii_of_nat [191; 189]%nat)) as [[Hlt _]|[_ [He|(q & t & r & Heq & Hr)]]].
  - by vm_compute in Hlt.
  - by vm_compute in He.
  - pose proof Hr as (Hlen & Hc & Hq). specialize (Hq t). rewrite <- Heq in Hq. change (DecodeRune _) with (RuneError, 3) in Hq.
    injection Hq as Hr' Hq. rewrite <- Hr' in Hr. assert (length q = 3%nat) as H3 by (unfold strings.len in Hq; lia).
    change ufffd with (ascii_of_nat 239 :: map ascii_of_nat [191; 189]%nat). rewrite Heq.
    assert (t = []) as ->. { apply (f_equal length) in Heq. rewrite length_app, H3 in Heq. simpl in Heq. by destruct t. }
    by rewrite app_nil_r.
Qed.

(** A rune is copied, and nothing changes in front of what follows. *)
Lemma coerce_reads f q t r : reads q r -> coerce (S f) (q ++ t) = q ++ coerce f t.
Proof.
  intros Hr. pose proof Hr as (Hlen & _ & Hq). destruct q as [|b q]; [simpl in Hlen; lia|]. cbn [app coerce].
  assert (128 <= uint8 b) as Hb.
  { destruct (Z.lt_ge_cases (uint8 b) 128) as [Hlt|]; [|done]. specialize (Hq []). rewrite app_nil_r, DecodeRune_self in Hq by done.
    injection Hq as _ Hl. unfold strings.len in Hl. simpl in Hlen. simpl length in Hl. lia. }
  change RuneSelf with 128. rewrite (proj2 (Z.ltb_ge _ _)) by done. change (b :: q ++ t) with ((b :: q) ++ t).
  rewrite (reads_first_four _ _ r) by done.
  assert ((strings.len (b :: q) =? 1) = false) as -> by (apply Z.eqb_neq; unfold strings.len; simpl in *; lia).
  rewrite andb_false_r. unfold strings.len. by rewrite Nat2Z.id, take_app_length, drop_app_length.
Qed.

Lemma coerce_fuel f : forall g s, (length s <= f)%nat -> (length s <= g)%nat -> coerce f s = coerce g s.
Proof.
  induction f as [|f IH]; intros g s Hf Hg; (destruct s as [|b rest]; [by destruct g|]); [simpl in Hf; lia|].
  destruct g as [|g]; [simpl in Hg; lia|]. simpl in Hf, Hg. destruct (Z.lt_ge_cases (uint8 b) 128) as [Hb|Hb].
  - cbn [coerce]. change RuneSelf with 128. rewrite (proj2 (Z.ltb_lt _ _)) by done. f_equal. apply IH; lia.
  - assert (forall q t r, b :: rest = q ++ t -> reads q r -> coerce (S f) (b :: rest) = coerce (S g) (b :: rest)) as Hreads.
    { intros q t r Hs Hr. rewrite Hs, (coerce_reads f q t r), (coerce_reads g q t r) by done. f_equal.
      apply (f_equal length) in Hs. rewrite length_app in Hs. destruct Hr as [Hl _]. simpl in Hs. apply IH; lia. }
    destruct (coerce_wide f b rest Hb) as [E|(q & t & r & Hs & Hr & _)]; [|by apply (Hreads q t r)].
    destruct (coerce_wide g b rest Hb) as [E'|(q & t & r & Hs & Hr & _)]; [|by apply (Hreads q t r)].
    rewrite E, E'. f_equal. apply IH; lia.
Qed.

(** The loop with enough fuel. *)
Definition coerced (s : list ascii) : list ascii := coerce (length s) s.

Lemma coerced_ascii b s : uint8 b < 128 -> coerced (b :: s) = b :: coerced s.
Proof. intros Hb. unfold coerced. cbn [length coerce]. change RuneSelf with 128. by rewrite (proj2 (Z.ltb_lt _ _)). Qed.

Lemma coerced_reads q t r : reads q r -> coerced (q ++ t) = q ++ coerced t.
Proof.
  intros Hr. unfold coerced. pose proof Hr as [Hl _]. rewrite length_app.
  destruct (length q + length t)%nat as [|n] eqn:E; [lia|]. rewrite (coerce_reads n q t r) by done. f_equal. apply coerce_fuel; lia.
Qed.

Lemma coerced_idempotent s : coerced (coerced s) = coerced s.
Proof.
  induction s as [s IH] using (well_founded_induction (well_founded_ltof _ (@length ascii))). unfold ltof in IH.
  destruct s as [|b rest]; [done|]. destruct (Z.lt_ge_cases (uint8 b) 128) as [Hb|Hb].
  - rewrite coerced_ascii, coerced_ascii, IH by (done || (simpl; lia)). done.
  - destruct (coerce_wide (length rest) b rest Hb) as [E|(q & t & r & Hs & Hr & _)].
    + change (coerced (b :: rest)) with (coerce (S (length rest)) (b :: rest)). rewrite E.
      rewrite (coerced_reads _ _ _ reads_ufffd). f_equal. apply IH. simpl. lia.
    + assert (length t < length (b :: rest))%nat as Ht by (rewrite Hs, length_app; destruct Hr as [Hl _]; lia).
      rewrite Hs, (coerced_reads q t r) by done. rewrite (coerced_reads q _ r) by done. by rewrite IH.
Qed.

(** What has been written is UTF-8. *)
Lemma appendString_utf8 s : utf8_text (appendString s).
Proof.
  unfold utf8_text, appendString. f_equal. rewrite String.list_ascii_of_string_of_list_ascii. apply coerced_idempotent.
Qed.

Lemma ascii_utf8 s : Forall (fun c => uint8 c < 128) (String.list_ascii_of_string s) -> utf8_text s.
Proof.
  intros Hs. unfold utf8_text. transitivity (String.string_of_list_ascii (String.list_ascii_of_string s));
    [|apply String.string_of_list_ascii_of_string].
  change (appendString s) with (String.string_of_list_ascii (coerced (String.list_ascii_of_string s))). f_equal.
  induction Hs as [|c l Hc Hl IH]; [done|]. by rewrite coerced_ascii, IH.
Qed.

(** ** The object *)

Lemma fold_insert (l : list (string * string)) : forall m : gmap string string, NoDup (map fst l) -> Forall (fun kv => utf8_text (fst kv) /\ utf8_text (snd kv)) l ->
  forall k, fold_left (fun acc kv => <[appendString (fst kv) := appendString (snd kv)]> acc) l m !! k
  = match (list_to_map l : gmap string string) !! k with Some v => Some v | None => m !! k end.
Proof.
  induction l as [|[a v] l IH]; intros m Hnd Hl k; [by rewrite list_to_map_nil, lookup_empty|].
  rewrite list_to_map_cons. cbn [fold_left fst snd map] in *.
  apply NoDup_cons in Hnd as [Ha Hnd]. apply Forall_cons in Hl as [[Hk Hv] Hl]. simpl in Hk, Hv. rewrite Hk, Hv, IH by done.
  destruct (decide (k = a)) as [->|Hne]; [|by rewrite !lookup_insert_ne].
  rewrite not_elem_of_list_to_map_1 by done. by rewrite !lookup_insert_eq.
Qed.

Lemma sorted_keys_nodup m : NoDup (map fst (sorted_keys m)).
Proof.
  unfold sorted_keys. rewrite (Permutation_map fst (order_by_perm _ (map_to_list m))).
  exact (NoDup_fst_map_to_list m).
Qed.

(** An object of UTF-8 is stored as it is. *)
Lemma encode_map_utf8 m : map_Forall (fun k v => utf8_text k /\ utf8_text v) m -> encode_map m = m.
Proof.
  intros Hm. apply map_eq. intros k. unfold encode_map. rewrite fold_insert; [|apply sorted_keys_nodup|].
  - assert (list_to_map (sorted_keys m) = m) as ->.
    { rewrite <- (list_to_map_to_list m) at 2. apply list_to_map_proper; [apply sorted_keys_nodup|apply order_by_perm]. }
    rewrite lookup_empty. by destruct (m !! k).
  - rewrite Forall_forall. intros [a v] Hin. apply elem_of_order_by, elem_of_map_to_list in Hin. by apply (Hm a v).
Qed.
