(* ===== verification/Fairness.v ===== *)
(** * Requests under a schedule

    Liveness of interleaved requests: a program that answers within a number of
    its own steps is answered by every schedule that gives it as many, whatever
    the other requests do in between. *)

From S2P Require Import Prelude Float64 Go.

Section Fairness.
Context {D : Type}.
Implicit Types (p : prog D Response) (ps : list (prog D Response)) (d : D).

(** [within n p]: every path through [p] has at most [n] interactions. *)
Fixpoint within (n : nat) {A} (p : prog D A) {struct p} : Prop :=
  match p with
  | Ret _ | Halt _ | Crash _ => True
  | Sql s k => match n with O => False | S n => forall r, within n (k r) end
  | Clock k => match n with O => False | S n => forall t, within n (k t) end
  | Rand k => match n with O => False | S n => forall t, within n (k t) end
  end.

(** The request has come to its end. *)
Definition finished {A} (p : prog D A) : bool :=
  match p with Ret _ | Halt _ | Crash _ => true | _ => false end.

(** The response a request has written, if it has. *)
Definition answered (p : prog D Response) : option Response :=
  match p with Ret r | Halt r => Some r | _ => None end.

Lemma within_mono {A} n m (p : prog D A) : (n <= m)%nat -> within n p -> within m p.
Proof.
  revert n m. induction p as [a|B s k IH|k IH|k IH|r|e]; intros [|n] [|m] Hnm; simpl;
    try done; try lia; intros Hw x; (eapply IH; [|apply Hw]); lia.
Qed.

Lemma within_bind {A B} n m (p : prog D A) (f : A -> prog D B) :
  within n p -> (forall a, within m (f a)) -> within (n + m) (bind p f).
Proof.
  intros Hp Hf. revert n Hp. induction p as [a|C s k IH|k IH|k IH|r|e]; intros n; simpl; auto;
    try (destruct n as [|n]; [done|]; simpl; intros Hw x; by apply IH).
  intros _. eapply within_mono; [|apply Hf]. lia.
Qed.

Lemma within_0 {A} (p : prog D A) : within 0 p -> finished p = true.
Proof. by destruct p. Qed.

(** How many of the choices of a schedule fall on request [i]. *)
Definition turns (i : nat) (l : list (nat * StmtCtx)) : nat :=
  length (filter (fun ic => fst ic = i) l).

Lemma turns_cons i j c l :
  turns i ((j, c) :: l) = ((if decide (j = i) then 1 else 0) + turns i l)%nat.
Proof. unfold turns. rewrite filter_cons. simpl. by destruct (decide (j = i)). Qed.

Lemma step_at_other (cfg : config (D := D)) j c i : i <> j -> fst (step_at cfg (j, c)) !! i = fst cfg !! i.
Proof.
  intros Hij. destruct cfg as [ps d]. simpl. destruct (ps !! j) as [[]|]; simpl; auto;
    repeat case_match; simpl; by rewrite ?list_lookup_insert_ne by done.
Qed.

Lemma step_at_length (cfg : config (D := D)) ic : length (fst (step_at cfg ic)) = length (fst cfg).
Proof.
  destruct cfg as [ps d], ic as [i c]. simpl. destruct (ps !! i) as [[]|]; simpl; auto;
    repeat case_match; simpl; by rewrite ?length_insert.
Qed.

(** A turn of an unfinished request takes one of its steps. *)
Lemma step_at_within (cfg : config (D := D)) i c p n : fst cfg !! i = Some p -> within (S n) p ->
  exists p', fst (step_at cfg (i, c)) !! i = Some p' /\ within n p'.
Proof.
  destruct cfg as [ps d]. simpl. intros Hi Hw. rewrite Hi. pose proof (lookup_lt_Some _ _ _ Hi) as Hlt.
  destruct p as [a|B s k|k|k|r|m]; simpl in Hw;
    try (eexists; split; [exact Hi|done]);
    repeat case_match; eexists; simpl; rewrite list_lookup_insert_eq by done; split; auto.
Qed.

(** A request that needs [n] steps is answered by a schedule with [n] turns for it. *)
Lemma run_schedule_finishes l (cfg : config (D := D)) i p n : fst cfg !! i = Some p -> within n p ->
  (n <= turns i l)%nat ->
  exists p', fst (run_schedule l cfg) !! i = Some p' /\ finished p' = true.
Proof.
  revert cfg p n. induction l as [|[j c] l IH]; intros cfg p n Hi Hw Hn.
  - exists p. split; [done|]. apply within_0. replace 0%nat with n; [done|].
    unfold turns in Hn. simpl in Hn. lia.
  - rewrite turns_cons in Hn. simpl. destruct (decide (j = i)) as [->|Hji].
    + destruct (step_at_within cfg i c p (n - 1) Hi) as (p' & Hi' & Hw').
      { eapply within_mono; [|exact Hw]. lia. }
      eapply IH; [exact Hi'|exact Hw'|lia].
    + eapply IH; [by rewrite step_at_other by done|exact Hw|lia].
Qed.

Lemma run_schedule_length l (cfg : config (D := D)) : length (fst (run_schedule l cfg)) = length (fst cfg).
Proof.
  revert cfg. induction l as [|ic l IH]; intros cfg; simpl; [done|]. by rewrite IH, step_at_length.
Qed.

(** A property of configurations kept by every turn holds after every schedule. *)
Lemma run_schedule_invariant (I : config (D := D) -> Prop) l cfg :
  (forall cfg ic, I cfg -> I (step_at cfg ic)) -> I cfg -> I (run_schedule l cfg).
Proof. intros Hs. revert cfg. induction l as [|ic l IH]; intros cfg HI; simpl; auto. Qed.
End Fairness.
