(* ===== verification/Sql.v ===== *)
(** * SQL statements over tables

    PostgreSQL seen from the handlers: a database is a record of tables, a table
    a list of rows, and each statement a total function that fails (constraint,
    cast, missing column) without effect or returns rows and the next state. An
    unordered query returns rows in the order of the list; since the theorems
    quantify over all tables, they hold for every such order. *)

From S2P Require Import Prelude Float64 Go.

(** ** The server

    What the program does not define itself. [db_nil] and [audit_nil] are the
    [s.db == nil] and [s.auditService == nil] tests. [columns] and [required]
    are the schema the database has been migrated to: the columns of a table,
    and those that are NOT NULL without a default. [uuid_in] is the text-to-UUID
    cast, [num_in p d] and [num_out d] the conversions between float64 and
    NUMERIC(p, d), whose values are kept as integers in units of 10^-d,
    [varchar_in n] the conversion of a text to VARCHAR(n), [date_in] and
    [timestamp_in] the text-to-DATE (days) and text-to-TIMESTAMPTZ (microseconds) casts,
    [jsonb_in] the text-to-JSONB cast;
    [ilike s p] is [s ILIKE p], and [collate s t] says that [s] sorts no later than [t]. *)
Class Server := {
  db_nil : bool;
  audit_nil : bool;
  columns : string -> list string;
  required : string -> list string;
  uuid_in : string -> option string;
  num_in : Z -> Z -> f64 -> option Z;
  num_out : Z -> Z -> f64;
  varchar_in : Z -> string -> option string;
  date_in : string -> option Z;
  timestamp_in : string -> option Z;
  jsonb_in : string -> option string;
  ilike : string -> string -> bool;
  collate : string -> string -> bool
}.

Definition no_rows : string := "no rows in result set".
Definition bad_uuid (s : string) : string :=
  "invalid input syntax for type uuid: " +:+ s.
Definition num_overflow : string := "numeric field overflow".

Section Statements.
Context {D : Type}.

(** A table of rows [Row] inside the database. *)
Record table (Row : Type) := {
  tget : D -> list Row;
  tput : list Row -> D -> D
}.
Arguments tget {Row} t d.
Arguments tput {Row} t l d.

Class LawfulTable {Row} (t : table Row) := {
  tget_tput : forall l d, tget t (tput t l d) = l
}.

(** Writing [t] leaves [u] alone. *)
Class Indep {Row Row'} (t : table Row) (u : table Row') :=
  indep : forall l d, tget u (tput t l d) = tget u d.

(** *** Queries *)

Definition select {B} (f : D -> B) : stmt D B := fun _ d => Ok (f d, d).

(** [QueryRow(...).Scan(...)]: an empty result is an error. *)
Definition select_row {B} (f : D -> option B) : stmt D B := fun _ d =>
  match f d with Some b => Ok (b, d) | None => Err no_rows end.

(** *** Conditions checked before a statement has any effect *)

Definition checked {B} (c : option string) (s : stmt D B) : stmt D B := fun x d =>
  match c with Some e => Err e | None => s x d end.

(** A cast [$1::uuid] of a parameter. *)
Definition with_uuid `{Server} {B} (s : string) (f : string -> stmt D B) : stmt D B :=
  match uuid_in s with
  | Some u => f u
  | None => fun _ _ => Err (bad_uuid s)
  end.

(** A float64 parameter stored in a NUMERIC(p, d) column. *)
Definition with_num `{Server} {B} (p d : Z) (x : f64) (f : Z -> stmt D B) : stmt D B :=
  match num_in p d x with
  | Some n => f n
  | None => fun _ _ => Err num_overflow
  end.

Definition with_varchar `{Server} {B} (n : Z) (s : string) (f : string -> stmt D B) : stmt D B :=
  match varchar_in n s with
  | Some t => f t
  | None => fun _ _ => Err ("value too long for type character varying(" +:+ itoa n +:+ ")")
  end.

Definition with_date `{Server} {B} (s : string) (f : Z -> stmt D B) : stmt D B :=
  match date_in s with
  | Some u => f u
  | None => fun _ _ => Err ("invalid input syntax for type date: " +:+ s)
  end.

Definition with_timestamp `{Server} {B} (s : string) (f : Z -> stmt D B) : stmt D B :=
  match timestamp_in s with
  | Some u => f u
  | None => fun _ _ => Err ("invalid input syntax for type timestamp with time zone: " +:+ s)
  end.

Definition with_jsonb `{Server} {B} (s : string) (f : string -> stmt D B) : stmt D B :=
  match jsonb_in s with
  | Some u => f u
  | None => fun _ _ => Err "invalid input syntax for type json"
  end.

(** An [int] parameter compared to or stored in an INTEGER column. *)
Definition with_int4 {B} (n : Z) (s : stmt D B) : stmt D B :=
  if (- 2 ^ 31 <=? n) && (n <? 2 ^ 31) then s
  else fun _ _ => Err "value out of range for type integer".

(** A statement that names the columns [cols] of [tbl]. *)
Definition names `{Server} (tbl : string) (cols : list string) : option string :=
  if forallb (fun c => mem_s c (columns tbl)) cols then None
  else Some ("column or relation does not exist: " +:+ tbl).

(** An INSERT giving the columns [cols]: they exist and include the required ones. *)
Definition inserts `{Server} (tbl : string) (cols : list string) : option string :=
  if forallb (fun c => mem_s c (columns tbl)) cols then
  if forallb (fun c => mem_s c cols) (required tbl) then None
  else Some ("null value violates not-null constraint: " +:+ tbl)
  else Some ("column or relation does not exist: " +:+ tbl).

(** *** Updates *)

(** [UPDATE t SET ... WHERE p], returning the number of rows affected. [chk]
    is the constraint check of the new row. *)
Definition update_chk {Row} (t : table Row) (p : Row -> bool) (f : StmtCtx -> Row -> Row)
  (chk : D -> Row -> option string) : stmt D Z := fun c d =>
  let rows := tget t d in
  match List.find (fun r => match chk d (f c r) with Some _ => true | None => false end)
        (where_ p rows) with
  | Some r => Err (default "constraint" (chk d (f c r)))
  | None => Ok (count_where p rows, tput t (set_where p (f c) rows) d)
  end.

Definition update {Row} (t : table Row) (p : Row -> bool) (f : StmtCtx -> Row -> Row)
  : stmt D Z := fun c d =>
  Ok (count_where p (tget t d), tput t (set_where p (f c) (tget t d)) d).

(** [INSERT INTO t ... RETURNING *]: [mk] builds the row or reports the
    violated constraint. *)
Definition insert {Row} (t : table Row) (mk : StmtCtx -> D -> result Row) : stmt D Row :=
  fun c d =>
  match mk c d with
  | Ok r => Ok (r, tput t (tget t d ++ [r]) d)
  | Err e => Err e
  end.

(** [INSERT ... ON CONFLICT (key) DO UPDATE SET ...]: [same r] recognises the
    conflicting row, [upd] is applied to it. *)
Definition upsert {Row} (t : table Row) (mk : StmtCtx -> D -> result Row)
  (same : Row -> Row -> bool) (upd : StmtCtx -> Row -> Row -> Row) : stmt D Row :=
  fun c d =>
  match mk c d with
  | Err e => Err e
  | Ok r =>
      match List.find (same r) (tget t d) with
      | Some old => Ok (upd c r old, tput t (set_where (same r) (upd c r) (tget t d)) d)
      | None => Ok (r, tput t (tget t d ++ [r]) d)
      end
  end.

Definition delete {Row} (t : table Row) (p : Row -> bool) : stmt D Z := fun _ d =>
  Ok (count_where p (tget t d), tput t (where_ (fun r => negb (p r)) (tget t d)) d).

(** ** The pool: a nil pool panics *)

Definition exec `{Server} {B} (s : stmt D B) : prog D (result B) :=
  if db_nil then Crash "runtime error: invalid memory address or nil pointer dereference"
  else Sql s Ret.

(** ** Relations kept by statements *)

Section Respects.
Variable R : relation D.
Context `{!PreOrder R}.

Lemma respects_select {B} (f : D -> B) : respects R (select f).
Proof. intros c d b d' [= _ <-]. reflexivity. Qed.

Lemma respects_select_row {B} (f : D -> option B) : respects R (select_row f).
Proof.
  intros c d b d'. unfold select_row. destruct (f d); [|done].
  intros [= _ <-]. reflexivity.
Qed.

Lemma respects_checked {B} c (s : stmt D B) : respects R s -> respects R (checked c s).
Proof. intros H x d b d'. unfold checked. destruct c; [done|]. apply H. Qed.

Lemma respects_with_uuid `{Server} {B} s (f : string -> stmt D B) :
  (forall u, respects R (f u)) -> respects R (with_uuid s f).
Proof. intros Hf x d b d'. unfold with_uuid. destruct (uuid_in s); [apply Hf|done]. Qed.

Lemma respects_with_num `{Server} {B} p k x (f : Z -> stmt D B) :
  (forall u, respects R (f u)) -> respects R (with_num p k x f).
Proof. intros Hf c d b d'. unfold with_num. destruct (num_in p k x); [apply Hf|done]. Qed.

Lemma respects_with_varchar `{Server} {B} k x (f : string -> stmt D B) :
  (forall u, respects R (f u)) -> respects R (with_varchar k x f).
Proof. intros Hf c d b d'. unfold with_varchar. destruct (varchar_in k x); [apply Hf|done]. Qed.

Lemma respects_with_date `{Server} {B} s (f : Z -> stmt D B) :
  (forall u, respects R (f u)) -> respects R (with_date s f).
Proof. intros Hf x d b d'. unfold with_date. destruct (date_in s); [apply Hf|done]. Qed.

Lemma respects_with_timestamp `{Server} {B} s (f : Z -> stmt D B) :
  (forall u, respects R (f u)) -> respects R (with_timestamp s f).
Proof. intros Hf x d b d'. unfold with_timestamp. destruct (timestamp_in s); [apply Hf|done]. Qed.

Lemma respects_with_jsonb `{Server} {B} s (f : string -> stmt D B) :
  (forall u, respects R (f u)) -> respects R (with_jsonb s f).
Proof. intros Hf x d b d'. unfold with_jsonb. destruct (jsonb_in s); [apply Hf|done]. Qed.

Lemma respects_with_int4 {B} n (s : stmt D B) : respects R s -> respects R (with_int4 n s).
Proof. intros Hs c d b d'. unfold with_int4. destruct (_ && _); [apply Hs|done]. Qed.

Lemma respects_update {Row} (t : table Row) p f :
  (forall c d, R d (tput t (set_where p (f c) (tget t d)) d)) -> respects R (update t p f).
Proof. intros H c d b d' [= _ <-]. apply (H c). Qed.

Lemma respects_update_chk {Row} (t : table Row) p f chk :
  (forall c d, Forall (fun r => chk d (f c r) = None) (where_ p (tget t d)) ->
  R d (tput t (set_where p (f c) (tget t d)) d)) ->
  respects R (update_chk t p f chk).
Proof.
  intros H c d b d'. unfold update_chk. destruct (List.find _ _) eqn:E; [done|].
  intros [= _ <-]. apply (H c). apply find_none_Forall in E.
  eapply Forall_impl; [exact E|]. intros r. simpl. by destruct (chk d (f c r)).
Qed.

Lemma respects_insert {Row} (t : table Row) mk :
  (forall c d r, mk c d = Ok r -> R d (tput t (tget t d ++ [r]) d)) ->
  respects R (insert t mk).
Proof.
  intros H c d b d'. unfold insert. destruct (mk c d) eqn:E; [|done].
  intros [= _ <-]. by eapply H.
Qed.

Lemma respects_upsert {Row} (t : table Row) mk same upd :
  (forall c d r, mk c d = Ok r -> Forall (fun x => same r x = false) (tget t d) ->
  R d (tput t (tget t d ++ [r]) d)) ->
  (forall c d r, mk c d = Ok r ->
  R d (tput t (set_where (same r) (upd c r) (tget t d)) d)) ->
  respects R (upsert t mk same upd).
Proof.
  intros Hi Hu c d b d'. unfold upsert. destruct (mk c d) as [r|] eqn:E; [|done].
  destruct (List.find (same r) (tget t d)) eqn:Ef; intros [= _ <-].
  - by apply (Hu c).
  - apply (Hi c); [done|]. by apply find_none_Forall.
Qed.

Lemma respects_delete {Row} (t : table Row) p :
  (forall d, R d (tput t (where_ (fun r => negb (p r)) (tget t d)) d)) ->
  respects R (delete t p).
Proof. intros H c d b d' [= _ <-]. apply H. Qed.

Lemma all_stmts_exec `{Server} {B} (s : stmt D B) :
  respects R s -> all_stmts (fun _ s => respects R s) (exec s).
Proof. intros Hs. unfold exec. by destruct db_nil. Qed.
End Respects.

(** ** Frames: what holds of [u] before holds after *)

(** [unchanged u d d']: the rows of [u] are the same. *)
Definition unchanged {Row} (u : table Row) : relation D := fun d d' => tget u d' = tget u d.

#[export] Instance unchanged_preorder {Row} (u : table Row) : PreOrder (unchanged u).
Proof. split; unfold unchanged; [done|]. intros x y z Hxy Hyz. congruence. Qed.

(** [on u Q]: the rows of [u] evolve by [Q]. *)
Definition on {Row} (u : table Row) (Q : relation (list Row)) : relation D :=
  fun d d' => Q (tget u d) (tget u d').

#[export] Instance on_preorder {Row} (u : table Row) Q `{!PreOrder Q} : PreOrder (on u Q).
Proof.
  split; unfold on; [intros d; reflexivity|]. intros x y z Hxy Hyz. by etransitivity.
Qed.

Lemma on_indep {Row Row'} (t : table Row) (u : table Row') Q `{!PreOrder Q} `{!Indep t u} l d :
  on u Q d (tput t l d).
Proof. unfold on. rewrite indep. reflexivity. Qed.

Lemma on_same {Row} (t : table Row) Q `{!LawfulTable t} l d :
  Q (tget t d) l -> on t Q d (tput t l d).
Proof. unfold on. by rewrite tget_tput. Qed.
End Statements.

Arguments table : clear implicits.
Arguments tget {D Row} t d.
Arguments tput {D Row} t l d.
#[global] Arguments tget : simpl never.
#[global] Arguments tput : simpl never.
Arguments LawfulTable {D Row} t.
Arguments Indep {D Row Row'} t u.

Section WpStmts.
Context {D : Type}.

Lemma wp_exec `{Server} fl {B} (s : stmt D B) (d : D) (Q : outcome (result B) -> D -> Prop) :
  (forall m, db_nil = true -> Q (Panicked m) d) ->
  (forall c b d', s c d = Ok (b, d') -> Q (Done (Ok b)) d') ->
  (forall e, fl = true \/ (exists c, s c d = Err e) -> Q (Done (Err e)) d) ->
  wp fl (exec s) d Q.
Proof. unfold exec. destruct db_nil; simpl; naive_solver. Qed.

(** A statement of a reliable connection answers what it computes. *)
Lemma wp_exec_det `{Server} {B} (s : stmt D B) (d : D) (Q : outcome (result B) -> D -> Prop) :
  db_nil = false ->
  (forall c, match s c d with
           | Ok (b, d') => Q (Done (Ok b)) d'
           | Err e => Q (Done (Err e)) d
           end) ->
  wp false (exec s) d Q.
Proof.
  intros Hdb Hs. apply wp_exec; [congruence| |].
  - intros c b d' Hst. specialize (Hs c). by rewrite Hst in Hs.
  - intros e [?|[c Hst]]; [done|]. specialize (Hs c). by rewrite Hst in Hs.
Qed.

Lemma with_int4_in {B} n (s : stmt D B) : - 2 ^ 31 <= n < 2 ^ 31 -> with_int4 n s = s.
Proof.
  intros Hn. unfold with_int4. by rewrite (proj2 (Z.leb_le _ _)), (proj2 (Z.ltb_lt _ _)) by lia.
Qed.

Lemma select_ok {B} (f : D -> B) c d b d' : select f c d = Ok (b, d') -> b = f d /\ d' = d.
Proof. by intros [= <- <-]. Qed.

Lemma select_row_ok {B} (f : D -> option B) c d b d' :
  select_row f c d = Ok (b, d') -> f d = Some b /\ d' = d.
Proof. unfold select_row. destruct (f d); [|done]. by intros [= <- <-]. Qed.

Lemma checked_ok {B} o (s : stmt D B) c d b d' :
  checked o s c d = Ok (b, d') -> o = None /\ s c d = Ok (b, d').
Proof. unfold checked. by destruct o. Qed.

Lemma with_uuid_ok `{Server} {B} x (f : string -> stmt D B) c d b d' :
  with_uuid x f c d = Ok (b, d') -> exists u, uuid_in x = Some u /\ f u c d = Ok (b, d').
Proof. unfold with_uuid. destruct (uuid_in x); naive_solver. Qed.

Lemma with_num_ok `{Server} {B} p k x (f : Z -> stmt D B) c d b d' :
  with_num p k x f c d = Ok (b, d') -> exists n, num_in p k x = Some n /\ f n c d = Ok (b, d').
Proof. unfold with_num. destruct (num_in p k x); naive_solver. Qed.

Lemma with_varchar_ok `{Server} {B} k x (f : string -> stmt D B) c d b d' :
  with_varchar k x f c d = Ok (b, d') ->
  exists t, varchar_in k x = Some t /\ f t c d = Ok (b, d').
Proof. unfold with_varchar. destruct (varchar_in k x); naive_solver. Qed.

Lemma with_date_ok `{Server} {B} x (f : Z -> stmt D B) c d b d' :
  with_date x f c d = Ok (b, d') -> exists u, date_in x = Some u /\ f u c d = Ok (b, d').
Proof. unfold with_date. destruct (date_in x); naive_solver. Qed.

Lemma with_timestamp_ok `{Server} {B} x (f : Z -> stmt D B) c d b d' :
  with_timestamp x f c d = Ok (b, d') -> exists u, timestamp_in x = Some u /\ f u c d = Ok (b, d').
Proof. unfold with_timestamp. destruct (timestamp_in x); naive_solver. Qed.

Lemma with_jsonb_ok `{Server} {B} x (f : string -> stmt D B) c d b d' :
  with_jsonb x f c d = Ok (b, d') -> exists u, jsonb_in x = Some u /\ f u c d = Ok (b, d').
Proof. unfold with_jsonb. destruct (jsonb_in x); naive_solver. Qed.

Lemma with_int4_ok {B} n (s : stmt D B) c d b d' :
  with_int4 n s c d = Ok (b, d') -> - 2 ^ 31 <= n < 2 ^ 31 /\ s c d = Ok (b, d').
Proof.
  unfold with_int4. destruct (_ && _) eqn:E; [|done]. intros Hs. bool_prop. split; [lia|done].
Qed.

Lemma upsert_ok {Row} (t : table D Row) mk same upd c d b d' :
  upsert t mk same upd c d = Ok (b, d') ->
  exists r, mk c d = Ok r /\
  ((exists old, old ∈ tget t d /\ same r old = true /\ b = upd c r old
      /\ d' = tput t (set_where (same r) (upd c r) (tget t d)) d)
   \/ (Forall (fun x => same r x = false) (tget t d) /\ b = r
       /\ d' = tput t (tget t d ++ [r]) d)).
Proof.
  unfold upsert. destruct (mk c d) as [r|]; [|done]. intros Hu. exists r. split; [done|].
  destruct (List.find (same r) (tget t d)) eqn:Ef; injection Hu as <- <-.
  - apply find_some_elem in Ef as [? ?]. left. eauto 6.
  - apply find_none_Forall in Ef. by right.
Qed.

Lemma update_ok {Row} (t : table D Row) p f c d b d' :
  update t p f c d = Ok (b, d') ->
  b = count_where p (tget t d) /\ d' = tput t (set_where p (f c) (tget t d)) d.
Proof. by intros [= <- <-]. Qed.

Lemma update_chk_ok {Row} (t : table D Row) p f chk c d b d' :
  update_chk t p f chk c d = Ok (b, d') ->
  b = count_where p (tget t d) /\ d' = tput t (set_where p (f c) (tget t d)) d.
Proof. unfold update_chk. destruct (List.find _ _); [done|]. by intros [= <- <-]. Qed.

Lemma insert_ok {Row} (t : table D Row) mk c d b d' :
  insert t mk c d = Ok (b, d') -> mk c d = Ok b /\ d' = tput t (tget t d ++ [b]) d.
Proof. unfold insert. destruct (mk c d); naive_solver. Qed.
End WpStmts.

#[export] Hint Resolve respects_select respects_select_row : portal.

(** Turns the equation of a successful statement into its effect. *)
Ltac sql_inv H :=
  lazymatch type of H with
  | select _ _ _ = Ok _ => apply select_ok in H as [? ?]
  | select_row _ _ _ = Ok _ => apply select_row_ok in H as [? ?]
  | checked _ _ _ _ = Ok _ => apply checked_ok in H as [? H]; sql_inv H
  | with_uuid _ _ _ _ = Ok _ => apply with_uuid_ok in H as (? & ? & H); sql_inv H
  | with_num _ _ _ _ _ _ = Ok _ => apply with_num_ok in H as (? & ? & H); sql_inv H
  | with_varchar _ _ _ _ _ = Ok _ => apply with_varchar_ok in H as (? & ? & H); sql_inv H
  | with_date _ _ _ _ = Ok _ => apply with_date_ok in H as (? & ? & H); sql_inv H
  | with_timestamp _ _ _ _ = Ok _ => apply with_timestamp_ok in H as (? & ? & H); sql_inv H
  | with_jsonb _ _ _ _ = Ok _ => apply with_jsonb_ok in H as (? & ? & H); sql_inv H
  | with_int4 _ _ _ _ = Ok _ => apply with_int4_ok in H as [? H]; sql_inv H
  | upsert _ _ _ _ _ _ = Ok _ =>
      apply upsert_ok in H as (? & ? & [(? & ? & ? & ? & ?)|(? & ? & ?)])
  | update _ _ _ _ _ = Ok _ => apply update_ok in H as [? ?]
  | insert _ _ _ _ = Ok _ => apply insert_ok in H as [? ?]
  | _ => idtac
  end.

(** One step of symbolic execution of a handler under [wp]. *)
Ltac wp_step :=
  cbv beta iota zeta;
  lazymatch goal with
  | |- wp _ (bind _ _) _ _ => apply wp_bind
  | |- wp _ (return_if _ _) _ _ => apply wp_return_if; intros ?
  | |- wp _ (exec _) _ _ =>
      apply wp_exec; [intros ? ?|let H := fresh "Hst" in intros ? ? ? H; sql_inv H; subst|intros ? ?]
  | |- wp _ (index _ _) _ _ => apply wp_index; [intros ? ?|intros ? ?]
  | |- wp _ now _ _ => simpl; intros ?
  | |- wp _ rand_hex _ _ => simpl; intros ?
  | |- wp _ (Ret _) _ _ => simpl
  | |- wp _ (Halt _) _ _ => simpl
  | |- wp _ (Crash _) _ _ => simpl
  | |- wp_then _ _ _ _ _ => simpl wp_then
  | |- wp _ (match ?x with _ => _ end) _ _ => destruct x eqn:?
  end.

(** Walks a handler down to its statements. *)
Ltac walk :=
  repeat (cbv beta iota zeta;
    first
    [ exact I
    | apply all_stmts_return_if
    | apply all_stmts_index
    | apply all_stmts_exec
    | apply all_stmts_for_each; intros
    | apply all_stmts_bind; [|intros ?]
    | match goal with
      | |- all_stmts _ (match ?x with _ => _ end) => destruct x
      | |- PreOrder _ => typeclasses eauto
      | |- all_stmts _ (Halt _) => exact I
      | |- all_stmts _ (Ret _) => exact I
      | |- all_stmts _ (Crash _) => exact I
      | |- all_stmts _ now => simpl; intros ?; exact I
      | |- all_stmts _ rand_hex => simpl; intros ?; exact I
      | |- respects _ (select _) => apply respects_select
      | |- respects _ (select_row _) => apply respects_select_row
      | |- respects _ (checked _ _) => apply respects_checked
      | |- respects _ (with_uuid _ _) => apply respects_with_uuid; intros ?
      | |- respects _ (with_varchar _ _ _) => apply respects_with_varchar; intros ?
      | |- respects _ (with_date _ _) => apply respects_with_date; intros ?
      | |- respects _ (with_timestamp _ _) => apply respects_with_timestamp; intros ?
      | |- respects _ (with_jsonb _ _) => apply respects_with_jsonb; intros ?
      | |- respects _ (with_int4 _ _) => apply respects_with_int4
      | |- respects _ (with_num _ _ _ _) => apply respects_with_num; intros ?
      | |- respects _ (match ?x with _ => _ end) => destruct x
      end ]).

(** Walks a handler whose statements leave a table alone. *)
Ltac frame :=
  walk;
  try (first [ apply respects_update | apply respects_update_chk | apply respects_insert
             | apply respects_upsert | apply respects_delete ]);
  intros; apply indep.
