(* ===== verification/Tx.v ===== *)
(** * Transactions

    [pool.Begin], [tx.QueryRow], [tx.Exec], [tx.Commit] at READ COMMITTED. A
    transaction keeps the writes it has made; each of its statements runs on the
    committed database of that moment with these writes on top, and changes
    nothing that another request can see; the commit applies them to the committed
    database, all or none. A write that would answer otherwise at the commit than
    it did when it was made has met a concurrent one: the locks of PostgreSQL make
    one of the two wait or fail, here the commit fails. A statement that the server
    refuses aborts the transaction: its later statements are refused, and so is
    its commit. *)

From S2P Require Import Prelude Float64 Go Sql.

#[local] Open Scope prog_scope.

(** [r, tx := tx.Exec(...)]: the handle of the transaction is threaded. *)
Notation "' x <- p ; q" := (bind p (fun x => q))
  (at level 100, x strict pattern, p at next level, q at level 200, right associativity) : prog_scope.

(** [pgx.Tx]: [tx_log] applies the writes made so far to a committed database,
    [tx_now] is the [NOW()] of the transaction. *)
Record Tx (D : Type) := {
  tx_log : D -> option D;
  tx_aborted : bool;
  tx_now : Z
}.
Arguments tx_log {D} t.
Arguments tx_aborted {D} t.
Arguments tx_now {D} t.

Definition tx_refused : string :=
  "current transaction is aborted, commands ignored until end of transaction block".
Definition tx_rolled_back : string := "commit unexpectedly resulted in rollback".
Definition tx_conflict : string := "could not serialize access due to concurrent update".

Section Tx.
Context {D : Type} `{Server}.
Implicit Types (tx : Tx D) (d v : D).

Definition tx_ctx tx (c : StmtCtx) : StmtCtx := {| sc_now := tx_now tx; sc_uuid := sc_uuid c |}.

(** A statement of the transaction, on what it sees. *)
Definition tx_view {B} tx (s : stmt D B) (c : StmtCtx) d : result (B * D) :=
  if tx_aborted tx then Err tx_refused
  else match tx_log tx d with
       | None => Err tx_conflict
       | Some v => s (tx_ctx tx c) v
       end.

Definition tx_abort tx : Tx D :=
  {| tx_log := tx_log tx; tx_aborted := true; tx_now := tx_now tx |}.

(** After a failed query: [no rows] is an answer of the driver; every other error
    is the server's and aborts the transaction. *)
Definition tx_fail tx (e : string) : Tx D := if e =?s no_rows then tx else tx_abort tx.

(** The transaction after the write [s] that answered [b]. *)
Definition tx_write {B} `{EqDecision B} tx (s : stmt D B) (c : StmtCtx) (b : B) : Tx D :=
  {| tx_log := fun d => v ← tx_log tx d;
               match s (tx_ctx tx c) v with
               | Ok (b', v') => if decide (b' = b) then Some v' else None
               | Err _ => None
               end;
     tx_aborted := tx_aborted tx;
     tx_now := tx_now tx |}.

Definition tx_begin : prog D (result (Tx D)) :=
  t <- exec (fun c d => Ok (sc_now c, d));
  Ret (result_map (fun t => {| tx_log := Some; tx_aborted := false; tx_now := t |}) t).

(** A query: it leaves no write. *)
Definition tx_query {B} tx (s : stmt D B) : prog D (result B * Tx D) :=
  Sql (fun c d => match tx_view tx s c d with Ok (b, _) => Ok (b, d) | Err e => Err e end)
      (fun r => Ret (match r with Ok b => (Ok b, tx) | Err e => (Err e, tx_fail tx e) end)).

Definition tx_exec {B} `{EqDecision B} tx (s : stmt D B) : prog D (result B * Tx D) :=
  Sql (fun c d => match tx_view tx s c d with Ok (b, _) => Ok ((b, c), d) | Err e => Err e end)
      (fun r => Ret (match r with
                     | Ok (b, c) => (Ok b, tx_write tx s c b)
                     | Err e => (Err e, tx_abort tx)
                     end)).

(** A statement whose effect no rollback undoes: [nextval]. *)
Definition tx_direct {B} tx (s : stmt D B) : prog D (result B * Tx D) :=
  Sql (fun c d => if tx_aborted tx then Err tx_refused else s (tx_ctx tx c) d)
      (fun r => Ret (match r with Ok b => (Ok b, tx) | Err e => (Err e, tx_fail tx e) end)).

Definition tx_commit_stmt tx : stmt D unit := fun _ d =>
  if tx_aborted tx then Err tx_rolled_back
  else match tx_log tx d with Some d' => Ok (tt, d') | None => Err tx_conflict end.

Definition tx_commit tx : prog D (result unit) := Sql (tx_commit_stmt tx) Ret.

(** ** Transactions under interleaving

    A relation that the program keeps outside the transaction is kept by the
    transaction when its commit keeps it, whatever the other requests did since
    it began. *)
Section Respects.
Variable R : relation D.
Context `{!PreOrder R}.
Abbreviation kept := (all_stmts (fun _ s => respects R s)).

Lemma kept_begin {A} (f : result (Tx D) -> prog D A) :
  (forall t, kept (f (Ok {| tx_log := Some; tx_aborted := false; tx_now := t |}))) ->
  (forall e, kept (f (Err e))) ->
  kept (bind tx_begin f).
Proof.
  intros Hok Herr. unfold tx_begin, exec. destruct db_nil; [done|]. simpl. split.
  - intros c d b d' [= _ <-]. reflexivity.
  - intros [t|e]; simpl; [apply Hok|apply Herr].
Qed.

Lemma respects_view {B C} tx (s : stmt D B) (g : B -> StmtCtx -> C) :
  respects R (fun c d => match tx_view tx s c d with Ok (b, _) => Ok (g b c, d) | Err e => Err e end).
Proof.
  intros c d b d'. destruct (tx_view tx s c d) as [[? ?]|]; [|done]. intros [= _ <-]. reflexivity.
Qed.

Lemma kept_query {A B} tx (s : stmt D B) (f : result B * Tx D -> prog D A) :
  (forall b, kept (f (Ok b, tx))) -> (forall e, kept (f (Err e, tx_fail tx e))) ->
  kept (bind (tx_query tx s) f).
Proof.
  intros Hok Herr. split; [apply (respects_view tx s (fun b _ => b))|].
  intros [b|e]; simpl; [apply Hok|apply Herr].
Qed.

Lemma kept_exec {A B} `{EqDecision B} tx (s : stmt D B) (f : result B * Tx D -> prog D A) :
  (forall b c, kept (f (Ok b, tx_write tx s c b))) -> (forall e, kept (f (Err e, tx_abort tx))) ->
  kept (bind (tx_exec tx s) f).
Proof.
  intros Hok Herr. split; [apply (respects_view tx s pair)|].
  intros [[b c]|e]; simpl; [apply Hok|apply Herr].
Qed.

Lemma kept_direct {A B} tx (s : stmt D B) (f : result B * Tx D -> prog D A) :
  respects R s -> (forall b, kept (f (Ok b, tx))) -> (forall e, kept (f (Err e, tx_fail tx e))) ->
  kept (bind (tx_direct tx s) f).
Proof.
  intros Hs Hok Herr. split.
  - intros c d b d'. destruct (tx_aborted tx); [done|]. apply Hs.
  - intros [b|e]; simpl; [apply Hok|apply Herr].
Qed.

Lemma kept_commit {A} tx (f : result unit -> prog D A) :
  (tx_aborted tx = false -> forall d d', tx_log tx d = Some d' -> R d d') ->
  (forall r, kept (f r)) -> kept (bind (tx_commit tx) f).
Proof.
  intros HR Hf. split; [|done]. intros c d b d'. unfold tx_commit_stmt.
  destruct (tx_aborted tx); [done|]. destruct (tx_log tx d) eqn:E; [|done].
  intros [= _ <-]. by apply HR.
Qed.
End Respects.

(** What the log of a transaction has done, write by write. *)
Lemma tx_write_log {B} `{EqDecision B} tx (s : stmt D B) c b d d' :
  tx_log (tx_write tx s c b) d = Some d' ->
  exists v, tx_log tx d = Some v /\ s (tx_ctx tx c) v = Ok (b, d').
Proof.
  simpl. destruct (tx_log tx d) as [v|]; [|done]. simpl.
  destruct (s (tx_ctx tx c) v) as [[b' v']|] eqn:E; [|done]. case_decide; [|done].
  subst. intros [= <-]. eauto.
Qed.

(** ** A transaction alone *)

(** The transaction is alive on [d] and sees [v]. *)
Definition open_at tx d v : Prop := tx_aborted tx = false /\ tx_log tx d = Some v.

Lemma wp_begin_any fl d (Q : outcome (result (Tx D)) -> D -> Prop) :
  (forall m, db_nil = true -> Q (Panicked m) d) ->
  (forall tx, (forall d', open_at tx d' d') -> Q (Done (Ok tx)) d) ->
  (forall e, fl = true -> Q (Done (Err e)) d) ->
  wp fl tx_begin d Q.
Proof.
  intros Hm Hok Herr. unfold tx_begin. apply wp_bind. apply wp_exec; simpl.
  - done.
  - intros c b d' [= <- <-]. by apply Hok.
  - intros e [?|[c [=]]]. by apply Herr.
Qed.

Lemma wp_begin fl d (Q : outcome (result (Tx D)) -> D -> Prop) :
  (forall m, db_nil = true -> Q (Panicked m) d) ->
  (forall tx, open_at tx d d -> Q (Done (Ok tx)) d) ->
  (forall e, fl = true -> Q (Done (Err e)) d) ->
  wp fl tx_begin d Q.
Proof. intros Hm Hok Herr. apply wp_begin_any; auto. Qed.

Lemma wp_direct {B} fl tx (s : stmt D B) d (Q : outcome (result B * Tx D) -> D -> Prop) :
  tx_aborted tx = false ->
  (forall c b d', s c d = Ok (b, d') -> Q (Done (Ok b, tx)) d') ->
  (forall e, fl = true \/ (exists c, s c d = Err e) -> Q (Done (Err e, tx_fail tx e)) d) ->
  wp fl (tx_direct tx s) d Q.
Proof.
  intros Ha Hok Herr. split.
  - intros c b d'. rewrite Ha. simpl. apply Hok.
  - intros e He. simpl. apply Herr. destruct He as [?|[c He]]; [by left|]. right. rewrite Ha in He. eauto.
Qed.

Lemma tx_view_open {B} tx (s : stmt D B) c d v : open_at tx d v ->
  tx_view tx s c d = s (tx_ctx tx c) v.
Proof. intros [Ha Hl]. unfold tx_view. by rewrite Ha, Hl. Qed.

Lemma wp_query {B} fl tx (s : stmt D B) d v (Q : outcome (result B * Tx D) -> D -> Prop) :
  open_at tx d v ->
  (forall c b v', s c v = Ok (b, v') -> Q (Done (Ok b, tx)) d) ->
  (forall e, fl = true \/ (exists c, s c v = Err e) -> Q (Done (Err e, tx_fail tx e)) d) ->
  wp fl (tx_query tx s) d Q.
Proof.
  intros Ho Hok Herr. split.
  - intros c b d'. rewrite (tx_view_open _ _ _ _ _ Ho). destruct (s _ v) as [[b' v']|] eqn:E; [|done].
    intros [= <- <-]. simpl. by eapply Hok.
  - intros e He. simpl. apply Herr. destruct He as [?|[c He]]; [by left|]. right.
    rewrite (tx_view_open _ _ _ _ _ Ho) in He. exists (tx_ctx tx c).
    destruct (s _ v) as [[b' v']|]; [done|]. by injection He as <-.
Qed.

Lemma wp_tx_exec {B} `{EqDecision B} fl tx (s : stmt D B) d v (Q : outcome (result B * Tx D) -> D -> Prop) :
  open_at tx d v ->
  (forall c b v' tx', s c v = Ok (b, v') -> open_at tx' d v' -> Q (Done (Ok b, tx')) d) ->
  (forall e tx', tx_aborted tx' = true -> fl = true \/ (exists c, s c v = Err e) ->
     Q (Done (Err e, tx')) d) ->
  wp fl (tx_exec tx s) d Q.
Proof.
  intros Ho Hok Herr. split.
  - intros c b d'. rewrite (tx_view_open _ _ _ _ _ Ho). destruct (s _ v) as [[b' v']|] eqn:E; [|done].
    intros [= <- <-]. simpl. eapply Hok; [exact E|]. destruct Ho as [Ha Hl]. split; [done|]. simpl.
    rewrite Hl. simpl. rewrite E. by rewrite decide_True.
  - intros e He. simpl. apply Herr; [done|]. destruct He as [?|[c He]]; [by left|]. right.
    rewrite (tx_view_open _ _ _ _ _ Ho) in He. exists (tx_ctx tx c).
    destruct (s _ v) as [[b' v']|]; [done|]. by injection He as <-.
Qed.

(** Every write of an aborted transaction fails, and so does its commit. *)
Lemma wp_exec_aborted {B} `{EqDecision B} fl tx (s : stmt D B) d (Q : outcome (result B * Tx D) -> D -> Prop) :
  tx_aborted tx = true ->
  (forall e tx', tx_aborted tx' = true -> Q (Done (Err e, tx')) d) ->
  wp fl (tx_exec tx s) d Q.
Proof.
  intros Ha HQ. split.
  - intros c b d'. unfold tx_view. by rewrite Ha.
  - intros e _. by apply HQ.
Qed.

Lemma wp_commit_aborted fl tx d (Q : outcome (result unit) -> D -> Prop) :
  tx_aborted tx = true -> (forall e, Q (Done (Err e)) d) -> wp fl (tx_commit tx) d Q.
Proof.
  intros Ha HQ. split; [|intros e _; apply HQ].
  intros c b d'. unfold tx_commit_stmt. by rewrite Ha.
Qed.

Lemma wp_commit fl tx d v (Q : outcome (result unit) -> D -> Prop) :
  open_at tx d v -> Q (Done (Ok tt)) v -> (forall e, fl = true -> Q (Done (Err e)) d) ->
  wp fl (tx_commit tx) d Q.
Proof.
  intros [Ha Hl] Hok Herr. split.
  - intros c [] d'. unfold tx_commit_stmt. rewrite Ha, Hl. by intros [= <-].
  - intros e [?|[c He]]; [by apply Herr|]. unfold tx_commit_stmt in He. by rewrite Ha, Hl in He.
Qed.
End Tx.

Arguments Tx D : clear implicits.

(** Walks a program with transactions; the commits, and calls of other programs,
    are left to the caller. *)
Ltac tx_walk :=
  repeat (cbv beta iota zeta;
    first
    [ exact I
    | apply all_stmts_return_if
    | match goal with
      | |- all_stmts _ (bind tx_begin _) => apply kept_begin; [typeclasses eauto|intros ?|intros ?]
      | |- all_stmts _ (bind (tx_query _ _) _) => apply kept_query; [typeclasses eauto|intros ?|intros ?]
      | |- all_stmts _ (bind (tx_exec _ _) _) => apply kept_exec; [typeclasses eauto|intros ? ?|intros ?]
      end
    | apply all_stmts_exec
    | match goal with
      | |- all_stmts _ (bind (exec _) _) => apply all_stmts_bind; [|intros ?]
      | |- all_stmts _ (bind (return_if _ _) _) => apply all_stmts_bind; [|intros ?]
      | |- all_stmts _ (bind now _) => apply all_stmts_bind; [|intros ?]
      | |- all_stmts _ (bind rand_hex _) => apply all_stmts_bind; [|intros ?]
      end
    | match goal with
      | |- all_stmts _ (match ?x with _ => _ end) => destruct x
      | |- all_stmts _ (Halt _) => exact I
      | |- all_stmts _ (Ret _) => exact I
      | |- all_stmts _ (Crash _) => exact I
      | |- all_stmts _ now => simpl; intros ?; exact I
      | |- all_stmts _ rand_hex => simpl; intros ?; exact I
      | |- respects _ (select _) => apply respects_select; typeclasses eauto
      | |- respects _ (select_row _) => apply respects_select_row; typeclasses eauto
      end ]).
