(* ===== verification/Schema.v ===== *)
(** * The database schema

    One record per table, with the columns the backend reads or writes under
    their SQL names, and the database as the record of tables. A column of type
    [NUMERIC(_, d)] is an integer in units of [10^-d]; a [DATE] is a day number
    since 1970-01-01; a [TIMESTAMPTZ] is a number of microseconds since that day;
    a [UUID] is its canonical text. A nullable column that the program or the
    data it reads can leave NULL is an [option]. [leave_balances] has both the
    columns of the migrations and those the accrual batch and the dashboard name;
    [leave_requests] is named by the payroll readiness check alone. *)

From stdpp Require Import gmap.
From S2P Require Import Prelude Float64 Go Sql.
#[local] Open Scope Z_scope.

(** *** Table [organizations] *)
Record OrgRow := {
  org_id : string;
  org_name : string;
  org_code : string
}.

(** *** Table [users] *)
Record UserRow := {
  usr_id : string;
  usr_email : string;
  usr_password_hash : string;
  usr_is_active : bool;
  usr_last_login : option Z;
  usr_password_reset_token : option string;
  usr_password_reset_expires_at : option Z;
  usr_created_at : Z;
  usr_invited_at : option Z;
  usr_invitation_token : option string;
  usr_invitation_expires_at : option Z
}.

(** *** Table [roles] *)
Record RoleRow := {
  rol_id : string;
  rol_name : string;
  rol_description : option string
}.

(** *** Table [user_roles] *)
Record UserRoleRow := {
  uro_user_id : string;
  uro_role_id : string
}.

(** *** Table [departments] *)
Record DeptRow := {
  dep_id : string;
  dep_name : string;
  dep_code : string;
  dep_description : option string;
  dep_organization_id : string
}.

(** *** Table [designations] *)
Record DesigRow := {
  des_id : string;
  des_name : string;
  des_organization_id : string;
  des_grade : option string;
  des_deleted_at : option Z;
  des_level_grade : option string
}.

(** *** Table [employees] *)
Record EmpRow := {
  emp_id : string;
  emp_user_id : option string;
  emp_employee_id : string;
  emp_first_name : string;
  emp_last_name : string;
  emp_department_id : option string;
  emp_designation_id : option string;
  emp_manager_id : option string;
  emp_status : string;
  emp_joining_date : Z;
  emp_deleted_at : option Z;
  emp_location_id : option string;
  emp_work_phone : option string;
  emp_employment_type : string;
  emp_probation_end_date : option Z;
  emp_confirmation_date : option Z;
  emp_notice_period_days : option Z;
  emp_nationality : option string;
  emp_created_at : Z;
  emp_updated_at : Z;
  emp_reporting_manager_id : option string
}.

(** *** Table [audit_logs] *)
Record AuditRow := {
  aud_id : string;
  aud_user_id : string;
  aud_action : string;
  aud_module : string;
  aud_entity_name : string;
  aud_entity_id : string;
  aud_after_state : list (string * json);
  aud_reason : string;
  aud_created_at : Z
}.

(** *** Table [payroll_runs] *)
Record RunRow := {
  run_id : string;
  run_organization_id : string;
  run_month : Z;
  run_year : Z;
  run_status : string;
  run_processed_at : option Z;
  run_processed_by : option string;
  run_approved_by : option string;
  run_approved_at : option Z;
  run_locked_at : option Z;
  run_total_employees : Z;
  run_total_gross : Z;
  run_total_deductions : Z;
  run_total_net_pay : Z;
  run_total_lop_days : Z;
  run_total_advances_deducted : Z;
  run_variance_percentage : Z;
  run_created_at : Z
}.

(** *** Table [payslips] *)
Record SlipRow := {
  slp_id : string;
  slp_payroll_run_id : string;
  slp_employee_id : string;
  slp_basic_pay : Z;
  slp_hra : Z;
  slp_total_earnings : Z;
  slp_total_deductions : Z;
  slp_net_pay : Z;
  slp_status : string;
  slp_created_at : Z;
  slp_updated_at : Z
}.

(** *** Table [payroll_advances] *)
Record AdvRow := {
  adv_id : string;
  adv_employee_id : string;
  adv_amount : Z;
  adv_recovery_months : Z;
  adv_reason : string;
  adv_deduct_from_month : Z;
  adv_deduct_from_year : Z;
  adv_status : string;
  adv_approved_by : option string;
  adv_created_at : Z;
  adv_updated_at : Z
}.

(** *** Table [employee_salary_structures] *)
Record StructRow := {
  ess_id : string;
  ess_employee_id : string;
  ess_currency_code : string;
  ess_base_salary : Z;
  ess_is_active : bool;
  ess_created_at : Z;
  ess_updated_at : Z
}.

(** *** Table [currencies] *)
Record CurRow := {
  cur_code : string;
  cur_name : string;
  cur_symbol : string;
  cur_exchange_rate_to_base : Z;
  cur_is_base : bool;
  cur_updated_at : Z
}.

(** *** Table [salary_components] *)
Record CompRow := {
  cmp_id : string;
  cmp_code : option string;
  cmp_name : string;
  cmp_type : option string;
  cmp_calculation_type : option string;
  cmp_default_value : option Z;
  cmp_is_taxable : option bool;
  cmp_is_statutory : option bool
}.

(** *** Table [attendance_raw_logs] *)
Record RawRow := {
  raw_id : string;
  raw_employee_id : string;
  raw_provider : string;
  raw_punch_time : Z;
  raw_punch_type : option string;
  raw_raw_payload : string
}.

(** *** Table [attendance_daily_status] *)
Record DayRow := {
  day_id : string;
  day_employee_id : string;
  day_date : Z;
  day_first_in : option Z;
  day_last_out : option Z;
  day_status : string;
  day_late_by_minutes : Z;
  day_validation_status : string;
  day_worked_hours : Z;
  day_expected_hours : Z;
  day_ot_hours : Z;
  day_validated_by : option string;
  day_validated_at : option Z;
  day_validation_comments : option string;
  day_updated_at : Z
}.

(** *** Table [attendance_exceptions] *)
Record ExcRow := {
  exc_id : string;
  exc_employee_id : string;
  exc_attendance_date : Z;
  exc_exception_type : string;
  exc_late_minutes : Z;
  exc_early_departure_minutes : Z;
  exc_grace_period_minutes : Z;
  exc_justification : option string;
  exc_status : string;
  exc_reviewed_by : option string;
  exc_reviewed_at : option Z;
  exc_review_comments : option string;
  exc_created_at : Z;
  exc_updated_at : Z
}.

(** *** Table [attendance_rules] *)
Record RuleRow := {
  rul_id : string;
  rul_rule_name : string;
  rul_web_clock_enabled : bool;
  rul_ip_restriction_enabled : bool;
  rul_geofence_enabled : bool;
  rul_biometric_sync_enabled : bool;
  rul_default_grace_period_minutes : Z;
  rul_half_day_threshold_hours : Z;
  rul_updated_at : Z
}.

(** *** Table [ip_allowlists] *)
Record IpRow := {
  ipa_id : string;
  ipa_ip_address : string;
  ipa_description : option string;
  ipa_is_active : bool;
  ipa_created_at : Z
}.

(** *** Table [geofence_locations] *)
Record GeoRow := {
  geo_id : string;
  geo_name : string;
  geo_latitude : Z;
  geo_longitude : Z;
  geo_radius_meters : Z;
  geo_is_active : bool;
  geo_created_at : Z
}.

(** *** Table [leave_types] *)
Record TypeRow := {
  lty_id : string;
  lty_name : string;
  lty_code : option string;
  lty_accrual_frequency : option string;
  lty_accrual_days : option Z;
  lty_max_carry_forward : option Z;
  lty_sandwich_rule : option bool;
  lty_allow_half_day : option bool;
  lty_encashable : option bool
}.

(** *** Table [leave_balances] *)
Record BalRow := {
  bal_id : string;
  bal_employee_id : string;
  bal_leave_type_id : string;
  bal_year : Z;
  bal_total_accrued : Z;
  bal_total_used : Z;
  bal_balance : Z;
  bal_total_allocated : Z;
  bal_used : Z;
  bal_pending : Z;
  bal_updated_at : Z;
  bal_leave_type : option string
}.

(** *** Table [leave_applications] *)
Record LeaveRow := {
  lap_id : string;
  lap_employee_id : string;
  lap_leave_type_id : string;
  lap_start_date : Z;
  lap_end_date : Z;
  lap_total_days : Z;
  lap_reason : option string;
  lap_status : string;
  lap_created_at : Z
}.

(** *** Table [leave_requests] *)
Record LrqRow := {
  lrq_status : string;
  lrq_start_date : Z
}.

(** *** Table [leave_policies] *)
Record PolRow := {
  pol_id : string;
  pol_leave_type_id : string;
  pol_policy_name : string;
  pol_accrual_frequency : string;
  pol_accrual_rate : Z;
  pol_max_carry_forward_days : Z;
  pol_sandwich_rule_enabled : bool;
  pol_is_encashable : bool;
  pol_updated_at : Z
}.

(** *** Table [leave_accrual_logs] *)
Record AccRow := {
  acc_id : string;
  acc_employee_id : string;
  acc_leave_type_id : string;
  acc_accrual_date : Z;
  acc_days_added : Z;
  acc_reason : option string;
  acc_created_at : Z
}.

(** *** Table [leave_encashment_requests] *)
Record EncRow := {
  enc_id : string;
  enc_employee_id : string;
  enc_leave_type_id : string;
  enc_days_to_encash : Z;
  enc_per_day_rate : Z;
  enc_total_amount : Z;
  enc_status : string;
  enc_reason : option string;
  enc_approved_by : option string;
  enc_approved_at : option Z;
  enc_created_at : Z;
  enc_updated_at : Z
}.

(** *** Table [regularization_requests] *)
Record RegRow := {
  reg_id : string;
  reg_employee_id : string;
  reg_requested_check_in : option Z;
  reg_requested_check_out : option Z;
  reg_reason : option string;
  reg_status : string;
  reg_created_at : Z
}.

(** *** Table [od_requests] *)
Record OdRow := {
  odr_id : string;
  odr_employee_id : string;
  odr_date : Z;
  odr_reason : option string;
  odr_status : string;
  odr_created_at : Z
}.

(** *** Table [wfh_requests] *)
Record WfhRow := {
  wfh_id : string;
  wfh_employee_id : string;
  wfh_date : Z;
  wfh_reason : option string;
  wfh_status : string;
  wfh_created_at : Z
}.

(** *** Table [exit_requests] *)
Record ExitRow := {
  exr_id : string;
  exr_employee_id : string;
  exr_resignation_date : Z;
  exr_last_working_date : option Z;
  exr_reason : option string;
  exr_status : string;
  exr_created_at : Z
}.

(** *** Table [helpdesk_categories] *)
Record HdCatRow := {
  hdc_id : string;
  hdc_name : string;
  hdc_description : option string;
  hdc_sla_hours : Z
}.

(** *** Table [helpdesk_tickets] *)
Record HdTicketRow := {
  hdt_id : string;
  hdt_ticket_number : string;
  hdt_employee_id : string;
  hdt_category_id : string;
  hdt_subject : string;
  hdt_description : string;
  hdt_priority : string;
  hdt_status : string;
  hdt_assigned_to : option string;
  hdt_resolved_at : option Z;
  hdt_resolution_notes : option string;
  hdt_created_at : Z;
  hdt_updated_at : Z
}.

(** *** Table [helpdesk_ticket_comments] *)
Record HdCommentRow := {
  hdm_id : string;
  hdm_ticket_id : string;
  hdm_user_id : string;
  hdm_comment : string;
  hdm_created_at : Z
}.

(** *** Table [data_access_logs] *)
Record AccessRow := {
  dal_id : string;
  dal_user_id : string;
  dal_module : string;
  dal_action : string;
  dal_resource_id : string;
  dal_ip_address : string;
  dal_user_agent : string;
  dal_accessed_at : Z
}.

(** *** Table [locations] *)
Record LocRow := {
  loc_id : string;
  loc_name : string;
  loc_organization_id : string;
  loc_address : option string;
  loc_city : option string;
  loc_state : option string;
  loc_country : option string;
  loc_zip_code : option string
}.

(** *** Table [employee_personal_details] *)
Record PersRow := {
  per_employee_id : string;
  per_date_of_birth : option Z;
  per_gender : option string;
  per_marital_status : option string;
  per_blood_group : option string;
  per_personal_email : option string;
  per_phone_number : option string;
  per_emergency_contact_name : option string;
  per_emergency_contact_number : option string;
  per_current_address : option string;
  per_permanent_address : option string
}.

(** *** Table [employee_statutory_details] *)
Record StatRow := {
  sta_employee_id : string;
  sta_pan_number : option string;
  sta_aadhaar_number : option string;
  sta_uan_number : option string;
  sta_pf_number : option string;
  sta_esic_number : option string;
  sta_bank_account_number : option string;
  sta_ifsc_code : option string;
  sta_bank_name : option string;
  sta_pt_applicable : option bool
}.

(** *** Table [employee_id_seq] *)
Record SeqRow := {
  seq_last : Z
}.

(** *** Table [import_batches] *)
Record BatchRow := {
  imb_id : string;
  imb_organization_id : string;
  imb_user_id : string;
  imb_import_type : string;
  imb_total_rows : Z;
  imb_valid_rows : Z;
  imb_error_rows : Z;
  imb_status : string;
  imb_created_at : Z
}.

(** *** Table [import_rows] *)
Record ImpRow := {
  imr_id : string;
  imr_batch_id : string;
  imr_row_number : Z;
  imr_raw_data : gmap string string;
  imr_status : string;
  imr_error_message : option string;
  imr_created_employee_id : option string
}.

(** *** Table [employee_lifecycle_events] *)
Record EventRow := {
  evt_id : string;
  evt_employee_id : string;
  evt_event_type : string;
  evt_effective_date : Z;
  evt_previous_value : option json;
  evt_new_value : option json;
  evt_reason : option string;
  evt_created_by : option string;
  evt_created_at : Z
}.

(** *** Table [document_types] *)
Record DocTypeRow := {
  dct_id : string;
  dct_name : string;
  dct_is_mandatory : option bool;
  dct_has_expiry : option bool;
  dct_requires_verification : option bool;
  dct_access_scope : option string
}.

(** *** Table [employee_documents] *)
Record DocRow := {
  doc_id : string;
  doc_employee_id : string;
  doc_document_type_id : string;
  doc_file_url : string;
  doc_file_name : string;
  doc_status : string;
  doc_created_at : Z
}.

(** *** Table [onboarding_templates] *)
Record OnbTemplateRow := {
  obt_id : string;
  obt_organization_id : string;
  obt_name : string;
  obt_description : option string
}.

(** *** Table [onboarding_instances] *)
Record OnbInstanceRow := {
  obi_id : string;
  obi_employee_id : string;
  obi_template_id : option string;
  obi_status : string;
  obi_created_at : Z
}.

(** *** Table [system_configurations] *)
Record ConfigRow := {
  cfg_key : string;
  cfg_value : json;
  cfg_effective_from : option Z
}.

(** *** Table [attendance_logs] *)
Record AttLogRow := {
  atl_id : string;
  atl_employee_id : string;
  atl_date : Z;
  atl_check_in_time : option Z;
  atl_check_out_time : option Z;
  atl_status : option string
}.

(** *** Table [performance_cycles] *)
Record CycleRow := {
  pcy_id : string;
  pcy_title : string;
  pcy_start_date : Z;
  pcy_end_date : Z;
  pcy_status : string;
  pcy_created_at : Z
}.

(** ** The database

    [tbl] enumerates the tables; a database gives the rows of each. *)

Inductive tbl : Set :=
  | T_organizations | T_users | T_roles | T_user_roles | T_departments | T_designations
  | T_employees | T_audit_logs | T_payroll_runs | T_payslips | T_payroll_advances |
  T_employee_salary_structures | T_currencies | T_salary_components |
  T_attendance_raw_logs | T_attendance_daily_status | T_attendance_exceptions |
  T_attendance_rules | T_ip_allowlists | T_geofence_locations | T_leave_types |
  T_leave_balances | T_leave_applications | T_leave_requests | T_leave_policies |
  T_leave_accrual_logs | T_leave_encashment_requests | T_regularization_requests |
  T_od_requests | T_wfh_requests | T_exit_requests | T_helpdesk_categories |
  T_helpdesk_tickets | T_helpdesk_ticket_comments | T_data_access_logs |
  T_locations |
  T_employee_personal_details |
  T_employee_statutory_details |
  T_employee_id_seq |
  T_import_batches |
  T_import_rows |
  T_employee_lifecycle_events |
  T_document_types |
  T_employee_documents |
  T_onboarding_templates |
  T_onboarding_instances |
  T_system_configurations |
  T_attendance_logs |
  T_performance_cycles.

#[export] Instance tbl_eq_dec : EqDecision tbl.
Proof. solve_decision. Defined.

Definition row (t : tbl) : Type :=
  match t with
  | T_organizations => OrgRow | T_users => UserRow | T_roles => RoleRow | T_user_roles
  => UserRoleRow | T_departments => DeptRow | T_designations => DesigRow | T_employees
  => EmpRow | T_audit_logs => AuditRow | T_payroll_runs => RunRow | T_payslips =>
  SlipRow | T_payroll_advances => AdvRow | T_employee_salary_structures => StructRow |
  T_currencies => CurRow | T_salary_components => CompRow | T_attendance_raw_logs =>
  RawRow | T_attendance_daily_status => DayRow | T_attendance_exceptions => ExcRow |
  T_attendance_rules => RuleRow | T_ip_allowlists => IpRow | T_geofence_locations =>
  GeoRow | T_leave_types => TypeRow | T_leave_balances => BalRow | T_leave_applications
  => LeaveRow | T_leave_requests => LrqRow | T_leave_policies => PolRow |
  T_leave_accrual_logs => AccRow | T_leave_encashment_requests => EncRow |
  T_regularization_requests => RegRow | T_od_requests => OdRow | T_wfh_requests =>
  WfhRow | T_exit_requests => ExitRow | T_helpdesk_categories => HdCatRow |
  T_helpdesk_tickets => HdTicketRow | T_helpdesk_ticket_comments => HdCommentRow |
  T_data_access_logs => AccessRow |
  T_locations => LocRow |
  T_employee_personal_details => PersRow |
  T_employee_statutory_details => StatRow |
  T_employee_id_seq => SeqRow |
  T_import_batches => BatchRow |
  T_import_rows => ImpRow |
  T_employee_lifecycle_events => EventRow |
  T_document_types => DocTypeRow |
  T_employee_documents => DocRow |
  T_onboarding_templates => OnbTemplateRow |
  T_onboarding_instances => OnbInstanceRow |
  T_system_configurations => ConfigRow |
  T_attendance_logs => AttLogRow |
  T_performance_cycles => CycleRow
  end.

Definition Database : Type := forall t : tbl, list (row t).

Definition put (t : tbl) (l : list (row t)) (d : Database) : Database := fun u =>
  match decide (t = u) with
  | left e => eq_rect t (fun x => list (row x)) l u e
  | right _ => d u
  end.

Definition tab (t : tbl) : table Database (row t) :=
  {| tget := fun d => d t; tput := put t |}.

#[export] Instance tab_lawful t : LawfulTable (tab t).
Proof.
  split. intros l d. unfold tget, tput. simpl. unfold put. destruct (decide (t = t)) as [e|]; [|done].
  by rewrite (proof_irrel e eq_refl).
Qed.

Lemma tab_indep t u : t <> u -> Indep (tab t) (tab u).
Proof. intros Hne l d. unfold tget, tput. simpl. unfold put. by destruct (decide (t = u)). Qed.

#[export] Hint Extern 0 (Indep _ _) => (intros ? ?; reflexivity) : typeclass_instances.

(** The database without rows. *)
Definition empty_db : Database := fun _ => [].

Definition organizations : table Database OrgRow := tab T_organizations.
Definition users : table Database UserRow := tab T_users.
Definition roles : table Database RoleRow := tab T_roles.
Definition user_roles : table Database UserRoleRow := tab T_user_roles.
Definition departments : table Database DeptRow := tab T_departments.
Definition designations : table Database DesigRow := tab T_designations.
Definition employees : table Database EmpRow := tab T_employees.
Definition audit_logs : table Database AuditRow := tab T_audit_logs.
Definition payroll_runs : table Database RunRow := tab T_payroll_runs.
Definition payslips : table Database SlipRow := tab T_payslips.
Definition payroll_advances : table Database AdvRow := tab T_payroll_advances.
Definition employee_salary_structures : table Database StructRow := tab T_employee_salary_structures.
Definition currencies : table Database CurRow := tab T_currencies.
Definition salary_components : table Database CompRow := tab T_salary_components.
Definition attendance_raw_logs : table Database RawRow := tab T_attendance_raw_logs.
Definition attendance_daily_status : table Database DayRow := tab T_attendance_daily_status.
Definition attendance_exceptions : table Database ExcRow := tab T_attendance_exceptions.
Definition attendance_rules : table Database RuleRow := tab T_attendance_rules.
Definition ip_allowlists : table Database IpRow := tab T_ip_allowlists.
Definition geofence_locations : table Database GeoRow := tab T_geofence_locations.
Definition leave_types : table Database TypeRow := tab T_leave_types.
Definition leave_balances : table Database BalRow := tab T_leave_balances.
Definition leave_applications : table Database LeaveRow := tab T_leave_applications.
Definition leave_requests : table Database LrqRow := tab T_leave_requests.
Definition leave_policies : table Database PolRow := tab T_leave_policies.
Definition leave_accrual_logs : table Database AccRow := tab T_leave_accrual_logs.
Definition leave_encashment_requests : table Database EncRow := tab T_leave_encashment_requests.
Definition regularization_requests : table Database RegRow := tab T_regularization_requests.
Definition od_requests : table Database OdRow := tab T_od_requests.
Definition wfh_requests : table Database WfhRow := tab T_wfh_requests.
Definition exit_requests : table Database ExitRow := tab T_exit_requests.
Definition helpdesk_categories : table Database HdCatRow := tab T_helpdesk_categories.
Definition helpdesk_tickets : table Database HdTicketRow := tab T_helpdesk_tickets.
Definition helpdesk_ticket_comments : table Database HdCommentRow := tab T_helpdesk_ticket_comments.
Definition data_access_logs : table Database AccessRow := tab T_data_access_logs.
Definition locations : table Database LocRow := tab T_locations.
Definition employee_personal_details : table Database PersRow := tab T_employee_personal_details.
Definition employee_statutory_details : table Database StatRow := tab T_employee_statutory_details.
Definition employee_id_seq : table Database SeqRow := tab T_employee_id_seq.
Definition import_batches : table Database BatchRow := tab T_import_batches.
Definition import_rows : table Database ImpRow := tab T_import_rows.
Definition employee_lifecycle_events : table Database EventRow := tab T_employee_lifecycle_events.
Definition document_types : table Database DocTypeRow := tab T_document_types.
Definition employee_documents : table Database DocRow := tab T_employee_documents.
Definition onboarding_templates : table Database OnbTemplateRow := tab T_onboarding_templates.
Definition onboarding_instances : table Database OnbInstanceRow := tab T_onboarding_instances.
Definition system_configurations : table Database ConfigRow := tab T_system_configurations.
Definition attendance_logs : table Database AttLogRow := tab T_attendance_logs.
Definition performance_cycles : table Database CycleRow := tab T_performance_cycles.

#[export] Instance organizations_lawful : LawfulTable organizations := tab_lawful T_organizations.
#[export] Instance users_lawful : LawfulTable users := tab_lawful T_users.
#[export] Instance roles_lawful : LawfulTable roles := tab_lawful T_roles.
#[export] Instance user_roles_lawful : LawfulTable user_roles := tab_lawful T_user_roles.
#[export] Instance departments_lawful : LawfulTable departments := tab_lawful T_departments.
#[export] Instance designations_lawful : LawfulTable designations := tab_lawful T_designations.
#[export] Instance employees_lawful : LawfulTable employees := tab_lawful T_employees.
#[export] Instance audit_logs_lawful : LawfulTable audit_logs := tab_lawful T_audit_logs.
#[export] Instance payroll_runs_lawful : LawfulTable payroll_runs := tab_lawful T_payroll_runs.
#[export] Instance payslips_lawful : LawfulTable payslips := tab_lawful T_payslips.
#[export] Instance payroll_advances_lawful : LawfulTable payroll_advances := tab_lawful T_payroll_advances.
#[export] Instance employee_salary_structures_lawful : LawfulTable employee_salary_structures := tab_lawful T_employee_salary_structures.
#[export] Instance currencies_lawful : LawfulTable currencies := tab_lawful T_currencies.
#[export] Instance salary_components_lawful : LawfulTable salary_components := tab_lawful T_salary_components.
#[export] Instance attendance_raw_logs_lawful : LawfulTable attendance_raw_logs := tab_lawful T_attendance_raw_logs.
#[export] Instance attendance_daily_status_lawful : LawfulTable attendance_daily_status := tab_lawful T_attendance_daily_status.
#[export] Instance attendance_exceptions_lawful : LawfulTable attendance_exceptions := tab_lawful T_attendance_exceptions.
#[export] Instance attendance_rules_lawful : LawfulTable attendance_rules := tab_lawful T_attendance_rules.
#[export] Instance ip_allowlists_lawful : LawfulTable ip_allowlists := tab_lawful T_ip_allowlists.
#[export] Instance geofence_locations_lawful : LawfulTable geofence_locations := tab_lawful T_geofence_locations.
#[export] Instance leave_types_lawful : LawfulTable leave_types := tab_lawful T_leave_types.
#[export] Instance leave_balances_lawful : LawfulTable leave_balances := tab_lawful T_leave_balances.
#[export] Instance leave_applications_lawful : LawfulTable leave_applications := tab_lawful T_leave_applications.
#[export] Instance leave_requests_lawful : LawfulTable leave_requests := tab_lawful T_leave_requests.
#[export] Instance leave_policies_lawful : LawfulTable leave_policies := tab_lawful T_leave_policies.
#[export] Instance leave_accrual_logs_lawful : LawfulTable leave_accrual_logs := tab_lawful T_leave_accrual_logs.
#[export] Instance leave_encashment_requests_lawful : LawfulTable leave_encashment_requests := tab_lawful T_leave_encashment_requests.
#[export] Instance regularization_requests_lawful : LawfulTable regularization_requests := tab_lawful T_regularization_requests.
#[export] Instance od_requests_lawful : LawfulTable od_requests := tab_lawful T_od_requests.
#[export] Instance wfh_requests_lawful : LawfulTable wfh_requests := tab_lawful T_wfh_requests.
#[export] Instance exit_requests_lawful : LawfulTable exit_requests := tab_lawful T_exit_requests.
#[export] Instance helpdesk_categories_lawful : LawfulTable helpdesk_categories := tab_lawful T_helpdesk_categories.
#[export] Instance helpdesk_tickets_lawful : LawfulTable helpdesk_tickets := tab_lawful T_helpdesk_tickets.
#[export] Instance helpdesk_ticket_comments_lawful : LawfulTable helpdesk_ticket_comments := tab_lawful T_helpdesk_ticket_comments.
#[export] Instance data_access_logs_lawful : LawfulTable data_access_logs := tab_lawful T_data_access_logs.
#[export] Instance locations_lawful : LawfulTable locations := tab_lawful T_locations.
#[export] Instance employee_personal_details_lawful : LawfulTable employee_personal_details := tab_lawful T_employee_personal_details.
#[export] Instance employee_statutory_details_lawful : LawfulTable employee_statutory_details := tab_lawful T_employee_statutory_details.
#[export] Instance employee_id_seq_lawful : LawfulTable employee_id_seq := tab_lawful T_employee_id_seq.
#[export] Instance import_batches_lawful : LawfulTable import_batches := tab_lawful T_import_batches.
#[export] Instance import_rows_lawful : LawfulTable import_rows := tab_lawful T_import_rows.
#[export] Instance employee_lifecycle_events_lawful : LawfulTable employee_lifecycle_events := tab_lawful T_employee_lifecycle_events.
#[export] Instance document_types_lawful : LawfulTable document_types := tab_lawful T_document_types.
#[export] Instance employee_documents_lawful : LawfulTable employee_documents := tab_lawful T_employee_documents.
#[export] Instance onboarding_templates_lawful : LawfulTable onboarding_templates := tab_lawful T_onboarding_templates.
#[export] Instance onboarding_instances_lawful : LawfulTable onboarding_instances := tab_lawful T_onboarding_instances.
#[export] Instance system_configurations_lawful : LawfulTable system_configurations := tab_lawful T_system_configurations.
#[export] Instance attendance_logs_lawful : LawfulTable attendance_logs := tab_lawful T_attendance_logs.
#[export] Instance performance_cycles_lawful : LawfulTable performance_cycles := tab_lawful T_performance_cycles.

(** ** Column assignments: [set_<column> v r] is the row [r] with one column changed *)

Definition set_usr_last_login v (r : UserRow) : UserRow :=
  {| usr_id := usr_id r; usr_email := usr_email r; usr_password_hash :=
     usr_password_hash r; usr_is_active := usr_is_active r; usr_last_login := v;
     usr_password_reset_token := usr_password_reset_token r;
     usr_password_reset_expires_at := usr_password_reset_expires_at r; usr_created_at
     := usr_created_at r; usr_invited_at := usr_invited_at r; usr_invitation_token :=
     usr_invitation_token r; usr_invitation_expires_at := usr_invitation_expires_at r
     |}.

Definition set_usr_password_reset_token v (r : UserRow) : UserRow :=
  {| usr_id := usr_id r; usr_email := usr_email r; usr_password_hash :=
     usr_password_hash r; usr_is_active := usr_is_active r; usr_last_login :=
     usr_last_login r; usr_password_reset_token := v; usr_password_reset_expires_at :=
     usr_password_reset_expires_at r; usr_created_at := usr_created_at r;
     usr_invited_at := usr_invited_at r; usr_invitation_token := usr_invitation_token
     r; usr_invitation_expires_at := usr_invitation_expires_at r |}.

Definition set_usr_password_reset_expires_at v (r : UserRow) : UserRow :=
  {| usr_id := usr_id r; usr_email := usr_email r; usr_password_hash :=
     usr_password_hash r; usr_is_active := usr_is_active r; usr_last_login :=
     usr_last_login r; usr_password_reset_token := usr_password_reset_token r;
     usr_password_reset_expires_at := v; usr_created_at := usr_created_at r;
     usr_invited_at := usr_invited_at r; usr_invitation_token := usr_invitation_token
     r; usr_invitation_expires_at := usr_invitation_expires_at r |}.

Definition set_usr_password_hash v (r : UserRow) : UserRow :=
  {| usr_id := usr_id r; usr_email := usr_email r; usr_password_hash := v;
     usr_is_active := usr_is_active r; usr_last_login := usr_last_login r;
     usr_password_reset_token := usr_password_reset_token r;
     usr_password_reset_expires_at := usr_password_reset_expires_at r; usr_created_at
     := usr_created_at r; usr_invited_at := usr_invited_at r; usr_invitation_token :=
     usr_invitation_token r; usr_invitation_expires_at := usr_invitation_expires_at r
     |}.

Definition set_usr_is_active v (r : UserRow) : UserRow :=
  {| usr_id := usr_id r; usr_email := usr_email r; usr_password_hash :=
     usr_password_hash r; usr_is_active := v; usr_last_login := usr_last_login r;
     usr_password_reset_token := usr_password_reset_token r;
     usr_password_reset_expires_at := usr_password_reset_expires_at r; usr_created_at
     := usr_created_at r; usr_invited_at := usr_invited_at r; usr_invitation_token :=
     usr_invitation_token r; usr_invitation_expires_at := usr_invitation_expires_at r
     |}.

Definition set_run_status v (r : RunRow) : RunRow :=
  {| run_id := run_id r; run_organization_id := run_organization_id r; run_month :=
     run_month r; run_year := run_year r; run_status := v; run_processed_at :=
     run_processed_at r; run_processed_by := run_processed_by r; run_approved_by :=
     run_approved_by r; run_approved_at := run_approved_at r; run_locked_at :=
     run_locked_at r; run_total_employees := run_total_employees r; run_total_gross :=
     run_total_gross r; run_total_deductions := run_total_deductions r;
     run_total_net_pay := run_total_net_pay r; run_total_lop_days := run_total_lop_days
     r; run_total_advances_deducted := run_total_advances_deducted r;
     run_variance_percentage := run_variance_percentage r; run_created_at :=
     run_created_at r |}.

Definition set_run_approved_by v (r : RunRow) : RunRow :=
  {| run_id := run_id r; run_organization_id := run_organization_id r; run_month :=
     run_month r; run_year := run_year r; run_status := run_status r; run_processed_at
     := run_processed_at r; run_processed_by := run_processed_by r; run_approved_by :=
     v; run_approved_at := run_approved_at r; run_locked_at := run_locked_at r;
     run_total_employees := run_total_employees r; run_total_gross := run_total_gross r;
     run_total_deductions := run_total_deductions r; run_total_net_pay :=
     run_total_net_pay r; run_total_lop_days := run_total_lop_days r;
     run_total_advances_deducted := run_total_advances_deducted r;
     run_variance_percentage := run_variance_percentage r; run_created_at :=
     run_created_at r |}.

Definition set_run_approved_at v (r : RunRow) : RunRow :=
  {| run_id := run_id r; run_organization_id := run_organization_id r; run_month :=
     run_month r; run_year := run_year r; run_status := run_status r; run_processed_at
     := run_processed_at r; run_processed_by := run_processed_by r; run_approved_by :=
     run_approved_by r; run_approved_at := v; run_locked_at := run_locked_at r;
     run_total_employees := run_total_employees r; run_total_gross := run_total_gross r;
     run_total_deductions := run_total_deductions r; run_total_net_pay :=
     run_total_net_pay r; run_total_lop_days := run_total_lop_days r;
     run_total_advances_deducted := run_total_advances_deducted r;
     run_variance_percentage := run_variance_percentage r; run_created_at :=
     run_created_at r |}.

Definition set_run_locked_at v (r : RunRow) : RunRow :=
  {| run_id := run_id r; run_organization_id := run_organization_id r; run_month :=
     run_month r; run_year := run_year r; run_status := run_status r; run_processed_at
     := run_processed_at r; run_processed_by := run_processed_by r; run_approved_by :=
     run_approved_by r; run_approved_at := run_approved_at r; run_locked_at := v;
     run_total_employees := run_total_employees r; run_total_gross := run_total_gross r;
     run_total_deductions := run_total_deductions r; run_total_net_pay :=
     run_total_net_pay r; run_total_lop_days := run_total_lop_days r;
     run_total_advances_deducted := run_total_advances_deducted r;
     run_variance_percentage := run_variance_percentage r; run_created_at :=
     run_created_at r |}.

Definition set_slp_status v (r : SlipRow) : SlipRow :=
  {| slp_id := slp_id r; slp_payroll_run_id := slp_payroll_run_id r; slp_employee_id :=
     slp_employee_id r; slp_basic_pay := slp_basic_pay r; slp_hra := slp_hra r;
     slp_total_earnings := slp_total_earnings r; slp_total_deductions :=
     slp_total_deductions r; slp_net_pay := slp_net_pay r; slp_status := v;
     slp_created_at := slp_created_at r; slp_updated_at := slp_updated_at r |}.

Definition set_adv_status v (r : AdvRow) : AdvRow :=
  {| adv_id := adv_id r; adv_employee_id := adv_employee_id r; adv_amount := adv_amount
     r; adv_recovery_months := adv_recovery_months r; adv_reason := adv_reason r;
     adv_deduct_from_month := adv_deduct_from_month r; adv_deduct_from_year :=
     adv_deduct_from_year r; adv_status := v; adv_approved_by := adv_approved_by r;
     adv_created_at := adv_created_at r; adv_updated_at := adv_updated_at r |}.

Definition set_adv_approved_by v (r : AdvRow) : AdvRow :=
  {| adv_id := adv_id r; adv_employee_id := adv_employee_id r; adv_amount := adv_amount
     r; adv_recovery_months := adv_recovery_months r; adv_reason := adv_reason r;
     adv_deduct_from_month := adv_deduct_from_month r; adv_deduct_from_year :=
     adv_deduct_from_year r; adv_status := adv_status r; adv_approved_by := v;
     adv_created_at := adv_created_at r; adv_updated_at := adv_updated_at r |}.

Definition set_adv_updated_at v (r : AdvRow) : AdvRow :=
  {| adv_id := adv_id r; adv_employee_id := adv_employee_id r; adv_amount := adv_amount
     r; adv_recovery_months := adv_recovery_months r; adv_reason := adv_reason r;
     adv_deduct_from_month := adv_deduct_from_month r; adv_deduct_from_year :=
     adv_deduct_from_year r; adv_status := adv_status r; adv_approved_by :=
     adv_approved_by r; adv_created_at := adv_created_at r; adv_updated_at := v |}.

Definition set_ess_is_active v (r : StructRow) : StructRow :=
  {| ess_id := ess_id r; ess_employee_id := ess_employee_id r; ess_currency_code :=
     ess_currency_code r; ess_base_salary := ess_base_salary r; ess_is_active := v;
     ess_created_at := ess_created_at r; ess_updated_at := ess_updated_at r |}.

Definition set_day_first_in v (r : DayRow) : DayRow :=
  {| day_id := day_id r; day_employee_id := day_employee_id r; day_date := day_date r;
     day_first_in := v; day_last_out := day_last_out r; day_status := day_status r;
     day_late_by_minutes := day_late_by_minutes r; day_validation_status :=
     day_validation_status r; day_worked_hours := day_worked_hours r; day_expected_hours
     := day_expected_hours r; day_ot_hours := day_ot_hours r; day_validated_by :=
     day_validated_by r; day_validated_at := day_validated_at r; day_validation_comments
     := day_validation_comments r; day_updated_at := day_updated_at r |}.

Definition set_day_last_out v (r : DayRow) : DayRow :=
  {| day_id := day_id r; day_employee_id := day_employee_id r; day_date := day_date r;
     day_first_in := day_first_in r; day_last_out := v; day_status := day_status r;
     day_late_by_minutes := day_late_by_minutes r; day_validation_status :=
     day_validation_status r; day_worked_hours := day_worked_hours r; day_expected_hours
     := day_expected_hours r; day_ot_hours := day_ot_hours r; day_validated_by :=
     day_validated_by r; day_validated_at := day_validated_at r; day_validation_comments
     := day_validation_comments r; day_updated_at := day_updated_at r |}.

Definition set_day_status v (r : DayRow) : DayRow :=
  {| day_id := day_id r; day_employee_id := day_employee_id r; day_date := day_date r;
     day_first_in := day_first_in r; day_last_out := day_last_out r; day_status := v;
     day_late_by_minutes := day_late_by_minutes r; day_validation_status :=
     day_validation_status r; day_worked_hours := day_worked_hours r; day_expected_hours
     := day_expected_hours r; day_ot_hours := day_ot_hours r; day_validated_by :=
     day_validated_by r; day_validated_at := day_validated_at r; day_validation_comments
     := day_validation_comments r; day_updated_at := day_updated_at r |}.

Definition set_day_worked_hours v (r : DayRow) : DayRow :=
  {| day_id := day_id r; day_employee_id := day_employee_id r; day_date := day_date r;
     day_first_in := day_first_in r; day_last_out := day_last_out r; day_status :=
     day_status r; day_late_by_minutes := day_late_by_minutes r; day_validation_status
     := day_validation_status r; day_worked_hours := v; day_expected_hours :=
     day_expected_hours r; day_ot_hours := day_ot_hours r; day_validated_by :=
     day_validated_by r; day_validated_at := day_validated_at r; day_validation_comments
     := day_validation_comments r; day_updated_at := day_updated_at r |}.

Definition set_day_validation_status v (r : DayRow) : DayRow :=
  {| day_id := day_id r; day_employee_id := day_employee_id r; day_date := day_date r;
     day_first_in := day_first_in r; day_last_out := day_last_out r; day_status :=
     day_status r; day_late_by_minutes := day_late_by_minutes r; day_validation_status
     := v; day_worked_hours := day_worked_hours r; day_expected_hours :=
     day_expected_hours r; day_ot_hours := day_ot_hours r; day_validated_by :=
     day_validated_by r; day_validated_at := day_validated_at r; day_validation_comments
     := day_validation_comments r; day_updated_at := day_updated_at r |}.

Definition set_day_validated_by v (r : DayRow) : DayRow :=
  {| day_id := day_id r; day_employee_id := day_employee_id r; day_date := day_date r;
     day_first_in := day_first_in r; day_last_out := day_last_out r; day_status :=
     day_status r; day_late_by_minutes := day_late_by_minutes r; day_validation_status
     := day_validation_status r; day_worked_hours := day_worked_hours r;
     day_expected_hours := day_expected_hours r; day_ot_hours := day_ot_hours r;
     day_validated_by := v; day_validated_at := day_validated_at r;
     day_validation_comments := day_validation_comments r; day_updated_at :=
     day_updated_at r |}.

Definition set_day_validated_at v (r : DayRow) : DayRow :=
  {| day_id := day_id r; day_employee_id := day_employee_id r; day_date := day_date r;
     day_first_in := day_first_in r; day_last_out := day_last_out r; day_status :=
     day_status r; day_late_by_minutes := day_late_by_minutes r; day_validation_status
     := day_validation_status r; day_worked_hours := day_worked_hours r;
     day_expected_hours := day_expected_hours r; day_ot_hours := day_ot_hours r;
     day_validated_by := day_validated_by r; day_validated_at := v;
     day_validation_comments := day_validation_comments r; day_updated_at :=
     day_updated_at r |}.

Definition set_day_validation_comments v (r : DayRow) : DayRow :=
  {| day_id := day_id r; day_employee_id := day_employee_id r; day_date := day_date r;
     day_first_in := day_first_in r; day_last_out := day_last_out r; day_status :=
     day_status r; day_late_by_minutes := day_late_by_minutes r; day_validation_status
     := day_validation_status r; day_worked_hours := day_worked_hours r;
     day_expected_hours := day_expected_hours r; day_ot_hours := day_ot_hours r;
     day_validated_by := day_validated_by r; day_validated_at := day_validated_at r;
     day_validation_comments := v; day_updated_at := day_updated_at r |}.

Definition set_day_updated_at v (r : DayRow) : DayRow :=
  {| day_id := day_id r; day_employee_id := day_employee_id r; day_date := day_date r;
     day_first_in := day_first_in r; day_last_out := day_last_out r; day_status :=
     day_status r; day_late_by_minutes := day_late_by_minutes r; day_validation_status
     := day_validation_status r; day_worked_hours := day_worked_hours r;
     day_expected_hours := day_expected_hours r; day_ot_hours := day_ot_hours r;
     day_validated_by := day_validated_by r; day_validated_at := day_validated_at r;
     day_validation_comments := day_validation_comments r; day_updated_at := v |}.

Definition set_exc_status v (r : ExcRow) : ExcRow :=
  {| exc_id := exc_id r; exc_employee_id := exc_employee_id r; exc_attendance_date :=
     exc_attendance_date r; exc_exception_type := exc_exception_type r; exc_late_minutes
     := exc_late_minutes r; exc_early_departure_minutes := exc_early_departure_minutes
     r; exc_grace_period_minutes := exc_grace_period_minutes r; exc_justification :=
     exc_justification r; exc_status := v; exc_reviewed_by := exc_reviewed_by r;
     exc_reviewed_at := exc_reviewed_at r; exc_review_comments := exc_review_comments r;
     exc_created_at := exc_created_at r; exc_updated_at := exc_updated_at r |}.

Definition set_exc_reviewed_by v (r : ExcRow) : ExcRow :=
  {| exc_id := exc_id r; exc_employee_id := exc_employee_id r; exc_attendance_date :=
     exc_attendance_date r; exc_exception_type := exc_exception_type r; exc_late_minutes
     := exc_late_minutes r; exc_early_departure_minutes := exc_early_departure_minutes
     r; exc_grace_period_minutes := exc_grace_period_minutes r; exc_justification :=
     exc_justification r; exc_status := exc_status r; exc_reviewed_by := v;
     exc_reviewed_at := exc_reviewed_at r; exc_review_comments := exc_review_comments r;
     exc_created_at := exc_created_at r; exc_updated_at := exc_updated_at r |}.

Definition set_exc_reviewed_at v (r : ExcRow) : ExcRow :=
  {| exc_id := exc_id r; exc_employee_id := exc_employee_id r; exc_attendance_date :=
     exc_attendance_date r; exc_exception_type := exc_exception_type r; exc_late_minutes
     := exc_late_minutes r; exc_early_departure_minutes := exc_early_departure_minutes
     r; exc_grace_period_minutes := exc_grace_period_minutes r; exc_justification :=
     exc_justification r; exc_status := exc_status r; exc_reviewed_by := exc_reviewed_by
     r; exc_reviewed_at := v; exc_review_comments := exc_review_comments r;
     exc_created_at := exc_created_at r; exc_updated_at := exc_updated_at r |}.

Definition set_exc_review_comments v (r : ExcRow) : ExcRow :=
  {| exc_id := exc_id r; exc_employee_id := exc_employee_id r; exc_attendance_date :=
     exc_attendance_date r; exc_exception_type := exc_exception_type r; exc_late_minutes
     := exc_late_minutes r; exc_early_departure_minutes := exc_early_departure_minutes
     r; exc_grace_period_minutes := exc_grace_period_minutes r; exc_justification :=
     exc_justification r; exc_status := exc_status r; exc_reviewed_by := exc_reviewed_by
     r; exc_reviewed_at := exc_reviewed_at r; exc_review_comments := v; exc_created_at
     := exc_created_at r; exc_updated_at := exc_updated_at r |}.

Definition set_exc_justification v (r : ExcRow) : ExcRow :=
  {| exc_id := exc_id r; exc_employee_id := exc_employee_id r; exc_attendance_date :=
     exc_attendance_date r; exc_exception_type := exc_exception_type r; exc_late_minutes
     := exc_late_minutes r; exc_early_departure_minutes := exc_early_departure_minutes
     r; exc_grace_period_minutes := exc_grace_period_minutes r; exc_justification := v;
     exc_status := exc_status r; exc_reviewed_by := exc_reviewed_by r; exc_reviewed_at
     := exc_reviewed_at r; exc_review_comments := exc_review_comments r; exc_created_at
     := exc_created_at r; exc_updated_at := exc_updated_at r |}.

Definition set_exc_updated_at v (r : ExcRow) : ExcRow :=
  {| exc_id := exc_id r; exc_employee_id := exc_employee_id r; exc_attendance_date :=
     exc_attendance_date r; exc_exception_type := exc_exception_type r; exc_late_minutes
     := exc_late_minutes r; exc_early_departure_minutes := exc_early_departure_minutes
     r; exc_grace_period_minutes := exc_grace_period_minutes r; exc_justification :=
     exc_justification r; exc_status := exc_status r; exc_reviewed_by := exc_reviewed_by
     r; exc_reviewed_at := exc_reviewed_at r; exc_review_comments := exc_review_comments
     r; exc_created_at := exc_created_at r; exc_updated_at := v |}.

Definition set_bal_total_allocated v (r : BalRow) : BalRow :=
  {| bal_id := bal_id r; bal_employee_id := bal_employee_id r; bal_leave_type_id :=
     bal_leave_type_id r; bal_year := bal_year r; bal_total_accrued :=
     bal_total_accrued r; bal_total_used := bal_total_used r; bal_balance :=
     bal_balance r; bal_total_allocated := v; bal_used := bal_used r; bal_pending :=
     bal_pending r; bal_updated_at := bal_updated_at r; bal_leave_type :=
     bal_leave_type r |}.

Definition set_bal_updated_at v (r : BalRow) : BalRow :=
  {| bal_id := bal_id r; bal_employee_id := bal_employee_id r; bal_leave_type_id :=
     bal_leave_type_id r; bal_year := bal_year r; bal_total_accrued :=
     bal_total_accrued r; bal_total_used := bal_total_used r; bal_balance :=
     bal_balance r; bal_total_allocated := bal_total_allocated r; bal_used := bal_used
     r; bal_pending := bal_pending r; bal_updated_at := v; bal_leave_type :=
     bal_leave_type r |}.

Definition set_lap_status v (r : LeaveRow) : LeaveRow :=
  {| lap_id := lap_id r; lap_employee_id := lap_employee_id r; lap_leave_type_id :=
     lap_leave_type_id r; lap_start_date := lap_start_date r; lap_end_date :=
     lap_end_date r; lap_total_days := lap_total_days r; lap_reason := lap_reason r;
     lap_status := v; lap_created_at := lap_created_at r |}.

Definition set_enc_status v (r : EncRow) : EncRow :=
  {| enc_id := enc_id r; enc_employee_id := enc_employee_id r; enc_leave_type_id :=
     enc_leave_type_id r; enc_days_to_encash := enc_days_to_encash r; enc_per_day_rate
     := enc_per_day_rate r; enc_total_amount := enc_total_amount r; enc_status := v;
     enc_reason := enc_reason r; enc_approved_by := enc_approved_by r; enc_approved_at
     := enc_approved_at r; enc_created_at := enc_created_at r; enc_updated_at :=
     enc_updated_at r |}.

Definition set_enc_approved_by v (r : EncRow) : EncRow :=
  {| enc_id := enc_id r; enc_employee_id := enc_employee_id r; enc_leave_type_id :=
     enc_leave_type_id r; enc_days_to_encash := enc_days_to_encash r; enc_per_day_rate
     := enc_per_day_rate r; enc_total_amount := enc_total_amount r; enc_status :=
     enc_status r; enc_reason := enc_reason r; enc_approved_by := v; enc_approved_at :=
     enc_approved_at r; enc_created_at := enc_created_at r; enc_updated_at :=
     enc_updated_at r |}.

Definition set_enc_approved_at v (r : EncRow) : EncRow :=
  {| enc_id := enc_id r; enc_employee_id := enc_employee_id r; enc_leave_type_id :=
     enc_leave_type_id r; enc_days_to_encash := enc_days_to_encash r; enc_per_day_rate
     := enc_per_day_rate r; enc_total_amount := enc_total_amount r; enc_status :=
     enc_status r; enc_reason := enc_reason r; enc_approved_by := enc_approved_by r;
     enc_approved_at := v; enc_created_at := enc_created_at r; enc_updated_at :=
     enc_updated_at r |}.

Definition set_enc_updated_at v (r : EncRow) : EncRow :=
  {| enc_id := enc_id r; enc_employee_id := enc_employee_id r; enc_leave_type_id :=
     enc_leave_type_id r; enc_days_to_encash := enc_days_to_encash r; enc_per_day_rate
     := enc_per_day_rate r; enc_total_amount := enc_total_amount r; enc_status :=
     enc_status r; enc_reason := enc_reason r; enc_approved_by := enc_approved_by r;
     enc_approved_at := enc_approved_at r; enc_created_at := enc_created_at r;
     enc_updated_at := v |}.

Definition set_reg_status v (r : RegRow) : RegRow :=
  {| reg_id := reg_id r; reg_employee_id := reg_employee_id r; reg_requested_check_in :=
     reg_requested_check_in r; reg_requested_check_out := reg_requested_check_out r;
     reg_reason := reg_reason r; reg_status := v; reg_created_at := reg_created_at r |}.

Definition set_odr_status v (r : OdRow) : OdRow :=
  {| odr_id := odr_id r; odr_employee_id := odr_employee_id r; odr_date := odr_date r;
     odr_reason := odr_reason r; odr_status := v; odr_created_at := odr_created_at r |}.

Definition set_wfh_status v (r : WfhRow) : WfhRow :=
  {| wfh_id := wfh_id r; wfh_employee_id := wfh_employee_id r; wfh_date := wfh_date r;
     wfh_reason := wfh_reason r; wfh_status := v; wfh_created_at := wfh_created_at r |}.

Definition set_exr_status v (r : ExitRow) : ExitRow :=
  {| exr_id := exr_id r; exr_employee_id := exr_employee_id r; exr_resignation_date :=
     exr_resignation_date r; exr_last_working_date := exr_last_working_date r;
     exr_reason := exr_reason r; exr_status := v; exr_created_at := exr_created_at r |}.

Definition set_hdt_status v (r : HdTicketRow) : HdTicketRow :=
  {| hdt_id := hdt_id r; hdt_ticket_number := hdt_ticket_number r; hdt_employee_id :=
     hdt_employee_id r; hdt_category_id := hdt_category_id r; hdt_subject := hdt_subject
     r; hdt_description := hdt_description r; hdt_priority := hdt_priority r; hdt_status
     := v; hdt_assigned_to := hdt_assigned_to r; hdt_resolved_at := hdt_resolved_at r;
     hdt_resolution_notes := hdt_resolution_notes r; hdt_created_at := hdt_created_at r;
     hdt_updated_at := hdt_updated_at r |}.

Definition set_hdt_assigned_to v (r : HdTicketRow) : HdTicketRow :=
  {| hdt_id := hdt_id r; hdt_ticket_number := hdt_ticket_number r; hdt_employee_id :=
     hdt_employee_id r; hdt_category_id := hdt_category_id r; hdt_subject := hdt_subject
     r; hdt_description := hdt_description r; hdt_priority := hdt_priority r; hdt_status
     := hdt_status r; hdt_assigned_to := v; hdt_resolved_at := hdt_resolved_at r;
     hdt_resolution_notes := hdt_resolution_notes r; hdt_created_at := hdt_created_at r;
     hdt_updated_at := hdt_updated_at r |}.

Definition set_hdt_resolved_at v (r : HdTicketRow) : HdTicketRow :=
  {| hdt_id := hdt_id r; hdt_ticket_number := hdt_ticket_number r; hdt_employee_id :=
     hdt_employee_id r; hdt_category_id := hdt_category_id r; hdt_subject := hdt_subject
     r; hdt_description := hdt_description r; hdt_priority := hdt_priority r; hdt_status
     := hdt_status r; hdt_assigned_to := hdt_assigned_to r; hdt_resolved_at := v;
     hdt_resolution_notes := hdt_resolution_notes r; hdt_created_at := hdt_created_at r;
     hdt_updated_at := hdt_updated_at r |}.

Definition set_hdt_resolution_notes v (r : HdTicketRow) : HdTicketRow :=
  {| hdt_id := hdt_id r; hdt_ticket_number := hdt_ticket_number r; hdt_employee_id :=
     hdt_employee_id r; hdt_category_id := hdt_category_id r; hdt_subject := hdt_subject
     r; hdt_description := hdt_description r; hdt_priority := hdt_priority r; hdt_status
     := hdt_status r; hdt_assigned_to := hdt_assigned_to r; hdt_resolved_at :=
     hdt_resolved_at r; hdt_resolution_notes := v; hdt_created_at := hdt_created_at r;
     hdt_updated_at := hdt_updated_at r |}.

Definition set_hdt_updated_at v (r : HdTicketRow) : HdTicketRow :=
  {| hdt_id := hdt_id r; hdt_ticket_number := hdt_ticket_number r; hdt_employee_id :=
     hdt_employee_id r; hdt_category_id := hdt_category_id r; hdt_subject := hdt_subject
     r; hdt_description := hdt_description r; hdt_priority := hdt_priority r; hdt_status
     := hdt_status r; hdt_assigned_to := hdt_assigned_to r; hdt_resolved_at :=
     hdt_resolved_at r; hdt_resolution_notes := hdt_resolution_notes r; hdt_created_at
     := hdt_created_at r; hdt_updated_at := v |}.

Definition set_emp_user_id v (r : EmpRow) : EmpRow :=
  {| emp_id := emp_id r; emp_user_id := v; emp_employee_id := emp_employee_id r;
     emp_first_name := emp_first_name r; emp_last_name := emp_last_name r;
     emp_department_id := emp_department_id r; emp_designation_id :=
     emp_designation_id r; emp_manager_id := emp_manager_id r; emp_status :=
     emp_status r; emp_joining_date := emp_joining_date r; emp_deleted_at :=
     emp_deleted_at r; emp_location_id := emp_location_id r; emp_work_phone :=
     emp_work_phone r; emp_employment_type := emp_employment_type r;
     emp_probation_end_date := emp_probation_end_date r; emp_confirmation_date :=
     emp_confirmation_date r; emp_notice_period_days := emp_notice_period_days r;
     emp_nationality := emp_nationality r; emp_created_at := emp_created_at r;
     emp_updated_at := emp_updated_at r; emp_reporting_manager_id :=
     emp_reporting_manager_id r |}.

Definition set_emp_first_name v (r : EmpRow) : EmpRow :=
  {| emp_id := emp_id r; emp_user_id := emp_user_id r; emp_employee_id :=
     emp_employee_id r; emp_first_name := v; emp_last_name := emp_last_name r;
     emp_department_id := emp_department_id r; emp_designation_id :=
     emp_designation_id r; emp_manager_id := emp_manager_id r; emp_status :=
     emp_status r; emp_joining_date := emp_joining_date r; emp_deleted_at :=
     emp_deleted_at r; emp_location_id := emp_location_id r; emp_work_phone :=
     emp_work_phone r; emp_employment_type := emp_employment_type r;
     emp_probation_end_date := emp_probation_end_date r; emp_confirmation_date :=
     emp_confirmation_date r; emp_notice_period_days := emp_notice_period_days r;
     emp_nationality := emp_nationality r; emp_created_at := emp_created_at r;
     emp_updated_at := emp_updated_at r; emp_reporting_manager_id :=
     emp_reporting_manager_id r |}.

Definition set_emp_last_name v (r : EmpRow) : EmpRow :=
  {| emp_id := emp_id r; emp_user_id := emp_user_id r; emp_employee_id :=
     emp_employee_id r; emp_first_name := emp_first_name r; emp_last_name := v;
     emp_department_id := emp_department_id r; emp_designation_id :=
     emp_designation_id r; emp_manager_id := emp_manager_id r; emp_status :=
     emp_status r; emp_joining_date := emp_joining_date r; emp_deleted_at :=
     emp_deleted_at r; emp_location_id := emp_location_id r; emp_work_phone :=
     emp_work_phone r; emp_employment_type := emp_employment_type r;
     emp_probation_end_date := emp_probation_end_date r; emp_confirmation_date :=
     emp_confirmation_date r; emp_notice_period_days := emp_notice_period_days r;
     emp_nationality := emp_nationality r; emp_created_at := emp_created_at r;
     emp_updated_at := emp_updated_at r; emp_reporting_manager_id :=
     emp_reporting_manager_id r |}.

Definition set_emp_department_id v (r : EmpRow) : EmpRow :=
  {| emp_id := emp_id r; emp_user_id := emp_user_id r; emp_employee_id :=
     emp_employee_id r; emp_first_name := emp_first_name r; emp_last_name :=
     emp_last_name r; emp_department_id := v; emp_designation_id := emp_designation_id
     r; emp_manager_id := emp_manager_id r; emp_status := emp_status r;
     emp_joining_date := emp_joining_date r; emp_deleted_at := emp_deleted_at r;
     emp_location_id := emp_location_id r; emp_work_phone := emp_work_phone r;
     emp_employment_type := emp_employment_type r; emp_probation_end_date :=
     emp_probation_end_date r; emp_confirmation_date := emp_confirmation_date r;
     emp_notice_period_days := emp_notice_period_days r; emp_nationality :=
     emp_nationality r; emp_created_at := emp_created_at r; emp_updated_at :=
     emp_updated_at r; emp_reporting_manager_id := emp_reporting_manager_id r |}.

Definition set_emp_designation_id v (r : EmpRow) : EmpRow :=
  {| emp_id := emp_id r; emp_user_id := emp_user_id r; emp_employee_id :=
     emp_employee_id r; emp_first_name := emp_first_name r; emp_last_name :=
     emp_last_name r; emp_department_id := emp_department_id r; emp_designation_id :=
     v; emp_manager_id := emp_manager_id r; emp_status := emp_status r;
     emp_joining_date := emp_joining_date r; emp_deleted_at := emp_deleted_at r;
     emp_location_id := emp_location_id r; emp_work_phone := emp_work_phone r;
     emp_employment_type := emp_employment_type r; emp_probation_end_date :=
     emp_probation_end_date r; emp_confirmation_date := emp_confirmation_date r;
     emp_notice_period_days := emp_notice_period_days r; emp_nationality :=
     emp_nationality r; emp_created_at := emp_created_at r; emp_updated_at :=
     emp_updated_at r; emp_reporting_manager_id := emp_reporting_manager_id r |}.

Definition set_emp_location_id v (r : EmpRow) : EmpRow :=
  {| emp_id := emp_id r; emp_user_id := emp_user_id r; emp_employee_id :=
     emp_employee_id r; emp_first_name := emp_first_name r; emp_last_name :=
     emp_last_name r; emp_department_id := emp_department_id r; emp_designation_id :=
     emp_designation_id r; emp_manager_id := emp_manager_id r; emp_status :=
     emp_status r; emp_joining_date := emp_joining_date r; emp_deleted_at :=
     emp_deleted_at r; emp_location_id := v; emp_work_phone := emp_work_phone r;
     emp_employment_type := emp_employment_type r; emp_probation_end_date :=
     emp_probation_end_date r; emp_confirmation_date := emp_confirmation_date r;
     emp_notice_period_days := emp_notice_period_days r; emp_nationality :=
     emp_nationality r; emp_created_at := emp_created_at r; emp_updated_at :=
     emp_updated_at r; emp_reporting_manager_id := emp_reporting_manager_id r |}.

Definition set_emp_manager_id v (r : EmpRow) : EmpRow :=
  {| emp_id := emp_id r; emp_user_id := emp_user_id r; emp_employee_id :=
     emp_employee_id r; emp_first_name := emp_first_name r; emp_last_name :=
     emp_last_name r; emp_department_id := emp_department_id r; emp_designation_id :=
     emp_designation_id r; emp_manager_id := v; emp_status := emp_status r;
     emp_joining_date := emp_joining_date r; emp_deleted_at := emp_deleted_at r;
     emp_location_id := emp_location_id r; emp_work_phone := emp_work_phone r;
     emp_employment_type := emp_employment_type r; emp_probation_end_date :=
     emp_probation_end_date r; emp_confirmation_date := emp_confirmation_date r;
     emp_notice_period_days := emp_notice_period_days r; emp_nationality :=
     emp_nationality r; emp_created_at := emp_created_at r; emp_updated_at :=
     emp_updated_at r; emp_reporting_manager_id := emp_reporting_manager_id r |}.

Definition set_emp_employment_type v (r : EmpRow) : EmpRow :=
  {| emp_id := emp_id r; emp_user_id := emp_user_id r; emp_employee_id :=
     emp_employee_id r; emp_first_name := emp_first_name r; emp_last_name :=
     emp_last_name r; emp_department_id := emp_department_id r; emp_designation_id :=
     emp_designation_id r; emp_manager_id := emp_manager_id r; emp_status :=
     emp_status r; emp_joining_date := emp_joining_date r; emp_deleted_at :=
     emp_deleted_at r; emp_location_id := emp_location_id r; emp_work_phone :=
     emp_work_phone r; emp_employment_type := v; emp_probation_end_date :=
     emp_probation_end_date r; emp_confirmation_date := emp_confirmation_date r;
     emp_notice_period_days := emp_notice_period_days r; emp_nationality :=
     emp_nationality r; emp_created_at := emp_created_at r; emp_updated_at :=
     emp_updated_at r; emp_reporting_manager_id := emp_reporting_manager_id r |}.

Definition set_emp_notice_period_days v (r : EmpRow) : EmpRow :=
  {| emp_id := emp_id r; emp_user_id := emp_user_id r; emp_employee_id :=
     emp_employee_id r; emp_first_name := emp_first_name r; emp_last_name :=
     emp_last_name r; emp_department_id := emp_department_id r; emp_designation_id :=
     emp_designation_id r; emp_manager_id := emp_manager_id r; emp_status :=
     emp_status r; emp_joining_date := emp_joining_date r; emp_deleted_at :=
     emp_deleted_at r; emp_location_id := emp_location_id r; emp_work_phone :=
     emp_work_phone r; emp_employment_type := emp_employment_type r;
     emp_probation_end_date := emp_probation_end_date r; emp_confirmation_date :=
     emp_confirmation_date r; emp_notice_period_days := v; emp_nationality :=
     emp_nationality r; emp_created_at := emp_created_at r; emp_updated_at :=
     emp_updated_at r; emp_reporting_manager_id := emp_reporting_manager_id r |}.

Definition set_emp_probation_end_date v (r : EmpRow) : EmpRow :=
  {| emp_id := emp_id r; emp_user_id := emp_user_id r; emp_employee_id :=
     emp_employee_id r; emp_first_name := emp_first_name r; emp_last_name :=
     emp_last_name r; emp_department_id := emp_department_id r; emp_designation_id :=
     emp_designation_id r; emp_manager_id := emp_manager_id r; emp_status :=
     emp_status r; emp_joining_date := emp_joining_date r; emp_deleted_at :=
     emp_deleted_at r; emp_location_id := emp_location_id r; emp_work_phone :=
     emp_work_phone r; emp_employment_type := emp_employment_type r;
     emp_probation_end_date := v; emp_confirmation_date := emp_confirmation_date r;
     emp_notice_period_days := emp_notice_period_days r; emp_nationality :=
     emp_nationality r; emp_created_at := emp_created_at r; emp_updated_at :=
     emp_updated_at r; emp_reporting_manager_id := emp_reporting_manager_id r |}.

Definition set_emp_status v (r : EmpRow) : EmpRow :=
  {| emp_id := emp_id r; emp_user_id := emp_user_id r; emp_employee_id :=
     emp_employee_id r; emp_first_name := emp_first_name r; emp_last_name :=
     emp_last_name r; emp_department_id := emp_department_id r; emp_designation_id :=
     emp_designation_id r; emp_manager_id := emp_manager_id r; emp_status := v;
     emp_joining_date := emp_joining_date r; emp_deleted_at := emp_deleted_at r;
     emp_location_id := emp_location_id r; emp_work_phone := emp_work_phone r;
     emp_employment_type := emp_employment_type r; emp_probation_end_date :=
     emp_probation_end_date r; emp_confirmation_date := emp_confirmation_date r;
     emp_notice_period_days := emp_notice_period_days r; emp_nationality :=
     emp_nationality r; emp_created_at := emp_created_at r; emp_updated_at :=
     emp_updated_at r; emp_reporting_manager_id := emp_reporting_manager_id r |}.

Definition set_emp_updated_at v (r : EmpRow) : EmpRow :=
  {| emp_id := emp_id r; emp_user_id := emp_user_id r; emp_employee_id :=
     emp_employee_id r; emp_first_name := emp_first_name r; emp_last_name :=
     emp_last_name r; emp_department_id := emp_department_id r; emp_designation_id :=
     emp_designation_id r; emp_manager_id := emp_manager_id r; emp_status :=
     emp_status r; emp_joining_date := emp_joining_date r; emp_deleted_at :=
     emp_deleted_at r; emp_location_id := emp_location_id r; emp_work_phone :=
     emp_work_phone r; emp_employment_type := emp_employment_type r;
     emp_probation_end_date := emp_probation_end_date r; emp_confirmation_date :=
     emp_confirmation_date r; emp_notice_period_days := emp_notice_period_days r;
     emp_nationality := emp_nationality r; emp_created_at := emp_created_at r;
     emp_updated_at := v; emp_reporting_manager_id := emp_reporting_manager_id r |}.

Definition set_imb_valid_rows v (r : BatchRow) : BatchRow :=
  {| imb_id := imb_id r; imb_organization_id := imb_organization_id r; imb_user_id :=
     imb_user_id r; imb_import_type := imb_import_type r; imb_total_rows :=
     imb_total_rows r; imb_valid_rows := v; imb_error_rows := imb_error_rows r;
     imb_status := imb_status r; imb_created_at := imb_created_at r |}.

Definition set_imb_error_rows v (r : BatchRow) : BatchRow :=
  {| imb_id := imb_id r; imb_organization_id := imb_organization_id r; imb_user_id :=
     imb_user_id r; imb_import_type := imb_import_type r; imb_total_rows :=
     imb_total_rows r; imb_valid_rows := imb_valid_rows r; imb_error_rows := v;
     imb_status := imb_status r; imb_created_at := imb_created_at r |}.

Definition set_imb_status v (r : BatchRow) : BatchRow :=
  {| imb_id := imb_id r; imb_organization_id := imb_organization_id r; imb_user_id :=
     imb_user_id r; imb_import_type := imb_import_type r; imb_total_rows :=
     imb_total_rows r; imb_valid_rows := imb_valid_rows r; imb_error_rows :=
     imb_error_rows r; imb_status := v; imb_created_at := imb_created_at r |}.

Definition set_imr_status v (r : ImpRow) : ImpRow :=
  {| imr_id := imr_id r; imr_batch_id := imr_batch_id r; imr_row_number :=
     imr_row_number r; imr_raw_data := imr_raw_data r; imr_status := v;
     imr_error_message := imr_error_message r; imr_created_employee_id :=
     imr_created_employee_id r |}.

Definition set_imr_error_message v (r : ImpRow) : ImpRow :=
  {| imr_id := imr_id r; imr_batch_id := imr_batch_id r; imr_row_number :=
     imr_row_number r; imr_raw_data := imr_raw_data r; imr_status := imr_status r;
     imr_error_message := v; imr_created_employee_id := imr_created_employee_id r |}.

Definition set_imr_created_employee_id v (r : ImpRow) : ImpRow :=
  {| imr_id := imr_id r; imr_batch_id := imr_batch_id r; imr_row_number :=
     imr_row_number r; imr_raw_data := imr_raw_data r; imr_status := imr_status r;
     imr_error_message := imr_error_message r; imr_created_employee_id := v |}.

Definition set_org_name v (r : OrgRow) : OrgRow :=
  {| org_id := org_id r; org_name := v; org_code := org_code r |}.

Definition set_dep_name v (r : DeptRow) : DeptRow :=
  {| dep_id := dep_id r; dep_name := v; dep_code := dep_code r; dep_description :=
     dep_description r; dep_organization_id := dep_organization_id r |}.


(** ** Queries shared by the components *)

(** SELECT id::text FROM employees WHERE user_id::text = $1 OR id::text = $1 LIMIT 1 *)
Definition is_caller (userID : string) (e : EmpRow) : bool :=
  opt_is (emp_user_id e) userID || (emp_id e =?s userID).

Definition caller_employee (userID : string) : stmt Database string :=
  select_row (fun d => emp_id <$> List.find (is_caller userID) (tget employees d)).

(** SELECT id::text FROM employees WHERE user_id::text = $1 LIMIT 1 *)
Definition employee_of_user (userID : string) : stmt Database string :=
  select_row (fun d => emp_id <$> List.find (fun e => opt_is (emp_user_id e) userID) (tget employees d)).

(** SELECT id::text FROM employees LIMIT 1 *)
Definition any_employee : stmt Database string :=
  select_row (fun d => emp_id <$> head (tget employees d)).

(** SELECT id FROM organizations LIMIT 1 *)
Definition first_organization : stmt Database string :=
  select_row (fun d => org_id <$> head (tget organizations d)).

(** Foreign keys: [Some] error when no row of the referenced table has the key. *)
Definition ref_user (id : string) (d : Database) : bool :=
  existsb (fun u => usr_id u =?s id) (tget users d).
Definition ref_employee (id : string) (d : Database) : bool :=
  existsb (fun e => emp_id e =?s id) (tget employees d).

Definition fk_error : string := "violates foreign key constraint".
Definition unique_error : string := "duplicate key value violates unique constraint".

(** [first_name || ' ' || last_name] *)
Definition full_name (e : EmpRow) : string := emp_first_name e +:+ " " +:+ emp_last_name e.
