(* ===== verification/Calendar.v ===== *)
(** * Dates: the Gregorian calendar of [time] and of PostgreSQL's DATE

    A date is the number of days since 1970-01-01. [civil] and [days_of] convert
    to and from (year, month, day); [days_of] is proved a left inverse of [civil].
    [add_date] is [time.Time.AddDate]. *)

From S2P Require Import Prelude Float64 Go.

Definition era_days : Z := 146097.

(** (year of era, month, day) of a day of the era that starts on 0000-03-01; the
    year counts from March. *)
Definition civil_era (doe : Z) : Z * Z * Z :=
  let yoe := (doe - doe / 1460 + doe / 36524 - doe / 146096) / 365 in
  let doy := doe - (365 * yoe + yoe / 4 - yoe / 100) in
  let mp := (5 * doy + 2) / 153 in
  let d := doy - (153 * mp + 2) / 5 + 1 in
  let m := if mp <? 10 then mp + 3 else mp - 9 in
  (yoe, m, d).

Definition civil (z : Z) : Z * Z * Z :=
  let z' := z + 719468 in
  let '(yoe, m, d) := civil_era (z' mod era_days) in
  (yoe + 400 * (z' / era_days) + (if m <=? 2 then 1 else 0), m, d).

Definition days_of_era (yoe m d : Z) : Z :=
  let doy := (153 * (m + (if 2 <? m then -3 else 9)) + 2) / 5 + d - 1 in
  yoe * 365 + yoe / 4 - yoe / 100 + doy.

Definition days_of (y m d : Z) : Z :=
  let y' := y - (if m <=? 2 then 1 else 0) in
  (y' / 400) * era_days + days_of_era (y' mod 400) m d - 719468.

Definition year_of (z : Z) : Z := fst (fst (civil z)).
Definition month_of (z : Z) : Z := snd (fst (civil z)).
Definition mday_of (z : Z) : Z := snd (civil z).

(** 0 is Sunday, 6 Saturday. *)
Definition weekday (z : Z) : Z := (z + 4) mod 7.

(** [AddDate(y, m, d)]: month overflow carries into the year, day overflow into
    the following months. *)
Definition add_date (z y m d : Z) : Z :=
  let '(Y, M, D) := civil z in
  let M' := M - 1 + m in
  days_of (Y + y + M' / 12) (M' mod 12 + 1) (D + d).

(** ** The calendar's rules *)

Definition is_leap (y : Z) : bool :=
  (y mod 4 =? 0) && (negb (y mod 100 =? 0) || (y mod 400 =? 0)).

Definition month_days (y m : Z) : Z :=
  if m =? 2 then (if is_leap y then 29 else 28)
  else if (m =? 4) || (m =? 6) || (m =? 9) || (m =? 11) then 30 else 31.

Ltac zdiv := Z.to_euclidean_division_equations; lia.

Lemma yoe_range doe yoe doy : 0 <= doe < 146097 ->
  yoe = (doe - doe / 1460 + doe / 36524 - doe / 146096) / 365 ->
  doy = doe - (365 * yoe + yoe / 4 - yoe / 100) -> 0 <= yoe < 400 /\ 0 <= doy <= 366.
Proof. intros H -> ->. zdiv. Qed.

Lemma mp_range doy mp : 0 <= doy <= 366 -> mp = (5 * doy + 2) / 153 ->
  0 <= mp <= 11 /\ 0 <= doy - (153 * mp + 2) / 5 <= 30.
Proof. intros H ->. zdiv. Qed.

Lemma era_facts doe : 0 <= doe < era_days ->
  let '(yoe, m, d) := civil_era doe in
  0 <= yoe < 400 /\ 1 <= m <= 12 /\ 1 <= d <= 31 /\ days_of_era yoe m d = doe.
Proof.
  intros H. unfold era_days in H. unfold civil_era.
  remember ((doe - _ + _ - _) / 365) as yoe eqn:Ey. remember (doe - (365 * yoe + _ - _)) as doy eqn:Ed.
  pose proof (yoe_range _ _ _ H Ey Ed) as [Hy Hd].
  remember ((5 * doy + 2) / 153) as mp eqn:Em. pose proof (mp_range _ _ Hd Em) as [Hm Hdd].
  clear Ey Em. unfold days_of_era.
  destruct (Z.ltb_spec mp 10).
  - split_and!; try lia. rewrite (proj2 (Z.ltb_lt 2 (mp + 3))) by lia.
    replace (mp + 3 + -3) with mp by lia. lia.
  - split_and!; try lia. rewrite (proj2 (Z.ltb_ge 2 (mp - 9))) by lia.
    replace (mp - 9 + 9) with mp by lia. lia.
Qed.

(** Every day has a date, with month and day of month in range, and converting
    the date back gives the day. *)
Lemma civil_facts z : let '(y, m, d) := civil z in
  1 <= m <= 12 /\ 1 <= d <= 31 /\ days_of y m d = z.
Proof.
  unfold civil. pose proof (Z.mod_pos_bound (z + 719468) era_days ltac:(done)) as Hb.
  pose proof (era_facts _ Hb) as Hf.
  destruct (civil_era _) as [[yoe m] d] eqn:E.
  destruct Hf as (Hyoe & Hm & Hd & Hdays). split_and!; try lia.
  unfold days_of.
  replace (yoe + 400 * ((z + 719468) / era_days) + (if m <=? 2 then 1 else 0)
           - (if m <=? 2 then 1 else 0))
    with (yoe + ((z + 719468) / era_days) * 400) by lia.
  rewrite Z.div_add, Z.mod_add by lia.
  rewrite Z.div_small, Z.mod_small by lia. rewrite Hdays.
  pose proof (Z.div_mod (z + 719468) era_days) as Hdm. unfold era_days in *. lia.
Qed.

Lemma days_of_day y m d k : days_of y m (d + k) = days_of y m d + k.
Proof. unfold days_of, days_of_era. lia. Qed.

(** [AddDate(0, 0, k)] moves by [k] days. *)
Lemma add_days z k : add_date z 0 0 k = z + k.
Proof.
  unfold add_date. pose proof (civil_facts z) as Hz.
  destruct (civil z) as [[y m] d]. destruct Hz as (Hm & Hd & Hz).
  replace (m - 1 + 0) with (m - 1) by lia.
  rewrite Z.div_small, Z.mod_small by lia.
  replace (y + 0 + 0) with y by lia. replace (m - 1 + 1) with m by lia.
  rewrite days_of_day. lia.
Qed.

Lemma weekday_range z : 0 <= weekday z < 7.
Proof. unfold weekday. apply Z.mod_pos_bound. lia. Qed.

Lemma weekday_period z k : weekday (z + 7 * k) = weekday z.
Proof.
  unfold weekday. replace (z + 7 * k + 4) with (z + 4 + k * 7) by lia. apply Z.mod_add. lia.
Qed.

(** ** Text *)

(** [to_char(d, 'YYYY-MM-DD')], [Format("2006-01-02")] *)
Definition date_text (z : Z) : string :=
  let '(y, m, d) := civil z in pad0 4 y +:+ "-" +:+ pad0 2 m +:+ "-" +:+ pad0 2 d.

Example date_ex : civil (days_of 2026 9 4) = (2026, 9, 4) /\ weekday (days_of 2026 9 4) = 5
  /\ civil (add_date (days_of 2025 11 30) 0 3 0) = (2026, 3, 2).
Proof. by vm_compute. Qed.

(** Microseconds. *)
Definition day_us : Z := 86400 * 1000000.
Definition date_of_time (t : Z) : Z := t / day_us.

(** [Format("2006-01-02 15:04:05")], in UTC *)
Definition datetime_text (t : Z) : string :=
  let s := (t mod day_us) / 1000000 in
  date_text (date_of_time t) +:+ " " +:+ pad0 2 (s / 3600) +:+ ":" +:+ pad0 2 (s / 60 mod 60)
  +:+ ":" +:+ pad0 2 (s mod 60).

Example datetime_ex : datetime_text (days_of 2026 9 4 * day_us + 45296 * 1000000) = "2026-09-04 12:34:56".
Proof. by vm_compute. Qed.

(** [to_char(t, 'YYYY-MM-DD"T"HH24:MI:SS"Z"')], in UTC *)
Definition iso_text (t : Z) : string :=
  let s := (t mod day_us) / 1000000 in
  date_text (date_of_time t) +:+ "T" +:+ pad0 2 (s / 3600) +:+ ":" +:+ pad0 2 (s / 60 mod 60)
  +:+ ":" +:+ pad0 2 (s mod 60) +:+ "Z".

(** [time.Parse("2006-01-02", s)]: four digits, two digits, two digits, a date that exists. *)
Definition parse_day (s : string) : option Z :=
  let num i n := digits (String.substring i n s) 0 in
  if negb (Nat.eqb (String.length s) 10) || negb (String.substring 4 1 s =?s "-")
     || negb (String.substring 7 1 s =?s "-") then None
  else y ← num 0%nat 4%nat; m ← num 5%nat 2%nat; d ← num 8%nat 2%nat;
       if (1 <=? m) && (m <=? 12) && (1 <=? d) && (d <=? month_days y m) then Some (days_of y m d) else None.

Example parse_day_ex : date_text <$> parse_day "2026-09-04" = Some "2026-09-04"
  /\ parse_day "2026-02-30" = None /\ parse_day "04.09.2026" = None.
Proof. by vm_compute. Qed.
