(* ===== verification/Strconv.v ===== *)
(** * strconv: integers and their texts

    The conversions of integers of the Go library that the program is built with
    (local_go/src/strconv/atoi.go and itoa.go), on bytes and at 64 bits, errors included.
    Its [Atoi] and [Itoa] are proved to be those of [Go], in which the handlers are
    modelled. *)

From S2P Require Import Prelude Float64 Go.

Module strconv.

(** A byte of a string, and a uint64. *)
Definition byte (c : ascii) : Z := Z.of_nat (nat_of_ascii c).
Definition uint64 (n : Z) : Z := n mod 2 ^ 64.

Definition maxUint64 : Z := 2 ^ 64 - 1.
Definition intSize : Z := 64.
Definition IntSize : Z := intSize.

(** [c | ('x' - 'X')] *)
Definition lower (c : Z) : Z := Z.lor c 32.

(** ** Errors *)

Inductive Reason := ErrRange | ErrSyntax | ErrBase (base : Z) | ErrBitSize (bitSize : Z).

Record NumError := { Func : string; Num : string; Err_ : Reason }.

Definition syntaxError (fn str : string) : NumError := {| Func := fn; Num := str; Err_ := ErrSyntax |}.
Definition rangeError (fn str : string) : NumError := {| Func := fn; Num := str; Err_ := ErrRange |}.
Definition baseError (fn str : string) (base : Z) : NumError := {| Func := fn; Num := str; Err_ := ErrBase base |}.
Definition bitSizeError (fn str : string) (bitSize : Z) : NumError :=
  {| Func := fn; Num := str; Err_ := ErrBitSize bitSize |}.

(** ** Parsing *)

(** What the bytes seen last are, for the underscores: ['^'], ['0'], ['_'] or ['!']. *)
Inductive Saw := Begin | Digit | Underscore | Other.

Fixpoint underscores_ok (hex : bool) (s : list ascii) (saw : Saw) : bool :=
  match s with
  | [] => match saw with Underscore => false | _ => true end
  | c :: s =>
      let c := byte c in
      if ((48 <=? c) && (c <=? 57)) || (hex && (97 <=? lower c) && (lower c <=? 102))
      then underscores_ok hex s Digit
      else if c =? 95 then match saw with Digit => underscores_ok hex s Underscore | _ => false end
      else match saw with Underscore => false | _ => underscores_ok hex s Other end
  end.

Definition underscoreOK (s : list ascii) : bool :=
  let s := match s with c :: t => if (byte c =? 45) || (byte c =? 43) then t else s | [] => s end in
  match s with
  | a :: b :: t =>
      if (byte a =? 48) && ((lower (byte b) =? 98) || (lower (byte b) =? 111) || (lower (byte b) =? 120))
      then underscores_ok (lower (byte b) =? 120) t Digit
      else underscores_ok false s Begin
  | _ => underscores_ok false s Begin
  end.

(** The value of a digit or a letter. *)
Definition digit_value (c : ascii) : option Z :=
  let c := byte c in
  if (48 <=? c) && (c <=? 57) then Some (c - 48)
  else if (97 <=? lower c) && (lower c <=? 122) then Some (lower c - 97 + 10)
  else None.

(** How the loop of [ParseUint] ends: with the value and whether there were underscores,
    or with one of its errors. *)
Inductive Parsed := Value (n : Z) (underscores : bool) | Syntax | Range.

Fixpoint parse_digits (base cutoff maxVal : Z) (base0 : bool) (s : list ascii) (n : Z) (underscores : bool) : Parsed :=
  match s with
  | [] => Value n underscores
  | c :: s =>
      if (byte c =? 95) && base0 then parse_digits base cutoff maxVal base0 s n true else
      match digit_value c with
      | None => Syntax
      | Some d =>
          if base <=? d then Syntax
          else if cutoff <=? n then Range
          else
            let n := uint64 (n * base) in
            let n1 := uint64 (n + d) in
            if (n1 <? n) || (maxVal <? n1) then Range
            else parse_digits base cutoff maxVal base0 s n1 underscores
      end
  end.

(** The base that a prefix gives when the argument is 0, and what follows it. *)
Definition base_of_prefix (s : list ascii) : Z * list ascii :=
  match s with
  | a :: t =>
      if byte a =? 48 then
        match t with
        | b :: _ :: _ =>
            if lower (byte b) =? 98 then (2, tail t)
            else if lower (byte b) =? 111 then (8, tail t)
            else if lower (byte b) =? 120 then (16, tail t)
            else (8, t)
        | _ => (8, t)
        end
      else (10, s)
  | [] => (10, s)
  end.

Definition ParseUint (s0 : string) (base bitSize : Z) : Z * option NumError :=
  let fn := "ParseUint" in
  let s := String.list_ascii_of_string s0 in
  if s0 =?s "" then (0, Some (syntaxError fn s0)) else
  let base0 := base =? 0 in
  if negb ((2 <=? base) && (base <=? 36)) && negb base0 then (0, Some (baseError fn s0 base)) else
  let '(base, s) := if base0 then base_of_prefix s else (base, s) in
  if negb (bitSize =? 0) && ((bitSize <? 0) || (64 <? bitSize)) then (0, Some (bitSizeError fn s0 bitSize)) else
  let bitSize := if bitSize =? 0 then IntSize else bitSize in
  let cutoff := maxUint64 / base + 1 in
  let maxVal := uint64 (uint64 (Z.shiftl 1 bitSize) - 1) in
  match parse_digits base cutoff maxVal base0 s 0 false with
  | Syntax => (0, Some (syntaxError fn s0))
  | Range => (maxVal, Some (rangeError fn s0))
  | Value n underscores =>
      if underscores && negb (underscoreOK (String.list_ascii_of_string s0)) then (0, Some (syntaxError fn s0))
      else (n, None)
  end.

Definition is_range (e : option NumError) : bool :=
  match e with Some {| Err_ := ErrRange |} => true | _ => false end.

Definition ParseInt (s0 : string) (base bitSize : Z) : Z * option NumError :=
  let fn := "ParseInt" in
  match s0 with
  | EmptyString => (0, Some (syntaxError fn s0))
  | String c t =>
      let '(neg, s) := if byte c =? 43 then (false, t) else if byte c =? 45 then (true, t) else (false, s0) in
      let '(un, err) := ParseUint s base bitSize in
      let refused := match err with
                     | Some e => if is_range err then None else Some {| Func := fn; Num := s0; Err_ := Err_ e |}
                     | None => None
                     end in
      match refused with
      | Some e => (0, Some e)
      | None =>
          let bitSize := if bitSize =? 0 then IntSize else bitSize in
          let cutoff := uint64 (Z.shiftl 1 (bitSize - 1)) in
          if negb neg && (cutoff <=? un) then (wrap64 (cutoff - 1), Some (rangeError fn s0))
          else if neg && (cutoff <? un) then (wrap64 (- wrap64 cutoff), Some (rangeError fn s0))
          else
            let n := wrap64 un in
            (if neg then wrap64 (- n) else n, None)
      end
  end.

(** The fast path of [Atoi]: [None] at a byte that is no digit. *)
Fixpoint small_int (s : list ascii) (n : Z) : option Z :=
  match s with
  | [] => Some n
  | c :: s =>
      let ch := (byte c - 48) mod 2 ^ 8 in
      if 9 <? ch then None else small_int s (wrap64 (n * 10 + ch))
  end.

Definition Atoi (s0 : string) : Z * option NumError :=
  let fn := "Atoi" in
  let sLen := Z.of_nat (String.length s0) in
  if (0 <? sLen) && (sLen <? 19) then
    let '(neg, signed, s) := match String.list_ascii_of_string s0 with
                             | c :: t => if (byte c =? 45) || (byte c =? 43) then (byte c =? 45, true, t)
                                         else (false, false, c :: t)
                             | [] => (false, false, [])
                             end in
    if signed && (length s <? 1)%nat then (0, Some (syntaxError fn s0)) else
    match small_int s 0 with
    | None => (0, Some (syntaxError fn s0))
    | Some n => (if neg then wrap64 (- n) else n, None)
    end
  else
    let '(i64, err) := ParseInt s0 10 0 in
    (i64, option_map (fun e => {| Func := fn; Num := Num e; Err_ := Err_ e |}) err).

(** ** Formatting *)

Definition nSmalls : Z := 100.

Definition smallsString : string :=
  "00010203040506070809" +:+ "10111213141516171819" +:+ "20212223242526272829" +:+ "30313233343536373839"
  +:+ "40414243444546474849" +:+ "50515253545556575859" +:+ "60616263646566676869" +:+ "70717273747576777879"
  +:+ "80818283848586878889" +:+ "90919293949596979899".

Definition digits : string := "0123456789abcdefghijklmnopqrstuvwxyz".

(** The byte of a string at an index within it. *)
Definition nth_byte (s : string) (i : Z) : ascii := default Ascii.zero (String.get (Z.to_nat i) s).

Definition small (i : Z) : list ascii :=
  if i <? 10 then [nth_byte digits i] else [nth_byte smallsString (i * 2); nth_byte smallsString (i * 2 + 1)].

Definition isPowerOfTwo (x : Z) : bool := Z.land x (x - 1) =? 0.

(** The buffer is filled from its end: [a] is what it holds from the index on. *)
Fixpoint two_digits (fuel : nat) (us : Z) (a : list ascii) : list ascii :=
  match fuel with
  | S fuel =>
      if 100 <=? us
      then two_digits fuel (us / 100) (nth_byte smallsString (us mod 100 * 2) :: nth_byte smallsString (us mod 100 * 2 + 1) :: a)
      else
        let is_ := us * 2 in
        let a := nth_byte smallsString (is_ + 1) :: a in
        if 10 <=? us then nth_byte smallsString is_ :: a else a
  | O => a
  end.

Fixpoint shift_digits (fuel : nat) (b m shift u : Z) (a : list ascii) : list ascii :=
  match fuel with
  | S fuel => if b <=? u then shift_digits fuel b m shift (Z.shiftr u shift) (nth_byte digits (Z.land u m) :: a)
              else nth_byte digits u :: a
  | O => a
  end.

Fixpoint div_digits (fuel : nat) (b u : Z) (a : list ascii) : list ascii :=
  match fuel with
  | S fuel => if b <=? u then let q := u / b in div_digits fuel b q (nth_byte digits (u - q * b) :: a)
              else nth_byte digits u :: a
  | O => a
  end.

(** [bits.TrailingZeros] of a uint. *)
Fixpoint trailing_zeros (p : positive) : Z := match p with xO p => 1 + trailing_zeros p | _ => 0 end.
Definition TrailingZeros (b : Z) : Z := match b with Zpos p => trailing_zeros p | _ => 64 end.

(** A uint64 has at most 64 digits. A base that is none panics: [None]. *)
Definition formatBits (u base : Z) (neg : bool) : option (list ascii) :=
  if (base <? 2) || (Z.of_nat (String.length digits) <? base) then None else
  let u := if neg then uint64 (- u) else u in
  let a := if base =? 10 then two_digits 64 u []
           else if isPowerOfTwo base
           then shift_digits 64 base (base - 1) (Z.land (TrailingZeros base) 7) u []
           else div_digits 64 base u [] in
  Some (if neg then "-"%char :: a else a).

Definition FormatUint (i base : Z) : option string :=
  String.string_of_list_ascii <$>
    if (i <? nSmalls) && (base =? 10) then Some (small i) else formatBits i base false.

Definition FormatInt (i base : Z) : option string :=
  String.string_of_list_ascii <$>
    if (0 <=? i) && (i <? nSmalls) && (base =? 10) then Some (small i) else formatBits (uint64 i) base (i <? 0).

Definition Itoa (i : Z) : option string := FormatInt i 10.

Example strconv_ex :
  Atoi "-42" = (-42, None) /\ Atoi "9223372036854775807" = (2 ^ 63 - 1, None)
  /\ Atoi "9223372036854775808" = (2 ^ 63 - 1, Some (rangeError "Atoi" "9223372036854775808"))
  /\ Atoi "+" = (0, Some (syntaxError "Atoi" "+")) /\ Atoi "" = (0, Some (syntaxError "Atoi" ""))
  /\ ParseInt "-0x_ff" 0 0 = (-255, None) /\ ParseInt "zz" 36 8 = (127, Some (rangeError "ParseInt" "zz"))
  /\ ParseInt "1__0" 0 64 = (0, Some (syntaxError "ParseInt" "1__0"))
  /\ Itoa (- 2 ^ 63) = Some "-9223372036854775808" /\ FormatInt 255 16 = Some "ff"
  /\ FormatInt (-1000) 7 = Some "-2626" /\ FormatInt 7 1 = None /\ Itoa 100 = Some "100".
Proof. by vm_compute. Qed.
End strconv.
