(* ===== verification/StrconvProps.v ===== *)
(** * strconv: what the conversions of integers do

    Parsing gives the value of the digits, or the nearest integer and an error; formatting
    writes digits that parse back, in every base; and both are the functions that the
    handlers are modelled with. *)

From S2P Require Import Prelude Float64 Go Calendar Strconv.

Import strconv.

(** ** Digits *)

(** The number that digits stand for, after [n]. *)
Fixpoint number (base : Z) (s : list ascii) (n : Z) : option Z :=
  match s with
  | [] => Some n
  | c :: s => d ← digit_value c; if base <=? d then None else number base s (n * base + d)
  end.

Lemma digit_value_range c d : digit_value c = Some d -> 0 <= d < 36.
Proof.
  assert (H : forallb (fun n => match digit_value (ascii_of_nat n) with Some d => (0 <=? d) && (d <? 36) | None => true end) (seq 0 256) = true)
    by by vm_compute.
  rewrite <- (ascii_nat_embedding c). intros Hd. rewrite forallb_forall in H. specialize (H (nat_of_ascii c)).
  rewrite Hd in H. pose proof (nat_ascii_bounded c). assert (Hin : In (nat_of_ascii c) (seq 0 256)) by (apply in_seq; lia).
  specialize (H Hin). bool_prop. lia.
Qed.

Lemma number_app base s t n : number base (s ++ t) n = m ← number base s n; number base t m.
Proof.
  revert n. induction s as [|c s IH]; intros n; simpl; [done|].
  destruct (digit_value c); simpl; [|done]. destruct (base <=? _); [done|]. apply IH.
Qed.

Lemma number_ge base s n v : 1 <= base -> 0 <= n -> number base s n = Some v -> n <= v.
Proof.
  intros Hb. revert n. induction s as [|c s IH]; intros n Hn; simpl; [intros [= ->]; lia|].
  destruct (digit_value c) as [d|] eqn:Hd; simpl; [|done]. destruct (base <=? d); [done|].
  apply digit_value_range in Hd. intros H. etransitivity; [|apply (IH (n * base + d)); [nia|done]]. nia.
Qed.

(** ** Parsing *)

(** A result without an error. *)
Definition result_of (r : Z * option NumError) : option Z := match r with (n, None) => Some n | _ => None end.

Lemma parse_digits_spec base maxVal s n u : 2 <= base <= 36 -> 0 <= n <= maxVal -> maxVal <= maxUint64 ->
  let p := parse_digits base (maxUint64 / base + 1) maxVal false s n u in
  match number base s n with
  | Some v => p = if v <=? maxVal then Value v u else Range
  | None => p = Syntax \/ p = Range
  end.
Proof.
  intros Hb. revert n. induction s as [|c s IH]; intros n Hn Hm; simpl; [rewrite (proj2 (Z.leb_le _ _)) by lia; done|].
  rewrite andb_false_r. destruct (digit_value c) as [d|] eqn:Hd; simpl; [|by left].
  apply digit_value_range in Hd. destruct (Z.leb_spec base d) as [Hbd|Hbd]; [by left|].
  pose proof (Z.mul_div_le maxUint64 base ltac:(lia)) as Hle. pose proof (Z.mul_succ_div_gt maxUint64 base ltac:(lia)) as Hgt.
  assert (Hover : maxVal < n * base + d ->
    match number base s (n * base + d) with Some v => Range = (if v <=? maxVal then Value v u else Range) | None => Range = Syntax \/ Range = Range end).
  { intros H. destruct (number base s (n * base + d)) as [v|] eqn:Hv; [|by right].
    apply number_ge in Hv; [|lia|nia]. by rewrite (proj2 (Z.leb_gt _ _)) by lia. }
  destruct (Z.leb_spec (maxUint64 / base + 1) n) as [Hc|Hc]; [apply Hover; nia|].
  assert (Hnb : 0 <= n * base <= maxUint64) by nia. unfold uint64, maxUint64 in *.
  rewrite (Z.mod_small (n * base)) by lia.
  destruct (Z.ltb_spec ((n * base + d) mod 2 ^ 64) (n * base)) as [Hw|Hw]; simpl.
  - apply Hover. destruct (Z.ltb_spec (n * base + d) (2 ^ 64)); [|lia]. rewrite Z.mod_small in Hw by lia. lia.
  - destruct (Z.ltb_spec (n * base + d) (2 ^ 64)) as [Hs|Hs].
    + rewrite Z.mod_small by lia. destruct (Z.ltb_spec maxVal (n * base + d)); [by apply Hover|]. apply IH; lia.
    + exfalso. rewrite <- (Z.mod_add _ (-1)), Z.mod_small in Hw by lia. lia.
Qed.

Definition width (bitSize : Z) : Z := if bitSize =? 0 then IntSize else bitSize.

Lemma ParseUint_spec s base bitSize : 2 <= base <= 36 -> 0 <= bitSize <= 64 -> s <> "" ->
  let max := 2 ^ width bitSize - 1 in
  match number base (String.list_ascii_of_string s) 0 with
  | Some v => ParseUint s base bitSize = if v <=? max then (v, None) else (max, Some (rangeError "ParseUint" s))
  | None => exists n e, ParseUint s base bitSize = (n, Some e)
      /\ (e = syntaxError "ParseUint" s \/ e = rangeError "ParseUint" s /\ n = max)
  end.
Proof.
  intros Hb Hw Hs max.
  assert (Hwidth : 1 <= width bitSize <= 64) by (unfold width, IntSize, intSize; destruct (Z.eqb_spec bitSize 0); lia).
  assert (Hmax : 0 <= max <= maxUint64).
  { unfold max, maxUint64. pose proof (Z.pow_le_mono_r 2 (width bitSize) 64 ltac:(lia) ltac:(lia)).
    pose proof (Z.pow_le_mono_r 2 0 (width bitSize) ltac:(lia) ltac:(lia)). lia. }
  unfold ParseUint. rewrite (proj2 (String.eqb_neq _ _) Hs), (proj2 (Z.eqb_neq base 0)) by lia.
  rewrite (proj2 (Z.leb_le 2 base)), (proj2 (Z.leb_le base 36)) by lia. cbn [andb negb].
  rewrite (proj2 (Z.ltb_ge bitSize 0)), (proj2 (Z.ltb_ge 64 bitSize)), andb_false_r by lia. fold (width bitSize). cbv zeta.
  assert (Hval : uint64 (uint64 (Z.shiftl 1 (width bitSize)) - 1) = max).
  { unfold uint64. rewrite Z.shiftl_1_l, Zminus_mod_idemp_l. by apply Z.mod_small; unfold max, maxUint64 in *; lia. }
  rewrite Hval. pose proof (parse_digits_spec base max (String.list_ascii_of_string s) 0 false Hb ltac:(lia) ltac:(lia)) as Hp.
  cbv zeta in Hp. destruct (number base _ 0) as [v|].
  - rewrite Hp. by destruct (v <=? max).
  - destruct Hp as [-> | ->]; eexists _, _; (split; [done|]); auto.
Qed.

(** The bound of the negative integers is its own negation. *)
Lemma wrap64_minus n : 0 <= n <= 2 ^ 63 -> wrap64 (- wrap64 n) = - n.
Proof.
  intros Hn. destruct (decide (n = 2 ^ 63)) as [->|]; [done|]. by rewrite (wrap64_id n), wrap64_id by lia.
Qed.

(** The integer that a text stands for: a sign, and at least a digit. *)
Definition text_int (base : Z) (s : string) : option Z :=
  match String.list_ascii_of_string s with
  | [] => None
  | c :: t =>
      let '(neg, l) := if byte c =? 43 then (false, t) else if byte c =? 45 then (true, t) else (false, c :: t) in
      match l with
      | [] => None
      | _ => (fun v => if neg : bool then - v else v) <$> number base l 0
      end
  end.

(** [ParseInt] gives the value of a sign and digits of the base when it fits the
    width, the nearest integer of that width and ErrRange when it does not, and an error
    for every other text; but for a width of one bit. *)
Theorem ParseInt_spec s base bitSize : 2 <= base <= 36 -> 0 <= bitSize <= 64 -> bitSize <> 1 ->
  let bound := 2 ^ (width bitSize - 1) in
  match text_int base s with
  | Some v => ParseInt s base bitSize =
      if bound <=? v then (bound - 1, Some (rangeError "ParseInt" s))
      else if v <? - bound then (- bound, Some (rangeError "ParseInt" s)) else (v, None)
  | None => exists n e, ParseInt s base bitSize = (n, Some e)
  end.
Proof.
  intros Hb Hw Hone bound.
  assert (Hwidth : 2 <= width bitSize <= 64) by (unfold width, IntSize, intSize; destruct (Z.eqb_spec bitSize 0); lia).
  assert (Hbound : 2 <= bound <= 2 ^ 63).
  { unfold bound. pose proof (Z.pow_le_mono_r 2 (width bitSize - 1) 63 ltac:(lia) ltac:(lia)).
    pose proof (Z.pow_le_mono_r 2 1 (width bitSize - 1) ltac:(lia) ltac:(lia)). lia. }
  assert (Hmax : 2 ^ width bitSize = 2 * bound).
  { unfold bound. rewrite <- Z.pow_succ_r by lia. f_equal. lia. }
  unfold text_int, ParseInt. destruct s as [|c s]; [by eexists _, _|]. cbn [String.list_ascii_of_string].
  set (sgn := if byte c =? 43 then (false, s) else if byte c =? 45 then (true, s) else (false, String c s)).
  assert (Hsgn : (if byte c =? 43 then (false, String.list_ascii_of_string s)
    else if byte c =? 45 then (true, String.list_ascii_of_string s) else (false, c :: String.list_ascii_of_string s))
    = (fst sgn, String.list_ascii_of_string (snd sgn))) by (unfold sgn; by repeat case_match).
  rewrite Hsgn. destruct sgn as [neg t]. cbn [fst snd]. clear Hsgn.
  fold (width bitSize). rewrite Z.shiftl_1_l. fold bound. unfold uint64. rewrite (Z.mod_small bound) by lia. cbv zeta.
  destruct (decide (t = "")) as [->|Ht]; [by eexists _, _|].
  destruct (String.list_ascii_of_string t) as [|c' l] eqn:El; [by destruct t|]. rewrite <- El.
  pose proof (ParseUint_spec t base bitSize Hb Hw Ht) as Hp. cbv zeta in Hp. rewrite Hmax in Hp.
  destruct (number base _ 0) as [v|] eqn:Hv; simpl.
  - apply number_ge in Hv; [|lia|lia]. rewrite Hp. destruct (Z.leb_spec v (2 * bound - 1)); cbn [is_range rangeError Err_].
    + destruct neg; cbn [andb negb].
      * rewrite (proj2 (Z.leb_gt bound (- v))) by lia. destruct (Z.ltb_spec bound v).
        -- rewrite (proj2 (Z.ltb_lt (- v) (- bound))) by lia. by rewrite wrap64_minus by lia.
        -- rewrite (proj2 (Z.ltb_ge (- v) (- bound))) by lia. by rewrite wrap64_minus by lia.
      * rewrite (proj2 (Z.ltb_ge v (- bound))) by lia. destruct (Z.leb_spec bound v); by rewrite wrap64_id by lia.
    + destruct neg; cbn [andb negb].
      * rewrite (proj2 (Z.leb_gt bound (- v))), (proj2 (Z.ltb_lt (- v) (- bound))) by lia.
        rewrite (proj2 (Z.ltb_lt bound (2 * bound - 1))), wrap64_minus by lia. done.
      * rewrite (proj2 (Z.leb_le bound v)), (proj2 (Z.leb_le bound (2 * bound - 1))) by lia. by rewrite wrap64_id by lia.
  - destruct Hp as (n & e & -> & [-> | [-> ->]]); cbn [is_range syntaxError rangeError Err_]; [by eexists _, _|].
    destruct neg; cbn [andb negb].
    + rewrite (proj2 (Z.ltb_lt bound (2 * bound - 1))) by lia. by eexists _, _.
    + rewrite (proj2 (Z.leb_le bound (2 * bound - 1))) by lia. by eexists _, _.
Qed.

(** With one bit, the error of a number out of range is lost: the largest uint64 of one
    bit is the bound of the negative integers. *)
Theorem ParseInt_one_bit : ParseInt "-5" 10 1 = (-1, None).
Proof. by vm_compute. Qed.

(** ** Formatting *)

Lemma digit_at d : 0 <= d < 36 -> digit_value (nth_byte digits d) = Some d.
Proof.
  intros Hd. assert (H : forallb (fun d => bool_decide (digit_value (nth_byte digits d) = Some d)) (seqZ 0 36) = true) by by vm_compute.
  apply (bool_decide_unpack _), Is_true_true, (forallb_elem _ _ _ H), elem_of_seqZ. lia.
Qed.

(** The pairs of digits are pairs of digits. *)
Lemma smalls_at k : 0 <= k < 100 ->
  nth_byte smallsString (k * 2) = nth_byte digits (k / 10) /\ nth_byte smallsString (k * 2 + 1) = nth_byte digits (k mod 10).
Proof.
  intros Hk.
  assert (H : forallb (fun k => Ascii.eqb (nth_byte smallsString (k * 2)) (nth_byte digits (k / 10))
    && Ascii.eqb (nth_byte smallsString (k * 2 + 1)) (nth_byte digits (k mod 10))) (seqZ 0 100) = true) by by vm_compute.
  apply (forallb_elem _ _ k) in H; [|apply elem_of_seqZ; lia]. apply andb_true_iff in H as [H1 H2]. by apply Ascii.eqb_eq in H1, H2.
Qed.

(** More fuel than digits changes nothing. *)
Lemma div_digits_fuel b f f' u a : 2 <= b -> 0 <= u < b ^ Z.of_nat f -> (1 <= f <= f')%nat ->
  div_digits f' b u a = div_digits f b u a.
Proof.
  intros Hb. revert f' u a. induction f as [|f IH]; intros f' u a Hu Hf; [lia|].
  destruct f' as [|f']; [lia|]. simpl. destruct (Z.leb_spec b u); [|done].
  rewrite Nat2Z.inj_succ, Z.pow_succ_r in Hu by lia.
  apply IH; [|destruct f; [change (b ^ Z.of_nat 0) with 1 in Hu; lia|lia]].
  split; [apply Z.div_pos; lia|apply Z.div_lt_upper_bound; lia].
Qed.

(** Two digits at a time, or one. *)
Lemma two_digits_div f us a : 0 <= us < 100 ^ Z.of_nat f -> two_digits f us a = div_digits (f + f) 10 us a.
Proof.
  revert us a. induction f as [|f IH]; intros us a Hu; [done|].
  rewrite Nat.add_succ_l, Nat.add_succ_r. simpl.
  assert (Hr : us - us / 10 * 10 = us mod 10) by (pose proof (Z.div_mod us 10 ltac:(lia)); lia).
  destruct (Z.leb_spec 100 us).
  - rewrite (proj2 (Z.leb_le 10 us)) by lia. assert (10 <= us / 10) by (apply Z.div_le_lower_bound; lia).
    rewrite (proj2 (Z.leb_le 10 (us / 10))), Hr by lia.
    assert (Hq : us / 10 / 10 = us / 100) by (by rewrite Z.div_div). rewrite Hq.
    destruct (smalls_at (us mod 100) ltac:(by apply Z.mod_pos_bound)) as [-> ->].
    rewrite IH; [|rewrite Nat2Z.inj_succ, Z.pow_succ_r in Hu by lia; split; [apply Z.div_pos; lia|apply Z.div_lt_upper_bound; lia]].
    replace (us mod 100 / 10) with (us / 10 - us / 100 * 10) by zdiv. by replace (us mod 100 mod 10) with (us mod 10) by zdiv.
  - destruct (smalls_at us ltac:(lia)) as [-> ->]. destruct (Z.leb_spec 10 us).
    + rewrite Hr. rewrite (proj2 (Z.leb_gt 10 (us / 10))) by (apply Z.div_lt_upper_bound; lia). done.
    + by rewrite Z.mod_small by lia.
Qed.

(** Shifts and masks, or divisions. *)
Lemma shift_digits_div f k u a : 1 <= k -> 0 <= u -> shift_digits f (2 ^ k) (2 ^ k - 1) k u a = div_digits f (2 ^ k) u a.
Proof.
  intros Hk. assert (Hp : 0 < 2 ^ k) by (apply Z.pow_pos_nonneg; lia).
  revert u a. induction f as [|f IH]; intros u a Hu; [done|]. simpl. destruct (2 ^ k <=? u); [|done].
  rewrite Z.shiftr_div_pow2 by lia. rewrite IH by (by apply Z.div_pos).
  replace (2 ^ k - 1) with (Z.ones k) by (by rewrite Z.ones_equiv). rewrite Z.land_ones, Z.mod_eq by lia.
  by rewrite (Z.mul_comm (2 ^ k)).
Qed.

Lemma power_of_two b : 2 <= b <= 36 -> isPowerOfTwo b = true ->
  exists k, 1 <= k /\ b = 2 ^ k /\ Z.land (TrailingZeros b) 7 = k.
Proof.
  intros Hb Hp. assert (H : forallb (fun b => negb (isPowerOfTwo b)
    || ((1 <=? Z.log2 b) && (b =? 2 ^ Z.log2 b) && (Z.land (TrailingZeros b) 7 =? Z.log2 b))) (seqZ 2 35) = true) by by vm_compute.
  apply (forallb_elem _ _ b) in H; [|apply elem_of_seqZ; lia]. cbv beta in H. rewrite Hp in H. simpl in H. bool_prop. by exists (Z.log2 b).
Qed.

(** Every base writes the digits that division gives. *)
Lemma formatBits_div u b neg : 2 <= b <= 36 -> 0 <= u < 2 ^ 64 ->
  formatBits u b neg = Some ((if neg then cons "-"%char else id) (div_digits 64 b (if neg then uint64 (- u) else u) [])).
Proof.
  intros Hb Hu. unfold formatBits. rewrite (proj2 (Z.ltb_ge b 2)) by lia. rewrite (proj2 (Z.ltb_ge _ b)) by (change (Z.of_nat _) with 36; lia).
  cbn [orb]. set (v := if neg then uint64 (- u) else u).
  assert (Hv : 0 <= v < 2 ^ 64) by (unfold v, uint64; destruct neg; [by apply Z.mod_pos_bound|done]). clearbody v.
  assert (Ha : (if b =? 10 then two_digits 64 v [] else if isPowerOfTwo b
    then shift_digits 64 b (b - 1) (Z.land (TrailingZeros b) 7) v [] else div_digits 64 b v []) = div_digits 64 b v []).
  { destruct (Z.eqb_spec b 10) as [->|_].
    - rewrite two_digits_div by (change (Z.of_nat 64) with 64; lia). apply (div_digits_fuel 10 64); [lia| |lia].
      change (Z.of_nat 64) with 64. lia.
    - destruct (isPowerOfTwo b) eqn:Hp; [|done]. destruct (power_of_two b Hb Hp) as (k & Hk & -> & ->).
      by rewrite shift_digits_div by lia. }
  rewrite Ha. by destruct neg.
Qed.

(** What the digits of a number are. *)
Lemma div_digits_number f b u a : 2 <= b <= 36 -> 0 <= u < b ^ Z.of_nat f -> (1 <= f)%nat ->
  exists l, div_digits f b u a = l ++ a /\ l <> [] /\ (length l <= f)%nat /\ number b l 0 = Some u.
Proof.
  intros Hb. revert u a. induction f as [|f IH]; intros u a Hu Hf; [lia|]. simpl. destruct (Z.leb_spec b u).
  - rewrite Nat2Z.inj_succ, Z.pow_succ_r in Hu by lia.
    destruct (IH (u / b) (nth_byte digits (u - u / b * b) :: a)) as (l & -> & Hl & Hlen & Hn).
    { split; [apply Z.div_pos; lia|apply Z.div_lt_upper_bound; lia]. }
    { destruct f; [change (b ^ Z.of_nat 0) with 1 in Hu; lia|lia]. }
    exists (l ++ [nth_byte digits (u - u / b * b)]). rewrite <- app_assoc, number_app, Hn, length_app. simpl.
    pose proof (Z.mod_pos_bound u b ltac:(lia)). pose proof (Z.div_mod u b ltac:(lia)).
    rewrite digit_at by lia. simpl. rewrite (proj2 (Z.leb_gt _ _)) by lia.
    split; [done|]. split; [by destruct l|]. split; [lia|]. f_equal. lia.
  - exists [nth_byte digits u]. simpl. rewrite digit_at by lia. simpl. rewrite (proj2 (Z.leb_gt _ _)) by lia.
    split; [done|]. split; [done|]. split; [lia|done].
Qed.

Lemma small_div i : 0 <= i < 100 -> small i = div_digits 64 10 i [].
Proof.
  intros Hi. assert (H : forallb (fun i => bool_decide (small i = div_digits 64 10 i [])) (seqZ 0 100) = true) by by vm_compute.
  apply (bool_decide_unpack _), Is_true_true, (forallb_elem _ _ _ H), elem_of_seqZ. lia.
Qed.

(** The text of an integer: a sign for the negative ones, and its digits. *)
Lemma FormatInt_digits i b : 2 <= b <= 36 -> - 2 ^ 63 <= i < 2 ^ 63 ->
  FormatInt i b = Some (String.string_of_list_ascii ((if i <? 0 then cons "-"%char else id) (div_digits 64 b (Z.abs i) []))).
Proof.
  intros Hb Hi. unfold FormatInt. destruct ((0 <=? i) && (i <? nSmalls) && (b =? 10)) eqn:E.
  - bool_prop. unfold nSmalls in *. subst b. rewrite (proj2 (Z.ltb_ge i 0)) by lia. rewrite Z.abs_eq by lia.
    rewrite <- small_div by lia. reflexivity.
  - rewrite formatBits_div by (try done; by apply Z.mod_pos_bound). unfold uint64. cbn [fmap option_fmap option_map]. destruct (Z.ltb_spec i 0).
    + do 4 f_equal. rewrite <- (Z.mod_add i 1), (Z.mod_small (i + _)) by lia. rewrite <- (Z.mod_add _ 1), Z.mod_small by lia. lia.
    + rewrite Z.mod_small by lia. by rewrite Z.abs_eq.
Qed.

(** A property of all bytes. *)
Lemma on_all_bytes (p : ascii -> bool) c : forallb (fun n => p (ascii_of_nat n)) (seq 0 256) = true -> p c = true.
Proof.
  intros H. rewrite forallb_forall in H. rewrite <- (ascii_nat_embedding c). apply H, in_seq.
  pose proof (nat_ascii_bounded c). lia.
Qed.

Lemma equal_on_bytes {B} `{EqDecision B} (f g : ascii -> B) c :
  forallb (fun n => bool_decide (f (ascii_of_nat n) = g (ascii_of_nat n))) (seq 0 256) = true -> f c = g c.
Proof.
  intros H. pose proof (on_all_bytes (fun c => bool_decide (f c = g c)) c H) as Hc. by apply bool_decide_eq_true in Hc.
Qed.

Lemma digit_not_sign c d : digit_value c = Some d -> (byte c =? 43) = false /\ (byte c =? 45) = false.
Proof.
  intros Hd. assert (H : match digit_value c with Some _ => negb (byte c =? 43) && negb (byte c =? 45) | None => true end = true)
    by (apply (on_all_bytes (fun c => match digit_value c with Some _ => negb (byte c =? 43) && negb (byte c =? 45) | None => true end)); by vm_compute).
  rewrite Hd in H. apply andb_true_iff in H as [H1%negb_true_iff H2%negb_true_iff]. done.
Qed.

Lemma text_int_digits (neg : bool) b l u : l <> [] -> number b l 0 = Some u ->
  text_int b (String.string_of_list_ascii ((if neg then cons "-"%char else id) l)) = Some (if neg then - u else u).
Proof.
  intros Hl Hn. unfold text_int. rewrite String.list_ascii_of_string_of_list_ascii. destruct l as [|c l]; [done|]. destruct neg; simpl.
  - simpl in Hn. by rewrite Hn.
  - destruct (digit_value c) as [d|] eqn:Hd; [|by simpl in Hn; rewrite Hd in Hn].
    destruct (digit_not_sign c d Hd) as [-> ->]. by rewrite Hn.
Qed.

(** C15: in every base [FormatInt] writes a 64-bit integer in at most 65 bytes, the size
    of its buffer, and [ParseInt] reads it back. *)
Theorem FormatInt_roundtrip i base : 2 <= base <= 36 -> - 2 ^ 63 <= i < 2 ^ 63 ->
  exists s, FormatInt i base = Some s /\ result_of (ParseInt s base 64) = Some i /\ (String.length s <= 65)%nat.
Proof.
  intros Hb Hi. rewrite FormatInt_digits by done. eexists. split; [reflexivity|].
  destruct (div_digits_number 64 base (Z.abs i) []) as (l & El & Hl & Hlen & Hn); [done| |lia|].
  { change (Z.of_nat 64) with 64. pose proof (Z.pow_le_mono_l 2 base 64). lia. }
  rewrite app_nil_r in El. rewrite El. pose proof (text_int_digits (i <? 0) base l _ Hl Hn) as Ht.
  split.
  - pose proof (ParseInt_spec (String.string_of_list_ascii ((if i <? 0 then cons "-"%char else id) l)) base 64 Hb) as Hp.
    cbv zeta in Hp. rewrite Ht in Hp. rewrite Hp by lia. change (2 ^ (width 64 - 1)) with (2 ^ 63).
    destruct (Z.ltb_spec i 0); [rewrite Z.abs_neq, Z.opp_involutive by lia|rewrite Z.abs_eq by lia];
    by rewrite (proj2 (Z.leb_gt _ _)), (proj2 (Z.ltb_ge _ _)) by lia.
  - assert (Hs : forall m, String.length (String.string_of_list_ascii m) = length m) by (induction m; simpl; auto).
    rewrite Hs. destruct (i <? 0); simpl; lia.
Qed.

(** ** The functions that the handlers use *)

Lemma char_at d : 0 <= d < 10 -> nth_byte digits d = pretty_N_char (Z.to_N d).
Proof.
  intros Hd. assert (H : forallb (fun d => Ascii.eqb (nth_byte digits d) (pretty_N_char (Z.to_N d))) (seqZ 0 10) = true) by by vm_compute.
  apply Ascii.eqb_eq, (forallb_elem _ _ d H), elem_of_seqZ. lia.
Qed.

Lemma div_digits_pretty f u a : 0 < u < 10 ^ Z.of_nat f ->
  String.string_of_list_ascii (div_digits f 10 u a) = pretty_N_go (Z.to_N u) (String.string_of_list_ascii a).
Proof.
  revert u a. induction f as [|f IH]; intros u a Hu; [change (10 ^ Z.of_nat 0) with 1 in Hu; lia|]. simpl.
  rewrite (pretty_N_go_step (Z.to_N u)) by lia.
  assert (Hq : (Z.to_N u / 10)%N = Z.to_N (u / 10)) by (rewrite Z2N.inj_div by lia; done).
  assert (Hr : (Z.to_N u mod 10)%N = Z.to_N (u mod 10)) by (rewrite Z2N.inj_mod by lia; done).
  pose proof (Z.mod_pos_bound u 10 ltac:(lia)). pose proof (Z.div_mod u 10 ltac:(lia)).
  rewrite Hq, Hr, <- char_at by done. destruct (Z.leb_spec 10 u).
  - rewrite Nat2Z.inj_succ, Z.pow_succ_r in Hu by lia.
    rewrite IH; [|split; [apply Z.div_str_pos; lia|apply Z.div_lt_upper_bound; lia]].
    simpl. by replace (u - u / 10 * 10) with (u mod 10) by lia.
  - rewrite Z.div_small by lia. rewrite Z.mod_small by lia. done.
Qed.

(** [Itoa] is the printing of integers of the model. *)
Theorem Itoa_itoa i : - 2 ^ 63 <= i < 2 ^ 63 -> Itoa i = Some (itoa i).
Proof.
  intros Hi. unfold Itoa. rewrite FormatInt_digits by (done || lia). f_equal.
  destruct (decide (i = 0)) as [->|Hne]; [done|].
  assert (Hd : String.string_of_list_ascii (div_digits 64 10 (Z.abs i) []) = pretty_N_go (Z.to_N (Z.abs i)) "").
  { apply div_digits_pretty. change (Z.of_nat 64) with 64. lia. }
  unfold itoa. destruct i as [|p|p]; [done| |]; cbn [Z.ltb Z.compare String.string_of_list_ascii id]; rewrite Hd; done.
Qed.

(** The digits of [Go.Atoi] are those of base 10. *)
Lemma digit_spec c : Go.digit c = (d ← digit_value c; if 10 <=? d then None else Some d).
Proof.
  apply (equal_on_bytes Go.digit (fun c => d ← digit_value c; if 10 <=? d then None else Some d)). by vm_compute.
Qed.

Lemma byte_digit c : (if 9 <? (byte c - 48) mod 2 ^ 8 then None else Some ((byte c - 48) mod 2 ^ 8)) = Go.digit c.
Proof.
  apply (equal_on_bytes (fun c => if 9 <? (byte c - 48) mod 2 ^ 8 then None else Some ((byte c - 48) mod 2 ^ 8)) Go.digit).
  by vm_compute.
Qed.

Lemma digits_number s n : Go.digits s n = number 10 (String.list_ascii_of_string s) n.
Proof.
  revert n. induction s as [|c s IH]; intros n; simpl; [done|]. rewrite digit_spec.
  destruct (digit_value c) as [d|]; simpl; [|done]. destruct (10 <=? d); [done|]. rewrite IH. f_equal. lia.
Qed.

Lemma small_int_number l n : 0 <= n -> (n + 1) * 10 ^ Z.of_nat (length l) <= 10 ^ 18 -> small_int l n = number 10 l n.
Proof.
  revert n. induction l as [|c l IH]; intros n Hn Hb; [done|]. cbn [length] in Hb.
  rewrite Nat2Z.inj_succ, Z.pow_succ_r in Hb by lia.
  assert (Hp : 1 <= 10 ^ Z.of_nat (length l)) by (pose proof (Z.pow_pos_nonneg 10 (Z.of_nat (length l))); lia).
  pose proof (byte_digit c) as Hd. rewrite digit_spec in Hd. simpl.
  destruct (9 <? (byte c - 48) mod 2 ^ 8) eqn:E.
  - destruct (digit_value c) as [d|]; simpl in *; [|done]. by destruct (10 <=? d).
  - destruct (digit_value c) as [d|] eqn:Ed; simpl in *; [|done]. apply digit_value_range in Ed.
    destruct (Z.leb_spec 10 d); [done|]. injection Hd as ->. rewrite wrap64_id by nia. apply IH; nia.
Qed.

(** [Go.Atoi] in terms of the integer of the text. *)
Lemma Go_Atoi_text s : Go.Atoi s = v ← text_int 10 s; if (- 2 ^ 63 <=? v) && (v <? 2 ^ 63) then Some v else None.
Proof.
  assert (Hgo : forall (neg : bool) t,
    match t with
    | EmptyString => None
    | _ => match Go.digits t 0 with
           | Some v => let v := if neg then - v else v in if (- 2 ^ 63 <=? v) && (v <? 2 ^ 63) then Some v else None
           | None => None
           end
    end = v ← match String.list_ascii_of_string t with
              | [] => None | _ => (fun v => if neg then - v else v) <$> number 10 (String.list_ascii_of_string t) 0 end;
          if (- 2 ^ 63 <=? v) && (v <? 2 ^ 63) then Some v else None).
  { intros neg [|c t]; [done|]. rewrite digits_number. cbn [String.list_ascii_of_string].
    by destruct (number 10 _ 0). }
  unfold Go.Atoi. cbv zeta. destruct s as [|c s]; [done|]. unfold text_int. cbn [String.list_ascii_of_string].
  destruct (Ascii.eqb c "-") eqn:Em; [apply Ascii.eqb_eq in Em as ->; apply (Hgo true)|].
  destruct (Ascii.eqb c "+") eqn:Ep; [apply Ascii.eqb_eq in Ep as ->; apply (Hgo false)|].
  assert (Hc : (byte c =? 43) = false /\ (byte c =? 45) = false).
  { pose proof (equal_on_bytes (fun c => byte c =? 43) (fun c => Ascii.eqb c "+") c) as H1.
    pose proof (equal_on_bytes (fun c => byte c =? 45) (fun c => Ascii.eqb c "-") c) as H2.
    cbv beta in H1, H2. rewrite H1, H2 by by vm_compute. done. }
  destruct Hc as [-> ->]. etransitivity; [|exact (Hgo false (String c s))].
  clear Hgo. destruct c as [[] [] [] [] [] [] [] []]; first [reflexivity | discriminate Em | discriminate Ep].
Qed.

Lemma number_lt base l n v : 2 <= base -> 0 <= n -> number base l n = Some v -> v < (n + 1) * base ^ Z.of_nat (length l).
Proof.
  intros Hb. revert n. induction l as [|c l IH]; intros n Hn; cbn [number length]; [intros [= ->]; simpl; lia|].
  destruct (digit_value c) as [d|] eqn:Hd; simpl; [|done]. apply digit_value_range in Hd. destruct (Z.leb_spec base d); [done|].
  intros Hv. apply IH in Hv; [|nia]. rewrite Nat2Z.inj_succ, Z.pow_succ_r by lia.
  assert (0 < base ^ Z.of_nat (length l)) by (apply Z.pow_pos_nonneg; lia). nia.
Qed.

(** The fast path, after the sign. *)
Lemma small_int_spec l : (length l <= 18)%nat ->
  small_int l 0 = number 10 l 0 /\ (forall v, number 10 l 0 = Some v -> 0 <= v < 10 ^ 18).
Proof.
  intros Hl. assert (Hp : 10 ^ Z.of_nat (length l) <= 10 ^ 18) by (apply Z.pow_le_mono_r; lia). split.
  - apply small_int_number; lia.
  - intros v Hv. pose proof (number_ge 10 l 0 v ltac:(lia) ltac:(lia) Hv). apply number_lt in Hv; lia.
Qed.

(** C19: [Atoi] is the parsing of integers of the model: it gives no error exactly when
    the model has a value, and then that value. *)
Theorem Atoi_model s : Go.Atoi s = result_of (Atoi s).
Proof.
  rewrite Go_Atoi_text. unfold Atoi. destruct ((0 <? _) && (_ <? 19)) eqn:Hlen.
  - assert (Hs : forall m, length (String.list_ascii_of_string m) = String.length m) by (intros m; induction m; simpl; auto).
    rewrite <- Hs in Hlen. bool_prop. unfold text_int. destruct (String.list_ascii_of_string s) as [|c t]; [done|]. cbn [length] in *.
    assert (Hgo : forall (neg : bool) l, (1 <= length l <= 18)%nat ->
      (v ← match l with [] => None | _ => (fun v => if neg then - v else v) <$> number 10 l 0 end;
       if (- 2 ^ 63 <=? v) && (v <? 2 ^ 63) then Some v else None)
      = result_of (match small_int l 0 with
               | None => (0, Some (syntaxError "Atoi" s))
               | Some n => (if neg then wrap64 (- n) else n, None)
               end)).
    { intros neg l Hl. destruct (small_int_spec l ltac:(lia)) as [-> Hv]. destruct l as [|c' l]; [simpl in Hl; lia|].
      destruct (number 10 _ 0) as [v|]; [|done]. specialize (Hv v eq_refl). simpl.
      destruct neg; rewrite ?wrap64_id by lia; by rewrite (proj2 (Z.leb_le _ _)), (proj2 (Z.ltb_lt _ _)) by lia. }
    destruct (byte c =? 43) eqn:Ep; [|destruct (byte c =? 45) eqn:Em]; cbn [orb andb].
    + replace (byte c =? 45) with false by (symmetry; apply Z.eqb_neq; lia). simpl. destruct t as [|c' t]; [done|].
      apply (Hgo false (c' :: t)). simpl in *. lia.
    + simpl. destruct t as [|c' t]; [done|]. apply (Hgo true (c' :: t)). simpl in *. lia.
    + apply (Hgo false (c :: t)). simpl. lia.
  - pose proof (ParseInt_spec s 10 0 ltac:(lia) ltac:(lia) ltac:(lia)) as Hp. cbv zeta in Hp.
    change (2 ^ (width 0 - 1)) with (2 ^ 63) in Hp. destruct (text_int 10 s) as [v|].
    + rewrite Hp. cbn [mbind option_bind]. destruct (Z.leb_spec (2 ^ 63) v), (Z.ltb_spec v (- 2 ^ 63)); try lia.
      * rewrite (proj2 (Z.ltb_ge v (2 ^ 63))), andb_false_r by lia. done.
      * by rewrite (proj2 (Z.leb_gt _ v)) by lia.
      * by rewrite (proj2 (Z.leb_le _ v)), (proj2 (Z.ltb_lt v _)) by lia.
    + by destruct Hp as (n & e & ->).
Qed.

(** ** Examples *)

Lemma ParseInt_spec_witness : ParseInt "-129" 10 8 = (-128, Some (rangeError "ParseInt" "-129")).
Proof. pose proof (ParseInt_spec "-129" 10 8 ltac:(lia) ltac:(lia) ltac:(lia)) as H. vm_compute in H. exact H. Defined.

Lemma FormatInt_roundtrip_witness : exists s, FormatInt (- 2 ^ 63) 2 = Some s /\ result_of (ParseInt s 2 64) = Some (- 2 ^ 63)
  /\ (String.length s <= 65)%nat.
Proof. apply (FormatInt_roundtrip (- 2 ^ 63) 2); lia. Defined.

Lemma Itoa_itoa_witness : Itoa (-1947) = Some (itoa (-1947)).
Proof. apply (Itoa_itoa (-1947)). lia. Defined.
