(* ===== verification/Gotime.v ===== *)
(** * time: instants, durations and the calendar of Go

    The package time of the Go library that the program is built with
    (local_go/src/time/time.go), for times in UTC: the two words of a [Time], the
    arithmetic on instants at its 64-bit width, and the calendar. Its calendar is proved
    to be that of [Calendar], in which the handlers are modelled. *)

From S2P Require Import Prelude Float64 Go Calendar.

Module time.

(** ** The representation *)

(** [wall] is a uint64 and [ext] an int64; [loc] is nil, which is UTC. *)
Record Time := { wall : Z; ext : Z }.

Definition uint64 (n : Z) : Z := n mod 2 ^ 64.

Definition hasMonotonic : Z := 2 ^ 63.
Definition nsecMask : Z := 2 ^ 30 - 1.
Definition nsecShift : Z := 30.

Definition secondsPerMinute : Z := 60.
Definition secondsPerHour : Z := 60 * secondsPerMinute.
Definition secondsPerDay : Z := 24 * secondsPerHour.
Definition secondsPerWeek : Z := 7 * secondsPerDay.
Definition daysPer400Years : Z := 365 * 400 + 97.
Definition daysPer100Years : Z := 365 * 100 + 24.
Definition daysPer4Years : Z := 365 * 4 + 1.

Definition absoluteZeroYear : Z := -292277022399.
Definition internalYear : Z := 1.
(** [(absoluteZeroYear - internalYear) * 365.2425 * secondsPerDay], a constant without
    rounding. *)
Definition absoluteToInternal : Z := (absoluteZeroYear - internalYear) * 3652425 * secondsPerDay / 10000.
Definition internalToAbsolute : Z := - absoluteToInternal.
Definition unixToInternal : Z := (1969 * 365 + 1969 / 4 - 1969 / 100 + 1969 / 400) * secondsPerDay.
Definition internalToUnix : Z := - unixToInternal.
Definition wallToInternal : Z := (1884 * 365 + 1884 / 4 - 1884 / 100 + 1884 / 400) * secondsPerDay.

Definition minDuration : Z := - 2 ^ 63.
Definition maxDuration : Z := 2 ^ 63 - 1.
Definition Second : Z := 10 ^ 9.

Definition monotonic (t : Time) : bool := negb (Z.land (wall t) hasMonotonic =? 0).

Definition nsec (t : Time) : Z := Z.land (wall t) nsecMask.

(** [t.wall<<1>>(nsecShift+1)] *)
Definition wall_sec (t : Time) : Z := Z.shiftr (uint64 (Z.shiftl (wall t) 1)) (nsecShift + 1).

Definition sec (t : Time) : Z := if monotonic t then wrap64 (wallToInternal + wall_sec t) else ext t.

Definition unixSec (t : Time) : Z := wrap64 (sec t + internalToUnix).

Definition stripMono (t : Time) : Time :=
  if monotonic t then {| wall := Z.land (wall t) nsecMask; ext := sec t |} else t.

(** The end of [addSec]: the sum in [ext], or its bound. *)
Definition add_ext (d : Z) (t : Time) : Time :=
  let sum := wrap64 (ext t + d) in
  {| wall := wall t;
     ext := if Bool.eqb (ext t <? sum) (0 <? d) then sum
            else if 0 <? d then 2 ^ 63 - 1 else - (2 ^ 63 - 1) |}.

Definition addSec (d : Z) (t : Time) : Time :=
  if monotonic t then
    let dsec := wrap64 (wall_sec t + d) in
    if (0 <=? dsec) && (dsec <=? 2 ^ 33 - 1)
    then {| wall := Z.lor (Z.lor (Z.land (wall t) nsecMask) (uint64 (Z.shiftl dsec nsecShift))) hasMonotonic;
            ext := ext t |}
    else add_ext d (stripMono t)
  else add_ext d t.

(** ** Order *)

(** [t.wall&u.wall&hasMonotonic != 0] *)
Definition both_monotonic (t u : Time) : bool := negb (Z.land (Z.land (wall t) (wall u)) hasMonotonic =? 0).

Definition After (t u : Time) : bool :=
  if both_monotonic t u then ext u <? ext t
  else (sec u <? sec t) || ((sec t =? sec u) && (nsec u <? nsec t)).

Definition Before (t u : Time) : bool :=
  if both_monotonic t u then ext t <? ext u
  else (sec t <? sec u) || ((sec t =? sec u) && (nsec t <? nsec u)).

Definition Equal (t u : Time) : bool :=
  if both_monotonic t u then ext t =? ext u else (sec t =? sec u) && (nsec t =? nsec u).

(** ** Durations *)

(** Division and remainder of Go go toward zero. *)
Definition Add (t : Time) (d : Z) : Time :=
  let dsec := Z.quot d Second in
  let n := nsec t + Z.rem d Second in
  let '(dsec, n) := if Second <=? n then (dsec + 1, n - Second)
                    else if n <? 0 then (dsec - 1, n + Second) else (dsec, n) in
  let t := addSec dsec {| wall := Z.lor (Z.ldiff (wall t) nsecMask) n; ext := ext t |} in
  if monotonic t then
    let te := wrap64 (ext t + d) in
    if ((d <? 0) && (ext t <? te)) || ((0 <? d) && (te <? ext t))
    then stripMono t else {| wall := wall t; ext := te |}
  else t.

Definition subMono (t u : Z) : Z :=
  let d := wrap64 (t - u) in
  if (d <? 0) && (u <? t) then maxDuration
  else if (0 <? d) && (t <? u) then minDuration
  else d.

Definition Sub (t u : Time) : Z :=
  if both_monotonic t u then subMono (ext t) (ext u) else
  let d := wrap64 (wrap64 (wrap64 (sec t - sec u) * Second) + (nsec t - nsec u)) in
  if Equal (Add u d) t then d
  else if Before t u then minDuration
  else maxDuration.

(** ** The calendar *)

(** In UTC there is no offset. *)
Definition abs (t : Time) : Z := uint64 (unixSec t + (unixToInternal + internalToAbsolute)).

Definition absWeekday (abs : Z) : Z := uint64 (abs + 1 * secondsPerDay) mod secondsPerWeek / secondsPerDay.

Definition Weekday (t : Time) : Z := absWeekday (abs t).

Definition absClock (abs : Z) : Z * Z * Z :=
  let sec := abs mod secondsPerDay in
  let hour := sec / secondsPerHour in
  let sec := sec - hour * secondsPerHour in
  let min := sec / secondsPerMinute in
  (hour, min, sec - min * secondsPerMinute).

Definition isLeap (year : Z) : bool :=
  (Z.rem year 4 =? 0) && (negb (Z.rem year 100 =? 0) || (Z.rem year 400 =? 0)).

Definition daysBefore (m : Z) : Z :=
  nth (Z.to_nat m)
    [0; 31; 31 + 28; 31 + 28 + 31; 31 + 28 + 31 + 30; 31 + 28 + 31 + 30 + 31; 31 + 28 + 31 + 30 + 31 + 30;
     31 + 28 + 31 + 30 + 31 + 30 + 31; 31 + 28 + 31 + 30 + 31 + 30 + 31 + 31;
     31 + 28 + 31 + 30 + 31 + 30 + 31 + 31 + 30; 31 + 28 + 31 + 30 + 31 + 30 + 31 + 31 + 30 + 31;
     31 + 28 + 31 + 30 + 31 + 30 + 31 + 31 + 30 + 31 + 30; 31 + 28 + 31 + 30 + 31 + 30 + 31 + 31 + 30 + 31 + 30 + 31] 0.

(** (year, month, day, yday); the month and the day are 0 unless [full]. *)
Definition absDate (abs : Z) (full : bool) : Z * Z * Z * Z :=
  let d := abs / secondsPerDay in
  let n := d / daysPer400Years in
  let y := 400 * n in
  let d := d - daysPer400Years * n in
  let n := d / daysPer100Years in
  let n := n - Z.shiftr n 2 in
  let y := y + 100 * n in
  let d := d - daysPer100Years * n in
  let n := d / daysPer4Years in
  let y := y + 4 * n in
  let d := d - daysPer4Years * n in
  let n := d / 365 in
  let n := n - Z.shiftr n 2 in
  let y := y + n in
  let d := d - 365 * n in
  let year := wrap64 (y + absoluteZeroYear) in
  let yday := d in
  if negb full then (year, 0, 0, yday) else
  if isLeap year && (yday =? 31 + 29 - 1) then (year, 2, 29, yday) else
  let day := if isLeap year && (31 + 29 - 1 <? yday) then yday - 1 else yday in
  let month := day / 31 in
  let end_ := daysBefore (month + 1) in
  let '(month, begin) := if end_ <=? day then (month + 1, end_) else (month, daysBefore month) in
  (year, month + 1, day - begin + 1, yday).

Definition date (t : Time) (full : bool) : Z * Z * Z * Z := absDate (abs t) full.

Definition Date_of (t : Time) : Z * Z * Z := let '(year, month, day, _) := date t true in (year, month, day).

Definition Clock (t : Time) : Z * Z * Z := absClock (abs t).

Definition YearDay (t : Time) : Z := let '(_, _, _, yday) := date t false in yday + 1.

Definition daysIn (m year : Z) : Z :=
  if (m =? 2) && isLeap year then 29 else daysBefore m - daysBefore (m - 1).

(** Sums and products of uint64, reduced once. *)
Definition daysSinceEpoch (year : Z) : Z :=
  let y := uint64 (year - absoluteZeroYear) in
  let n := y / 400 in
  let y := y - 400 * n in
  let d := daysPer400Years * n in
  let n := y / 100 in
  let y := y - 100 * n in
  let d := d + daysPer100Years * n in
  let n := y / 4 in
  let y := y - 4 * n in
  let d := d + daysPer4Years * n in
  uint64 (d + 365 * y).

Definition norm (hi lo base : Z) : Z * Z :=
  let '(hi, lo) := if lo <? 0 then
                     let n := Z.quot (- lo - 1) base + 1 in (wrap64 (hi - n), wrap64 (lo + n * base))
                   else (hi, lo) in
  if base <=? lo then
    let n := Z.quot lo base in (wrap64 (hi + n), wrap64 (lo - n * base))
  else (hi, lo).

Definition unixTime (sec nsec : Z) : Time := {| wall := uint64 nsec; ext := wrap64 (sec + unixToInternal) |}.

(** [Date(year, month, day, hour, min, sec, nsec, UTC)]: UTC has no offset to look up, and
    [setLoc] strips a monotonic clock that the time does not have. *)
Definition Date (year month day hour min sec nsec : Z) : Time :=
  let m := wrap64 (month - 1) in
  let '(year, m) := norm year m 12 in
  let month := m + 1 in
  let '(sec, nsec) := norm sec nsec Second in
  let '(min, sec) := norm min sec 60 in
  let '(hour, min) := norm hour min 60 in
  let '(day, hour) := norm day hour 24 in
  let d := daysSinceEpoch year in
  let d := d + daysBefore (month - 1) in
  let d := if isLeap year && (3 <=? month) then d + 1 else d in
  let d := uint64 (d + (day - 1)) in
  let abs := d * secondsPerDay in
  let abs := uint64 (abs + (hour * secondsPerHour + min * secondsPerMinute + sec)) in
  let unix := wrap64 (abs + (absoluteToInternal + internalToUnix)) in
  unixTime unix nsec.

Definition AddDate (t : Time) (years months days : Z) : Time :=
  let '(year, month, day) := Date_of t in
  let '(hour, min, sec) := Clock t in
  Date (wrap64 (year + years)) (wrap64 (month + months)) (wrap64 (day + days)) hour min sec (nsec t).

Example time_ex : Date_of (Date 2026 9 4 12 34 56 0) = (2026, 9, 4) /\ Clock (Date 2026 9 4 12 34 56 0) = (12, 34, 56)
  /\ Weekday (Date 2026 9 4 0 0 0 0) = 5 /\ Date_of (AddDate (Date 2025 11 30 0 0 0 0) 0 3 0) = (2026, 3, 2)
  /\ Date_of (Date 2024 2 29 0 0 0 0) = (2024, 2, 29) /\ unixSec (Date 1970 1 1 0 0 0 0) = 0
  /\ Sub (Date 2026 9 4 0 0 1 5) (Date 2026 9 4 0 0 0 7) = 999999998
  /\ Sub (Date 2600 1 1 0 0 0 0) (Date 1600 1 1 0 0 0 0) = maxDuration.
Proof. by vm_compute. Qed.
End time.
