(* ===== verification/GotimeProps.v ===== *)
(** * time: the calendar and the arithmetic of instants

    The calendar of the package is that of [Calendar] over the whole range of its
    instants; the difference of two instants is exact, or the nearest duration. *)

From S2P Require Import Prelude Float64 Go Calendar Gotime.

Import time.

(** ** Dates that exist *)

Definition valid (y m d : Z) : Prop := 1 <= m <= 12 /\ 1 <= d <= month_days y m.

Lemma yoe_back yoe doy doe : 0 <= yoe < 400 -> 0 <= doy <= 365 ->
  (doy = 365 -> (yoe + 1) mod 4 = 0 /\ ((yoe + 1) mod 100 <> 0 \/ (yoe + 1) mod 400 = 0)) ->
  doe = yoe * 365 + yoe / 4 - yoe / 100 + doy ->
  (doe - doe / 1460 + doe / 36524 - doe / 146096) / 365 = yoe.
Proof. intros Hy Hd Hl ->. zdiv. Qed.

(** The month as counted from March. *)
Definition mp_of (m : Z) : Z := m + (if 2 <? m then -3 else 9).

Lemma month_of_day m d y : valid y m d ->
  let doy := (153 * mp_of m + 2) / 5 + d - 1 in
  0 <= doy <= 365 /\ (5 * doy + 2) / 153 = mp_of m
  /\ (doy = 365 -> m = 2 /\ is_leap y = true).
Proof.
  intros [Hm Hd] doy. unfold month_days in Hd.
  assert (Hc : m = 1 \/ m = 2 \/ m = 3 \/ m = 4 \/ m = 5 \/ m = 6 \/ m = 7 \/ m = 8 \/ m = 9 \/ m = 10 \/ m = 11 \/ m = 12) by lia.
  destruct (is_leap y); repeat destruct Hc as [->|Hc]; try subst m; unfold doy, mp_of; simpl in Hd |- *;
  (split; [zdiv|split; [zdiv|]]); intros E; first [by split | exfalso; zdiv].
Qed.

Lemma leap_spec y : is_leap y = true <-> y mod 4 = 0 /\ (y mod 100 <> 0 \/ y mod 400 = 0).
Proof.
  unfold is_leap. rewrite andb_true_iff, orb_true_iff, negb_true_iff, !Z.eqb_eq, Z.eqb_neq. done.
Qed.

Lemma era_of_year y k : (y + 400 * k) mod 400 = y mod 400.
Proof. rewrite Z.mul_comm. apply Z.mod_add. lia. Qed.

(** The date of the day of a date. *)
Lemma civil_days_of y m d : valid y m d -> civil (days_of y m d) = (y, m, d).
Proof.
  intros Hv. pose proof (month_of_day m d y Hv) as (Hr & Hmp & Hl). set (doy := (153 * mp_of m + 2) / 5 + d - 1) in *.
  destruct Hv as [Hm Hd]. unfold civil, days_of. set (y' := y - (if m <=? 2 then 1 else 0)).
  assert (Hyoe : 0 <= y' mod 400 < 400) by (apply Z.mod_pos_bound; lia).
  set (doe := days_of_era (y' mod 400) m d).
  assert (Hdoe : doe = (y' mod 400) * 365 + (y' mod 400) / 4 - (y' mod 400) / 100 + doy).
  { unfold doe, days_of_era, doy, mp_of. lia. }
  assert (Hleap : doy = 365 -> (y' mod 400 + 1) mod 4 = 0 /\ ((y' mod 400 + 1) mod 100 <> 0 \/ (y' mod 400 + 1) mod 400 = 0)).
  { intros [-> Hly]%Hl. apply leap_spec in Hly. unfold y'. simpl. zdiv. }
  assert (Hrange : 0 <= doe < era_days).
  { unfold era_days. rewrite Hdoe. clear - Hyoe Hr Hleap. zdiv. }
  replace (y' / 400 * era_days + doe - 719468 + 719468) with (doe + y' / 400 * era_days) by lia.
  rewrite Z.mod_add, Z.div_add, Z.mod_small, Z.div_small by (unfold era_days in *; lia).
  unfold civil_era. rewrite (yoe_back (y' mod 400) doy doe Hyoe Hr Hleap Hdoe).
  replace (doe - (365 * (y' mod 400) + y' mod 400 / 4 - y' mod 400 / 100)) with doy by lia. rewrite Hmp.
  assert (Hmonth : (if mp_of m <? 10 then mp_of m + 3 else mp_of m - 9) = m).
  { unfold mp_of. destruct (Z.ltb_spec 2 m); [rewrite (proj2 (Z.ltb_lt _ _))|rewrite (proj2 (Z.ltb_ge _ _))]; lia. }
  rewrite Hmonth. pose proof (Z.div_mod y' 400 ltac:(lia)). do 2 f_equal; [|unfold doy; lia]. unfold y' in *. lia.
Qed.

(** ** Years *)

Lemma rem_mod_zero y k : 0 < k -> (Z.rem y k =? 0) = (y mod k =? 0).
Proof.
  intros Hk. destruct (Z.eqb_spec (y mod k) 0) as [E|E].
  - apply Z.eqb_eq, Z.rem_divide, Z.mod_divide; lia.
  - apply Z.eqb_neq. contradict E. apply Z.mod_divide; [lia|]. apply Z.rem_divide; lia.
Qed.

Lemma isLeap_spec y : isLeap y = is_leap y.
Proof. unfold isLeap, is_leap. by rewrite !rem_mod_zero. Qed.

(** The days from the absolute zero year to 1970. *)
Definition epoch_days : Z := (unixToInternal + internalToAbsolute) / secondsPerDay.

Lemma days_of_year y m d : 1 <= m <= 12 ->
  days_of y m d = days_of y 1 1 + daysBefore (m - 1) + (if is_leap y && (3 <=? m) then 1 else 0) + (d - 1).
Proof.
  intros Hm.
  assert (Hl : (if is_leap y then 1 else 0) = y / 4 - y / 100 + y / 400 - ((y - 1) / 4 - (y - 1) / 100 + (y - 1) / 400)).
  { destruct (is_leap y) eqn:E.
    - apply leap_spec in E. zdiv.
    - apply not_true_iff_false in E. rewrite leap_spec in E. zdiv. }
  assert (Hc : m = 1 \/ m = 2 \/ m = 3 \/ m = 4 \/ m = 5 \/ m = 6 \/ m = 7 \/ m = 8 \/ m = 9 \/ m = 10 \/ m = 11 \/ m = 12) by lia.
  assert (Hy : forall y, (y mod 400) / 4 = y / 4 - 100 * (y / 400)) by (intros; zdiv).
  assert (Hy' : forall y, (y mod 400) / 100 = y / 100 - 4 * (y / 400)) by (intros; zdiv).
  assert (Hm' : forall y, y mod 400 = y - 400 * (y / 400)) by (intros; zdiv).
  unfold days_of, days_of_era, era_days. rewrite !Hy, !Hy', !Hm'.
  repeat destruct Hc as [->|Hc]; try subst m; simpl; rewrite ?andb_false_r, ?andb_true_r, ?Z.sub_0_r;
  repeat match goal with |- context [daysBefore ?e] => let v := eval vm_compute in (daysBefore e) in change (daysBefore e) with v end;
  repeat match goal with |- context [(?a + 2) / 5] => let v := eval vm_compute in ((a + 2) / 5) in change ((a + 2) / 5) with v end;
  lia.
Qed.

(** Replaces closed constants by their values. *)
Ltac closed c := let v := eval vm_compute in c in change c with v in *.

Lemma daysSinceEpoch_spec y : absoluteZeroYear <= y < 2 ^ 38 -> daysSinceEpoch y = days_of y 1 1 + epoch_days.
Proof.
  intros Hy. unfold daysSinceEpoch, uint64 in *. closed epoch_days. closed daysPer400Years. closed daysPer100Years.
  closed daysPer4Years. closed absoluteZeroYear. closed (2 ^ 64). closed (2 ^ 38).
  rewrite (Z.mod_small (y - _)) by lia. rewrite Z.mod_small by zdiv.
  unfold days_of, days_of_era. simpl. closed era_days. zdiv.
Qed.

(** ** The date of a day *)

(** The end of absDate: month and day from the day of the year. *)
Definition month_day (leap : bool) (yday : Z) : Z * Z :=
  if leap && (yday =? 31 + 29 - 1) then (2, 29) else
  let day := if leap && (31 + 29 - 1 <? yday) then yday - 1 else yday in
  let month := day / 31 in
  let end_ := daysBefore (month + 1) in
  let '(month, begin) := if end_ <=? day then (month + 1, end_) else (month, daysBefore month) in
  (month + 1, day - begin + 1).

Definition days_in (leap : bool) (m : Z) : Z := if (m =? 2) && leap then 29 else daysBefore m - daysBefore (m - 1).

Definition month_day_ok (leap : bool) (yday : Z) : bool :=
  let '(m, d) := month_day leap yday in
  (1 <=? m) && (m <=? 12) && (1 <=? d) && (d <=? days_in leap m)
  && (daysBefore (m - 1) + (if leap && (3 <=? m) then 1 else 0) + (d - 1) =? yday).

Lemma month_day_spec (leap : bool) yday : 0 <= yday < (if leap then 366 else 365) -> month_day_ok leap yday = true.
Proof.
  intros Hy. destruct leap.
  - apply (forallb_elem (month_day_ok true) (seqZ 0 366)); [by vm_compute|apply elem_of_seqZ; lia].
  - apply (forallb_elem (month_day_ok false) (seqZ 0 365)); [by vm_compute|apply elem_of_seqZ; lia].
Qed.

Lemma days_in_spec y m : 1 <= m <= 12 -> days_in (is_leap y) m = month_days y m.
Proof.
  intros Hm.
  assert (Hc : m = 1 \/ m = 2 \/ m = 3 \/ m = 4 \/ m = 5 \/ m = 6 \/ m = 7 \/ m = 8 \/ m = 9 \/ m = 10 \/ m = 11 \/ m = 12) by lia.
  unfold days_in, month_days. repeat destruct Hc as [->|Hc]; try subst m; by destruct (is_leap y).
Qed.

(** The cycles of absDate: the year, and the day of the year. *)
Definition cycles (d : Z) : Z * Z :=
  let n := d / daysPer400Years in
  let y := 400 * n in
  let d := d - daysPer400Years * n in
  let n := d / daysPer100Years in
  let n := n - Z.shiftr n 2 in
  let y := y + 100 * n in
  let d := d - daysPer100Years * n in
  let n := d / daysPer4Years in
  let y := y + 4 * n in
  let d := d - daysPer4Years * n in
  let n := d / 365 in
  let n := n - Z.shiftr n 2 in
  (y + n, d - 365 * n).

Lemma absDate_cycles a : absDate a true =
  let '(y, yday) := cycles (a / secondsPerDay) in
  let year := wrap64 (y + absoluteZeroYear) in
  let '(m, d) := month_day (isLeap year) yday in (year, m, d, yday).
Proof.
  unfold absDate, month_day. cbv zeta. cbn [negb]. unfold cycles. cbv zeta.
  destruct (isLeap _ && (_ =? _)); [done|]. by destruct (daysBefore _ <=? _).
Qed.

Lemma cycles_spec d : 0 <= d < 2 ^ 48 ->
  let '(y, yday) := cycles d in
  let year := y + absoluteZeroYear in
  0 <= y < 2 ^ 40 /\ 0 <= yday < (if is_leap year then 366 else 365)
  /\ days_of year 1 1 + epoch_days + yday = d.
Proof.
  intros Hd. unfold cycles. cbv zeta. rewrite !Z.shiftr_div_pow2 by lia. change (2 ^ 2) with 4.
  closed daysPer400Years. closed daysPer100Years. closed daysPer4Years.
  set (a := d / 146097). set (d1 := d - 146097 * a). set (b0 := d1 / 36524). set (b := b0 - b0 / 4).
  set (d2 := d1 - 36524 * b). set (c := d2 / 1461). set (d3 := d2 - 1461 * c). set (e0 := d3 / 365). set (e := e0 - e0 / 4).
  assert (Ha : 0 <= d1 < 146097) by (unfold d1, a; zdiv).
  assert (Hb : 0 <= b <= 3 /\ 0 <= d2 <= 36524 /\ (d2 = 36524 -> b = 3)) by (unfold d2, b, b0; zdiv).
  assert (Hc : 0 <= c <= 24 /\ 0 <= d3 < 1461 /\ (c = 24 -> b < 3 -> d3 < 1460)) by (unfold d3, c; zdiv).
  assert (He : 0 <= e <= 3 /\ 0 <= d3 - 365 * e <= 365 /\ (d3 - 365 * e = 365 -> e = 3)) by (unfold e, e0; zdiv).
  assert (Hd' : d = 146097 * a + 36524 * b + 1461 * c + d3) by (unfold d3, d2, d1; lia).
  assert (Ha' : 0 <= a < 2 ^ 31) by (unfold a; zdiv).
  clearbody e c b a d3 d2 d1. clear e0 b0.
  assert (Hl : is_leap (400 * a + 100 * b + 4 * c + e + absoluteZeroYear) = (e =? 3) && negb ((c =? 24) && (b <? 3))).
  { unfold absoluteZeroYear. apply eq_true_iff_eq. rewrite leap_spec, andb_true_iff, negb_true_iff, andb_false_iff, Z.eqb_eq, Z.eqb_neq, Z.ltb_ge.
    zdiv. }
  assert (Hj : days_of (400 * a + 100 * b + 4 * c + e + absoluteZeroYear) 1 1 + epoch_days
               = 146097 * a + 36524 * b + 1461 * c + 365 * e).
  { unfold days_of, days_of_era, absoluteZeroYear. closed epoch_days. simpl. closed era_days. zdiv. }
  rewrite Hl, Hj. split; [lia|]. split; [|lia].
  destruct (Z.eqb_spec e 3) as [->|He3]; simpl; [|lia].
  destruct (Z.eqb_spec c 24) as [->|Hc24], (Z.ltb_spec b 3); simpl; lia.
Qed.

Lemma absDate_civil a : 0 <= a < 2 ^ 64 ->
  let day := a / secondsPerDay - epoch_days in
  absDate a true = (civil day, day - days_of (year_of day) 1 1).
Proof.
  intros Ha day. rewrite absDate_cycles. unfold secondsPerDay in *.
  assert (Hd : 0 <= a / (24 * secondsPerHour) < 2 ^ 48) by (closed (24 * secondsPerHour); closed (2 ^ 64); closed (2 ^ 48); zdiv).
  pose proof (cycles_spec _ Hd) as Hc. destruct (cycles _) as [y yday]. destruct Hc as (Hy & Hyd & Hdays).
  cbv zeta. rewrite wrap64_id by (unfold absoluteZeroYear; closed (2 ^ 40); closed (2 ^ 63); lia).
  set (year := y + absoluteZeroYear) in *. rewrite isLeap_spec.
  pose proof (month_day_spec _ _ Hyd) as Hm. unfold month_day_ok in Hm.
  destruct (month_day (is_leap year) yday) as [m d]. bool_prop.
  assert (Hv : valid year m d) by (split; [lia|]; rewrite days_in_spec in *; lia).
  assert (Hday : days_of year m d = day) by (rewrite days_of_year by lia; unfold day; lia).
  unfold year_of. rewrite <- Hday, (civil_days_of _ _ _ Hv). simpl. do 2 f_equal. rewrite days_of_year by lia. lia.
Qed.

(** ** Instants *)

(** The words of a time are in range, its nanoseconds below a second, and without a
    monotonic clock its wall word has nothing else. *)
Record wf (t : Time) : Prop := {
  wf_wall : 0 <= wall t < 2 ^ 64;
  wf_ext : - 2 ^ 63 <= ext t < 2 ^ 63;
  wf_nsec : nsec t < Second;
  wf_seconds : monotonic t = false -> wall t < 2 ^ 30
}.

Lemma nsec_mod t : nsec t = wall t mod 2 ^ 30.
Proof. unfold nsec, nsecMask. change (2 ^ 30 - 1) with (Z.ones 30). by rewrite Z.land_ones. Qed.

Lemma nsec_nonneg t : 0 <= nsec t.
Proof. rewrite nsec_mod. by apply Z.mod_pos_bound. Qed.

Lemma wall_sec_range t : 0 <= wall_sec t < 2 ^ 33.
Proof.
  unfold wall_sec, uint64, nsecShift. rewrite Z.shiftr_div_pow2 by lia.
  pose proof (Z.mod_pos_bound (Z.shiftl (wall t) 1) (2 ^ 64) ltac:(lia)). closed (2 ^ 64). closed (2 ^ 33). closed (2 ^ (30 + 1)). zdiv.
Qed.

Lemma sec_range t : wf t -> - 2 ^ 63 <= sec t < 2 ^ 63.
Proof.
  intros Ht. unfold sec. destruct (monotonic t); [|apply Ht]. apply wrap64_range.
Qed.

Lemma sec_wall t : monotonic t = true -> sec t = wallToInternal + wall_sec t.
Proof.
  intros Hm. unfold sec. rewrite Hm. apply wrap64_id. pose proof (wall_sec_range t). closed wallToInternal.
  closed (2 ^ 33). closed (2 ^ 63). lia.
Qed.

(** The times that the calendar can show: from the absolute zero year. *)
Definition shown (t : Time) : Prop := wf t /\ absoluteToInternal <= sec t.

Definition unix (t : Time) : Z := sec t + internalToUnix.
Definition unix_day (t : Time) : Z := unix t / secondsPerDay.
Definition day_seconds (t : Time) : Z := unix t mod secondsPerDay.

Lemma unixSec_unix t : shown t -> unixSec t = unix t.
Proof.
  intros [Ht Hs]. pose proof (sec_range t Ht). unfold unixSec, unix. apply wrap64_id.
  closed absoluteToInternal. closed internalToUnix. closed (2 ^ 63). lia.
Qed.

Lemma abs_spec t : shown t -> abs t = sec t + internalToAbsolute /\ 0 <= abs t < 2 ^ 64 - secondsPerDay
  /\ abs t / secondsPerDay = unix_day t + epoch_days /\ abs t mod secondsPerDay = day_seconds t.
Proof.
  intros Hsh. pose proof (unixSec_unix t Hsh) as Hu. destruct Hsh as [Ht Hs]. pose proof (sec_range t Ht).
  assert (Ha : abs t = sec t + internalToAbsolute).
  { unfold abs, uint64. rewrite Hu. unfold unix, internalToUnix.
    replace (sec t + - unixToInternal + (unixToInternal + internalToAbsolute)) with (sec t + internalToAbsolute) by lia.
    apply Z.mod_small. closed absoluteToInternal. closed internalToAbsolute. closed (2 ^ 63). closed (2 ^ 64). lia. }
  rewrite Ha. unfold unix_day, day_seconds, unix. closed absoluteToInternal. closed internalToAbsolute.
  closed internalToUnix. closed epoch_days. closed secondsPerDay. closed (2 ^ 63). closed (2 ^ 64).
  split; [done|]. split; [lia|]. zdiv.
Qed.

Lemma absClock_spec a : absClock a = (a mod 86400 / 3600, a mod 86400 / 60 mod 60, a mod 86400 mod 60).
Proof.
  unfold absClock. closed secondsPerDay. closed secondsPerHour. closed secondsPerMinute.
  pose proof (Z.mod_pos_bound a 86400 ltac:(lia)). set (s := a mod 86400) in *. f_equal; [f_equal|]; zdiv.
Qed.

(** What the calendar shows of a time. *)
Lemma shown_date t : shown t -> Date_of t = civil (unix_day t).
Proof.
  intros Ht. destruct (abs_spec t Ht) as (_ & Hr & Hd & _). unfold Date_of, date.
  rewrite absDate_civil by (closed secondsPerDay; lia). rewrite Hd.
  replace (unix_day t + epoch_days - epoch_days) with (unix_day t) by lia. by destruct (civil (unix_day t)) as [[y m] d].
Qed.

Lemma shown_weekday t : shown t -> Weekday t = weekday (unix_day t).
Proof.
  intros Ht. destruct (abs_spec t Ht) as (_ & Hr & Hd & Hm). unfold Weekday, absWeekday, uint64, weekday.
  unfold secondsPerWeek in *. closed secondsPerDay. rewrite (Z.mod_small _ (2 ^ 64)) by (closed (2 ^ 64); lia).
  closed epoch_days. closed (7 * 86400). clear Hm. zdiv.
Qed.

Lemma absDate_yday a : (absDate a false).2 = (absDate a true).2.
Proof.
  rewrite absDate_cycles. unfold absDate, cycles. cbv zeta. cbn [negb]. by destruct (month_day _ _).
Qed.

Lemma shown_yday t : shown t -> YearDay t = unix_day t - days_of (year_of (unix_day t)) 1 1 + 1.
Proof.
  intros Ht. destruct (abs_spec t Ht) as (_ & Hr & Hd & _). unfold YearDay, date.
  pose proof (absDate_yday (abs t)) as Hy. destruct (absDate (abs t) false) as [[[y m] d] yd].
  rewrite absDate_civil in Hy by (closed secondsPerDay; lia). simpl in Hy. rewrite Hy, Hd.
  by replace (unix_day t + epoch_days - epoch_days) with (unix_day t) by lia.
Qed.

Lemma shown_clock t : shown t ->
  Clock t = (day_seconds t / 3600, day_seconds t / 60 mod 60, day_seconds t mod 60).
Proof.
  intros Ht. destruct (abs_spec t Ht) as (_ & _ & _ & Hm). unfold Clock. rewrite absClock_spec. closed secondsPerDay.
  by rewrite Hm.
Qed.

(** ** Dates out of their ranges *)

Lemma norm_spec hi lo base : 0 < base <= 2 ^ 30 -> - 2 ^ 61 <= hi <= 2 ^ 61 -> - 2 ^ 61 <= lo <= 2 ^ 61 ->
  norm hi lo base = (hi + lo / base, lo mod base).
Proof.
  intros Hb Hh Hl. assert (Hq : - 2 ^ 61 <= lo / base <= 2 ^ 61).
  { split; [apply Z.div_le_lower_bound|apply Z.div_le_upper_bound]; nia. }
  pose proof (Z.mod_pos_bound lo base ltac:(lia)) as Hm. pose proof (Z.div_mod lo base ltac:(lia)) as Hd.
  assert (Hn : lo < 0 -> Z.quot (- lo - 1) base + 1 = - (lo / base)).
  { intros Hneg. rewrite Z.quot_div_nonneg by lia. enough ((- lo - 1) / base = - (lo / base) - 1) as -> by lia.
    symmetry. apply (Z.div_unique_pos _ _ _ (base - 1 - lo mod base)); [lia|].
    rewrite Z.mul_sub_distr_l, Z.mul_opp_r. lia. }
  assert (Hp : 0 <= lo -> Z.quot lo base = lo / base) by (intros; apply Z.quot_div_nonneg; lia).
  set (q := lo / base) in *. set (r := lo mod base) in *. clearbody q r. unfold norm.
  destruct (Z.ltb_spec lo 0) as [Hneg|Hpos].
  - rewrite Hn by done. replace (lo + - q * base) with r by lia.
    rewrite !wrap64_id by lia. rewrite (proj2 (Z.leb_gt _ _)) by lia. f_equal. rewrite wrap64_id; lia.
  - rewrite Hp by done. replace (lo - q * base) with r by lia. destruct (Z.leb_spec base lo).
    + by rewrite !wrap64_id by lia.
    + assert (q = 0) by nia. f_equal; nia.
Qed.

(** The seconds since 1970 of a date and a clock that need not be in their ranges. *)
Definition date_unix (year month day hour min sec nsec : Z) : Z :=
  days_of (year + (month - 1) / 12) ((month - 1) mod 12 + 1) day * 86400
  + hour * 3600 + min * 60 + sec + nsec / Second.

(** The arguments that stay away from the bounds of the instants. *)
Definition date_args (year month day hour min sec nsec : Z) : Prop :=
  (- 2 ^ 35 <= year <= 2 ^ 35 /\ - 2 ^ 37 <= month <= 2 ^ 37 /\ - 2 ^ 43 <= day <= 2 ^ 43)
  /\ (- 2 ^ 47 <= hour <= 2 ^ 47 /\ - 2 ^ 52 <= min <= 2 ^ 52 /\ - 2 ^ 58 <= sec <= 2 ^ 58) /\ - 2 ^ 60 <= nsec <= 2 ^ 60.

Lemma wrap64_add a c : wrap64 (wrap64 a + c) = wrap64 (a + c).
Proof.
  unfold wrap64. f_equal. replace ((a + 2 ^ 63) mod 2 ^ 64 - 2 ^ 63 + c + 2 ^ 63) with ((a + 2 ^ 63) mod 2 ^ 64 + c) by lia.
  rewrite Zplus_mod_idemp_l. f_equal. lia.
Qed.

Lemma wrap64_mod a b : (exists k, a = b + k * 2 ^ 64) -> wrap64 a = wrap64 b.
Proof. intros [k ->]. unfold wrap64. f_equal. rewrite <- Z.add_assoc, (Z.add_comm (k * _)), Z.add_assoc. apply Z.mod_add. lia. Qed.

Lemma wrap64_mul a b c : wrap64 (wrap64 a * b + c) = wrap64 (a * b + c).
Proof.
  apply wrap64_mod. exists (- ((a + 2 ^ 63) / 2 ^ 64) * b). unfold wrap64.
  pose proof (Z.div_mod (a + 2 ^ 63) (2 ^ 64) ltac:(lia)) as Hd. rewrite (Z.mod_eq (a + 2 ^ 63)) by lia. ring.
Qed.

Lemma wrap64_uint64 a c : wrap64 (uint64 a + c) = wrap64 (a + c).
Proof.
  unfold wrap64, uint64. f_equal. rewrite <- Z.add_assoc, Zplus_mod_idemp_l. by rewrite Z.add_assoc.
Qed.

Lemma days_of_bounds y m d : 1 <= m <= 12 -> - 2 ^ 37 <= y <= 2 ^ 37 -> - 2 ^ 44 <= d <= 2 ^ 44 ->
  366 * Z.min y 0 - 2 ^ 44 - 1000000 <= days_of y m d <= 366 * Z.max y 0 + 2 ^ 44 + 1000000.
Proof.
  intros Hm Hy Hd. unfold days_of, days_of_era, era_days.
  assert (0 <= (153 * (m + (if 2 <? m then -3 else 9)) + 2) / 5 <= 337) by (destruct (Z.ltb_spec 2 m); zdiv).
  closed (2 ^ 44). closed (2 ^ 37). destruct (m <=? 2); zdiv.
Qed.

Lemma div_bounds a k b : 0 < k -> - b * k <= a <= b * k -> - b <= a / k <= b.
Proof. intros Hk Ha. split; [apply Z.div_le_lower_bound|apply Z.div_le_upper_bound]; lia. Qed.

(** The seconds of [Date], before they are an instant. *)
Definition Date_unix (year month day hour min sec : Z) : Z :=
  let d := daysSinceEpoch year in
  let d := d + daysBefore (month - 1) in
  let d := if isLeap year && (3 <=? month) then d + 1 else d in
  let d := uint64 (d + (day - 1)) in
  let abs := uint64 (d * secondsPerDay + (hour * secondsPerHour + min * secondsPerMinute + sec)) in
  wrap64 (abs + (absoluteToInternal + internalToUnix)).

Lemma Date_unix_spec year month day hour min sec : - 2 ^ 37 <= year <= 2 ^ 37 -> 1 <= month <= 12 ->
  let u := days_of year month day * 86400 + hour * 3600 + min * 60 + sec in
  - 2 ^ 63 <= u < 2 ^ 63 -> Date_unix year month day hour min sec = u.
Proof.
  intros Hy Hm u Hu. unfold Date_unix. cbv zeta. rewrite wrap64_uint64.
  replace (if isLeap year && (3 <=? month) then daysSinceEpoch year + daysBefore (month - 1) + 1
    else daysSinceEpoch year + daysBefore (month - 1)) with (daysSinceEpoch year + daysBefore (month - 1)
    + (if is_leap year && (3 <=? month) then 1 else 0)) by (rewrite isLeap_spec; destruct (_ && _); lia).
  rewrite daysSinceEpoch_spec by (closed absoluteZeroYear; closed (2 ^ 37); closed (2 ^ 38); lia).
  replace (days_of year 1 1 + epoch_days + daysBefore (month - 1)
    + (if is_leap year && (3 <=? month) then 1 else 0) + (day - 1)) with (days_of year month day + epoch_days)
    by (rewrite (days_of_year year month day) by lia; lia).
  rewrite <- (wrap64_id u) by done. unfold wrap64. f_equal.
  closed secondsPerDay. closed secondsPerHour. closed secondsPerMinute. closed epoch_days.
  closed (absoluteToInternal + internalToUnix). unfold u, uint64.
  rewrite <- !Z.add_assoc, Z.add_mod, Zmult_mod_idemp_l, <- Z.add_mod by lia. f_equal. lia.
Qed.

Lemma unixTime_spec s n : - 2 ^ 62 <= s <= 2 ^ 62 -> 0 <= n < Second ->
  let t := unixTime s n in shown t /\ unix t = s /\ nsec t = n /\ monotonic t = false.
Proof.
  intros Hs Hn t. closed Second.
  assert (Hw : wall t = n) by (unfold t, unixTime, uint64; simpl; apply Z.mod_small; closed (2 ^ 64); lia).
  assert (He : ext t = s + unixToInternal).
  { unfold t, unixTime. simpl. apply wrap64_id. closed unixToInternal. closed (2 ^ 62). closed (2 ^ 63). lia. }
  assert (Hm : monotonic t = false).
  { unfold monotonic. rewrite Hw. apply negb_false_iff, Z.eqb_eq. unfold hasMonotonic. rewrite Z.land_comm.
    apply Z.bits_inj_0. intros i. rewrite Z.land_spec. destruct (Z.eq_dec i 63) as [->|Hi].
    - rewrite (Z.bits_above_log2 n 63), andb_false_r; [done|lia|].
      destruct (Z.eq_dec n 0) as [->|]; [done|]. apply Z.log2_lt_pow2; [lia|]. closed (2 ^ 63). lia.
    - by rewrite Z.pow2_bits_false. }
  assert (Hns : nsec t = n) by (rewrite nsec_mod, Hw; apply Z.mod_small; closed (2 ^ 30); lia).
  assert (Hsec : sec t = s + unixToInternal) by (unfold sec; by rewrite Hm).
  split; [split; [split|]|split; [|done]].
  - rewrite Hw. closed (2 ^ 64). lia.
  - rewrite He. closed unixToInternal. closed (2 ^ 62). closed (2 ^ 63). lia.
  - rewrite Hns. closed Second. lia.
  - intros _. rewrite Hw. closed (2 ^ 30). lia.
  - rewrite Hsec. closed unixToInternal. closed absoluteToInternal. closed (2 ^ 62). lia.
  - unfold unix, internalToUnix. rewrite Hsec. lia.
Qed.

Lemma Date_spec year month day hour min sec n : date_args year month day hour min sec n ->
  let t := Date year month day hour min sec n in
  shown t /\ unix t = date_unix year month day hour min sec n /\ nsec t = n mod Second /\ monotonic t = false.
Proof.
  intros ((Hy & Hmo & Hd) & (Hh & Hmi & Hs) & Hn) t.
  pose proof (Z.mod_pos_bound (month - 1) 12 ltac:(lia)) as Hm12.
  pose proof (div_bounds (month - 1) 12 (2 ^ 34) ltac:(lia) ltac:(lia)) as Hmq.
  pose proof (div_bounds n 1000000000 (2 ^ 31) ltac:(lia) ltac:(lia)) as Hnq.
  set (s1 := sec + n / 1000000000). pose proof (div_bounds s1 60 (2 ^ 54) ltac:(lia) ltac:(unfold s1; lia)) as Hsq.
  set (m1 := min + s1 / 60). pose proof (div_bounds m1 60 (2 ^ 49) ltac:(lia) ltac:(unfold m1; lia)) as Hmiq.
  set (h1 := hour + m1 / 60). pose proof (div_bounds h1 24 (2 ^ 45) ltac:(lia) ltac:(unfold h1; lia)) as Hhq.
  set (year' := year + (month - 1) / 12) in *. set (d1 := day + h1 / 24).
  assert (Ht : t = unixTime (Date_unix year' ((month - 1) mod 12 + 1) d1 (h1 mod 24) (m1 mod 60) (s1 mod 60)) (n mod 1000000000)).
  { unfold t, Date. closed Second. rewrite (wrap64_id (month - 1)), (norm_spec year (month - 1) 12), (norm_spec sec n) by lia. fold s1. cbv beta iota zeta.
    rewrite (norm_spec min s1 60) by (unfold s1; lia). fold m1. cbv beta iota zeta.
    rewrite (norm_spec hour m1 60) by (unfold m1; lia). fold h1. cbv beta iota zeta.
    rewrite (norm_spec day h1 24) by (unfold h1; lia). fold d1 year'. done. }
  assert (Hdays : days_of year' ((month - 1) mod 12 + 1) d1 * 86400 + h1 mod 24 * 3600 + m1 mod 60 * 60 + s1 mod 60
    = date_unix year month day hour min sec n).
  { unfold date_unix. fold year'. closed Second.
    unfold d1. rewrite days_of_day.
    pose proof (Z.div_mod h1 24 ltac:(lia)). pose proof (Z.div_mod m1 60 ltac:(lia)). pose proof (Z.div_mod s1 60 ltac:(lia)).
    unfold h1, m1, s1 in *. lia. }
  assert (Hb : - 2 ^ 62 <= date_unix year month day hour min sec n <= 2 ^ 62).
  { unfold date_unix. fold year'. closed Second.
    pose proof (days_of_bounds year' ((month - 1) mod 12 + 1) day ltac:(lia) ltac:(unfold year'; lia) ltac:(lia)).
    unfold year' in *. lia. }
  assert (Hu : Date_unix year' ((month - 1) mod 12 + 1) d1 (h1 mod 24) (m1 mod 60) (s1 mod 60) = date_unix year month day hour min sec n).
  { rewrite <- Hdays. apply Date_unix_spec; [unfold year'; lia|lia|]. rewrite Hdays. lia. }
  rewrite Ht, Hu. apply unixTime_spec; [done|]. closed Second. by apply Z.mod_pos_bound.
Qed.

Lemma year_bound y m d : 1 <= m <= 12 -> 1 <= d <= 31 -> - 2 ^ 42 <= days_of y m d <= 2 ^ 42 -> - 2 ^ 34 <= y <= 2 ^ 34.
Proof.
  intros Hm Hd. unfold days_of, days_of_era, era_days.
  assert (0 <= (153 * (m + (if 2 <? m then -3 else 9)) + 2) / 5 <= 337) by (destruct (Z.ltb_spec 2 m); zdiv).
  closed (2 ^ 42). closed (2 ^ 34). destruct (m <=? 2); zdiv.
Qed.

(** The times well inside the range of the instants: 9 thousand million years around 1970. *)
Definition near (t : Time) : Prop := shown t /\ - 2 ^ 58 <= unix t <= 2 ^ 58.

Lemma AddDate_unix t y m d : near t -> - 2 ^ 34 <= y <= 2 ^ 34 -> - 2 ^ 36 <= m <= 2 ^ 36 -> - 2 ^ 42 <= d <= 2 ^ 42 ->
  let t' := AddDate t y m d in
  shown t' /\ unix t' = add_date (unix_day t) y m d * 86400 + day_seconds t /\ nsec t' = nsec t.
Proof.
  intros [Ht Hu] Hy Hm Hd t'. unfold t', AddDate. rewrite (shown_date t Ht), (shown_clock t Ht).
  assert (Hday : - 2 ^ 42 <= unix_day t <= 2 ^ 42) by (apply div_bounds; [done|]; closed secondsPerDay; lia).
  assert (Hsecs : 0 <= day_seconds t < 86400) by (by apply Z.mod_pos_bound).
  pose proof (civil_facts (unix_day t)) as Hc. unfold add_date. destruct (civil (unix_day t)) as [[Y M] D].
  destruct Hc as (HM & HD & HY). rewrite <- HY in Hday. pose proof (year_bound Y M D HM HD Hday) as HYb.
  pose proof (nsec_nonneg t) as Hn. pose proof (wf_nsec t (proj1 Ht)) as Hn'. closed Second.
  assert (Hcl : 0 <= day_seconds t / 3600 < 24 /\ 0 <= day_seconds t / 60 mod 60 < 60 /\ 0 <= day_seconds t mod 60 < 60
    /\ day_seconds t / 3600 * 3600 + day_seconds t / 60 mod 60 * 60 + day_seconds t mod 60 = day_seconds t) by (clear - Hsecs; zdiv).
  destruct Hcl as (Hh & Hmi & Hs & Hsum). rewrite !wrap64_id by lia.
  destruct (Date_spec (Y + y) (M + m) (D + d) (day_seconds t / 3600) (day_seconds t / 60 mod 60) (day_seconds t mod 60) (nsec t))
    as (Hsh & Hun & Hns & _); [split; [|split; [|lia]]; lia|].
  split; [done|]. split; [|by rewrite Hns, Z.mod_small].
  rewrite Hun. unfold date_unix. closed Second. rewrite (Z.div_small (nsec t)) by lia.
  replace (M + m - 1) with (M - 1 + m) by lia. lia.
Qed.

(** C13: the calendar of the Go library is the one the handlers are modelled in: the
    date, weekday, day of the year and clock that a time shows are those of [Calendar] at
    its day since 1970, and [AddDate] carries months into years and days into months as [add_date]
    does, keeping the time of day. *)
Theorem calendar_refined t y m d : near t -> - 2 ^ 34 <= y <= 2 ^ 34 -> - 2 ^ 36 <= m <= 2 ^ 36 -> - 2 ^ 42 <= d <= 2 ^ 42 ->
  Date_of t = civil (unix_day t) /\ Weekday t = weekday (unix_day t)
  /\ YearDay t = unix_day t - days_of (year_of (unix_day t)) 1 1 + 1
  /\ Clock t = (day_seconds t / 3600, day_seconds t / 60 mod 60, day_seconds t mod 60)
  /\ unix_day (AddDate t y m d) = add_date (unix_day t) y m d
  /\ Clock (AddDate t y m d) = Clock t /\ nsec (AddDate t y m d) = nsec t.
Proof.
  intros Ht Hy Hm Hd. destruct (AddDate_unix t y m d Ht Hy Hm Hd) as (Hsh & Hu & Hn).
  assert (Hsecs : 0 <= day_seconds t < secondsPerDay) by (by apply Z.mod_pos_bound).
  change 86400 with secondsPerDay in Hu. destruct Ht as [Ht _]. rewrite !shown_clock by done.
  assert (Hds : day_seconds (AddDate t y m d) = day_seconds t).
  { unfold day_seconds at 1. rewrite Hu, Z.add_comm, Z.mod_add, Z.mod_small by done. done. }
  rewrite Hds. repeat split; [by apply shown_date|by apply shown_weekday|by apply shown_yday| |done].
  unfold unix_day at 1. rewrite Hu, Z.div_add_l, Z.div_small, Z.add_0_r by done. done.
Qed.

(** A date that exists, with a clock in its ranges, is shown by the time that
    [Date] gives for it, whatever the year. *)
Theorem Date_roundtrip year month day hour min sec n : - 2 ^ 35 <= year <= 2 ^ 35 -> valid year month day ->
  0 <= hour < 24 -> 0 <= min < 60 -> 0 <= sec < 60 -> 0 <= n < Second ->
  let t := Date year month day hour min sec n in
  Date_of t = (year, month, day) /\ Clock t = (hour, min, sec) /\ nsec t = n /\ Weekday t = weekday (days_of year month day).
Proof.
  intros Hy Hv Hh Hmi Hs Hn t. destruct (Date_spec year month day hour min sec n) as (Hsh & Hu & Hns & _).
  { destruct Hv as [Hm Hd]. unfold month_days in Hd. closed Second. split; [|split; [|lia]]; [|lia].
    split; [lia|]. split; [lia|]. repeat case_match; lia. }
  fold t in Hsh, Hu, Hns. rewrite Z.mod_small in Hns by done.
  assert (Hd : date_unix year month day hour min sec n = days_of year month day * secondsPerDay + (hour * 3600 + min * 60 + sec)).
  { unfold date_unix. closed secondsPerDay. destruct Hv as [Hm _]. rewrite (Z.div_small (month - 1)), (Z.mod_small (month - 1)) by lia.
    rewrite (Z.div_small n) by done. rewrite !Z.add_0_r, Z.sub_add. lia. }
  rewrite Hd in Hu.
  assert (Hday : unix_day t = days_of year month day).
  { unfold unix_day. rewrite Hu. closed secondsPerDay. clear - Hh Hmi Hs. zdiv. }
  assert (Hsecs : day_seconds t = hour * 3600 + min * 60 + sec).
  { unfold day_seconds. rewrite Hu. closed secondsPerDay. clear - Hh Hmi Hs. zdiv. }
  rewrite (shown_date t Hsh), (shown_weekday t Hsh), (shown_clock t Hsh), Hday, Hsecs, civil_days_of by done.
  repeat split; [|done]. clear - Hh Hmi Hs. repeat f_equal; zdiv.
Qed.

(** ** The words of a time *)

Lemma lor_low a k b : 0 <= k -> 0 <= b < 2 ^ k -> Z.lor (a * 2 ^ k) b = a * 2 ^ k + b.
Proof.
  intros Hk Hb. assert (Hz : Z.land (a * 2 ^ k) b = 0).
  { apply Z.bits_inj_0. intros i. rewrite Z.land_spec. destruct (Z.ltb_spec i k).
    - destruct (Z.ltb_spec i 0); [by rewrite Z.testbit_neg_r|]. by rewrite Z.mul_pow2_bits_low.
    - rewrite <- (Z.mod_small b (2 ^ k)) by lia. by rewrite Z.mod_pow2_bits_high, andb_false_r by lia. }
  by rewrite <- Z.lxor_lor, <- Z.add_nocarry_lxor.
Qed.

Lemma ldiff_low a k : 0 <= k -> Z.ldiff a (2 ^ k - 1) = a / 2 ^ k * 2 ^ k.
Proof. intros Hk. replace (2 ^ k - 1) with (Z.ones k) by (by rewrite Z.ones_equiv). by rewrite Z.ldiff_ones_r, Z.shiftl_mul_pow2, Z.shiftr_div_pow2. Qed.

(** The three fields of the wall word. *)
Definition word (mono : bool) (secs n : Z) : Z := ((if mono then 2 ^ 33 else 0) + secs) * 2 ^ 30 + n.

Definition fields (mono : bool) (secs n : Z) (t : Time) : Prop :=
  wall t = word mono secs n /\ 0 <= secs < 2 ^ 33 /\ 0 <= n < 2 ^ 30.

Lemma land_bit w : (Z.land w hasMonotonic =? 0) = negb (Z.testbit w 63).
Proof.
  assert (He : Z.land w hasMonotonic = if Z.testbit w 63 then 2 ^ 63 else 0).
  { apply Z.bits_inj. intros i. unfold hasMonotonic. rewrite Z.land_spec. destruct (Z.eq_dec i 63) as [->|Hi].
    - rewrite Z.pow2_bits_true, andb_true_r by lia. destruct (Z.testbit w 63); [by rewrite Z.pow2_bits_true|by rewrite Z.bits_0].
    - rewrite Z.pow2_bits_false, andb_false_r by lia. destruct (Z.testbit w 63); [by rewrite Z.pow2_bits_false by lia|by rewrite Z.bits_0]. }
  rewrite He. by destruct (Z.testbit w 63).
Qed.

Lemma land_bit63 w : 0 <= w < 2 ^ 64 -> (Z.land w hasMonotonic =? 0) = (w <? 2 ^ 63).
Proof.
  intros Hw. rewrite land_bit, <- (negb_involutive (w <? 2 ^ 63)). f_equal.
  apply eq_true_iff_eq. rewrite Z.testbit_true, negb_true_iff, Z.ltb_ge by lia. closed (2 ^ 63). closed (2 ^ 64). zdiv.
Qed.

Lemma both_monotonic_spec t u : both_monotonic t u = monotonic t && monotonic u.
Proof. unfold both_monotonic, monotonic. by rewrite !land_bit, Z.land_spec, !negb_involutive. Qed.

Lemma fields_spec mono secs n t : fields mono secs n t ->
  monotonic t = mono /\ wall_sec t = secs /\ nsec t = n /\ 0 <= wall t < 2 ^ 64 /\ Z.land (wall t) nsecMask = n.
Proof.
  intros (Hw & Hs & Hn).
  assert (Hr : 0 <= wall t < 2 ^ 64) by (rewrite Hw; unfold word; destruct mono; lia).
  assert (Hns : nsec t = n) by (rewrite nsec_mod, Hw; unfold word; by rewrite Z.add_comm, Z.mod_add, Z.mod_small by lia).
  split; [|split; [|by split; [|split]]].
  - unfold monotonic. rewrite land_bit63, Hw by done. apply eq_true_iff_eq. rewrite negb_true_iff, Z.ltb_ge.
    unfold word. destruct mono; split; intros; try done; lia.
  - unfold wall_sec, uint64, nsecShift. rewrite Z.shiftl_mul_pow2, Z.shiftr_div_pow2, Hw by lia.
    unfold word. closed (2 ^ (30 + 1)). destruct mono; zdiv.
Qed.

Lemma wf_fields t : wf t -> fields (monotonic t) (if monotonic t then wall_sec t else 0) (nsec t) t.
Proof.
  intros [Hw He Hn Hs]. unfold fields. rewrite nsec_mod in *. closed Second.
  assert (Hws : wall_sec t = (wall t mod 2 ^ 63) / 2 ^ 30).
  { unfold wall_sec, uint64, nsecShift. rewrite Z.shiftl_mul_pow2, Z.shiftr_div_pow2 by lia. closed (2 ^ (30 + 1)). zdiv. }
  assert (Hm : monotonic t = negb (wall t <? 2 ^ 63)) by (unfold monotonic; by rewrite land_bit63).
  rewrite Hws, Hm in *. unfold word. destruct (Z.ltb_spec (wall t) (2 ^ 63)); simpl in *.
  - specialize (Hs eq_refl). rewrite (Z.mod_small _ (2 ^ 30)) by lia. lia.
  - clear Hs Hws. zdiv.
Qed.

(** The sum of [add_ext]. *)
Definition clamp_sec (x : Z) : Z := if 2 ^ 63 - 1 <? x then 2 ^ 63 - 1 else if x <? - 2 ^ 63 then - (2 ^ 63 - 1) else x.

Lemma wrap64_cases x : - 2 ^ 64 <= x < 2 ^ 64 ->
  wrap64 x = if x <? - 2 ^ 63 then x + 2 ^ 64 else if 2 ^ 63 <=? x then x - 2 ^ 64 else x.
Proof.
  intros Hx. unfold wrap64. destruct (Z.ltb_spec x (- 2 ^ 63)); [|destruct (Z.leb_spec (2 ^ 63) x)].
  - rewrite <- (Z.mod_add _ 1), Z.mod_small; lia.
  - rewrite <- (Z.mod_add _ (- 1)), Z.mod_small; lia.
  - rewrite Z.mod_small; lia.
Qed.

Lemma add_ext_spec d t : - 2 ^ 63 <= ext t < 2 ^ 63 -> - 2 ^ 62 <= d <= 2 ^ 62 ->
  add_ext d t = {| wall := wall t; ext := clamp_sec (ext t + d) |}.
Proof.
  intros He Hd. unfold add_ext, clamp_sec. f_equal. rewrite wrap64_cases by lia.
  repeat match goal with |- context [?a <? ?b] => destruct (Z.ltb_spec a b) | |- context [?a <=? ?b] => destruct (Z.leb_spec a b) end;
  simpl; lia.
Qed.

Lemma stripMono_spec m s n t : fields m s n t -> (m = false -> s = 0) ->
  fields false 0 n (stripMono t) /\ ext (stripMono t) = sec t.
Proof.
  intros Hf Hs. destruct (fields_spec _ _ _ _ Hf) as (Hm & _ & _ & _ & Hl). unfold stripMono, sec. rewrite Hm.
  destruct Hf as (Hw & _ & Hn). destruct m.
  - split; [|done]. split; [|split; [lia|done]]. simpl. rewrite Hl. unfold word. lia.
  - split; [|done]. rewrite <- (Hs eq_refl). split; [done|]. rewrite (Hs eq_refl). split; [lia|done].
Qed.

Lemma word_lor s n : 0 <= s < 2 ^ 33 -> 0 <= n < 2 ^ 30 ->
  Z.lor (Z.lor n (uint64 (Z.shiftl s nsecShift))) hasMonotonic = word true s n.
Proof.
  intros Hs Hn. unfold nsecShift, uint64, hasMonotonic. rewrite Z.shiftl_mul_pow2, Z.mod_small by lia.
  rewrite (Z.lor_comm n), lor_low, Z.lor_comm by lia. rewrite <- (Z.mul_1_l (2 ^ 63)), lor_low by lia.
  unfold word. lia.
Qed.

Lemma addSec_spec d m s n t : fields m s n t -> (m = false -> s = 0) -> - 2 ^ 63 <= ext t < 2 ^ 63 -> - 2 ^ 62 <= d <= 2 ^ 62 ->
  exists m' s', fields m' s' n (addSec d t) /\ (m' = false -> s' = 0) /\ (m' = true -> m = true /\ ext (addSec d t) = ext t)
    /\ sec (addSec d t) = clamp_sec (sec t + d) /\ - 2 ^ 63 <= ext (addSec d t) < 2 ^ 63.
Proof.
  intros Hf Hs He Hd. destruct (fields_spec _ _ _ _ Hf) as (Hm & Hws & _ & _ & Hl).
  assert (Hclamp : forall x, - 2 ^ 63 <= clamp_sec x < 2 ^ 63).
  { intros x. unfold clamp_sec. destruct (Z.ltb_spec (2 ^ 63 - 1) x); [lia|]. destruct (Z.ltb_spec x (- 2 ^ 63)); lia. }
  assert (Hplain : forall u, fields false 0 n u -> - 2 ^ 63 <= ext u < 2 ^ 63 ->
    fields false 0 n (add_ext d u) /\ sec (add_ext d u) = clamp_sec (ext u + d) /\ - 2 ^ 63 <= ext (add_ext d u) < 2 ^ 63).
  { intros u Hu Hr. rewrite add_ext_spec by done. assert (Hv : fields false 0 n {| wall := wall u; ext := clamp_sec (ext u + d) |}) by done.
    split; [done|]. destruct (fields_spec _ _ _ _ Hv) as (Hmv & _). unfold sec. rewrite Hmv. split; [done|apply Hclamp]. }
  unfold addSec. rewrite Hm. destruct m.
  - assert (Hsec : sec t = wallToInternal + s) by (rewrite sec_wall by done; by rewrite Hws).
    pose proof Hf as (_ & Hsr & Hnr). rewrite Hws, wrap64_id by lia.
    destruct ((0 <=? s + d) && (s + d <=? 2 ^ 33 - 1)) eqn:E.
    + bool_prop. set (v := {| wall := _; ext := _ |}). exists true, (s + d).
      assert (Hv : fields true (s + d) n v).
      { split; [|split; [lia|done]]. unfold v. simpl. rewrite Hl. apply word_lor; [lia|done]. }
      split; [done|]. split; [done|]. split; [done|]. split; [|done].
      destruct (fields_spec _ _ _ _ Hv) as (Hmv & Hwv & _). rewrite sec_wall by done. rewrite Hwv, Hsec.
      unfold clamp_sec. closed wallToInternal. rewrite (proj2 (Z.ltb_ge _ _)), (proj2 (Z.ltb_ge _ _)) by lia. lia.
    + destruct (stripMono_spec _ _ _ _ Hf Hs) as (Hst & Hse).
      destruct (Hplain (stripMono t) Hst) as (Hp & Hps & Hpe); [rewrite Hse, Hsec; closed wallToInternal; lia|].
      exists false, 0. rewrite Hps, Hse. done.
  - rewrite (Hs eq_refl) in Hf. destruct (Hplain t Hf He) as (Hp & Hps & Hpe). exists false, 0.
    unfold sec at 2. rewrite Hm, Hps. done.
Qed.

(** The nanoseconds of an instant, from the zero time. *)
Definition instant (t : Time) : Z := sec t * Second + nsec t.

Lemma set_nsec t n : wf t -> 0 <= n < 2 ^ 30 ->
  let u := {| wall := Z.lor (Z.ldiff (wall t) nsecMask) n; ext := ext t |} in
  fields (monotonic t) (if monotonic t then wall_sec t else 0) n u /\ sec u = sec t.
Proof.
  intros Ht Hn u. pose proof (wf_fields t Ht) as Hf. destruct (fields_spec _ _ _ _ Hf) as (_ & Hws & _).
  assert (Hu : fields (monotonic t) (if monotonic t then wall_sec t else 0) n u).
  { destruct Hf as (Hw & Hs & Ht'). split; [|done]. unfold u, nsecMask. simpl. rewrite ldiff_low, lor_low by lia.
    rewrite Hw at 1. unfold word. rewrite Z.div_add_l, (Z.div_small (nsec t)) by lia. lia. }
  split; [done|]. destruct (fields_spec _ _ _ _ Hu) as (Hm & Hws' & _). unfold sec. rewrite Hm.
  destruct (monotonic t); [by rewrite Hws'|done].
Qed.

Lemma sec_of_fields m s n t u : fields m s n t -> fields m s n u -> (m = false -> ext t = ext u) -> sec t = sec u.
Proof.
  intros Ht Hu He. destruct (fields_spec _ _ _ _ Ht) as (Hm & Hw & _), (fields_spec _ _ _ _ Hu) as (Hm' & Hw' & _).
  unfold sec. rewrite Hm, Hm', Hw, Hw'. destruct m; [done|auto].
Qed.

Lemma carry_spec n d : 0 <= n < Second -> - 2 ^ 63 <= d < 2 ^ 63 ->
  (if Second <=? n + Z.rem d Second then (Z.quot d Second + 1, n + Z.rem d Second - Second)
   else if n + Z.rem d Second <? 0 then (Z.quot d Second - 1, n + Z.rem d Second + Second)
   else (Z.quot d Second, n + Z.rem d Second))
  = ((n + d) / Second, (n + d) mod Second).
Proof.
  intros Hn Hd. closed Second. pose proof (Z.quot_rem d 1000000000 ltac:(lia)) as Hq.
  assert (Hr : - 1000000000 < Z.rem d 1000000000 < 1000000000).
  { pose proof (Z.rem_bound_abs d 1000000000 ltac:(lia)). lia. }
  set (q := Z.quot d 1000000000) in *. set (r := Z.rem d 1000000000) in *. clearbody q r. subst d.
  assert (Hu : forall x y, 0 <= y < 1000000000 -> n + (1000000000 * q + r) = 1000000000 * x + y ->
    (x, y) = ((n + (1000000000 * q + r)) / 1000000000, (n + (1000000000 * q + r)) mod 1000000000)).
  { intros x y Hy E. f_equal; [by apply (Z.div_unique_pos _ _ _ y)|by apply (Z.mod_unique_pos _ _ x)]. }
  destruct (Z.leb_spec 1000000000 (n + r)); [apply Hu; lia|]. destruct (Z.ltb_spec (n + r) 0); apply Hu; lia.
Qed.

Lemma Add_instant t d : wf t -> - 2 ^ 63 <= d < 2 ^ 63 ->
  nsec (Add t d) = (instant t + d) mod Second /\ sec (Add t d) = clamp_sec ((instant t + d) / Second)
  /\ (monotonic (Add t d) = true -> monotonic t = true).
Proof.
  intros Ht Hd. pose proof (conj (nsec_nonneg t) (wf_nsec t Ht)) as Hn.
  unfold Add. cbv zeta. rewrite (carry_spec (nsec t) d Hn Hd).
  assert (Hi : instant t + d = sec t * Second + (nsec t + d)) by (unfold instant; lia). rewrite Hi. clear Hi.
  rewrite Z.div_add_l by done. rewrite (Z.add_comm (sec t * Second)), Z.mod_add by done.
  assert (Hk : 0 <= (nsec t + d) mod Second < 2 ^ 30).
  { pose proof (Z.mod_pos_bound (nsec t + d) Second ltac:(done)). closed Second. lia. }
  assert (Hq : - 2 ^ 62 <= (nsec t + d) / Second <= 2 ^ 62) by (closed Second; apply div_bounds; lia).
  destruct (set_nsec t _ Ht Hk) as (Hf & Hs). cbv beta zeta in Hf, Hs. set (u := {| wall := _; ext := _ |}) in *.
  destruct (addSec_spec ((nsec t + d) / Second) _ _ _ u Hf) as (m & s & Hv & Hm0 & Hm1 & Hsv & Hev);
    [by intros ->|apply (wf_ext t Ht)|done|].
  set (v := addSec _ u) in *. rewrite Hs in Hsv. clearbody v. clear Hf Hk Hq.
  destruct (fields_spec _ _ _ _ Hv) as (Hmv & _ & Hnv & _). rewrite Hmv. destruct m; [|split; [done|]; split; [done|by rewrite Hmv]].
  destruct (Hm1 eq_refl) as [Hmt _]. destruct ((_ && _) || _).
  - destruct (stripMono_spec _ _ _ _ Hv Hm0) as (Hst & Hes). destruct (fields_spec _ _ _ _ Hst) as (Hms & _ & Hns & _).
    split; [done|]. split; [unfold sec at 1; by rewrite Hms, Hes|done].
  - assert (Hw : fields true s ((nsec t + d) mod Second) {| wall := wall v; ext := wrap64 (ext v + d) |}) by exact Hv.
    destruct (fields_spec _ _ _ _ Hw) as (Hmw & _ & Hnw & _). split; [done|]. split; [|done].
    rewrite <- Hsv. by apply (sec_of_fields true s _ _ _ Hw Hv).
Qed.

(** ** The difference of two instants *)

(** The nearest duration. *)
Definition clamp (x : Z) : Z := Z.max minDuration (Z.min maxDuration x).

Lemma clamp_sec_cases x : - 2 ^ 64 <= x < 2 ^ 64 ->
  (2 ^ 63 - 1 < x /\ clamp_sec x = 2 ^ 63 - 1) \/ (x < - 2 ^ 63 /\ clamp_sec x = - (2 ^ 63 - 1))
  \/ (- 2 ^ 63 <= x <= 2 ^ 63 - 1 /\ clamp_sec x = x).
Proof. intros Hx. unfold clamp_sec. destruct (Z.ltb_spec (2 ^ 63 - 1) x); [lia|]. destruct (Z.ltb_spec x (- 2 ^ 63)); lia. Qed.

Lemma subMono_spec t u : - 2 ^ 63 <= t < 2 ^ 63 -> - 2 ^ 63 <= u < 2 ^ 63 -> subMono t u = clamp (t - u).
Proof.
  intros Ht Hu. unfold subMono, clamp, minDuration, maxDuration. rewrite wrap64_cases by lia.
  repeat match goal with |- context [?a <? ?b] => destruct (Z.ltb_spec a b) | |- context [?a <=? ?b] => destruct (Z.leb_spec a b) end;
  simpl; lia.
Qed.

(** Without two monotonic clocks, instants are compared by their nanoseconds. *)
Lemma Before_instant t u : wf t -> wf u -> both_monotonic t u = false -> Before t u = (instant t <? instant u).
Proof.
  intros Ht Hu Hb. unfold Before, instant. rewrite Hb.
  pose proof (nsec_nonneg t). pose proof (nsec_nonneg u). pose proof (wf_nsec t Ht). pose proof (wf_nsec u Hu). closed Second.
  apply eq_true_iff_eq. rewrite orb_true_iff, andb_true_iff, !Z.ltb_lt, Z.eqb_eq. lia.
Qed.

Lemma Add_back t u : wf t -> wf u -> both_monotonic t u = false ->
  let d := wrap64 (instant t - instant u) in Equal (Add u d) t = (d =? instant t - instant u).
Proof.
  intros Ht Hu Hb d. pose proof (wrap64_range (instant t - instant u)) as Hd. fold d in Hd.
  destruct (Add_instant u d Hu Hd) as (Hn & Hs & Hm).
  assert (Hb' : both_monotonic (Add u d) t = false).
  { rewrite both_monotonic_spec in *. destruct (monotonic (Add u d)); [|done]. rewrite (Hm eq_refl), andb_true_r in Hb. by rewrite Hb. }
  unfold Equal. rewrite Hb', Hn, Hs.
  pose proof (sec_range t Ht) as Hts. pose proof (sec_range u Hu) as Hus.
  pose proof (nsec_nonneg t) as Htn. pose proof (nsec_nonneg u) as Hun. pose proof (wf_nsec t Ht) as Htn'. pose proof (wf_nsec u Hu) as Hun'.
  assert (Hid : - 2 ^ 63 <= instant t - instant u < 2 ^ 63 -> d = instant t - instant u) by (intros; by apply wrap64_id).
  pose proof (Z.div_mod (instant u + d) Second ltac:(done)) as Hdm. pose proof (Z.mod_pos_bound (instant u + d) Second ltac:(done)) as Hmb.
  set (q := (instant u + d) / Second) in *. set (r := (instant u + d) mod Second) in *. clearbody q r d.
  unfold instant in *. closed Second.
  apply eq_true_iff_eq. rewrite andb_true_iff, !Z.eqb_eq.
  assert (Hq : - 2 ^ 64 <= q < 2 ^ 64) by lia. destruct (clamp_sec_cases q Hq) as [[Hc ->]|[[Hc ->]|[Hc ->]]]; lia.
Qed.

(** C14: the difference of two times is the difference of their monotonic clocks when
    both have one, else that of their instants: exact when it fits a duration, and
    otherwise the largest or the smallest duration. *)
Theorem Sub_saturates t u : wf t -> wf u ->
  Sub t u = clamp (if monotonic t && monotonic u then ext t - ext u else instant t - instant u).
Proof.
  intros Ht Hu. unfold Sub. rewrite <- both_monotonic_spec. destruct (both_monotonic t u) eqn:Hb.
  - apply subMono_spec; [apply (wf_ext t Ht)|apply (wf_ext u Hu)].
  - assert (Hd : wrap64 (wrap64 (wrap64 (sec t - sec u) * Second) + (nsec t - nsec u)) = wrap64 (instant t - instant u)).
    { unfold instant. rewrite wrap64_add, wrap64_mul. f_equal. lia. }
    cbv zeta. rewrite Hd, (Add_back t u Ht Hu Hb), (Before_instant t u Ht Hu Hb).
    pose proof (wrap64_range (instant t - instant u)) as Hr.
    pose proof (wrap64_id (instant t - instant u)) as Hid. unfold clamp, minDuration, maxDuration.
    destruct (Z.eqb_spec (wrap64 (instant t - instant u)) (instant t - instant u)); [lia|].
    destruct (Z.ltb_spec (instant t) (instant u)); lia.
Qed.

(** ** Examples *)

Definition lunch : Time := Date 2025 12 31 12 30 15 250.

(** A time with a monotonic clock, in 2026, as [Now] gives it. *)
Definition ticking (secs n clock : Z) : Time := {| wall := word true secs n; ext := clock |}.

Lemma near_lunch : near lunch.
Proof. split; [split; [split|]|split]; by vm_compute. Defined.

Lemma wf_ticking : wf (ticking 4447872000 7 500) /\ wf lunch /\ wf (Date 2400 1 1 0 0 0 0).
Proof. repeat split; by vm_compute. Defined.

(** The last day of December, two months on: the 31st of February is the 3rd of March. *)
Lemma calendar_refined_witness :
  Date_of lunch = civil 20453 /\ Date_of (AddDate lunch 0 2 0) = (2026, 3, 3)
  /\ unix_day (AddDate lunch 0 2 0) = add_date (unix_day lunch) 0 2 0.
Proof.
  destruct (calendar_refined lunch 0 2 0 near_lunch) as (Hd & _ & _ & _ & Ha & _); [lia..|].
  split; [exact Hd|]. split; [by vm_compute|exact Ha].
Defined.

Lemma Date_roundtrip_witness : Date_of (Date 2024 2 29 23 59 59 999999999) = (2024, 2, 29).
Proof.
  destruct (Date_roundtrip 2024 2 29 23 59 59 999999999) as (H & _); [lia|by vm_compute|lia..|by vm_compute|exact H].
Defined.

(** Of a monotonic clock and a date the instants count; four centuries are more than a
    duration holds. *)
Lemma Sub_saturates_witness :
  Sub lunch (ticking 4447872000 7 500) = clamp (instant lunch - instant (ticking 4447872000 7 500))
  /\ Sub (Date 2400 1 1 0 0 0 0) lunch = maxDuration.
Proof.
  destruct wf_ticking as (Ht & Hl & Hd).
  split; [exact (Sub_saturates lunch _ Hl Ht)|]. rewrite (Sub_saturates _ lunch Hd Hl). by vm_compute.
Defined.
