(* ===== verification/Demo.v ===== *)
(** * A concrete server and database

    The instances at which the witnesses apply the theorems: a PostgreSQL with
    the schema of the migrations, identifiers of 36 characters, fixed-point
    conversions through [scaled], and a small company. *)

From S2P Require Import Prelude Float64 Go Sql Schema Calendar.

(** The columns that [src/backend/migrations] and [src/fix_leave_schema.sql], which
    [src/scripts/reset-db.sh] applies after them, give to the tables that the backend
    also names with other columns. *)
Definition migrated_columns (t : string) : list string :=
  if t =?s "leave_balances" then
    ["id"; "employee_id"; "leave_type_id"; "year"; "total_accrued"; "total_used"; "balance";
     "created_at"; "updated_at"]
  else if t =?s "leave_types" then
    ["id"; "organization_id"; "name"; "description"; "is_paid"; "max_carry_forward"; "created_at";
     "updated_at"; "code"; "accrual_frequency"; "accrual_days"; "sandwich_rule"; "allow_half_day";
     "encashable"]
  else if t =?s "regularization_requests" then
    ["id"; "attendance_log_id"; "employee_id"; "requested_check_in"; "requested_check_out"; "reason";
     "status"; "workflow_instance_id"; "created_at"; "updated_at"]
  else if t =?s "departments" then
    ["id"; "organization_id"; "name"; "code"; "parent_id"; "created_at"; "updated_at"; "deleted_at"]
  else if t =?s "employee_documents" then
    ["id"; "employee_id"; "document_type"; "file_path"; "original_file_name"; "verification_status";
     "verified_by"; "verified_at"; "created_at"; "updated_at"]
  else [].

Definition migrated_required (t : string) : list string :=
  if t =?s "leave_balances" then ["employee_id"; "leave_type_id"; "year"]
  else if t =?s "regularization_requests" then ["attendance_log_id"; "employee_id"]
  else [].

Definition contains (s p : string) : bool :=
  match String.index 0 (String.substring 1 (String.length p - 2) p) s with
  | Some _ => true | None => false end.

Definition nat_at (s : string) (i n : nat) : option Z := Atoi (String.substring i n s).

(** "YYYY-MM-DD" *)
Definition demo_date_in (s : string) : option Z :=
  if negb (Nat.eqb (String.length s) 10) then None else
  y ← nat_at s 0 4; m ← nat_at s 5 2; d ← nat_at s 8 2;
  if (1 <=? m) && (m <=? 12) && (1 <=? d) && (d <=? month_days y m) then Some (days_of y m d) else None.

(** "YYYY-MM-DD HH:MM:SS" *)
Definition demo_timestamp_in (s : string) : option Z :=
  if negb (Nat.eqb (String.length s) 19) then None else
  z ← demo_date_in (String.substring 0 10 s);
  h ← nat_at s 11 2; m ← nat_at s 14 2; c ← nat_at s 17 2;
  Some (z * day_us + (h * 3600 + m * 60 + c) * 1000000).

Example demo_timestamp_ex :
  datetime_text (default 0 (demo_timestamp_in "2026-09-04 12:34:56")) = "2026-09-04 12:34:56".
Proof. by vm_compute. Qed.

(** Objects of one string member without escapes: four quotes in all. *)
Fixpoint count_quotes (s : string) : nat :=
  match s with
  | EmptyString => O
  | String c s => (if Ascii.eqb c (ascii_of_nat 34) then 1 else 0) + count_quotes s
  end.
Definition demo_jsonb_in (s : string) : option string :=
  if Nat.eqb (count_quotes s) 4 then Some s else None.

#[export] Instance demo_server : Server := {|
    db_nil := false;
    audit_nil := false;
    columns := migrated_columns;
    required := migrated_required;
    uuid_in := fun s => if Nat.eqb (String.length s) 36 then Some s else None;
    num_in := fun p d x => match scaled d x with
                         | Some n => if Z.abs n <? 10 ^ p then Some n else None
                         | None => None
                         end;
    num_out := fun d n => fdiv (of_Z n) (of_Z (10 ^ d));
    varchar_in := fun n s => if Z.of_nat (String.length s) <=? n then Some s else None;
    date_in := demo_date_in;
    timestamp_in := demo_timestamp_in;
    jsonb_in := demo_jsonb_in;
    ilike := contains;
    collate := String.leb
  |}.

(** Identifier number [n]. *)
Definition uid (n : Z) : string := "00000000-0000-4000-8000-" +:+ pad0 12 n.

Definition demo_time : Z := days_of 2026 9 30 * day_us.

(** No failures, a fixed time, the n-th interaction creates the identifier [base + n]. *)
Definition demo_env (base : Z) : Env := calm demo_time (fun n => uid (base + Z.of_nat n)).

Definition demo_user (n : Z) (email : string) : UserRow :=
  {| usr_id := uid n; usr_email := email; usr_password_hash := "h:secret-1"; usr_is_active := true;
     usr_last_login := None; usr_password_reset_token := None;
     usr_password_reset_expires_at := None; usr_created_at := demo_time; usr_invited_at := None;
     usr_invitation_token := None; usr_invitation_expires_at := None |}.

Definition demo_employee (n user : Z) (code first : string) : EmpRow :=
  {| emp_id := uid n; emp_user_id := Some (uid user); emp_employee_id := code;
     emp_first_name := first; emp_last_name := "Rao"; emp_department_id := None;
     emp_designation_id := None; emp_manager_id := None; emp_reporting_manager_id := None; emp_status := "ACTIVE";
     emp_joining_date := days_of 2024 1 1; emp_deleted_at := None; emp_location_id := None;
     emp_work_phone := None; emp_employment_type := "PERMANENT"; emp_probation_end_date := None;
     emp_confirmation_date := None; emp_notice_period_days := Some 30; emp_nationality := Some "Indian";
     emp_created_at := demo_time; emp_updated_at := demo_time |}.

Definition demo_structure (n emp base : Z) : StructRow :=
  {| ess_id := uid n; ess_employee_id := uid emp; ess_currency_code := "INR"; ess_base_salary := base;
     ess_is_active := true; ess_created_at := demo_time; ess_updated_at := demo_time |}.

Definition demo_advance (n emp amount : Z) : AdvRow :=
  {| adv_id := uid n; adv_employee_id := uid emp; adv_amount := amount; adv_recovery_months := 1;
     adv_reason := "rent"; adv_deduct_from_month := 9; adv_deduct_from_year := 2026;
     adv_status := "APPROVED"; adv_approved_by := None; adv_created_at := demo_time;
     adv_updated_at := demo_time |}.

Definition demo_run (n : Z) (status : string) : RunRow :=
  {| run_id := uid n; run_organization_id := uid 100; run_month := 8; run_year := 2026;
     run_status := status; run_processed_at := Some demo_time; run_processed_by := Some (uid 1);
     run_approved_by := None; run_approved_at := None; run_locked_at := None;
     run_total_employees := 0; run_total_gross := 0; run_total_deductions := 0;
     run_total_net_pay := 0; run_total_lop_days := 0; run_total_advances_deducted := 0;
     run_variance_percentage := 0; run_created_at := demo_time |}.

(** Two users, two employees, the first with a salary of 60000.00 and an advance
    of 5000.00 to be deducted in September 2026. *)
Definition demo_db : Database :=
  tput organizations [{| org_id := uid 100; org_name := "Company"; org_code := "CO" |}]
  (tput users [demo_user 1 "asha@company.com"; demo_user 2 "ravi@company.com"]
  (tput employees [demo_employee 11 1 "EMP-1" "Asha"; demo_employee 12 2 "EMP-2" "Ravi"]
  (tput currencies [{| cur_code := "INR"; cur_name := "Indian Rupee"; cur_symbol := "Rs";
                       cur_exchange_rate_to_base := 1000000; cur_is_base := true;
                       cur_updated_at := demo_time |}]
  (tput employee_salary_structures [demo_structure 21 11 6000000]
  (tput payroll_advances [demo_advance 31 11 500000] empty_db))))).

Definition demo_claims (n : Z) (roles : list string) : Claims :=
  {| UserID := uid n; Email := "asha@company.com"; Roles := roles; Scope := "SELF" |}.

Definition demo_request {B} (c : option Claims) (b : option B) (id : string) : Request B :=
  {| claims := c; urlParam := fun _ => id; query := fun _ => ""; body := b |}.

Lemma demo_reliable base : reliable (demo_env base).
Proof. done. Qed.

Lemma demo_no_failure : db_nil = false.
Proof. done. Qed.
