(* ===== verification/Common.v ===== *)
(** * internal/common: pagination *)

From S2P Require Import Prelude Float64 Go.
From Stdlib Require Import SpecFloat.

Record PaginationParams := {
  Page : Z;
  Limit : Z;
  Offset : Z;
  Search : string;
  SortBy : string;
  SortOrder : string
}.

Record PaginationMeta := {
  MPage : Z;
  MLimit : Z;
  Total : Z;
  TotalPages : Z;
  HasNext : bool;
  HasPrev : bool
}.

Definition JSONError (msg : string) (code : Z) : Response := fail_json code msg.

Definition ParsePaginationParams (q : string -> string) : PaginationParams :=
  let page := match Atoi (q "page") with
              | Some p => if p <? 1 then 1 else p
              | None => 1
              end in
  let limit := match Atoi (q "limit") with
               | Some l => if l <? 1 then 10 else if 100 <? l then 100 else l
               | None => 10
               end in
  let offset := wrap64 ((page - 1) * limit) in
  let sortOrder := q "sort_order" in
  let sortOrder := if negb (sortOrder =?s "ASC") && negb (sortOrder =?s "asc")
                   then "DESC" else sortOrder in
  {| Page := page; Limit := limit; Offset := offset; Search := q "search";
     SortBy := q "sort_by"; SortOrder := sortOrder |}.

(** [int(math.Ceil(x))] for a finite [x]. *)
Definition int_ceil (x : f64) : Z :=
  match x with
  | S754_finite s m e =>
      let v := if s then Zneg m else Zpos m in
      if 0 <=? e then v * 2 ^ e else - ((- v) / 2 ^ (- e))
  | _ => 0
  end.

Definition BuildPaginationMeta (total page limit : Z) : PaginationMeta :=
  let limit := if limit <? 1 then 10 else limit in
  let totalPages := int_ceil (of_Z total / of_Z limit)%f64 in
  let totalPages := if totalPages <? 1 then 1 else totalPages in
  {| MPage := page; MLimit := limit; Total := total; TotalPages := totalPages;
     HasNext := page <? totalPages; HasPrev := 1 <? page |}.

Definition meta_json (m : PaginationMeta) : json :=
  JObj [("page", JInt (MPage m)); ("limit", JInt (MLimit m)); ("total", JInt (Total m));
        ("total_pages", JInt (TotalPages m)); ("has_next", JBool (HasNext m));
        ("has_prev", JBool (HasPrev m))].

(** [LIMIT $1 OFFSET $2]. PostgreSQL refuses a negative offset when it executes
    the query, which the driver reports after [Query] has returned: the handlers
    see no rows. *)
Definition paginate {A} (pg : PaginationParams) (l : list A) : list A :=
  if Offset pg <? 0 then []
  else take (Z.to_nat (Limit pg)) (drop (Z.to_nat (Offset pg)) l).

Definition select_page {D A} (pg : PaginationParams) (f : D -> list A) : stmt D (list A) :=
  fun _ d => Ok (paginate pg (f d), d).

(** The page of [data] that the listing handlers return, [count] being the total. *)
Definition page_json (pg : PaginationParams) (count : Z) (data : list json) : Response :=
  ok_json [("data", JArr data); ("total", JInt count);
           ("pagination", meta_json (BuildPaginationMeta count (Page pg) (Limit pg)))].

(** ** Properties *)

Lemma limit_bounds q : 1 <= Limit (ParsePaginationParams q) <= 100.
Proof.
  simpl. destruct (Atoi (q "limit")) as [l|]; [|lia].
  repeat case_match; bool_prop; lia.
Qed.

Lemma page_pos q : 1 <= Page (ParsePaginationParams q) < 2 ^ 63.
Proof.
  simpl. destruct (Atoi (q "page")) as [p|] eqn:E; [|lia].
  apply Atoi_range in E. case_match; bool_prop; lia.
Qed.

(** The window a page selects is the [Limit] rows after the first
    [(Page - 1) * Limit], for any page up to 2^56: the product does not wrap. *)
Lemma offset_exact q :
  Page (ParsePaginationParams q) <= 2 ^ 56 ->
  Offset (ParsePaginationParams q) =
    (Page (ParsePaginationParams q) - 1) * Limit (ParsePaginationParams q).
Proof.
  intros Hp. pose proof (limit_bounds q). pose proof (page_pos q).
  unfold Offset, ParsePaginationParams in *. simpl in *. apply wrap64_id. nia.
Qed.

Lemma paginate_sub {A} pg (l : list A) x : x ∈ paginate pg l -> x ∈ l.
Proof.
  unfold paginate. destruct (_ <? 0); [by intros ?%not_elem_of_nil|]. intros Hx.
  apply elem_of_take in Hx as (i & Hx & _). rewrite lookup_drop in Hx. by eapply list_elem_of_lookup_2.
Qed.

Lemma select_page_ok {D A} pg (f : D -> list A) c d b d' :
  select_page pg f c d = Ok (b, d') -> b = paginate pg (f d) /\ d' = d.
Proof. by intros [= <- <-]. Qed.

Lemma respects_select_page {D A} (R : relation D) `{!PreOrder R} pg (f : D -> list A) :
  respects R (select_page pg f).
Proof. intros c d b d' [= _ <-]. reflexivity. Qed.
