(* ===== verification/Auth.v ===== *)
(** * internal/auth: roles, scopes, tokens and the account handlers

    JWT signing, bcrypt, SHA-256 are libraries of the program: [Crypto] names
    what the code calls, [CryptoLaws] the documented behaviour it relies on. *)

From S2P Require Import Prelude Float64 Go Sql Schema.

#[local] Open Scope prog_scope.

(** ** Data scopes *)

Definition ScopeSelf := "SELF".
Definition ScopeDirectReports := "DIRECT_REPORTS".
Definition ScopeDepartment := "DEPARTMENT".
Definition ScopeOrganization := "ORGANIZATION".
Definition ScopeSalaryAccess := "SALARY_ACCESS".

(** [roleScopeMap[role]]: a missing key gives the empty scope. *)
Definition roleScopeMap (role : string) : string :=
  if role =?s "SUPER_ADMIN" then ScopeOrganization
  else if role =?s "HR_ADMIN" then ScopeOrganization
  else if role =?s "HR_MANAGER" then ScopeDepartment
  else if role =?s "MANAGER" then ScopeDirectReports
  else if role =?s "PAYROLL_ADMIN" then ScopeSalaryAccess
  else if role =?s "EMPLOYEE" then ScopeSelf
  else "".

Definition scopeOrder : list string :=
  [ScopeOrganization; ScopeDepartment; ScopeDirectReports; ScopeSelf].

Definition GetScopeForRoles (roles : list string) : string :=
  if existsb (fun role => (role =?s "SUPER_ADMIN") || (role =?s "HR_ADMIN")
                          || (role =?s "PAYROLL_ADMIN")) roles
  then ScopeOrganization
  else match List.find (fun scope => existsb (fun role => roleScopeMap role =?s scope) roles)
               scopeOrder with
       | Some scope => scope
       | None => ScopeSelf
       end.

(** [scopePower] of [RequireScope]. *)
Definition scopePower (scope : string) : Z :=
  if scope =?s ScopeSelf then 1
  else if scope =?s ScopeDirectReports then 2
  else if scope =?s ScopeDepartment then 3
  else if scope =?s ScopeOrganization then 4
  else if scope =?s ScopeSalaryAccess then 5
  else 0.

(** ** Libraries *)

Class Crypto := {
  jwt_sign : Claims -> Z -> Z -> result string;
  jwt_parse : Z -> string -> option Claims;
  bcrypt_hash : string -> string -> result string;
  bcrypt_compare : string -> string -> bool;
  sha256_hex : string -> string
}.

(** Text that JSON encoding and decoding returns unchanged: ASCII. *)
Definition ascii_text (s : string) : Prop :=
  Forall (fun c => (nat_of_ascii c < 128)%nat) (String.list_ascii_of_string s).

Definition ascii_claims (c : Claims) : Prop :=
  ascii_text (UserID c) /\ ascii_text (Email c) /\ Forall ascii_text (Roles c) /\ ascii_text (Scope c).

Definition second : Z := 1000000.

(** Times are in microseconds; the expiry of a token is kept in whole seconds. A
    signed token is three base64url texts joined by dots, and parses to its claims
    until it expires; a bcrypt hash matches the password it was computed from, and
    no password matches an empty hash. *)
Class CryptoLaws (C : Crypto) := {
  jwt_roundtrip : forall c exp iat tok t, ascii_claims c ->
    jwt_sign c exp iat = Ok tok -> t < second * (exp / second) -> jwt_parse t tok = Some c;
  jwt_no_space : forall c exp iat tok, jwt_sign c exp iat = Ok tok ->
    " "%char ∉ String.list_ascii_of_string tok;
  bcrypt_correct : forall salt p h, bcrypt_hash salt p = Ok h -> bcrypt_compare h p = true;
  bcrypt_empty : forall q, bcrypt_compare "" q = false
}.

Definition hour : Z := 3600 * second.

Section Auth.
Context `{Server} `{Crypto}.

Definition GenerateToken (userID email : string) (roles : list string)
  : prog Database (result string) :=
  let scope := GetScopeForRoles roles in
  t1 <- now;
  t2 <- now;
  Ret (jwt_sign {| UserID := userID; Email := email; Roles := roles; Scope := scope |}
       (t1 + 24 * hour) t2).

Definition ValidateToken (t : Z) (tokenStr : string) : result Claims :=
  match jwt_parse t tokenStr with
  | Some c => Ok c
  | None => Err "invalid token"
  end.

(** The body {error: msg}, written as text. *)
Definition error_text (msg : string) : string :=
  "{" +:+ quoted "error" +:+ ":" +:+ quoted msg +:+ "}".

Definition unauthorized_text (msg : string) : Response := http_error msg StatusUnauthorized.

(** The context [RequireAuth] hands to the next handler. *)
Record AuthContext := { ctx_claims : Claims; ctx_scope : string }.

Definition RequireAuth (authHeader : string) (t : Z) : Response + AuthContext :=
  if authHeader =?s "" then inl (unauthorized_text (error_text "missing authorization header"))
  else
  match Split1 " " authHeader with
  | [bearer; tok] =>
      if negb (bearer =?s "Bearer")
      then inl (unauthorized_text (error_text "invalid authorization header"))
      else match ValidateToken t tok with
           | Err _ => inl (unauthorized_text (error_text "invalid or expired token"))
           | Ok c => inr {| ctx_claims := c; ctx_scope := GetScopeForRoles (Roles c) |}
           end
  | _ => inl (unauthorized_text (error_text "invalid authorization header"))
  end.

(** [RequireRole(roles...)]: [None] lets the request through. *)
Definition RequireRole (roles : list string) (c : option Claims) : option Response :=
  match c with
  | None => Some (http_error (error_text "unauthorized") StatusUnauthorized)
  | Some c =>
    if existsb (fun u => (u =?s "SUPER_ADMIN") || mem_s u roles) (Roles c) then None
    else Some (http_error (error_text "forbidden: insufficient role") StatusForbidden)
  end.

(** [GetScope]: the scope of the context, SELF when there is none. *)
Definition GetScope (ctx : option AuthContext) : string :=
  match ctx with Some c => ctx_scope c | None => ScopeSelf end.

Definition RequireScope (minScope : string) (ctx : option AuthContext) : option Response :=
  if scopePower minScope <=? scopePower (GetScope ctx) then None
  else Some (http_error (error_text "forbidden: insufficient data scope") StatusForbidden).

(** ** Handlers *)

Definition jsonError (msg : string) (code : Z) : Response :=
  json_response code (JObj [("error", JStr msg)]).

Record LoginRequest := { lr_email : string; lr_password : string }.

(** The demo accounts compiled into the handler: password and role. *)
Definition presets (email : string) : option (string * string) :=
  if email =?s "admin@company.com" then Some ("admin123", "SUPER_ADMIN")
  else if email =?s "hr@company.com" then Some ("hr123", "HR_ADMIN")
  else if email =?s "manager@company.com" then Some ("mgr123", "MANAGER")
  else if email =?s "employee@company.com" then Some ("emp123", "EMPLOYEE")
  else None.

(** The role of the preset whose password is given. *)
Definition preset_role (email password : string) : option string :=
  match presets email with
  | Some (pass, role) => if pass =?s password then Some role else None
  | None => None
  end.

(** A nil slice is encoded as null. *)
Definition roles_json (roles : list string) : json :=
  match roles with [] => JNull | _ => JArr (map JStr roles) end.

Definition login_ok (token userID email : string) (roles : list string) : Response :=
  ok_json [("token", JStr token);
         ("user", JObj [("id", JStr userID); ("email", JStr email);
                        ("roles", roles_json roles);
                        ("scope", JStr (GetScopeForRoles roles))])].

(** [token, _ := s.GenerateToken(...)] followed by the success response. *)
Definition login_preset (userID email role : string) : prog Database Response :=
  token <- GenerateToken userID email [role];
  Ret (login_ok (scan "" token) userID email [role]).

(** SELECT id::text, password_hash, is_active FROM users WHERE email = $1 *)
Definition find_user (email : string) : stmt Database (string * string * bool) :=
  select_row (fun d =>
  (fun u => (usr_id u, usr_password_hash u, usr_is_active u)) <$>
  List.find (fun u => usr_email u =?s email) (tget users d)).

(** SELECT r.name FROM roles r JOIN user_roles ur ON r.id = ur.role_id
    WHERE ur.user_id::text = $1 *)
Definition role_names (userID : string) (d : Database) : list string :=
  flat_map (fun ur => map rol_name (where_ (fun ro => rol_id ro =?s uro_role_id ur) (tget roles d)))
  (where_ (fun ur => uro_user_id ur =?s userID) (tget user_roles d)).

(** No user row: presets, then the error of the connection or of the credentials. *)
Definition login_unknown (req : LoginRequest) : prog Database Response :=
  match preset_role (lr_email req) (lr_password req) with
  | Some role => login_preset ("usr-demo-" +:+ role) (lr_email req) role
  | None =>
    if db_nil
    then Ret (jsonError "database connection unavailable" StatusInternalServerError)
    else Ret (jsonError "invalid credentials" StatusUnauthorized)
  end.

Definition HandleLogin (r : Request LoginRequest) : prog Database Response :=
  match body r with
  | None => Ret (jsonError "invalid request body" StatusBadRequest)
  | Some req =>
    user <- (if db_nil then Ret (Err "nil pool") else exec (find_user (lr_email req)));
    match user with
    | Err _ => login_unknown req
    | Ok (userID, passwordHash, isActive) =>
        if negb isActive then Ret (jsonError "account is suspended" StatusForbidden)
        else if negb (bcrypt_compare passwordHash (lr_password req)) then
          match preset_role (lr_email req) (lr_password req) with
          | Some role => login_preset userID (lr_email req) role
          | None => Ret (jsonError "invalid credentials" StatusUnauthorized)
          end
        else
          rows <- exec (select (role_names userID));
          let fetched := scan [] rows in
          let granted :=
            match fetched with
            | [] => match presets (lr_email req) with
                    | Some (_, rName) => [rName]
                    | None => []
                    end
            | _ => fetched
            end in
          _ <- exec (update users (fun u => usr_id u =?s userID)
                       (fun c => set_usr_last_login (Some (sc_now c))));
          token <- GenerateToken userID (lr_email req) granted;
          match token with
          | Err _ => Ret (jsonError "failed to generate token" StatusInternalServerError)
          | Ok tok => Ret (login_ok tok userID (lr_email req) granted)
          end
    end
  end.

Definition HandleLogout : prog Database Response :=
  Ret (ok_json [("message", JStr "logged out")]).

Definition HandleMe {B} (r : Request B) : prog Database Response :=
  match claims r with
  | None => Ret (jsonError "not authenticated" StatusUnauthorized)
  | Some c =>
    Ret (ok_json [("user", JObj [("id", JStr (UserID c)); ("email", JStr (Email c));
                                 ("roles", roles_json (Roles c));
                                 ("scope", JStr (GetScopeForRoles (Roles c)))])])
  end.

Definition generateSecureToken : prog Database string := rand_hex.
Definition hashToken (token : string) : string := sha256_hex token.

Definition HandleForgotPassword (r : Request string) : prog Database Response :=
  match body r with
  | None => Ret (jsonError "invalid request" StatusBadRequest)
  | Some email =>
    token <- generateSecureToken;
    let hash := hashToken token in
    t <- now;
    let expires := t + 2 * hour in
    _ <- exec (update users (fun u => usr_email u =?s email)
                 (fun _ u => set_usr_password_reset_expires_at (Some expires)
                               (set_usr_password_reset_token (Some hash) u)));
    Ret (ok_json [("message", JStr "If that email exists, a reset link has been sent.");
                  ("debug_token", JStr token)])
  end.

Record ResetRequest := { rr_token : string; rr_password : string }.

(** password_reset_token = $1 AND password_reset_expires_at > NOW() *)
Definition reset_matches (hash : string) (t : Z) (u : UserRow) : bool :=
  match usr_password_reset_token u, usr_password_reset_expires_at u with
  | Some h, Some e => (h =?s hash) && (t <? e)
  | _, _ => false
  end.

Definition reset_user (newHash : string) (u : UserRow) : UserRow :=
  set_usr_is_active true (set_usr_password_reset_expires_at None
  (set_usr_password_reset_token None (set_usr_password_hash newHash u))).

Definition HandleResetPassword (r : Request ResetRequest) : prog Database Response :=
  match body r with
  | None => Ret (jsonError "invalid request" StatusBadRequest)
  | Some req =>
    if Nat.ltb (String.length (rr_password req)) 8
    then Ret (jsonError "password must be at least 8 characters" StatusBadRequest)
    else
      let hash := hashToken (rr_token req) in
      user <- exec (fun c d =>
                 match List.find (reset_matches hash (sc_now c)) (tget users d) with
                 | Some u => Ok (usr_id u, d)
                 | None => Err no_rows
                 end);
      match user with
      | Err _ => Ret (jsonError "invalid or expired reset token" StatusBadRequest)
      | Ok userID =>
          salt <- rand_hex;
          let newHash := scan "" (bcrypt_hash salt (rr_password req)) in
          _ <- exec (update users (fun u => usr_id u =?s userID)
                       (fun _ => reset_user newHash));
          Ret (ok_json [("message", JStr "Password updated successfully.")])
      end
  end.
End Auth.

(** ** Scopes *)

(** What a role contributes to the scope of its holder. *)
Definition role_power (role : string) : Z := Z.min 4 (scopePower (roleScopeMap role)).

(** A role is one of the six of the map, or has no scope. *)
Lemma role_inv (P : string -> Prop) :
  P "SUPER_ADMIN" -> P "HR_ADMIN" -> P "HR_MANAGER" -> P "MANAGER" -> P "PAYROLL_ADMIN" ->
  P "EMPLOYEE" ->
  (forall role, role <> "SUPER_ADMIN" -> role <> "HR_ADMIN" -> role <> "PAYROLL_ADMIN" ->
     roleScopeMap role = "" -> P role) ->
  forall role, P role.
Proof.
  intros H1 H2 H3 H4 H5 H6 H role. unfold roleScopeMap in H.
  destruct (String.eqb_spec role "SUPER_ADMIN"); [by subst|].
  destruct (String.eqb_spec role "HR_ADMIN"); [by subst|].
  destruct (String.eqb_spec role "HR_MANAGER"); [by subst|].
  destruct (String.eqb_spec role "MANAGER"); [by subst|].
  destruct (String.eqb_spec role "PAYROLL_ADMIN"); [by subst|].
  destruct (String.eqb_spec role "EMPLOYEE"); [by subst|].
  apply H; try done.
  by rewrite !(proj2 (String.eqb_neq role _)) by done.
Qed.

Lemma role_power_top role :
  (role =?s "SUPER_ADMIN") || (role =?s "HR_ADMIN") || (role =?s "PAYROLL_ADMIN") = true
  <-> role_power role = 4.
Proof.
  revert role. apply role_inv; try done. intros role H1 H2 H3 Hs. unfold role_power. rewrite Hs.
  by rewrite !(proj2 (String.eqb_neq role _)) by done.
Qed.

Lemma role_power_le role : role_power role <= 4.
Proof. unfold role_power. lia. Qed.

Lemma role_scope_power role scope :
  scope ∈ scopeOrder -> (roleScopeMap role =?s scope) = true ->
  role_power role = scopePower scope.
Proof.
  intros Hs He. apply String.eqb_eq in He. unfold role_power. rewrite He. clear He.
  repeat (apply elem_of_cons in Hs as [->|Hs]; [done|]). by apply elem_of_nil in Hs.
Qed.

(** Powers below the top are those of the scopes. *)
Lemma role_power_scope role :
  role_power role <= 3 ->
  role_power role = 0 \/ exists scope, scope ∈ scopeOrder /\ roleScopeMap role = scope
                                    /\ role_power role = scopePower scope.
Proof.
  pattern role. apply role_inv; clear role; cbv beta; try (intros Hle; exfalso; by apply Hle);
    try (intros _; right; eexists; split_and!; [|reflexivity|reflexivity]; unfold scopeOrder;
         repeat first [apply list_elem_of_here | apply list_elem_of_further]).
  intros role _ _ _ Hs _. left. unfold role_power. by rewrite Hs.
Qed.

(** The scopes are tried from the broadest to the narrowest. *)
Lemma scope_order_split pre scope post :
  scopeOrder = pre ++ scope :: post ->
  1 <= scopePower scope
  /\ forall sc, sc ∈ scopeOrder -> sc ∉ pre -> scopePower sc <= scopePower scope.
Proof.
  intros Ho. split.
  - assert (Hin : scope ∈ scopeOrder) by (rewrite Ho; set_solver). clear Ho.
    repeat (apply elem_of_cons in Hin as [->|Hin]; [done|]). by apply elem_of_nil in Hin.
  - intros sc Hin Hpre. unfold scopeOrder in *.
    do 5 (destruct pre as [|? pre];
      [simplify_list_eq; repeat (apply elem_of_cons in Hin as [->|Hin]; [try done; set_solver|]);
       by apply elem_of_nil in Hin|]; simplify_list_eq).
Qed.

(** The scope computed for a set of roles is the broadest of the scopes of
    its roles, SELF when there is none; the salary scope of PAYROLL_ADMIN counts
    as ORGANIZATION. *)
Theorem GetScopeForRoles_broadest roles :
  scopePower (GetScopeForRoles roles) =
    foldr Z.max 1 (map (fun role => Z.min 4 (scopePower (roleScopeMap role))) roles).
Proof.
  symmetry. change (fun role => _) with role_power. unfold GetScopeForRoles.
  assert (Hin : forall r, r ∈ roles -> role_power r ∈ map role_power roles).
  { intros r Hr. by apply list_elem_of_In, in_map, list_elem_of_In. }
  destruct (existsb _ roles) eqn:Etop.
  - apply existsb_exists in Etop as (r & Hr%list_elem_of_In & Hp%role_power_top).
    apply foldr_max_unique; [done| |].
    + apply Forall_map, Forall_true. intros x. apply role_power_le.
    + right. change (scopePower ScopeOrganization) with 4. rewrite <- Hp. auto.
  - apply existsb_false in Etop.
    assert (H3 : Forall (fun r => role_power r <= 3) roles).
    { eapply Forall_impl; [exact Etop|]. intros r Hr. simpl in Hr.
      pose proof (role_power_le r). destruct (Z.eq_dec (role_power r) 4) as [E|]; [|lia].
      apply role_power_top in E. congruence. }
    assert (Hsc : forall r, r ∈ roles -> role_power r = 0 \/
                  exists scope, scope ∈ scopeOrder /\ roleScopeMap r = scope
                                /\ role_power r = scopePower scope).
    { intros r Hr. rewrite Forall_forall in H3. by apply role_power_scope, H3. }
    destruct (List.find _ scopeOrder) as [scope|] eqn:Ef.
    + pose proof (find_first _ _ _ Ef) as (pre & post & Ho & Hp & Hpre).
      apply existsb_exists in Hp as (r & Hr%list_elem_of_In & Hp).
      apply foldr_max_unique.
      * by apply (scope_order_split pre scope post).
      * apply Forall_map, Forall_forall. intros r' Hr'. simpl.
        destruct (Hsc r' Hr') as [->|(sc & Hin' & Hm & ->)].
        { assert (1 <= scopePower scope); [|lia]. by apply (scope_order_split pre scope post). }
        apply (scope_order_split pre scope post Ho); [done|]. intros Hpre'.
        rewrite Forall_forall in Hpre. specialize (Hpre sc Hpre'). simpl in Hpre.
        apply existsb_false in Hpre. rewrite Forall_forall in Hpre.
        specialize (Hpre r' Hr'). simpl in Hpre. bool_prop. done.
      * right. rewrite <- (role_scope_power r scope); [auto| |done].
        rewrite Ho. set_solver.
    + apply find_none_Forall in Ef. apply foldr_max_unique; [done| |by left].
      apply Forall_map, Forall_forall. intros r Hr. simpl.
      destruct (Hsc r Hr) as [->|(sc & Hin' & Hm & _)]; [done|].
      rewrite Forall_forall in Ef. specialize (Ef sc Hin'). simpl in Ef.
      apply existsb_false in Ef. rewrite Forall_forall in Ef. specialize (Ef r Hr).
      simpl in Ef. bool_prop. done.
Qed.

(** The order never yields the salary scope. *)
Lemma GetScopeForRoles_le roles : scopePower (GetScopeForRoles roles) <= 4.
Proof.
  unfold GetScopeForRoles. destruct (existsb _ roles); [done|].
  destruct (List.find _ scopeOrder) as [sc|] eqn:E; [|done].
  apply find_some_elem in E as [Hin _].
  repeat (apply elem_of_cons in Hin as [->|Hin]; [done|]). by apply elem_of_nil in Hin.
Qed.

Section AuthProperties.
Context `{Server} `{C : Crypto}.

(** No request that [RequireAuth] lets through passes
    [RequireScope("SALARY_ACCESS")], whatever its roles. *)
Theorem salary_scope_unreachable header t ctx :
  RequireAuth header t = inr ctx ->
  RequireScope ScopeSalaryAccess (Some ctx) =
  Some (http_error (error_text "forbidden: insufficient data scope") StatusForbidden).
Proof.
  unfold RequireAuth. intros Ha. repeat case_match; simplify_eq.
  unfold RequireScope, GetScope. simpl.
  pose proof (GetScopeForRoles_le (Roles a)).
  destruct (Z.leb_spec (scopePower ScopeSalaryAccess) (scopePower (GetScopeForRoles (Roles a))));
  [|done].
  change (scopePower ScopeSalaryAccess) with 5 in *. lia.
Qed.

Lemma Split1_none sep s : sep ∉ String.list_ascii_of_string s -> Split1 sep s = [s].
Proof.
  induction s as [|c s IH]; simpl; [done|]. intros Hs%not_elem_of_cons.
  destruct Hs as [Hc Hs]. rewrite (IH Hs).
  by rewrite (proj2 (Ascii.eqb_neq c sep)).
Qed.

(** A signed token authenticates until it expires, with its claims. *)
Lemma token_authenticates `{!CryptoLaws C} c exp iat tok t : ascii_claims c ->
  Scope c = GetScopeForRoles (Roles c) -> jwt_sign c exp iat = Ok tok -> t < second * (exp / second) ->
  RequireAuth ("Bearer " +:+ tok) t = inr {| ctx_claims := c; ctx_scope := Scope c |}.
Proof.
  intros Hascii Hs Hsign Ht. unfold RequireAuth. simpl.
  rewrite (Split1_none _ tok) by (by eapply jwt_no_space). simpl.
  unfold ValidateToken. by rewrite (jwt_roundtrip _ _ _ _ t Hascii Hsign Ht), Hs.
Qed.

(** A token handed out for an account authenticates, until 24 hours later
    (in whole seconds), as that account with the same roles and their scope. *)
Theorem token_roundtrip `{!CryptoLaws C} E userID email roles n d tok n' d' t :
  ascii_claims {| UserID := userID; Email := email; Roles := roles;
                Scope := GetScopeForRoles roles |} ->
  run E (GenerateToken userID email roles) n d = (Done (Ok tok), n', d') ->
  t < second * ((env_clock E n + 24 * hour) / second) ->
  RequireAuth ("Bearer " +:+ tok) t =
  inr {| ctx_claims := {| UserID := userID; Email := email; Roles := roles;
                          Scope := GetScopeForRoles roles |};
         ctx_scope := GetScopeForRoles roles |}.
Proof.
  intros Hascii Hrun Ht. simpl in Hrun. injection Hrun as Htok _ _.
  by apply (token_authenticates _ _ _ _ _ Hascii eq_refl Htok Ht).
Qed.

(** ** Login *)

(** The credentials a successful login needs: those of a preset, or the
    password of an active user of the database. *)
Definition credentials (d : Database) (req : LoginRequest) : Prop :=
  (exists role, preset_role (lr_email req) (lr_password req) = Some role)
  \/ exists u, u ∈ tget users d /\ usr_email u = lr_email req /\ usr_is_active u = true
             /\ bcrypt_compare (usr_password_hash u) (lr_password req) = true.

Lemma wp_exec_user fl email d Q :
  (forall m, Q (Panicked m) d) -> (forall e, Q (Done (Err e)) d) ->
  (forall u, u ∈ tget users d -> usr_email u = email ->
   Q (Done (Ok (usr_id u, usr_password_hash u, usr_is_active u))) d) ->
  wp fl (exec (find_user email)) d Q.
Proof.
  intros Hp He Hu. unfold find_user. apply wp_exec; auto.
  intros c b d' Hst. sql_inv Hst. subst.
  destruct (List.find _ _) as [u|] eqn:Ef; simplify_eq/=.
  apply find_some_elem in Ef as [Hin Heq]. bool_prop. auto.
Qed.

(** C11: every successful login presented a preset's password or the password
    of an active user with that e-mail address. *)
Theorem login_needs_credentials E (r : Request LoginRequest) n d resp :
  reply (run E (HandleLogin r) n d) = Some resp -> succeeded resp = true ->
  exists req, body r = Some req /\ credentials d req.
Proof.
  revert resp. unfold reply. apply (wp_run true E (HandleLogin r) n d (fun o _ => forall resp,
  replied o = Some resp -> succeeded resp = true -> exists req, body r = Some req /\ credentials d req)); [done|].
  unfold HandleLogin. destruct (body r) as [req|] eqn:Eb; [|by intros resp [= <-]].
  set (Q := fun o _ => _).
  assert (Hyes : forall p, credentials d req -> wp true p d Q).
  { intros p Hc. eapply wp_mono; [|apply wp_True]. intros ????. eauto. }
  assert (Hno : forall code msg, wp true (Ret (jsonError msg code)) d Q).
  { by intros code msg resp [= <-]. }
  assert (Hun : wp true (login_unknown req) d Q).
  { unfold login_unknown. destruct (preset_role _ _) eqn:Ep; [apply Hyes; left; eauto|].
  by destruct db_nil. }
  apply wp_bind. destruct db_nil; [done|].
  apply wp_exec_user; [done|done|]. intros u Hin He. cbn [wp_then].
  destruct (usr_is_active u) eqn:Eact; [|apply Hno]. simpl negb. cbv iota.
  destruct (bcrypt_compare _ _) eqn:Ebc; simpl negb; cbv iota.
  - apply Hyes. right. eauto.
  - destruct (preset_role _ _) eqn:Ep; [apply Hyes; left; eauto|apply Hno].
Qed.

(** The login of a suspended user that the database answers for is refused
    with 403, preset or not, and writes nothing. *)
Theorem suspended_login_refused E (r : Request LoginRequest) req n d u :
  reliable E -> db_nil = false -> body r = Some req ->
  List.find (fun u => usr_email u =?s lr_email req) (tget users d) = Some u ->
  usr_is_active u = false ->
  run E (HandleLogin r) n d =
  (Done (jsonError "account is suspended" StatusForbidden), S n, d).
Proof.
  intros HE Hdb Hb Hu Hact. unfold HandleLogin. rewrite Hb, run_bind, Hdb. unfold exec.
  rewrite Hdb. simpl. rewrite (answer_reliable _ _ _ _ HE). unfold find_user, select_row.
  rewrite Hu. simpl. by rewrite Hact.
Qed.

(** The token of a successful login was signed for the account of the request with the
    roles that the response shows, and expires 24 hours after a reading of the clock. *)
Lemma login_token E (r : Request LoginRequest) n d resp tok :
  reply (run E (HandleLogin r) n d) = Some resp -> field "token" resp = Some (JStr tok) -> tok <> "" ->
  exists req userID roles k iat, body r = Some req /\ (n <= k)%nat
  /\ resp = login_ok tok userID (lr_email req) roles
  /\ jwt_sign {| UserID := userID; Email := lr_email req; Roles := roles; Scope := GetScopeForRoles roles |}
       (env_clock E k + 24 * hour) iat = Ok tok.
Proof.
  unfold HandleLogin. destruct (body r) as [req|]; [|by intros [= <-]].
  set (Q := exists req0, _). intros Hrep Hf Ht.
  assert (Hpre : forall userID role m, (n <= m)%nat ->
            reply (run E (login_preset userID (lr_email req) role) m d) = Some resp -> Q).
  { intros userID role m Hm [= <-]. injection Hf as Hf. unfold Q. exists req, userID, [role], m, (env_clock E (S m)).
    split_and!; [done|done|by f_equal|]. destruct (jwt_sign _ _ _) eqn:Ej; simpl in Hf; congruence. }
  assert (Hun : forall m, (n <= m)%nat -> reply (run E (login_unknown req) m d) = Some resp -> Q).
  { intros m Hm. unfold login_unknown. destruct (preset_role _ _); [by apply Hpre|].
    destruct db_nil; intros [= <-]; done. }
  destruct db_nil eqn:Hdb; [apply (Hun n); [lia|done]|]. revert Hrep. unfold exec. rewrite Hdb. simpl.
  assert (Hsame : snd (answer E (find_user (lr_email req)) n d) = d).
  { unfold answer, find_user, select_row. destruct (env_fail E n); [done|]. by destruct (_ <$> _). }
  destruct (answer E (find_user (lr_email req)) n d) as [[[[userID hash] act]|e] d1]; simpl in Hsame; subst d1.
  2: { apply (Hun (S n)). lia. }
  destruct act; simpl; [|intros [= <-]; done]. destruct (bcrypt_compare _ _); simpl.
  - destruct (answer E _ (S n) d) as [rows d2]. simpl.
    destruct (answer E _ (S (S n)) d2) as [u d3]. simpl.
    destruct (jwt_sign _ _ _) as [t|e] eqn:Ej; intros [= <-]; [|done]. injection Hf as ->.
    unfold Q. eexists _, _, _, _, _. split_and!; [done| |reflexivity|exact Ej]. lia.
  - destruct (preset_role _ _); [apply Hpre; lia|intros [= <-]; done].
Qed.
(** ** Password reset *)

Definition reset_done : Response := ok_json [("message", JStr "Password updated successfully.")].

Lemma reset_run E (r : Request ResetRequest) req n d u h :
  reliable E -> db_nil = false -> body r = Some req ->
  (8 <= String.length (rr_password req))%nat ->
  List.find (reset_matches (hashToken (rr_token req)) (sc_now (env_ctx E n))) (tget users d)
  = Some u ->
  bcrypt_hash (env_rand E (S n)) (rr_password req) = Ok h ->
  run E (HandleResetPassword r) n d =
  (Done reset_done, 3 + n,
   tput users (set_where (fun v => usr_id v =?s usr_id u) (reset_user h) (tget users d)) d)%nat.
Proof.
  intros HE Hdb Hb Hlen Hu Hh. unfold HandleResetPassword. rewrite Hb.
  destruct (Nat.ltb_spec (String.length (rr_password req)) 8); [lia|].
  unfold exec. rewrite Hdb. simpl. rewrite (answer_reliable _ _ _ _ HE), Hu. simpl.
  rewrite (answer_reliable _ _ _ _ HE). unfold update. simpl. by rewrite Hh.
Qed.

(** A reset with a valid token stores the new password, spends the token
    and reactivates the account, also one that an administrator suspended; it
    changes no other user. *)
Theorem reset_password_effect `{!CryptoLaws C} E (r : Request ResetRequest) req n d u h :
  reliable E -> db_nil = false -> body r = Some req ->
  (8 <= String.length (rr_password req))%nat ->
  List.find (reset_matches (hashToken (rr_token req)) (sc_now (env_ctx E n))) (tget users d)
  = Some u ->
  bcrypt_hash (env_rand E (S n)) (rr_password req) = Ok h ->
  let x := run E (HandleResetPassword r) n d in
  out x = Done reset_done
  /\ forall v, v ∈ tget users (db_of x) ->
     (usr_id v <> usr_id u -> v ∈ tget users d)
     /\ (usr_id v = usr_id u ->
          usr_is_active v = true
          /\ bcrypt_compare (usr_password_hash v) (rr_password req) = true
          /\ forall hash t, reset_matches hash t v = false).
Proof.
  intros HE Hdb Hb Hlen Hu Hh. rewrite (reset_run E r req n d u h) by done.
  split; [done|]. intros v Hv. cbn [db_of snd] in Hv. rewrite tget_tput in Hv.
  apply elem_of_set_where in Hv as (w & Hw & ->).
  destruct (usr_id w =?s usr_id u) eqn:Ew; bool_prop.
  - split; [by intros []|]. intros _. split_and!; [done| |done]. simpl. by eapply bcrypt_correct.
  - by split.
Qed.

Definition forgot_user (hash : string) (expires : Z) (u : UserRow) : UserRow :=
  set_usr_password_reset_expires_at (Some expires) (set_usr_password_reset_token (Some hash) u).

Lemma forgot_find email hash e t (l : list UserRow) u :
  NoDup (map usr_email l) -> u ∈ l -> usr_email u = email -> t < e ->
  Forall (fun v => usr_password_reset_token v <> Some hash) l ->
  List.find (reset_matches hash t) (set_where (fun v => usr_email v =?s email) (forgot_user hash e) l)
  = Some (forgot_user hash e u).
Proof.
  intros Hnd Hin He Ht Hfresh.
  apply (find_key_unique usr_email).
  - rewrite map_set_where; [done|]. by intros [].
  - apply elem_of_set_where. exists u. split; [done|].
  by rewrite (proj2 (String.eqb_eq _ _) He).
  - unfold reset_matches, forgot_user. simpl. rewrite eqb_refl_s. by apply Z.ltb_lt.
  - intros v Hv Hm. apply elem_of_set_where in Hv as (w & Hw & ->).
  destruct (usr_email w =?s email) eqn:Ew; bool_prop; [simpl; congruence|].
  exfalso. rewrite Forall_forall in Hfresh. apply (Hfresh w Hw). unfold reset_matches in Hm.
  destruct (usr_password_reset_token w), (usr_password_reset_expires_at w); try done.
  bool_prop. congruence.
Qed.

(** Whoever knows an account's e-mail address can set its password: the
    response to an unauthenticated [HandleForgotPassword] carries the token,
    and a reset with it succeeds within two hours. *)
Theorem forgot_reset_takeover E (r : Request string) n d u email E' (r' : Request ResetRequest) m req h :
  reliable E -> reliable E' -> db_nil = false ->
  NoDup (map usr_id (tget users d)) -> NoDup (map usr_email (tget users d)) ->
  u ∈ tget users d -> usr_email u = email ->
  Forall (fun v => usr_password_reset_token v <> Some (hashToken (env_rand E n))) (tget users d) ->
  body r = Some email -> body r' = Some req ->
  rr_token req = env_rand E n -> (8 <= String.length (rr_password req))%nat ->
  sc_now (env_ctx E' m) < env_clock E (S n) + 2 * hour ->
  bcrypt_hash (env_rand E' (S m)) (rr_password req) = Ok h ->
  let x := run E (HandleForgotPassword r) n d in
  let y := run E' (HandleResetPassword r') m (db_of x) in
  (exists resp, out x = Done resp /\ field "debug_token" resp = Some (JStr (rr_token req)))
  /\ out y = Done reset_done
  /\ exists v, v ∈ tget users (db_of y) /\ usr_id v = usr_id u /\ usr_email v = email
             /\ usr_password_hash v = h /\ usr_is_active v = true.
Proof.
  intros HE HE' Hdb Hid Hem Hin He Hfresh Hb Hb' Htok Hlen Ht Hh.
  set (hash := hashToken (env_rand E n)). set (exp := env_clock E (S n) + 2 * hour).
  set (l := set_where (fun v => usr_email v =?s email) (forgot_user hash exp) (tget users d)).
  assert (Hx : exists resp, run E (HandleForgotPassword r) n d = (Done resp, 3 + n, tput users l d)%nat
             /\ field "debug_token" resp = Some (JStr (rr_token req))).
  { unfold HandleForgotPassword. rewrite Hb. unfold exec. rewrite Hdb. simpl.
  rewrite (answer_reliable _ _ _ _ HE). simpl. eexists. split; [reflexivity|].
  by rewrite Htok. }
  destruct Hx as (resp & Hx & Hdebug). cbv zeta. rewrite Hx. cbn [db_of snd].
  assert (Hfind : List.find (reset_matches (hashToken (rr_token req)) (sc_now (env_ctx E' m)))
                  (tget users (tput users l d)) = Some (forgot_user hash exp u)).
  { rewrite tget_tput, Htok. by apply forgot_find. }
  rewrite (reset_run E' r' req m _ _ h HE' Hdb Hb' Hlen Hfind Hh).
  split; [by exists resp|]. split; [done|]. cbn [db_of snd]. rewrite !tget_tput.
  exists (reset_user h (forgot_user hash exp u)). split_and!; try done.
  apply elem_of_set_where. exists (forgot_user hash exp u). split.
  - apply elem_of_set_where. exists u. split; [done|]. by rewrite (proj2 (String.eqb_eq _ _) He).
  - by rewrite eqb_refl_s.
Qed.
End AuthProperties.
