(* ===== verification/DemoCrypto.v ===== *)
(** * A concrete cryptography

    The instance of [Crypto] at which the witnesses and the scenarios run the
    handlers of accounts, with its laws. *)

From S2P Require Import Prelude Float64 Go Sql Schema Demo Auth.

#[export] Instance claims_eq_dec : EqDecision Claims.
Proof. solve_decision. Defined.

Definition asha : Claims :=
  {| UserID := uid 1; Email := "asha@company.com"; Roles := ["HR_MANAGER"; "EMPLOYEE"];
     Scope := "DEPARTMENT" |}.

(** Signs for one account; passwords are hashed by a prefix. *)
#[export] Instance demo_crypto : Crypto := {|
    jwt_sign := fun c _ _ => if decide (c = asha) then Ok "token" else Err "unsupported";
    jwt_parse := fun _ tok => if tok =?s "token" then Some asha else None;
    bcrypt_hash := fun _ p => if Nat.leb (String.length p) 72 then Ok ("h:" +:+ p) else Err "too long";
    bcrypt_compare := fun h p => h =?s ("h:" +:+ p);
    sha256_hex := fun s => "sha:" +:+ s
  |}.

#[export] Instance demo_crypto_laws : CryptoLaws demo_crypto.
Proof.
  split.
  - intros c exp iat tok t _ Hs _. simpl in *. destruct (decide (c = asha)); [|done].
    injection Hs as <-. by subst.
  - intros c exp iat tok Hs. simpl in Hs. destruct (decide (c = asha)); [|done].
    injection Hs as <-. vm_compute. intros Hin.
    repeat (apply elem_of_cons in Hin as [?|Hin]; [done|]). by apply elem_of_nil in Hin.
  - intros salt p h Hh. simpl in *. destruct (Nat.leb _ _); [|done]. injection Hh as <-.
    apply String.eqb_refl.
  - done.
Qed.
