(* ===== verification/Authz.v ===== *)
(** * internal/authz: roles, self-approval and row scoping *)

From S2P Require Import Prelude Float64 Go Sql Schema Auth.

#[local] Open Scope prog_scope.

(** ** Responses *)

Definition ForbiddenResponse (code message : string) : Response :=
  json_response StatusForbidden
    (JObj [("success", JBool false);
           ("error", JObj [("code", JStr code); ("message", JStr message)])]).

Definition SelfApprovalError : Response :=
  ForbiddenResponse "SELF_APPROVAL_NOT_ALLOWED" "You cannot approve your own request.".

Definition UnauthorizedResponse : Response :=
  json_response StatusUnauthorized
    (JObj [("success", JBool false);
           ("error", JObj [("code", JStr "UNAUTHORIZED"); ("message", JStr "Authentication required.")])]).

(** ** Self-approval *)

Definition CanApproveTask (requesterEmpID approverEmpID : string) : bool :=
  if (requesterEmpID =?s "") || (approverEmpID =?s "") then false
  else if TrimSpace requesterEmpID =?s TrimSpace approverEmpID then false
  else true.

(** ** Roles *)

Definition HasRole (claims : option Claims) (roles : list string) : bool :=
  match claims with
  | None => false
  | Some c => existsb (fun u => (u =?s "SUPER_ADMIN") || existsb (String.eqb u) roles) (Roles c)
  end.

Definition CanManageUsers (c : option Claims) : bool := HasRole c ["SUPER_ADMIN"; "HR_ADMIN"].

Definition CanManagePayroll (c : option Claims) : bool :=
  HasRole c ["SUPER_ADMIN"; "HR_ADMIN"; "PAYROLL_ADMIN"].

Definition CanExportReports (c : option Claims) : bool :=
  HasRole c ["SUPER_ADMIN"; "HR_ADMIN"; "PAYROLL_ADMIN"].

Definition CanViewStatutory (c : option Claims) (targetEmpID currentEmpID : string) : bool :=
  match c with
  | None => false
  | Some _ =>
      if HasRole c ["SUPER_ADMIN"; "HR_ADMIN"; "PAYROLL_ADMIN"] then true
      else if negb (targetEmpID =?s "") && negb (currentEmpID =?s "")
              && (targetEmpID =?s currentEmpID) then true
      else false
  end.

Definition CanViewDocument (c : option Claims) (docOwnerEmpID currentEmpID : string) : bool :=
  match c with
  | None => false
  | Some _ =>
      if HasRole c ["SUPER_ADMIN"; "HR_ADMIN"] then true
      else if negb (docOwnerEmpID =?s "") && negb (currentEmpID =?s "")
              && (docOwnerEmpID =?s currentEmpID) then true
      else false
  end.

Lemma HasRole_spec c roles :
  HasRole c roles = true <->
  exists k, c = Some k /\ ("SUPER_ADMIN" ∈ Roles k \/ exists u, u ∈ Roles k /\ u ∈ roles).
Proof.
  unfold HasRole. destruct c as [k|]; [|naive_solver].
  rewrite existsb_exists. setoid_rewrite orb_true_iff.
  setoid_rewrite String.eqb_eq. setoid_rewrite mem_s_spec.
  setoid_rewrite <- list_elem_of_In. split.
  - intros (u & Hu & [->|Hr]); eauto 6.
  - intros (k' & [= <-] & [Hs|(u & Hu & Hr)]); eauto 6.
Qed.

(** A wider requirement accepts more callers. *)
Lemma HasRole_mono c r1 r2 : r1 ⊆ r2 -> HasRole c r1 = true -> HasRole c r2 = true.
Proof.
  rewrite !HasRole_spec. intros Hsub (k & -> & [Hs|(u & Hu & Hr)]); exists k; split; auto.
  right. exists u. auto.
Qed.

(** ** Row scoping

    [scope_rule] is the case analysis of [BuildScopeWhereClause]; [render] the
    SQL text it formats, [scope_args] the arguments it binds. *)
Inductive scope_rule : Type :=
  | NoRows
  | AllRows
  | BareIdOrUser (empID userID : string)
  | ByDepartment (deptID : string)
  | ByUser (userID : string)
  | ManagerIdOrUser (mgrID empID userID : string)
  | IdOrUser (empID userID : string).

Definition rule_of (claims : option Claims) (currentEmpID currentDeptID : string) : scope_rule :=
  match claims with
  | None => NoRows
  | Some c =>
      if HasRole claims ["SUPER_ADMIN"; "HR_ADMIN"] then AllRows
      else if Scope c =?s ScopeOrganization then AllRows
      else if Scope c =?s ScopeDepartment then
        if currentDeptID =?s "" then BareIdOrUser currentEmpID (UserID c)
        else ByDepartment currentDeptID
      else if Scope c =?s ScopeDirectReports then
        if currentEmpID =?s "" then ByUser (UserID c)
        else ManagerIdOrUser currentEmpID currentEmpID (UserID c)
      else if negb (currentEmpID =?s "") then IdOrUser currentEmpID (UserID c)
      else ByUser (UserID c)
  end.

Definition render (alias : string) (i : Z) (r : scope_rule) : string :=
  let cmp col k := alias +:+ col +:+ "::text = $" +:+ itoa k in
  match r with
  | NoRows => "1=0"
  | AllRows => "1=1"
  | BareIdOrUser _ _ => cmp "id" i +:+ " OR " +:+ cmp "user_id" (i + 1)
  | ByDepartment _ => cmp "department_id" i
  | ByUser _ => cmp "user_id" i
  | ManagerIdOrUser _ _ _ =>
      "(" +:+ cmp "manager_id" i +:+ " OR " +:+ cmp "id" (i + 1) +:+ " OR "
          +:+ cmp "user_id" (i + 2) +:+ ")"
  | IdOrUser _ _ => "(" +:+ cmp "id" i +:+ " OR " +:+ cmp "user_id" (i + 1) +:+ ")"
  end.

Definition scope_args (r : scope_rule) : list string :=
  match r with
  | NoRows | AllRows => []
  | BareIdOrUser a b | IdOrUser a b => [a; b]
  | ByDepartment a | ByUser a => [a]
  | ManagerIdOrUser a b c => [a; b; c]
  end.

Definition BuildScopeWhereClause (claims : option Claims) (currentEmpID currentDeptID : string)
    (paramStartIdx : Z) (tableAlias : string) : string * list string * Z :=
  let r := rule_of claims currentEmpID currentDeptID in
  let alias := if tableAlias =?s "" then "" else tableAlias +:+ "." in
  (render alias paramStartIdx r, scope_args r,
   paramStartIdx + Z.of_nat (length (scope_args r))).

(** *** What the text selects

    A condition joined to others with [AND]: an atom, a parenthesised
    disjunction, or a disjunction written without parentheses, whose [OR] binds
    weaker than the surrounding [AND]s. *)
Inductive cond : Type :=
  | Atom (p : EmpRow -> bool)
  | Paren (ps : list (EmpRow -> bool))
  | BareOr (p q : EmpRow -> bool).

(** [strings.Join(conditions, " AND ")] read by SQL's precedence: [acc] is the
    disjunction of the conjunctions already closed by a bare [OR], [cur] the
    conjunction being read. *)
Fixpoint eval_and (cs : list cond) (acc cur : bool) (e : EmpRow) : bool :=
  match cs with
  | [] => acc || cur
  | Atom p :: cs => eval_and cs acc (cur && p e) e
  | Paren ps :: cs => eval_and cs acc (cur && existsb (fun p => p e) ps) e
  | BareOr p q :: cs => eval_and cs (acc || (cur && p e)) (q e) e
  end.

Definition eval_where (cs : list cond) (e : EmpRow) : bool := eval_and cs false true e.

Definition cond_of (r : scope_rule) : cond :=
  let is_id s e := emp_id e =?s s in
  let is_user s e := opt_is (emp_user_id e) s in
  match r with
  | NoRows => Atom (fun _ => false)
  | AllRows => Atom (fun _ => true)
  | BareIdOrUser a b => BareOr (is_id a) (is_user b)
  | ByDepartment a => Atom (fun e => opt_is (emp_department_id e) a)
  | ByUser a => Atom (is_user a)
  | ManagerIdOrUser a b c =>
      Paren [fun e => opt_is (emp_manager_id e) a; is_id b; is_user c]
  | IdOrUser a b => Paren [is_id a; is_user b]
  end.

Definition not_deleted : cond := Atom (fun e => match emp_deleted_at e with None => true | _ => false end).

(** The condition on its own, whatever surrounds it. *)
Definition holds (c : cond) (e : EmpRow) : bool :=
  match c with
  | Atom p => p e
  | Paren ps => existsb (fun p => p e) ps
  | BareOr p q => p e || q e
  end.

Definition bare (c : cond) : bool := match c with BareOr _ _ => true | _ => false end.

(** Without bare disjunctions the text means the conjunction of its parts. *)
Lemma eval_and_conj cs acc cur e :
  forallb (fun c => negb (bare c)) cs = true ->
  eval_and cs acc cur e = acc || (cur && forallb (fun c => holds c e) cs).
Proof.
  revert acc cur. induction cs as [|c cs IH]; intros acc cur H; simpl in *.
  - by rewrite andb_true_r.
  - apply andb_true_iff in H as [Hc Hcs].
    destruct c; try discriminate; simpl; rewrite IH by done; by rewrite andb_assoc.
Qed.

(** ** Properties *)

Lemma CanApproveTask_spec a b :
  CanApproveTask a b = true <-> a <> "" /\ b <> "" /\ TrimSpace a <> TrimSpace b.
Proof.
  unfold CanApproveTask.
  destruct (a =?s "") eqn:Ea, (b =?s "") eqn:Eb, (TrimSpace a =?s TrimSpace b) eqn:E;
    bool_prop; simpl; naive_solver.
Qed.

(** The only rule rendered without parentheses around its [OR]: a DEPARTMENT
    caller whose department is unknown. *)
Definition unparenthesised (claims : option Claims) (deptID : string) : bool :=
  match claims with
  | Some c => negb (HasRole claims ["SUPER_ADMIN"; "HR_ADMIN"]) && (Scope c =?s ScopeDepartment)
              && (deptID =?s "")
  | None => false
  end.

Lemma bare_rule claims emp dept :
  bare (cond_of (rule_of claims emp dept)) = unparenthesised claims dept.
Proof.
  unfold rule_of, unparenthesised. destruct claims as [c|]; [|done].
  destruct (HasRole _ _); [done|]. destruct (Scope c =?s ScopeOrganization) eqn:Eo; simpl.
  { bool_prop. by rewrite Eo. }
  destruct (Scope c =?s ScopeDepartment); simpl; [by destruct (dept =?s "")|].
  by destruct (Scope c =?s ScopeDirectReports), (emp =?s "").
Qed.

(** C35: joined to the other conditions of the employee list, the scope condition
    is one more conjunct: the rows listed are the undeleted rows in scope that
    satisfy the filters; except for a DEPARTMENT caller without a department. *)
Theorem scope_condition_conjunct claims emp dept rest e :
  unparenthesised claims dept = false -> forallb (fun c => negb (bare c)) rest = true ->
  eval_where (not_deleted :: cond_of (rule_of claims emp dept) :: rest) e =
    holds not_deleted e && holds (cond_of (rule_of claims emp dept)) e
    && forallb (fun c => holds c e) rest.
Proof.
  intros Hu Hrest. rewrite <- (bare_rule _ emp) in Hu.
  unfold eval_where. rewrite eval_and_conj; [by rewrite <- andb_assoc|].
  simpl. by rewrite Hu.
Qed.

(** For a DEPARTMENT caller without a department the unparenthesised [OR]
    escapes the other conditions: the caller's own row is listed even when it is
    soft-deleted. *)
Theorem department_fallback_lists_deleted c emp e :
  unparenthesised (Some c) "" = true -> emp_user_id e = Some (UserID c) ->
  eval_where [not_deleted; cond_of (rule_of (Some c) emp "")] e = true.
Proof.
  intros Hu He. unfold unparenthesised in Hu. bool_prop.
  unfold rule_of. rewrite H. match goal with H : Scope c = _ |- _ => rewrite H end. simpl.
  unfold eval_where. simpl. unfold opt_is. rewrite He, eqb_refl_s. by rewrite orb_true_r.
Qed.

(** Who may see the row [e]: by role or scope, or because it is the caller's own. *)
Definition in_scope (c : Claims) (emp dept : string) (e : EmpRow) : Prop :=
  HasRole (Some c) ["SUPER_ADMIN"; "HR_ADMIN"] = true
  \/ Scope c = ScopeOrganization
  \/ (Scope c = ScopeDepartment /\ dept <> "" /\ emp_department_id e = Some dept)
  \/ (Scope c = ScopeDirectReports /\ emp <> "" /\ emp_manager_id e = Some emp)
  \/ emp_id e = emp \/ emp_user_id e = Some (UserID c).

Lemma holds_in_scope c emp dept e :
  holds (cond_of (rule_of (Some c) emp dept)) e = true -> in_scope c emp dept e.
Proof.
  unfold rule_of, in_scope. destruct (HasRole _ _); [by left|].
  destruct (Scope c =?s ScopeOrganization) eqn:Eo; [bool_prop; by right; left|].
  destruct (Scope c =?s ScopeDepartment) eqn:Ed.
  - destruct (dept =?s "") eqn:Ee; simpl; rewrite ?orb_true_iff, ?opt_is_spec, ?String.eqb_eq;
      bool_prop; tauto.
  - destruct (Scope c =?s ScopeDirectReports) eqn:Er; destruct (emp =?s "") eqn:Ee; simpl;
      rewrite ?orb_true_iff, ?opt_is_spec, ?String.eqb_eq; bool_prop;
      intuition (discriminate || auto 10).
Qed.

(** The condition of a bare disjunction, split where the text splits it. *)
Lemma eval_scope c rest acc cur e :
  forallb (fun c => negb (bare c)) rest = true ->
  eval_and (c :: rest) acc cur e = true -> acc = false -> holds c e = true.
Proof.
  intros Hr. destruct c as [p|ps|p q]; simpl; rewrite eval_and_conj by done; intros H ->;
    rewrite ?orb_true_iff, ?andb_true_iff in *; naive_solver.
Qed.

(** Whatever the filters, the caller's role, department and employee record,
    every row the employee list selects is in the caller's scope. *)
Theorem listed_rows_in_scope c emp dept rest e :
  forallb (fun c => negb (bare c)) rest = true ->
  eval_where (not_deleted :: cond_of (rule_of (Some c) emp dept) :: rest) e = true ->
  in_scope c emp dept e.
Proof.
  intros Hr H. apply holds_in_scope. unfold eval_where in H.
  change (eval_and (cond_of (rule_of (Some c) emp dept) :: rest) false (holds not_deleted e) e
          = true) in H.
  eapply eval_scope; [exact Hr|exact H|done].
Qed.

(** Callers without claims see nothing. *)
Theorem no_claims_no_rows emp dept rest e :
  forallb (fun c => negb (bare c)) rest = true ->
  eval_where (not_deleted :: cond_of (rule_of None emp dept) :: rest) e = false.
Proof.
  intros Hr. unfold eval_where. rewrite eval_and_conj by done. simpl. by rewrite andb_false_r.
Qed.

(** A role check passes exactly for a caller with one of the roles or with
    SUPER_ADMIN; [CanManagePayroll] is the check for the payroll roles. *)
Theorem CanManagePayroll_spec c :
  CanManagePayroll c = true <->
  exists k, c = Some k /\ exists u, u ∈ Roles k /\ u ∈ ["SUPER_ADMIN"; "HR_ADMIN"; "PAYROLL_ADMIN"].
Proof.
  unfold CanManagePayroll. rewrite HasRole_spec. split.
  - intros (k & -> & [Hs|(u & Hu & Hr)]); exists k; split; eauto.
    exists "SUPER_ADMIN". split; [done|]. apply list_elem_of_here.
  - intros (k & -> & u & Hu & Hr). exists k. split; eauto.
Qed.
