(* ===== verification/AuditTrail.v ===== *)
(** * internal/audit: the audit trail *)

From S2P Require Import Prelude Float64 Go Sql Schema.

#[local] Open Scope prog_scope.

(** The fields of [LogEntry] the callers set; the others are left zero. *)
Record LogEntry := {
  le_UserID : string;
  le_Action : string;
  le_Module : string;
  le_EntityName : string;
  le_EntityID : string;
  le_AfterState : list (string * json);
  le_Reason : string
}.

Section Audit.
Context `{Server}.

(** INSERT INTO audit_logs: [user_id] and [entity_id] are UUID columns, the
    first references [users]; the three names are VARCHAR(100). *)
Definition insert_audit (entry : LogEntry) (t : Z) : stmt Database AuditRow :=
  with_uuid (le_UserID entry) (fun uid =>
  with_uuid (le_EntityID entry) (fun eid =>
  with_varchar 100 (le_Action entry) (fun action => with_varchar 100 (le_Module entry) (fun module =>
  with_varchar 100 (le_EntityName entry) (fun entity =>
  insert audit_logs (fun c d =>
  if ref_user uid d then
    Ok {| aud_id := sc_uuid c; aud_user_id := uid; aud_action := action;
          aud_module := module; aud_entity_name := entity;
          aud_entity_id := eid; aud_after_state := le_AfterState entry;
          aud_reason := le_Reason entry; aud_created_at := t |}
  else Err fk_error)))))).

Definition LogAction (entry : LogEntry) : prog Database (result unit) :=
  t <- now;
  r <- exec (insert_audit entry t);
  Ret (match r with
     | Ok _ => Ok tt
     | Err e => Err ("failed to write audit log: " +:+ e)
     end).

(** [if s.auditService != nil { _ = s.auditService.LogAction(...) }] *)
Definition audited (entry : LogEntry) : prog Database unit :=
  if audit_nil then Ret tt else _ <- LogAction entry; Ret tt.

(** ** Properties *)

(** Auditing only appends to the trail: a relation that allows this holds. *)
Lemma audit_respects (R : relation Database) `{!PreOrder R} entry :
  (forall d r, R d (tput audit_logs (tget audit_logs d ++ [r]) d)) ->
  all_stmts (fun _ s => respects R s) (audited entry).
Proof.
  intros HR. unfold audited, LogAction, insert_audit. walk. apply respects_insert. intros; apply HR.
Qed.

(** An audited action always continues, with at most one row more in the trail. *)
Lemma run_audited E entry n d : db_nil = false ->
  exists n' d', run E (audited entry) n d = (Done tt, n', d')
  /\ (d' = d \/ exists row, d' = tput audit_logs (tget audit_logs d ++ [row]) d).
Proof.
  intros Hdb. unfold audited. destruct audit_nil; [by eexists _, _; split; [|left]|].
  unfold LogAction, exec. rewrite Hdb. simpl. unfold answer.
  destruct (env_fail E (S n)); [by eexists _, _; split; [|left]|].
  destruct (insert_audit _ _ _ _) as [[row d']|e] eqn:Ei;
  [|by eexists _, _; split; [|left]].
  eexists _, _; split; [reflexivity|]. right. unfold insert_audit in Ei.
  sql_inv Ei. by exists row.
Qed.

Lemma wp_audited fl entry d Q : db_nil = false ->
  (forall d', d' = d \/ (exists row, d' = tput audit_logs (tget audit_logs d ++ [row]) d) -> Q (Done tt) d') ->
  wp fl (audited entry) d Q.
Proof.
  intros Hdb HQ. unfold audited. destruct audit_nil; [by apply HQ; left|].
  unfold LogAction. apply wp_bind. simpl. intros t. apply wp_bind. apply wp_exec; [congruence| |].
  - intros c row d' Hst. unfold insert_audit in Hst. sql_inv Hst. subst. apply HQ. right. by exists row.
  - intros e _. apply HQ. by left.
Qed.

(** An action audited under an entity or user identifier that is not a UUID
    leaves no trace, and its caller is not told. *)
Theorem audit_lost_without_uuid E entry n d :
  uuid_in (le_UserID entry) = None \/ uuid_in (le_EntityID entry) = None ->
  db_nil = false ->
  out (run E (audited entry) n d) = Done tt
  /\ db_of (run E (audited entry) n d) = d.
Proof.
  intros Hu Hdb. unfold audited. destruct audit_nil; [done|].
  unfold LogAction, exec. rewrite Hdb. simpl. unfold answer.
  destruct (env_fail E (S n)); [done|]. unfold insert_audit, with_uuid.
  destruct Hu as [->| ->]; [done|]. by destruct (uuid_in (le_UserID entry)).
Qed.
End Audit.

#[export] Hint Resolve audit_respects : portal.
