(* ===== verification/Matrix.v ===== *)
(** * internal/payroll/matrix.go: currencies, salary components and structures *)

From S2P Require Import Prelude Float64 FloatBounds Go Sql Schema Auth Authz AuditTrail.
From Stdlib Require Import SpecFloat.

#[local] Open Scope prog_scope.
#[local] Open Scope f64_scope.

(** ** The salary breakdown *)

Record ComponentAmount := { Code : string; CName : string; Amount : f64 }.

Record SalaryBreakdown := {
  BaseSalary : f64;
  CurrencyCode : string;
  CurrencySymbol : string;
  GrossEarnings : f64;
  TotalDeductions : f64;
  NetPay : f64;
  Earnings : list ComponentAmount;
  Deductions : list ComponentAmount
}.

(** Converts from the source currency to the base, then to the target. *)
Definition ConvertCurrency (amount fromRate toRate : f64) : f64 :=
  if (fromRate <=? f0) || (toRate <=? f0) then amount
  else amount / fromRate * toRate.

Definition CalculateSalaryBreakdown (baseSalary : f64) (currencyCode currencySymbol : string)
    : SalaryBreakdown :=
  if baseSalary <=? f0 then
    {| BaseSalary := f0; CurrencyCode := currencyCode; CurrencySymbol := currencySymbol;
       GrossEarnings := f0; TotalDeductions := f0; NetPay := f0; Earnings := []; Deductions := [] |}
  else
    let basic := baseSalary * lit 50 100 in
    let hra := basic * lit 40 100 in
    let specialAllowance := baseSalary - (basic + hra) in
    let specialAllowance := if specialAllowance <? f0 then f0 else specialAllowance in
    let gross := basic + hra + specialAllowance in
    let pf := basic * lit 12 100 in
    let tds := gross * lit 10 100 in
    let profTax := if gross <? of_Z 15000 then f0 else of_Z 200 in
    let totalDeductions := pf + tds + profTax in
    let netPay := gross - totalDeductions in
    {| BaseSalary := baseSalary; CurrencyCode := currencyCode; CurrencySymbol := currencySymbol;
       GrossEarnings := gross; TotalDeductions := totalDeductions; NetPay := netPay;
       Earnings :=
         [{| Code := "BASIC"; CName := "Basic Salary (50%)"; Amount := basic |};
          {| Code := "HRA"; CName := "House Rent Allowance (40% Basic)"; Amount := hra |};
          {| Code := "SPECIAL_ALLOWANCE"; CName := "Special Allowance"; Amount := specialAllowance |}];
       Deductions :=
         [{| Code := "PF_EMP"; CName := "Provident Fund Employee (12% Basic)"; Amount := pf |};
          {| Code := "INCOME_TAX"; CName := "TDS / Income Tax (10% Gross)"; Amount := tds |};
          {| Code := "PROF_TAX"; CName := "Professional Tax"; Amount := profTax |}] |}.

Definition amount_json (a : ComponentAmount) : json :=
  JObj [("code", JStr (Code a)); ("name", JStr (CName a)); ("amount", JNum (Amount a))].

(** A nil slice is encoded as null. *)
Definition amounts_json (l : list ComponentAmount) : json :=
  match l with [] => JNull | _ => JArr (map amount_json l) end.

Definition breakdown_json (b : SalaryBreakdown) : json :=
  JObj [("base_salary", JNum (BaseSalary b)); ("currency_code", JStr (CurrencyCode b));
        ("currency_symbol", JStr (CurrencySymbol b)); ("gross_earnings", JNum (GrossEarnings b));
        ("total_deductions", JNum (TotalDeductions b)); ("net_pay", JNum (NetPay b));
        ("earnings", amounts_json (Earnings b)); ("deductions", amounts_json (Deductions b))].

(** ** Handlers *)

Record CurrencyItem := {
  ci_Code : string;
  ci_Name : string;
  ci_Symbol : string;
  ci_ExchangeRateToBase : f64;
  ci_IsBase : bool
}.

Definition currency_json (c : CurrencyItem) : json :=
  JObj [("code", JStr (ci_Code c)); ("name", JStr (ci_Name c)); ("symbol", JStr (ci_Symbol c));
        ("exchange_rate_to_base", JNum (ci_ExchangeRateToBase c)); ("is_base", JBool (ci_IsBase c))].

Record PreviewRequest := { pv_BaseSalary : f64; pv_CurrencyCode : string }.

Record StructureRequest := {
  sr_EmployeeID : string;
  sr_CurrencyCode : string;
  sr_BaseSalary : f64
}.

(** The UTF-8 text of a sequence of bytes. *)
Definition utf8 (l : list nat) : string := String.string_of_list_ascii (bytes l).
Definition rupee : string := utf8 [226; 130; 185]%nat.
Definition euro : string := utf8 [226; 130; 172]%nat.
Definition pound : string := utf8 [194; 163]%nat.

Section Matrix.
Context `{Server}.

(** ORDER BY is_base DESC, code ASC *)
Definition currency_order (x y : CurRow) : bool :=
  if cur_is_base x then (if cur_is_base y then collate (cur_code x) (cur_code y) else true)
  else (if cur_is_base y then false else collate (cur_code x) (cur_code y)).

Definition currency_item (r : CurRow) : CurrencyItem :=
  {| ci_Code := cur_code r; ci_Name := cur_name r; ci_Symbol := cur_symbol r;
   ci_ExchangeRateToBase := num_out 6 (cur_exchange_rate_to_base r);
   ci_IsBase := cur_is_base r |}.

Definition HandleGetCurrencies : prog Database Response :=
  if db_nil then Ret db_unavailable else
  rows <- exec (select (fun d => map currency_item (order_by currency_order (tget currencies d))));
  Ret (match rows with
     | Err e => fail_json StatusInternalServerError e
     | Ok items => ok_json [("data", JArr (map currency_json items))]
     end).

(** INSERT INTO currencies ... ON CONFLICT (code) DO UPDATE *)
Definition upsert_currency (req : CurrencyItem) : stmt Database CurRow :=
  with_varchar 3 (ci_Code req) (fun code =>
  with_varchar 50 (ci_Name req) (fun name =>
  with_varchar 10 (ci_Symbol req) (fun symbol =>
  with_num 12 6 (ci_ExchangeRateToBase req) (fun rate =>
  upsert currencies
  (fun c _ => Ok {| cur_code := code; cur_name := name; cur_symbol := symbol;
                    cur_exchange_rate_to_base := rate; cur_is_base := ci_IsBase req;
                    cur_updated_at := sc_now c |})
  (fun r old => cur_code old =?s cur_code r)
  (fun _ r _ => r))))).

Definition HandleUpdateCurrency (r : Request CurrencyItem) : prog Database Response :=
  if negb (HasRole (claims r) ["SUPER_ADMIN"; "HR_ADMIN"])
  then Ret (ForbiddenResponse "FORBIDDEN_ROLE" "Only HR and Super Admins can update currency exchange rates.")
  else
  let uid := from_option UserID "" (claims r) in
  match body r with
  | None => Ret (http_error "invalid currency payload" StatusBadRequest)
  | Some req =>
    if (ci_Code req =?s "") || (ci_ExchangeRateToBase req <=? f0)
    then Ret (http_error "invalid currency payload" StatusBadRequest)
    else
    let done := ok_json [("message", JStr "Currency exchange rate updated successfully.");
                         ("data", currency_json req)] in
    if db_nil then Ret done else
    res <- exec (upsert_currency req);
    match res with
    | Err e => Ret (fail_json StatusInternalServerError e)
    | Ok _ =>
        audited {| le_UserID := uid; le_Action := "CURRENCY_RATE_UPDATE"; le_Module := "PAYROLL";
                   le_EntityName := "currencies"; le_EntityID := ci_Code req;
                   le_AfterState := [];
                   le_Reason := "Exchange rate updated for " +:+ ci_Code req +:+ " to "
                                +:+ fmt_float 6 (ci_ExchangeRateToBase req) |} ;;;
        Ret done
    end
  end.

Definition component_order (x y : CompRow) : bool :=
  let t r := default "" (cmp_type r) in
  then_by (fun x y => collate (t x) (t y)) (fun x y => collate (cmp_name x) (cmp_name y)) x y.

Definition component_json (r : CompRow) : json :=
  JObj [("id", JStr (cmp_id r)); ("code", JStr (default "" (cmp_code r)));
      ("name", JStr (cmp_name r)); ("component_type", JStr (default "EARNING" (cmp_type r)));
      ("calculation_type", JStr (default "FLAT" (cmp_calculation_type r)));
      ("default_value", JNum (num_out 2 (default 0 (cmp_default_value r))));
      ("is_taxable", JBool (default true (cmp_is_taxable r)));
      ("is_statutory", JBool (default false (cmp_is_statutory r)))].

Definition HandleGetComponents : prog Database Response :=
  if db_nil then Ret db_unavailable else
  rows <- exec (select (fun d => order_by component_order (tget salary_components d)));
  Ret (match rows with
     | Err e => fail_json StatusInternalServerError e
     | Ok items => ok_json [("data", JArr (map component_json items))]
     end).

Definition preview_symbol (code : string) : string :=
  if code =?s "USD" then "$" else if code =?s "EUR" then euro
  else if code =?s "GBP" then pound else if code =?s "AED" then "AED " else rupee.

Definition HandleCalculatePreview (r : Request PreviewRequest) : prog Database Response :=
  match body r with
  | None => Ret (http_error "invalid salary preview payload" StatusBadRequest)
  | Some req =>
    if pv_BaseSalary req <=? f0
    then Ret (http_error "invalid salary preview payload" StatusBadRequest)
    else
    let breakdown := CalculateSalaryBreakdown (pv_BaseSalary req) (pv_CurrencyCode req)
                       (preview_symbol (pv_CurrencyCode req)) in
    Ret (ok_json [("data", breakdown_json breakdown)])
  end.

(** UPDATE employee_salary_structures SET is_active = false WHERE employee_id = $1::uuid *)
Definition deactivate_structures (employeeID : string) : stmt Database Z :=
  with_uuid employeeID (fun u =>
  update employee_salary_structures (fun s => ess_employee_id s =?s u)
    (fun _ => set_ess_is_active false)).

Definition insert_structure (req : StructureRequest) (currency : string) : stmt Database StructRow :=
  with_uuid (sr_EmployeeID req) (fun u =>
  with_varchar 3 currency (fun currency =>
  with_num 12 2 (sr_BaseSalary req) (fun base =>
  insert employee_salary_structures (fun c d =>
  if ref_employee u d && existsb (fun k => cur_code k =?s currency) (tget currencies d)
  then Ok {| ess_id := sc_uuid c; ess_employee_id := u; ess_currency_code := currency;
             ess_base_salary := base; ess_is_active := true; ess_created_at := sc_now c;
             ess_updated_at := sc_now c |}
  else Err fk_error)))).

Definition HandleSaveStructure (r : Request StructureRequest) : prog Database Response :=
  if negb (HasRole (claims r) ["SUPER_ADMIN"; "HR_ADMIN"])
  then Ret (ForbiddenResponse "FORBIDDEN_ROLE" "Only HR and Super Admins can configure employee salary structures.")
  else
  let uid := from_option UserID "" (claims r) in
  match body r with
  | None => Ret (http_error "invalid structure payload" StatusBadRequest)
  | Some req =>
    if (sr_EmployeeID req =?s "") || (sr_BaseSalary req <=? f0)
    then Ret (http_error "invalid structure payload" StatusBadRequest)
    else
    let currency := if sr_CurrencyCode req =?s "" then "INR" else sr_CurrencyCode req in
    let done := ok_json [("message", JStr "Employee salary structure saved successfully.")] in
    if db_nil then Ret done else
    _ <- exec (deactivate_structures (sr_EmployeeID req));
    res <- exec (insert_structure req currency);
    match res with
    | Err e => Ret (fail_json StatusInternalServerError e)
    | Ok row =>
        audited {| le_UserID := uid; le_Action := "SALARY_STRUCTURE_ASSIGNMENT";
                   le_Module := "PAYROLL"; le_EntityName := "employee_salary_structures";
                   le_EntityID := ess_id row; le_AfterState := [];
                   le_Reason := "Assigned base salary " +:+ fmt_float 2 (sr_BaseSalary req)
                                +:+ " " +:+ currency +:+ " to employee " +:+ sr_EmployeeID req |} ;;;
        Ret done
    end
  end.

Definition HandleGetStructure {B} (r : Request B) : prog Database Response :=
  let empID := urlParam r "employee_id" in
  if empID =?s "" then Ret (http_error "missing employee_id" StatusBadRequest) else
  if db_nil then Ret db_unavailable else
  row <- exec (with_uuid empID (fun u => select_row (fun d =>
         (fun s => (ess_currency_code s, num_out 2 (ess_base_salary s))) <$>
         head (order_by (desc ess_created_at)
           (where_ (fun s => (ess_employee_id s =?s u) && ess_is_active s)
              (tget employee_salary_structures d))))));
  let '(currencyCode, baseSalary) := scan ("INR", of_Z 60000) row in
  let symbol := if currencyCode =?s "USD" then "$" else rupee in
  Ret (ok_json [("data", breakdown_json (CalculateSalaryBreakdown baseSalary currencyCode symbol))]).
End Matrix.

(** ** Properties of the breakdown *)

Definition amount_nonneg (a : ComponentAmount) : Prop := nonneg (Amount a).

Lemma nonneg_lits : nonneg (lit 50 100) /\ nonneg (lit 40 100) /\ nonneg (lit 12 100)
  /\ nonneg (lit 10 100) /\ nonneg (of_Z 200).
Proof. split_and!; reflexivity. Qed.

#[local] Close Scope f64_scope.

(** *** The net pay *)

Definition twelve_percent : lit 12 100 = S754_finite false 8646911284551352 (- 56) := eq_refl.
Definition ten_percent : lit 10 100 = S754_finite false 7205759403792794 (- 56) := eq_refl.

(** A share of one or two units is rounded down to nothing. *)
Lemma share_tiny x l : l = lit 12 100 \/ l = lit 10 100 -> fin x -> canonical x -> units x <= 2 -> units (x * l)%f64 = 0.
Proof.
  intros Hl Hx Cx Hu. destruct x as [sx|sx| |sx m e]; try done; [by destruct Hl as [-> | ->]|].
  simpl in Hx. subst. destruct Cx as (He & _ & Hm). cbn [units] in Hu. assert (1 <= 2 ^ (e + 1074)) by lia.
  destruct Hm as [Hm| ->]; [nia|]. change (2 ^ (-1074 + 1074)) with 1 in Hu. assert (m = 1%positive \/ m = 2%positive) as [-> | ->] by lia.
  all: by destruct Hl as [-> | ->].
Qed.

(** The professional tax is owed on a gross of 15000, hence of 8192 at least. *)
Lemma taxed_gross g : fin g -> canonical g -> (g <? of_Z 15000)%f64 = false -> 8192 * 2 ^ 1074 <= units g.
Proof.
  intros Hg Cg. change (of_Z 15000) with (S754_finite false 8246337208320000 (-39)). unfold fltb, SFltb, SFcompare.
  destruct g as [s|s| |s m e]; try done. simpl in Hg. subst. destruct Cg as (He & _ & Hm). cbn [units].
  intros Hlt. assert (-39 <= e). { destruct (Z.compare_spec e (-39)); [lia|done|lia]. }
  assert (2 ^ 1035 <= 2 ^ (e + 1074)) by (apply Z.pow_le_mono_r; lia).
  destruct Hm as [Hm|Hm]; [|lia].
  replace (8192 * 2 ^ 1074) with (2 ^ 52 * 2 ^ 1035) by (by vm_compute). nia.
Qed.

(** The shares of an amount below the gross. *)
Lemma share_spec x l ml : l = lit 12 100 /\ ml = 8646911284551352%positive \/ l = lit 10 100 /\ ml = 7205759403792794%positive ->
  fin x -> canonical x -> fin (x * l)%f64 /\ canonical (x * l)%f64
  /\ 2 ^ 52 * (units (x * l)%f64 * 2 ^ 56) <= (2 ^ 52 + 1) * (units x * Zpos ml) + 2 ^ 52 * 2 ^ 56.
Proof.
  intros Hl Hx Cx. assert (Hml : 2 ^ 52 <= Zpos ml < 2 ^ 53) by (by destruct Hl as [[_ ->]|[_ ->]]).
  assert (Heq : l = S754_finite false ml (- 56)) by (by destruct Hl as [[-> ->]|[-> ->]]). rewrite Heq.
  pose proof (fmul_close x ml 56 ltac:(lia) Hx Cx) as Hc. change (Z.opp 56) with (-56) in Hc. pose proof (units_bound x Cx) as Hu. pose proof (units_nonneg x) as H0.
  assert (Hf : fin (x * S754_finite false ml (- 56))%f64).
  { destruct (x * S754_finite false ml (- 56))%f64 as [s|s| |s m e]; try done; [|exact (proj1 Hc)]. destruct Hc as [_ Hc]. exfalso.
    assert (2 ^ 2098 * 2 ^ 53 < 2 ^ 2097 * 2 ^ 56) by (by vm_compute). nia. }
  split_and!; [done|apply fmul_canonical; lia|]. pose proof (close_spec _ _ _ Hc Hf) as [Hhi _]. rewrite decide_False in Hhi by done. lia.
Qed.

(** The sum of two finite numbers whose sum is in range. *)
Lemma sum_spec x y : fin x -> fin y -> canonical x -> canonical y -> units x + units y < 2 ^ 2097 ->
  fin (x + y)%f64 /\ canonical (x + y)%f64 /\ 2 ^ 52 * units (x + y)%f64 <= (2 ^ 52 + 1) * (units x + units y).
Proof.
  intros Hx Hy Cx Cy Hlt. pose proof (fadd_close x y Hx Hy Cx Cy) as Hc. assert (Hf : fin (x + y)%f64) by (by eapply close_fin).
  split_and!; [done|by apply fadd_canonical|]. pose proof (close_spec _ _ _ Hc Hf) as [Hhi _]. rewrite decide_True in Hhi by done. lia.
Qed.

Lemma sum_lower x y : fin x -> fin y -> canonical x -> canonical y -> fin (x + y)%f64 ->
  (2 ^ 52 - 1) * (units x + units y) <= 2 ^ 52 * units (x + y)%f64.
Proof.
  intros Hx Hy Cx Cy Hf. pose proof (close_spec _ _ _ (fadd_close x y Hx Hy Cx Cy) Hf) as [_ Hlo].
  rewrite decide_True in Hlo by done. lia.
Qed.

(** The deductions of a gross never exceed it: they are below a quarter of it, up to the units
    that rounding adds, and the professional tax is at most a fortieth. *)
Lemma net_pay_nonneg b h s : nonneg b -> nonneg h -> nonneg s -> canonical b -> canonical h -> canonical s ->
  let gross := (b + h + s)%f64 in let profTax := if (gross <? of_Z 15000)%f64 then f0 else of_Z 200 in
  nonneg (gross - (b * lit 12 100 + gross * lit 10 100 + profTax))%f64.
Proof.
  intros Nb Nh Ns Cb Ch Cs gross profTax. assert (Cbh : canonical (b + h)%f64) by (by apply fadd_canonical).
  assert (Cg : canonical gross) by (by apply fadd_canonical).
  assert (Ng : nonneg gross) by (by repeat apply nonneg_fadd).
  apply sign_cases in Ng as Hg. destruct Hg as [Hg|[Hg|Hg]].
  - by rewrite Hg.
  - assert (Hp : nonneg (b * lit 12 100)%f64) by (by apply nonneg_fmul). unfold profTax. rewrite Hg.
    apply sign_cases in Hp as [-> |[-> |Hp]]; [done..|]. by destruct (b * lit 12 100)%f64.
  - apply fadd_fin in Hg as HF; [|by apply nonneg_fadd|done]. destruct HF as [Fbh Fs].
    apply fadd_fin in Fbh as HF; [|done..]. destruct HF as [Fb Fh].
    pose proof (sum_lower b h Fb Fh Cb Ch Fbh) as L1. pose proof (sum_lower (b + h)%f64 s Fbh Fs Cbh Cs Hg) as L2. fold gross in L2.
    destruct (share_spec b (lit 12 100) _ (or_introl (conj eq_refl eq_refl)) Fb Cb) as (Fp & Cp & Lp).
    destruct (share_spec gross (lit 10 100) _ (or_intror (conj eq_refl eq_refl)) Hg Cg) as (Ft & Ct & Lt).
    pose proof (units_nonneg b). pose proof (units_nonneg h). pose proof (units_nonneg s). pose proof (units_bound gross Cg) as Bg.
    pose proof (units_nonneg (b + h)%f64).
    assert (Bb : (2 ^ 52 - 3) * units b <= 2 ^ 52 * units gross) by lia. clear L1 L2.
    destruct (sum_spec (b * lit 12 100)%f64 (gross * lit 10 100)%f64) as (Fpt & Cpt & Lpt); [done..|lia|].
    set (pt := (b * lit 12 100 + gross * lit 10 100)%f64) in *.
    assert (Ht : fin profTax /\ canonical profTax /\ 40 * units profTax <= units gross).
    { unfold profTax. destruct (gross <? of_Z 15000)%f64 eqn:E; [split_and!; [done|done|simpl; lia]|].
      apply taxed_gross in E; [|done..]. split_and!; [done|by apply valid_canonical|]. 
      replace (units (of_Z 200)) with (200 * 2 ^ 1074) by (by vm_compute). lia. }
    destruct Ht as (Fx & Cx & Lx). clearbody profTax.
    destruct (sum_spec pt profTax) as (Fd & Cd & Ld); [done..|lia|].
    apply fsub_nonneg; [done..|].
    destruct (decide (units gross <= 2)); [|lia].
    rewrite (share_tiny b) in Lpt by (auto || lia). rewrite (share_tiny gross) in Lpt by auto. lia.
Qed.

#[local] Open Scope f64_scope.

(** C36: for every base salary, infinities and NaN included, the gross earnings, the total
    deductions and every earning and deduction are not negative, and neither is the net pay,
    the one difference that the code does not clamp, whatever the rounding: for every float64,
    which is a representation with [valid_binary]. There are three earnings, in the order in
    which the payroll loop reads them, and three deductions, unless the base is zero or less,
    when there are none. *)
Theorem breakdown_amounts base code symbol : valid_binary 53 1024 base = true ->
  let b := CalculateSalaryBreakdown base code symbol in
  nonneg (NetPay b) /\ nonneg (GrossEarnings b) /\ nonneg (TotalDeductions b)
  /\ Forall amount_nonneg (Earnings b) /\ Forall amount_nonneg (Deductions b)
  /\ map Code (Earnings b) = (if base <=? f0 then [] else ["BASIC"; "HRA"; "SPECIAL_ALLOWANCE"])
  /\ map Code (Deductions b) = (if base <=? f0 then [] else ["PF_EMP"; "INCOME_TAX"; "PROF_TAX"]).
Proof.
  intros Hv. apply valid_canonical in Hv. unfold CalculateSalaryBreakdown. destruct (base <=? f0) eqn:Eb; simpl; [by split_and!|].
  pose proof (fleb_zero_false _ Eb) as Hb. destruct nonneg_lits as (H50 & H40 & H12 & H10 & H200).
  set (basic := base * lit 50 100). set (hra := basic * lit 40 100).
  assert (Cb : canonical basic) by (by apply fmul_canonical). assert (Ch : canonical hra) by (by apply fmul_canonical).
  assert (Cs : canonical (clamp0 (base - (basic + hra)))) by (by apply clamp0_canonical, fsub_canonical, fadd_canonical).
  assert (Nb : nonneg basic) by (by apply nonneg_fmul). assert (Nh : nonneg hra) by (by apply nonneg_fmul).
  change (if base - (basic + hra) <? f0 then f0 else base - (basic + hra)) with (clamp0 (base - (basic + hra))).
  pose proof (nonneg_clamp0 (base - (basic + hra))) as Hs. set (special := clamp0 _) in *. clearbody special.
  assert (Ht : forall g, nonneg (if g <? of_Z 15000 then f0 else of_Z 200)).
  { intros g. by destruct (g <? of_Z 15000). }
  split; [by apply net_pay_nonneg|].
  split_and!; repeat constructor; unfold amount_nonneg; simpl; auto 10 with portal.
Qed.

(** Of 12000 the breakdown leaves 10080. *)
Lemma breakdown_amounts_witness :
  nonneg (NetPay (CalculateSalaryBreakdown (of_Z 12000) "INR" "Rs"))
  /\ NetPay (CalculateSalaryBreakdown (of_Z 12000) "INR" "Rs") = of_Z 10080.
Proof. split; [exact (proj1 (breakdown_amounts (of_Z 12000) "INR" "Rs" eq_refl))|by vm_compute]. Defined.

(** ** Properties of the structures *)

Section MatrixProperties.
Context `{Server}.

Definition active_structures (u : string) (d : Database) : list StructRow :=
  where_ (fun s => (ess_employee_id s =?s u) && ess_is_active s)
  (tget employee_salary_structures d).

Lemma deactivated_none u d :
  active_structures u (tput employee_salary_structures
  (set_where (fun s => ess_employee_id s =?s u) (set_ess_is_active false)
     (tget employee_salary_structures d)) d) = [].
Proof.
  unfold active_structures. rewrite tget_tput. apply where_none, Forall_forall.
  intros s Hs. apply elem_of_set_where in Hs as (s0 & _ & ->).
  destruct (ess_employee_id s0 =?s u) eqn:E; [apply andb_false_r|by rewrite E].
Qed.

(** The request is authorised, well formed and for a known employee. *)
Definition structure_request_ok (r : Request StructureRequest) (req : StructureRequest) : Prop :=
  HasRole (claims r) ["SUPER_ADMIN"; "HR_ADMIN"] = true /\ body r = Some req
  /\ (sr_EmployeeID req =?s "") = false /\ (sr_BaseSalary req <=? f0) = false.

Lemma save_structure_prefix E r req n d u :
  reliable E -> db_nil = false -> structure_request_ok r req ->
  uuid_in (sr_EmployeeID req) = Some u ->
  let d1 := tput employee_salary_structures
            (set_where (fun s => ess_employee_id s =?s u) (set_ess_is_active false)
               (tget employee_salary_structures d)) d in
  exists k, run E (HandleSaveStructure r) n d =
  match insert_structure req (if sr_CurrencyCode req =?s "" then "INR" else sr_CurrencyCode req)
          (env_ctx E (S n)) d1 with
  | Err e => (Done (fail_json StatusInternalServerError e), S (S n), d1)
  | Ok (row, d2) =>
      run E (bind (audited (k row)) (fun _ =>
        Ret (ok_json [("message", JStr "Employee salary structure saved successfully.")])))
        (S (S n)) d2
  end.
Proof.
  intros HE Hdb (Hrole & Hb & He & Hbase) Hu d1. eexists.
  unfold HandleSaveStructure. rewrite Hrole, Hb, He, Hbase, Hdb. simpl negb. cbv iota. simpl orb.
  cbv iota. unfold exec at 1. rewrite Hdb. simpl bind.
  unfold exec. rewrite Hdb. simpl run. rewrite (answer_reliable _ _ _ _ HE).
  unfold deactivate_structures at 1, with_uuid at 1. rewrite Hu. unfold update. simpl.
  rewrite (answer_reliable _ _ _ _ HE). fold d1.
  destruct (insert_structure _ _ _ d1) as [[row d2]|e]; [|reflexivity].
  reflexivity.
Qed.

(** A successful save leaves the employee with exactly one active salary
    structure, the one of the request. *)
Theorem save_structure_single_active E r req n d u base :
  reliable E -> db_nil = false -> structure_request_ok r req ->
  uuid_in (sr_EmployeeID req) = Some u -> num_in 12 2 (sr_BaseSalary req) = Some base ->
  (exists resp, out (run E (HandleSaveStructure r) n d) = Done resp /\ succeeded resp = true) ->
  exists row, active_structures u (db_of (run E (HandleSaveStructure r) n d)) = [row]
  /\ ess_employee_id row = u /\ ess_base_salary row = base.
Proof.
  intros HE Hdb Hok Hu Hbase Hres.
  destruct (save_structure_prefix E r req n d u HE Hdb Hok Hu) as [k Hrun].
  rewrite Hrun in *. clear Hrun.
  destruct (insert_structure _ _ _ _) as [[row d2]|e] eqn:Ei.
  2: { destruct Hres as (resp & [= <-] & Hs). done. }
  unfold insert_structure in Ei. sql_inv Ei.
  destruct (_ && _); simplify_eq. simplify_eq.
  match goal with |- context [tget employee_salary_structures ?x ++ [?w]] =>
  set (d1 := x) in *; set (row := w) end.
  rewrite run_bind. destruct (run_audited E (k row) (S (S n))
  (tput employee_salary_structures (tget employee_salary_structures d1 ++ [row]) d1) Hdb)
  as (n' & d' & -> & Hd'). simpl.
  exists row. split_and!; try done.
  assert (Hact : active_structures u d' = active_structures u
  (tput employee_salary_structures (tget employee_salary_structures d1 ++ [row]) d1)).
  { destruct Hd' as [->|[w ->]]; [done|]. unfold active_structures. by rewrite indep. }
  rewrite Hact. unfold active_structures. rewrite tget_tput, where_app.
  fold (active_structures u d1). unfold d1. rewrite deactivated_none. simpl.
  by rewrite eqb_refl_s.
Qed.

(** The two statements of a save are not one transaction: when the currency
    is unknown the insertion is refused, the caller is told that the save
    failed, and the employee is left without any active structure. *)
Theorem save_structure_not_atomic E r req n d u base k :
  reliable E -> db_nil = false -> structure_request_ok r req ->
  uuid_in (sr_EmployeeID req) = Some u -> num_in 12 2 (sr_BaseSalary req) = Some base ->
  varchar_in 3 (if sr_CurrencyCode req =?s "" then "INR" else sr_CurrencyCode req) = Some k ->
  existsb (fun c => cur_code c =?s k) (tget currencies d) = false ->
  out (run E (HandleSaveStructure r) n d) = Done (fail_json StatusInternalServerError fk_error)
  /\ active_structures u (db_of (run E (HandleSaveStructure r) n d)) = [].
Proof.
  intros HE Hdb Hok Hu Hbase Hk Hno.
  destruct (save_structure_prefix E r req n d u HE Hdb Hok Hu) as [entry ->].
  unfold insert_structure, with_uuid, with_varchar, with_num, insert. rewrite Hu, Hk, Hbase.
  rewrite indep, Hno, andb_false_r. split; [done|]. apply deactivated_none.
Qed.
End MatrixProperties.
