(* ===== verification/Payroll.v ===== *)
(** * internal/payroll/payroll.go: readiness, runs, advances and payslips *)

From S2P Require Import Prelude Float64 Go Sql Schema Calendar Common Auth Authz AuditTrail Matrix.
From Stdlib Require Import SpecFloat.

#[local] Open Scope prog_scope.

Record ProcessRequest := { pr_Month : Z; pr_Year : Z }.

Record AdvanceRequest := {
  ar_EmployeeID : string;
  ar_Amount : f64;
  ar_Reason : string;
  ar_DeductFromMonth : Z;
  ar_DeductFromYear : Z
}.

(** ** Readiness *)

Record ReadinessResponse := {
  Ready : bool;
  rd_Month : Z;
  rd_Year : Z;
  Errors : list string;
  Warnings : list string;
  Statistics : list (string * json);
  ActionNeeded : string
}.

Definition readiness_json (r : ReadinessResponse) : json :=
  JObj ([("ready", JBool (Ready r)); ("month", JInt (rd_Month r)); ("year", JInt (rd_Year r));
         ("errors", JArr (map JStr (Errors r))); ("warnings", JArr (map JStr (Warnings r)));
         ("statistics", JObj (Statistics r))]
        ++ (if ActionNeeded r =?s "" then [] else [("action_needed", JStr (ActionNeeded r))])).

(** [%02d/%d] *)
Definition period (month year : Z) : string := pad0 2 month +:+ "/" +:+ itoa year.

Definition in_month (month year date : Z) : bool :=
  (month_of date =? month) && (year_of date =? year).

Definition live (e : EmpRow) : bool :=
  (emp_status e =?s "ACTIVE") && match emp_deleted_at e with None => true | _ => false end.

Fixpoint distinct (l : list string) : list string :=
  match l with
  | [] => []
  | x :: l' => if mem_s x l' then distinct l' else x :: distinct l'
  end.

(** An advance still to be deducted in the period. *)
Definition due (month year : Z) (a : AdvRow) : bool :=
  (adv_deduct_from_month a =? month) && (adv_deduct_from_year a =? year)
  && mem_s (adv_status a) ["PENDING"; "APPROVED"].

Record AttendanceCounts := { total : Z; validated : Z; pending : Z; rejected : Z }.

Section Payroll.
Context `{Server}.

Definition count_attendance (month year : Z) : stmt Database AttendanceCounts :=
  select (fun d =>
  let rows := where_ (fun a => in_month month year (day_date a)) (tget attendance_daily_status d) in
  {| total := Z.of_nat (length rows);
     validated := count_where (fun a => day_validation_status a =?s "VALIDATED") rows;
     pending := count_where (fun a => mem_s (day_validation_status a) ["TO_VALIDATE"; "OT_PENDING"]) rows;
     rejected := count_where (fun a => day_validation_status a =?s "REJECTED") rows |}).

(** SELECT COUNT( * ) FROM leave_requests, a table the schema may not have *)
Definition count_leaves (month year : Z) : stmt Database Z :=
  checked (names "leave_requests" ["status"; "start_date"])
  (select (fun d => count_where (fun l => (lrq_status l =?s "APPROVED")
                      && in_month month year (lrq_start_date l)) (tget leave_requests d))).

Definition sum_advances (month year : Z) : stmt Database (Z * f64) :=
  with_int4 month (with_int4 year (select (fun d =>
  let rows := where_ (due month year) (tget payroll_advances d) in
  (Z.of_nat (length rows), num_out 2 (sum_Z (map adv_amount rows)))))).

Definition checkPayrollReadiness (month year : Z) : prog Database ReadinessResponse :=
  if db_nil then
  Ret {| Ready := false; rd_Month := month; rd_Year := year;
         Errors := ["database connection unavailable"]; Warnings := []; Statistics := [];
         ActionNeeded := "" |}
  else
  active <- exec (select (fun d => count_where live (tget employees d)));
  configured <- exec (select (fun d => Z.of_nat (length (distinct (map ess_employee_id
                (where_ ess_is_active (tget employee_salary_structures d)))))));
  let activeEmpCount := scan 0 active in
  let configuredSalaryCount := scan 0 configured in
  let missingSalaries := activeEmpCount - configuredSalaryCount in
  let warnings := if 0 <? missingSalaries
                then [itoa missingSalaries +:+ " active employees do not have a configured salary structure (default base rate will apply)"]
                else [] in
  counts <- exec (count_attendance month year);
  let c := scan {| total := 0; validated := 0; pending := 0; rejected := 0 |} counts in
  let blocked := negb (total c =? 0) && (0 <? pending c) in
  let warnings := if total c =? 0
                then warnings ++ ["No attendance records found for period " +:+ period month year]
                else warnings in
  let errors := if blocked
              then ["PAYROLL_BLOCKED_UNVALIDATED_ATTENDANCE: " +:+ itoa (pending c)
                    +:+ " attendance records are pending validation for period "
                    +:+ period month year]
              else [] in
  let action := if blocked
              then "Validate remaining " +:+ itoa (pending c)
                   +:+ " attendance records before proceeding with payroll execution"
              else "" in
  leaves <- exec (count_leaves month year);
  advances <- exec (sum_advances month year);
  let '(advCount, advAmount) := scan (0, f0) advances in
  Ret {| Ready := Nat.eqb (length errors) 0; rd_Month := month; rd_Year := year;
       Errors := errors; Warnings := warnings;
       Statistics :=
         [("active_employees", JInt activeEmpCount); ("configured_salaries", JInt configuredSalaryCount);
          ("total_attendance_records", JInt (total c)); ("validated_attendance", JInt (validated c));
          ("pending_attendance", JInt (pending c)); ("rejected_attendance", JInt (rejected c));
          ("approved_leaves", JInt (scan 0 leaves)); ("active_advances_count", JInt advCount);
          ("total_advance_amount", JNum advAmount)];
       ActionNeeded := action |}.

(** [int(time.Now().Month())], [time.Now().Year()], the server's clock in UTC. *)
Definition HandleGetReadiness {B} (r : Request B) : prog Database Response :=
  if negb (CanManagePayroll (claims r))
  then Ret (ForbiddenResponse "FORBIDDEN_ROLE" "Only Payroll Admins can check payroll readiness.")
  else
  t1 <- now;
  t2 <- now;
  let month := default (month_of (date_of_time t1)) (Sscanf_d (query r "month")) in
  let year := default (year_of (date_of_time t2)) (Sscanf_d (query r "year")) in
  report <- checkPayrollReadiness month year;
  Ret (ok_json [("data", readiness_json report)]).

Definition run_period (id : string) : stmt Database (Z * Z) :=
  select_row (fun d => (fun p => (run_month p, run_year p)) <$>
  List.find (fun p => run_id p =?s id) (tget payroll_runs d)).

Definition HandleGetRunReadiness {B} (r : Request B) : prog Database Response :=
  if negb (CanManagePayroll (claims r))
  then Ret (ForbiddenResponse "FORBIDDEN_ROLE" "Only Payroll Admins can check payroll readiness.")
  else if db_nil then Ret db_unavailable else
  row <- exec (run_period (urlParam r "id"));
  match row with
  | Err _ => Ret (fail_json StatusNotFound "payroll run not found")
  | Ok (month, year) =>
    report <- checkPayrollReadiness month year;
    Ret (ok_json [("data", readiness_json report)])
  end.
(** *** The list of runs *)

(** The payslips of a run, summed. *)
Definition slips_of (id : string) (d : Database) : list SlipRow :=
  where_ (fun s => slp_payroll_run_id s =?s id) (tget payslips d).

Definition run_json (d : Database) (p : RunRow) : json :=
  let slips := slips_of (run_id p) d in
  let or_sum v f := if negb (v =? 0) then v else sum_Z (map f slips) in
  JObj [("id", JStr (run_id p)); ("month", JInt (run_month p)); ("year", JInt (run_year p));
      ("status", JStr (run_status p));
      ("total_employees", JInt (if negb (run_total_employees p =? 0) then run_total_employees p
                                else Z.of_nat (length slips)));
      ("total_gross", JNum (num_out 2 (or_sum (run_total_gross p) slp_total_earnings)));
      ("total_deductions", JNum (num_out 2 (or_sum (run_total_deductions p) slp_total_deductions)));
      ("total_net_pay", JNum (num_out 2 (or_sum (run_total_net_pay p) slp_net_pay)));
      ("total_lop_days", JNum (num_out 2 (run_total_lop_days p)));
      ("total_advances_deducted", JNum (num_out 2 (run_total_advances_deducted p)));
      ("variance_percentage", JNum (num_out 2 (run_variance_percentage p)));
      ("created_at", JTime (run_created_at p))].

Definition HandleGetRuns {B} (r : Request B) : prog Database Response :=
  if negb (CanManagePayroll (claims r))
  then Ret (ForbiddenResponse "FORBIDDEN_ROLE" "Only Payroll Admins can access payroll runs.")
  else
  let pg := ParsePaginationParams (query r) in
  if db_nil then Ret db_unavailable else
  cnt <- exec (select (fun d => Z.of_nat (length (tget payroll_runs d))));
  rows <- exec (select_page pg (fun d => map (run_json d)
          (order_by (then_by (desc run_year) (desc run_month)) (tget payroll_runs d))));
  Ret (match rows with
     | Err _ => page_json pg 0 []
     | Ok runs => page_json pg (scan 0 cnt) runs
     end).

(** *** Processing a period *)

Record EmpProc := {
  ep_ID : string;
  EmpCode : string;
  FullName : string;
  ep_BaseSalary : f64;
  ep_CurrencyCode : string
}.

(** employees e LEFT JOIN employee_salary_structures ess
    ON e.id = ess.employee_id AND ess.is_active = true: a row per active
    structure, one with the defaults when there is none. *)
Definition pay_rows (d : Database) : list EmpProc :=
  flat_map (fun e =>
  let row base cur := {| ep_ID := emp_id e; EmpCode := emp_employee_id e; FullName := full_name e;
                         ep_BaseSalary := base; ep_CurrencyCode := cur |} in
  match active_structures (emp_id e) d with
  | [] => [row (num_out 1 600000) "INR"]
  | l => map (fun s => row (num_out 2 (ess_base_salary s)) (ess_currency_code s)) l
  end) (where_ live (tget employees d)).

Definition find_run (month year : Z) : stmt Database (string * string) :=
  with_int4 month (with_int4 year (select_row (fun d =>
  (fun p => (run_id p, run_status p)) <$>
  List.find (fun p => (run_month p =? month) && (run_year p =? year)) (tget payroll_runs d)))).

(** INSERT INTO payroll_runs (organization_id, month, year, status, processed_by,
    processed_at): UNIQUE (organization_id, month, year). *)
Definition insert_run (orgID : string) (month year : Z) (userID : string) : stmt Database RunRow :=
  with_uuid orgID (fun org => with_int4 month (with_int4 year (with_uuid userID (fun uid =>
  insert payroll_runs (fun c d =>
  if existsb (fun p => run_id p =?s sc_uuid c) (tget payroll_runs d)
     || existsb (fun p => (run_organization_id p =?s org) && (run_month p =? month)
                          && (run_year p =? year)) (tget payroll_runs d)
  then Err unique_error
  else if negb (ref_user uid d && existsb (fun o => org_id o =?s org) (tget organizations d))
  then Err fk_error
  else Ok {| run_id := sc_uuid c; run_organization_id := org; run_month := month;
             run_year := year; run_status := "PROCESSING"; run_processed_at := Some (sc_now c);
             run_processed_by := Some uid; run_approved_by := None; run_approved_at := None;
             run_locked_at := None; run_total_employees := 0; run_total_gross := 0;
             run_total_deductions := 0; run_total_net_pay := 0; run_total_lop_days := 0;
             run_total_advances_deducted := 0; run_variance_percentage := 0;
             run_created_at := sc_now c |}))))).

Definition count_lop (empID : string) (month year : Z) : stmt Database f64 :=
  with_uuid empID (fun u => select (fun d => of_Z (count_where (fun a =>
  (day_employee_id a =?s u) && in_month month year (day_date a)
  && mem_s (day_status a) ["ABSENT"; "LOP"]) (tget attendance_daily_status d)))).

(** SELECT id::text, amount ... LIMIT 1 *)
Definition due_advance (empID : string) (month year : Z) : stmt Database (string * f64) :=
  with_uuid empID (fun u => with_int4 month (with_int4 year (select_row (fun d =>
  (fun a => (adv_id a, num_out 2 (adv_amount a))) <$>
  List.find (fun a => (adv_employee_id a =?s u) && due month year a) (tget payroll_advances d))))).

Definition deduct_advance (advanceID : string) : stmt Database Z :=
  update payroll_advances (fun a => adv_id a =?s advanceID)
  (fun c a => set_adv_updated_at (sc_now c) (set_adv_status "DEDUCTED" a)).

(** What the loop computes for an employee. *)
Record PayAmounts := {
  basicPay : f64;
  pay_hra : f64;
  gross : f64;
  totalDed : f64;
  netPay : f64
}.

Definition pay_amounts (b : SalaryBreakdown) (basic hra lopDays advanceDeduction : f64) : PayAmounts :=
  (let lopDeduction := GrossEarnings b / of_Z 30 * lopDays in
  let totalDed := TotalDeductions b + lopDeduction + advanceDeduction in
  let netPay := GrossEarnings b - totalDed in
  {| basicPay := basic; pay_hra := hra; gross := GrossEarnings b; totalDed := totalDed;
    netPay := if netPay <? f0 then f0 else netPay |})%f64.

(** INSERT INTO payslips ... ON CONFLICT (payroll_run_id, employee_id) DO UPDATE *)
Definition upsert_payslip (runID empID : string) (a : PayAmounts) : stmt Database SlipRow :=
  with_uuid runID (fun ru => with_uuid empID (fun eu =>
  with_num 12 2 (basicPay a) (fun nb => with_num 12 2 (pay_hra a) (fun nh =>
  with_num 12 2 (gross a) (fun ng => with_num 12 2 (totalDed a) (fun nd =>
  with_num 12 2 (netPay a) (fun nn =>
  upsert payslips
  (fun c d => if existsb (fun p => run_id p =?s ru) (tget payroll_runs d) && ref_employee eu d
              then Ok {| slp_id := sc_uuid c; slp_payroll_run_id := ru; slp_employee_id := eu;
                         slp_basic_pay := nb; slp_hra := nh; slp_total_earnings := ng;
                         slp_total_deductions := nd; slp_net_pay := nn;
                         slp_status := "GENERATED"; slp_created_at := sc_now c;
                         slp_updated_at := sc_now c |}
              else Err fk_error)
  (fun new old => (slp_payroll_run_id old =?s slp_payroll_run_id new)
                  && (slp_employee_id old =?s slp_employee_id new))
  (fun c new old => {| slp_id := slp_id old; slp_payroll_run_id := slp_payroll_run_id old;
                       slp_employee_id := slp_employee_id old;
                       slp_basic_pay := slp_basic_pay new; slp_hra := slp_hra new;
                       slp_total_earnings := slp_total_earnings new;
                       slp_total_deductions := slp_total_deductions new;
                       slp_net_pay := slp_net_pay new; slp_status := "GENERATED";
                       slp_created_at := slp_created_at old;
                       slp_updated_at := sc_now c |})))))))).

Record Totals := {
  grandGross : f64;
  grandDeductions : f64;
  grandNet : f64;
  grandLopDays : f64;
  grandAdvances : f64
}.

Definition no_totals : Totals :=
  {| grandGross := f0; grandDeductions := f0; grandNet := f0; grandLopDays := f0; grandAdvances := f0 |}.

Definition add_totals (t : Totals) (a : PayAmounts) (lopDays advanceDeduction : f64) : Totals :=
  ({| grandGross := grandGross t + gross a; grandDeductions := grandDeductions t + totalDed a;
    grandNet := grandNet t + netPay a; grandLopDays := grandLopDays t + lopDays;
    grandAdvances := grandAdvances t + advanceDeduction |})%f64.

(** The body of the loop over the employees. *)
Definition process_employee (runID : string) (month year : Z) (t : Totals) (ep : EmpProc)
  : prog Database Totals :=
  let breakdown := CalculateSalaryBreakdown (ep_BaseSalary ep) (ep_CurrencyCode ep) rupee in
  lop <- exec (count_lop (ep_ID ep) month year);
  let lopDays := scan f0 lop in
  adv <- exec (due_advance (ep_ID ep) month year);
  let '(advanceID, advanceDeduction) := scan ("", f0) adv in
  (if advanceID =?s "" then Ret tt
  else _ <- exec (deduct_advance advanceID); Ret tt) ;;;
  basic <- index (Earnings breakdown) 0;
  hra <- index (Earnings breakdown) 1;
  let a := pay_amounts breakdown (Amount basic) (Amount hra) lopDays advanceDeduction in
  _ <- exec (upsert_payslip runID (ep_ID ep) a);
  Ret (add_totals t a lopDays advanceDeduction).

Definition finish_run (runID : string) (count : Z) (t : Totals) (userID : string) : stmt Database Z :=
  with_num 12 2 (grandGross t) (fun ng => with_num 12 2 (grandDeductions t) (fun nd =>
  with_num 12 2 (grandNet t) (fun nn => with_num 8 2 (grandLopDays t) (fun nl =>
  with_num 12 2 (grandAdvances t) (fun na => with_uuid userID (fun uid =>
  update_chk payroll_runs (fun p => run_id p =?s runID)
  (fun c p => {| run_id := run_id p; run_organization_id := run_organization_id p;
                 run_month := run_month p; run_year := run_year p; run_status := "VALIDATED";
                 run_processed_at := Some (sc_now c); run_processed_by := Some uid;
                 run_approved_by := run_approved_by p; run_approved_at := run_approved_at p;
                 run_locked_at := run_locked_at p; run_total_employees := count;
                 run_total_gross := ng; run_total_deductions := nd; run_total_net_pay := nn;
                 run_total_lop_days := nl; run_total_advances_deducted := na;
                 run_variance_percentage := run_variance_percentage p;
                 run_created_at := run_created_at p |})
  (fun d _ => if ref_user uid d then None else Some fk_error))))))).

Definition run_locked (status : string) : bool := (status =?s "LOCKED") || (status =?s "PUBLISHED").

Definition create_run (org : result string) (req : ProcessRequest) (userID : string)
  : prog Database string :=
  new <- exec (insert_run (scan "" org) (pr_Month req) (pr_Year req) userID);
  match new with
  | Err e => Halt (fail_json StatusInternalServerError ("failed to initialize payroll run: " +:+ e))
  | Ok p => Ret (run_id p)
  end.

(** The run of the period, created when there is none. *)
Definition open_run (req : ProcessRequest) (userID : string) : prog Database string :=
  org <- exec first_organization;
  found <- exec (find_run (pr_Month req) (pr_Year req));
  match found with
  | Ok (runID, currentStatus) =>
    return_if (run_locked currentStatus)
      (fail_json StatusBadRequest "payroll run for period is LOCKED or PUBLISHED and cannot be re-processed") ;;;
    Ret runID
  | Err _ => create_run org req userID
  end.

Definition HandleProcessPayroll (r : Request ProcessRequest) : prog Database Response :=
  if negb (CanManagePayroll (claims r))
  then Ret (ForbiddenResponse "FORBIDDEN_ROLE" "Only Payroll Admins can process payroll runs.")
  else
  let userID := from_option UserID "" (claims r) in
  match body r with
  | None => Ret (http_error "invalid payload" StatusBadRequest)
  | Some req =>
    if (pr_Month req <? 1) || (12 <? pr_Month req) || (pr_Year req <? 2000)
    then Ret (http_error "invalid payload" StatusBadRequest)
    else if db_nil then Ret db_unavailable else
    readiness <- checkPayrollReadiness (pr_Month req) (pr_Year req);
    (if Ready readiness then Ret tt
     else first <- index (Errors readiness) 0;
          Halt (json_response StatusBadRequest
            (JObj [("success", JBool false); ("error", JStr first);
                   ("readiness", readiness_json readiness)]))) ;;;
    runID <- open_run req userID;
    rows <- exec (select pay_rows);
    match rows with
    | Err e => Ret (fail_json StatusInternalServerError ("failed to query employees: " +:+ e))
    | Ok empList =>
        t <- for_each empList no_totals (process_employee runID (pr_Month req) (pr_Year req));
        let count := Z.of_nat (length empList) in
        _ <- exec (finish_run runID count t userID);
        Ret (ok_json
          [("message", JStr ("Payroll processed successfully for period "
                             +:+ period (pr_Month req) (pr_Year req) +:+ " across "
                             +:+ itoa count +:+ " employees."));
           ("data", JObj
             [("payroll_run_id", JStr runID); ("month", JInt (pr_Month req));
              ("year", JInt (pr_Year req)); ("status", JStr "VALIDATED");
              ("total_employees", JInt count); ("total_gross", JNum (grandGross t));
              ("total_deductions", JNum (grandDeductions t)); ("total_net_pay", JNum (grandNet t));
              ("total_lop_days", JNum (grandLopDays t));
              ("total_advances_deducted", JNum (grandAdvances t))]);
           ("readiness", readiness_json readiness)])
    end
  end.

(** *** Transitions *)

Definition run_status_of (id : string) : stmt Database string :=
  select_row (fun d => run_status <$> List.find (fun p => run_id p =?s id) (tget payroll_runs d)).

Definition set_status (id status : string) : stmt Database Z :=
  update payroll_runs (fun p => run_id p =?s id) (fun _ => set_run_status status).

Definition approve_run (userID id : string) : stmt Database Z :=
  with_uuid userID (fun uid =>
  update_chk payroll_runs (fun p => run_id p =?s id)
    (fun c p => set_run_approved_at (Some (sc_now c))
                  (set_run_approved_by (Some uid) (set_run_status "APPROVED" p)))
    (fun d _ => if ref_user uid d then None else Some fk_error)).

Definition lock_run (id : string) : stmt Database Z :=
  update payroll_runs (fun p => run_id p =?s id)
  (fun c p => set_run_locked_at (Some (sc_now c)) (set_run_status "LOCKED" p)).

Definition publish_slips (id : string) : stmt Database Z :=
  update payslips (fun s => slp_payroll_run_id s =?s id) (fun _ => set_slp_status "PUBLISHED").

Definition transitioned (id nextStatus : string) : Response :=
  ok_json [("message", JStr ("Payroll status transitioned to " +:+ nextStatus));
         ("id", JStr id); ("status", JStr nextStatus)].

(** The switch on the action. *)
Definition transition (id userID action : string) : prog Database Response :=
  if action =?s "VALIDATE" then
  _ <- exec (set_status id "VALIDATED"); Ret (transitioned id "VALIDATED")
  else if action =?s "APPROVE" then
  _ <- exec (approve_run userID id); Ret (transitioned id "APPROVED")
  else if action =?s "LOCK" then
  _ <- exec (lock_run id); Ret (transitioned id "LOCKED")
  else if action =?s "PUBLISH" then
  _ <- exec (set_status id "PUBLISHED");
  _ <- exec (publish_slips id);
  Ret (transitioned id "PUBLISHED")
  else Ret (fail_json StatusBadRequest ("invalid transition action: " +:+ action)).

Definition HandleTransitionState (r : Request string) : prog Database Response :=
  let id := urlParam r "id" in
  if negb (CanManagePayroll (claims r))
  then Ret (ForbiddenResponse "FORBIDDEN_ROLE" "Only Payroll Admins can transition payroll run state.")
  else
  match body r with
  | None => Ret (http_error "invalid request" StatusBadRequest)
  | Some action =>
    if db_nil then Ret db_unavailable else
    cur <- exec (run_status_of id);
    match cur with
    | Err _ => Ret (fail_json StatusNotFound "payroll run not found")
    | Ok currentStatus =>
        if (currentStatus =?s "LOCKED") && negb (action =?s "PUBLISH")
        then Ret (fail_json StatusBadRequest "payroll run is LOCKED and can only be PUBLISHED")
        else if currentStatus =?s "PUBLISHED"
        then Ret (fail_json StatusBadRequest "payroll run is PUBLISHED and state cannot be mutated")
        else transition id (from_option UserID "" (claims r)) action
    end
  end.

(** *** Advances *)

Definition advance_rows (d : Database) : list (AdvRow * EmpRow) :=
  flat_map (fun a => map (pair a) (where_ (fun e => emp_id e =?s adv_employee_id a) (tget employees d)))
  (tget payroll_advances d).

Definition advance_json (p : AdvRow * EmpRow) : json :=
  let '(a, e) := p in
  JObj [("id", JStr (adv_id a)); ("employee_id", JStr (emp_employee_id e));
      ("employee_name", JStr (full_name e)); ("amount", JNum (num_out 2 (adv_amount a)));
      ("reason", JStr (adv_reason a)); ("deduct_from_month", JInt (adv_deduct_from_month a));
      ("deduct_from_year", JInt (adv_deduct_from_year a)); ("status", JStr (adv_status a));
      ("created_at", JTime (adv_created_at a))].

Definition HandleGetAdvances {B} (r : Request B) : prog Database Response :=
  let pg := ParsePaginationParams (query r) in
  if db_nil then Ret db_unavailable else
  cnt <- exec (select (fun d => Z.of_nat (length (tget payroll_advances d))));
  rows <- exec (select_page pg (fun d => map advance_json
          (order_by (desc (fun p => adv_created_at (fst p))) (advance_rows d))));
  Ret (match rows with
     | Err _ => page_json pg 0 []
     | Ok advances => page_json pg (scan 0 cnt) advances
     end).

(** SELECT id::text FROM employees WHERE (id::text = $1 OR employee_id = $1) LIMIT 1 *)
Definition employee_by_code (code : string) : stmt Database string :=
  select_row (fun d => emp_id <$> List.find (fun e => (emp_id e =?s code) || (emp_employee_id e =?s code))
                                  (tget employees d)).

Definition insert_advance (empID : string) (req : AdvanceRequest) : stmt Database AdvRow :=
  with_uuid empID (fun u => with_num 12 2 (ar_Amount req) (fun amount =>
  with_int4 (ar_DeductFromMonth req) (with_int4 (ar_DeductFromYear req)
  (insert payroll_advances (fun c d =>
  if ref_employee u d
  then Ok {| adv_id := sc_uuid c; adv_employee_id := u; adv_amount := amount;
             adv_recovery_months := 1; adv_reason := ar_Reason req;
             adv_deduct_from_month := ar_DeductFromMonth req;
             adv_deduct_from_year := ar_DeductFromYear req; adv_status := "APPROVED";
             adv_approved_by := None; adv_created_at := sc_now c; adv_updated_at := sc_now c |}
  else Err fk_error))))).

Definition HandleCreateAdvance (r : Request AdvanceRequest) : prog Database Response :=
  match claims r with
  | None => Ret UnauthorizedResponse
  | Some c =>
  match body r with
  | None => Ret (http_error "invalid request payload" StatusBadRequest)
  | Some req =>
    if (ar_Amount req <=? f0)%f64 || (ar_DeductFromMonth req <? 1) || (12 <? ar_DeductFromMonth req)
    then Ret (http_error "invalid request payload" StatusBadRequest)
    else if db_nil then Ret db_unavailable else
    byCode <- (if ar_EmployeeID req =?s "" then Ret ""
               else x <- exec (employee_by_code (ar_EmployeeID req)); Ret (scan "" x));
    empID <- (if byCode =?s ""
              then x <- exec (caller_employee (UserID c)); Ret (scan "" x)
              else Ret byCode);
    if empID =?s "" then Ret (fail_json StatusBadRequest "employee record not found") else
    res <- exec (insert_advance empID req);
    match res with
    | Err e => Ret (fail_json StatusInternalServerError ("failed to create advance: " +:+ e))
    | Ok a => Ret (ok_json [("message", JStr "Salary advance request created successfully.");
                            ("id", JStr (adv_id a))])
    end
  end
  end.

Definition approve_advance (userID id : string) : stmt Database Z :=
  with_uuid userID (fun uid =>
  update_chk payroll_advances (fun a => adv_id a =?s id)
    (fun c a => set_adv_updated_at (sc_now c)
                  (set_adv_approved_by (Some uid) (set_adv_status "APPROVED" a)))
    (fun d _ => if ref_user uid d then None else Some fk_error)).

Definition HandleApproveAdvance {B} (r : Request B) : prog Database Response :=
  let id := urlParam r "id" in
  if negb (CanManagePayroll (claims r))
  then Ret (ForbiddenResponse "FORBIDDEN_ROLE" "Only Payroll Admins can approve salary advances.")
  else if db_nil then Ret db_unavailable else
  res <- exec (approve_advance (from_option UserID "" (claims r)) id);
  match res with
  | Err e => Ret (fail_json StatusInternalServerError e)
  | Ok _ => Ret (ok_json [("message", JStr ("Advance request " +:+ id +:+ " approved."))])
  end.

(** *** Payslips *)

(** payslips ps JOIN employees e ON ps.employee_id = e.id *)
Definition slip_rows (d : Database) : list (SlipRow * EmpRow) :=
  flat_map (fun s => map (pair s) (where_ (fun e => emp_id e =?s slp_employee_id s) (tget employees d)))
  (tget payslips d).

(** The condition for callers without payroll rights, then the search. *)
Definition slip_visible (c : Claims) (callerEmpID search : string) (e : EmpRow) : bool :=
  (CanManagePayroll (Some c)
  || (opt_is (emp_user_id e) (UserID c) || (emp_id e =?s callerEmpID)))
  && ((search =?s "")
    || (let p := "%" +:+ search +:+ "%" in
        ilike (emp_first_name e) p || ilike (emp_last_name e) p || ilike (emp_employee_id e) p)).

Definition month_name (m : Z) : string :=
  match List.nth_error ["January"; "February"; "March"; "April"; "May"; "June"; "July"; "August";
                      "September"; "October"; "November"; "December"] (Z.to_nat (m - 1)) with
  | Some s => s | None => "" end.

Definition lookup_name {R} (id name : R -> string) (l : list R) (key : option string)
  (dflt : string) : string :=
  match key with
  | Some k => match List.find (fun r => id r =?s k) l with Some r => name r | None => dflt end
  | None => dflt
  end.

(** The columns of a payslip. The detail view has zeros for the derived ones. *)
Definition payslip_json (derived : bool) (d : Database) (p : SlipRow * EmpRow) : json :=
  let '(s, e) := p in
  let run := List.find (fun r => run_id r =?s slp_payroll_run_id s) (tget payroll_runs d) in
  let num v := JNum (if derived : bool then v else num_out 1 0) in
  JObj [("id", JStr (slp_id s)); ("employee_id", JStr (emp_employee_id e));
      ("employee_name", JStr (full_name e));
      ("designation", JStr (lookup_name des_id des_name (tget designations d) (emp_designation_id e) "Engineer"));
      ("department", JStr (lookup_name dep_id dep_name (tget departments d) (emp_department_id e) "Engineering"));
      ("month", JStr (from_option (fun r => month_name (run_month r)) "September" run));
      ("year", JInt (from_option run_year 2026 run));
      ("basic_pay", JNum (num_out 2 (slp_basic_pay s))); ("hra", JNum (num_out 2 (slp_hra s)));
      ("special_allowance", num (num_out 2 (slp_total_earnings s - slp_basic_pay s - slp_hra s)));
      ("lop_deduction", JNum (num_out 1 0)); ("advance_deduction", JNum (num_out 1 0));
      ("pf", num (num_out 4 (slp_basic_pay s * 12))); ("tds", num (num_out 4 (slp_total_earnings s * 10)));
      ("ptax", JNum (num_out 1 2000));
      ("total_earnings", JNum (num_out 2 (slp_total_earnings s)));
      ("total_deductions", JNum (num_out 2 (slp_total_deductions s)));
      ("net_pay", JNum (num_out 2 (slp_net_pay s))); ("status", JStr (slp_status s))].

Definition listed_slips (c : Claims) (callerEmpID search : string) (d : Database)
  : list (SlipRow * EmpRow) :=
  order_by (fun x y => collate (emp_employee_id (snd x)) (emp_employee_id (snd y)))
  (where_ (fun p => slip_visible c callerEmpID search (snd p)) (slip_rows d)).

Definition HandleGetPayslips {B} (r : Request B) : prog Database Response :=
  match claims r with
  | None => Ret UnauthorizedResponse
  | Some c =>
    let pg := ParsePaginationParams (query r) in
    if db_nil then Ret db_unavailable else
    emp <- exec (caller_employee (UserID c));
    let callerEmpID := scan "" emp in
    cnt <- exec (select (fun d => Z.of_nat (length (listed_slips c callerEmpID (Search pg) d))));
    rows <- exec (select_page pg (fun d => map (payslip_json true d)
                                            (listed_slips c callerEmpID (Search pg) d)));
    Ret (match rows with
         | Err _ => page_json pg 0 []
         | Ok slips => page_json pg (scan 0 cnt) slips
         end)
  end.

(** The identifier of the claims is spliced into the text of the query. The
    identifiers [HandleLogin] puts in tokens are UUIDs or demo names, without
    quotes, for which the text is the literal. *)
Definition find_slip (c : Claims) (id : string) : stmt Database json :=
  select_row (fun d => payslip_json false d <$>
  List.find (fun p => ((slp_id (fst p) =?s id) || (emp_employee_id (snd p) =?s id))
                      && (HasRole (Some c) ["SUPER_ADMIN"; "HR_ADMIN"; "PAYROLL_ADMIN"]
                          || is_caller (UserID c) (snd p))) (slip_rows d)).

Definition HandleGetPayslipDetails {B} (r : Request B) : prog Database Response :=
  if db_nil then Ret db_unavailable else
  match claims r with
  | None => Ret UnauthorizedResponse
  | Some c =>
    row <- exec (find_slip c (urlParam r "id"));
    Ret (match row with
         | Err e => fail_json StatusNotFound ("payslip not found: " +:+ e)
         | Ok p => ok_json [("data", p)]
         end)
  end.
End Payroll.
