(* ===== verification/PayrollProps.v ===== *)
(** * Properties of the payroll engine

    The guards of processing and of the state transitions, what a processing
    run writes for each employee, and the orders of statements that break them. *)

From S2P Require Import Prelude Float64 Go Sql Schema Calendar Common Auth Authz AuditTrail Matrix Payroll.
From Stdlib Require Import SpecFloat.

#[local] Open Scope prog_scope.

Section Guards.
Context `{Server}.

(** *** Reading programs *)

Lemma readiness_reads fl month year d :
  wp fl (checkPayrollReadiness month year) d (fun _ d' => d' = d).
Proof.
  eapply wp_mono; [|apply (wp_respects eq)]; [by intros o d' ->|].
  unfold checkPayrollReadiness, count_attendance, count_leaves, sum_advances. walk.
Qed.

(** The request is refused with 403 and the database untouched. *)
Definition refused (E : Env) (p : prog Database Response) (n : nat) (d : Database) : Prop :=
  exists m, run E p n d = (Done (ForbiddenResponse "FORBIDDEN_ROLE" m), n, d).

(** Callers without a payroll role are refused by every handler that writes
    payroll data, before any statement. *)
Theorem payroll_writes_need_role E n d (r1 : Request ProcessRequest) (r2 : Request string)
  {B} (r3 : Request B) :
  CanManagePayroll (claims r1) = false -> CanManagePayroll (claims r2) = false ->
  CanManagePayroll (claims r3) = false ->
  refused E (HandleProcessPayroll r1) n d /\ refused E (HandleTransitionState r2) n d
  /\ refused E (HandleApproveAdvance r3) n d.
Proof.
  intros H1 H2 H3. unfold refused, HandleProcessPayroll, HandleTransitionState, HandleApproveAdvance.
  rewrite H1, H2, H3. simpl. split_and!; eexists; reflexivity.
Qed.

(** *** Locked runs *)

Definition unique_runs (d : Database) : Prop := NoDup (map run_id (tget payroll_runs d)).

(** What processing keeps true: the locked runs of [d0] are still there, and the
    run being processed is not one of them. *)
Definition processing (d0 : Database) (runID : string) (d : Database) : Prop :=
  (forall p, p ∈ tget payroll_runs d0 -> run_locked (run_status p) = true -> p ∈ tget payroll_runs d)
  /\ (forall p, p ∈ tget payroll_runs d0 -> run_locked (run_status p) = true -> run_id p <> runID).

Definition locked_kept (d0 d : Database) : Prop :=
  forall p, p ∈ tget payroll_runs d0 -> run_locked (run_status p) = true -> p ∈ tget payroll_runs d.

Lemma create_run_processing org req userID d Q :
  db_nil = false ->
  (forall runID d', processing d runID d' -> Q (Done runID) d') -> (forall r, Q (Replied r) d) ->
  wp true (create_run org req userID) d Q.
Proof.
  intros Hdb Hdone Hrep. unfold create_run, insert_run.
  wp_step. wp_step; [congruence| |simpl; apply Hrep].
  destruct (_ || _) eqn:Ex; [done|]. apply orb_false_iff in Ex as [Ex _].
  destruct (negb _); simplify_eq. simpl. apply Hdone. split.
  - intros p Hp _. rewrite tget_tput. set_solver.
  - intros p Hp _ Hid. apply existsb_false in Ex. rewrite Forall_forall in Ex.
  specialize (Ex p Hp). simpl in Ex. bool_prop. done.
Qed.

Lemma open_run_processing req userID d Q :
  db_nil = false -> unique_runs d ->
  (forall runID d', processing d runID d' -> Q (Done runID) d') -> (forall r, Q (Replied r) d) ->
  wp true (open_run req userID) d Q.
Proof.
  intros Hdb Hu Hdone Hrep. unfold open_run, first_organization, find_run.
  wp_step. wp_step; [congruence| |]; wp_step; wp_step; wp_step; try congruence;
  try (by apply create_run_processing).
  all: destruct (List.find _ _) as [p|] eqn:Ef; simplify_eq/=;
  apply find_some_elem in Ef as [Hin _];
  destruct (run_locked (run_status p)) eqn:El; simpl; [apply Hrep|]; apply Hdone;
  split; [done|]; intros p' Hp' Hl' Hid;
  rewrite (NoDup_map_elem_inj run_id _ _ _ Hu Hp' Hin Hid) in Hl'; congruence.
Qed.

(** The loop writes payslips and advances only. *)
Lemma process_employee_frame {Row} (u : table Database Row) `{!Indep payslips u}
  `{!Indep payroll_advances u} runID month year t ep :
  all_stmts (fun _ s => respects (unchanged u) s) (process_employee runID month year t ep).
Proof.
  unfold process_employee, count_lop, due_advance, deduct_advance, upsert_payslip. frame.
Qed.

Lemma processing_unchanged d0 runID d d' :
  processing d0 runID d -> unchanged payroll_runs d d' -> processing d0 runID d'.
Proof. unfold processing, unchanged. by intros [H1 H2] ->. Qed.

Lemma finish_run_processing d0 runID count t userID c d b d' :
  processing d0 runID d -> finish_run runID count t userID c d = Ok (b, d') -> locked_kept d0 d'.
Proof.
  intros [Hin Hne] Hst p Hp Hl. unfold finish_run in Hst. sql_inv Hst.
  unfold update_chk in Hst. destruct (List.find _ _); [done|]. simplify_eq.
  rewrite tget_tput. apply elem_of_set_where. exists p. split; [by apply Hin|].
  by rewrite (proj2 (String.eqb_neq _ _)) by (by apply Hne).
Qed.

(** C31: processing a period, whatever fails and wherever it stops, leaves every
    LOCKED or PUBLISHED run exactly as it was. *)
Theorem processing_keeps_locked_runs E (r : Request ProcessRequest) n d p :
  unique_runs d -> p ∈ tget payroll_runs d -> run_status p = "LOCKED" \/ run_status p = "PUBLISHED" ->
  p ∈ tget payroll_runs (db_of (run E (HandleProcessPayroll r) n d)).
Proof.
  intros Hu Hp Hst. assert (Hl : run_locked (run_status p) = true) by (by destruct Hst as [-> | ->]).
  clear Hst. revert p Hp Hl.
  apply (wp_run true E (HandleProcessPayroll r) n d (fun _ d' => locked_kept d d')); [done|].
  assert (Hrefl : locked_kept d d) by (intros ???; done).
  unfold HandleProcessPayroll. destruct (negb _); [done|].
  destruct (body r) as [req|]; [|done]. destruct (_ || _ || _); [done|].
  destruct db_nil eqn:Hdb; [done|].
  apply wp_bind. eapply wp_mono; [|apply readiness_reads]. intros o d' ->.
  destruct o as [rd|rp|m]; simpl; try done.
  apply wp_bind. destruct (Ready rd).
  2: { unfold index. by destruct (Errors rd !! 0%nat). }
  simpl. apply wp_bind. apply open_run_processing; [done|done| |done].
  intros runID d1 Hproc. cbn [wp_then].
  assert (Hkept : forall d', unchanged payroll_runs d1 d' -> locked_kept d d').
  { intros d' Hd'. exact (proj1 (processing_unchanged _ _ _ _ Hproc Hd')). }
  apply wp_bind. apply wp_exec; [by intros; apply Hkept| |by intros; apply Hkept].
  intros c rows d2 Hst. sql_inv Hst. subst. cbn [wp_then].
  apply wp_bind. eapply wp_mono.
  2: { apply (wp_respects (unchanged payroll_runs)), all_stmts_for_each.
     intros. by apply process_employee_frame. }
  intros [t|rp|m] d2 Hd2; cbn [wp_then]; try by apply Hkept.
  apply wp_bind. apply wp_exec; [by intros; apply Hkept| |].
  - intros c' b d3 Hst. simpl. eapply finish_run_processing; [|done].
  by eapply processing_unchanged.
  - intros e _. simpl. by apply Hkept.
Qed.

(** *** Transitions *)

(** What one transition may do to a run: nothing to a PUBLISHED one, publish a
    LOCKED one, and set the status of any other to one of four. *)
Definition run_evolves (p p' : RunRow) : Prop :=
  run_id p' = run_id p
  /\ (run_status p = "PUBLISHED" -> p' = p)
  /\ (run_status p = "LOCKED" -> p' = p \/ p' = set_run_status "PUBLISHED" p)
  /\ (p' = p \/ run_status p' ∈ ["VALIDATED"; "APPROVED"; "LOCKED"; "PUBLISHED"]).

Lemma run_evolves_refl p : run_evolves p p.
Proof. unfold run_evolves. naive_solver. Qed.

Definition runs_evolve (d d' : Database) : Prop :=
  Forall2 run_evolves (tget payroll_runs d) (tget payroll_runs d').

Lemma runs_evolve_refl d : runs_evolve d d.
Proof. apply Forall_Forall2_diag, Forall_true, run_evolves_refl. Qed.

Lemma runs_evolve_indep {Row} (t : table Database Row) `{!Indep t payroll_runs} l d d' :
  runs_evolve d d' -> runs_evolve d (tput t l d').
Proof. unfold runs_evolve. by rewrite indep. Qed.

(** Setting a status in the rows of an identifier that is not locked. *)
Lemma runs_evolve_update id (f : RunRow -> RunRow) d p0 :
  unique_runs d -> List.find (fun p => run_id p =?s id) (tget payroll_runs d) = Some p0 ->
  run_evolves p0 (f p0) ->
  runs_evolve d (tput payroll_runs (set_where (fun p => run_id p =?s id) f (tget payroll_runs d)) d).
Proof.
  intros Hu Hf He. unfold runs_evolve. rewrite tget_tput. apply Forall2_set_where.
  intros p Hp. destruct (run_id p =?s id) eqn:Eid; [|apply run_evolves_refl].
  apply find_some_elem in Hf as [Hin Hid]. bool_prop.
  by rewrite (NoDup_map_elem_inj run_id _ p p0 Hu Hp Hin) by congruence.
Qed.

Ltac in_list := repeat first [apply list_elem_of_here | apply list_elem_of_further].

Lemma run_evolves_set st p (g : RunRow -> RunRow) :
  run_status p <> "PUBLISHED" -> (run_status p = "LOCKED" -> st = "PUBLISHED" /\ g p = set_run_status st p) ->
  st ∈ ["VALIDATED"; "APPROVED"; "LOCKED"; "PUBLISHED"] ->
  run_id (g p) = run_id p -> run_status (g p) = st ->
  run_evolves p (g p).
Proof.
  intros Hp Hl Hst Hid Hgs. unfold run_evolves. split_and!; [done|done| |right; by rewrite Hgs].
  intros HL. destruct (Hl HL) as [-> ->]. by right.
Qed.

(** C32: a transition never changes a PUBLISHED run, takes a LOCKED run to
    PUBLISHED or nowhere, and gives a run no status but the four of the actions;
    this holds of every run of the table, whatever the action and whatever fails. *)
Theorem transition_respects_states E (r : Request string) n d :
  unique_runs d -> runs_evolve d (db_of (run E (HandleTransitionState r) n d)).
Proof.
  intros Hu. pose proof (runs_evolve_refl d) as Hrefl.
  apply (wp_run true E (HandleTransitionState r) n d (fun _ d' => runs_evolve d d')); [done|].
  unfold HandleTransitionState. destruct (negb _); [done|].
  destruct (body r) as [action|]; [|done]. destruct db_nil eqn:Hdb; [done|].
  unfold run_status_of. wp_step. wp_step; [congruence| |done].
  destruct (List.find _ _) as [p0|] eqn:Ef; simplify_eq/=.
  destruct ((run_status p0 =?s "LOCKED") && negb (action =?s "PUBLISH")) eqn:El; [done|].
  destruct (run_status p0 =?s "PUBLISHED") eqn:Ep; [done|]. bool_prop.
  assert (Hset : forall st g, st ∈ ["VALIDATED"; "APPROVED"; "LOCKED"; "PUBLISHED"] ->
  (run_status p0 = "LOCKED" -> st = "PUBLISHED" /\ g p0 = set_run_status st p0) ->
  run_id (g p0) = run_id p0 -> run_status (g p0) = st ->
  runs_evolve d (tput payroll_runs (set_where (fun p => run_id p =?s urlParam r "id") g
                                      (tget payroll_runs d)) d)).
  { intros st g Hst Hl Hid Hgs. apply (runs_evolve_update _ g d p0); [done|done|].
  by apply (run_evolves_set st p0 g). }
  assert (Hno : (action =?s "PUBLISH") = false -> run_status p0 <> "LOCKED").
  { intros Ha HL. destruct El as [El|El]; bool_prop; [done|]. subst action. done. }
  unfold transition.
  repeat match goal with |- context [if action =?s ?a then _ else _] =>
  destruct (String.eqb_spec action a) as [->|?] end; try done.
  all: unfold set_status, approve_run, lock_run, publish_slips.
  - wp_step. wp_step; [congruence| |done]. simpl. apply (Hset "VALIDATED"); try done; [in_list|].
  intros HL. by apply Hno in HL.
  - wp_step. wp_step; [congruence| |done]. simpl.
  unfold update_chk in Hst. destruct (List.find _ (where_ _ _)); [done|]. simplify_eq.
  eapply (Hset "APPROVED"); try done; [in_list|]. intros HL. by apply Hno in HL.
  - wp_step. wp_step; [congruence| |done]. simpl. eapply (Hset "LOCKED"); try done; [in_list|].
  intros HL. by apply Hno in HL.
  - wp_step. wp_step; [congruence| |]; cbn [wp_then]; wp_step; wp_step; simpl; try congruence;
    try apply (runs_evolve_indep payslips); try done; apply (Hset "PUBLISHED"); try done; in_list.
Qed.

(** *** Visibility of payslips *)

Lemma elem_of_slip_rows s e d :
  (s, e) ∈ slip_rows d <-> s ∈ tget payslips d /\ e ∈ tget employees d /\ emp_id e = slp_employee_id s.
Proof.
  unfold slip_rows. rewrite list_elem_of_In, in_flat_map. split.
  - intros (s' & Hs & Hm). apply in_map_iff in Hm as (e' & [= <- <-] & He).
  apply list_elem_of_In, elem_of_where in He as [He Heq]. bool_prop.
  by rewrite list_elem_of_In.
  - intros (Hs & He & Heq). exists s. rewrite <- list_elem_of_In. split; [done|].
  apply in_map, list_elem_of_In, elem_of_where. by rewrite String.eqb_eq.
Qed.

(** The payslip shown is of an employee record of the caller. *)
Definition own_payslip (c : Claims) (d : Database) (j : json) : Prop :=
  exists s e e', j = payslip_json true d (s, e) /\ s ∈ tget payslips d /\ e ∈ tget employees d
  /\ e' ∈ tget employees d /\ slp_employee_id s = emp_id e /\ emp_id e = emp_id e'
  /\ is_caller (UserID c) e' = true.

(** A caller without a payroll role who lists payslips is shown no payslip
    but those of their own employee record, whatever they search for. *)
Theorem payslips_scoped_to_caller {B} E (r : Request B) c n d resp l :
  claims r = Some c -> CanManagePayroll (Some c) = false ->
  Forall (fun e => emp_id e <> "") (tget employees d) ->
  reply (run E (HandleGetPayslips r) n d) = Some resp ->
  field "data" resp = Some (JArr l) -> Forall (own_payslip c d) l.
Proof.
  intros Hc Hrole Hids. revert resp l.
  apply (wp_run true E (HandleGetPayslips r) n d (fun o _ => forall resp l, replied o = Some resp ->
  field "data" resp = Some (JArr l) -> Forall (own_payslip c d) l)); [done|].
  unfold HandleGetPayslips, caller_employee. rewrite Hc. destruct db_nil eqn:Hdb.
  { by intros resp l [= <-]. }
  assert (Hpage : forall cnt empID, (empID = "" \/ exists e', e' ∈ tget employees d /\ emp_id e' = empID
                                      /\ is_caller (UserID c) e' = true) ->
  wp true (rows <- exec (select_page (ParsePaginationParams (query r)) (fun d =>
             map (payslip_json true d) (listed_slips c empID (Search (ParsePaginationParams (query r))) d)));
           Ret (match rows with
                | Err _ => page_json (ParsePaginationParams (query r)) 0 []
                | Ok slips => page_json (ParsePaginationParams (query r)) (scan 0 cnt) slips
                end)) d (fun o _ => forall resp l, replied o = Some resp ->
  field "data" resp = Some (JArr l) -> Forall (own_payslip c d) l)).
  { intros cnt empID Hemp. apply wp_bind, wp_exec; [done| |].
  2: { simpl. intros e _ resp l [= <-] [= <-]. constructor. }
  intros x slips d' Hst. apply select_page_ok in Hst as [-> ->].
  simpl. intros resp l [= <-] [= <-]. apply Forall_forall. intros j Hj.
  apply paginate_sub in Hj. apply list_elem_of_In, in_map_iff in Hj as ([s e] & <- & Hin).
  apply list_elem_of_In in Hin. unfold listed_slips in Hin. rewrite elem_of_order_by in Hin.
  apply elem_of_where in Hin as [Hin Hv]. apply elem_of_slip_rows in Hin as (Hs & He & Heq).
  unfold slip_visible in Hv. rewrite Hrole in Hv. apply andb_true_iff in Hv as [Hv _].
  simpl in Hv. apply orb_true_iff in Hv as [Hown%opt_is_spec|Hown%String.eqb_eq].
  - exists s, e, e. split_and!; try done. unfold is_caller. by rewrite Hown, opt_is_refl.
  - destruct Hemp as [->|(e' & He' & Hid & Hcl)].
    + exfalso. rewrite Forall_forall in Hids. by apply (Hids e He).
    + exists s, e, e'. split_and!; try done. congruence. }
  apply wp_bind, wp_exec; [done| |].
  - intros x empID d' Hst. sql_inv Hst. subst.
  destruct (List.find _ _) as [e'|] eqn:Ef; simplify_eq/=. apply find_some_elem in Ef as [Hin Hcl].
  apply wp_bind, wp_exec; [done| |]; intros; sql_inv H0; subst; apply Hpage; eauto.
  - intros e _. simpl. apply wp_bind, wp_exec; [done| |]; intros; [sql_inv H0; subst|]; apply Hpage; eauto.
Qed.
(** An advance of [amount] is due from the employee in the month. *)
Definition charged (d : Database) (e : EmpRow) (amount month year : Z) : Prop :=
  exists a, a ∈ tget payroll_advances d /\ adv_employee_id a = emp_id e
          /\ adv_amount a = amount /\ due month year a = true.

(** Any authenticated caller, of whatever role, can have an advance deducted
    from another employee's pay: the advance is created for the employee the
    request names, already APPROVED and due in the month it names. *)
Theorem advance_for_anyone E (r : Request AdvanceRequest) c req n d e amount :
  reliable E -> db_nil = false -> claims r = Some c -> body r = Some req ->
  (ar_Amount req <=? f0)%f64 = false -> 1 <= ar_DeductFromMonth req <= 12 ->
  - 2 ^ 31 <= ar_DeductFromYear req < 2 ^ 31 -> num_in 12 2 (ar_Amount req) = Some amount ->
  ar_EmployeeID req <> "" -> e ∈ tget employees d -> emp_id e <> "" ->
  List.find (fun e => (emp_id e =?s ar_EmployeeID req) || (emp_employee_id e =?s ar_EmployeeID req))
  (tget employees d) = Some e ->
  uuid_in (emp_id e) = Some (emp_id e) ->
  let x := run E (HandleCreateAdvance r) n d in
  (exists resp, out x = Done resp /\ succeeded resp = true)
  /\ charged (db_of x) e amount (ar_DeductFromMonth req) (ar_DeductFromYear req).
Proof.
  intros HE Hdb Hc Hb Ham Hm Hy Hnum Hcode Hin Hne Hf Hu. unfold HandleCreateAdvance.
  rewrite Hc, Hb, Ham, Hdb. rewrite (proj2 (Z.ltb_ge _ _)), (proj2 (Z.ltb_ge _ _)) by lia.
  rewrite (proj2 (String.eqb_neq _ _) Hcode). unfold exec. rewrite Hdb. simpl.
  rewrite (answer_reliable _ _ _ _ HE). unfold employee_by_code, select_row. rewrite Hf. simpl.
  rewrite (proj2 (String.eqb_neq _ _) Hne). simpl. rewrite (proj2 (String.eqb_neq _ _) Hne). simpl.
  rewrite (answer_reliable _ _ _ _ HE). unfold insert_advance, with_uuid, with_num.
  rewrite Hu, Hnum, !with_int4_in by lia. unfold insert.
  assert (Href : ref_employee (emp_id e) d = true).
  { apply existsb_exists. exists e. split; [by apply list_elem_of_In|apply eqb_refl_s]. }
  rewrite Href. simpl. split; [by eexists|]. eexists. cbn [db_of snd]. rewrite tget_tput.
  split; [apply elem_of_app; right; by apply list_elem_of_singleton|]. simpl.
  unfold due. simpl. by rewrite !Z.eqb_refl.
Qed.
End Guards.
