(* ===== verification/PayrollScenarios.v ===== *)
(** * Payroll scenarios

    Executions of the payroll handlers on concrete data: behaviours that the
    guards of single requests do not exclude. *)

From S2P Require Import Prelude Float64 Go Sql Schema Calendar Demo Common Auth Authz AuditTrail Matrix Payroll PayrollProps.
From Stdlib Require Import SpecFloat.

Definition payroll_admin : option Claims := Some (demo_claims 1 ["PAYROLL_ADMIN"]).
Definition hr_admin : option Claims := Some (demo_claims 1 ["HR_ADMIN"]).

(** The request to process September 2026. *)
Definition september : Request ProcessRequest :=
  demo_request payroll_admin (Some {| pr_Month := 9; pr_Year := 2026 |}) "".

Definition process_september (base : Z) (d : Database) :=
  run (demo_env base) (HandleProcessPayroll september) 0 d.

(** (employee, deductions, net pay) of the payslips. *)
Definition slip_view (d : Database) : list (string * Z * Z) :=
  map (fun s => (slp_employee_id s, slp_total_deductions s, slp_net_pay s)) (tget payslips d).

Definition run_view (d : Database) : list (string * Z * Z) :=
  map (fun p => (run_status p, run_total_net_pay p, run_total_advances_deducted p)) (tget payroll_runs d).

(** Processing a period a second time, which a VALIDATED run allows, loses the
    salary advances that the first time deducted: they are DEDUCTED and no longer
    found, so the payslip is overwritten without them. *)
Theorem reprocessing_drops_advances :
  let d1 := db_of (process_september 1000 demo_db) in
  let d2 := db_of (process_september 2000 d1) in
  slip_view d1 = [(uid 11, 1480000, 4520000); (uid 12, 980000, 5020000)]
  /\ slip_view d2 = [(uid 11, 980000, 5020000); (uid 12, 980000, 5020000)]
  /\ map adv_status (tget payroll_advances d2) = ["DEDUCTED"]
  /\ run_view d1 = [("VALIDATED", 9540000, 500000)]
  /\ run_view d2 = [("VALIDATED", 10040000, 0)].
Proof. vm_compute. done. Qed.

(** A salary that rounds to 0.00 is accepted, and makes the processing of the
    whole company panic on the missing earnings after the advance of an earlier
    employee is spent: the run stays PROCESSING. *)
Theorem rounded_salary_stops_payroll :
  let save := HandleSaveStructure (demo_request hr_admin
    (Some {| sr_EmployeeID := uid 12; sr_CurrencyCode := "INR"; sr_BaseSalary := lit 4 1000 |}) "") in
  let saved := run (demo_env 500) save 0 demo_db in
  let x := process_september 1000 (db_of saved) in
  from_option succeeded false (reply saved) = true
  /\ out x = Panicked "runtime error: index out of range"
  /\ run_view (db_of x) = [("PROCESSING", 0, 0)]
  /\ map adv_status (tget payroll_advances (db_of x)) = ["DEDUCTED"].
Proof. vm_compute. done. Qed.

(** *** Interleavings *)

Definition at_time (n : Z) : StmtCtx := {| sc_now := demo_time; sc_uuid := uid n |}.

Definition run_request (action : string) : Request string :=
  demo_request payroll_admin (Some action) (uid 41).

Definition august : Database := tput payroll_runs [demo_run 41 "APPROVED"] demo_db.

(** Two transitions in flight: the state is read and written by different
    statements, so a run that has been PUBLISHED goes back to VALIDATED. *)
Theorem published_run_regresses :
  let ps := [HandleTransitionState (run_request "VALIDATE");
             HandleTransitionState (run_request "PUBLISH")] in
  exists c1 c2, steps (ps, august) c1 /\ steps c1 c2
    /\ map run_status (tget payroll_runs (snd c1)) = ["PUBLISHED"]
    /\ map run_status (tget payroll_runs (snd c2)) = ["VALIDATED"].
Proof.
  intros ps.
  exists (run_schedule [(0, at_time 1); (1, at_time 2); (1, at_time 3)]%nat (ps, august)).
  eexists. split; [apply run_schedule_steps|].
  split; [apply (run_schedule_steps [(0, at_time 4)]%nat)|]. by vm_compute.
Qed.

Definition save_request (base : Z) : Request StructureRequest :=
  demo_request hr_admin
    (Some {| sr_EmployeeID := uid 12; sr_CurrencyCode := "INR"; sr_BaseSalary := of_Z base |}) "".

(** Two saves in flight leave an employee with two active salary structures,
    and the next payroll processes that employee twice, once for each. *)
Theorem concurrent_saves_duplicate_salary :
  let ps := [HandleSaveStructure (save_request 50000); HandleSaveStructure (save_request 70000)] in
  exists c, steps (ps, demo_db) c
    /\ map ess_base_salary (active_structures (uid 12) (snd c)) = [5000000; 7000000]
    /\ map ep_ID (pay_rows (snd c)) = [uid 11; uid 12; uid 12].
Proof.
  intros ps.
  eexists. split; [apply (run_schedule_steps
    [(0, at_time 501); (1, at_time 502); (0, at_time 503); (1, at_time 504)]%nat)|].
  by vm_compute.
Qed.
