(* ===== verification/PayrollLoop.v ===== *)
(** * What the payroll loop writes

    The functional specification of the loop of [HandleProcessPayroll] over the
    employees: the payslip of each one, computed from the data the loop started
    with, and the advances it spends. *)

From S2P Require Import Prelude Float64 Go Sql Schema Calendar Common Auth Authz AuditTrail Matrix Payroll PayrollProps.
From Stdlib Require Import SpecFloat.

#[local] Open Scope prog_scope.

Section Loop.
Context `{Server}.
Variables (d0 : Database) (runID : string) (month year : Z).

(** *** The specification *)

Definition lop_days (u : string) (d : Database) : f64 :=
  of_Z (count_where (fun a => (day_employee_id a =?s u) && in_month month year (day_date a)
                            && mem_s (day_status a) ["ABSENT"; "LOP"])
        (tget attendance_daily_status d)).

Definition due_of (u : string) (d : Database) : option AdvRow :=
  List.find (fun a => (adv_employee_id a =?s u) && due month year a) (tget payroll_advances d).

(** The amounts an employee is owed, from the data before the loop. *)
Definition pay_of (ep : EmpProc) : PayAmounts :=
  let b := CalculateSalaryBreakdown (ep_BaseSalary ep) (ep_CurrencyCode ep) rupee in
  pay_amounts b (from_option Amount f0 (Earnings b !! 0%nat)) (from_option Amount f0 (Earnings b !! 1%nat))
  (lop_days (ep_ID ep) d0)
  (from_option (fun a => num_out 2 (adv_amount a)) f0 (due_of (ep_ID ep) d0)).

(** The payslip [s] records the amounts [a]. *)
Definition records (a : PayAmounts) (s : SlipRow) : Prop :=
  num_in 12 2 (basicPay a) = Some (slp_basic_pay s) /\ num_in 12 2 (pay_hra a) = Some (slp_hra s)
  /\ num_in 12 2 (gross a) = Some (slp_total_earnings s)
  /\ num_in 12 2 (totalDed a) = Some (slp_total_deductions s)
  /\ num_in 12 2 (netPay a) = Some (slp_net_pay s).

Definition paid (d : Database) (ep : EmpProc) : Prop :=
  exists s, s ∈ tget payslips d /\ slp_payroll_run_id s = runID /\ slp_employee_id s = ep_ID ep
          /\ slp_status s = "GENERATED" /\ records (pay_of ep) s.

(** The advance [a] is the one that the query finds for one of the employees. *)
Definition taken_for (l : list EmpProc) (a : AdvRow) : bool :=
  existsb (fun ep => match due_of (ep_ID ep) d0 with Some b => adv_id b =?s adv_id a | None => false end) l.

(** Of the advances exactly those found for the employees of [l] are spent; every other row
    is as it was, the further advances of the same month among them. *)
Definition spends (l : list EmpProc) (d : Database) : Prop :=
  Forall2 (fun a a' => if taken_for l a
                       then exists t, a' = set_adv_updated_at t (set_adv_status "DEDUCTED" a)
                       else a' = a)
    (tget payroll_advances d0) (tget payroll_advances d).

(** *** What the loop needs

    Identifiers are in canonical form, employees appear once, advances have
    unique identifiers, salaries are positive and the amounts fit the columns. *)
Record payable : Prop := {
  pb_run : uuid_in runID = Some runID /\ existsb (fun p => run_id p =?s runID) (tget payroll_runs d0) = true;
  pb_month : - 2 ^ 31 <= month < 2 ^ 31 /\ - 2 ^ 31 <= year < 2 ^ 31;
  pb_nodup : NoDup (map ep_ID (pay_rows d0));
  pb_adv : NoDup (map adv_id (tget payroll_advances d0))
         /\ Forall (fun a => adv_id a <> "") (tget payroll_advances d0);
  pb_emp : Forall (fun ep => uuid_in (ep_ID ep) = Some (ep_ID ep)
                           /\ (ep_BaseSalary ep <=? f0)%f64 = false
                           /\ exists s, records (pay_of ep) s) (pay_rows d0)
}.

Definition inv (pre post : list EmpProc) (_ : Totals) (d : Database) : Prop :=
  unchanged payroll_runs d0 d /\ unchanged employees d0 d /\ unchanged attendance_daily_status d0 d
  /\ spends pre d
  /\ (forall ep, ep ∈ pre -> paid d ep)
  /\ (forall ep, ep ∈ post -> due_of (ep_ID ep) d = due_of (ep_ID ep) d0).

Lemma pay_rows_employee ep : ep ∈ pay_rows d0 -> ref_employee (ep_ID ep) d0 = true.
Proof.
  unfold pay_rows, ref_employee. rewrite list_elem_of_In, in_flat_map.
  intros (e & He & Hep). apply existsb_exists. exists e. split.
  - apply filter_In in He. tauto.
  - apply String.eqb_eq. destruct (active_structures _ _).
  + destruct Hep as [<-|[]]. done.
  + apply in_map_iff in Hep as (s' & <- & _). done.
Qed.

(** *** Spending the advance *)

Lemma deduct_spends (u : string) a c d :
  NoDup (map adv_id (tget payroll_advances d)) -> due_of u d = Some a ->
  let d' := tput payroll_advances (set_where (fun x => adv_id x =?s adv_id a)
            (fun x => set_adv_updated_at (sc_now c) (set_adv_status "DEDUCTED" x))
            (tget payroll_advances d)) d in
  forall v, v <> u -> due_of v d' = due_of v d.
Proof.
  intros Hnd Hdue d'. unfold due_of in Hdue. apply find_some_elem in Hdue as [Hin Hp].
  unfold d'. intros v Hv. unfold due_of. rewrite tget_tput. apply find_set_where_other.
  intros x Hx Heq. bool_prop. rewrite (NoDup_map_elem_inj adv_id _ x a Hnd Hx Hin Heq).
  assert (Hne : (adv_employee_id a =?s v) = false).
  { apply String.eqb_neq. congruence. }
  split; [by rewrite Hne|]. destruct a; simpl in *. by rewrite Hne.
Qed.

(** *** The payslip *)

Lemma upsert_pays ep c d :
  payable -> ep ∈ pay_rows d0 -> unchanged payroll_runs d0 d -> unchanged employees d0 d ->
  exists s d', upsert_payslip runID (ep_ID ep) (pay_of ep) c d = Ok (s, d')
  /\ unchanged payroll_runs d d' /\ unchanged employees d d'
  /\ unchanged attendance_daily_status d d' /\ unchanged payroll_advances d d'
  /\ paid d' ep
  /\ (forall ep', ep_ID ep' <> ep_ID ep -> paid d ep' -> paid d' ep').
Proof.
  intros Hpb Hin Hruns Hemps. destruct (pb_run Hpb) as [Hrun Hex].
  pose proof (pb_emp Hpb) as Hemp. rewrite Forall_forall in Hemp.
  destruct (Hemp ep Hin) as (Hid & _ & s & Hb & Hh & Hg & Hd & Hn).
  unfold upsert_payslip, with_uuid, with_num. rewrite Hrun, Hid, Hb, Hh, Hg, Hd, Hn.
  unfold upsert. rewrite Hruns, Hex. unfold ref_employee at 1. rewrite Hemps.
  fold (ref_employee (ep_ID ep) d0). rewrite (pay_rows_employee ep Hin). simpl.
  destruct (List.find _ (tget payslips d)) as [old|] eqn:Ef.
  - eexists _, _. split; [reflexivity|]. split_and!; try (apply indep).
  + apply find_some_elem in Ef as [Hold Hm]. exists
      {| slp_id := slp_id old; slp_payroll_run_id := slp_payroll_run_id old;
         slp_employee_id := slp_employee_id old; slp_basic_pay := slp_basic_pay s;
         slp_hra := slp_hra s; slp_total_earnings := slp_total_earnings s;
         slp_total_deductions := slp_total_deductions s; slp_net_pay := slp_net_pay s;
         slp_status := "GENERATED"; slp_created_at := slp_created_at old;
         slp_updated_at := sc_now c |}.
    rewrite tget_tput. split; [apply elem_of_set_where; exists old; split; [done|]; by rewrite Hm|].
    bool_prop. by split_and!.
  + intros ep' Hne (s' & Hs' & Hr & He & Hst & Hrec). exists s'. rewrite tget_tput.
    split; [|done]. apply elem_of_set_where. exists s'. split; [done|].
    by rewrite (proj2 (String.eqb_neq (slp_employee_id s') _)), andb_false_r by congruence.
  - eexists _, _. split; [reflexivity|]. split_and!; try (apply indep).
  + eexists. rewrite tget_tput. split; [apply elem_of_app; right; by apply list_elem_of_singleton|].
    by split_and!.
  + intros ep' _ (s' & Hs' & Hrest). exists s'. rewrite tget_tput.
    split; [apply elem_of_app; by left|done].
Qed.

Lemma earnings_of base cur sym : (base <=? f0)%f64 = false ->
  exists x y z, Earnings (CalculateSalaryBreakdown base cur sym) = [x; y; z].
Proof. intros Hb. unfold CalculateSalaryBreakdown. rewrite Hb. simpl. eauto. Qed.

Lemma spends_ids l d : spends l d -> map adv_id (tget payroll_advances d) = map adv_id (tget payroll_advances d0).
Proof.
  unfold spends. induction 1 as [|a a' as_ as' Ha _ IH]; [done|]. simpl. rewrite IH. f_equal.
  destruct (taken_for l a); [destruct Ha as [t ->]; by destruct a|by subst].
Qed.

Lemma taken_for_snoc l ep a : taken_for (l ++ [ep]) a = taken_for l a ||
  match due_of (ep_ID ep) d0 with Some b => adv_id b =?s adv_id a | None => false end.
Proof. unfold taken_for. rewrite existsb_app. simpl. by rewrite orb_false_r. Qed.

Lemma spends_none l ep d : due_of (ep_ID ep) d0 = None -> spends l d -> spends (l ++ [ep]) d.
Proof.
  intros Hdue. unfold spends. intros Hall. eapply Forall2_impl; [exact Hall|]. intros a a'. cbv beta. by rewrite taken_for_snoc, Hdue, orb_false_r.
Qed.

Lemma spends_deduct l ep a t d : due_of (ep_ID ep) d0 = Some a -> spends l d ->
  spends (l ++ [ep]) (tput payroll_advances (set_where (fun x => adv_id x =?s adv_id a)
    (fun x => set_adv_updated_at t (set_adv_status "DEDUCTED" x)) (tget payroll_advances d)) d).
Proof.
  intros Hdue. unfold spends. rewrite tget_tput. unfold set_where. intros Hall. apply Forall2_fmap_r.
  eapply Forall2_impl; [exact Hall|]. intros x x' Hx. cbv beta in Hx. unfold compose. rewrite taken_for_snoc, Hdue.
  assert (adv_id x' = adv_id x) as -> by (destruct (taken_for l x); [destruct Hx as [? ->]; by destruct x|by subst]).
  rewrite (String.eqb_sym (adv_id x)).
  destruct (taken_for l x); [destruct Hx as [u ->]|subst x']; cbn [orb]; destruct (adv_id a =?s adv_id x); eauto.
Qed.

(** After the body, whatever the advance statement did. *)
Lemma finish_employee pre ep post t t' d d1 :
  payable -> pay_rows d0 = pre ++ ep :: post -> inv pre (ep :: post) t d ->
  unchanged payroll_runs d d1 -> unchanged employees d d1 -> unchanged attendance_daily_status d d1 ->
  unchanged payslips d d1 ->
  spends (pre ++ [ep]) d1 ->
  (forall v, v <> ep_ID ep -> due_of v d1 = due_of v d) ->
  forall c, match upsert_payslip runID (ep_ID ep) (pay_of ep) c d1 with
          | Ok (_, d2) => inv (pre ++ [ep]) post t' d2
          | Err _ => False
          end.
Proof.
  intros Hpb Hsplit (Hr & He & Ha & _ & Hpre & Hpost) Hr1 He1 Ha1 Hs1 Hsp1 Hdue1 c.
  assert (Hin : ep ∈ pay_rows d0) by (rewrite Hsplit; set_solver).
  pose proof (pb_nodup Hpb) as Hnd. rewrite Hsplit, map_app in Hnd. simpl in Hnd.
  apply NoDup_app in Hnd as (_ & Hpp & Hnd). apply NoDup_cons in Hnd as [Hnp _].
  assert (Hmem : forall (l : list EmpProc) x, x ∈ l -> ep_ID x ∈ map ep_ID l).
  { intros l x Hx. by apply list_elem_of_In, in_map, list_elem_of_In. }
  destruct (upsert_pays ep c d1) as (s & d2 & -> & Hr2 & He2 & Ha2 & Hadv2 & Hpaid & Hkeep); try done.
  { by transitivity d. } { by transitivity d. }
  split_and!; [by transitivity d1; [transitivity d|]..| | | ].
  - unfold spends. by rewrite Hadv2.
  - intros ep' [Hep'|Heq%list_elem_of_singleton]%elem_of_app.
  + apply Hkeep.
    * intros Heq. apply (Hpp (ep_ID ep')); [by apply Hmem|]. rewrite Heq. apply list_elem_of_here.
    * destruct (Hpre ep' Hep') as (s' & Hs' & Hrest). exists s'. by rewrite Hs1.
  + by subst ep'.
  - intros ep' Hep'. transitivity (due_of (ep_ID ep') d1); [unfold due_of; by rewrite Hadv2|].
  rewrite Hdue1; [apply Hpost; by right|]. intros Heq. apply Hnp. rewrite <- Heq. by apply Hmem.
Qed.

Lemma advance_has_id a d :
  map adv_id (tget payroll_advances d) = map adv_id (tget payroll_advances d0) ->
  Forall (fun b => adv_id b <> "") (tget payroll_advances d0) ->
  a ∈ tget payroll_advances d -> adv_id a <> "".
Proof.
  intros Hid Hne Hina. assert (Hi : adv_id a ∈ map adv_id (tget payroll_advances d0)).
  { rewrite <- Hid. by apply list_elem_of_In, in_map, list_elem_of_In. }
  apply list_elem_of_In, in_map_iff in Hi as (b & <- & Hb%list_elem_of_In).
  rewrite Forall_forall in Hne. by apply Hne.
Qed.

Lemma process_employee_pays pre ep post t d :
  db_nil = false -> payable -> pay_rows d0 = pre ++ ep :: post -> inv pre (ep :: post) t d ->
  wp false (process_employee runID month year t ep) d (fun o d' =>
  match o with Done t' => inv (pre ++ [ep]) post t' d' | _ => False end).
Proof.
  intros Hdb Hpb Hsplit Hinv. pose proof Hinv as (Hr & He & Ha & Hsp & Hpre & Hpost). pose proof (spends_ids _ _ Hsp) as Hid.
  assert (Hin : ep ∈ pay_rows d0) by (rewrite Hsplit; set_solver).
  pose proof (pb_emp Hpb) as Hemp. rewrite Forall_forall in Hemp.
  destruct (Hemp ep Hin) as (Hu & Hbase & _). destruct (pb_month Hpb) as [Hm Hy].
  destruct (pb_adv Hpb) as [Hnd Hne].
  pose proof (Hpost ep (list_elem_of_here _ _)) as Hdue.
  unfold process_employee. apply wp_bind, wp_exec_det; [done|]. intros c1.
  unfold count_lop, with_uuid. rewrite Hu. unfold select. cbn [wp_then scan].
  rewrite Ha. fold (lop_days (ep_ID ep) d0).
  apply wp_bind, wp_exec_det; [done|]. intros c2.
  unfold due_advance, with_uuid. rewrite Hu, !with_int4_in by done. unfold select_row.
  fold (due_of (ep_ID ep) d). rewrite Hdue.
  destruct (earnings_of (ep_BaseSalary ep) (ep_CurrencyCode ep) rupee Hbase) as (x & y & z & Hearn).
  assert (Hfin : forall d1, unchanged payroll_runs d d1 -> unchanged employees d d1 ->
  unchanged attendance_daily_status d d1 -> unchanged payslips d d1 ->
  spends (pre ++ [ep]) d1 ->
  (forall v, v <> ep_ID ep -> due_of v d1 = due_of v d) ->
  forall t', wp false (_ <- exec (upsert_payslip runID (ep_ID ep) (pay_of ep)); Ret t') d1
    (fun o d' => match o with Done t' => inv (pre ++ [ep]) post t' d' | _ => False end)).
  { intros d1 H1 H2 H3 H4 H5 H6 t'. apply wp_bind, wp_exec_det; [done|]. intros c.
  pose proof (finish_employee pre ep post t t' d d1 Hpb Hsplit Hinv H1 H2 H3 H4 H5 H6 c) as Hf.
  by destruct (upsert_payslip _ _ _ c d1) as [[s d2]|e]. }
  unfold pay_of in Hfin. rewrite Hearn in Hfin. simpl in Hfin.
  destruct (due_of (ep_ID ep) d0) as [a|] eqn:Ed; cbn [wp_then scan fmap option_fmap option_map].
  - assert (Hina : a ∈ tget payroll_advances d).
  { unfold due_of in Hdue. by apply find_some_elem in Hdue as [? _]. }
  assert (Hia : adv_id a <> "") by (by apply (advance_has_id a d)).
  rewrite (proj2 (String.eqb_neq _ _) Hia).
  apply wp_bind, wp_bind, wp_exec_det; [done|]. intros c3. unfold deduct_advance, update.
  simpl. rewrite Hearn. simpl.
  rewrite <- Hid in Hnd. pose proof (deduct_spends (ep_ID ep) a c3 d Hnd Hdue) as Hd3.
  apply Hfin; try apply indep; [by apply spends_deduct|done].
  - simpl. rewrite Hearn. simpl. apply Hfin; try done. by apply spends_none.
Qed.

(** C5: over reliable connections, when the month is payable (employees once each, salaries
    above zero, amounts that fit their columns), the loop of [HandleProcessPayroll] runs to
    its end. Then every employee on the payroll has a payslip of the run with exactly the
    amounts computed from the salary, the absences and the one advance that the query finds
    for the employee in that month; exactly these advances are DEDUCTED, at most one for each
    employee, and every other advance, a second one of the same month included, is as it
    was. The employees are paid independently of each other, of their order and of the
    payslips that existed. *)
Theorem payroll_loop_pays_everyone E n :
  reliable E -> db_nil = false -> payable ->
  let x := run E (for_each (pay_rows d0) no_totals (process_employee runID month year)) n d0 in
  (exists t, out x = Done t)
  /\ (forall ep, ep ∈ pay_rows d0 -> paid (db_of x) ep)
  /\ spends (pay_rows d0) (db_of x).
Proof.
  intros HE Hdb Hpb.
  apply (wp_run false E (for_each (pay_rows d0) no_totals (process_employee runID month year)) n d0
         (fun o d' => (exists t, o = Done t) /\ (forall ep, ep ∈ pay_rows d0 -> paid d' ep) /\ spends (pay_rows d0) d')); [done|].
  apply (wp_for_each false inv).
  - split_and!; try done; [|intros ep Hep; by apply elem_of_nil in Hep]. by apply Forall_Forall2_diag, Forall_true.
  - intros pre ep post t d Hsplit Hinv. eapply wp_mono; [|by apply process_employee_pays].
  by intros [t'|r|m] d' Ho.
  - intros t d (_ & _ & _ & Hsp & Hpre & _). split; [by exists t|done].
Qed.
End Loop.
