(* ===== verification/Workflow.v ===== *)
(** * internal/workflow: approvals across modules

    Six tables hold requests awaiting approval. [Approvable] is what a table
    offers to the workflow: identifier, requester and status of a row, and the
    change of its status; the handlers and their theorems are written against it. *)

From S2P Require Import Prelude Float64 Go Sql Schema Calendar Common Auth Authz.

#[local] Open Scope prog_scope.

(** ** The interface *)

Class Approvable {Row} (t : table Database Row) := {
  app_id : Row -> string;
  app_employee : Row -> string;
  app_status : Row -> string;
  app_set_status : string -> Row -> Row;
  app_set_id : forall s r, app_id (app_set_status s r) = app_id r;
  app_set_employee : forall s r, app_employee (app_set_status s r) = app_employee r;
  app_status_set : forall s r, app_status (app_set_status s r) = s
}.

#[export] Instance leave_approvable : Approvable leave_applications :=
  {| app_id := lap_id; app_employee := lap_employee_id; app_status := lap_status;
     app_set_status := set_lap_status; app_set_id := fun _ _ => eq_refl;
     app_set_employee := fun _ _ => eq_refl; app_status_set := fun _ _ => eq_refl |}.

#[export] Instance regularization_approvable : Approvable regularization_requests :=
  {| app_id := reg_id; app_employee := reg_employee_id; app_status := reg_status;
     app_set_status := set_reg_status; app_set_id := fun _ _ => eq_refl;
     app_set_employee := fun _ _ => eq_refl; app_status_set := fun _ _ => eq_refl |}.

#[export] Instance od_approvable : Approvable od_requests :=
  {| app_id := odr_id; app_employee := odr_employee_id; app_status := odr_status;
     app_set_status := set_odr_status; app_set_id := fun _ _ => eq_refl;
     app_set_employee := fun _ _ => eq_refl; app_status_set := fun _ _ => eq_refl |}.

#[export] Instance wfh_approvable : Approvable wfh_requests :=
  {| app_id := wfh_id; app_employee := wfh_employee_id; app_status := wfh_status;
     app_set_status := set_wfh_status; app_set_id := fun _ _ => eq_refl;
     app_set_employee := fun _ _ => eq_refl; app_status_set := fun _ _ => eq_refl |}.

#[export] Instance advance_approvable : Approvable payroll_advances :=
  {| app_id := adv_id; app_employee := adv_employee_id; app_status := adv_status;
     app_set_status := set_adv_status; app_set_id := fun _ _ => eq_refl;
     app_set_employee := fun _ _ => eq_refl; app_status_set := fun _ _ => eq_refl |}.

#[export] Instance exit_approvable : Approvable exit_requests :=
  {| app_id := exr_id; app_employee := exr_employee_id; app_status := exr_status;
     app_set_status := set_exr_status; app_set_id := fun _ _ => eq_refl;
     app_set_employee := fun _ _ => eq_refl; app_status_set := fun _ _ => eq_refl |}.

(** ** The view v_universal_approvals *)

Record ViewRow := {
  v_id : string;
  v_module : string;
  v_type : string;
  v_employee_id : string;
  v_requested_date : option string;
  v_reason : option string;
  v_priority : string;
  v_status : string;
  v_created_at : Z
}.

Definition view_of {Row} (t : table Database Row) `{!Approvable t} (module type priority : string)
    (date reason : Row -> option string) (created : Row -> Z) (d : Database) : list ViewRow :=
  map (fun r => {| v_id := app_id r; v_module := module; v_type := type;
                   v_employee_id := app_employee r; v_requested_date := date r;
                   v_reason := reason r; v_priority := priority; v_status := app_status r;
                   v_created_at := created r |}) (tget t d).

Definition v_universal_approvals (d : Database) : list ViewRow :=
  view_of leave_applications "LEAVE" "Leave Request" "NORMAL"
    (fun r => Some (date_text (lap_start_date r) +:+ " to " +:+ date_text (lap_end_date r)))
    lap_reason lap_created_at d
  ++ view_of regularization_requests "ATTENDANCE" "Regularization" "NORMAL"
       (fun r => (fun t => date_text (date_of_time t)) <$> reg_requested_check_in r)
       reg_reason reg_created_at d
  ++ view_of od_requests "ATTENDANCE" "On Duty" "NORMAL" (fun r => Some (date_text (odr_date r)))
       odr_reason odr_created_at d
  ++ view_of wfh_requests "ATTENDANCE" "WFH" "NORMAL" (fun r => Some (date_text (wfh_date r)))
       wfh_reason wfh_created_at d
  ++ view_of payroll_advances "ADVANCE" "Salary Advance" "URGENT"
       (fun r => Some ("Recovery Months: " +:+ itoa (adv_recovery_months r)))
       (fun r => Some (adv_reason r)) adv_created_at d
  ++ view_of exit_requests "OFFBOARDING" "Exit Request" "NORMAL"
       (fun r => Some (date_text (exr_resignation_date r))) exr_reason exr_created_at d.

(** v.employee_id = e.id OR v.employee_id = e.user_id *)
Definition requests_of (v : ViewRow) (e : EmpRow) : bool :=
  (v_employee_id v =?s emp_id e) || opt_is (emp_user_id e) (v_employee_id v).

Record BulkActionRequest := { TaskIDs : list string; Action : string; Comments : string }.

Section Workflow.
Context `{Server}.

(** ** Who asks and who answers *)

(** The requester of a task: employee and user, the latter empty when unknown. *)
Definition requester (taskID : string) (d : Database) : option (string * string) :=
  match List.find (fun v => v_id v =?s taskID) (v_universal_approvals d) with
  | None => None
  | Some v =>
    Some (v_employee_id v,
          match List.find (requests_of v) (tget employees d) with
          | Some e => default "" (emp_user_id e)
          | None => ""
          end)
  end.

Definition getTaskRequesterIDs (taskID : string) : prog Database (string * string) :=
  r <- exec (select_row (requester taskID));
  Ret (scan ("", "") r).

(** The employee record of the caller. *)
Definition caller_ids (userID : string) (d : Database) : option (string * string) :=
  (fun e => (emp_id e, default "" (emp_user_id e))) <$>
  List.find (is_caller userID) (tget employees d).

Definition getCallerIDs (userID : string) : prog Database (string * string) :=
  r <- exec (select_row (caller_ids userID));
  Ret (scan ("", userID) r).

Definition isSelfApproval (c : option Claims) (taskID : string) : prog Database bool :=
  match c with
  | None => Ret true
  | Some c =>
    req <- getTaskRequesterIDs taskID;
    caller <- getCallerIDs (UserID c);
    let '(reqEmpID, reqUserID) := req in
    let '(callerEmpID, callerUserID) := caller in
    Ret (if negb (reqEmpID =?s "") && ((reqEmpID =?s callerEmpID) || (reqEmpID =?s UserID c))
         then true
         else if negb (reqUserID =?s "") && ((reqUserID =?s callerUserID) || (reqUserID =?s UserID c))
         then true
         else negb (CanApproveTask reqEmpID callerEmpID))
  end.

(** SELECT COALESCE(manager_id::text, '') FROM employees WHERE id::text = $1 OR user_id::text = $2 *)
Definition manager_of (empID userID : string) (d : Database) : option string :=
  (fun e => default "" (emp_manager_id e)) <$>
  List.find (fun e => (emp_id e =?s empID) || opt_is (emp_user_id e) userID) (tget employees d).

Definition isAuthorizedToApprove (c : option Claims) (taskID : string) : prog Database bool :=
  match c with
  | None => Ret false
  | Some k =>
    if HasRole c ["SUPER_ADMIN"; "HR_ADMIN"; "PAYROLL_ADMIN"] then Ret true else
    req <- getTaskRequesterIDs taskID;
    caller <- getCallerIDs (UserID k);
    mgr <- exec (select_row (manager_of (fst req) (snd req)));
    Ret (match mgr with
         | Ok mgrID => negb (mgrID =?s "") && (mgrID =?s fst caller)
         | Err _ => false
         end)
  end.

(** ** Deciding a task *)

(** UPDATE t SET status = $1 WHERE id = $2 AND status = 'PENDING' *)
Definition decide_in {Row} (t : table Database Row) `{!Approvable t} (status id : string)
  : stmt Database Z :=
  with_varchar 50 status (fun st => with_uuid id (fun u =>
  update t (fun r => (app_id r =?s u) && (app_status r =?s "PENDING"))
    (fun _ => app_set_status st))).

Definition decisions (status id : string) : list (stmt Database Z) :=
  [decide_in leave_applications status id; decide_in regularization_requests status id;
  decide_in od_requests status id; decide_in wfh_requests status id;
  decide_in payroll_advances status id; decide_in exit_requests status id].

(** The first statement that affects a row ends the loop. *)
Fixpoint try_updates (l : list (stmt Database Z)) : prog Database (result unit) :=
  match l with
  | [] => Ret (Err "task not found or already processed")
  | s :: l' =>
    res <- exec s;
    match res with
    | Err e => Ret (Err e)
    | Ok n => if 0 <? n then Ret (Ok tt) else try_updates l'
    end
  end.

Definition updateTaskStatus (id status : string) : prog Database (result unit) :=
  try_updates (decisions status id).

Definition approver_roles : list string :=
  ["SUPER_ADMIN"; "HR_ADMIN"; "HR_MANAGER"; "MANAGER"; "DEPT_HEAD"; "PAYROLL_ADMIN"].

(** ** Handlers *)

(** The two checks of a task, each ending the request with its refusal. *)
Definition check_task (c : option Claims) (id verb : string) : prog Database unit :=
  self <- isSelfApproval c id;
  return_if self SelfApprovalError ;;;
  auth <- isAuthorizedToApprove c id;
  return_if (negb auth)
  (ForbiddenResponse "FORBIDDEN_RESOURCE" ("You can only " +:+ verb +:+ " tasks for your direct reports.")).

Definition HandleBulkAction (r : Request BulkActionRequest) : prog Database Response :=
  match claims r with
  | None => Ret UnauthorizedResponse
  | Some _ =>
    if negb (HasRole (claims r) approver_roles)
    then Ret (ForbiddenResponse "FORBIDDEN_ROLE" "Only managers and HR administrators can approve or reject requests.")
    else
    match body r with
    | None => Ret (JSONError "invalid request payload" StatusBadRequest)
    | Some req =>
        if db_nil then Ret (JSONError "Database connection unavailable" StatusInternalServerError)
        else
        _ <- for_each (TaskIDs req) tt (fun _ id =>
               check_task (claims r) id "approve" ;;;
               res <- updateTaskStatus id (Action req);
               match res with
               | Err e => Halt (JSONError ("Failed to process task " +:+ id +:+ ": " +:+ e) StatusBadRequest)
               | Ok _ => Ret tt
               end);
        Ret (ok_json [("message", JStr "Bulk action executed successfully");
                      ("task_ids", JArr (map JStr (TaskIDs req))); ("action", JStr (Action req))])
    end
  end.

(** [HandleApproveTask] and [HandleRejectTask] differ in the status and the words. *)
Definition decide_task {B} (status verb past : string) (r : Request B) : prog Database Response :=
  if db_nil then Ret (JSONError "Database connection unavailable" StatusInternalServerError) else
  match claims r with
  | None => Ret UnauthorizedResponse
  | Some _ =>
    if negb (HasRole (claims r) approver_roles)
    then Ret (ForbiddenResponse "FORBIDDEN_ROLE"
           ("Only managers and HR administrators can " +:+ verb +:+ " workflow tasks."))
    else
    let id := urlParam r "id" in
    check_task (claims r) id verb ;;;
    res <- updateTaskStatus id status;
    match res with
    | Err e => Ret (JSONError e StatusBadRequest)
    | Ok _ => Ret (ok_json [("message", JStr ("Task " +:+ past +:+ " successfully"))])
    end
  end.

Definition HandleApproveTask {B} (r : Request B) := decide_task "APPROVED" "approve" "approved" r.
Definition HandleRejectTask {B} (r : Request B) := decide_task "REJECTED" "reject" "rejected" r.

(** *** The list of pending tasks *)

Definition pending_rows (c : option Claims) (callerEmpID : string) (d : Database)
  : list (ViewRow * EmpRow) :=
  let isAdmin := HasRole c ["SUPER_ADMIN"; "HR_ADMIN"; "PAYROLL_ADMIN"] in
  let isManager := HasRole c ["MANAGER"; "DEPT_HEAD"] in
  let in_scope e := if isAdmin then true
                  else if isManager && negb (callerEmpID =?s "")
                       then opt_is (emp_manager_id e) callerEmpID
                       else false in
  order_by (desc (fun p => v_created_at (fst p)))
  (where_ (fun p => (v_status (fst p) =?s "PENDING") && in_scope (snd p))
    (flat_map (fun v => map (pair v) (where_ (requests_of v) (tget employees d)))
      (v_universal_approvals d))).

Definition same_id (a b : string) : bool := negb (a =?s "") && (a =?s b).

Definition task_json (d : Database) (c : Claims) (callerEmpID callerUserID : string)
  (p : ViewRow * EmpRow) : json :=
  let '(v, e) := p in
  let userID := default "" (emp_user_id e) in
  let isSelf := same_id (emp_id e) callerEmpID || same_id userID callerUserID
              || same_id (emp_id e) (UserID c) || same_id userID (UserID c)
              || same_id (emp_employee_id e) callerEmpID in
  JObj [("id", JStr (v_id v)); ("module", JStr (v_module v)); ("type", JStr (v_type v));
      ("employee_id", JStr (emp_employee_id e)); ("employee_name", JStr (full_name e));
      ("department", JStr (default "General" (emp_department_id e ≫= fun k =>
         dep_name <$> List.find (fun x => dep_id x =?s k) (tget departments d))));
      ("requested_date", JStr (default "" (v_requested_date v)));
      ("reason", JStr (default "" (v_reason v))); ("priority", JStr (v_priority v));
      ("status", JStr (v_status v)); ("is_self_request", JBool isSelf);
      ("created_at", JTime (v_created_at v))].

Definition HandleGetUniversalApprovals {B} (r : Request B) : prog Database Response :=
  match claims r with
  | None => Ret UnauthorizedResponse
  | Some c =>
    if db_nil then Ret (JSONError "Database connection unavailable" StatusInternalServerError) else
    ids <- getCallerIDs (UserID c);
    let '(callerEmpID, callerUserID) := ids in
    rows <- exec (select (fun d => map (task_json d c callerEmpID callerUserID)
                                     (pending_rows (claims r) callerEmpID d)));
    Ret (match rows with
         | Err e => JSONError ("Failed to fetch approvals: " +:+ e) StatusInternalServerError
         | Ok tasks => ok_json [("data", JArr tasks)]
         end)
  end.

(** ** Samples *)

(** A map of strings, encoded in the order of its keys. *)
Definition string_map (l : list (string * string)) : json :=
  JObj (map (fun kv => (fst kv, JStr (snd kv))) l).

Record HRTaskSummary := {
  ProbationDueCount : Z; PendingDocsCount : Z; UnresolvedAnomalies : Z; PendingPayrollLocks : Z;
  ProbationEmployees : list (list (string * string)); PendingDocumentItems : list (list (string * string))
}.

Definition hr_summary_json (x : HRTaskSummary) : json :=
  JObj [("probation_due_count", JInt (ProbationDueCount x)); ("pending_docs_count", JInt (PendingDocsCount x));
        ("unresolved_anomalies", JInt (UnresolvedAnomalies x)); ("pending_payroll_locks", JInt (PendingPayrollLocks x));
        ("probation_employees", JArr (map string_map (ProbationEmployees x)));
        ("pending_document_items", JArr (map string_map (PendingDocumentItems x)))].

Definition sample_hr_tasks : HRTaskSummary :=
  let due id name date dept := [("department", dept); ("due_date", date); ("employee_id", id); ("name", name)] in
  let doc id name type :=
    [("doc_type", type); ("employee_id", id); ("name", name); ("status", "PENDING_VERIFICATION")] in
  {| ProbationDueCount := 3; PendingDocsCount := 5; UnresolvedAnomalies := 4; PendingPayrollLocks := 1;
     ProbationEmployees :=
       [due "EMP-1024" "Alice Walker" "2026-08-30" "Engineering"; due "EMP-1088" "Bob Smith" "2026-09-05" "Design";
        due "EMP-1090" "Carol Danvers" "2026-09-12" "Product"];
     PendingDocumentItems :=
       [doc "EMP-1024" "Alice Walker" "PAN Card Copy"; doc "EMP-1088" "Bob Smith" "Relieving Letter";
        doc "EMP-1090" "Carol Danvers" "Form 16 Prior Employer"] |}.

Definition HandleGetHRTasks : prog Database Response :=
  Ret (ok_json [("data", hr_summary_json sample_hr_tasks)]).

Record NotificationItem := {
  nt_ID : string; nt_Title : string; nt_Message : string; nt_Type : string; nt_Module : string;
  nt_IsRead : bool; nt_Link : string; nt_CreatedAt : Z
}.

Definition notification_json (n : NotificationItem) : json :=
  JObj [("id", JStr (nt_ID n)); ("title", JStr (nt_Title n)); ("message", JStr (nt_Message n));
        ("type", JStr (nt_Type n)); ("module", JStr (nt_Module n)); ("is_read", JBool (nt_IsRead n));
        ("link", JStr (nt_Link n)); ("created_at", JTime (nt_CreatedAt n))].

Definition minutes (n : Z) : Z := n * 60 * 1000000.

Definition sample_notifications (t : Z) : list NotificationItem :=
  [{| nt_ID := "notif-1"; nt_Title := "Probation Confirmation Due";
      nt_Message := "Alice Walker (EMP-1024) probation review is due in 2 days."; nt_Type := "ACTION_REQUIRED";
      nt_Module := "PROBATION"; nt_IsRead := false; nt_Link := "/probation"; nt_CreatedAt := t - minutes 30 |};
   {| nt_ID := "notif-2"; nt_Title := "August Payroll Validated";
      nt_Message := "August 2026 payroll cycle passed automated validation checks."; nt_Type := "SUCCESS";
      nt_Module := "PAYROLL"; nt_IsRead := false; nt_Link := "/payroll"; nt_CreatedAt := t - minutes 120 |};
   {| nt_ID := "notif-3"; nt_Title := "Pending Document Verification";
      nt_Message := "5 employee compliance documents require HR sign-off."; nt_Type := "WARNING";
      nt_Module := "DOCS"; nt_IsRead := true; nt_Link := "/users"; nt_CreatedAt := t - minutes 360 |}].

Definition HandleGetNotifications : prog Database Response :=
  t <- now;
  Ret (ok_json [("data", JArr (map notification_json (sample_notifications t)))]).

Definition HandleMarkNotificationsRead : prog Database Response :=
  Ret (ok_json [("message", JStr "All notifications marked as read.")]).

End Workflow.
