(* ===== verification/WorkflowProps.v ===== *)
(** * Properties of the approval workflow

    Who can decide a task, and that a decision is final under any interleaving of
    requests; proved against [Approvable], for all six tables at once. *)

From S2P Require Import Prelude Float64 Go Sql Schema Calendar Demo Common Auth Authz Workflow.

#[local] Open Scope prog_scope.

Section WorkflowProperties.
Context `{Server}.

(** ** Decisions are final *)

(** A row keeps its identifier, and everything once it is no longer PENDING. *)
Definition keeps_decision {Row} (t : table Database Row) `{!Approvable t} (x y : Row) : Prop :=
  app_id y = app_id x /\ (app_status x <> "PENDING" -> y = x).

Definition decided_kept {Row} (t : table Database Row) `{!Approvable t} : relation Database :=
  on t (Forall2 (keeps_decision t)).

#[export] Instance keeps_decision_preorder {Row} (t : table Database Row) `{!Approvable t} :
  PreOrder (keeps_decision t).
Proof.
  split; [by split|]. intros x y z [H1 H2] [H3 H4]. split; [congruence|].
  intros Hx. rewrite H2 in * by done. auto.
Qed.

#[export] Instance decided_kept_preorder {Row} (t : table Database Row) `{!Approvable t} :
  PreOrder (decided_kept t).
Proof. apply on_preorder. split; apply _. Qed.

Lemma decide_in_keeps {Row} (t : table Database Row) `{!Approvable t} `{!LawfulTable t} status id :
  respects (decided_kept t) (decide_in t status id).
Proof.
  apply respects_with_varchar; intros st. apply respects_with_uuid; intros u.
  apply respects_update. intros c d. apply (on_same t); [done|]. apply Forall2_set_where. intros x Hx.
  destruct (_ && _) eqn:E; [|reflexivity]. bool_prop. split; [apply app_set_id|done].
Qed.

Lemma decide_in_frame {Row Row'} (t : table Database Row) (u : table Database Row')
  `{!Approvable t} `{!Approvable u} `{!Indep t u} status id :
  respects (decided_kept u) (decide_in t status id).
Proof.
  apply respects_with_varchar; intros st. apply respects_with_uuid; intros v.
  apply respects_update. intros c d. apply on_indep; [split; apply _|done].
Qed.

Lemma all_stmts_try_updates (P : forall B, stmt Database B -> Prop) l :
  Forall (P Z) l -> all_stmts P (try_updates l).
Proof.
  induction 1 as [|s l Hs Hl IH]; simpl; [done|]. unfold exec. destruct db_nil; [done|].
  split; [done|]. intros [n|e]; simpl; [|done]. by destruct (0 <? n).
Qed.

(** Every task table. *)
Definition tasks_kept (d d' : Database) : Prop :=
  decided_kept leave_applications d d' /\ decided_kept regularization_requests d d'
  /\ decided_kept od_requests d d' /\ decided_kept wfh_requests d d'
  /\ decided_kept payroll_advances d d' /\ decided_kept exit_requests d d'.

#[export] Instance tasks_kept_preorder : PreOrder tasks_kept.
Proof.
  split.
  - intros d. unfold tasks_kept. split_and!; reflexivity.
  - intros d1 d2 d3 H1 H2. unfold tasks_kept in *.
  destruct H1 as (?&?&?&?&?&?), H2 as (?&?&?&?&?&?). split_and!; by etransitivity.
Qed.

Lemma decisions_keep status id :
  Forall (fun s => respects tasks_kept s) (decisions status id).
Proof.
  unfold decisions. repeat apply Forall_cons_2; try apply Forall_nil_2;
  intros c d b d' Hst; unfold tasks_kept; split_and!;
  first [exact (decide_in_keeps _ status id c d b d' Hst)
        | exact (decide_in_frame _ _ status id c d b d' Hst)].
Qed.

Lemma check_task_reads (R : relation Database) `{!PreOrder R} c id verb :
  all_stmts (fun _ s => respects R s) (check_task c id verb).
Proof.
  unfold check_task, isSelfApproval, isAuthorizedToApprove, getTaskRequesterIDs, getCallerIDs. walk.
Qed.

(** The requests of the workflow that write. *)
Definition workflow_request (p : prog Database Response) : Prop :=
  (exists r, p = HandleBulkAction r) \/ exists B status verb past (r : Request B),
  p = decide_task status verb past r.

Lemma update_task_keeps id status :
  all_stmts (fun _ s => respects tasks_kept s) (updateTaskStatus id status).
Proof.
  apply all_stmts_try_updates. eapply Forall_impl; [apply decisions_keep|]. done.
Qed.

#[local] Opaque check_task updateTaskStatus.

Lemma workflow_request_keeps p :
  workflow_request p -> all_stmts (fun _ s => respects tasks_kept s) p.
Proof.
  intros [(r & ->)|(B & status & verb & past & r & ->)]; [unfold HandleBulkAction|unfold decide_task];
  walk; first [by apply check_task_reads; apply _ | apply update_task_keeps].
Qed.

(** C8: a decision is final: in every interleaving of any number of approvals,
    rejections and bulk actions, in whatever order their statements run, no task
    that is not PENDING changes in any column, in any of the six tables. *)
Theorem decisions_are_final ps d ps' d' :
  Forall workflow_request ps -> steps (ps, d) (ps', d') -> tasks_kept d d'.
Proof.
  intros Hps Hst. apply (steps_respect tasks_kept ps d ps' d'); [|done].
  eapply Forall_impl; [exact Hps|]. apply workflow_request_keeps.
Qed.
End WorkflowProperties.

Section Approvers.
Context `{Server}.

(** ** Who may decide *)

(** The caller has an employee record, is not the requester, and is an
    administrator or the manager of the requester. *)
Definition may_decide (c : option Claims) (id : string) (d : Database) : Prop :=
  exists k re ru ce cu, c = Some k
  /\ requester id d = Some (re, ru) /\ caller_ids (UserID k) d = Some (ce, cu)
  /\ re <> "" /\ ce <> "" /\ TrimSpace re <> TrimSpace ce /\ re <> UserID k
  /\ (ru <> "" -> ru <> cu /\ ru <> UserID k)
  /\ (HasRole c ["SUPER_ADMIN"; "HR_ADMIN"; "PAYROLL_ADMIN"] = true
      \/ manager_of re ru d = Some ce).

(** No employee has an empty identifier. *)
Definition ids_nonempty (d : Database) : Prop :=
  Forall (fun e => emp_id e <> "" /\ emp_user_id e <> Some "") (tget employees d).

Lemma wp_select_row fl {B C} (f : Database -> option B) (g : result B -> C) d Q :
  db_nil = false ->
  (forall b, f d = Some b -> Q (Done (g (Ok b))) d) ->
  (forall e, (fl = false -> f d = None) -> Q (Done (g (Err e))) d) ->
  wp fl (r <- exec (select_row f); Ret (g r)) d Q.
Proof.
  intros Hdb Hok Herr. apply wp_bind, wp_exec; [congruence| |].
  - intros c b d' Hst. sql_inv Hst. subst. simpl. auto.
  - intros e Hfl. simpl. apply Herr. intros ->. destruct Hfl as [?|[c Hst]]; [done|].
  unfold select_row in Hst. by destruct (f d).
Qed.

Lemma manager_of_nobody d : ids_nonempty d -> manager_of "" "" d = None.
Proof.
  intros Hd. unfold manager_of. destruct (List.find _ _) as [e|] eqn:Ef; [|done].
  exfalso. apply find_some_elem in Ef as [Hin Hp]. unfold ids_nonempty in Hd.
  rewrite Forall_forall in Hd. destruct (Hd e Hin) as [H1 H2].
  rewrite orb_true_iff, opt_is_spec, String.eqb_eq in Hp. tauto.
Qed.

(** Passing the self-approval check means that both identities are known. *)
Lemma isSelfApproval_wp c id d :
  db_nil = false ->
  wp true (isSelfApproval c id) d (fun o d' => d' = d /\ (o = Done false ->
  exists k re ru ce cu, c = Some k /\ requester id d = Some (re, ru)
    /\ caller_ids (UserID k) d = Some (ce, cu) /\ re <> "" /\ ce <> ""
    /\ TrimSpace re <> TrimSpace ce /\ re <> UserID k
    /\ (ru <> "" -> ru <> cu /\ ru <> UserID k))).
Proof.
  intros Hdb. unfold isSelfApproval. destruct c as [k|]; [|done].
  unfold getTaskRequesterIDs, getCallerIDs.
  apply wp_bind, wp_select_row; [done| |].
  - intros [re ru] Hreq. cbn [wp_then scan]. apply wp_bind, wp_select_row; [done| |].
  + intros [ce cu] Hcl. cbn [wp_then scan]. simpl. split; [done|]. intros [= Hself].
    exists k, re, ru, ce, cu. split_and!; try done.
    all: destruct (re =?s "") eqn:E1, (re =?s ce) eqn:E2, (re =?s UserID k) eqn:E3,
      (ru =?s "") eqn:E4, (ru =?s cu) eqn:E5, (ru =?s UserID k) eqn:E6; simpl in Hself; try done;
      apply negb_false_iff, CanApproveTask_spec in Hself as (Hne1 & Hne2 & Htrim); bool_prop; try done.
  + intros e _. cbn [wp_then scan]. simpl. split; [done|]. intros [= Hself]. exfalso.
    unfold CanApproveTask in Hself. rewrite orb_true_r in Hself. simpl in Hself.
    destruct (negb (re =?s "") && _); [done|]. by destruct (negb (ru =?s "") && _).
  - intros e _. cbn [wp_then scan]. apply wp_bind, wp_select_row; [done| |].
  + intros [ce cu] Hcl. by split.
  + intros e' _. by split.
Qed.

Lemma isAuthorizedToApprove_wp c id d re ru :
  db_nil = false -> ids_nonempty d -> requester id d = Some (re, ru) ->
  wp true (isAuthorizedToApprove c id) d (fun o d' => d' = d /\ (o = Done true ->
  HasRole c ["SUPER_ADMIN"; "HR_ADMIN"; "PAYROLL_ADMIN"] = true
  \/ exists k ce cu, c = Some k /\ caller_ids (UserID k) d = Some (ce, cu)
                     /\ manager_of re ru d = Some ce)).
Proof.
  intros Hdb Hd Hreq. unfold isAuthorizedToApprove. destruct c as [k|]; [|done].
  destruct (HasRole _ _) eqn:Er; [split; [done|]; by left|].
  unfold getTaskRequesterIDs, getCallerIDs.
  assert (Hno : forall caller : string * string, wp true (mgr <- exec (select_row (manager_of "" ""));
    Ret (match mgr with
         | Ok mgrID => negb (mgrID =?s "") && (mgrID =?s fst caller)
         | Err _ => false
         end)) d (fun o d' => d' = d /\ (o = Done true -> false = true
  \/ exists k' ce cu, Some k = Some k' /\ caller_ids (UserID k') d = Some (ce, cu)
                     /\ manager_of re ru d = Some ce))).
  { intros caller. apply (wp_select_row true (manager_of "" "") (fun mgr : result string => match mgr with
         | Ok mgrID => negb (mgrID =?s "") && (mgrID =?s fst caller)
         | Err _ => false end)); [done| |].
  - intros b Hb. rewrite manager_of_nobody in Hb by done. done.
  - intros e _. by split. }
  apply wp_bind, wp_select_row; [done| |].
  - intros rr Hrr. rewrite Hreq in Hrr. injection Hrr as <-. cbn [wp_then scan fst snd].
  apply wp_bind, wp_select_row; [done| |].
  + intros [ce cu] Hcl. cbn [wp_then scan fst snd].
    apply (wp_select_row true (manager_of re ru) (fun mgr : result string => match mgr with
         | Ok mgrID => negb (mgrID =?s "") && (mgrID =?s ce) | Err _ => false end)); [done| |].
    * intros m Hm. split; [done|]. intros [= Hmc]. bool_prop. subst m. right. by exists k, ce, cu.
    * intros e _. by split.
  + intros e _. cbn [wp_then scan fst snd].
    apply (wp_select_row true (manager_of re ru) (fun mgr : result string => match mgr with
         | Ok mgrID => negb (mgrID =?s "") && (mgrID =?s "") | Err _ => false end)); [done| |].
    * intros m Hm. split; [done|]. intros [= Hmc]. by destruct (m =?s "").
    * intros e' _. by split.
  - intros e _. cbn [wp_then scan fst snd]. apply wp_bind, wp_select_row; [done| |].
  + intros [ce cu] Hcl. apply Hno.
  + intros e' _. apply Hno.
Qed.

Lemma check_task_wp c id verb d :
  db_nil = false -> ids_nonempty d ->
  wp true (check_task c id verb) d (fun o d' => d' = d /\ (o = Done tt -> may_decide c id d)).
Proof.
  intros Hdb Hd. unfold check_task. apply wp_bind. eapply wp_mono; [|by apply isSelfApproval_wp].
  intros [self|r|m] d' [-> Hself]; [|by split|by split]. cbn [wp_then].
  destruct self; [by split|]. simpl bind.
  destruct (Hself eq_refl) as (k & re & ru & ce & cu & Hc & Hreq & Hcl & Hre & Hce & Ht & Hk & Hru).
  apply wp_bind. eapply wp_mono; [|by eapply isAuthorizedToApprove_wp].
  intros [auth|r|m] d' [-> Hauth]; [|by split|by split]. cbn [wp_then].
  destruct auth; simpl; [|by split]. split; [done|]. intros _.
  exists k, re, ru, ce, cu. split_and!; try done.
  destruct (Hauth eq_refl) as [Hr|(k' & ce' & cu' & Hc' & Hcl' & Hm)]; [by left|].
  right. congruence.
Qed.

(** C9: no one decides their own request, nor that of someone they do not manage:
    if an approval or a rejection changes anything at all, the caller has an
    employee record other than the requester's, and is an administrator or the
    requester's manager; a lookup that fails only ever refuses. *)
Theorem decision_needs_other_person {B} E (r : Request B) status verb past n d :
  ids_nonempty d -> db_of (run E (decide_task status verb past r) n d) <> d ->
  may_decide (claims r) (urlParam r "id") d.
Proof.
  intros Hd. apply (wp_run true E (decide_task status verb past r) n d
  (fun _ d' => d' <> d -> may_decide (claims r) (urlParam r "id") d)); [done|].
  unfold decide_task. destruct db_nil eqn:Hdb; [by intros []|].
  destruct (claims r) as [c|] eqn:Hc; [|by intros []].
  destruct (negb _); [by intros []|]. apply wp_bind. eapply wp_mono; [|by apply check_task_wp].
  intros [[]|rp|m] d' [-> Hok]; [|by intros []|by intros []]. cbn [wp_then].
  eapply wp_mono; [|apply wp_True]. intros o d' _ _. by apply Hok.
Qed.

(** *** What an approval does *)

Lemma check_task_passes c id verb d :
  db_nil = false -> may_decide c id d ->
  wp false (check_task c id verb) d (fun o d' => o = Done tt /\ d' = d).
Proof.
  intros Hdb (k & re & ru & ce & cu & -> & Hreq & Hcl & Hre & Hce & Ht & Hk & Hru & Hauth).
  assert (Hneq : re <> ce) by congruence.
  assert (Hcan : CanApproveTask re ce = true) by (apply CanApproveTask_spec; by split_and!).
  unfold check_task, isSelfApproval, getTaskRequesterIDs, getCallerIDs.
  apply wp_bind, wp_bind, wp_select_row; [done| |by intros e He; rewrite Hreq in He; specialize (He eq_refl)].
  intros p Hp. rewrite Hreq in Hp. injection Hp as <-. cbn [wp_then scan].
  apply wp_bind, wp_select_row; [done| |by intros e He; rewrite Hcl in He; specialize (He eq_refl)].
  intros p Hp. rewrite Hcl in Hp. injection Hp as <-. cbn [wp wp_then scan]. rewrite Hcan. rewrite (proj2 (String.eqb_neq _ _) Hneq), (proj2 (String.eqb_neq _ _) Hk).
  cbn [orb]. rewrite andb_false_r. cbv iota.
  assert (Hself : negb (ru =?s "") && ((ru =?s cu) || (ru =?s UserID k)) = false).
  { destruct (String.eqb_spec ru ""); [done|]. destruct Hru as [H1 H2]; [done|].
  by rewrite (proj2 (String.eqb_neq _ _) H1), (proj2 (String.eqb_neq _ _) H2). }
  rewrite Hself. cbn [negb return_if bind]. unfold isAuthorizedToApprove.
  destruct (HasRole _ _) eqn:Er; [done|]. destruct Hauth as [?|Hm]; [congruence|].
  unfold getTaskRequesterIDs, getCallerIDs. apply wp_bind.
  apply wp_bind, wp_select_row; [done| |by intros e He; rewrite Hreq in He; specialize (He eq_refl)].
  intros p Hp. rewrite Hreq in Hp. injection Hp as <-. cbn [wp_then scan].
  apply wp_bind, wp_select_row; [done| |by intros e He; rewrite Hcl in He; specialize (He eq_refl)].
  intros p Hp. rewrite Hcl in Hp. injection Hp as <-. cbn [wp_then scan fst snd].
  apply wp_bind, wp_exec_det; [done|]. intros x. unfold select_row. rewrite Hm. simpl.
  by rewrite (proj2 (String.eqb_neq _ _) Hce), eqb_refl_s.
Qed.

(** An approval by a person who may decide a pending leave application succeeds,
    and changes that application to APPROVED and nothing else in the database. *)
Theorem leave_approval_effect {B} E (r : Request B) n d u st :
  reliable E -> db_nil = false -> HasRole (claims r) approver_roles = true ->
  may_decide (claims r) (urlParam r "id") d ->
  uuid_in (urlParam r "id") = Some u -> varchar_in 50 "APPROVED" = Some st ->
  0 < count_where (fun a => (lap_id a =?s u) && (lap_status a =?s "PENDING")) (tget leave_applications d) ->
  let x := run E (HandleApproveTask r) n d in
  out x = Done (ok_json [("message", JStr "Task approved successfully")])
  /\ db_of x = tput leave_applications
    (set_where (fun a => (lap_id a =?s u) && (lap_status a =?s "PENDING")) (set_lap_status st)
       (tget leave_applications d)) d.
Proof.
  intros HE Hdb Hr Hm Hu Hst Hc.
  apply (wp_run false E (HandleApproveTask r) n d (fun o d' =>
  o = Done (ok_json [("message", JStr "Task approved successfully")]) /\ d' = _)); [done|].
  unfold HandleApproveTask, decide_task. rewrite Hdb, Hr. destruct (claims r) as [c|] eqn:Ec.
  2: { by destruct Hm as (k & re & ru & ce & cu & ? & _). }
  simpl negb. cbv iota. apply wp_bind. eapply wp_mono; [|by apply check_task_passes].
  intros o d' [-> ->]. cbn [wp_then]. apply wp_bind. unfold updateTaskStatus, decisions, try_updates.
  apply wp_bind, wp_exec_det; [done|]. intros x. unfold decide_in at 1, with_varchar, with_uuid.
  rewrite Hst, Hu. unfold update. cbn [wp_then].
  change (fun r0 : LeaveRow => (app_id r0 =?s u) && (app_status r0 =?s "PENDING"))
  with (fun a : LeaveRow => (lap_id a =?s u) && (lap_status a =?s "PENDING")).
  rewrite (proj2 (Z.ltb_lt _ _) Hc). by simpl.
Qed.
End Approvers.

(** ** A bulk action *)

Definition demo_leave (n emp : Z) (st : string) : LeaveRow :=
  {| lap_id := uid n; lap_employee_id := uid emp; lap_leave_type_id := uid 61;
     lap_start_date := days_of 2026 10 5; lap_end_date := days_of 2026 10 6; lap_total_days := 200;
     lap_reason := Some "family"; lap_status := st; lap_created_at := demo_time |}.

Definition leave_db : Database :=
  tput leave_applications [demo_leave 71 12 "PENDING"; demo_leave 72 11 "PENDING"; demo_leave 73 12 "PENDING"]
    demo_db.

(** A bulk action stores the action it is given as the status: with the
    documented value "APPROVE" the task is neither PENDING nor APPROVED; and it
    stops at the first task it refuses, here the caller's own, reporting a failure
    although the tasks before it are decided. *)
Theorem bulk_action_literal_status :
  let x := run (demo_env 0) (HandleBulkAction (demo_request (Some (demo_claims 1 ["HR_ADMIN"]))
    (Some {| TaskIDs := [uid 71; uid 72; uid 73]; Action := "APPROVE"; Comments := "" |}) "")) 0 leave_db in
  out x = Replied SelfApprovalError
  /\ map lap_status (tget leave_applications (db_of x)) = ["APPROVE"; "PENDING"; "PENDING"].
Proof. vm_compute. done. Qed.
