(* ===== verification/User.v ===== *)
(** * internal/user: accounts, roles and invitations

    Creation, invitation and the change of a role are transactions ([Tx]); the
    other handlers send single statements whose errors they ignore. *)

From S2P Require Import Prelude Float64 Go Sql Tx Schema Calendar Common Auth Authz.

#[local] Open Scope prog_scope.

Record CreateUserRequest := {
  cu_Email : string; cu_Password : string; cu_Role : string; cu_EmployeeID : option string
}.

Record InviteUserRequest := { iu_Email : string; iu_Role : string; iu_EmployeeID : option string }.

Definition opt_json {A} (f : A -> json) (o : option A) : json :=
  match o with Some x => f x | None => JNull end.

(** A pointer field tagged [omitempty]. *)
Definition opt_ptr {A} (k : string) (f : A -> json) (o : option A) : list (string * json) :=
  match o with Some x => [(k, f x)] | None => [] end.

Section Users.
Context `{Server} `{Crypto}.

(** ** Statements *)

(** SELECT id FROM roles WHERE name = $1 *)
Definition find_role (name : string) : stmt Database string :=
  select_row (fun d => rol_id <$> List.find (fun r => rol_name r =?s name) (tget roles d)).

Definition email_taken (email : string) (d : Database) : bool :=
  existsb (fun u => usr_email u =?s email) (tget users d).

(** INSERT INTO users (email, password_hash, is_active, ...) RETURNING id: the
    email is unique, the address and the hash are VARCHAR(255). *)
Definition insert_user (email hash : string) (active : bool) (invitation : option (string * Z))
  : stmt Database string := fun c d =>
  let s :=
    with_varchar 255 email (fun email => with_varchar 255 hash (fun hash =>
    insert users (fun c d =>
      if email_taken email d then Err unique_error
      else Ok {| usr_id := sc_uuid c; usr_email := email; usr_password_hash := hash;
                 usr_is_active := active; usr_last_login := None; usr_password_reset_token := None;
                 usr_password_reset_expires_at := None; usr_created_at := sc_now c;
                 usr_invited_at := (fun _ => sc_now c) <$> invitation;
                 usr_invitation_token := fst <$> invitation;
                 usr_invitation_expires_at := snd <$> invitation |}))) in
  result_map (fun x => (usr_id (fst x), snd x)) (s c d).

Definition ref_role (id : string) (d : Database) : bool :=
  existsb (fun r => rol_id r =?s id) (tget roles d).

(** INSERT INTO user_roles (user_id, role_id): both reference, the pair is the key. *)
Definition insert_user_role (userID roleID : string) : stmt Database Z := fun c d =>
  let s := insert user_roles (fun _ d =>
    if existsb (fun ur => (uro_user_id ur =?s userID) && (uro_role_id ur =?s roleID)) (tget user_roles d)
    then Err unique_error
    else if ref_user userID d && ref_role roleID d
         then Ok {| uro_user_id := userID; uro_role_id := roleID |}
         else Err fk_error) in
  result_map (fun x => (1, snd x)) (s c d).

(** UPDATE employees SET user_id = $1 WHERE id = $2 AND user_id IS NULL *)
Definition link_employee (userID employeeID : string) : stmt Database Z :=
  with_uuid employeeID (fun emp =>
  update_chk employees (fun e => (emp_id e =?s emp) && negb (bool_decide (is_Some (emp_user_id e))))
    (fun _ => set_emp_user_id (Some userID))
    (fun d _ =>
       if existsb (fun e => opt_is (emp_user_id e) userID) (tget employees d) then Some unique_error
       else if ref_user userID d then None else Some fk_error)).

(** UPDATE users SET is_active = $1 WHERE id = $2 *)
Definition set_active (active : bool) (id : string) : stmt Database Z :=
  with_uuid id (fun id => update users (fun u => usr_id u =?s id) (fun _ => set_usr_is_active active)).

(** DELETE FROM user_roles WHERE user_id = $1 *)
Definition delete_user_roles (id : string) : stmt Database Z :=
  with_uuid id (fun id => delete user_roles (fun ur => uro_user_id ur =?s id)).

(** UPDATE employees SET user_id = NULL WHERE user_id = $1 *)
Definition unlink_user (id : string) : stmt Database Z :=
  with_uuid id (fun id =>
  update employees (fun e => opt_is (emp_user_id e) id) (fun _ => set_emp_user_id None)).

(** Rows that reference the user without ON DELETE: they refuse its deletion. *)
Definition user_referenced (id : string) (d : Database) : bool :=
  existsb (fun e => opt_is (emp_user_id e) id) (tget employees d)
  || existsb (fun a => aud_user_id a =?s id) (tget audit_logs d)
  || existsb (fun r => opt_is (run_processed_by r) id || opt_is (run_approved_by r) id) (tget payroll_runs d)
  || existsb (fun a => opt_is (adv_approved_by a) id) (tget payroll_advances d)
  || existsb (fun x => opt_is (exc_reviewed_by x) id) (tget attendance_exceptions d)
  || existsb (fun b => imb_user_id b =?s id) (tget import_batches d)
  || existsb (fun v => opt_is (evt_created_by v) id) (tget employee_lifecycle_events d).

(** What the foreign keys with ON DELETE do to the rows that reference the user. *)
Definition user_deleted (id : string) (d : Database) : Database :=
  let gone {A} (key : A -> string) (l : list A) := where_ (fun r => negb (key r =?s id)) l in
  let d := tput users (gone usr_id (tget users d)) d in
  let d := tput user_roles (gone uro_user_id (tget user_roles d)) d in
  let d := tput helpdesk_ticket_comments (gone hdm_user_id (tget helpdesk_ticket_comments d)) d in
  let d := tput data_access_logs (gone dal_user_id (tget data_access_logs d)) d in
  let d := tput attendance_daily_status
    (set_where (fun r => opt_is (day_validated_by r) id) (set_day_validated_by None)
      (tget attendance_daily_status d)) d in
  let d := tput leave_encashment_requests
    (set_where (fun r => opt_is (enc_approved_by r) id) (set_enc_approved_by None)
      (tget leave_encashment_requests d)) d in
  tput helpdesk_tickets
    (set_where (fun r => opt_is (hdt_assigned_to r) id) (set_hdt_assigned_to None)
      (tget helpdesk_tickets d)) d.

(** DELETE FROM users WHERE id = $1 *)
Definition delete_user (id : string) : stmt Database Z :=
  with_uuid id (fun id _ d =>
  if negb (ref_user id d) then Ok (0, d)
  else if user_referenced id d then Err fk_error
  else Ok (1, user_deleted id d)).

(** ** Listing *)

(** The rows of the user in the join with [user_roles] and [roles]: one per role,
    or one without. *)
Definition joined_roles (d : Database) (u : UserRow) : list (option string) :=
  match role_names (usr_id u) d with [] => [None] | l => map Some l end.

(** The role rows of the user that pass the WHERE clause. *)
Definition matching_roles (search role : string) (d : Database) (u : UserRow) : list (option string) :=
  where_ (fun ro => ((search =?s "") || ilike (usr_email u) ("%" +:+ search +:+ "%"))
                    && ((role =?s "") || opt_is ro role)) (joined_roles d u).

Definition listed_users (search role : string) (d : Database) : list UserRow :=
  where_ (fun u => negb (bool_decide (matching_roles search role d u = []))) (tget users d).

Definition user_json (u : UserRow) (rs : list (option string)) (e : option EmpRow) : json :=
  JObj ([("id", JStr (usr_id u)); ("email", JStr (usr_email u)); ("is_active", JBool (usr_is_active u));
         ("last_login", opt_json (fun t => JStr (iso_text t)) (usr_last_login u))]
        ++ opt_ptr "invited_at" (fun t => JStr (iso_text t)) (usr_invited_at u)
        ++ [("roles", JArr (map JStr (omap id rs)))]
        ++ opt_ptr "employee_id" (fun e => JStr (emp_id e)) e).

(** The groups of a user: one per employee record linked to it, or one without. *)
Definition user_groups (search role : string) (d : Database) (u : UserRow) : list json :=
  let rs := matching_roles search role d u in
  match where_ (fun e => opt_is (emp_user_id e) (usr_id u)) (tget employees d) with
  | [] => [user_json u rs None]
  | es => map (fun e => user_json u rs (Some e)) es
  end.

Definition user_page (pg : PaginationParams) (role : string) : stmt Database (list json) :=
  select_page pg (fun d =>
    flat_map (user_groups (Search pg) role d)
      (order_by (desc usr_created_at) (listed_users (Search pg) role d))).

Definition HandleListUsers (r : Request unit) : prog Database Response :=
  return_if (negb (CanManageUsers (claims r)))
    (ForbiddenResponse "FORBIDDEN_ROLE" "Only Administrators can list user accounts.");;;
  let pg := ParsePaginationParams (query r) in
  let role := query r "role" in
  total <- exec (select (fun d => Z.of_nat (length (listed_users (Search pg) role d))));
  rows <- exec (user_page pg role);
  match rows with
  | Err e => Ret (jsonError ("failed to query users: " +:+ e) StatusInternalServerError)
  | Ok us => Ret (page_json pg (scan 0 total) us)
  end.

(** ** Creation *)

(** [if employeeID != nil && *employeeID != ""] *)
Definition employee_given (o : option string) : option string :=
  match o with Some e => if e =?s "" then None else Some e | None => None end.

(** The link of the new account to an employee: whether it was made. *)
Definition link_if_given (tx : Tx Database) (userID : string) (emp : option string)
  : prog Database (bool * Tx Database) :=
  match employee_given emp with
  | None => Ret (true, tx)
  | Some e =>
      '(res, tx) <- tx_exec tx (link_employee userID e);
      Ret (match res with Ok n => negb (n =? 0)%Z | Err _ => false end, tx)
  end.

Definition createUserTx (email password role : string) (employeeID : option string) (isInvitation : bool)
  : prog Database (result string) :=
  tx <- tx_begin;
  match tx with
  | Err e => Ret (Err e)
  | Ok tx =>
      '(roleID, tx) <- tx_query tx (find_role role);
      match roleID with
      | Err _ => Ret (Err ("invalid role: " +:+ role))
      | Ok roleID =>
          salt <- rand_hex;
          let hash := scan "" (bcrypt_hash salt password) in
          '(userID, tx) <- tx_exec tx (insert_user email hash (negb isInvitation) None);
          match userID with
          | Err _ => Ret (Err "email already exists or creation failed")
          | Ok userID =>
              '(_, tx) <- tx_exec tx (insert_user_role userID roleID);
              '(linked, tx) <- link_if_given tx userID employeeID;
              if negb linked then Ret (Err "employee not found or already linked to a user")
              else
                res <- tx_commit tx;
                Ret (match res with Ok _ => Ok userID | Err e => Err e end)
          end
      end
  end.

Definition HandleCreateUser (r : Request CreateUserRequest) : prog Database Response :=
  return_if (negb (CanManageUsers (claims r)))
    (ForbiddenResponse "FORBIDDEN_ROLE" "Only Administrators can create user accounts.");;;
  match body r with
  | None => Ret (jsonError "invalid request" StatusBadRequest)
  | Some req =>
      return_if ((cu_Email req =?s "") || (cu_Role req =?s "") || (cu_Password req =?s ""))
        (jsonError "email, role, and password are required" StatusBadRequest);;;
      userID <- createUserTx (cu_Email req) (cu_Password req) (cu_Role req) (cu_EmployeeID req) false;
      match userID with
      | Err e => Ret (jsonError e StatusConflict)
      | Ok userID => Ret (created_json [("user_id", JStr userID);
                                        ("message", JStr "User created successfully.")])
      end
  end.

(** ** Invitation *)

Definition HandleInviteUser (r : Request InviteUserRequest) : prog Database Response :=
  return_if (negb (CanManageUsers (claims r)))
    (ForbiddenResponse "FORBIDDEN_ROLE" "Only Administrators can invite users.");;;
  match body r with
  | None => Ret (jsonError "invalid request" StatusBadRequest)
  | Some req =>
      return_if ((iu_Email req =?s "") || (iu_Role req =?s ""))
        (jsonError "email and role are required" StatusBadRequest);;;
      rawToken <- generateSecureToken;
      let tokenHash := hashToken rawToken in
      tempPassword <- generateSecureToken;
      t <- now;
      let expires := t + 48 * hour in
      tx <- tx_begin;
      match tx with
      | Err _ => Ret (jsonError "internal error" StatusInternalServerError)
      | Ok tx =>
          '(roleID, tx) <- tx_query tx (find_role (iu_Role req));
          match roleID with
          | Err _ => Ret (jsonError "invalid role" StatusBadRequest)
          | Ok roleID =>
              salt <- rand_hex;
              let hash := scan "" (bcrypt_hash salt tempPassword) in
              '(userID, tx) <- tx_exec tx (insert_user (iu_Email req) hash false (Some (tokenHash, expires)));
              match userID with
              | Err _ => Ret (jsonError "email already exists" StatusConflict)
              | Ok userID =>
                  '(_, tx) <- tx_exec tx (insert_user_role userID roleID);
                  '(linked, tx) <- link_if_given tx userID (iu_EmployeeID req);
                  if negb linked
                  then Ret (jsonError "employee not found or already linked" StatusBadRequest)
                  else
                    res <- tx_commit tx;
                    match res with
                    | Err _ => Ret (jsonError "failed to commit" StatusInternalServerError)
                    | Ok _ =>
                        Ret (created_json
                          [("user_id", JStr userID);
                           ("message", JStr "Invitation sent. User must set their password before first login.");
                           ("invitation_token", JStr rawToken); ("expires_at", JTime expires)])
                    end
              end
          end
      end
  end.

(** ** Roles and states of an account *)

Definition role_json (r : RoleRow) : json :=
  JObj [("id", JStr (rol_id r)); ("name", JStr (rol_name r));
        ("description", opt_json JStr (rol_description r))].

Definition HandleListRoles : prog Database Response :=
  rows <- exec (select (fun d => order_by (fun r r' => collate (rol_name r) (rol_name r')) (tget roles d)));
  match rows with
  | Err _ => Ret (jsonError "failed to query roles" StatusInternalServerError)
  | Ok rs => Ret (ok_json [("data", JArr (map role_json rs))])
  end.

(** A nil transaction: [defer tx.Rollback] panics. *)
Definition nil_deref : string := "runtime error: invalid memory address or nil pointer dereference".

Definition HandleUpdateRole (r : Request string) : prog Database Response :=
  return_if (negb (HasRole (claims r) ["SUPER_ADMIN"]))
    (ForbiddenResponse "FORBIDDEN_ROLE" "Only Super Admins can update user roles.");;;
  let id := urlParam r "id" in
  match body r with
  | None => Ret (jsonError "invalid request" StatusBadRequest)
  | Some role =>
      roleID <- exec (find_role role);
      match roleID with
      | Err _ => Ret (jsonError "invalid role" StatusBadRequest)
      | Ok roleID =>
          tx <- tx_begin;
          match tx with
          | Err _ => Crash nil_deref
          | Ok tx =>
              '(_, tx) <- tx_exec tx (delete_user_roles id);
              '(_, tx) <- tx_exec tx (with_uuid id (fun id => insert_user_role id roleID));
              _ <- tx_commit tx;
              Ret (ok_json [("message", JStr "Role updated")])
          end
      end
  end.

(** [claims.UserID]: of a request whose claims have been checked. *)
Definition caller_id {B} (r : Request B) : string :=
  match claims r with Some c => UserID c | None => "" end.

Definition HandleSuspendUser (r : Request unit) : prog Database Response :=
  return_if (negb (CanManageUsers (claims r)))
    (ForbiddenResponse "FORBIDDEN_ROLE" "Only Administrators can suspend users.");;;
  let id := urlParam r "id" in
  return_if (id =?s caller_id r)
    (ForbiddenResponse "INVALID_ACTION" "You cannot suspend your own account.");;;
  _ <- exec (set_active false id);
  Ret (ok_json [("message", JStr "User suspended")]).

Definition HandleActivateUser (r : Request unit) : prog Database Response :=
  return_if (negb (CanManageUsers (claims r)))
    (ForbiddenResponse "FORBIDDEN_ROLE" "Only Administrators can activate users.");;;
  _ <- exec (set_active true (urlParam r "id"));
  Ret (ok_json [("message", JStr "User activated")]).

Definition HandleDeleteUser (r : Request unit) : prog Database Response :=
  return_if (negb (HasRole (claims r) ["SUPER_ADMIN"]))
    (ForbiddenResponse "FORBIDDEN_ROLE" "Only Super Admins can delete users.");;;
  let id := urlParam r "id" in
  return_if (id =?s caller_id r)
    (ForbiddenResponse "INVALID_ACTION" "You cannot delete your own account.");;;
  _ <- exec (unlink_user id);
  _ <- exec (delete_user id);
  Ret (ok_json [("message", JStr "User deleted")]).
End Users.
