(* ===== verification/UserProps.v ===== *)
(** * Theorems on accounts and roles *)

From S2P Require Import Prelude Float64 Go Sql Tx Schema Calendar Common Auth Authz User.

#[local] Open Scope prog_scope.

Section UserProps.
Context `{Server} `{Crypto}.

(** ** What the statements do *)

Lemma insert_user_ok email hash active inv c d b d' :
  insert_user email hash active inv c d = Ok (b, d') ->
  exists u, usr_id u = b /\ b = sc_uuid c /\ usr_is_active u = active /\ email_taken (usr_email u) d = false
    /\ varchar_in 255 email = Some (usr_email u) /\ varchar_in 255 hash = Some (usr_password_hash u)
    /\ d' = tput users (tget users d ++ [u]) d.
Proof.
  unfold insert_user. destruct (with_varchar 255 email _ c d) as [[u d1]|] eqn:E; [|done].
  simpl. intros [= <- <-]. sql_inv E. subst. exists u.
  destruct (email_taken _ d) eqn:Et; [done|]. match goal with H : Ok _ = Ok _ |- _ => injection H as <- end.
  simpl. by split_and!.
Qed.

Lemma insert_user_role_ok u r c d n d' : insert_user_role u r c d = Ok (n, d') ->
  d' = tput user_roles (tget user_roles d ++ [{| uro_user_id := u; uro_role_id := r |}]) d
  /\ ref_user u d = true /\ ref_role r d = true.
Proof.
  unfold insert_user_role. destruct (insert user_roles _ c d) as [[x d1]|] eqn:E; [|done].
  simpl. intros [= <- <-]. sql_inv E. subst. repeat case_match; simplify_eq. bool_prop. by split_and!.
Qed.

Lemma link_employee_ok u e c d n d' : link_employee u e c d = Ok (n, d') ->
  exists emp, uuid_in e = Some emp
  /\ n = count_where (fun x => (emp_id x =?s emp) && negb (bool_decide (is_Some (emp_user_id x)))) (tget employees d)
  /\ d' = tput employees (set_where (fun x => (emp_id x =?s emp) && negb (bool_decide (is_Some (emp_user_id x))))
                            (set_emp_user_id (Some u)) (tget employees d)) d.
Proof. unfold link_employee. intros (emp & He & Hl)%with_uuid_ok. apply update_chk_ok in Hl. naive_solver. Qed.

Lemma delete_user_roles_ok i c d n d' : delete_user_roles i c d = Ok (n, d') ->
  exists u, uuid_in i = Some u
  /\ d' = tput user_roles (where_ (fun ur => negb (uro_user_id ur =?s u)) (tget user_roles d)) d.
Proof. unfold delete_user_roles. intros (u & Hu & Hd)%with_uuid_ok. injection Hd as <- <-. eauto. Qed.

(** ** Every account has a role *)

Definition users_have_roles (d : Database) : Prop :=
  forall u, u ∈ tget users d -> exists ur, ur ∈ tget user_roles d /\ uro_user_id ur = usr_id u.

(** The accounts other than [id] have a role. *)
Definition others_have_roles (id : string) (d : Database) : Prop :=
  forall u, u ∈ tget users d -> usr_id u <> id ->
  exists ur, ur ∈ tget user_roles d /\ uro_user_id ur = usr_id u.

Lemma roles_of_others i d : users_have_roles d -> others_have_roles i d.
Proof. intros Hd u Hu _. by apply Hd. Qed.

Lemma insert_user_others email hash active inv c d b d' : users_have_roles d ->
  insert_user email hash active inv c d = Ok (b, d') -> others_have_roles b d'.
Proof.
  intros Hd Hi u. apply insert_user_ok in Hi as (u' & <- & _ & _ & _ & _ & _ & ->).
  rewrite tget_tput, indep. intros [Hu|<-%list_elem_of_singleton]%elem_of_app Hne; [|done]. by apply Hd.
Qed.

Lemma delete_roles_others i u c d n d' : users_have_roles d -> uuid_in i = Some u ->
  delete_user_roles i c d = Ok (n, d') -> others_have_roles u d'.
Proof.
  intros Hd Hi Hdel v. apply delete_user_roles_ok in Hdel as (u' & Hu' & ->).
  rewrite tget_tput, indep. intros Hv Hne. destruct (Hd v Hv) as (ur & Hur & E).
  exists ur. split; [|done]. apply elem_of_where. split; [done|]. rewrite E.
  apply negb_true_iff, String.eqb_neq. congruence.
Qed.

Lemma insert_role_all u r c d n d' : others_have_roles u d ->
  insert_user_role u r c d = Ok (n, d') -> users_have_roles d'.
Proof.
  intros Hd Hi v. apply insert_user_role_ok in Hi as (-> & _ & _). rewrite tget_tput, indep. intros Hv.
  destruct (decide (usr_id v = u)) as [<-|Hne].
  - eexists. split; [apply elem_of_app; right; by apply list_elem_of_singleton|done].
  - destruct (Hd v Hv Hne) as (ur & Hur & E). exists ur. split; [apply elem_of_app; by left|done].
Qed.

Lemma link_employee_keeps u e c d n d' : link_employee u e c d = Ok (n, d') ->
  users_have_roles d -> users_have_roles d'.
Proof.
  intros (emp & _ & _ & ->)%link_employee_ok Hd v. rewrite !indep. apply Hd.
Qed.

(** The transaction has made the writes of an account with a role. *)
Lemma create_commit_keeps tx s1 c1 (u : string) c2 r n d d' :
  (forall c d b d', s1 c d = Ok (b, d') -> users_have_roles d -> others_have_roles b d') ->
  tx_log tx = Some ->
  tx_log (tx_write (tx_write tx s1 c1 u) (insert_user_role u r) c2 n) d = Some d' ->
  users_have_roles d -> users_have_roles d'.
Proof.
  intros Hs Htx (v2 & Hl & Hr)%tx_write_log Hd. apply tx_write_log in Hl as (v1 & Hv & H1).
  rewrite Htx in Hv. injection Hv as <-. eapply insert_role_all; [|exact Hr]. by eapply Hs.
Qed.

Lemma link_commit_keeps tx u e c n :
  (forall d d', tx_log tx d = Some d' -> users_have_roles d -> users_have_roles d') ->
  forall d d', tx_log (tx_write tx (link_employee u e) c n) d = Some d' ->
  users_have_roles d -> users_have_roles d'.
Proof. intros Hl d d' (v & Hv & Hu)%tx_write_log Hd. eapply link_employee_keeps; eauto. Qed.

Abbreviation kept := (all_stmts (fun _ s => respects (keeps users_have_roles) s)).

(** After the two inserts, the link and the commit keep the invariant. *)
Lemma link_and_commit_kept {A} tx u emp (f : prog Database A) (g : result unit -> prog Database A) :
  (forall d d', tx_log tx d = Some d' -> users_have_roles d -> users_have_roles d') ->
  kept f -> (forall r, kept (g r)) ->
  kept ('(linked, tx) <- link_if_given tx u emp;
        if negb linked then f else (res <- tx_commit tx; g res)).
Proof.
  intros Htx Hf Hg. unfold link_if_given. destruct (employee_given emp) as [e|].
  - apply all_stmts_assoc, kept_exec; [typeclasses eauto|intros n c|intros e']; cbn [bind]; [|done].
    destruct (n =? 0)%Z; [done|]. cbn [negb]. apply kept_commit; [|done]. intros _ d d' Hd Hr.
    by eapply link_commit_keeps; eauto.
  - apply kept_commit; [|done]. intros _ d d' Hd Hr. by eapply Htx.
Qed.

Lemma created_log t s1 c1 u c2 r n :
  (forall c d b d', s1 c d = Ok (b, d') -> users_have_roles d -> others_have_roles b d') ->
  forall d d', tx_log (tx_write (tx_write {| tx_log := Some; tx_aborted := false; tx_now := t |} s1 c1 u)
                        (insert_user_role u r) c2 n) d = Some d' ->
  users_have_roles d -> users_have_roles d'.
Proof. intros Hs d d' Hl Hd. eapply (create_commit_keeps _ s1); [exact Hs| |exact Hl|exact Hd]. reflexivity. Qed.

(** A log that failed to insert the role is aborted: the commit fails. *)
Lemma aborted_link_kept {A} tx u emp (f : prog Database A) (g : result unit -> prog Database A) :
  tx_aborted tx = true -> kept f -> (forall r, kept (g r)) ->
  kept ('(linked, tx) <- link_if_given tx u emp;
        if negb linked then f else (res <- tx_commit tx; g res)).
Proof.
  intros Htx Hf Hg. unfold link_if_given. destruct (employee_given emp) as [e|].
  - apply all_stmts_assoc, kept_exec; [typeclasses eauto|intros n c|intros e']; cbn [bind]; [|done].
    destruct (n =? 0)%Z; [done|]. cbn [negb]. apply kept_commit; [|done]. simpl. congruence.
  - apply kept_commit; [|done]. congruence.
Qed.

Lemma insert_user_creates email hash active inv c d b d' :
  insert_user email hash active inv c d = Ok (b, d') -> users_have_roles d -> others_have_roles b d'.
Proof. intros Hi Hd. by eapply insert_user_others. Qed.

Lemma createUserTx_kept email password role emp inv : kept (createUserTx email password role emp inv).
Proof.
  unfold createUserTx. tx_walk.
  - apply link_and_commit_kept; try done. apply created_log, insert_user_creates.
  - by apply aborted_link_kept.
Qed.

Lemma HandleCreateUser_kept r : kept (HandleCreateUser r).
Proof.
  unfold HandleCreateUser. tx_walk. apply all_stmts_bind; [apply createUserTx_kept|].
  intros x. tx_walk.
Qed.

Lemma HandleInviteUser_kept r : kept (HandleInviteUser r).
Proof.
  unfold HandleInviteUser, generateSecureToken. tx_walk.
  - apply link_and_commit_kept; [|done|intros; by tx_walk]. apply created_log, insert_user_creates.
  - apply aborted_link_kept; [done|done|intros; by tx_walk].
Qed.

(** The change of a role: the rows deleted and the row inserted are of the same user. *)
Lemma update_role_log t i role c1 n c2 m :
  forall d d',
  tx_log (tx_write (tx_write {| tx_log := Some; tx_aborted := false; tx_now := t |} (delete_user_roles i) c1 n)
            (with_uuid i (fun u => insert_user_role u role)) c2 m) d = Some d' ->
  users_have_roles d -> users_have_roles d'.
Proof.
  intros d d' (v & Hv & Hi)%tx_write_log Hd. apply tx_write_log in Hv as (v0 & [= <-] & Hdel).
  apply with_uuid_ok in Hi as (u & Hu & Hi).
  eapply insert_role_all; [|exact Hi]. eapply delete_roles_others; [done|exact Hu|exact Hdel].
Qed.

Lemma HandleUpdateRole_kept r : kept (HandleUpdateRole r).
Proof.
  unfold HandleUpdateRole. tx_walk; try (by unfold find_role; tx_walk);
    apply kept_commit; try done.
  intros _ d d' Hl Hd. eapply update_role_log; [exact Hl|exact Hd].
Qed.

Lemma set_active_kept a i : respects (keeps users_have_roles) (set_active a i).
Proof.
  apply respects_with_uuid. intros u. apply respects_update. intros c d Hd v.
  rewrite tget_tput, indep. intros (w & Hw & ->)%elem_of_set_where.
  destruct (Hd w Hw) as (ur & Hur & E). exists ur. split; [done|]. by case_match.
Qed.

Lemma delete_user_kept i : respects (keeps users_have_roles) (delete_user i).
Proof.
  apply respects_with_uuid. intros u c d b d'.
  destruct (negb _); [by intros [= _ <-]|]. destruct (user_referenced u d); [done|].
  intros [= _ <-] Hd v. unfold user_deleted. rewrite !indep, !tget_tput, !indep.
  intros [Hv Hne]%elem_of_where. destruct (Hd v Hv) as (ur & Hur & E). exists ur. split; [|done].
  apply elem_of_where. split; [done|]. by rewrite E.
Qed.

(** The requests of the package. *)
Inductive user_request : prog Database Response -> Prop :=
  | ur_list r : user_request (HandleListUsers r)
  | ur_create r : user_request (HandleCreateUser r)
  | ur_invite r : user_request (HandleInviteUser r)
  | ur_roles : user_request HandleListRoles
  | ur_update_role r : user_request (HandleUpdateRole r)
  | ur_suspend r : user_request (HandleSuspendUser r)
  | ur_activate r : user_request (HandleActivateUser r)
  | ur_delete r : user_request (HandleDeleteUser r).

Lemma user_request_kept p : user_request p -> kept p.
Proof.
  destruct 1; auto using HandleCreateUser_kept, HandleInviteUser_kept, HandleUpdateRole_kept;
    unfold HandleListUsers, HandleListRoles, HandleSuspendUser, HandleActivateUser, HandleDeleteUser;
    tx_walk; auto using set_active_kept, delete_user_kept.
  - unfold user_page. apply respects_select_page. typeclasses eauto.
  - unfold unlink_user. apply respects_with_uuid. intros u. apply respects_update.
    intros c d Hd v. rewrite !indep. apply Hd.
Qed.


(** ** An account is created whole, or not at all *)

(** The employee record of the request, if any, was free and is now the account's. *)
Definition linked (emp : option string) (id : string) (d d' : Database) : Prop :=
  match employee_given emp with
  | None => tget employees d' = tget employees d
  | Some e => exists x, x ∈ tget employees d /\ emp_user_id x = None /\ uuid_in e = Some (emp_id x)
      /\ tget employees d' =
           set_where (fun y => (emp_id y =?s emp_id x) && negb (bool_decide (is_Some (emp_user_id y))))
             (set_emp_user_id (Some id)) (tget employees d)
  end.

(** The account [u] with its role is all that [d'] has more than [d]. *)
Record created (email role : string) (emp : option string) (active : bool) (u : UserRow) (d d' : Database)
  : Prop := {
  cr_active : usr_is_active u = active;
  cr_free : email_taken (usr_email u) d = false;
  cr_users : tget users d' = tget users d ++ [u];
  cr_email : varchar_in 255 email = Some (usr_email u);
  cr_role : exists ro, ro ∈ tget roles d /\ rol_name ro = role
    /\ tget user_roles d' = tget user_roles d ++ [{| uro_user_id := usr_id u; uro_role_id := rol_id ro |}];
  cr_link : linked emp (usr_id u) d d'
}.

Lemma find_role_ok role c d b d' : find_role role c d = Ok (b, d') ->
  exists ro, ro ∈ tget roles d /\ rol_name ro = role /\ b = rol_id ro.
Proof.
  unfold find_role. intros [Hf _]%select_row_ok. destruct (List.find _ _) as [ro|] eqn:E; [|done].
  apply find_some_elem in E as [Hin Hn]. bool_prop. injection Hf as <-. eauto.
Qed.

(** The two inserts, seen from the beginning of the transaction. *)
Lemma inserted_created email hash active inv c1 u0 d v1 ro n c2 v2 :
  insert_user email hash active inv c1 d = Ok (u0, v1) ->
  insert_user_role u0 (rol_id ro) c2 v1 = Ok (n, v2) -> ro ∈ tget roles d ->
  exists u, usr_id u = u0 /\ created email (rol_name ro) None active u d v2.
Proof.
  intros (u & <- & _ & Ha & Hf & He & _ & ->)%insert_user_ok (-> & _ & _)%insert_user_role_ok Hro.
  exists u. split; [done|]. split; [done|done| |done| |].
  - by rewrite indep, tget_tput.
  - exists ro. split_and!; [done|done|]. by rewrite tget_tput, indep.
  - unfold linked. simpl. by rewrite !indep.
Qed.

Lemma created_link email role emp e active u d v c n v' :
  created email role None active u d v -> employee_given emp = Some e ->
  link_employee (usr_id u) e c v = Ok (n, v') -> n <> 0 -> created email role emp active u d v'.
Proof.
  intros [Ha Hf Hu Hm (ro & Hro & Hn & Hr) Hl] He (x & Hx & -> & ->)%link_employee_ok Hne.
  unfold linked in Hl. simpl in Hl.
  split; [done|done| |done| |].
  - by rewrite indep.
  - exists ro. split_and!; [done|done|]. by rewrite indep.
  - unfold linked. rewrite He, tget_tput. rewrite Hl in *.
    assert (Hex : exists y, y ∈ tget employees d /\ emp_id y = x /\ emp_user_id y = None).
    { destruct (decide (Forall (fun y => (emp_id y =?s x) && negb (bool_decide (is_Some (emp_user_id y))) = false)
        (tget employees d))) as [H1|H1]; [by apply count_where_zero in H1|].
      apply not_Forall_Exists in H1; [|intros y; apply _]. apply Exists_exists in H1 as (y & Hy & Hp).
      exists y. simpl in Hp. apply not_false_iff_true in Hp. bool_prop. split_and!; auto.
      destruct (emp_user_id y); [|done]. by rewrite bool_decide_eq_true_2 in * by eauto. }
    destruct Hex as (y & Hy & <- & Hnone). exists y. by split_and!.
Qed.

(** The link and the commit after the two inserts. *)
Lemma wp_link_commit fl {A} tx email role emp active u d v (f : prog Database A) (g : result unit -> prog Database A) Q :
  open_at tx d v -> created email role None active u d v ->
  wp fl f d Q ->
  (forall d', created email role emp active u d d' -> wp fl (g (Ok tt)) d' Q) ->
  (forall e, wp fl (g (Err e)) d Q) ->
  wp fl ('(linked, tx) <- link_if_given tx (usr_id u) emp;
         if negb linked then f else (res <- tx_commit tx; g res)) d Q.
Proof.
  intros Ho Hc Hf Hok Herr. apply wp_bind. unfold link_if_given.
  destruct (employee_given emp) as [e|] eqn:He.
  - apply wp_bind. apply (wp_tx_exec _ _ _ _ _ _ Ho).
    + intros c n v' tx' Hl Ho'. simpl. destruct (Z.eqb_spec n 0) as [->|Hn]; simpl; [done|].
      apply (wp_bind fl (tx_commit tx') g). apply (wp_commit _ _ _ _ _ Ho'); simpl; [|intros; apply Herr].
      apply Hok. by eapply created_link.
    + intros e' tx' _ _. simpl. done.
  - simpl. apply (wp_bind fl (tx_commit tx) g). apply (wp_commit _ _ _ _ _ Ho); simpl; [|intros; apply Herr].
    apply Hok. destruct Hc as [Ha Hf' Hu Hm Hr Hl]. split; auto. unfold linked in *. by rewrite He.
Qed.

Lemma wp_aborted_link fl {A} tx u emp d (f : prog Database A) (g : result unit -> prog Database A) Q :
  tx_aborted tx = true -> wp fl f d Q -> (forall e, wp fl (g (Err e)) d Q) ->
  wp fl ('(linked, tx) <- link_if_given tx u emp;
         if negb linked then f else (res <- tx_commit tx; g res)) d Q.
Proof.
  intros Ha Hf Herr. apply wp_bind. unfold link_if_given. destruct (employee_given emp) as [e|].
  - apply wp_bind. apply (wp_exec_aborted _ _ _ _ _ Ha). intros e' tx' _. simpl. done.
  - simpl. apply (wp_bind fl (tx_commit tx) g). apply (wp_commit_aborted _ _ _ _ Ha). intros e. apply Herr.
Qed.

(** The account's identifier, or nothing at all. *)
Definition whole_account (email role : string) (emp : option string) (active : bool) (d : Database)
  (o : outcome (result string)) (d' : Database) : Prop :=
  match o with
  | Done (Ok id) => exists u, usr_id u = id /\ created email role emp active u d d'
  | Done (Err _) => d' = d
  | _ => False
  end.

Lemma wp_createUserTx fl email password role emp inv d : db_nil = false ->
  wp fl (createUserTx email password role emp inv) d (whole_account email role emp (negb inv) d).
Proof.
  intros Hdb. unfold createUserTx. apply wp_bind. apply wp_begin; [congruence| |done].
  intros tx Ho. cbn [wp_then]. apply wp_bind. apply (wp_query _ _ _ _ _ _ Ho); [|done].
  intros c roleID v' Hrole. apply find_role_ok in Hrole as (ro & Hro & <- & ->). cbn [wp_then].
  apply wp_rand. intros salt. apply wp_bind. apply (wp_tx_exec _ _ _ _ _ _ Ho); [|done].
  intros c1 u0 v1 tx1 Hu Ho1. cbn [wp_then]. apply wp_bind. apply (wp_tx_exec _ _ _ _ _ _ Ho1).
  - intros c2 n v2 tx2 Hr Ho2. destruct (inserted_created _ _ _ _ _ _ _ _ _ _ _ _ Hu Hr Hro) as (u & <- & Hc).
    cbn [wp_then]. eapply wp_link_commit; [exact Ho2|exact Hc|done| |done].
    intros d' Hd'. exists u. by split.
  - intros e tx2 Ha _. cbn [wp_then]. by apply wp_aborted_link.
Qed.


(** ** The other changes of an account *)

(** The account that the identifier of the request names. *)
Definition target (i : string) (d : Database) : option string :=
  match uuid_in i with Some u => if ref_user u d then Some u else None | None => None end.

Lemma insert_user_role_fails u r c d e : insert_user_role u r c d = Err e ->
  (exists ur, ur ∈ tget user_roles d /\ uro_user_id ur = u) \/ ref_user u d = false \/ ref_role r d = false.
Proof.
  unfold insert_user_role, insert. destruct (existsb _ _) eqn:E.
  - intros _. left. apply existsb_exists in E as (ur & Hin%list_elem_of_In & Hm). bool_prop. eauto.
  - destruct (ref_user u d); [|by auto]. destruct (ref_role r d); [done|by auto].
Qed.

Lemma find_ref_role (p : RoleRow -> bool) d ro :
  List.find p (tget roles d) = Some ro -> ref_role (rol_id ro) d = true.
Proof.
  intros [Hin _]%find_some_elem. apply existsb_exists. exists ro.
  split; [by apply list_elem_of_In|apply eqb_refl_s].
Qed.

(** The roles of the accounts after a change of role. *)
Definition role_changed (i role : string) (d d' : Database) : Prop :=
  match target i d with
  | Some u => tget user_roles d' = where_ (fun ur => negb (uro_user_id ur =?s u)) (tget user_roles d)
                                   ++ [{| uro_user_id := u; uro_role_id := role |}]
              /\ tget users d' = tget users d
  | None => d' = d
  end.

Lemma wp_role_writes tx i role d (f : prog Database Response) Q :
  open_at tx d d -> ref_role role d = true ->
  (forall d', role_changed i role d d' -> wp false f d' Q) ->
  wp false ('(_, tx) <- tx_exec tx (delete_user_roles i);
            '(_, tx) <- tx_exec tx (with_uuid i (fun u => insert_user_role u role));
            _ <- tx_commit tx; f) d Q.
Proof.
  intros Ho Hro HQ. unfold role_changed, target in HQ. apply wp_bind. apply (wp_tx_exec _ _ _ _ _ _ Ho).
  - intros c1 k v1 tx1 (u & Hu & ->)%delete_user_roles_ok Ho1. rewrite Hu in HQ. cbn [wp_then]. apply wp_bind.
    apply (wp_tx_exec _ _ _ _ _ _ Ho1).
    + intros c2 k2 v2 tx2 Hi Ho2. unfold with_uuid in Hi. rewrite Hu in Hi.
      apply insert_user_role_ok in Hi as (-> & Hru & _). cbn [wp_then]. apply wp_bind.
      apply (wp_commit _ _ _ _ _ Ho2); [|done]. cbn [wp_then]. apply HQ.
      change (ref_user u d = true) in Hru. rewrite Hru, !tget_tput. split; [done|]. by rewrite indep.
    + intros e tx2 Ha He. cbn [wp_then]. apply wp_bind. apply (wp_commit_aborted _ _ _ _ Ha). intros e'.
      cbn [wp_then]. apply HQ. destruct He as [?|[c2 He]]; [done|]. unfold with_uuid in He. rewrite Hu in He.
      apply insert_user_role_fails in He as [(ur & Hin & Hur)|[Hr|Hr]].
      * rewrite tget_tput in Hin. apply elem_of_where in Hin as [_ Hn]. by rewrite Hur, eqb_refl_s in Hn.
      * change (ref_user u d = false) in Hr. by rewrite Hr.
      * change (ref_role role d = false) in Hr. congruence.
  - intros e tx1 Ha He. cbn [wp_then]. apply wp_bind. apply (wp_exec_aborted _ _ _ _ _ Ha).
    intros e2 tx2 Ha2. cbn [wp_then]. apply wp_bind. apply (wp_commit_aborted _ _ _ _ Ha2). intros e'.
    cbn [wp_then]. apply HQ. destruct He as [?|[c He]]; [done|]. unfold delete_user_roles, with_uuid in He.
    by destruct (uuid_in i).
Qed.

(** A change of role answers success whatever happens. An account that exists is
    left with the requested role as its only role; an identifier that names no
    account changes nothing. *)
Theorem role_change_effect E r role ro n d :
  reliable E -> db_nil = false -> HasRole (claims r) ["SUPER_ADMIN"] = true -> body r = Some role ->
  List.find (fun x => rol_name x =?s role) (tget roles d) = Some ro ->
  let x := run E (HandleUpdateRole r) n d in
  reply x = Some (ok_json [("message", JStr "Role updated")])
  /\ role_changed (urlParam r "id") (rol_id ro) d (db_of x).
Proof.
  intros HE Hdb Hrole Hb Hro x.
  apply (wp_run false E (HandleUpdateRole r) n d (fun o d' =>
    replied o = Some (ok_json [("message", JStr "Role updated")])
    /\ role_changed (urlParam r "id") (rol_id ro) d d')); [done|]. unfold HandleUpdateRole.
  rewrite Hrole, Hb. apply wp_bind. cbn [return_if negb wp wp_then]. apply wp_bind, wp_exec_det; [done|].
  intros c. unfold find_role, select_row. rewrite Hro. cbn [fmap option_fmap option_map wp_then].
  apply wp_bind. apply wp_begin; [congruence| |done]. intros tx Ho. cbn [wp_then].
  apply wp_role_writes; [done|by eapply find_ref_role|]. intros d' Hd'. by split.
Qed.

(** A deletion answers success even when it fails: an account with an entry in
    the audit trail is still there afterwards, and its employee record has lost it. *)
Theorem deleted_account_remains E r u a n d :
  reliable E -> db_nil = false -> HasRole (claims r) ["SUPER_ADMIN"] = true ->
  urlParam r "id" <> caller_id r -> uuid_in (urlParam r "id") = Some u ->
  a ∈ tget audit_logs d -> aud_user_id a = u -> ref_user u d = true ->
  let x := run E (HandleDeleteUser r) n d in
  reply x = Some (ok_json [("message", JStr "User deleted")])
  /\ tget users (db_of x) = tget users d
  /\ forall e, e ∈ tget employees (db_of x) -> emp_user_id e <> Some u.
Proof.
  intros HE Hdb Hrole Hself Hu Ha Hau Hru x.
  apply (wp_run false E (HandleDeleteUser r) n d (fun o d' =>
    replied o = Some (ok_json [("message", JStr "User deleted")])
    /\ tget users d' = tget users d
    /\ forall e, e ∈ tget employees d' -> emp_user_id e <> Some u)); [done|]. unfold HandleDeleteUser.
  rewrite Hrole. apply String.eqb_neq in Hself. rewrite Hself. apply wp_bind. cbn [return_if negb wp wp_then].
  apply wp_bind. cbn [return_if negb wp wp_then].
  apply wp_bind, wp_exec_det; [done|]. intros c. unfold unlink_user, with_uuid. rewrite Hu.
  cbv beta iota delta [update]. cbn [wp_then]. apply wp_bind, wp_exec_det; [done|]. intros c2.
  unfold delete_user, with_uuid. rewrite Hu.
  set (d1 := tput employees _ d). change (ref_user u d1) with (ref_user u d). rewrite Hru. cbn [negb].
  assert (Href : user_referenced u d1 = true).
  { unfold user_referenced. rewrite !orb_true_iff. do 5 left. right. apply existsb_exists. exists a.
    rewrite <- Hau, eqb_refl_s. split; [|done]. apply list_elem_of_In. done. }
  rewrite Href. cbn [wp_then wp]. split; [done|]. split; [done|]. intros e. unfold d1. rewrite tget_tput.
  intros (y & Hy & ->)%elem_of_set_where. case_match; [done|]. rewrite <- opt_is_spec. congruence.
Qed.

(** The check of one's own account compares texts, and the database compares
    identifiers: another spelling of the caller's identifier (upper case, without
    dashes) suspends the caller. *)
Theorem self_suspension_by_spelling E r c n d :
  reliable E -> db_nil = false -> CanManageUsers (claims r) = true -> claims r = Some c ->
  urlParam r "id" <> UserID c -> uuid_in (urlParam r "id") = Some (UserID c) ->
  let x := run E (HandleSuspendUser r) n d in
  succeeded (default db_unavailable (reply x)) = true
  /\ forall u, u ∈ tget users (db_of x) -> usr_id u = UserID c -> usr_is_active u = false.
Proof.
  intros HE Hdb Hcan Hc Hne Hu x.
  apply (wp_run false E (HandleSuspendUser r) n d (fun o d' =>
    succeeded (default db_unavailable (replied o)) = true
    /\ forall u, u ∈ tget users d' -> usr_id u = UserID c -> usr_is_active u = false)); [done|].
  unfold HandleSuspendUser, caller_id. rewrite Hcan, Hc. apply String.eqb_neq in Hne. rewrite Hne.
  apply wp_bind. cbn [return_if negb wp wp_then]. apply wp_bind. cbn [return_if negb wp wp_then].
  apply wp_bind, wp_exec_det; [done|]. intros c2. unfold set_active, with_uuid. rewrite Hu.
  cbv beta iota delta [update]. cbn [wp_then wp]. split; [done|]. intros v. rewrite tget_tput.
  intros (w & Hw & ->)%elem_of_set_where. destruct (usr_id w =?s UserID c) eqn:Ew; [done|].
  intros Hv. bool_prop. congruence.
Qed.
End UserProps.
