(* ===== verification/Importer.v ===== *)
(** * internal/importer: bulk import of employees

    An upload validates the records of a CSV file and stores them in one
    transaction; processing a batch creates an account and an employee per valid
    row, one statement after the other. The file is read by the reader of [Csv] and its rows
    are stored as the JSON of [Marshal]; the
    multipart parser is a library: [Upload] is what it gives the handler. *)

From stdpp Require Import gmap.
From S2P Require Import Prelude Float64 Go Csv Marshal Sql Tx Schema Calendar Auth User.

#[local] Open Scope Z_scope.
#[local] Open Scope prog_scope.

(** [ParseMultipartForm] and [FormFile]: an error of one of them, or the file. *)
Inductive Upload : Type :=
  | FormError
  | FileMissing
  | File (content : string).

(** [strings.ToLower], as far as its result can be an ASCII word: the ASCII
    letters, U+0130 (to [i]) and U+212A (to [k]). *)
Fixpoint lower_bytes (l : list ascii) : list ascii :=
  match l with
  | [] => []
  | c :: l' =>
      let n := nat_of_ascii c in
      match l' with
      | c2 :: l2 =>
          if Nat.eqb n 196 && Nat.eqb (nat_of_ascii c2) 176 then "i"%char :: lower_bytes l2
          else match l2 with
               | c3 :: l3 =>
                   if Nat.eqb n 226 && Nat.eqb (nat_of_ascii c2) 132 && Nat.eqb (nat_of_ascii c3) 170
                   then "k"%char :: lower_bytes l3
                   else (if Nat.leb 65 n && Nat.leb n 90 then ascii_of_nat (n + 32) else c) :: lower_bytes l'
               | [] => (if Nat.leb 65 n && Nat.leb n 90 then ascii_of_nat (n + 32) else c) :: lower_bytes l'
               end
      | [] => [if Nat.leb 65 n && Nat.leb n 90 then ascii_of_nat (n + 32) else c]
      end
  end.

Definition ToLower (s : string) : string :=
  String.string_of_list_ascii (lower_bytes (String.list_ascii_of_string s)).

Example ToLower_ex : ToLower "First_NAME" = "first_name".
Proof. by vm_compute. Qed.

(** The index of the last header that lowers to [name], [None] being -1. *)
Fixpoint header_index (name : string) (headers : list string) : option nat :=
  match headers with
  | [] => None
  | h :: hs => match header_index name hs with
               | Some i => Some (S i)
               | None => if ToLower h =?s name then Some O else None
               end
  end.

(** [rowMap]: a later header overwrites an equal earlier one. *)
Fixpoint row_map (headers row : list string) (m : gmap string string) : gmap string string :=
  match headers, row with
  | h :: hs, v :: vs => row_map hs vs (<[h := v]> m)
  | _, _ => m
  end.

(** JSONB has no NUL character. The object is that of [json.Marshal], whose texts are UTF-8. *)
Definition storable (m : gmap string string) : bool :=
  let no_nul s := forallb (fun c => negb (Nat.eqb (nat_of_ascii c) 0)) (String.list_ascii_of_string s) in
  forallb (fun kv => no_nul (fst kv) && no_nul (snd kv)) (map_to_list m).

Section Importer.
Context `{Server} `{Crypto}.

Definition imp_error (status : Z) (msg : string) : Response := fail_json status msg.

(** *** Validation of a record *)

(** [idx == -1 || row[idx] == ""]: an index outside of the row panics. *)
Definition missing (idx : option nat) (row : list string) : prog Database bool :=
  match idx with
  | None => Ret true
  | Some i => v <- index row i; Ret (v =?s "")
  end.

(** [status] and [errMsg]. *)
Definition validate_row (headers row : list string) : prog Database (string * string) :=
  noEmail <- missing (header_index "email" headers) row;
  if noEmail : bool then Ret ("ERROR", "email is required") else
  noFirst <- missing (header_index "first_name" headers) row;
  if noFirst : bool then Ret ("ERROR", "first_name is required") else
  noLast <- missing (header_index "last_name" headers) row;
  if noLast : bool then Ret ("ERROR", "last_name is required") else
  if negb (Nat.eqb (length row) (length headers)) then Ret ("ERROR", "column count mismatch")
  else Ret ("VALID", "").

(** *** Statements *)

(** INSERT INTO import_batches ... RETURNING id::text; the id is the primary key. *)
Definition insert_batch (total : Z) : stmt Database string := fun c d =>
  let s := with_int4 total (insert import_batches (fun c d =>
    if existsb (fun b => imb_id b =?s sc_uuid c) (tget import_batches d) then Err unique_error else
    match head (tget organizations d), head (tget users d) with
    | Some o, Some u =>
        Ok {| imb_id := sc_uuid c; imb_organization_id := org_id o; imb_user_id := usr_id u;
              imb_import_type := "EMPLOYEE_MASTER"; imb_total_rows := total; imb_valid_rows := 0;
              imb_error_rows := 0; imb_status := "VALIDATING"; imb_created_at := sc_now c |}
    | _, _ => Err "null value violates not-null constraint: import_batches"
    end)) in
  result_map (fun x => (imb_id (fst x), snd x)) (s c d).

(** [raw] is the object that the JSON of the row holds. *)
Definition insert_import_row (batchID : string) (n : Z) (raw : gmap string string) (status errMsg : string)
  : stmt Database Z := fun c d =>
  let s := with_int4 n (insert import_rows (fun c d =>
    if negb (storable raw) then Err "unsupported Unicode escape sequence"
    else if existsb (fun b => imb_id b =?s batchID) (tget import_batches d) then
      Ok {| imr_id := sc_uuid c; imr_batch_id := batchID; imr_row_number := n; imr_raw_data := raw;
            imr_status := status; imr_error_message := Some errMsg; imr_created_employee_id := None |}
    else Err fk_error)) in
  result_map (fun x => (1, snd x)) (s c d).

(** UPDATE import_batches SET valid_rows = $1, error_rows = $2, status = 'READY' WHERE id::text = $3 *)
Definition ready_batch (valid errors : Z) (batchID : string) : stmt Database Z :=
  with_int4 valid (with_int4 errors
  (update import_batches (fun b => imb_id b =?s batchID)
     (fun _ b => set_imb_status "READY" (set_imb_error_rows errors (set_imb_valid_rows valid b))))).

(** *** Upload *)

(** What the loop carries: the two counters and the transaction. *)
Record Progress := { validRows : Z; errorRows : Z; up_tx : Tx Database }.

Definition upload_row (headers : list string) (batchID : string) (p : Progress) (ir : nat * list string)
  : prog Database Progress :=
  let '(idx, row) := ir in
  '(status, errMsg) <- validate_row headers row;
  let valid := status =?s "VALID" in
  '(res, tx) <- tx_exec (up_tx p)
    (insert_import_row batchID (Z.of_nat idx + 1) (marshal.encode_map (row_map headers row ∅)) status errMsg);
  match res with
  | Err e => Halt (imp_error StatusInternalServerError e)
  | Ok _ => Ret {| validRows := validRows p + (if valid then 1 else 0);
                   errorRows := errorRows p + (if valid then 0 else 1);
                   up_tx := tx |}
  end.

Definition store_upload (headers : list string) (rows : list (list string)) : prog Database Response :=
  tx <- tx_begin;
  match tx with
  | Err e => Ret (imp_error StatusInternalServerError e)
  | Ok tx =>
      '(batchID, tx) <- tx_exec tx (insert_batch (Z.of_nat (length rows)));
      match batchID with
      | Err e => Ret (imp_error StatusInternalServerError e)
      | Ok batchID =>
          p <- for_each (imap pair rows) {| validRows := 0; errorRows := 0; up_tx := tx |}
                 (upload_row headers batchID);
          '(res, tx) <- tx_exec (up_tx p) (ready_batch (validRows p) (errorRows p) batchID);
          match res with
          | Err e => Ret (imp_error StatusInternalServerError e)
          | Ok _ =>
              res <- tx_commit tx;
              match res with
              | Err e => Ret (imp_error StatusInternalServerError e)
              | Ok _ => Ret (ok_json [("data", JObj [("batch_id", JStr batchID)])])
              end
          end
      end
  end.

Definition HandleUpload (r : Request Upload) : prog Database Response :=
  if db_nil then Ret db_unavailable else
  match body r with
  | None | Some FormError => Ret (imp_error StatusBadRequest "file size too large or invalid")
  | Some FileMissing => Ret (imp_error StatusBadRequest "file missing")
  | Some (File content) =>
      match csv.read_file content with
      | None | Some [] | Some [_] => Ret (imp_error StatusBadRequest "invalid csv format or empty file")
      | Some (headers :: rows) => store_upload headers rows
      end
  end.

(** *** Batches *)

Definition batch_json (b : BatchRow) : json :=
  JObj [("id", JStr (imb_id b)); ("import_type", JStr (imb_import_type b));
        ("total_rows", JInt (imb_total_rows b)); ("valid_rows", JInt (imb_valid_rows b));
        ("error_rows", JInt (imb_error_rows b)); ("status", JStr (imb_status b));
        ("created_at", JStr (iso_text (imb_created_at b)))].

Definition HandleGetBatches : prog Database Response :=
  if db_nil then Ret db_unavailable else
  rows <- exec (select (fun d => order_by (desc imb_created_at) (tget import_batches d)));
  Ret (ok_json [("data", JArr (map batch_json (scan [] rows)))]).

(** A row whose message is NULL does not scan. *)
Definition import_row_json (r : ImpRow) : option json :=
  msg ← imr_error_message r;
  Some (JObj ([("id", JStr (imr_id r)); ("row_number", JInt (imr_row_number r));
               ("raw_data", JObj ((fun kv => (fst kv, JStr (snd kv))) <$> map_to_list (imr_raw_data r)));
               ("status", JStr (imr_status r))] ++ opt_field "error_message" msg)).

Definition HandleGetBatchDetail (r : Request unit) : prog Database Response :=
  let id := urlParam r "id" in
  if db_nil then Ret db_unavailable else
  batch <- exec (select_row (fun d => List.find (fun b => imb_id b =?s id) (tget import_batches d)));
  match batch with
  | Err e => Ret (imp_error StatusNotFound ("batch not found: " +:+ e))
  | Ok b =>
      rows <- exec (select (fun d =>
                where_ (fun x => (imr_batch_id x =?s id) && (imr_status x =?s "ERROR")) (tget import_rows d)));
      Ret (ok_json [("data", batch_json b); ("errors", JArr (scanned import_row_json (scan [] rows)))])
  end.

(** *** Processing *)

Definition valid_rows_of (batchID : string) (d : Database) : list ImpRow :=
  where_ (fun x => (imr_batch_id x =?s batchID) && (imr_status x =?s "VALID")) (tget import_rows d).

(** [vr.RawData[key].(string)]: a missing key holds nil, whose assertion panics. *)
Definition raw_string (raw : gmap string string) (key : string) : prog Database string :=
  match raw !! key with
  | Some v => Ret v
  | None => Crash "interface conversion: interface {} is nil, not string"
  end.

(** INSERT INTO employees (user_id, employee_id, first_name, last_name, joining_date, status) *)
Definition insert_imported (userID empID firstName lastName joinDate : string) : stmt Database string :=
  fun c d =>
  let s :=
    with_varchar 50 empID (fun code => with_varchar 100 firstName (fun first =>
    with_varchar 100 lastName (fun last => with_date joinDate (fun joined =>
    insert employees (fun c d =>
      if existsb (fun e => emp_employee_id e =?s code) (tget employees d) then Err unique_error
      else if existsb (fun e => opt_is (emp_user_id e) userID) (tget employees d) then Err unique_error
      else if ref_user userID d then
        Ok {| emp_id := sc_uuid c; emp_user_id := Some userID; emp_employee_id := code;
              emp_first_name := first; emp_last_name := last; emp_department_id := None;
              emp_designation_id := None; emp_manager_id := None; emp_reporting_manager_id := None; emp_status := "ACTIVE";
              emp_joining_date := joined; emp_deleted_at := None; emp_location_id := None;
              emp_work_phone := None; emp_employment_type := "PERMANENT"; emp_probation_end_date := None;
              emp_confirmation_date := None; emp_notice_period_days := Some 30;
              emp_nationality := Some "Indian"; emp_created_at := sc_now c; emp_updated_at := sc_now c |}
      else Err fk_error))))) in
  result_map (fun x => (emp_id (fst x), snd x)) (s c d).

(** UPDATE import_rows SET status = 'ERROR', error_message = $1 WHERE id::text = $2 *)
Definition fail_row (msg rowID : string) : stmt Database Z :=
  update import_rows (fun x => imr_id x =?s rowID)
    (fun _ x => set_imr_status "ERROR" (set_imr_error_message (Some msg) x)).

(** UPDATE import_rows SET status = 'COMPLETED', created_employee_id = $1 WHERE id::text = $2 *)
Definition complete_row (employeeID rowID : string) : stmt Database Z :=
  update_chk import_rows (fun x => imr_id x =?s rowID)
    (fun _ x => set_imr_status "COMPLETED" (set_imr_created_employee_id (Some employeeID) x))
    (fun d _ => if ref_employee employeeID d then None else Some fk_error).

(** [joinDate]: the last date given stays for the rows after it. *)
Definition next_join_date (joinDate : string) (raw : gmap string string) : string :=
  match raw !! "join_date" with
  | Some jd => if jd =?s "" then joinDate else jd
  | None => joinDate
  end.

Definition process_row (hashedPassword : string) (joinDate : string) (ir : nat * ImpRow)
  : prog Database string :=
  let '(i, vr) := ir in
  email <- raw_string (imr_raw_data vr) "email";
  firstName <- raw_string (imr_raw_data vr) "first_name";
  lastName <- raw_string (imr_raw_data vr) "last_name";
  let joinDate := next_join_date joinDate (imr_raw_data vr) in
  t <- now;
  let empID := "EMP-" +:+ itoa (t / 1000000) +:+ "-" +:+ itoa (Z.of_nat i) in
  userID <- exec (insert_user email hashedPassword true None);
  match userID with
  | Err e => _ <- exec (fail_row ("user creation failed: " +:+ e) (imr_id vr)); Ret joinDate
  | Ok userID =>
      employeeID <- exec (insert_imported userID empID firstName lastName joinDate);
      match employeeID with
      | Err e => _ <- exec (fail_row ("employee creation failed: " +:+ e) (imr_id vr)); Ret joinDate
      | Ok employeeID => _ <- exec (complete_row employeeID (imr_id vr)); Ret joinDate
      end
  end.

(** UPDATE import_batches SET status = 'COMPLETED' WHERE id::text = $1 *)
Definition complete_batch (id : string) : stmt Database Z :=
  update import_batches (fun b => imb_id b =?s id) (fun _ => set_imb_status "COMPLETED").

Definition HandleProcessBatch (r : Request unit) : prog Database Response :=
  let id := urlParam r "id" in
  if db_nil then Ret db_unavailable else
  rows <- exec (select (valid_rows_of id));
  match rows with
  | Err e => Ret (imp_error StatusInternalServerError e)
  | Ok validRows =>
      salt <- rand_hex;
      let hashedPassword := scan "" (bcrypt_hash salt "password123") in
      t <- now;
      _ <- for_each (imap pair validRows) (date_text (date_of_time t)) (process_row hashedPassword);
      res <- exec (complete_batch id);
      match res with
      | Err e => Ret (imp_error StatusInternalServerError e)
      | Ok _ => Ret (ok_json [("status", JStr "COMPLETED")])
      end
  end.
End Importer.
