(* ===== verification/ImporterProps.v ===== *)
(** * Theorems on the bulk import *)

From stdpp Require Import gmap.
From S2P Require Import Prelude Float64 Go Csv CsvProps Marshal Sql Tx Schema Calendar Auth User UserProps Importer.

#[local] Open Scope Z_scope.
#[local] Open Scope prog_scope.

(** ** Validation *)

Section Validation.
Context `{Server}.

(** The cell of a row under a header, empty when there is none. *)
Definition cell (headers row : list string) (name : string) : string :=
  match header_index name headers with Some i => default "" (row !! i) | None => "" end.

(** The first of the three required cells that is empty decides. *)
Definition verdict (headers row : list string) : string * string :=
  if cell headers row "email" =?s "" then ("ERROR", "email is required")
  else if cell headers row "first_name" =?s "" then ("ERROR", "first_name is required")
  else if cell headers row "last_name" =?s "" then ("ERROR", "last_name is required")
  else ("VALID", "").

Lemma header_index_lt name headers i : header_index name headers = Some i -> (i < length headers)%nat.
Proof.
  revert i. induction headers as [|h hs IH]; intros i; simpl; [done|].
  destruct (header_index name hs) as [j|]; [intros [= <-]; specialize (IH j eq_refl); lia|].
  case_match; [intros [= <-]; lia|done].
Qed.

Lemma missing_cell name headers row : length row = length headers ->
  missing (header_index name headers) row = Ret (cell headers row name =?s "").
Proof.
  intros Hl. unfold missing, cell. destruct (header_index name headers) as [i|] eqn:E; [|done].
  apply header_index_lt in E. rewrite <- Hl in E. apply lookup_lt_is_Some_2 in E as [v Hv].
  unfold index. by rewrite Hv.
Qed.

(** A row of the width of the header is judged by its three cells, and no index of
    it is out of range. *)
Lemma validate_row_verdict headers row : length row = length headers ->
  validate_row headers row = Ret (verdict headers row).
Proof.
  intros Hl. unfold validate_row, verdict. rewrite !missing_cell by done. cbn [bind].
  destruct (_ =?s ""); [done|]. cbn [bind]. destruct (_ =?s ""); [done|]. cbn [bind].
  destruct (_ =?s ""); [done|]. by rewrite Hl, Nat.eqb_refl.
Qed.
End Validation.

Section ImporterProps.
Context `{Server} `{Crypto}.

(** ** Uploads *)

Definition valid_row (headers row : list string) : bool := fst (verdict headers row) =?s "VALID".

(** What a record of the file becomes. *)
Definition stored_row (headers : list string) (batch : string) (ir : nat * list string) (x : ImpRow) : Prop :=
  imr_batch_id x = batch /\ imr_row_number x = Z.of_nat (fst ir) + 1
  /\ imr_raw_data x = marshal.encode_map (row_map headers (snd ir) ∅)
  /\ imr_status x = fst (verdict headers (snd ir))
  /\ imr_error_message x = Some (snd (verdict headers (snd ir))).

(** The batch [b] with its rows is all that [d'] has more than [d]. *)
Record stored (headers : list string) (rows : list (list string)) (b : BatchRow) (d d' : Database) : Prop := {
  st_batches : tget import_batches d' = tget import_batches d ++ [b];
  st_status : imb_status b = "READY";
  st_total : imb_total_rows b = Z.of_nat (length rows);
  st_valid : imb_valid_rows b = count_where (valid_row headers) rows;
  st_counts : imb_valid_rows b + imb_error_rows b = imb_total_rows b;
  st_rows : exists xs, tget import_rows d' = tget import_rows d ++ xs
            /\ Forall2 (stored_row headers (imb_id b)) (imap pair rows) xs
}.

Lemma insert_batch_ok total c d id d' : insert_batch total c d = Ok (id, d') ->
  exists b, imb_id b = id /\ imb_total_rows b = total
  /\ Forall (fun x => (imb_id x =?s id) = false) (tget import_batches d)
  /\ d' = tput import_batches (tget import_batches d ++ [b]) d.
Proof.
  unfold insert_batch. destruct (with_int4 total _ c d) as [[b d1]|] eqn:E; [|done].
  simpl. intros [= <- <-]. sql_inv E. subst. repeat case_match; simplify_eq. eexists. split_and!; try done.
  by apply (Prelude.existsb_false (fun b => imb_id b =?s sc_uuid c)).
Qed.

Lemma insert_import_row_ok batch n raw st msg c d k d' :
  insert_import_row batch n raw st msg c d = Ok (k, d') ->
  exists x, imr_batch_id x = batch /\ imr_row_number x = n /\ imr_raw_data x = raw /\ imr_status x = st
  /\ imr_error_message x = Some msg /\ d' = tput import_rows (tget import_rows d ++ [x]) d.
Proof.
  unfold insert_import_row. destruct (with_int4 n _ c d) as [[x d1]|] eqn:E; [|done].
  simpl. intros [= <- <-]. sql_inv E. subst. exists x. repeat case_match; simplify_eq. by split_and!.
Qed.

Lemma ready_batch_ok valid errors id c d k d' : ready_batch valid errors id c d = Ok (k, d') ->
  d' = tput import_batches (set_where (fun b => imb_id b =?s id)
         (fun b => set_imb_status "READY" (set_imb_error_rows errors (set_imb_valid_rows valid b)))
         (tget import_batches d)) d.
Proof. unfold ready_batch. intros Hr. sql_inv Hr. done. Qed.

(** The state of the loop over the records: those of [pre] are stored. *)
Definition stored_so_far (headers : list string) (b : BatchRow) (d : Database)
  (pre : list (nat * list string)) (p : Progress) : Prop :=
  exists v xs, open_at (up_tx p) d v
  /\ tget import_batches v = tget import_batches d ++ [b]
  /\ tget import_rows v = tget import_rows d ++ xs
  /\ Forall2 (stored_row headers (imb_id b)) pre xs
  /\ validRows p = count_where (fun ir => valid_row headers (snd ir)) pre
  /\ validRows p + errorRows p = Z.of_nat (length pre).

Lemma wp_upload_row fl headers b d pre p ir (Q : Response -> Prop) :
  length (snd ir) = length headers -> stored_so_far headers b d pre p ->
  (forall e, Q (imp_error StatusInternalServerError e)) ->
  wp fl (upload_row headers (imb_id b) p ir) d (fun o d' =>
    match o with
    | Done p' => d' = d /\ stored_so_far headers b d (pre ++ [ir]) p'
    | Replied r => d' = d /\ Q r
    | Panicked _ => False
    end).
Proof.
  intros Hl (v & xs & Ho & Hb & Hx & Hf & Hv & Hn) HQ. destruct ir as [i row]. unfold upload_row.
  simpl in Hl. rewrite validate_row_verdict by done. destruct (verdict headers row) as [st msg] eqn:Ev.
  cbn [bind]. apply wp_bind. apply (wp_tx_exec _ _ _ _ _ _ Ho).
  - intros c k v' tx' (x & Hx1 & Hx2 & Hx3 & Hx4 & Hx5 & ->)%insert_import_row_ok Ho'. cbn [wp_then wp].
    split; [done|]. exists (tput import_rows (tget import_rows v ++ [x]) v), (xs ++ [x]).
    split; [exact Ho'|]. rewrite indep, tget_tput, Hx. split; [done|]. split; [by rewrite app_assoc|].
    cbn [validRows errorRows]. split_and!.
    + apply Forall2_app; [done|]. constructor; [|constructor]. unfold stored_row. simpl. rewrite Ev. by split_and!.
    + rewrite count_where_app, Hv. unfold count_where at 3, valid_row. simpl. rewrite Ev. simpl.
      by destruct (st =?s "VALID").
    + rewrite length_app. simpl. destruct (st =?s "VALID"); lia.
  - intros e tx' _ _. cbn [wp_then wp]. split; [done|]. apply HQ.
Qed.

Lemma snd_imap_pair {A} (l : list A) : map snd (imap pair l) = l.
Proof.
  change (snd <$> imap pair l = l). rewrite fmap_imap. etransitivity; [|apply list_fmap_id].
  apply (imap_const id).
Qed.

Lemma count_where_imap {A} (p : A -> bool) (l : list A) :
  count_where (fun ir : nat * A => p (snd ir)) (imap pair l) = count_where p l.
Proof.
  rewrite <- (snd_imap_pair l) at 2. unfold count_where. f_equal. induction (imap _ l) as [|ir l' IH]; simpl; [done|].
  destruct (p (snd ir)); simpl; by rewrite IH.
Qed.

Lemma stored_finished headers rows b d p c k v v' id :
  stored_so_far headers b d (imap pair rows) p -> open_at (up_tx p) d v ->
  id = imb_id b -> imb_total_rows b = Z.of_nat (length rows) ->
  Forall (fun x => (imb_id x =?s id) = false) (tget import_batches d) ->
  ready_batch (validRows p) (errorRows p) id c v = Ok (k, v') ->
  stored headers rows (set_imb_status "READY" (set_imb_error_rows (errorRows p)
    (set_imb_valid_rows (validRows p) b))) d v'.
Proof.
  intros (v0 & xs & [_ Hl] & Hb & Hx & Hf & Hv & Hn) [_ Ho] -> Ht Hfresh ->%ready_batch_ok.
  rewrite Hl in Ho. injection Ho as ->. rewrite length_imap in Hn. split; simpl.
  - rewrite tget_tput, Hb, set_where_app, set_where_none by done. simpl. by rewrite eqb_refl_s.
  - done.
  - done.
  - by rewrite Hv, (count_where_imap (valid_row headers)).
  - lia.
  - exists xs. by rewrite indep, Hx.
Qed.

(** C27: whatever its bytes, a file is stored whole or not at all, and the handler never
    panics: the indexing of a record by the columns of the header is safe because the
    reader has refused records of another width. An answer of success means one more
    batch, READY, whose counters add up to the records of the file, and one row per
    record, in order, with the verdict of its required cells and the object that
    json.Marshal writes of its cells under their headers, in which each byte that is not
    UTF-8 has become U+FFFD ([Marshal.encode_map_utf8]: UTF-8 is stored as it is); any
    other answer means that nothing has changed, whichever statement failed and why. *)
Theorem upload_stored_whole E r content n d :
  db_nil = false -> body r = Some (File content) ->
  let x := run E (HandleUpload r) n d in
  (db_of x = d /\ exists resp, reply x = Some resp /\ status resp <> StatusOK)
  \/ (exists headers rows b, csv.read_file content = Some (headers :: rows) /\ rows <> []
       /\ reply x = Some (ok_json [("data", JObj [("batch_id", JStr (imb_id b))])])
       /\ stored headers rows b d (db_of x)).
Proof.
  intros Hdb Hbody x. set (Q := fun (o : outcome Response) (d' : Database) =>
    (d' = d /\ exists resp, replied o = Some resp /\ status resp <> StatusOK)
    \/ (exists headers rows b, csv.read_file content = Some (headers :: rows) /\ rows <> []
       /\ replied o = Some (ok_json [("data", JObj [("batch_id", JStr (imb_id b))])])
       /\ stored headers rows b d d')).
  apply (wp_run true E (HandleUpload r) n d Q); [done|]. unfold HandleUpload. rewrite Hdb, Hbody.
  destruct (csv.read_file content) as [[|headers [|row0 rows0]]|] eqn:Hfile; try (left; split; [done|]; by eexists).
  pose proof (read_file_rectangular _ _ _ Hfile) as Hrows. assert (Hne : row0 :: rows0 <> []) by done.
  set (rows := row0 :: rows0) in *. clearbody rows. clear row0 rows0.
  assert (Herr : forall e, Q (Done (imp_error StatusInternalServerError e)) d)
    by (intros e; left; split; [done|]; by eexists).
  unfold store_upload. apply wp_bind. apply wp_begin; [congruence| |intros; apply Herr].
  intros tx Ho. cbn [wp_then]. apply wp_bind. apply (wp_tx_exec _ _ _ _ _ _ Ho); [|intros; apply Herr].
  intros c id v tx1 (b & Hid & Ht & Hfresh & ->)%insert_batch_ok Ho1. cbn [wp_then].
  apply wp_bind. subst id.
  apply (wp_for_each _ (fun pre _ p d' => d' = d /\ stored_so_far headers b d pre p)).
  - split; [done|]. exists (tput import_batches (tget import_batches d ++ [b]) d), [].
    rewrite tget_tput, indep, app_nil_r. by split_and!.
  - intros pre ir post p d' Hl [-> Hp]. eapply wp_mono;
      [|apply (wp_upload_row _ headers b d pre p ir (fun resp => Q (Replied resp) d)); [|exact Hp|]].
    + intros [p'|resp|m] d1; simpl; [done|by intros [-> ?]|done].
    + assert (Hin : ir ∈ imap pair rows) by (rewrite Hl; set_solver).
      apply elem_of_lookup_imap_1 in Hin as (i & row & -> & Hr). simpl.
      rewrite Forall_forall in Hrows. by eapply Hrows, list_elem_of_lookup_2.
    + intros e. left. split; [done|]. by eexists.
  - intros p d' [-> Hp]. cbn [wp_then]. apply wp_bind. pose proof Hp as (v & xs & Hov & _).
    apply (wp_tx_exec _ _ _ _ _ _ Hov); [|intros; apply Herr].
    intros c2 k v' tx2 Hr Ho2. cbn [wp_then]. apply wp_bind.
    apply (wp_commit _ _ _ _ _ Ho2); [|intros; apply Herr]. right. exists headers, rows. eexists. split; [done|].
    split; [done|]. split; [|by eapply stored_finished]. done.
Qed.

(** ** Processing *)

Definition required_keys : list string := ["email"; "first_name"; "last_name"].

Lemma insert_imported_ok u code first last joined c d id d' :
  insert_imported u code first last joined c d = Ok (id, d') ->
  exists e, emp_id e = id /\ emp_user_id e = Some u /\ varchar_in 100 first = Some (emp_first_name e)
  /\ varchar_in 100 last = Some (emp_last_name e) /\ date_in joined = Some (emp_joining_date e)
  /\ emp_status e = "ACTIVE" /\ d' = tput employees (tget employees d ++ [e]) d.
Proof.
  unfold insert_imported. destruct (with_varchar 50 code _ c d) as [[e d1]|] eqn:E; [|done].
  simpl. intros [= <- <-]. sql_inv E. subst. exists e. repeat case_match; simplify_eq. by split_and!.
Qed.

(** The account and the employee that a row of the file asks for. *)
Definition imported (raw : gmap string string) (joined : string) (u : UserRow) (e : EmpRow) : Prop :=
  exists email first last, raw !! "email" = Some email /\ raw !! "first_name" = Some first
  /\ raw !! "last_name" = Some last
  /\ varchar_in 255 email = Some (usr_email u) /\ usr_is_active u = true
  /\ emp_user_id e = Some (usr_id u) /\ varchar_in 100 first = Some (emp_first_name e)
  /\ varchar_in 100 last = Some (emp_last_name e) /\ date_in joined = Some (emp_joining_date e).

Definition failed_row (msg : string) (x : ImpRow) : ImpRow :=
  set_imr_status "ERROR" (set_imr_error_message (Some msg) x).
Definition completed_row (e : EmpRow) (x : ImpRow) : ImpRow :=
  set_imr_status "COMPLETED" (set_imr_created_employee_id (Some (emp_id e)) x).

(** What processing the row does: it ends as COMPLETED with its account and its
    employee, or as ERROR with at most its account. *)
Definition row_done (vr : ImpRow) (joined : string) (d d' : Database) : Prop :=
  exists us es f,
  tget users d' = tget users d ++ us /\ tget employees d' = tget employees d ++ es
  /\ tget import_rows d' = set_where (fun x => imr_id x =?s imr_id vr) f (tget import_rows d)
  /\ ((exists u e, us = [u] /\ es = [e] /\ imported (imr_raw_data vr) joined u e /\ f = completed_row e)
      \/ (es = [] /\ exists msg, f = failed_row msg)).

Lemma wp_raw_string fl raw key d (Q : outcome string -> Database -> Prop) :
  (forall v, raw !! key = Some v -> Q (Done v) d) ->
  (raw !! key = None -> forall m, Q (Panicked m) d) -> wp fl (raw_string raw key) d Q.
Proof. intros H1 H2. unfold raw_string. destruct (raw !! key); simpl; auto. Qed.

(** The employee of a completed row is there. *)
Lemma complete_row_ok e i c d : ref_employee e d = true ->
  complete_row e i c d = Ok (count_where (fun x => imr_id x =?s i) (tget import_rows d),
    tput import_rows (set_where (fun x => imr_id x =?s i)
      (fun x => set_imr_status "COMPLETED" (set_imr_created_employee_id (Some e) x)) (tget import_rows d)) d).
Proof.
  intros He. unfold complete_row, update_chk. rewrite He.
  by replace (List.find _ _) with (@None ImpRow) by (induction (where_ _ _); simpl; auto).
Qed.

Lemma wp_process_row hash joined i vr d : db_nil = false ->
  wp false (process_row hash joined (i, vr)) d (fun o d' =>
    match o with
    | Done joined' => joined' = next_join_date joined (imr_raw_data vr) /\ row_done vr joined' d d'
    | Replied _ => False
    | Panicked _ => d' = d /\ exists k, k ∈ required_keys /\ imr_raw_data vr !! k = None
    end).
Proof.
  intros Hdb. unfold process_row. cbv beta iota.
  apply wp_bind, wp_raw_string; [|intros Hk m; split; [done|]; eexists; split; [|exact Hk]; set_solver].
  intros email He. cbn [wp_then].
  apply wp_bind, wp_raw_string; [|intros Hk m; split; [done|]; eexists; split; [|exact Hk]; set_solver].
  intros first Hf. cbn [wp_then].
  apply wp_bind, wp_raw_string; [|intros Hk m; split; [done|]; eexists; split; [|exact Hk]; set_solver].
  intros last Hl. cbn [wp_then]. apply wp_now. intros t. set (joined' := next_join_date _ _).
  apply wp_bind, wp_exec_det; [done|]. intros c.
  destruct (insert_user email hash true None c d) as [[u0 d1]|err] eqn:Eu; cbn [wp_then].
  2:{ apply wp_bind, wp_exec_det; [done|]. intros c2. cbn. split; [done|]. exists [], [], (failed_row
        ("user creation failed: " +:+ err)). rewrite !app_nil_r. split_and!; try done. right. eauto. }
  apply insert_user_ok in Eu as (u & <- & _ & Ha & _ & Hm & _ & ->).
  apply wp_bind, wp_exec_det; [done|]. intros c2.
  destruct (insert_imported _ _ _ _ _ c2 _) as [[e0 d2]|err] eqn:Ee; cbn [wp_then].
  2:{ apply wp_bind, wp_exec_det; [done|]. intros c3. cbn. split; [done|]. exists [u], [], (failed_row
        ("employee creation failed: " +:+ err)). rewrite !app_nil_r. split_and!; try done. right. eauto. }
  apply insert_imported_ok in Ee as (e & <- & Hu & Hfn & Hln & Hj & _ & ->).
  apply wp_bind, wp_exec_det; [done|]. intros c3. rewrite complete_row_ok by (unfold ref_employee; rewrite tget_tput, existsb_app; simpl;
    by rewrite String.eqb_refl, orb_true_r). cbn. split; [done|]. exists [u], [e], (completed_row e).
  split_and!; try done. left. exists u, e. split_and!; try done. exists email, first, last. by split_and!.
Qed.

(** A processed row: completed with the account and the employee it asked for, or in error. *)
Definition settled (d : Database) (y : ImpRow) : Prop :=
  (imr_status y = "COMPLETED" /\ exists u e joined, u ∈ tget users d /\ e ∈ tget employees d
     /\ imported (imr_raw_data y) joined u e /\ imr_created_employee_id y = Some (emp_id e))
  \/ (imr_status y = "ERROR" /\ exists msg, imr_error_message y = Some msg).

Definition settled_as (d : Database) (x : ImpRow) : Prop :=
  exists y, y ∈ tget import_rows d /\ imr_id y = imr_id x /\ imr_raw_data y = imr_raw_data x /\ settled d y.

(** The rows of [pre] are settled, those of [post] are untouched and the only valid ones left. *)
Record processed (id : string) (pre post : list (nat * ImpRow)) (d : Database) : Prop := {
  pr_ids : NoDup (map imr_id (tget import_rows d));
  pr_done : Forall (fun ir => settled_as d (snd ir)) pre;
  pr_todo : Forall (fun ir => snd ir ∈ tget import_rows d) post;
  pr_left : forall y, y ∈ valid_rows_of id d -> y ∈ map snd post
}.

Lemma row_done_shape vr joined d d' : row_done vr joined d d' ->
  exists f, tget import_rows d' = set_where (fun x => imr_id x =?s imr_id vr) f (tget import_rows d)
  /\ (forall x, imr_id (f x) = imr_id x) /\ imr_raw_data (f vr) = imr_raw_data vr
  /\ (forall x, imr_status (f x) <> "VALID") /\ settled d' (f vr)
  /\ (forall y, settled d y -> settled d' y).
Proof.
  intros (us & es & f & Hu & He & Hr & Hf). exists f. split; [done|].
  assert (Hmono : forall y, settled d y -> settled d' y).
  { intros y [(Hs & u & e & j & H1 & H2 & H3)|Hs]; [left|by right].
    split; [done|]. exists u, e, j. rewrite Hu, He. split_and!; try apply elem_of_app; auto; apply H3. }
  destruct Hf as [(u & e & -> & -> & Hi & ->)|(-> & msg & ->)]; split_and!; try done.
  - left. split; [done|]. exists u, e, joined. rewrite Hu, He. split_and!; try done; set_solver.
  - right. split; [done|]. by eexists.
Qed.

Lemma processed_step id pre i vr post joined d d' :
  NoDup (map imr_id (map snd (pre ++ (i, vr) :: post))) ->
  processed id pre ((i, vr) :: post) d -> row_done vr joined d d' ->
  processed id (pre ++ [(i, vr)]) post d'.
Proof.
  intros Hnd [Hids Hdone Htodo Hleft] (f & Hr & Hid & Hraw & Hst & Hset & Hmono)%row_done_shape.
  rewrite map_app, map_app in Hnd. simpl in Hnd. apply NoDup_app in Hnd as (_ & Hpre & Hpost).
  apply NoDup_cons in Hpost as [Hpost _].
  assert (Hkey : forall l (ir : nat * ImpRow), ir ∈ l -> imr_id (snd ir) ∈ map imr_id (map snd l)).
  { intros l ir Hin. rewrite map_map. by apply list_elem_of_In, (in_map (fun ir => imr_id (snd ir))), list_elem_of_In. }
  apply Forall_cons in Htodo as [Hvr Htodo]. simpl in Hvr.
  assert (Hsame : forall x, x ∈ tget import_rows d -> imr_id x <> imr_id vr -> x ∈ tget import_rows d').
  { intros x Hx Hne. rewrite Hr. apply elem_of_set_where. exists x. split; [done|].
    by rewrite (proj2 (String.eqb_neq _ _)). }
  split.
  - rewrite Hr, map_set_where; [done|]. intros x. by rewrite Hid.
  - apply Forall_app. split.
    + rewrite Forall_forall in Hdone |- *. intros ir Hin. destruct (Hdone ir Hin) as (y & Hy & Hyi & Hyr & Hys).
      exists y. split_and!; auto. apply Hsame; [done|]. rewrite Hyi. intros E.
      apply (Hpre (imr_id (snd ir))); [by apply Hkey|]. rewrite E. apply list_elem_of_here.
    + constructor; [|constructor]. exists (f vr). simpl. split_and!; auto. rewrite Hr.
      apply elem_of_set_where. exists vr. by rewrite eqb_refl_s.
  - rewrite Forall_forall in Htodo |- *. intros ir Hin. apply Hsame; [by apply Htodo|].
    intros E. apply Hpost. rewrite <- E. by apply Hkey.
  - intros y [Hy Hv]%elem_of_where. rewrite Hr in Hy. apply elem_of_set_where in Hy as (x & Hx & ->).
    destruct (imr_id x =?s imr_id vr) eqn:Ex.
    + exfalso. bool_prop. by eapply Hst.
    + assert (Hxl : x ∈ map snd ((i, vr) :: post)) by (apply Hleft, elem_of_where; by split).
      simpl in Hxl. apply elem_of_cons in Hxl as [->|]; [|done]. by rewrite eqb_refl_s in Ex.
Qed.

Lemma NoDup_map_where {A} (key : A -> string) (p : A -> bool) (l : list A) :
  NoDup (map key l) -> NoDup (map key (where_ p l)).
Proof.
  intros Hnd. induction l as [|x l IH]; simpl in *; [done|]. apply NoDup_cons in Hnd as [Hx Hnd].
  destruct (p x); [|by apply IH]. simpl. apply NoDup_cons. split; [|by apply IH].
  intros Hin. apply Hx. apply list_elem_of_fmap in Hin as (y & -> & [Hy _]%elem_of_where).
  by apply list_elem_of_fmap_2.
Qed.

(** C28: over reliable connections, and when the import rows have unique identifiers,
    processing a batch ends in one of two ways. Either a valid row lacks one of the
    required keys and the handler panics at it; or the answer is success, no row of the batch is valid any more, and each row that was
    has an account and an employee made from its cells, or is in error with a
    message: no row is lost and none is left to be imported twice. *)
Theorem processing_settles_rows E r n d :
  reliable E -> db_nil = false -> NoDup (map imr_id (tget import_rows d)) ->
  let id := urlParam r "id" in
  let x := run E (HandleProcessBatch r) n d in
  (exists m y k, out x = Panicked m /\ y ∈ valid_rows_of id d /\ k ∈ required_keys
     /\ imr_raw_data y !! k = None)
  \/ (reply x = Some (ok_json [("status", JStr "COMPLETED")])
      /\ valid_rows_of id (db_of x) = []
      /\ forall y, y ∈ valid_rows_of id d -> settled_as (db_of x) y).
Proof.
  intros HE Hdb Hnd id x. set (Q := fun (o : outcome Response) (d' : Database) =>
    (exists m y k, o = Panicked m /\ y ∈ valid_rows_of id d /\ k ∈ required_keys /\ imr_raw_data y !! k = None)
    \/ (replied o = Some (ok_json [("status", JStr "COMPLETED")]) /\ valid_rows_of id d' = []
        /\ forall y, y ∈ valid_rows_of id d -> settled_as d' y)).
  apply (wp_run false E (HandleProcessBatch r) n d Q); [done|]. unfold HandleProcessBatch. rewrite Hdb.
  apply wp_bind, wp_exec_det; [done|]. intros c. cbn [select wp_then]. fold id.
  set (rows := valid_rows_of id d). apply wp_rand. intros salt. apply wp_now. intros t.
  apply wp_bind, (wp_for_each _ (fun pre post _ d' => processed id pre post d')).
  - split; [done|constructor| |].
    + apply Forall_forall. intros ir Hir. apply elem_of_lookup_imap_1 in Hir as (i & y & -> & Hy).
      apply list_elem_of_lookup_2, elem_of_where in Hy as [Hy _]. done.
    + intros y Hy. by rewrite snd_imap_pair.
  - intros pre [i vr] post joined d1 Hl Hp. eapply wp_mono; [|by apply wp_process_row].
    intros [joined'|resp|m] d2; simpl; [|done|].
    + intros [_ Hd]. eapply processed_step; [|exact Hp|exact Hd]. rewrite <- Hl, snd_imap_pair.
      by apply NoDup_map_where.
    + intros (-> & k & Hk & Hn). left. exists m, vr, k. split_and!; try done.
      fold rows. rewrite <- (snd_imap_pair rows), Hl, map_app. set_solver.
  - intros joined d1 [_ Hdone _ Hleft]. cbn [wp_then]. apply wp_bind, wp_exec_det; [done|].
    intros c2. right. split; [done|]. split.
    + change (valid_rows_of id d1 = []). destruct (valid_rows_of id d1) as [|y l] eqn:El; [done|].
      exfalso. apply (not_elem_of_nil y), Hleft, list_elem_of_here.
    + intros y Hy. rewrite Forall_forall in Hdone. fold rows in Hy. rewrite <- (snd_imap_pair rows) in Hy.
      apply list_elem_of_fmap in Hy as (ir & -> & Hir). destruct (Hdone ir Hir) as (z & Hz & H1 & H2 & H3).
      exists z. by split_and!.
Qed.
End ImporterProps.
