(* ===== verification/ImportScenarios.v ===== *)
(** * Import scenarios

    Files imported from beginning to end on concrete data: what the two halves of
    the import do with each other. *)

From stdpp Require Import gmap.
From S2P Require Import Prelude Float64 Go Csv Marshal Sql Tx Schema Calendar Demo Common Auth DemoCrypto User UserProps Importer.

#[local] Open Scope Z_scope.

(** The file with these records. *)
Definition csv_upload (records : list (list string)) : Request Upload :=
  demo_request None (Some (File (csv.write_file records))) "".

Definition process_request (id : string) : Request unit := demo_request None (Some tt) id.

(** The upload, and the processing of the batch it created. *)
Definition upload (records : list (list string)) : outcome Response * nat * Database :=
  run (demo_env 1000) (HandleUpload (csv_upload records)) 0 demo_db.

Definition first_batch (d : Database) : string :=
  match tget import_batches d with b :: _ => imb_id b | [] => "" end.

Definition import (records : list (list string)) : outcome Response * nat * Database :=
  let d := db_of (upload records) in
  run (demo_env 2000) (HandleProcessBatch (process_request (first_batch d))) 0 d.

(** (status, created employee) of the imported rows; (email, active) of the accounts;
    (first name, joining date) of the employees. *)
Definition row_view (d : Database) : list (string * bool) :=
  map (fun x => (imr_status x, bool_decide (is_Some (imr_created_employee_id x)))) (tget import_rows d).
Definition account_view (d : Database) : list (string * bool) :=
  map (fun u => (usr_email u, usr_is_active u)) (tget users d).
Definition employee_view (d : Database) : list (string * string) :=
  map (fun e => (emp_first_name e, date_text (emp_joining_date e))) (tget employees d).

Definition panicked (o : outcome Response) : bool := match o with Panicked _ => true | _ => false end.

(** The upload accepts a header in any case, the processing only in lower case: a
    file whose header says Email is stored as valid, and processing it panics at its
    first row, every time: the batch stays READY and nobody is imported. *)
Theorem header_case_blocks_batch :
  let records := [["Email"; "first_name"; "last_name"]; ["meera@company.com"; "Meera"; "Iyer"]] in
  row_view (db_of (upload records)) = [("VALID", false)]
  /\ panicked (out (import records)) = true
  /\ map imb_status (tget import_batches (db_of (import records))) = ["READY"]
  /\ employee_view (db_of (import records)) = employee_view demo_db.
Proof. by vm_compute. Qed.

(** A joining date given by one row is kept for the rows after it that give none:
    the second person joins on the date of the first and not on the day of the
    import, unlike the same row imported alone. *)
Theorem join_date_carries_over :
  let header := ["email"; "first_name"; "last_name"; "join_date"] in
  let meera := ["meera@company.com"; "Meera"; "Iyer"; "2020-01-15"] in
  let kiran := ["kiran@company.com"; "Kiran"; "Das"; ""] in
  last (employee_view (db_of (import [header; meera; kiran]))) = Some ("Kiran", "2020-01-15")
  /\ last (employee_view (db_of (import [header; kiran]))) = Some ("Kiran", "2026-09-30").
Proof. by vm_compute. Qed.

(** A row whose employee cannot be created has already created its account: it is
    reported in error, the account stays, active and without a role, and the
    corrected row is refused because the address is taken. *)
Theorem failed_row_leaves_account :
  let header := ["email"; "first_name"; "last_name"; "join_date"] in
  let wrong := ["meera@company.com"; "Meera"; "Iyer"; "15.01.2020"] in
  let right := ["meera@company.com"; "Meera"; "Iyer"; "2020-01-15"] in
  let d1 := db_of (import [header; wrong]) in
  let d2 := db_of (run (demo_env 3000) (HandleUpload (csv_upload [header; right])) 0 d1) in
  let retried := match tget import_batches d2 with
                 | [_; b] => db_of (run (demo_env 4000) (HandleProcessBatch (process_request (imb_id b))) 0 d2)
                 | _ => d2
                 end in
  row_view d1 = [("ERROR", false)]
  /\ last (account_view d1) = Some ("meera@company.com", true)
  /\ tget user_roles d1 = []
  /\ employee_view d1 = employee_view demo_db
  /\ row_view retried = [("ERROR", false); ("ERROR", false)]
  /\ employee_view retried = employee_view demo_db.
Proof. by vm_compute. Qed.

(** A file that is not UTF-8 is accepted without a word: the name José in Latin-1 is
    stored, and imported, with U+FFFD in the place of its last letter. *)
Theorem latin1_is_replaced :
  let jose := marshal.bytes_text [74; 111; 115; 233]%nat in
  let replaced := marshal.bytes_text [74; 111; 115; 239; 191; 189]%nat in
  let records := [["email"; "first_name"; "last_name"; "join_date"]; ["jose@company.com"; jose; "Diaz"; "2020-01-15"]] in
  map imr_status (tget import_rows (db_of (upload records))) = ["VALID"]
  /\ last (employee_view (db_of (import records))) = Some (replaced, "2020-01-15").
Proof. by vm_compute. Qed.
