(* ===== verification/Employee.v ===== *)
(** * internal/employee: the employee master

    The listing scoped by [authz.BuildScopeWhereClause], the profile with its
    checks of the requested resource, creation in a transaction, and the partial
    update. *)

From S2P Require Import Prelude Float64 Go Sql Tx Schema Calendar Common Auth Authz User.

#[local] Open Scope prog_scope.

(** What the driver does with a DATE or a TIMESTAMPTZ that is scanned into a
    [*string]: a text, or an error of the whole [Scan]. *)
Class Driver := { date_to_string : Z -> option string; time_to_string : Z -> option string }.

Record CreateEmployeeRequest := {
  ce_FirstName : string; ce_LastName : string; ce_WorkEmail : string; ce_JoiningDate : string;
  ce_DepartmentID : option string; ce_DesignationID : option string; ce_LocationID : option string;
  ce_ManagerID : option string; ce_EmploymentType : string; ce_Gender : option string;
  ce_DateOfBirth : option string; ce_PhoneNumber : option string
}.

Record UpdateEmployeeRequest := {
  ue_FirstName : option string; ue_LastName : option string; ue_WorkEmail : option string;
  ue_DepartmentID : option string; ue_DesignationID : option string; ue_LocationID : option string;
  ue_ManagerID : option string; ue_EmploymentType : option string; ue_NoticePeriodDays : option Z;
  ue_ProbationEndDate : option string; ue_Status : option string
}.

Record CreateDesignationRequest := {
  cd_Name : string; cd_Grade : option string; cd_OrganizationID : string
}.

Section Employees.
Context `{Server} `{Driver}.

(** ** Joins *)

Definition joined {R A} (key : R -> string) (l : list R) (f : R -> A) (k : option string) : option A :=
  k ← k; f <$> List.find (fun r => key r =?s k) l.

Definition department_name (d : Database) (e : EmpRow) : option string :=
  joined dep_id (tget departments d) dep_name (emp_department_id e).
Definition designation_name (d : Database) (e : EmpRow) : option string :=
  joined des_id (tget designations d) des_name (emp_designation_id e).
Definition location_name (d : Database) (e : EmpRow) : option string :=
  joined loc_id (tget locations d) loc_name (emp_location_id e).
Definition manager_name (d : Database) (e : EmpRow) : option string :=
  joined emp_id (tget employees d) full_name (emp_manager_id e).
Definition user_email (d : Database) (e : EmpRow) : option string :=
  joined usr_id (tget users d) usr_email (emp_user_id e).

(** [Employee]; the list leaves [work_phone] out. *)
Definition employee_fields (d : Database) (phone : list (string * json)) (e : EmpRow) : list (string * json) :=
  [("id", JStr (emp_id e)); ("employee_id", JStr (emp_employee_id e)); ("first_name", JStr (emp_first_name e));
   ("last_name", JStr (emp_last_name e)); ("full_name", JStr (full_name e));
   ("work_email", JStr (default "" (user_email d e)))] ++ phone ++
  [("employment_type", JStr (emp_employment_type e)); ("status", JStr (emp_status e));
   ("joining_date", JStr (date_text (emp_joining_date e)))]
  ++ opt_ptr "probation_end_date" (fun t => JStr (date_text t)) (emp_probation_end_date e)
  ++ opt_ptr "confirmation_date" (fun t => JStr (date_text t)) (emp_confirmation_date e)
  ++ [("notice_period_days", JInt (default 30 (emp_notice_period_days e)));
      ("nationality", JStr (default "Indian" (emp_nationality e)))]
  ++ opt_ptr "department_id" JStr (emp_department_id e) ++ opt_ptr "department_name" JStr (department_name d e)
  ++ opt_ptr "designation_id" JStr (emp_designation_id e) ++ opt_ptr "designation_name" JStr (designation_name d e)
  ++ opt_ptr "location_id" JStr (emp_location_id e) ++ opt_ptr "location_name" JStr (location_name d e)
  ++ opt_ptr "manager_id" JStr (emp_manager_id e) ++ opt_ptr "manager_name" JStr (manager_name d e)
  ++ opt_ptr "user_id" JStr (emp_user_id e).

(** ** List *)

(** SELECT id::text, COALESCE(department_id::text, '') FROM employees
    WHERE user_id::text = $1 OR id::text = $1 LIMIT 1 *)
Definition caller_record (userID : string) : stmt Database (string * string) :=
  select_row (fun d => (fun e => (emp_id e, default "" (emp_department_id e))) <$>
                       List.find (is_caller userID) (tget employees d)).

(** [if q != ""]: the parameter is a UUID. *)
Definition uuid_filter {B} (q : string) (f : option string -> stmt Database B) : stmt Database B :=
  if q =?s "" then f None else with_uuid q (fun u => f (Some u)).

Definition filter_if (q : string) (c : cond) : list cond := if q =?s "" then [] else [c].

Definition search_cond (d : Database) (search : string) : cond :=
  let pat := "%" +:+ search +:+ "%" in
  Paren [fun e => ilike (emp_first_name e) pat; fun e => ilike (emp_last_name e) pat;
         fun e => ilike (emp_employee_id e) pat;
         fun e => match user_email d e with Some m => ilike m pat | None => false end].

(** The conditions after those of deletion and scope. *)
Definition list_filters (d : Database) (search : string) (dept : option string) (status empType : string)
  : list cond :=
  filter_if search (search_cond d search)
  ++ match dept with Some u => [Atom (fun e => opt_is (emp_department_id e) u)] | None => [] end
  ++ filter_if status (Atom (fun e => emp_status e =?s status))
  ++ filter_if empType (Atom (fun e => emp_employment_type e =?s empType)).

Definition listed_employees (rule : scope_rule) (search : string) (dept : option string)
  (status empType : string) (d : Database) : list EmpRow :=
  where_ (eval_where (not_deleted :: cond_of rule :: list_filters d search dept status empType))
         (tget employees d).

Definition HandleListEmployees (r : Request unit) : prog Database Response :=
  match claims r with
  | None => Ret UnauthorizedResponse
  | Some c =>
      let pg := ParsePaginationParams (query r) in
      let dept := query r "department_id" in
      let status := query r "status" in
      let empType := query r "employment_type" in
      caller <- (if db_nil then Ret (Err "nil pool") else exec (caller_record (UserID c)));
      let '(callerEmpID, callerDeptID) := scan ("", "") caller in
      let rule := rule_of (Some c) callerEmpID callerDeptID in
      return_if db_nil (jsonError "database connection unavailable" StatusInternalServerError);;;
      let listed dept d := listed_employees rule (Search pg) dept status empType d in
      total <- exec (uuid_filter dept (fun dept => select (fun d => Z.of_nat (length (listed dept d)))));
      rows <- exec (uuid_filter dept (fun dept =>
                select_page pg (fun d =>
                  (fun e => JObj (employee_fields d [] e)) <$>
                  order_by (then_by (desc emp_joining_date) (desc emp_created_at)) (listed dept d))));
      match rows with
      | Err e => Ret (jsonError ("database query failed: " +:+ e) StatusInternalServerError)
      | Ok es => Ret (page_json pg (scan 0 total) es)
      end
  end.

(** ** Profile *)

Definition find_profile (id : string) (d : Database) : option EmpRow :=
  List.find (fun e => ((emp_id e =?s id) || opt_is (emp_user_id e) id)
                      && negb (bool_decide (is_Some (emp_deleted_at e)))) (tget employees d).

Definition personal_fields (p : PersRow) (dob : option string) : list (string * json) :=
  opt_ptr "date_of_birth" JStr dob ++ opt_ptr "gender" JStr (per_gender p)
  ++ opt_ptr "marital_status" JStr (per_marital_status p) ++ opt_ptr "blood_group" JStr (per_blood_group p)
  ++ opt_ptr "personal_email" JStr (per_personal_email p) ++ opt_ptr "phone_number" JStr (per_phone_number p)
  ++ opt_ptr "emergency_contact_name" JStr (per_emergency_contact_name p)
  ++ opt_ptr "emergency_contact_number" JStr (per_emergency_contact_number p)
  ++ opt_ptr "current_address" JStr (per_current_address p)
  ++ opt_ptr "permanent_address" JStr (per_permanent_address p).

(** The columns in the order of the [Scan]: a date that does not scan stops it at the first. *)
Definition personal_json (p : option PersRow) : json :=
  match p with
  | None => JObj []
  | Some p =>
      match per_date_of_birth p with
      | None => JObj (personal_fields p None)
      | Some t => match date_to_string t with
                  | Some s => JObj (personal_fields p (Some s))
                  | None => JObj []
                  end
      end
  end.

Definition statutory_json (s : StatRow) : json :=
  JObj (opt_ptr "pan_number" JStr (sta_pan_number s) ++ opt_ptr "aadhaar_number" JStr (sta_aadhaar_number s)
        ++ opt_ptr "uan_number" JStr (sta_uan_number s) ++ opt_ptr "pf_number" JStr (sta_pf_number s)
        ++ opt_ptr "esic_number" JStr (sta_esic_number s)
        ++ opt_ptr "bank_account_number" JStr (sta_bank_account_number s)
        ++ opt_ptr "ifsc_code" JStr (sta_ifsc_code s) ++ opt_ptr "bank_name" JStr (sta_bank_name s)
        ++ [("pt_applicable", JBool (default false (sta_pt_applicable s)))]).

(** The checks between the lookup and the rest of the profile. *)
Definition is_self (c : Claims) (callerEmpID : string) (e : EmpRow) : bool :=
  (negb (callerEmpID =?s "") && (callerEmpID =?s emp_id e)) || opt_is (emp_user_id e) (UserID c).

Definition profile_refused (c : Claims) (callerEmpID : string) (e : EmpRow) : option Response :=
  if HasRole (Some c) ["SUPER_ADMIN"; "HR_ADMIN"] then None
  else if (Scope c =?s ScopeSelf) && negb (is_self c callerEmpID e) then
    Some (ForbiddenResponse "FORBIDDEN_RESOURCE" "You do not have permission to view this employee profile.")
  else if (Scope c =?s ScopeDirectReports) && negb (is_self c callerEmpID e)
          && negb (opt_is (emp_manager_id e) callerEmpID) then
    Some (ForbiddenResponse "FORBIDDEN_RESOURCE" "You can only view your direct reports.")
  else None.

Definition HandleGetEmployee (r : Request unit) : prog Database Response :=
  match claims r with
  | None => Ret UnauthorizedResponse
  | Some c =>
      return_if db_nil (jsonError "database connection unavailable" StatusInternalServerError);;;
      caller <- exec (caller_employee (UserID c));
      let callerEmpID := scan "" caller in
      let id := urlParam r "id" in
      let id := if (id =?s "me") || (id =?s "self")
                then (if negb (callerEmpID =?s "") then callerEmpID else UserID c) else id in
      found <- exec (select_row (fun d => (fun e => (e, employee_fields d
                       [("work_phone", JStr (default "" (emp_work_phone e)))] e)) <$> find_profile id d));
      match found with
      | Err e => Ret (jsonError ("employee not found: " +:+ e) StatusNotFound)
      | Ok (e, fields) =>
          match profile_refused c callerEmpID e with
          | Some resp => Ret resp
          | None =>
              personal <- exec (select_row (fun d =>
                List.find (fun p => per_employee_id p =?s emp_id e) (tget employee_personal_details d)));
              let personal := match personal with Ok p => Some p | Err _ => None end in
              statutory <- (if CanViewStatutory (Some c) (emp_id e) callerEmpID
                            then exec (select_row (fun d =>
                              List.find (fun s => sta_employee_id s =?s emp_id e) (tget employee_statutory_details d)))
                            else Ret (Err "not entitled"));
              let statutory := match statutory with Ok s => [("statutory", statutory_json s)] | Err _ => [] end in
              Ret (ok_json [("data", JObj (fields ++ [("personal", personal_json personal)] ++ statutory))])
          end
      end
  end.

(** ** Creation *)

(** SELECT nextval('employee_id_seq'): the sequence starts at 1001. *)
Definition nextval : stmt Database Z := fun _ d =>
  let v := match tget employee_id_seq d with s :: _ => seq_last s + 1 | [] => 1001 end in
  Ok (v, tput employee_id_seq [{| seq_last := v |}] d).

(** A parameter that is NULL for a nil pointer. *)
Definition opt_cast {A B} (cast : string -> (A -> stmt Database B) -> stmt Database B) (o : option string)
  (f : option A -> stmt Database B) : stmt Database B :=
  match o with None => f None | Some s => cast s (fun a => f (Some a)) end.

Definition ref_in {R} (key : R -> string) (l : list R) (k : option string) : bool :=
  match k with Some k => existsb (fun r => key r =?s k) l | None => true end.

(** The foreign keys of an employee. *)
Definition employee_fk (d : Database) (e : EmpRow) : option string :=
  if ref_in dep_id (tget departments d) (emp_department_id e)
     && ref_in des_id (tget designations d) (emp_designation_id e)
     && ref_in loc_id (tget locations d) (emp_location_id e)
     && ref_in emp_id (tget employees d) (emp_manager_id e)
  then None else Some fk_error.

Definition insert_employee (empID : string) (req : CreateEmployeeRequest) (empType : string)
  (probationEnd : option string) : stmt Database string := fun c d =>
  let s :=
    with_varchar 50 empID (fun code => with_varchar 100 (ce_FirstName req) (fun first =>
    with_varchar 100 (ce_LastName req) (fun last => with_date (ce_JoiningDate req) (fun joining =>
    opt_cast with_uuid (ce_DepartmentID req) (fun dept => opt_cast with_uuid (ce_DesignationID req) (fun desig =>
    opt_cast with_uuid (ce_LocationID req) (fun loc => opt_cast with_uuid (ce_ManagerID req) (fun mgr =>
    with_varchar 50 empType (fun empType => opt_cast with_date probationEnd (fun probation =>
    insert employees (fun c d =>
      let e := {| emp_id := sc_uuid c; emp_user_id := None; emp_employee_id := code; emp_first_name := first;
                  emp_last_name := last; emp_department_id := dept; emp_designation_id := desig;
                  emp_manager_id := mgr; emp_reporting_manager_id := None; emp_status := "ACTIVE"; emp_joining_date := joining;
                  emp_deleted_at := None; emp_location_id := loc; emp_work_phone := None;
                  emp_employment_type := empType; emp_probation_end_date := probation;
                  emp_confirmation_date := None; emp_notice_period_days := Some 30;
                  emp_nationality := Some "Indian"; emp_created_at := sc_now c; emp_updated_at := sc_now c |} in
      if existsb (fun x => emp_employee_id x =?s code) (tget employees d) then Err unique_error
      else match employee_fk d e with Some err => Err err | None => Ok e end))))))))))) in
  result_map (fun x => (emp_id (fst x), snd x)) (s c d).

Definition insert_personal (id : string) (req : CreateEmployeeRequest) : stmt Database Z := fun c d =>
  let s :=
    opt_cast (with_varchar 50) (ce_Gender req) (fun gender => opt_cast with_date (ce_DateOfBirth req) (fun dob =>
    opt_cast (with_varchar 50) (ce_PhoneNumber req) (fun phone =>
    insert employee_personal_details (fun _ d =>
      if existsb (fun p => per_employee_id p =?s id) (tget employee_personal_details d) then Err unique_error
      else if ref_employee id d then
        Ok {| per_employee_id := id; per_date_of_birth := dob; per_gender := gender; per_marital_status := None;
              per_blood_group := None; per_personal_email := None; per_phone_number := phone;
              per_emergency_contact_name := None; per_emergency_contact_number := None;
              per_current_address := None; per_permanent_address := None |}
      else Err fk_error)))) in
  result_map (fun x => (1, snd x)) (s c d).

(** ON CONFLICT (employee_id) DO NOTHING *)
Definition insert_statutory (id : string) : stmt Database Z := fun c d =>
  if existsb (fun s => sta_employee_id s =?s id) (tget employee_statutory_details d) then Ok (0, d)
  else if ref_employee id d then
    Ok (1, tput employee_statutory_details (tget employee_statutory_details d ++
      [{| sta_employee_id := id; sta_pan_number := None; sta_aadhaar_number := None; sta_uan_number := None;
          sta_pf_number := None; sta_esic_number := None; sta_bank_account_number := None;
          sta_ifsc_code := None; sta_bank_name := None; sta_pt_applicable := Some false |}]) d)
  else Err fk_error.

Definition probation_end (joiningDate : string) : option string :=
  (fun jd => date_text (add_date jd 0 3 0)) <$> parse_day joiningDate.

(** The statements after the code has been drawn, in a transaction that is open. *)
Definition store_employee (tx : Tx Database) (code : string) (req : CreateEmployeeRequest) (empType : string)
  : prog Database Response :=
  '(id, tx) <- tx_exec tx (insert_employee code req empType (probation_end (ce_JoiningDate req)));
  match id with
  | Err e => Ret (jsonError ("failed to create employee: " +:+ e) StatusInternalServerError)
  | Ok id =>
      '(_, tx) <- tx_exec tx (insert_personal id req);
      '(_, tx) <- tx_exec tx (insert_statutory id);
      res <- tx_commit tx;
      match res with
      | Err _ => Ret (jsonError "commit failed" StatusInternalServerError)
      | Ok _ => Ret (created_json [("id", JStr id); ("employee_id", JStr code);
                                   ("message", JStr "Employee created successfully")])
      end
  end.

Definition HandleCreateEmployee (r : Request CreateEmployeeRequest) : prog Database Response :=
  return_if (negb (HasRole (claims r) ["SUPER_ADMIN"; "HR_ADMIN"]))
    (ForbiddenResponse "FORBIDDEN_ROLE" "Only HR Admins can create employees.");;;
  match body r with
  | None => Ret (jsonError "invalid request" StatusBadRequest)
  | Some req =>
      return_if ((ce_FirstName req =?s "") || (ce_LastName req =?s "") || (ce_JoiningDate req =?s ""))
        (jsonError "first_name, last_name, and joining_date are required" StatusBadRequest);;;
      let empType := if ce_EmploymentType req =?s "" then "PERMANENT" else ce_EmploymentType req in
      tx <- tx_begin;
      match tx with
      | Err _ => Ret (jsonError "internal error" StatusInternalServerError)
      | Ok tx =>
          '(seqVal, tx) <- tx_direct tx nextval;
          let empID := "EMP-" +:+ pad0 4 (scan 0 seqVal) in
          store_employee tx empID req empType
      end
  end.

(** ** Update *)

(** [if req.F != nil { addSet(column, *req.F) }] *)
Definition assign {A} (set : A -> EmpRow -> EmpRow) (o : option A) (e : EmpRow) : EmpRow :=
  match o with Some v => set v e | None => e end.

Definition no_fields (req : UpdateEmployeeRequest) : bool :=
  match ue_FirstName req, ue_LastName req, ue_DepartmentID req, ue_DesignationID req, ue_LocationID req,
        ue_ManagerID req, ue_EmploymentType req, ue_NoticePeriodDays req, ue_ProbationEndDate req,
        ue_Status req with
  | None, None, None, None, None, None, None, None, None, None => true
  | _, _, _, _, _, _, _, _, _, _ => false
  end.

(** UPDATE employees SET ..., updated_at = NOW() WHERE id = $i *)
Definition update_employee (req : UpdateEmployeeRequest) (id : string) : stmt Database Z :=
  opt_cast (with_varchar 100) (ue_FirstName req) (fun first =>
  opt_cast (with_varchar 100) (ue_LastName req) (fun last =>
  opt_cast with_uuid (ue_DepartmentID req) (fun dept => opt_cast with_uuid (ue_DesignationID req) (fun desig =>
  opt_cast with_uuid (ue_LocationID req) (fun loc => opt_cast with_uuid (ue_ManagerID req) (fun mgr =>
  opt_cast (with_varchar 50) (ue_EmploymentType req) (fun empType =>
  opt_cast with_date (ue_ProbationEndDate req) (fun probation =>
  opt_cast (with_varchar 50) (ue_Status req) (fun status =>
  with_uuid id (fun id => with_int4 (default 0 (ue_NoticePeriodDays req))
  (update_chk employees (fun e => emp_id e =?s id)
    (fun c e => set_emp_updated_at (sc_now c)
      (assign set_emp_status status
      (assign (fun t => set_emp_probation_end_date (Some t)) probation
      (assign (fun n => set_emp_notice_period_days (Some n)) (ue_NoticePeriodDays req)
      (assign set_emp_employment_type empType
      (assign (fun k => set_emp_manager_id (Some k)) mgr
      (assign (fun k => set_emp_location_id (Some k)) loc
      (assign (fun k => set_emp_designation_id (Some k)) desig
      (assign (fun k => set_emp_department_id (Some k)) dept
      (assign set_emp_last_name last
      (assign set_emp_first_name first e)))))))))))
    employee_fk))))))))))).

Definition HandleUpdateEmployee (r : Request UpdateEmployeeRequest) : prog Database Response :=
  return_if (negb (HasRole (claims r) ["SUPER_ADMIN"; "HR_ADMIN"]))
    (ForbiddenResponse "FORBIDDEN_ROLE" "Only HR Admins can update employee records.");;;
  let id := urlParam r "id" in
  match body r with
  | None => Ret (jsonError "invalid request" StatusBadRequest)
  | Some req =>
      return_if (no_fields req) (jsonError "no fields to update" StatusBadRequest);;;
      res <- exec (update_employee req id);
      match res with
      | Err e => Ret (jsonError ("update failed: " +:+ e) StatusInternalServerError)
      | Ok _ => Ret (ok_json [("message", JStr "Employee updated")])
      end
  end.

(** ** Export and statistics *)

Definition export_header : list string :=
  ["Employee ID"; "First Name"; "Last Name"; "Email"; "Employment Type"; "Status"; "Joining Date";
   "Department"; "Designation"; "Location"].

Definition export_row (d : Database) (e : EmpRow) : list string :=
  [emp_employee_id e; emp_first_name e; emp_last_name e; default "" (user_email d e); emp_employment_type e;
   emp_status e; date_text (emp_joining_date e); default "" (department_name d e);
   default "" (designation_name d e); default "" (location_name d e)].

Definition undeleted (e : EmpRow) : bool := negb (bool_decide (is_Some (emp_deleted_at e))).

Definition HandleExportCSV (r : Request unit) : prog Database Response :=
  return_if (negb (HasRole (claims r) ["SUPER_ADMIN"; "HR_ADMIN"; "PAYROLL_ADMIN"]))
    (ForbiddenResponse "FORBIDDEN_ROLE" "You do not have permission to export employee data.");;;
  rows <- exec (select (fun d => map (export_row d)
            (order_by (fun e e' => collate (emp_employee_id e) (emp_employee_id e'))
              (where_ undeleted (tget employees d)))));
  match rows with
  | Err _ => Ret (jsonError "export failed" StatusInternalServerError)
  | Ok rows =>
      _ <- now;
      Ret {| status := StatusOK; ctype := "text/csv"; content := BCsv (export_header :: rows) |}
  end.

Record Stats := { TotalActive : Z; NewThisMonth : Z; OnProbation : Z; ProbationDueSoon : Z }.

(** [DATE_TRUNC('month', joining_date) = DATE_TRUNC('month', NOW())] *)
Definition same_month (day : Z) (t : Z) : bool :=
  (year_of day =? year_of (date_of_time t)) && (month_of day =? month_of (date_of_time t)).

(** [probation_end_date BETWEEN NOW() AND NOW() + INTERVAL '30 days']: the date as the
    midnight that begins it. *)
Definition due_soon (t : Z) (e : EmpRow) : bool :=
  match emp_probation_end_date e with
  | Some p => (t <=? p * day_us) && (p * day_us <=? t + 30 * day_us)
  | None => false
  end.

Definition employee_stats (t : Z) (d : Database) : Stats :=
  let es := where_ undeleted (tget employees d) in
  {| TotalActive := count_where (fun e => emp_status e =?s "ACTIVE") es;
     NewThisMonth := count_where (fun e => same_month (emp_joining_date e) t) es;
     OnProbation := count_where (fun e => emp_status e =?s "PROBATION") es;
     ProbationDueSoon := count_where (due_soon t) es |}.

Definition HandleStats : prog Database Response :=
  s <- exec (fun c d => Ok (employee_stats (sc_now c) d, d));
  let s := scan {| TotalActive := 0; NewThisMonth := 0; OnProbation := 0; ProbationDueSoon := 0 |} s in
  Ret (ok_json [("data", JObj [("total_active", JInt (TotalActive s)); ("new_this_month", JInt (NewThisMonth s));
                               ("on_probation", JInt (OnProbation s));
                               ("probation_due_soon", JInt (ProbationDueSoon s))])]).

(** ** Designations *)

Definition designation_json (x : DesigRow) : json :=
  JObj ([("id", JStr (des_id x)); ("name", JStr (des_name x))] ++ opt_ptr "grade" JStr (des_grade x)
        ++ [("organization_id", JStr (des_organization_id x))]).

Definition HandleListDesignations : prog Database Response :=
  rows <- exec (select (fun d =>
            order_by (fun x y => collate (des_name x) (des_name y))
              (where_ (fun x => negb (bool_decide (is_Some (des_deleted_at x)))) (tget designations d))));
  match rows with
  | Err _ => Ret (jsonError "failed to query designations" StatusInternalServerError)
  | Ok ds => Ret (ok_json [("data", JArr (map designation_json ds))])
  end.

Definition insert_designation (req : CreateDesignationRequest) : stmt Database DesigRow :=
  with_varchar 255 (cd_Name req) (fun name => opt_cast (with_varchar 50) (cd_Grade req) (fun grade =>
  with_uuid (cd_OrganizationID req) (fun org =>
  insert designations (fun c d =>
    if existsb (fun o => org_id o =?s org) (tget organizations d) then
      Ok {| des_id := sc_uuid c; des_name := name; des_organization_id := org; des_grade := grade;
            des_deleted_at := None; des_level_grade := None |}
    else Err fk_error)))).

Definition HandleCreateDesignation (r : Request CreateDesignationRequest) : prog Database Response :=
  match body r with
  | None => Ret (jsonError "name is required" StatusBadRequest)
  | Some req =>
      return_if (cd_Name req =?s "") (jsonError "name is required" StatusBadRequest);;;
      id <- exec (insert_designation req);
      match id with
      | Err e => Ret (jsonError ("failed to create designation: " +:+ e) StatusInternalServerError)
      | Ok x => Ret (created_json [("id", JStr (des_id x))])
      end
  end.

Definition HandleUploadDocument : prog Database Response :=
  Ret (ok_json [("message", JStr "Document engine coming in Sprint 6")]).
End Employees.
