(* ===== verification/EmployeeProps.v ===== *)
(** * Theorems on the employee master *)

From S2P Require Import Prelude Float64 Go Csv CsvProps Sql Tx Schema Calendar Common Auth Authz User Employee.

#[local] Open Scope prog_scope.

Section EmployeeProps.
Context `{Server} `{Driver}.

(** ** The list *)

(** The caller's employee record and department, when the lookup found them. *)
Definition caller_known (c : Claims) (d : Database) (k : string * string) : Prop :=
  k = ("", "") \/ exists e, e ∈ tget employees d /\ is_caller (UserID c) e = true
    /\ k = (emp_id e, default "" (emp_department_id e)).

Lemma list_filters_closed d search dept status empType :
  forallb (fun c => negb (bare c)) (list_filters d search dept status empType) = true.
Proof.
  unfold list_filters, filter_if. rewrite !forallb_app.
  by destruct (search =?s ""), dept, (status =?s ""), (empType =?s "").
Qed.

Lemma listed_in_scope c k search dept status empType d e :
  e ∈ listed_employees (rule_of (Some c) (fst k) (snd k)) search dept status empType d ->
  e ∈ tget employees d /\ in_scope c (fst k) (snd k) e.
Proof.
  intros [He Hw]%elem_of_where. split; [done|].
  eapply holds_in_scope, eval_scope; [apply list_filters_closed|exact Hw|done].
Qed.

Lemma uuid_filter_ok {B} q (f : option string -> stmt Database B) c d b d' :
  uuid_filter q f c d = Ok (b, d') -> exists o, f o c d = Ok (b, d').
Proof. unfold uuid_filter. destruct (q =?s ""); [eauto|]. intros (u & _ & Hf)%with_uuid_ok. eauto. Qed.

Lemma caller_record_known c x d b d' : caller_record (UserID c) x d = Ok (b, d') -> caller_known c d b /\ d' = d.
Proof.
  unfold caller_record. intros [Hf ->]%select_row_ok. split; [|done]. right.
  destruct (List.find _ _) as [e|] eqn:E; [|done]. apply find_some_elem in E as [? ?].
  injection Hf as <-. eauto.
Qed.

(** C10: every employee that the list shows is in the scope of the caller, by role, by
    department, as a direct report or as the caller; whatever the filters and the
    page, and also when the lookup of the caller fails. *)
Theorem employee_list_in_scope E r c n d resp l :
  claims r = Some c -> reply (run E (HandleListEmployees r) n d) = Some resp ->
  field "data" resp = Some (JArr l) ->
  exists k, caller_known c d k
  /\ Forall (fun j => exists e, e ∈ tget employees d /\ in_scope c (fst k) (snd k) e
                        /\ j = JObj (employee_fields d [] e)) l.
Proof.
  intros Hc Hr Hl. set (Q := fun (o : outcome Response) (_ : Database) => forall resp l,
    replied o = Some resp -> field "data" resp = Some (JArr l) ->
    exists k, caller_known c d k
    /\ Forall (fun j => exists e, e ∈ tget employees d /\ in_scope c (fst k) (snd k) e
                        /\ j = JObj (employee_fields d [] e)) l).
  enough (HQ : wp true (HandleListEmployees r) d Q) by (eapply (wp_run true E _ n d Q); eauto; done).
  clear Hr Hl resp l. unfold HandleListEmployees. rewrite Hc. cbv zeta.
  apply wp_bind. apply (wp_mono true _ _ (fun o d' => match o with
    | Done caller => caller_known c d (scan ("", "") caller) /\ d' = d | Replied _ => False | Panicked _ => True end)).
  2:{ destruct db_nil eqn:Hdb; [split; [by left|done]|]. apply wp_exec; [done| |split; [by left|done]].
      intros x b d' Hb. by apply caller_record_known in Hb. }
  intros [caller|?|m] d1; [|done|done]. intros [Hk ->]. cbn [wp_then].
  destruct (scan ("", "") caller) as [emp dept] eqn:Es.
  apply wp_bind, wp_return_if; [intros _ resp l [= <-]; done|]. intros _. cbn [wp_then].
  apply wp_bind. apply (wp_mono true _ _ (fun o d' => match o with
    | Done _ => d' = d | Replied _ => False | Panicked _ => True end)).
  2:{ apply wp_exec; [done| |done]. by intros x b d' (o & [_ ->]%select_ok)%uuid_filter_ok. }
  intros [total|?|m] d1; [intros ->|done|done]. cbn [wp_then].
  apply wp_bind, wp_exec; [done| |intros e _ resp l [= <-]; done].
  intros x2 es d2 (o2 & [-> ->]%select_page_ok)%uuid_filter_ok. intros resp l [= <-] [= <-].
  exists (emp, dept). split; [done|]. apply Forall_forall. intros j Hj.
  apply paginate_sub, list_elem_of_fmap in Hj as (e & -> & He). rewrite elem_of_order_by in He.
  apply (listed_in_scope c (emp, dept)) in He as [? ?]. eauto.
Qed.

(** ** The profile *)

(** The employee record the caller was found to have, if any. *)
Definition caller_found (c : Claims) (d : Database) (emp : string) : Prop :=
  emp = "" \/ exists e, e ∈ tget employees d /\ is_caller (UserID c) e = true /\ emp = emp_id e.

(** What a profile answer has passed. *)
Definition profile_allowed (c : Claims) (emp : string) (e : EmpRow) (keys : list string) : Prop :=
  emp_deleted_at e = None
  /\ (HasRole (Some c) ["SUPER_ADMIN"; "HR_ADMIN"] = true
      \/ (Scope c = ScopeSelf -> is_self c emp e = true)
         /\ (Scope c = ScopeDirectReports -> is_self c emp e = true \/ emp_manager_id e = Some emp))
  /\ ("statutory" ∈ keys ->
      HasRole (Some c) ["SUPER_ADMIN"; "HR_ADMIN"; "PAYROLL_ADMIN"] = true \/ (emp <> "" /\ emp_id e = emp)).

Lemma profile_refused_none c emp e : profile_refused c emp e = None ->
  HasRole (Some c) ["SUPER_ADMIN"; "HR_ADMIN"] = true
  \/ (Scope c = ScopeSelf -> is_self c emp e = true)
     /\ (Scope c = ScopeDirectReports -> is_self c emp e = true \/ emp_manager_id e = Some emp).
Proof.
  unfold profile_refused. destruct (HasRole _ _); [by left|]. right.
  destruct (is_self c emp e) eqn:Hs; [by auto|]. cbn [negb] in *. rewrite !andb_true_r in *.
  destruct (Scope c =?s ScopeSelf) eqn:E1; [done|]. destruct (Scope c =?s ScopeDirectReports) eqn:E2; bool_prop.
  - destruct (opt_is (emp_manager_id e) emp) eqn:Em; [|done]. apply opt_is_spec in Em. split; [done|by right].
  - by split.
Qed.

Lemma CanViewStatutory_spec c t emp : CanViewStatutory (Some c) t emp = true ->
  HasRole (Some c) ["SUPER_ADMIN"; "HR_ADMIN"; "PAYROLL_ADMIN"] = true \/ (emp <> "" /\ t = emp).
Proof.
  unfold CanViewStatutory. destruct (HasRole _ _); [by left|]. destruct (_ && _) eqn:E; [|done].
  intros _. right. bool_prop. by split.
Qed.

Lemma statutory_not_a_field d phone e : "statutory" ∉ map fst phone ->
  "statutory" ∉ map fst (employee_fields d phone e).
Proof.
  intros Hp. unfold employee_fields. rewrite !map_app, !not_elem_of_app. split_and!; try done; simpl;
    try (by unfold opt_ptr; case_match; apply (bool_decide_eq_true_1 _); vm_compute);
    try (by apply (bool_decide_eq_true_1 _); vm_compute).
Qed.

Lemma find_profile_ok i d e : find_profile i d = Some e -> e ∈ tget employees d /\ emp_deleted_at e = None.
Proof.
  intros [Hin Hp]%find_some_elem. split; [done|]. bool_prop. by apply bool_decide_eq_false, eq_None_not_Some in H2.
Qed.

(** What an answer to the request of a profile may hold. *)
Definition profile_answer (c : Claims) (d : Database) (o : outcome Response) : Prop :=
  forall resp l, replied o = Some resp -> field "data" resp = Some (JObj l) ->
  exists emp e phone rest, caller_found c d emp /\ e ∈ tget employees d
    /\ l = employee_fields d phone e ++ rest /\ profile_allowed c emp e (map fst l).

Lemma caller_employee_found c x d b d' : caller_employee (UserID c) x d = Ok (b, d') -> caller_found c d b /\ d' = d.
Proof.
  unfold caller_employee. intros [Hf ->]%select_row_ok. split; [|done]. right.
  destruct (List.find _ _) as [e|] eqn:E; [|done]. apply find_some_elem in E as [? ?].
  injection Hf as <-. eauto.
Qed.

Lemma profile_refused_data c emp e resp : profile_refused c emp e = Some resp -> field "data" resp = None.
Proof.
  unfold profile_refused. destruct (HasRole _ _); [done|]. destruct (_ && _); [by intros [= <-]|].
  destruct (_ && _); [by intros [= <-]|done].
Qed.

(** The statement has answered, or the pool is nil. *)
Definition answers {A} (o : outcome A) : Prop := match o with Replied _ => False | _ => True end.

(** C24: a profile is shown, undeleted, to administrators of people; to a SELF caller
    only the own profile; to a DIRECT_REPORTS caller the own and those of the direct
    reports. Bank and tax numbers are shown to payroll and people administrators and
    to the employee alone. *)
Theorem profile_within_rights E r c n d :
  claims r = Some c -> profile_answer c d (out (run E (HandleGetEmployee r) n d)).
Proof.
  intros Hc. apply (wp_run true E _ n d (fun o _ => profile_answer c d o)); [done|].
  unfold HandleGetEmployee. rewrite Hc. cbv zeta.
  apply wp_bind, wp_return_if; [intros _ resp l [= <-]; done|]. intros _. cbn [wp_then].
  apply wp_bind. apply (wp_mono true _ _ (fun o d' => match o with
    | Done caller => caller_found c d (scan "" caller) /\ d' = d | Replied _ => False | Panicked _ => True end)).
  2:{ apply wp_exec; [done| |split; [by left|done]]. intros x b d' Hb. by apply caller_employee_found in Hb. }
  intros [caller|?|m] d1; [intros [Hk ->]|done|done]. cbn [wp_then]. generalize (scan "" caller) Hk. clear Hk caller.
  intros emp Hk. apply wp_bind, wp_exec; [done| |intros e _ resp l [= <-]; done].
  intros x [e fs] d1 [Hf ->]%select_row_ok. destruct (find_profile _ d) as [e'|] eqn:Hp; [|done].
  injection Hf as -> Hfs. apply find_profile_ok in Hp as [Hin Hdel]. cbn [wp_then].
  destruct (profile_refused c emp e) as [refusal|] eqn:Hr.
  { intros resp l [= <-]. by rewrite (profile_refused_data _ _ _ _ Hr). }
  apply profile_refused_none in Hr. apply wp_bind, (wp_mono true _ _ (fun o _ => answers o));
    [|apply wp_exec; done].
  intros [personal|?|m] d1; [intros _|done|done]. cbn [wp_then].
  apply wp_bind, (wp_mono true _ _ (fun o _ => match o with
    | Done (Ok _) => CanViewStatutory (Some c) (emp_id e) emp = true | Done _ | Panicked _ => True
    | Replied _ => False end)).
  2:{ destruct (CanViewStatutory _ _ _) eqn:Hv; [|done]. by apply wp_exec. }
  intros [statutory|?|m] d2; [intros Hst|done|done]. cbn [wp_then]. intros resp l [= <-] [= <-].
  eexists emp, e, _, _. split; [done|]. split; [done|]. split; [by rewrite Hfs|]. split; [done|]. split; [done|].
  rewrite map_app, elem_of_app. intros [Hs|Hs].
  - exfalso. rewrite <- Hfs in Hs. eapply statutory_not_a_field; [|exact Hs].
    apply (bool_decide_eq_true_1 _); by vm_compute.
  - simpl in Hs. apply elem_of_cons in Hs as [?|Hs]; [done|].
    destruct statutory as [s|]; [by apply CanViewStatutory_spec|by apply not_elem_of_nil in Hs].
Qed.

(** The checks of the profile know the scopes SELF and DIRECT_REPORTS only: a
    DEPARTMENT caller (an HR_MANAGER) reads the profile of any employee by its
    identifier, of other departments too, which the list would not show. *)
Theorem department_scope_reads_any_profile E r c e n d :
  reliable E -> db_nil = false -> claims r = Some c -> Scope c = ScopeDepartment ->
  urlParam r "id" <> "me" -> urlParam r "id" <> "self" -> find_profile (urlParam r "id") d = Some e ->
  exists resp phone rest, reply (run E (HandleGetEmployee r) n d) = Some resp /\ status resp = StatusOK
  /\ field "data" resp = Some (JObj (employee_fields d phone e ++ rest)).
Proof.
  intros HE Hdb Hc Hs Hme Hself Hp.
  apply (wp_run false E _ n d (fun o _ => exists resp phone rest, replied o = Some resp /\ status resp = StatusOK
    /\ field "data" resp = Some (JObj (employee_fields d phone e ++ rest)))); [done|].
  unfold HandleGetEmployee. rewrite Hc, Hdb. cbv zeta. apply wp_bind. cbn [return_if wp wp_then].
  apply wp_bind, (wp_mono false _ _ (fun o d' => match o with Done _ => d' = d | _ => False end)).
  2:{ apply wp_exec; [congruence| |done]. by intros x b d' [_ ->]%caller_employee_found. }
  intros [caller|?|m] d1; [intros ->|done|done]. cbn [wp_then].
  apply String.eqb_neq in Hme, Hself. rewrite Hme, Hself. cbn [orb].
  apply wp_bind, wp_exec_det; [done|]. intros x. unfold select_row. rewrite Hp. cbn [fmap option_fmap option_map].
  cbn [wp_then]. replace (profile_refused c (scan "" caller) e) with (@None Response).
  2:{ unfold profile_refused. rewrite Hs. by destruct (HasRole _ _). }
  apply wp_bind, (wp_mono false _ _ (fun o _ => match o with Done _ => True | _ => False end));
    [|apply wp_exec; [congruence|done|done]].
  intros [personal|?|m] d1; [intros _|done|done]. cbn [wp_then].
  apply wp_bind, (wp_mono false _ _ (fun o _ => match o with Done _ => True | _ => False end)).
  2:{ destruct (CanViewStatutory _ _ _); [|done]. by apply wp_exec; [congruence|done|done]. }
  intros [statutory|?|m] d2; [intros _|done|done]. cbn [wp_then wp]. by eexists _, _, _.
Qed.

(** ** Creation *)

Lemma opt_cast_ok {A B} cast (o : option string) (f : option A -> stmt Database B) c d b d' :
  (forall x (g : A -> stmt Database B), cast x g c d = Ok (b, d') -> exists a, g a c d = Ok (b, d')) ->
  opt_cast cast o f c d = Ok (b, d') -> exists a, f a c d = Ok (b, d').
Proof. intros Hc. unfold opt_cast. destruct o as [x|]; [|eauto]. intros (a & Ha)%Hc. eauto. Qed.

Lemma opt_uuid_ok {B} o (f : option string -> stmt Database B) c d b d' :
  opt_cast with_uuid o f c d = Ok (b, d') -> exists a, f a c d = Ok (b, d').
Proof. apply opt_cast_ok. intros x g (a & _ & Ha)%with_uuid_ok. eauto. Qed.

Lemma opt_varchar_ok {B} k o (f : option string -> stmt Database B) c d b d' :
  opt_cast (with_varchar k) o f c d = Ok (b, d') -> exists a, f a c d = Ok (b, d').
Proof. apply opt_cast_ok. intros x g (a & _ & Ha)%with_varchar_ok. eauto. Qed.

Lemma opt_date_ok {B} o (f : option Z -> stmt Database B) c d b d' :
  opt_cast with_date o f c d = Ok (b, d') ->
  exists a, f a c d = Ok (b, d') /\ (forall t, o = Some t -> a = date_in t).
Proof.
  unfold opt_cast. destruct o as [x|]; [|intros Hf; by exists None].
  intros (a & Ha & Hf)%with_date_ok. exists (Some a). split; [done|]. by intros t [= ->].
Qed.

(** The employee of the request. *)
Record hired (code : string) (req : CreateEmployeeRequest) (e : EmpRow) (d : Database) : Prop := {
  hi_code : varchar_in 50 code = Some (emp_employee_id e);
  hi_first : varchar_in 100 (ce_FirstName req) = Some (emp_first_name e);
  hi_last : varchar_in 100 (ce_LastName req) = Some (emp_last_name e);
  hi_joining : date_in (ce_JoiningDate req) = Some (emp_joining_date e);
  hi_probation : forall t, probation_end (ce_JoiningDate req) = Some t -> emp_probation_end_date e = date_in t;
  hi_new : Forall (fun x => emp_employee_id x <> emp_employee_id e) (tget employees d);
  hi_status : emp_status e = "ACTIVE" /\ emp_user_id e = None /\ emp_deleted_at e = None
}.

Lemma insert_employee_ok code req empType c d id d' :
  insert_employee code req empType (probation_end (ce_JoiningDate req)) c d = Ok (id, d') ->
  exists e, emp_id e = id /\ hired code req e d /\ d' = tput employees (tget employees d ++ [e]) d.
Proof.
  unfold insert_employee. match goal with |- context [ result_map _ ?s ] => destruct s as [[e d1]|] eqn:E end; [|done].
  simpl. intros [= <- <-].
  apply with_varchar_ok in E as (code' & Hcode & E). apply with_varchar_ok in E as (first & Hfirst & E).
  apply with_varchar_ok in E as (last & Hlast & E). apply with_date_ok in E as (joining & Hjoin & E).
  do 4 apply opt_uuid_ok in E as (? & E). apply with_varchar_ok in E as (? & _ & E).
  apply opt_date_ok in E as (probation & E & Hprob). apply insert_ok in E as [Hmk ->].
  exists e. repeat case_match; simplify_eq. split; [done|]. split; [|done]. split; simpl; [done|done|done|done|exact Hprob| |done].
  match goal with H : existsb _ _ = false |- _ => apply existsb_false in H; eapply Forall_impl; [exact H|] end.
  intros y Hy. simpl in Hy. by apply String.eqb_neq.
Qed.

Lemma insert_personal_ok i req c d k d' : insert_personal i req c d = Ok (k, d') ->
  exists p, per_employee_id p = i /\ per_date_of_birth p = (ce_DateOfBirth req ≫= date_in)
  /\ d' = tput employee_personal_details (tget employee_personal_details d ++ [p]) d.
Proof.
  unfold insert_personal. match goal with |- context [ result_map _ ?s ] => destruct s as [[p d1]|] eqn:E end; [|done].
  simpl. intros [= <- <-]. apply opt_varchar_ok in E as (? & E).
  assert (Hd : exists dob, dob = (ce_DateOfBirth req ≫= date_in) /\ opt_cast (with_varchar 50) (ce_PhoneNumber req)
    (fun phone => insert employee_personal_details (fun _ d =>
      if existsb (fun p => per_employee_id p =?s i) (tget employee_personal_details d) then Err unique_error
      else if ref_employee i d then
        Ok {| per_employee_id := i; per_date_of_birth := dob; per_gender := x; per_marital_status := None;
              per_blood_group := None; per_personal_email := None; per_phone_number := phone;
              per_emergency_contact_name := None; per_emergency_contact_number := None;
              per_current_address := None; per_permanent_address := None |}
      else Err fk_error)) c d = Ok (p, d1)).
  { unfold opt_cast at 1 in E. destruct (ce_DateOfBirth req) as [s|]; [|by exists None].
    apply with_date_ok in E as (dob & Hdob & E). exists (Some dob). by split. }
  destruct Hd as (dob & -> & Hins). apply opt_varchar_ok in Hins as (? & Hins). apply insert_ok in Hins as [Hmk ->].
  exists p. repeat case_match; simplify_eq. by split_and!.
Qed.

Lemma insert_statutory_ok i c d k d' : insert_statutory i c d = Ok (k, d') ->
  i ∈ map sta_employee_id (tget employee_statutory_details d')
  /\ tget employees d' = tget employees d
  /\ tget employee_personal_details d' = tget employee_personal_details d.
Proof.
  unfold insert_statutory. destruct (existsb _ _) eqn:E.
  - intros [= _ <-]. split; [|done].
    apply existsb_exists in E as (s & Hs%list_elem_of_In & Hi). bool_prop. apply list_elem_of_fmap. eauto.
  - destruct (ref_employee i d); [|done]. intros [= _ <-]. rewrite tget_tput, !indep. split; [|done].
    rewrite map_app. apply elem_of_app. right. simpl. apply list_elem_of_here.
Qed.

(** The three tables of an employee are as before. *)
Definition nobody_hired (d d' : Database) : Prop :=
  unchanged employees d d' /\ unchanged employee_personal_details d d'
  /\ unchanged employee_statutory_details d d'.

(** The three rows of the employee are there. *)
Definition somebody_hired (code : string) (req : CreateEmployeeRequest) (e : EmpRow) (d d' : Database) : Prop :=
  hired code req e d
  /\ tget employees d' = tget employees d ++ [e]
  /\ (exists p, tget employee_personal_details d' = tget employee_personal_details d ++ [p]
        /\ per_employee_id p = emp_id e /\ per_date_of_birth p = (ce_DateOfBirth req ≫= date_in))
  /\ emp_id e ∈ map sta_employee_id (tget employee_statutory_details d').

Definition whole_employee (code : string) (req : CreateEmployeeRequest) (d : Database)
  (o : outcome Response) (d' : Database) : Prop :=
  (d' = d /\ exists resp, replied o = Some resp /\ status resp <> StatusCreated)
  \/ (exists e, replied o = Some (created_json [("id", JStr (emp_id e)); ("employee_id", JStr code);
                                               ("message", JStr "Employee created successfully")])
      /\ somebody_hired code req e d d').

Lemma wp_store_aborted tx code req empType d : tx_aborted tx = true ->
  wp true (store_employee tx code req empType) d (whole_employee code req d).
Proof.
  intros Ha. apply wp_bind. apply (wp_exec_aborted _ _ _ _ _ Ha). intros e tx' _. left. split; [done|]. by eexists.
Qed.

Lemma wp_store tx code req empType d : open_at tx d d ->
  wp true (store_employee tx code req empType) d (whole_employee code req d).
Proof.
  intros Ho.
  assert (Herr : forall msg, whole_employee code req d (Done (jsonError msg StatusInternalServerError)) d)
    by (intros msg; left; split; [done|]; by eexists).
  apply wp_bind. apply (wp_tx_exec _ _ _ _ _ _ Ho); [|intros; apply Herr].
  intros c id v tx1 (e & <- & Hh & ->)%insert_employee_ok Ho1. cbn [wp_then].
  apply wp_bind. apply (wp_tx_exec _ _ _ _ _ _ Ho1).
  - intros c1 k v1 tx2 (p & Hp & Hdob & ->)%insert_personal_ok Ho2. cbn [wp_then].
    apply wp_bind. apply (wp_tx_exec _ _ _ _ _ _ Ho2).
    + intros c2 k2 v2 tx3 (Hs & He & Hpd)%insert_statutory_ok Ho3. cbn [wp_then].
      apply wp_bind. apply (wp_commit _ _ _ _ _ Ho3); [|intros; apply Herr].
      right. exists e. split; [done|]. split; [done|]. split; [|split; [|done]].
      * by rewrite He, indep, tget_tput.
      * exists p. by rewrite Hpd, tget_tput, indep.
    + intros err tx3 Ha _. cbn [wp_then]. apply wp_bind, (wp_commit_aborted _ _ _ _ Ha). intros; apply Herr.
  - intros err tx2 Ha _. cbn [wp_then]. apply wp_bind, (wp_exec_aborted _ _ _ _ _ Ha). intros e2 tx3 Ha3.
    cbn [wp_then]. apply wp_bind, (wp_commit_aborted _ _ _ _ Ha3). intros; apply Herr.
Qed.

(** ** Update *)

(** A column the request may set: the old value when the field is absent, the
    field as the column's type reads it otherwise. *)
Definition set_to {A} (cast : string -> option A) (o : option string) (old new : A) : Prop :=
  match o with None => new = old | Some s => cast s = Some new end.

Definition nullable {A} (cast : string -> option A) (s : string) : option (option A) := Some <$> cast s.

Lemma set_to_default {A} cast (o : option string) (a : option A) old :
  cast <$> o = Some <$> a -> set_to cast o old (default old a).
Proof. destruct o as [x|], a as [v|]; simpl; intros Hc; try done. by injection Hc. Qed.

Lemma set_to_nullable {A} cast (o : option string) (a : option A) old :
  cast <$> o = Some <$> a -> set_to (nullable cast) o old (match a with Some v => Some v | None => old end).
Proof. unfold set_to, nullable. destruct o, a; simpl; intros Hc; try done. injection Hc as Hc. by rewrite Hc. Qed.

Lemma opt_cast_set {A B} (with_ : string -> (A -> stmt Database B) -> stmt Database B) cast
    (o : option string) (f : option A -> stmt Database B) c d b d' :
  (forall s g, with_ s g c d = Ok (b, d') -> exists v, cast s = Some v /\ g v c d = Ok (b, d')) ->
  opt_cast with_ o f c d = Ok (b, d') -> exists a, cast <$> o = Some <$> a /\ f a c d = Ok (b, d').
Proof.
  intros Hw. unfold opt_cast. destruct o as [s|]; [|by intros ?; exists None].
  intros (v & Hv & Hf)%Hw. exists (Some v). simpl. by rewrite Hv.
Qed.

Lemma assign_same {A B} (get : EmpRow -> B) (set : A -> EmpRow -> EmpRow) (o : option A) e :
  get (assign set o e) = match o with Some v => get (set v e) | None => get e end.
Proof. by destruct o. Qed.

Lemma assign_other {A B} (get : EmpRow -> B) (set : A -> EmpRow -> EmpRow) (o : option A) e :
  (forall v e, get (set v e) = get e) -> get (assign set o e) = get e.
Proof. intros Hs. destruct o; simpl; auto. Qed.

(** What an update makes of the row it names. *)
Record patched (req : UpdateEmployeeRequest) (e e' : EmpRow) : Prop := {
  pa_first : set_to (varchar_in 100) (ue_FirstName req) (emp_first_name e) (emp_first_name e');
  pa_last : set_to (varchar_in 100) (ue_LastName req) (emp_last_name e) (emp_last_name e');
  pa_dept : set_to (nullable uuid_in) (ue_DepartmentID req) (emp_department_id e) (emp_department_id e');
  pa_desig : set_to (nullable uuid_in) (ue_DesignationID req) (emp_designation_id e) (emp_designation_id e');
  pa_loc : set_to (nullable uuid_in) (ue_LocationID req) (emp_location_id e) (emp_location_id e');
  pa_mgr : set_to (nullable uuid_in) (ue_ManagerID req) (emp_manager_id e) (emp_manager_id e');
  pa_type : set_to (varchar_in 50) (ue_EmploymentType req) (emp_employment_type e) (emp_employment_type e');
  pa_notice : emp_notice_period_days e' =
    match ue_NoticePeriodDays req with Some n => Some n | None => emp_notice_period_days e end;
  pa_probation : set_to (nullable date_in) (ue_ProbationEndDate req) (emp_probation_end_date e)
    (emp_probation_end_date e');
  pa_status : set_to (varchar_in 50) (ue_Status req) (emp_status e) (emp_status e');
  pa_rest : emp_id e' = emp_id e /\ emp_employee_id e' = emp_employee_id e /\ emp_user_id e' = emp_user_id e
    /\ emp_joining_date e' = emp_joining_date e /\ emp_deleted_at e' = emp_deleted_at e
}.

Ltac column get := cbn [set_emp_updated_at get]; repeat (first
  [ rewrite (assign_other get) by (intros; reflexivity) | rewrite (assign_same get); cbn ]).

Lemma update_employee_ok req id c d n d' : update_employee req id c d = Ok (n, d') ->
  exists uid l, uuid_in id = Some uid /\ d' = tput employees l d
  /\ Forall2 (fun e e' => if emp_id e =?s uid then patched req e e' else e' = e) (tget employees d) l.
Proof.
  unfold update_employee. intros Hu.
  repeat match type of Hu with
  | opt_cast (with_varchar ?k) _ _ _ _ = _ =>
      apply (opt_cast_set (with_varchar k) (varchar_in k)) in Hu as (? & ? & Hu);
        [|intros ? ? (? & ? & ?)%with_varchar_ok; eauto]
  | opt_cast with_uuid _ _ _ _ = _ =>
      apply (opt_cast_set with_uuid uuid_in) in Hu as (? & ? & Hu); [|intros ? ? (? & ? & ?)%with_uuid_ok; eauto]
  | opt_cast with_date _ _ _ _ = _ =>
      apply (opt_cast_set with_date date_in) in Hu as (? & ? & Hu); [|intros ? ? (? & ? & ?)%with_date_ok; eauto]
  end.
  apply with_uuid_ok in Hu as (uid & Huid & Hu). apply with_int4_ok in Hu as [_ Hu].
  apply update_chk_ok in Hu as [_ ->]. eexists uid, _. split; [done|]. split; [done|].
  apply Forall2_fmap_r, Forall_Forall2_diag, Forall_forall. intros e _. cbv beta.
  destruct (emp_id e =?s uid) eqn:Euid; unfold compose; rewrite Euid; [|done].
  split.
  - column emp_first_name. by apply set_to_default.
  - column emp_last_name. by apply set_to_default.
  - column emp_department_id. by apply set_to_nullable.
  - column emp_designation_id. by apply set_to_nullable.
  - column emp_location_id. by apply set_to_nullable.
  - column emp_manager_id. by apply set_to_nullable.
  - column emp_employment_type. by apply set_to_default.
  - by column emp_notice_period_days.
  - column emp_probation_end_date. by apply set_to_nullable.
  - column emp_status. by apply set_to_default.
  - split_and!; [column emp_id|column emp_employee_id|column emp_user_id|column emp_joining_date
      |column emp_deleted_at]; done.
Qed.

(** An update is answered 200 or changes nothing. Answered 200, it was asked by
    an HR administrator and changed only the rows of the identifier given (none when
    nobody has it), there only the columns of the fields present, each to the field
    as the column reads it; the code, the account, the joining date and the deletion
    mark of an employee are never changed. *)
Theorem employee_update_partial E r n d : db_nil = false ->
  let x := run E (HandleUpdateEmployee r) n d in
  (db_of x = d /\ exists resp, reply x = Some resp /\ status resp <> StatusOK)
  \/ exists req uid l, body r = Some req /\ HasRole (claims r) ["SUPER_ADMIN"; "HR_ADMIN"] = true
      /\ uuid_in (urlParam r "id") = Some uid
      /\ reply x = Some (ok_json [("message", JStr "Employee updated")])
      /\ db_of x = tput employees l d
      /\ Forall2 (fun e e' => if emp_id e =?s uid then patched req e e' else e' = e) (tget employees d) l.
Proof.
  intros Hdb x. set (Q := fun (o : outcome Response) (d' : Database) =>
    (d' = d /\ exists resp, replied o = Some resp /\ status resp <> StatusOK)
    \/ exists req uid l, body r = Some req /\ HasRole (claims r) ["SUPER_ADMIN"; "HR_ADMIN"] = true
      /\ uuid_in (urlParam r "id") = Some uid
      /\ replied o = Some (ok_json [("message", JStr "Employee updated")]) /\ d' = tput employees l d
      /\ Forall2 (fun e e' => if emp_id e =?s uid then patched req e e' else e' = e) (tget employees d) l).
  apply (wp_run true E (HandleUpdateEmployee r) n d Q); [done|]. unfold HandleUpdateEmployee.
  assert (Herr : forall msg code, code <> StatusOK -> Q (Done (jsonError msg code)) d)
    by (intros msg code Hne; left; split; [done|]; by eexists).
  apply wp_bind, wp_return_if; [by intros _; left; split; [done|]; eexists|]. intros Hrole.
  apply negb_false_iff in Hrole. cbn [wp_then]. cbv zeta. destruct (body r) as [req|] eqn:Hb; [|by apply Herr].
  apply wp_bind, wp_return_if; [by intros _; apply (Herr _ StatusBadRequest)|]. intros _. cbn [wp_then].
  apply wp_bind, wp_exec; [congruence| |intros e _; by apply (Herr _ StatusInternalServerError)].
  intros c k d' (uid & l & Huid & -> & Hl)%update_employee_ok. right. by exists req, uid, l.
Qed.
(** ** The export *)

(** The employees of an export: all that are not deleted, by their code. *)
Definition exported (d : Database) : list EmpRow :=
  order_by (fun e e' => collate (emp_employee_id e) (emp_employee_id e')) (where_ undeleted (tget employees d)).

(** C21: the file of HandleExportCSV, read by a reader of CSV, has one record of ten
    fields per employee that is not deleted, in the order of their codes below the
    header. Commas, quotes and single line ends in a field come back; a field without CR
    comes back byte for byte, and one with CRLF has LF in its place. *)
Theorem export_reads_back E r n d resp :
  reply (run E (HandleExportCSV r) n d) = Some resp -> status resp = StatusOK ->
  exists table, content resp = BCsv table
  /\ csv.read_file (csv.write_file table)
     = Some (export_header :: map (fun e => map lf_text (export_row d e)) (exported d))
  /\ forall s, (csv.CR ∉ String.list_ascii_of_string s) -> lf_text s = s.
Proof.
  set (Q := fun (o : outcome Response) (_ : Database) => forall resp, replied o = Some resp -> status resp = StatusOK ->
    exists table, content resp = BCsv table
    /\ csv.read_file (csv.write_file table)
       = Some (export_header :: map (fun e => map lf_text (export_row d e)) (exported d))
    /\ forall s, (csv.CR ∉ String.list_ascii_of_string s) -> lf_text s = s).
  apply (wp_run true E (HandleExportCSV r) n d Q); [done|]. unfold HandleExportCSV.
  assert (Herr : forall msg code, code <> StatusOK -> Q (Done (jsonError msg code)) d)
    by (intros msg code Hne resp' [= <-] Hs; by destruct Hne).
  apply wp_bind, wp_return_if; [by intros _ resp' [= <-]|]. intros _. cbn [wp_then].
  apply wp_bind, wp_exec; [by intros m Hm resp'| |intros e _; by apply Herr].
  intros c rows d' [-> ->]%select_ok. cbn [wp_then]. apply wp_bind, wp_now. intros t. cbn [wp_then wp].
  intros resp' [= <-] _. eexists. split; [done|]. split; [|apply lf_text_plain]. rewrite (write_file_read 10); [|lia|].
  - cbn [map]. do 2 f_equal. by rewrite map_map.
  - constructor; [done|]. apply Forall_map, Forall_forall. by intros e _.
Qed.
End EmployeeProps.
