(* ===== verification/Jobs.v ===== *)
(** * internal/jobs: background jobs and their idempotency keys

    The job service keeps its state in memory behind a mutex: the history of
    executions, newest first, and the set of keys being executed. The statements
    of its programs are the sections between [mu.Lock()] and [mu.Unlock()], each
    atomic and reading the clock once; between them a request computes the job
    and reads the clock again, while other requests may enter. Times of this file
    are nanoseconds. *)

From S2P Require Import Prelude Float64 Go Auth Authz Calendar.
From stdpp Require Import gmap.

#[local] Open Scope Z_scope.
#[local] Open Scope prog_scope.

Definition millisecond : Z := 1000000.
Definition second_ns : Z := 1000 * millisecond.
Definition minute_ns : Z := 60 * second_ns.
Definition hour_ns : Z := 60 * minute_ns.

Record JobExecution := {
  je_ID : string;
  je_JobName : string;
  je_IdempotencyKey : string;
  je_Status : string;
  je_StartedAt : Z;
  je_CompletedAt : Z;
  je_DurationMs : Z;
  je_ItemsProcessed : Z;
  je_Summary : string;
  je_ErrorMessage : string
}.

Record TriggerJobRequest := { tj_JobName : string; tj_IdempotencyKey : string }.

(** [Service]: what the mutex protects. *)
Record JobService := {
  history : list JobExecution;
  active : gmap string bool
}.

(** [s.active[key]] *)
Definition is_active (s : JobService) (key : string) : bool := default false (active s !! key).

(** [t.Format("2006-01-02-15-04")], [Format("2006-01-02")] and [Format("2006-01")], in UTC *)
Definition day_ns : Z := 24 * hour_ns.
Definition format_day (t : Z) : string := date_text (t / day_ns).
Definition format_month (t : Z) : string :=
  let '(y, m, _) := civil (t / day_ns) in pad0 4 y +:+ "-" +:+ pad0 2 m.
Definition format_minute (t : Z) : string :=
  let s := t mod day_ns in
  format_day t +:+ "-" +:+ pad0 2 (s / hour_ns) +:+ "-" +:+ pad0 2 (s / minute_ns mod 60).

Definition seedDefaultHistory (now : Z) : list JobExecution :=
  [{| je_ID := "job-exec-101";
      je_JobName := "ATTENDANCE_NIGHTLY_CALCULATION";
      je_IdempotencyKey := "nightly-calc-" +:+ format_day now;
      je_Status := "SUCCESS";
      je_StartedAt := now - 24 * hour_ns;
      je_CompletedAt := now - 24 * hour_ns + 350 * millisecond;
      je_DurationMs := 350;
      je_ItemsProcessed := 169;
      je_Summary := "Processed 169 daily attendance punch status records.";
      je_ErrorMessage := "" |};
   {| je_ID := "job-exec-102";
      je_JobName := "MONTHLY_LEAVE_ACCRUAL";
      je_IdempotencyKey := "leave-accrual-" +:+ format_month now;
      je_Status := "SUCCESS";
      je_StartedAt := now - 48 * hour_ns;
      je_CompletedAt := now - 48 * hour_ns + 120 * millisecond;
      je_DurationMs := 120;
      je_ItemsProcessed := 169;
      je_Summary := "Credited monthly leave balance (+1.5 CL, +1.0 EL) for 169 active employees.";
      je_ErrorMessage := "" |}].

Definition NewService (now : Z) : JobService :=
  {| history := seedDefaultHistory now; active := ∅ |}.

(** A section under the mutex: it cannot fail. *)
Definition locked {B} (f : Z -> JobService -> B * JobService) : prog JobService B :=
  Sql (fun c s => Ok (f (sc_now c) s))
      (fun r => match r with Ok b => Ret b | Err e => Crash e end).

(** *** The first section of [ExecuteJob] *)

Inductive admission : Type :=
  | Skip (h : JobExecution)
  | Busy
  | Start (exec : JobExecution).

Definition window : Z := 5 * minute_ns.

(** The entry of the history that makes the loop return. *)
Definition recent (now : Z) (key : string) (h : JobExecution) : bool :=
  (je_IdempotencyKey h =?s key) && (je_Status h =?s "SUCCESS") && (now - je_CompletedAt h <? window)%Z.

Definition running_exec (now : Z) (jobName key : string) : JobExecution :=
  {| je_ID := "job-exec-" +:+ itoa now; je_JobName := jobName; je_IdempotencyKey := key;
     je_Status := "RUNNING"; je_StartedAt := now; je_CompletedAt := 0; je_DurationMs := 0;
     je_ItemsProcessed := 0; je_Summary := ""; je_ErrorMessage := "" |}.

Definition admit_job (jobName key : string) (now : Z) (s : JobService) : admission * JobService :=
  match List.find (recent now key) (history s) with
  | Some h => (Skip h, s)
  | None =>
      if is_active s key then (Busy, s)
      else (Start (running_exec now jobName key),
            {| history := history s; active := <[key := true]> (active s) |})
  end.

Definition skipped_exec (h : JobExecution) : JobExecution :=
  {| je_ID := je_ID h; je_JobName := je_JobName h; je_IdempotencyKey := je_IdempotencyKey h;
     je_Status := "SKIPPED"; je_StartedAt := je_StartedAt h; je_CompletedAt := je_CompletedAt h;
     je_DurationMs := je_DurationMs h; je_ItemsProcessed := je_ItemsProcessed h;
     je_Summary := "Job execution skipped due to active idempotency key deduplication.";
     je_ErrorMessage := je_ErrorMessage h |}.

(** *** The job itself: [itemsProcessed] and [summary] by name *)

Definition job_result (jobName : string) : Z * string :=
  if jobName =?s "ATTENDANCE_NIGHTLY_CALCULATION" then
    (169, "Nightly attendance shift calculation completed. 169 employee punch logs processed.")
  else if jobName =?s "MONTHLY_LEAVE_ACCRUAL" then
    (169, "Monthly leave accrual credited 1.5 Casual Leave & 1.0 Earned Leave days per active employee.")
  else if jobName =?s "AUTO_PAYROLL_DRAFT_RUN" then
    (169, "Pre-generated draft payroll matrix for active cycle. Gross: ₹1,24,50,000, Deductions: ₹18,90,000.")
  else (1, "Executed generic background task " +:+ jobName +:+ " successfully.").

(** [err] is never assigned: every execution succeeds. *)
Definition completed_exec (exec : JobExecution) (completedTime : Z) : JobExecution :=
  let '(items, summary) := job_result (je_JobName exec) in
  {| je_ID := je_ID exec; je_JobName := je_JobName exec; je_IdempotencyKey := je_IdempotencyKey exec;
     je_Status := "SUCCESS"; je_StartedAt := je_StartedAt exec; je_CompletedAt := completedTime;
     je_DurationMs := Z.quot (completedTime - je_StartedAt exec) millisecond;
     je_ItemsProcessed := items; je_Summary := summary; je_ErrorMessage := je_ErrorMessage exec |}.

(** *** The second section *)

Definition record_job (exec : JobExecution) (_ : Z) (s : JobService) : unit * JobService :=
  (tt, {| history := exec :: history s; active := delete (je_IdempotencyKey exec) (active s) |}).

(** From the unlocking of the first section to the end. *)
Definition finish_job (exec : JobExecution) : prog JobService (result JobExecution) :=
  completedTime <- now;
  let exec := completed_exec exec completedTime in
  _ <- locked (record_job exec);
  Ret (Ok exec).

Definition ExecuteJob (jobName idempotencyKey : string) : prog JobService (result JobExecution) :=
  a <- locked (admit_job jobName idempotencyKey);
  match a with
  | Skip h => Ret (Ok (skipped_exec h))
  | Busy => Ret (Err ("job with idempotency key " +:+ idempotencyKey +:+ " is already currently running"))
  | Start exec => finish_job exec
  end.

(** *** Handlers *)

Definition exec_json (e : JobExecution) : json :=
  JObj ([("id", JStr (je_ID e)); ("job_name", JStr (je_JobName e));
         ("idempotency_key", JStr (je_IdempotencyKey e)); ("status", JStr (je_Status e));
         ("started_at", JTime (je_StartedAt e)); ("completed_at", JTime (je_CompletedAt e));
         ("duration_ms", JInt (je_DurationMs e)); ("items_processed", JInt (je_ItemsProcessed e));
         ("summary", JStr (je_Summary e))] ++ opt_field "error_message" (je_ErrorMessage e)).

Definition trigger_reply (r : result JobExecution) : Response :=
  match r with
  | Ok exec => ok_json [("data", exec_json exec)]
  | Err e => fail_json StatusInternalServerError e
  end.

Definition job_roles : list string := ["SUPER_ADMIN"; "HR_ADMIN"; "PAYROLL_ADMIN"].

Definition HandleTriggerJob (r : Request TriggerJobRequest) : prog JobService Response :=
  return_if (negb (HasRole (claims r) job_roles))
    (ForbiddenResponse "FORBIDDEN_ROLE" "Only administrators can trigger background automation jobs.");;;
  match body r with
  | None => Ret (http_error "invalid job payload" StatusBadRequest)
  | Some req =>
      return_if (tj_JobName req =?s "") (http_error "invalid job payload" StatusBadRequest);;;
      key <- (if tj_IdempotencyKey req =?s ""
              then t <- now; Ret (tj_JobName req +:+ "-" +:+ format_minute t)
              else Ret (tj_IdempotencyKey req));
      exec <- ExecuteJob (tj_JobName req) key;
      Ret (trigger_reply exec)
  end.

Definition HandleGetJobHistory : prog JobService Response :=
  historyCopy <- locked (fun _ s => (history s, s));
  Ret (ok_json [("data", JArr (map exec_json historyCopy))]).

Example format_ex :
  format_minute ((days_of 2026 9 4 * 86400 + 45296) * second_ns) = "2026-09-04-12-34"
  /\ format_month (days_of 2026 9 4 * day_ns) = "2026-09".
Proof. by vm_compute. Qed.
