(* ===== verification/JobsProps.v ===== *)
(** * Theorems on the job service

    [Spec] is what the idempotency keys promise, without the mutex, the history
    list or the requests: an execution of a key starts when the key is not being
    executed and its last success is five minutes old. The service is proved to
    refine it under every interleaving of triggers, and to answer every trigger
    that is scheduled. *)

From S2P Require Import Prelude Float64 Go Fairness Auth Authz Calendar Jobs.
From stdpp Require Import gmap.

#[local] Open Scope Z_scope.

(** ** The specification *)

Module Spec.

(** An execution: key, start and completion. *)
Record Execution := { x_key : string; x_start : Z; x_end : Z }.

Record State := {
  running : gmap string Z;
  completed : list Execution
}.

(** The key may be executed at time [t]. *)
Definition allowed (s : State) (k : string) (t : Z) : Prop :=
  running s !! k = None
  /\ forall x, x ∈ completed s -> x_key x = k -> x_end x + window <= t.

Inductive step : State -> State -> Prop :=
  | step_start s k t :
      allowed s k t -> step s {| running := <[k := t]> (running s); completed := completed s |}
  | step_complete s k t t' :
      running s !! k = Some t ->
      step s {| running := delete k (running s);
                completed := {| x_key := k; x_start := t; x_end := t' |} :: completed s |}.

Definition steps : relation State := rtc step.

(** Executions of the same key, the newer first, are five minutes apart. *)
Fixpoint spaced (l : list Execution) : Prop :=
  match l with
  | [] => True
  | x :: l' => (forall y, y ∈ l' -> x_key y = x_key x -> x_end y + window <= x_start x) /\ spaced l'
  end.

Definition ok (s : State) : Prop :=
  spaced (completed s)
  /\ forall k t y, running s !! k = Some t -> y ∈ completed s -> x_key y = k -> x_end y + window <= t.

Lemma step_ok s s' : step s s' -> ok s -> ok s'.
Proof.
  intros Hst [Hsp Hrun]. destruct Hst as [s k t [Hk Hold]|s k t t' Hk]; split; simpl.
  - done.
  - intros k' t' y. destruct (decide (k = k')) as [->|Hne].
    + rewrite lookup_insert_eq. intros [= <-]. eauto.
    + rewrite lookup_insert_ne by done. eauto.
  - split; [|done]. intros y Hy Hyk. by eapply Hrun.
  - intros k' t2 y Hk' Hy Hyk. apply lookup_delete_Some in Hk' as [Hne Hk'].
    apply elem_of_cons in Hy as [->|Hy]; [done|]. by eapply Hrun.
Qed.

Lemma steps_ok s s' : steps s s' -> ok s -> ok s'.
Proof. induction 1; eauto using step_ok. Qed.
End Spec.

(** ** The service's state seen as a state of the specification *)

Definition execution (e : JobExecution) : Spec.Execution :=
  {| Spec.x_key := je_IdempotencyKey e; Spec.x_start := je_StartedAt e; Spec.x_end := je_CompletedAt e |}.

(** The history lists the completed executions, the active keys are the running ones. *)
Definition represents (s : JobService) (a : Spec.State) : Prop :=
  Spec.completed a = map execution (history s)
  /\ forall k, is_active s k = true <-> is_Some (Spec.running a !! k).

Definition spec_init (t : Z) : Spec.State :=
  {| Spec.running := ∅; Spec.completed := map execution (seedDefaultHistory t) |}.

(** ** Where a request is

    The execution it has started and not yet recorded, if any. *)
Inductive phase : prog JobService Response -> option JobExecution -> Prop :=
  | ph_finished p r : answered p = Some r -> phase p None
  | ph_clock k : (forall t, phase (k t) None) -> phase (Clock k) None
  | ph_enter name key :
      phase (bind (ExecuteJob name key) (fun e => Ret (trigger_reply e))) None
  | ph_computing e :
      phase (bind (finish_job e) (fun e => Ret (trigger_reply e))) (Some e)
  | ph_leaving e t :
      phase (bind (_ <- locked (record_job (completed_exec e t)); Ret (Ok (completed_exec e t)))%prog
                  (fun e => Ret (trigger_reply e))) (Some e).

Lemma trigger_phase r : phase (HandleTriggerJob r) None.
Proof.
  unfold HandleTriggerJob. destruct (HasRole _ _); [|by eapply ph_finished]. simpl.
  destruct (body r) as [req|]; [|by eapply ph_finished].
  destruct (tj_JobName req =?s ""); [by eapply ph_finished|]. simpl.
  destruct (tj_IdempotencyKey req =?s ""); [|apply ph_enter].
  apply ph_clock. intros t. apply ph_enter.
Qed.

(** The key an execution in flight holds. *)
Definition owns (o : option JobExecution) (k : string) : Prop :=
  exists e, o = Some e /\ je_IdempotencyKey e = k.

(** The requests in flight against the running keys of [a]: each running key
    belongs to one request, that started it at the recorded time. *)
Record owners (os : list (option JobExecution)) (a : Spec.State) : Prop := {
  own_running i e : os !! i = Some (Some e) ->
    Spec.running a !! je_IdempotencyKey e = Some (je_StartedAt e);
  own_owner k : is_Some (Spec.running a !! k) -> exists i e,
    os !! i = Some (Some e) /\ je_IdempotencyKey e = k;
  own_unique i j e e' : os !! i = Some (Some e) -> os !! j = Some (Some e') ->
    je_IdempotencyKey e = je_IdempotencyKey e' -> i = j
}.

Definition simulates (cfg : config) (a : Spec.State) : Prop :=
  represents (snd cfg) a
  /\ Forall (fun h => je_Status h = "SUCCESS") (history (snd cfg))
  /\ exists os, Forall2 phase (fst cfg) os /\ owners os a.

Lemma owners_start os a i t name key : os !! i = Some None -> Spec.running a !! key = None ->
  owners os a ->
  owners (<[i := Some (running_exec t name key)]> os)
         {| Spec.running := <[key := t]> (Spec.running a); Spec.completed := Spec.completed a |}.
Proof.
  intros Hi Hk [Hr Ho Hu]. pose proof (lookup_lt_Some _ _ _ Hi) as Hlt.
  assert (Hnk : forall j e, os !! j = Some (Some e) -> je_IdempotencyKey e <> key).
  { intros j e Hj <-. apply Hr in Hj. congruence. }
  split; simpl.
  - intros j e [(<- & [= <-] & _)|[_ Hj]]%list_lookup_insert_Some; [apply lookup_insert_eq|].
    rewrite lookup_insert_ne; [by apply (Hr j)|]. intros E. by apply (Hnk j e).
  - intros k Hk'. destruct (decide (key = k)) as [<-|Hne].
    + exists i. eexists. split; [by apply list_lookup_insert_eq|done].
    + rewrite lookup_insert_ne in Hk' by done. destruct (Ho k Hk') as (j & e & Hj & He).
      exists j, e. split; [|done]. rewrite list_lookup_insert_ne; [done|]. intros <-. congruence.
  - intros j j' e e' [(<- & [= <-] & _)|[_ Hj]]%list_lookup_insert_Some
      [(<- & [= <-] & _)|[_ Hj']]%list_lookup_insert_Some E; [done| | |by eapply Hu].
    + exfalso. by apply (Hnk j' e').
    + exfalso. by apply (Hnk j e).
Qed.

Lemma owners_complete os a i e l : os !! i = Some (Some e) -> owners os a ->
  owners (<[i := None]> os)
         {| Spec.running := delete (je_IdempotencyKey e) (Spec.running a); Spec.completed := l |}.
Proof.
  intros Hi [Hr Ho Hu]. split; simpl.
  - intros j e' [(_ & [=] & _)|[Hij He']]%list_lookup_insert_Some.
    rewrite lookup_delete_ne; [by apply (Hr j)|]. intros E. apply Hij. by eapply Hu.
  - intros k. rewrite lookup_delete_is_Some. intros [Hne Hk].
    destruct (Ho k Hk) as (j & e' & Hje & He'). exists j, e'. split; [|done].
    rewrite list_lookup_insert_ne; [done|]. intros <-. congruence.
  - intros j j' e1 e2 [(_ & [=] & _)|[_ H1]]%list_lookup_insert_Some
      [(_ & [=] & _)|[_ H2]]%list_lookup_insert_Some. by apply Hu.
Qed.

(** *** Each turn of a request is a step of the specification, or none *)

Lemma represents_start s a key t : represents s a ->
  represents {| history := history s; active := <[key := true]> (active s) |}
             {| Spec.running := <[key := t]> (Spec.running a); Spec.completed := Spec.completed a |}.
Proof.
  intros [Hc Ha]. split; [done|]. intros k. unfold is_active in *. simpl.
  destruct (decide (key = k)) as [<-|Hne].
  - rewrite !lookup_insert_eq. naive_solver.
  - rewrite !lookup_insert_ne by done. apply Ha.
Qed.

Lemma represents_complete s a e : represents s a ->
  represents (snd (record_job e 0 s))
             {| Spec.running := delete (je_IdempotencyKey e) (Spec.running a);
                Spec.completed := execution e :: Spec.completed a |}.
Proof.
  intros [Hc Ha]. split; [simpl; by rewrite Hc|]. intros k. unfold is_active in *. simpl.
  destruct (decide (je_IdempotencyKey e = k)) as [<-|Hne].
  - rewrite !lookup_delete_eq. simpl. split; [done|]. by intros [].
  - rewrite !lookup_delete_ne by done. apply Ha.
Qed.

(** An admitted key may be executed. *)
Lemma admit_allowed s a key t : represents s a ->
  Forall (fun h => je_Status h = "SUCCESS") (history s) ->
  List.find (recent t key) (history s) = None -> is_active s key = false ->
  Spec.allowed a key t.
Proof.
  intros [Hc Ha] Hs Hf Hk. split.
  - destruct (Spec.running a !! key) eqn:E; [|done].
    assert (is_active s key = true) by (apply Ha; by rewrite E). congruence.
  - intros x Hx Hxk. rewrite Hc in Hx. apply list_elem_of_fmap in Hx as (h & -> & Hh).
    simpl in *. apply find_none_Forall in Hf. rewrite Forall_forall in Hf, Hs.
    specialize (Hf h Hh). specialize (Hs h Hh). unfold recent in Hf.
    rewrite Hxk, Hs, !eqb_refl_s in Hf. simpl in Hf. bool_prop. lia.
Qed.

Lemma completed_execution e t :
  execution (completed_exec e t) =
  {| Spec.x_key := je_IdempotencyKey e; Spec.x_start := je_StartedAt e; Spec.x_end := t |}
  /\ je_Status (completed_exec e t) = "SUCCESS".
Proof. unfold completed_exec. by destruct (job_result _). Qed.

Lemma simulates_turn ps a os i p p' s' o o' a' :
  ps !! i = Some p -> os !! i = Some o -> Forall2 phase ps os ->
  phase p' o' -> owners (<[i := o']> os) a' -> represents s' a' ->
  Forall (fun h => je_Status h = "SUCCESS") (history s') ->
  Spec.steps a a' ->
  exists a'', Spec.steps a a'' /\ simulates (<[i := p']> ps, s') a''.
Proof.
  intros Hp Ho Hph Hp' Hown Hrep Hs Hst. exists a'. split; [done|]. split; [done|]. split; [done|].
  exists (<[i := o']> os). split; [|done]. by apply Forall2_insert.
Qed.

Lemma simulates_step cfg ic a : simulates cfg a ->
  exists a', Spec.steps a a' /\ simulates (step_at cfg ic) a'.
Proof.
  intros Hsim. destruct cfg as [ps s], ic as [i c]. simpl.
  destruct (ps !! i) as [p|] eqn:Hp; [|by exists a].
  pose proof Hsim as (Hrep & Hs & os & Hph & Hown). simpl in *.
  destruct (Forall2_lookup_l _ _ _ _ _ Hph Hp) as (o & Ho & Hpo).
  assert (Hidle : forall p', o = None -> phase p' None ->
    exists a'', Spec.steps a a'' /\ simulates (<[i := p']> ps, s) a'').
  { intros p' -> Hp'. eapply simulates_turn; eauto; [|reflexivity]. by rewrite list_insert_id. }
  destruct Hpo as [p r Hr|k Hk|name key|e|e t]; simpl.
  - destruct p; simplify_eq/=; by exists a.
  - by apply Hidle.
  - unfold admit_job. destruct (List.find _ _) as [h|] eqn:Hf; simpl; [by apply Hidle; [|eapply ph_finished]|].
    destruct (is_active s key) eqn:Hk; simpl; [by apply Hidle; [|eapply ph_finished]|].
    pose proof (admit_allowed s a key (sc_now c) Hrep Hs Hf Hk) as Hal.
    eapply simulates_turn; [exact Hp|exact Ho|exact Hph|apply (ph_computing (running_exec _ name key))| | | |].
    + eapply owners_start; [done|apply Hal|done].
    + by apply represents_start.
    + done.
    + apply rtc_once. by apply Spec.step_start.
  - eapply simulates_turn; [exact Hp|exact Ho|exact Hph|apply (ph_leaving e)|
      rewrite list_insert_id by done; exact Hown|done|done|reflexivity].
  - destruct (completed_execution e t) as [He Hst].
    eapply simulates_turn; [exact Hp|exact Ho|exact Hph| | | | |].
    + by eapply ph_finished.
    + eapply (owners_complete os a i e); eauto.
    + pose proof (represents_complete s a (completed_exec e t) Hrep) as Hc. rewrite He in Hc.
      replace (je_IdempotencyKey (completed_exec e t)) with (je_IdempotencyKey e) in Hc; [exact Hc|].
      by injection He.
    + constructor; done.
    + apply rtc_once. apply Spec.step_complete. by eapply own_running.
Qed.

Lemma simulates_run l cfg a : simulates cfg a ->
  exists a', Spec.steps a a' /\ simulates (run_schedule l cfg) a'.
Proof.
  revert cfg a. induction l as [|ic l IH]; intros cfg a H; simpl; [by exists a|].
  destruct (simulates_step cfg ic a H) as (a1 & H1 & Hs1).
  destruct (IH _ _ Hs1) as (a2 & H2 & Hs2). exists a2. split; [|done]. by etransitivity.
Qed.

(** The service just started, with one trigger per request. *)
Definition triggers (t : Z) (reqs : list (Request TriggerJobRequest)) : config :=
  (map HandleTriggerJob reqs, NewService t).

Lemma simulates_init t reqs : simulates (triggers t reqs) (spec_init t).
Proof.
  split; [|split].
  - split; [done|]. intros k. unfold is_active. simpl. rewrite !lookup_empty. simpl.
    split; [done|]. by intros [].
  - by repeat constructor.
  - exists (map (fun _ => None) reqs). split.
    + simpl. apply Forall2_fmap, Forall_Forall2_diag, Forall_forall. intros r _. apply trigger_phase.
    + split; simpl.
      * intros i e Hi. apply list_lookup_fmap_Some in Hi as (? & [=] & ?).
      * intros k [? Hk]. by rewrite lookup_empty in Hk.
      * intros i j e e' Hi. apply list_lookup_fmap_Some in Hi as (? & [=] & ?).
Qed.

Lemma triggers_simulate t reqs l : exists a,
  Spec.steps (spec_init t) a /\ simulates (run_schedule l (triggers t reqs)) a.
Proof. apply simulates_run, simulates_init. Qed.

Lemma spec_init_ok t : Spec.ok (spec_init t).
Proof.
  split; simpl.
  - split; [|split; [|done]]; intros y.
    + intros ->%list_elem_of_singleton E. by exfalso.
    + by intros ?%not_elem_of_nil.
  - intros k t' y Hk. by rewrite lookup_empty in Hk.
Qed.

(** ** The service refines its specification *)

(** C6: from its start and under every interleaving of any number of triggers, the
    job service does nothing that the idempotency specification does not allow:
    its history is that of a run of the specification, and its active keys are
    the keys this run is executing. *)
Theorem jobs_refine_spec t reqs l : exists a,
  Spec.steps (spec_init t) a /\ represents (snd (run_schedule l (triggers t reqs))) a.
Proof. destruct (triggers_simulate t reqs l) as (a & Ha & Hs & _). eauto. Qed.

(** C26: under every interleaving, two executions of one idempotency key never
    overlap: the later of them starts at least five minutes after the end of the
    earlier. *)
Theorem executions_spaced t reqs l :
  Spec.spaced (map execution (history (snd (run_schedule l (triggers t reqs))))).
Proof.
  destruct (triggers_simulate t reqs l) as (a & Ha & [Hc _] & _). rewrite <- Hc.
  by apply (Spec.steps_ok _ _ Ha), spec_init_ok.
Qed.

(** ** Every trigger is answered *)

Lemma finish_within e : within 2 (finish_job e).
Proof. simpl. intros t [?|?]; exact I. Qed.

Lemma ExecuteJob_within name key : within 3 (ExecuteJob name key).
Proof. intros [[h| |e]|m]; simpl; auto. intros t [?|?]; exact I. Qed.

Lemma trigger_within r : within 4 (HandleTriggerJob r).
Proof.
  unfold HandleTriggerJob. destruct (HasRole _ _); [|exact I]. simpl.
  destruct (body r) as [req|]; [|exact I]. destruct (tj_JobName req =?s ""); [exact I|]. simpl.
  assert (Hx : forall key, within 3 (bind (ExecuteJob (tj_JobName req) key)
                                         (fun e => Ret (trigger_reply e)))).
  { intros key. apply (within_bind 3 0); [apply ExecuteJob_within|done]. }
  destruct (tj_IdempotencyKey req =?s ""); [intros t; apply Hx|].
  eapply within_mono; [|apply Hx]. lia.
Qed.

Lemma phase_finished p o : phase p o -> finished p = true -> is_Some (answered p) /\ o = None.
Proof. by destruct 1. Qed.

(** C25: when every request gets four turns, whatever the order and whatever the
    others do between them, every trigger has been answered and no key is left
    active: an execution cannot block its key. *)
Theorem scheduled_triggers_answered t reqs l :
  (forall i, (i < length reqs)%nat -> (4 <= turns i l)%nat) ->
  let '(ps, s) := run_schedule l (triggers t reqs) in
  Forall (fun p => is_Some (answered p)) ps /\ forall k, is_active s k = false.
Proof.
  intros Hl. destruct (triggers_simulate t reqs l) as (a & _ & [_ Hrep] & _ & os & Hph & Hown).
  pose proof (run_schedule_length l (triggers t reqs)) as Hlen.
  pose proof (fun i => run_schedule_finishes l (triggers t reqs) i) as Hfin.
  destruct (run_schedule l (triggers t reqs)) as [ps s]. simpl in *. rewrite length_map in Hlen.
  assert (Hdone : forall i p o, ps !! i = Some p -> os !! i = Some o -> is_Some (answered p) /\ o = None).
  { intros i p o Hp Ho. pose proof (Forall2_lookup_lr _ _ _ _ _ _ Hph Hp Ho) as Hpo.
    apply phase_finished; [done|]. pose proof (lookup_lt_Some _ _ _ Hp) as Hi.
    rewrite Hlen in Hi. destruct (lookup_lt_is_Some_2 reqs i Hi) as [r Hr].
    destruct (Hfin i (HandleTriggerJob r) 4%nat) as (p' & Hp' & Hf);
      [by rewrite list_lookup_fmap, Hr|apply trigger_within|by apply Hl|].
    congruence. }
  split.
  - apply Forall_lookup. intros i p Hp.
    destruct (Forall2_lookup_l _ _ _ _ _ Hph Hp) as (o & Ho & _). by apply (Hdone i p o).
  - intros k. destruct (is_active s k) eqn:Hk; [|done]. exfalso. apply Hrep in Hk.
    destruct (own_owner _ _ Hown k Hk) as (i & e & Hi & _).
    destruct (Forall2_lookup_r _ _ _ _ _ Hph Hi) as (p & Hp & _).
    by destruct (Hdone i p (Some e) Hp Hi).
Qed.

(** ** What a trigger does *)

(** A request that the handler admits, with a key of its own. *)
Definition admissible (r : Request TriggerJobRequest) (req : TriggerJobRequest) : Prop :=
  HasRole (claims r) job_roles = true /\ body r = Some req
  /\ tj_JobName req <> "" /\ tj_IdempotencyKey req <> "".

Lemma run_trigger E r req n s : reliable E -> admissible r req ->
  run E (HandleTriggerJob r) n s =
  match admit_job (tj_JobName req) (tj_IdempotencyKey req) (sc_now (env_ctx E n)) s with
  | (Skip h, s') => (Done (trigger_reply (Ok (skipped_exec h))), S n, s')
  | (Busy, s') =>
      (Done (fail_json StatusInternalServerError
        ("job with idempotency key " +:+ tj_IdempotencyKey req +:+ " is already currently running")), S n, s')
  | (Start e, s') =>
      let e := completed_exec e (env_clock E (S n)) in
      (Done (trigger_reply (Ok e)), S (S (S n)), snd (record_job e 0 s'))
  end.
Proof.
  intros HE (Hrole & Hb & Hname & Hkey). unfold HandleTriggerJob. rewrite Hrole, Hb. simpl.
  apply String.eqb_neq in Hname, Hkey. rewrite Hname, Hkey. simpl.
  rewrite answer_reliable by done. simpl.
  destruct (admit_job _ _ _ s) as [[h| |e] s']; try reflexivity.
  simpl. by rewrite answer_reliable by done.
Qed.

(** A trigger whose key is neither active nor recently successful runs the job
    once: it is logged as a success, answered, and its key is free again; the same
    trigger less than five minutes after the completion is answered with the
    logged execution, marked SKIPPED, and changes nothing. *)
Theorem trigger_runs_once E E' r req n n' s :
  reliable E -> reliable E' -> admissible r req ->
  is_active s (tj_IdempotencyKey req) = false ->
  Forall (fun h => recent (sc_now (env_ctx E n)) (tj_IdempotencyKey req) h = false) (history s) ->
  sc_now (env_ctx E' n') - env_clock E (S n) < window ->
  let first := run E (HandleTriggerJob r) n s in
  let second := run E' (HandleTriggerJob r) n' (db_of first) in
  exists e,
    je_Status e = "SUCCESS" /\ je_IdempotencyKey e = tj_IdempotencyKey req
    /\ reply first = Some (ok_json [("data", exec_json e)])
    /\ history (db_of first) = e :: history s
    /\ (forall k, is_active (db_of first) k = is_active s k)
    /\ reply second = Some (ok_json [("data", exec_json (skipped_exec e))])
    /\ db_of second = db_of first.
Proof.
  intros HE HE' Had Hact Hrec Hwin first second.
  set (key := tj_IdempotencyKey req) in *. set (t1 := env_clock E (S n)) in *.
  set (e := completed_exec (running_exec (sc_now (env_ctx E n)) (tj_JobName req) key) t1).
  assert (He : execution e = {| Spec.x_key := key; Spec.x_start := sc_now (env_ctx E n); Spec.x_end := t1 |}
    /\ je_Status e = "SUCCESS") by apply completed_execution.
  destruct He as [[= Hk _ Hend] Hst].
  assert (Hf : List.find (recent (sc_now (env_ctx E n)) key) (history s) = None).
  { destruct (List.find _ _) as [h|] eqn:Ef; [|done].
    apply find_some_elem in Ef as [Hin Hh]. rewrite Forall_forall in Hrec. by rewrite Hrec in Hh. }
  assert (Hfirst : first = (Done (trigger_reply (Ok e)), S (S (S n)), snd (record_job e 0
    {| history := history s; active := <[key := true]> (active s) |}))).
  { unfold first. rewrite (run_trigger _ _ _ _ _ HE Had). fold key. unfold admit_job.
    by rewrite Hf, Hact. }
  assert (Hsecond : second = (Done (trigger_reply (Ok (skipped_exec e))), S n', db_of first)).
  { unfold second. rewrite (run_trigger _ _ _ _ _ HE' Had). fold key. rewrite Hfirst. unfold admit_job. simpl.
    replace (recent (sc_now (env_ctx E' n')) key e) with true; [done|]. symmetry. unfold recent.
    rewrite Hk, Hst, Hend, !eqb_refl_s. apply Z.ltb_lt. exact Hwin. }
  exists e. rewrite Hsecond, Hfirst. split_and!; try done.
  intros k. unfold is_active in *. simpl. rewrite Hk. destruct (decide (key = k)) as [<-|Hne].
  - by rewrite lookup_delete_eq.
  - by rewrite lookup_delete_ne, lookup_insert_ne.
Qed.

(** ** Keys made by the server

    Without a key in the request the server makes one from the minute of its
    clock, so its window is that minute and not the five minutes of the check. *)

Definition keyless_trigger : Request TriggerJobRequest :=
  {| claims := Some {| UserID := "u"; Email := "e"; Roles := ["HR_ADMIN"]; Scope := "ORGANIZATION" |};
     urlParam := fun _ => ""; query := fun _ => "";
     body := Some {| tj_JobName := "MONTHLY_LEAVE_ACCRUAL"; tj_IdempotencyKey := "" |} |}.

Definition clock_env (t : Z) : Env :=
  {| env_fail := fun _ => None; env_ctx := fun _ => {| sc_now := t; sc_uuid := "" |};
     env_clock := fun _ => t; env_rand := fun _ => "" |}.

(** Two keyless triggers of the same job, two seconds apart around the turn of a
    minute, both execute it. *)
Example default_key_reruns :
  let t := (days_of 2026 9 4 * 86400 + 43259) * second_ns in
  let s0 := NewService t in
  let s1 := db_of (run (clock_env t) (HandleTriggerJob keyless_trigger) 0 s0) in
  let s2 := db_of (run (clock_env (t + 2 * second_ns)) (HandleTriggerJob keyless_trigger) 0 s1) in
  map (fun h => (je_IdempotencyKey h, je_Status h)) (take 2 (history s2)) =
    [("MONTHLY_LEAVE_ACCRUAL-2026-09-04-12-01", "SUCCESS");
     ("MONTHLY_LEAVE_ACCRUAL-2026-09-04-12-00", "SUCCESS")]
  /\ je_CompletedAt (nth 0 (history s2) (running_exec 0 "" "")) - t < window.
Proof. vm_compute. done. Qed.
