(* ===== verification/Security.v ===== *)
(** * internal/security: scopes by role, masking, and the log of data accesses *)

From S2P Require Import Prelude Float64 Go Sql Schema Calendar Auth Authz.

#[local] Open Scope prog_scope.

(** ** Pure rules *)

(** [strings.ToUpper], as far as its result can be an ASCII word: the ASCII
    letters and the two other runes whose upper case is one (U+0131, U+017F). *)
Fixpoint upper_bytes (l : list ascii) : list ascii :=
  match l with
  | [] => []
  | c :: l' =>
      let n := nat_of_ascii c in
      let c' := if Nat.leb 97 n && Nat.leb n 122 then ascii_of_nat (n - 32) else c in
      match l' with
      | c2 :: l2 =>
          if Nat.eqb n 196 && Nat.eqb (nat_of_ascii c2) 177 then "I"%char :: upper_bytes l2
          else if Nat.eqb n 197 && Nat.eqb (nat_of_ascii c2) 191 then "S"%char :: upper_bytes l2
          else c' :: upper_bytes l'
      | [] => [c']
      end
  end.

Definition ToUpper (s : string) : string :=
  String.string_of_list_ascii (upper_bytes (String.list_ascii_of_string s)).

Example ToUpper_ex : ToUpper "Tax_id" = "TAX_ID".
Proof. by vm_compute. Qed.

Definition EvaluateDataScope (role : string) : string :=
  let upper := ToUpper (TrimSpace role) in
  if mem_s upper ["SUPER_ADMIN"; "HR_ADMIN"; "ADMIN"] then "ALL"
  else if mem_s upper ["MANAGER"; "LEAD"] then "DEPARTMENT"
  else "SELF".

(** [strings.Repeat] of an asterisk *)
Definition stars (n : nat) : string := String.string_of_list_ascii (repeat "*"%char n).

(** The slices [s[:n]] and [s[n:]] of bytes, for [n <= len(s)]. *)
Definition prefix_of (n : nat) (s : string) : string := String.substring 0 n s.
Definition suffix_from (n : nat) (s : string) : string :=
  String.substring n (String.length s - n) s.

Definition MaskSensitiveField (value fieldType : string) : string :=
  let val := TrimSpace value in
  let len := String.length val in
  let type := ToUpper fieldType in
  if val =?s "" then "" else
  if type =?s "BANK_ACCOUNT" then
    if Nat.leb len 4 then "****" else stars (len - 4) +:+ suffix_from (len - 4) val
  else if mem_s type ["TAX_ID"; "SSN"; "PAN"] then
    if Nat.leb len 4 then "****"
    else prefix_of 2 val +:+ stars (len - 4) +:+ suffix_from (len - 2) val
  else if type =?s "SALARY" then "[RESTRICTED - ADMIN ONLY]"
  else if type =?s "EMAIL" then
    match Split1 "@" val with
    | [local; domain] =>
        if Nat.leb (String.length local) 2 then "***@***.com"
        else prefix_of 2 local +:+ "***@" +:+ domain
    | _ => "***@***.com"
    end
  else val.

(** The repository's own tests of the two functions. *)
Example security_test :
  map EvaluateDataScope ["SUPER_ADMIN"; "HR_ADMIN"; "MANAGER"; "EMPLOYEE"] = ["ALL"; "ALL"; "DEPARTMENT"; "SELF"]
  /\ MaskSensitiveField "123456789012" "BANK_ACCOUNT" = "********9012"
  /\ MaskSensitiveField "987654321" "TAX_ID" = "98*****21"
  /\ MaskSensitiveField "150000" "SALARY" = "[RESTRICTED - ADMIN ONLY]"
  /\ MaskSensitiveField "aarav@company.com" "EMAIL" = "aa***@company.com".
Proof. by vm_compute. Qed.

(** ** Data *)

Record DataAccessLog := {
  al_ID : string; al_UserID : string; al_UserEmail : string; al_UserRole : string;
  al_Module : string; al_Action : string; al_ResourceID : string; al_IPAddress : string;
  al_UserAgent : string; al_AccessedAt : string
}.

Definition access_json (l : DataAccessLog) : json :=
  JObj ([("id", JStr (al_ID l)); ("user_id", JStr (al_UserID l))]
        ++ opt_field "user_email" (al_UserEmail l) ++ opt_field "user_role" (al_UserRole l)
        ++ [("module", JStr (al_Module l)); ("action", JStr (al_Action l))]
        ++ opt_field "resource_id" (al_ResourceID l) ++ opt_field "ip_address" (al_IPAddress l)
        ++ opt_field "user_agent" (al_UserAgent l) ++ [("accessed_at", JStr (al_AccessedAt l))]).

Record RbacScopePolicy := {
  rp_Role : string; rp_Module : string; rp_Scope : string; rp_CanReadSensitive : bool;
  rp_CanExport : bool; rp_AllowedActions : list string
}.

Definition policy_json (p : RbacScopePolicy) : json :=
  JObj [("role", JStr (rp_Role p)); ("module", JStr (rp_Module p)); ("scope", JStr (rp_Scope p));
        ("can_read_sensitive", JBool (rp_CanReadSensitive p)); ("can_export", JBool (rp_CanExport p));
        ("allowed_actions", JArr (map JStr (rp_AllowedActions p)))].

Record AccessReq := { ar_Module : string; ar_Action : string; ar_ResourceID : string }.

Section Security.
Context `{Server}.

(** ** The log of data accesses *)

(** data_access_logs l JOIN users u ON l.user_id = u.id *)
Definition access_rows (d : Database) : list (AccessRow * UserRow) :=
  flat_map (fun l => map (fun u => (l, u)) (where_ (fun u => dal_user_id l =?s usr_id u) (tget users d)))
           (tget data_access_logs d).

Definition access_item (p : AccessRow * UserRow) : DataAccessLog :=
  let '(l, u) := p in
  {| al_ID := dal_id l; al_UserID := dal_user_id l; al_UserEmail := usr_email u; al_UserRole := "ADMIN";
   al_Module := dal_module l; al_Action := dal_action l; al_ResourceID := dal_resource_id l;
   al_IPAddress := dal_ip_address l; al_UserAgent := dal_user_agent l;
   al_AccessedAt := datetime_text (dal_accessed_at l) |}.

Definition select_accesses : stmt Database (list DataAccessLog) :=
  select (fun d => map access_item
    (firstn 100 (order_by (desc (fun p => dal_accessed_at (fst p))) (access_rows d)))).

Definition HandleGetAccessLogs (r : Request unit) : prog Database Response :=
  if negb (HasRole (claims r) ["SUPER_ADMIN"; "HR_ADMIN"])
  then Ret (ForbiddenResponse "FORBIDDEN_ROLE" "Only Security Admins can view access audit logs.") else
  if db_nil then Ret db_unavailable else
  rows <- exec select_accesses;
  Ret (match rows with
     | Err e => fail_json StatusInternalServerError e
     | Ok logs => ok_json [("data", JArr (map access_json logs))]
     end).

Definition insert_access (uid : string) (req : AccessReq) (ip ua : string) : stmt Database AccessRow :=
  with_uuid uid (fun u => with_varchar 50 (ar_Module req) (fun module =>
  with_varchar 50 (ar_Action req) (fun action => with_varchar 100 (ar_ResourceID req) (fun resource =>
  with_varchar 50 ip (fun addr =>
  insert data_access_logs (fun c d =>
    if ref_user u d then
    Ok {| dal_id := sc_uuid c; dal_user_id := u; dal_module := module; dal_action := action;
          dal_resource_id := resource; dal_ip_address := addr; dal_user_agent := ua;
          dal_accessed_at := sc_now c |}
    else Err fk_error)))))).

(** [ip] is [r.RemoteAddr] and [ua] [r.UserAgent()]. *)
Definition HandleLogAccess (r : Request AccessReq) (ip ua : string) : prog Database Response :=
  match claims r with
  | None => Ret (http_error "unauthorized" StatusUnauthorized)
  | Some c =>
    match body r with
    | None => Ret (http_error "invalid log payload" StatusBadRequest)
    | Some req =>
      if (ar_Module req =?s "") || (ar_Action req =?s "")
      then Ret (http_error "invalid log payload" StatusBadRequest) else
      _ <- (if db_nil then Ret tt else _ <- exec (insert_access (UserID c) req ip ua); Ret tt);
      Ret (ok_json [("message", JStr "Data access logged.")])
    end
  end.

(** ** The published matrix *)

Definition rbac_matrix : list RbacScopePolicy := [
  {| rp_Role := "SUPER_ADMIN"; rp_Module := "ALL_MODULES"; rp_Scope := "ALL"; rp_CanReadSensitive := true;
     rp_CanExport := true; rp_AllowedActions := ["CREATE"; "READ"; "UPDATE"; "DELETE"; "EXPORT"; "AUDIT"] |};
  {| rp_Role := "HR_ADMIN"; rp_Module := "EMPLOYEES_AND_PAYROLL"; rp_Scope := "ALL"; rp_CanReadSensitive := true;
     rp_CanExport := true; rp_AllowedActions := ["CREATE"; "READ"; "UPDATE"; "EXPORT"] |};
  {| rp_Role := "MANAGER"; rp_Module := "ATTENDANCE_LEAVE_PERFORMANCE"; rp_Scope := "DEPARTMENT";
     rp_CanReadSensitive := false; rp_CanExport := false; rp_AllowedActions := ["READ"; "APPROVE"; "REJECT"] |};
  {| rp_Role := "EMPLOYEE"; rp_Module := "ESS_AND_MY_PROFILE"; rp_Scope := "SELF";
     rp_CanReadSensitive := false; rp_CanExport := false; rp_AllowedActions := ["READ_SELF"; "SUBMIT_REQUEST"] |}].

Definition HandleGetRbacMatrix : prog Database Response :=
  Ret (ok_json [("data", JArr (map policy_json rbac_matrix))]).
End Security.

(** ** Strings by position *)

Lemma get_ge i s : (String.length s <= i)%nat -> String.get i s = None.
Proof. revert i. induction s as [|c s IH]; intros [|i]; simpl; try done; [lia|]. intros. apply IH. lia. Qed.

Lemma get_app i s t : String.get i (s +:+ t) =
  if Nat.ltb i (String.length s) then String.get i s else String.get (i - String.length s) t.
Proof.
  revert i. induction s as [|c s IH]; intros i; simpl; [by rewrite Nat.sub_0_r|].
  destruct i as [|i]; [done|]. rewrite IH. done.
Qed.

Lemma length_app_s s t : String.length (s +:+ t) = (String.length s + String.length t)%nat.
Proof. induction s; simpl; [done|]. by f_equal. Qed.

Lemma length_substring n m s : (n + m <= String.length s)%nat -> String.length (String.substring n m s) = m.
Proof.
  revert n m. induction s as [|c s IH]; intros [|n] [|m] Hl; simpl in *; rewrite ?IH; try lia.
Qed.

Lemma length_stars n : String.length (stars n) = n.
Proof. unfold stars. induction n; simpl; [done|]. by f_equal. Qed.

Lemma get_stars n i : (i < n)%nat -> String.get i (stars n) = Some "*"%char.
Proof. unfold stars. revert i. induction n; intros [|i] Hi; simpl; try lia; [done|]. apply IHn. lia. Qed.

Lemma get_prefix n i s : (i < n)%nat -> String.get i (prefix_of n s) = String.get i s.
Proof. intros Hi. unfold prefix_of. rewrite String.substring_correct1 by done. by rewrite Nat.add_0_r. Qed.

Lemma length_prefix n s : (n <= String.length s)%nat -> String.length (prefix_of n s) = n.
Proof. intros; apply length_substring; lia. Qed.

Lemma length_suffix n s : (n <= String.length s)%nat ->
  String.length (suffix_from n s) = (String.length s - n)%nat.
Proof. intros. apply length_substring. lia. Qed.

Lemma get_suffix n i s : String.get i (suffix_from n s) = String.get (n + i) s.
Proof.
  unfold suffix_from. destruct (Nat.ltb i (String.length s - n)) eqn:E.
  - apply Nat.ltb_lt in E. rewrite String.substring_correct1 by done; f_equal; lia.
  - apply Nat.ltb_ge in E. rewrite String.substring_correct2 by done.
    symmetry. apply get_ge. lia.
Qed.

(** The positions of a value of [len] bytes that its mask shows. *)
Definition shown (type : string) (len i : nat) : bool :=
  if type =?s "BANK_ACCOUNT" then Nat.leb (len - 4) i
  else Nat.ltb i 2 || Nat.leb (len - 2) i.

(** ** Properties *)

(** An account or tax number of more than four bytes keeps its length under
    the mask and shows four of them, the last four of an account number, the
    first and last two of a tax number; every other position is an asterisk. A
    shorter number is masked whole. *)
Theorem identifier_masked value fieldType :
  let val := TrimSpace value in
  let len := String.length val in
  let masked := MaskSensitiveField value fieldType in
  mem_s (ToUpper fieldType) ["BANK_ACCOUNT"; "TAX_ID"; "SSN"; "PAN"] = true ->
  val <> "" ->
  if Nat.leb len 4 then masked = "****"
  else String.length masked = len
    /\ forall i, (i < len)%nat ->
       String.get i masked = if shown (ToUpper fieldType) len i then String.get i val else Some "*"%char.
Proof.
  cbv zeta. unfold MaskSensitiveField, shown. generalize (TrimSpace value). intros v Ht Hv.
  apply String.eqb_neq in Hv. rewrite Hv. clear Hv. revert Ht.
  generalize (ToUpper fieldType). intros ty Ht.
  destruct (ty =?s "BANK_ACCOUNT") eqn:Eb.
  - destruct (Nat.leb (String.length v) 4) eqn:El; [done|]. apply Nat.leb_gt in El.
    rewrite length_app_s, length_stars, length_suffix by lia. split; [lia|]. intros i Hi.
    rewrite get_app, length_stars, get_suffix.
    destruct (Nat.ltb i (String.length v - 4)) eqn:Ei; destruct (Nat.leb (String.length v - 4) i) eqn:Ej;
      rewrite ?Nat.ltb_lt, ?Nat.ltb_ge, ?Nat.leb_le, ?Nat.leb_gt in *; try lia.
    + by apply get_stars.
    + f_equal. lia.
  - assert (Ht' : mem_s ty ["TAX_ID"; "SSN"; "PAN"] = true).
    { unfold mem_s in Ht |- *. cbn [existsb] in Ht |- *. by rewrite Eb in Ht. }
    rewrite Ht'. destruct (Nat.leb (String.length v) 4) eqn:El; [done|]. apply Nat.leb_gt in El.
    rewrite !length_app_s, length_stars, length_suffix, length_prefix by lia. split; [lia|]. intros i Hi.
    rewrite !get_app, length_stars, get_suffix, length_prefix by lia.
    destruct (Nat.ltb i 2) eqn:E2; simpl; [by apply get_prefix; apply Nat.ltb_lt|].
    apply Nat.ltb_ge in E2.
    destruct (Nat.ltb (i - 2) (String.length v - 4)) eqn:Ei; destruct (Nat.leb (String.length v - 2) i) eqn:Ej;
      rewrite ?Nat.ltb_lt, ?Nat.ltb_ge, ?Nat.leb_le, ?Nat.leb_gt in *; try lia.
    + by apply get_stars.
    + f_equal. lia.
Qed.

(** The published name of an enforced scope. *)
Definition published_name (scope : string) : string := if scope =?s ScopeOrganization then "ALL" else scope.

(** The published matrix names for each role the scope of [EvaluateDataScope];
    it is the scope the tokens carry and the queries enforce for every role but
    MANAGER, whose rows are those of the direct reports and not of the department. *)
Theorem published_scopes :
  Forall (fun p => EvaluateDataScope (rp_Role p) = rp_Scope p
    /\ (published_name (GetScopeForRoles [rp_Role p]) = rp_Scope p <-> rp_Role p <> "MANAGER")) rbac_matrix.
Proof. repeat constructor; vm_compute; congruence. Qed.

Section AccessLog.
Context `{Server}.

(** The row an access leaves. *)
Definition is_access (c : Claims) (req : AccessReq) (ip ua : string) (row : AccessRow) : Prop :=
  uuid_in (UserID c) = Some (dal_user_id row)
  /\ varchar_in 50 (ar_Module req) = Some (dal_module row)
  /\ varchar_in 50 (ar_Action req) = Some (dal_action row)
  /\ varchar_in 100 (ar_ResourceID req) = Some (dal_resource_id row)
  /\ dal_user_agent row = ua.

(** A well-formed report of an access is always acknowledged; the trail then
    has one row more, of the caller's own identifier and the reported access, or,
    without the caller being told, is as it was: the columns hold 50, 50, 100 and
    50 characters, and a longer field loses the whole record. *)
Theorem access_acknowledged (r : Request AccessReq) c req ip ua d : db_nil = false ->
  claims r = Some c -> body r = Some req -> ar_Module req <> "" -> ar_Action req <> "" ->
  wp true (HandleLogAccess r ip ua) d (fun o d' =>
    o = Done (ok_json [("message", JStr "Data access logged.")])
    /\ (d' = d \/ exists row, is_access c req ip ua row
          /\ d' = tput data_access_logs (tget data_access_logs d ++ [row]) d)
    /\ (varchar_in 50 (ar_Action req) = None -> d' = d)).
Proof.
  intros Hdb Hc Hb Hm Ha. unfold HandleLogAccess. rewrite Hc, Hb.
  apply String.eqb_neq in Hm, Ha. rewrite Hm, Ha, Hdb. cbn [orb].
  apply wp_bind. apply wp_bind. apply wp_exec; [congruence| |].
  - intros x row d' Hst. unfold insert_access in Hst. sql_inv Hst. subst. split; [done|].
    split; [|intros; congruence]. right. eexists. split; [|done].
    destruct (ref_user _ _); simplify_eq. by repeat split.
  - intros e _. split; [done|]. split; [by left|done].
Qed.
End AccessLog.
