(* ===== verification/Lifecycle.v ===== *)
(** * internal/lifecycle: probation, the timeline of an employee, exits

    lifecycle.go and exits.go, with the theorem on the probation dashboard. *)

From S2P Require Import Prelude Float64 Go Sql Schema Calendar Employee.

#[local] Open Scope prog_scope.

Record ProbationEmployee := {
  pe_ID : string; pe_EmployeeID : string; pe_FullName : string; pe_Department : string;
  pe_Designation : string; pe_JoiningDate : string; pe_ProbationEndDate : string; pe_Status : string
}.

Definition probation_json (p : ProbationEmployee) : json :=
  JObj [("id", JStr (pe_ID p)); ("employee_id", JStr (pe_EmployeeID p)); ("full_name", JStr (pe_FullName p));
        ("department", JStr (pe_Department p)); ("designation", JStr (pe_Designation p));
        ("joining_date", JStr (pe_JoiningDate p)); ("probation_end_date", JStr (pe_ProbationEndDate p));
        ("status", JStr (pe_Status p))].

Record ProbationDashboard := {
  Overdue : list ProbationEmployee;
  Next7Days : list ProbationEmployee;
  Next15Days : list ProbationEmployee;
  Next30Days : list ProbationEmployee
}.

Definition dashboard_json (x : ProbationDashboard) : json :=
  JObj [("overdue", JArr (map probation_json (Overdue x)));
        ("next_7_days", JArr (map probation_json (Next7Days x)));
        ("next_15_days", JArr (map probation_json (Next15Days x)));
        ("next_30_days", JArr (map probation_json (Next30Days x)))].

(** One turn of the loop over the rows. *)
Definition file_row (x : ProbationDashboard) (p : ProbationEmployee) : ProbationDashboard :=
  if pe_Status p =?s "OVERDUE" then
    {| Overdue := Overdue x ++ [p]; Next7Days := Next7Days x; Next15Days := Next15Days x; Next30Days := Next30Days x |}
  else if pe_Status p =?s "NEXT_7_DAYS" then
    {| Overdue := Overdue x; Next7Days := Next7Days x ++ [p]; Next15Days := Next15Days x; Next30Days := Next30Days x |}
  else if pe_Status p =?s "NEXT_15_DAYS" then
    {| Overdue := Overdue x; Next7Days := Next7Days x; Next15Days := Next15Days x ++ [p]; Next30Days := Next30Days x |}
  else if pe_Status p =?s "NEXT_30_DAYS" then
    {| Overdue := Overdue x; Next7Days := Next7Days x; Next15Days := Next15Days x; Next30Days := Next30Days x ++ [p] |}
  else x.

Definition no_dashboard : ProbationDashboard :=
  {| Overdue := []; Next7Days := []; Next15Days := []; Next30Days := [] |}.

Section Lifecycle.
Context `{Server} `{Driver}.

(** ** Probation *)

Definition probation_end_day (e : EmpRow) : Z := default 0 (emp_probation_end_date e).

(** The CASE of the query; [today] is CURRENT_DATE. *)
Definition probation_status (today : Z) (e : EmpRow) : string :=
  let p := probation_end_day e in
  if p <? today then "OVERDUE"
  else if p <=? today + 7 then "NEXT_7_DAYS"
  else if p <=? today + 15 then "NEXT_15_DAYS"
  else "NEXT_30_DAYS".

(** The WHERE clause: a NULL date passes no comparison. *)
Definition probation_due (today : Z) (e : EmpRow) : bool :=
  (emp_status e =?s "PROBATION")
  && match emp_probation_end_date e with Some p => p <=? today + 30 | None => false end
  && negb (bool_decide (is_Some (emp_deleted_at e))).

Definition probation_item (today : Z) (d : Database) (e : EmpRow) : ProbationEmployee :=
  {| pe_ID := emp_id e; pe_EmployeeID := emp_employee_id e; pe_FullName := full_name e;
     pe_Department := default "" (department_name d e); pe_Designation := default "" (designation_name d e);
     pe_JoiningDate := date_text (emp_joining_date e); pe_ProbationEndDate := date_text (probation_end_day e);
     pe_Status := probation_status today e |}.

Definition select_probation : stmt Database (list ProbationEmployee) := fun c d =>
  let today := date_of_time (sc_now c) in
  Ok (map (probation_item today d)
        (order_by (asc probation_end_day) (where_ (probation_due today) (tget employees d))), d).

Definition HandleGetProbationDue : prog Database Response :=
  if db_nil then Ret db_unavailable else
  rows <- exec select_probation;
  Ret (match rows with
     | Err e => fail_json StatusInternalServerError ("database query failed: " +:+ e)
     | Ok ps => ok_json [("data", dashboard_json (fold_left file_row ps no_dashboard))]
     end).

(** ** The timeline *)

(** [map[string]interface{}] tagged [omitempty], unmarshalled from a JSONB column. *)
Definition value_field (k : string) (v : option json) : list (string * json) :=
  match v with Some (JObj (f :: fs)) => [(k, JObj (f :: fs))] | _ => [] end.

(** [created_at] is a TIMESTAMPTZ scanned into a string; a [Scan] that fails there has
    set the other fields. *)
Definition event_json (created : string) (e : EventRow) : json :=
  JObj ([("id", JStr (evt_id e)); ("employee_id", JStr (evt_employee_id e)); ("event_type", JStr (evt_event_type e));
         ("effective_date", JStr (date_text (evt_effective_date e)))]
        ++ value_field "previous_value" (evt_previous_value e) ++ value_field "new_value" (evt_new_value e)
        ++ match evt_reason e with Some s => [("reason", JStr s)] | None => [] end
        ++ match evt_created_by e with Some s => [("created_by", JStr s)] | None => [] end
        ++ [("created_at", JStr created)]).

(** The loop appends every row it reaches, also one that does not scan, which is
    the last. *)
Fixpoint timeline (l : list EventRow) : list json :=
  match l with
  | [] => []
  | e :: l' => match time_to_string (evt_created_at e) with
               | Some t => event_json t e :: timeline l'
               | None => [event_json "" e]
               end
  end.

Definition select_events (id : string) : stmt Database (list EventRow) :=
  with_uuid id (fun id => select (fun d =>
    order_by (then_by (desc evt_effective_date) (desc evt_created_at))
      (where_ (fun e => evt_employee_id e =?s id) (tget employee_lifecycle_events d)))).

Definition HandleGetEmployeeTimeline (r : Request unit) : prog Database Response :=
  let id := urlParam r "id" in
  if db_nil then Ret db_unavailable else
  rows <- exec (select_events id);
  Ret (match rows with
     | Err _ => ok_json [("data", JArr [])]
     | Ok es => ok_json [("data", JArr (timeline es))]
     end).

(** ** Exits *)

Definition HandleSubmitResignation : prog Database Response :=
  if db_nil then Ret db_unavailable else Ret (ok_json [("id", JStr "exit-new")]).

(** The list shows exits with their employee; a NULL last working day does not scan. *)
Definition exit_json (d : Database) (p : ExitRow * EmpRow) : option json :=
  let '(x, e) := p in
  last ← exr_last_working_date x;
  Some (JObj [("id", JStr (exr_id x)); ("employee_id", JStr (emp_employee_id e));
              ("employee_name", JStr (full_name e)); ("department", JStr (default "General" (department_name d e)));
              ("resignation_date", JStr (date_text (exr_resignation_date x)));
              ("last_working_date", JStr (date_text last)); ("reason", JStr (default "" (exr_reason x)));
              ("status", JStr (exr_status x))]).

Definition exit_rows (d : Database) : list (ExitRow * EmpRow) :=
  order_by (desc (fun p => exr_created_at (fst p)))
    (flat_map (fun x => map (pair x) (where_ (fun e => emp_id e =?s exr_employee_id x) (tget employees d)))
       (tget exit_requests d)).

Definition HandleListExits : prog Database Response :=
  if db_nil then Ret db_unavailable else
  rows <- exec (select (fun d => scanned (exit_json d) (exit_rows d)));
  Ret (ok_json [("data", JArr (scan [] rows))]).

Definition HandleApproveExit : prog Database Response :=
  if db_nil then Ret db_unavailable else Ret (ok_json []).

Definition HandleGetClearance : prog Database Response :=
  if db_nil then Ret db_unavailable else Ret (ok_json [("data", JArr [])]).

(** ** Theorems *)

(** The days until the end of the probation. *)
Definition days_left (today : Z) (e : EmpRow) : Z := probation_end_day e - today.

Definition among (today lo hi : Z) (e : EmpRow) : bool := (lo <=? days_left today e) && (days_left today e <=? hi).

Lemma dashboard_lists today d l x :
  let y := fold_left file_row (map (probation_item today d) l) x in
  Forall (fun e => days_left today e <= 30) l ->
  Overdue y = Overdue x ++ map (probation_item today d) (where_ (fun e => days_left today e <? 0) l)
  /\ Next7Days y = Next7Days x ++ map (probation_item today d) (where_ (among today 0 7) l)
  /\ Next15Days y = Next15Days x ++ map (probation_item today d) (where_ (among today 8 15) l)
  /\ Next30Days y = Next30Days x ++ map (probation_item today d) (where_ (among today 16 30) l).
Proof.
  cbv zeta. revert x. induction l as [|e l IH]; intros x Hl; [simpl; by rewrite !app_nil_r|].
  apply Forall_cons in Hl as [He Hl]. cbn [map fold_left].
  destruct (IH (file_row x (probation_item today d e)) Hl) as (-> & -> & -> & ->).
  assert (Hst : pe_Status (probation_item today d e) = probation_status today e) by done.
  unfold file_row. rewrite Hst. unfold probation_status, where_, among, days_left in *. cbn [List.filter].
  destruct (Z.ltb_spec (probation_end_day e) today); [|destruct (Z.leb_spec (probation_end_day e) (today + 7));
    [|destruct (Z.leb_spec (probation_end_day e) (today + 15))]];
  repeat match goal with |- context [?a <=? ?b] => destruct (Z.leb_spec a b); try lia end;
  repeat match goal with |- context [?a <? ?b] => destruct (Z.ltb_spec a b); try lia end;
  cbn; by rewrite <- ?app_assoc.
Qed.

(** The dashboard has every employee on probation, undeleted, whose probation ends
    within 30 days or has ended, and nobody else: each in one of the four lists, by
    the days left, the earlier end first; the other endings are in none. *)
Theorem probation_dashboard E n d : reliable E -> db_nil = false ->
  let today := date_of_time (sc_now (env_ctx E n)) in
  exists l, l ≡ₚ where_ (probation_due today) (tget employees d)
  /\ StronglySorted (fun e e' => probation_end_day e <= probation_end_day e') l
  /\ reply (run E HandleGetProbationDue n d) = Some (ok_json [("data", dashboard_json
       {| Overdue := map (probation_item today d) (where_ (fun e => days_left today e <? 0) l);
          Next7Days := map (probation_item today d) (where_ (among today 0 7) l);
          Next15Days := map (probation_item today d) (where_ (among today 8 15) l);
          Next30Days := map (probation_item today d) (where_ (among today 16 30) l) |})]).
Proof.
  intros HE Hdb today. exists (order_by (asc probation_end_day) (where_ (probation_due today) (tget employees d))).
  split; [apply order_by_perm|]. split; [apply order_by_sorted|].
  unfold HandleGetProbationDue, exec. rewrite Hdb. simpl. unfold answer. rewrite HE. cbn.
  unfold reply, out. cbn. do 4 f_equal.
  set (l := order_by _ _).
  assert (Hl : Forall (fun e => days_left today e <= 30) l).
  { unfold l. rewrite order_by_perm. eapply Forall_impl; [apply where_Forall|]. intros e He.
    unfold probation_due in He. bool_prop. unfold days_left, probation_end_day.
    destruct (emp_probation_end_date e); [|done]. simpl. bool_prop. lia. }
  destruct (dashboard_lists today d l no_dashboard Hl) as (H1 & H2 & H3 & H4).
  fold today. unfold dashboard_json. by rewrite H1, H2, H3, H4.
Qed.

(** A resignation and the approval of an exit are answered with success and change
    nothing: neither sends a statement. *)
Lemma exits_not_stored : no_stmts HandleSubmitResignation /\ no_stmts HandleApproveExit.
Proof. unfold HandleSubmitResignation, HandleApproveExit. by destruct db_nil. Qed.

(** An exit without a last working day hides itself and the exits before it. *)
Lemma open_exit_ends_list d p l : exr_last_working_date (fst p) = None ->
  scanned (exit_json d) (p :: l) = [].
Proof. intros Hp. destruct p as [x e]. simpl in *. by rewrite Hp. Qed.
End Lifecycle.
