(* ===== verification/Document.v ===== *)
(** * internal/document: document types and the documents of an employee *)

From S2P Require Import Prelude Float64 Go Sql Schema Calendar Authz.

#[local] Open Scope prog_scope.

Record DocumentType := {
  dt_ID : string; dt_Name : string; dt_IsMandatory : bool; dt_HasExpiry : bool;
  dt_RequiresVerification : bool; dt_AccessScope : string
}.

Definition doc_type_json (t : DocumentType) : json :=
  JObj [("id", JStr (dt_ID t)); ("name", JStr (dt_Name t)); ("is_mandatory", JBool (dt_IsMandatory t));
        ("has_expiry", JBool (dt_HasExpiry t)); ("requires_verification", JBool (dt_RequiresVerification t));
        ("access_scope", JStr (dt_AccessScope t))].

(** [rows.Scan(&t.ID, ...)] on the zero value, field by field up to the first NULL; the
    flag says that it succeeded. *)
Definition scan_doc_type (r : DocTypeRow) : DocumentType * bool :=
  let t m h v s := {| dt_ID := dct_id r; dt_Name := dct_name r; dt_IsMandatory := m; dt_HasExpiry := h;
                      dt_RequiresVerification := v; dt_AccessScope := s |} in
  match dct_is_mandatory r with
  | None => (t false false false "", false)
  | Some m =>
  match dct_has_expiry r with
  | None => (t m false false "", false)
  | Some h =>
  match dct_requires_verification r with
  | None => (t m h false "", false)
  | Some v =>
  match dct_access_scope r with
  | None => (t m h v "", false)
  | Some s => (t m h v s, true)
  end end end end.

(** The loop ignores the error of [Scan] and appends what it has set; the failing
    [Scan] has closed the rows. *)
Fixpoint scanned_types (l : list DocTypeRow) : list DocumentType :=
  match l with
  | [] => []
  | r :: l' => let '(t, ok) := scan_doc_type r in t :: (if ok : bool then scanned_types l' else [])
  end.

Section Documents.
Context `{Server}.

Definition HandleGetTypes : prog Database Response :=
  if db_nil then Ret db_unavailable else
  rows <- exec (select (fun d => tget document_types d));
  Ret (match rows with
     | Err e => fail_json StatusInternalServerError ("database query failed: " +:+ e)
     | Ok l => ok_json [("data", JArr (map doc_type_json (scanned_types l)))]
     end).

Definition HandleCreateType (r : Request DocumentType) : prog Database Response :=
  if negb (HasRole (claims r) ["SUPER_ADMIN"; "HR_ADMIN"])
  then Ret (ForbiddenResponse "FORBIDDEN_ROLE" "Only HR Admins can create document types.") else
  match body r with
  | None => Ret (http_error "invalid request" StatusBadRequest)
  | Some _ => if db_nil then Ret db_unavailable else Ret (ok_json [("id", JStr "dt-new")])
  end.

(** employee_documents ed LEFT JOIN document_types dt *)
Definition document_json (d : Database) (x : DocRow) : json :=
  let name := dct_name <$> List.find (fun t => dct_id t =?s doc_document_type_id x) (tget document_types d) in
  JObj [("id", JStr (doc_id x)); ("document_type_id", JStr (doc_document_type_id x));
        ("document_type_name", JStr (default "Document" name)); ("file_url", JStr (doc_file_url x));
        ("file_name", JStr (doc_file_name x)); ("status", JStr (doc_status x));
        ("uploaded_at", JStr (date_text (date_of_time (doc_created_at x))))].

Definition select_documents (empID : string) : stmt Database (list json) :=
  checked (names "employee_documents" ["document_type_id"; "file_url"; "file_name"; "status"])
  (with_uuid empID (fun empID => select (fun d =>
     map (document_json d) (where_ (fun x => doc_employee_id x =?s empID) (tget employee_documents d))))).

Definition HandleGetEmployeeDocuments (r : Request unit) : prog Database Response :=
  match claims r with
  | None => Ret UnauthorizedResponse
  | Some c =>
      let empID := urlParam r "id" in
      return_if db_nil db_unavailable;;;
      caller <- exec (caller_employee (UserID c));
      return_if (negb (CanViewDocument (Some c) empID (scan "" caller)))
        (ForbiddenResponse "FORBIDDEN_RESOURCE" "You do not have permission to view these documents.");;;
      rows <- exec (select_documents empID);
      Ret (ok_json [("data", JArr (scan [] rows))])
  end.

Definition HandleVerifyDocument : prog Database Response :=
  if db_nil then Ret db_unavailable else Ret (ok_json []).

(** ** Theorems *)

(** Who may see the documents of an employee: an administrator of people, or the
    caller whose employee record the database names. *)
Definition may_see (c : Claims) (empID : string) (d : Database) : Prop :=
  HasRole (Some c) ["SUPER_ADMIN"; "HR_ADMIN"] = true
  \/ exists e, e ∈ tget employees d /\ is_caller (UserID c) e = true /\ emp_id e = empID.

(** The documents of an employee are shown to administrators of people and to the
    employee only, and those shown are documents of the employee asked for. *)
Theorem documents_within_rights E r c n d resp l :
  claims r = Some c -> reply (run E (HandleGetEmployeeDocuments r) n d) = Some resp ->
  field "data" resp = Some (JArr l) -> l <> [] ->
  may_see c (urlParam r "id") d
  /\ exists u, uuid_in (urlParam r "id") = Some u
     /\ Forall (fun j => exists x, x ∈ tget employee_documents d /\ doc_employee_id x = u
                         /\ j = document_json d x) l.
Proof.
  intros Hc. set (Q := fun (o : outcome Response) (_ : Database) =>
    forall resp l, replied o = Some resp -> field "data" resp = Some (JArr l) -> l <> [] ->
      may_see c (urlParam r "id") d
      /\ exists u, uuid_in (urlParam r "id") = Some u
         /\ Forall (fun j => exists x, x ∈ tget employee_documents d /\ doc_employee_id x = u
                             /\ j = document_json d x) l).
  cut (Q (out (run E (HandleGetEmployeeDocuments r) n d)) (db_of (run E (HandleGetEmployeeDocuments r) n d))).
  { intros HQ Hr Hf Hl. by eapply HQ. }
  apply (wp_run true E (HandleGetEmployeeDocuments r) n d Q); [done|].
  unfold HandleGetEmployeeDocuments. rewrite Hc. cbv zeta.
  apply wp_bind, wp_return_if; [by intros _ resp' l' [= <-] [=]|]. intros Hdb. cbn [wp_then].
  assert (Hgo : forall caller, caller = "" \/ may_see c caller d ->
    wp true (return_if (negb (CanViewDocument (Some c) (urlParam r "id") caller))
        (ForbiddenResponse "FORBIDDEN_RESOURCE" "You do not have permission to view these documents.");;;
      rows <- exec (select_documents (urlParam r "id")); Ret (ok_json [("data", JArr (scan [] rows))])) d Q).
  { intros caller Hcaller. apply wp_bind, wp_return_if; [by intros _ resp' l' [= <-] [=]|]. intros Hv. cbn [wp_then].
    apply negb_false_iff in Hv.
    apply wp_bind, wp_exec; [congruence| |by intros e _ resp' l' [= <-] [= <-]].
    intros x b d' Hs. unfold select_documents in Hs. sql_inv Hs. subst.
    match goal with Hu : uuid_in _ = Some ?u |- _ => rename u into uid; rename Hu into Huid end.
    intros resp' l' [= <-] [= <-] _. split.
    - unfold CanViewDocument in Hv. destruct (HasRole _ _) eqn:Hr; [by left|].
      destruct (_ && _) eqn:Ha; [|done]. bool_prop. subst. destruct Hcaller as [?|?]; [congruence|done].
    - exists uid. split; [done|]. apply Forall_forall. intros j Hj.
      apply list_elem_of_fmap_1 in Hj as (y & -> & Hy). apply elem_of_where in Hy as [Hy Hk]. bool_prop. eauto. }
  apply wp_bind, wp_exec; [congruence| |by intros e _; apply Hgo; left].
  intros x b d' Hs. unfold caller_employee in Hs. apply select_row_ok in Hs as [Hf ->].
  apply Hgo. destruct (List.find _ _) as [e|] eqn:Ef; [|done]. apply find_some_elem in Ef as [He Hi].
  injection Hf as <-. right. right. by exists e.
Qed.

(** Where the table has the columns of its first migration, no document is ever shown. *)
Theorem documents_never_listed E r c n d resp l :
  mem_s "document_type_id" (columns "employee_documents") = false -> claims r = Some c ->
  reply (run E (HandleGetEmployeeDocuments r) n d) = Some resp -> field "data" resp = Some (JArr l) -> l = [].
Proof.
  intros Hcol Hc. set (Q := fun (o : outcome Response) (_ : Database) =>
    forall resp l, replied o = Some resp -> field "data" resp = Some (JArr l) -> l = []).
  cut (Q (out (run E (HandleGetEmployeeDocuments r) n d)) (db_of (run E (HandleGetEmployeeDocuments r) n d))).
  { intros HQ Hr Hf. by eapply HQ. }
  apply (wp_run true E (HandleGetEmployeeDocuments r) n d Q); [done|].
  unfold HandleGetEmployeeDocuments. rewrite Hc. cbv zeta.
  apply wp_bind, wp_return_if; [by intros _ resp' l' [= <-] [=]|]. intros Hdb. cbn [wp_then].
  assert (Hs : forall x d', exists e, select_documents (urlParam r "id") x d' = Err e).
  { intros x d'. unfold select_documents, names. cbn [forallb]. rewrite Hcol. by eexists. }
  assert (Hgo : forall caller d', wp true (return_if (negb (CanViewDocument (Some c) (urlParam r "id") caller))
        (ForbiddenResponse "FORBIDDEN_RESOURCE" "You do not have permission to view these documents.");;;
      rows <- exec (select_documents (urlParam r "id")); Ret (ok_json [("data", JArr (scan [] rows))])) d' Q).
  { intros caller d'. apply wp_bind, wp_return_if; [by intros _ resp' l' [= <-] [=]|]. intros _. cbn [wp_then].
    apply wp_bind, wp_exec; [congruence| |by intros e _ resp' l' [= <-] [= <-]].
    intros x b d2 Hx. destruct (Hs x d') as [e He]. congruence. }
  apply wp_bind, wp_exec; [congruence|intros; apply Hgo|intros; apply Hgo].
Qed.

(** The creation of a type and the verification of a document send no statement. *)
Lemma documents_not_stored r : no_stmts (HandleCreateType r) /\ no_stmts HandleVerifyDocument.
Proof.
  unfold HandleCreateType, HandleVerifyDocument. split; [|by destruct db_nil].
  destruct (negb _); [done|]. by destruct (body r), db_nil.
Qed.
End Documents.
