(* ===== verification/Onboarding.v ===== *)
(** * internal/onboarding: templates and instances of onboarding *)

From S2P Require Import Prelude Float64 Go Sql Schema.

#[local] Open Scope prog_scope.

Record TemplateTask := {
  tt_ID : string; tt_TemplateID : string; tt_TaskName : string; tt_Description : string;
  tt_OwnerRole : string; tt_DueDays : Z
}.

(** The [tasks] of a response are always empty, and so left out. *)
Record Template := { tp_ID : string; tp_Name : string; tp_Description : string }.

Definition template_json (t : Template) : json :=
  JObj [("id", JStr (tp_ID t)); ("name", JStr (tp_Name t)); ("description", JStr (tp_Description t))].

Record Instance_ := {
  in_ID : string; in_EmployeeID : string; in_EmployeeName : string; in_TemplateName : string;
  in_Status : string; in_Progress : Z
}.

Definition instance_json (i : Instance_) : json :=
  JObj [("id", JStr (in_ID i)); ("employee_id", JStr (in_EmployeeID i)); ("employee_name", JStr (in_EmployeeName i));
        ("template_name", JStr (in_TemplateName i)); ("status", JStr (in_Status i));
        ("progress", JInt (in_Progress i))].

(** [w.WriteHeader(201)] before [jsonOK]: the Content-Type set afterwards is not sent,
    the server derives one from the text. *)
Definition created_sniffed (fields : list (string * json)) : Response :=
  {| status := StatusCreated; ctype := "text/plain; charset=utf-8";
     content := BJson (JObj (("success", JBool true) :: fields)) |}.

Section Onboarding.
Context `{Server}.

Definition template_item (t : OnbTemplateRow) : Template :=
  {| tp_ID := obt_id t; tp_Name := obt_name t; tp_Description := default "" (obt_description t) |}.

Definition HandleGetTemplates : prog Database Response :=
  if db_nil then Ret db_unavailable else
  rows <- exec (select (fun d => map template_item (tget onboarding_templates d)));
  Ret (match rows with
     | Err e => fail_json StatusInternalServerError ("database query failed: " +:+ e)
     | Ok ts => ok_json [("data", JArr (map template_json ts))]
     end).

(** The organization is the first of the table; without one the column is NULL. *)
Definition insert_template (name description : string) : stmt Database OnbTemplateRow :=
  with_varchar 255 name (fun name =>
  insert onboarding_templates (fun c d =>
    match tget organizations d with
    | o :: _ => Ok {| obt_id := sc_uuid c; obt_organization_id := org_id o; obt_name := name;
                      obt_description := Some description |}
    | [] => Err "null value violates not-null constraint: onboarding_templates"
    end)).

Definition HandleCreateTemplate (r : Request Template) : prog Database Response :=
  match body r with
  | None => Ret (http_error "invalid request" StatusBadRequest)
  | Some req =>
      return_if db_nil db_unavailable;;;
      res <- exec (insert_template (tp_Name req) (tp_Description req));
      Ret (match res with
         | Err e => fail_json StatusInternalServerError ("failed to create template: " +:+ e)
         | Ok row => created_sniffed [("id", JStr (obt_id row))]
         end)
  end.

Definition HandleCreateTemplateTask (r : Request TemplateTask) : prog Database Response :=
  match body r with
  | None => Ret (http_error "invalid request" StatusBadRequest)
  | Some _ => if db_nil then Ret db_unavailable else Ret (ok_json [("id", JStr "tsk-new")])
  end.

(** onboarding_instances oi JOIN employees e LEFT JOIN onboarding_templates ot; the
    progress is the literal 50 of the query. *)
Definition instance_item (d : Database) (p : OnbInstanceRow * EmpRow) : Instance_ :=
  let '(i, e) := p in
  let template := k ← obi_template_id i; List.find (fun t => obt_id t =?s k) (tget onboarding_templates d) in
  {| in_ID := obi_id i; in_EmployeeID := emp_employee_id e; in_EmployeeName := full_name e;
     in_TemplateName := default "Default Template" (obt_name <$> template); in_Status := obi_status i;
     in_Progress := 50 |}.

Definition instance_rows (d : Database) : list (OnbInstanceRow * EmpRow) :=
  flat_map (fun i => map (pair i) (where_ (fun e => emp_id e =?s obi_employee_id i) (tget employees d)))
    (tget onboarding_instances d).

Definition from_instances {B} (s : stmt Database B) : stmt Database B :=
  checked (names "onboarding_instances" ["id"; "employee_id"; "template_id"; "status"]) s.

Definition HandleGetInstances : prog Database Response :=
  if db_nil then Ret db_unavailable else
  rows <- exec (from_instances (select (fun d => map (instance_item d)
            (order_by (desc (fun p => obi_created_at (fst p))) (instance_rows d)))));
  Ret (ok_json [("data", JArr (map instance_json (scan [] rows)))]).

Definition HandleGetInstanceDetail (r : Request unit) : prog Database Response :=
  let id := urlParam r "id" in
  if db_nil then Ret db_unavailable else
  row <- exec (from_instances (select_row (fun d => instance_item d <$>
           List.find (fun p => obi_id (fst p) =?s id) (instance_rows d))));
  Ret (match row with
     | Err e => fail_json StatusNotFound ("instance not found: " +:+ e)
     | Ok i => ok_json [("data", instance_json i)]
     end).

Definition HandleCompleteTask : prog Database Response :=
  if db_nil then Ret db_unavailable else Ret (ok_json []).

(** ** Theorems *)

(** A template is stored for the first organization under the requested name, and
    nothing else changes; without an organization none is. *)
Theorem template_created E r req n d : reliable E -> db_nil = false -> body r = Some req ->
  varchar_in 255 (tp_Name req) = Some (tp_Name req) ->
  let x := run E (HandleCreateTemplate r) n d in
  match tget organizations d with
  | o :: _ => exists row, reply x = Some (created_sniffed [("id", JStr (obt_id row))])
      /\ obt_organization_id row = org_id o /\ obt_name row = tp_Name req
      /\ db_of x = tput onboarding_templates (tget onboarding_templates d ++ [row]) d
  | [] => db_of x = d /\ exists resp, reply x = Some resp /\ status resp = StatusInternalServerError
  end.
Proof.
  intros HE Hdb Hb Hn. unfold HandleCreateTemplate, exec. rewrite Hb, Hdb. cbn. unfold answer. rewrite HE.
  unfold insert_template, with_varchar, insert. rewrite Hn.
  destruct (tget organizations d) as [|o os]; cbn; [split; [done|by eexists]|]. by refine (ex_intro _ _ (conj _ (conj _ (conj _ eq_refl)))).
Qed.

(** No migration creates onboarding_instances: the list is always empty, every
    instance is unknown. *)
Theorem instances_never_found E r n d : db_nil = false ->
  mem_s "id" (columns "onboarding_instances") = false ->
  reply (run E HandleGetInstances n d) = Some (ok_json [("data", JArr [])])
  /\ exists e, reply (run E (HandleGetInstanceDetail r) n d)
       = Some (fail_json StatusNotFound ("instance not found: " +:+ e)).
Proof.
  intros Hdb Hcol. unfold HandleGetInstances, HandleGetInstanceDetail, exec. rewrite Hdb. cbn.
  unfold answer, from_instances, checked, names. cbn [forallb]. rewrite Hcol. cbn.
  destruct (env_fail E n); (split; [done|by eexists]).
Qed.

(** The creation of a task and its completion send no statement. *)
Lemma tasks_not_stored r : no_stmts (HandleCreateTemplateTask r) /\ no_stmts HandleCompleteTask.
Proof. unfold HandleCreateTemplateTask, HandleCompleteTask. by destruct (body r), db_nil. Qed.
End Onboarding.
