(* ===== verification/Organization.v ===== *)
(** * internal/organization: locations, designations and departments *)

From S2P Require Import Prelude Float64 Go Sql Schema Common.

#[local] Open Scope prog_scope.

Record Location := {
  lo_ID : string; lo_OrganizationID : string; lo_Name : string; lo_Address : string; lo_City : string;
  lo_State : string; lo_Country : string; lo_ZipCode : string
}.

Definition location_json (l : Location) : json :=
  JObj [("id", JStr (lo_ID l)); ("organization_id", JStr (lo_OrganizationID l)); ("name", JStr (lo_Name l));
        ("address", JStr (lo_Address l)); ("city", JStr (lo_City l)); ("state", JStr (lo_State l));
        ("country", JStr (lo_Country l)); ("zip_code", JStr (lo_ZipCode l))].

Record Designation := { de_ID : string; de_OrganizationID : string; de_Name : string; de_LevelGrade : string }.

Definition org_designation_json (x : Designation) : json :=
  JObj [("id", JStr (de_ID x)); ("organization_id", JStr (de_OrganizationID x)); ("name", JStr (de_Name x));
        ("level_grade", JStr (de_LevelGrade x))].

Record Department := { dm_ID : string; dm_Name : string; dm_Code : string; dm_Description : string }.

Definition department_json (x : Department) : json :=
  JObj ([("id", JStr (dm_ID x)); ("name", JStr (dm_Name x)); ("code", JStr (dm_Code x))]
        ++ opt_field "description" (dm_Description x)).

Section Organization.
Context `{Server}.

(** The common end of the lists: the sample when there is nothing to show; the total
    is the length of the page. *)
Definition list_or_sample {A} (to_json : A -> json) (sample : list A) (pg : PaginationParams) (l : list A)
  : Response :=
  let l := match l with [] => sample | _ => l end in
  page_json pg (Z.of_nat (length l)) (map to_json l).

(** ** Locations *)

(** Nullable columns scanned into strings. *)
Definition location_item (l : LocRow) : option Location :=
  address ← loc_address l; city ← loc_city l; state ← loc_state l; country ← loc_country l; zip ← loc_zip_code l;
  Some {| lo_ID := loc_id l; lo_OrganizationID := loc_organization_id l; lo_Name := loc_name l;
          lo_Address := address; lo_City := city; lo_State := state; lo_Country := country; lo_ZipCode := zip |}.

Definition sample_locations : list Location :=
  [{| lo_ID := "loc-1"; lo_OrganizationID := ""; lo_Name := "Headquarters"; lo_Address := ""; lo_City := "Mumbai";
      lo_State := ""; lo_Country := "India"; lo_ZipCode := "" |};
   {| lo_ID := "loc-2"; lo_OrganizationID := ""; lo_Name := "Tech Hub"; lo_Address := ""; lo_City := "Bengaluru";
      lo_State := ""; lo_Country := "India"; lo_ZipCode := "" |}].

Definition HandleGetLocations (r : Request unit) : prog Database Response :=
  let pg := ParsePaginationParams (query r) in
  rows <- (if db_nil then Ret (Ok []) else
           exec (select_page pg (fun d =>
             order_by (fun x y => collate (loc_name x) (loc_name y)) (tget locations d))));
  Ret (list_or_sample location_json sample_locations pg (scanned location_item (scan [] rows))).

Definition HandleCreateLocation (r : Request Location) : prog Database Response :=
  Ret (match body r with
     | None => http_error "invalid request" StatusBadRequest
     | Some l => created_json [("data", location_json l)]
     end).

(** ** Designations *)

Definition designation_item (x : DesigRow) : option Designation :=
  grade ← des_level_grade x;
  Some {| de_ID := des_id x; de_OrganizationID := des_organization_id x; de_Name := des_name x;
          de_LevelGrade := grade |}.

Definition sample_designations : list Designation :=
  [{| de_ID := "des-1"; de_OrganizationID := ""; de_Name := "Software Engineer"; de_LevelGrade := "L3" |};
   {| de_ID := "des-2"; de_OrganizationID := ""; de_Name := "Senior HR Manager"; de_LevelGrade := "L5" |};
   {| de_ID := "des-3"; de_OrganizationID := ""; de_Name := "Product Designer"; de_LevelGrade := "L4" |}].

Definition HandleGetDesignations (r : Request unit) : prog Database Response :=
  let pg := ParsePaginationParams (query r) in
  rows <- (if db_nil then Ret (Ok []) else
           exec (select_page pg (fun d =>
             order_by (fun x y => collate (des_name x) (des_name y)) (tget designations d))));
  Ret (list_or_sample org_designation_json sample_designations pg (scanned designation_item (scan [] rows))).

Definition HandleCreateDesignation (r : Request Designation) : prog Database Response :=
  Ret (match body r with
     | None => http_error "invalid request" StatusBadRequest
     | Some x => created_json [("data", org_designation_json x)]
     end).

(** ** Departments *)

Definition department_item (x : DeptRow) : Department :=
  {| dm_ID := dep_id x; dm_Name := dep_name x; dm_Code := dep_code x;
     dm_Description := default "" (dep_description x) |}.

Definition sample_departments : list Department :=
  [{| dm_ID := "dept-1"; dm_Name := "Engineering"; dm_Code := "ENG"; dm_Description := "Software Engineering & Tech" |};
   {| dm_ID := "dept-2"; dm_Name := "Human Resources"; dm_Code := "HR"; dm_Description := "People Operations" |};
   {| dm_ID := "dept-3"; dm_Name := "Finance"; dm_Code := "FIN"; dm_Description := "Accounting & Finance" |}].

Definition HandleGetDepartments (r : Request unit) : prog Database Response :=
  let pg := ParsePaginationParams (query r) in
  rows <- (if db_nil then Ret (Ok []) else
           exec (checked (names "departments" ["description"]) (select_page pg (fun d =>
             order_by (fun x y => collate (dep_name x) (dep_name y)) (tget departments d)))));
  Ret (list_or_sample department_json sample_departments pg (map department_item (scan [] rows))).

Definition HandleCreateDepartment (r : Request Department) : prog Database Response :=
  Ret (match body r with
     | None => http_error "invalid request" StatusBadRequest
     | Some x => created_json [("data", department_json x)]
     end).

(** ** Theorems *)

(** Where departments has no description, as the migrations leave it, the list shows
    the three sample departments, whatever is stored. *)
Theorem departments_always_sample E r n d :
  mem_s "description" (columns "departments") = false ->
  reply (run E (HandleGetDepartments r) n d)
    = Some (page_json (ParsePaginationParams (query r)) 3 (map department_json sample_departments)).
Proof.
  intros Hcol. unfold HandleGetDepartments, exec. destruct db_nil; [done|]. cbn [bind run].
  unfold answer, checked, names. cbn [forallb]. rewrite Hcol. cbn [andb]. by destruct (env_fail E n).
Qed.

(** A page of locations ends at the first with a column missing; when it is the first of
    the page, or the page is past the end, the samples are shown as if stored. *)
Theorem incomplete_location_shows_sample E r l ls n d : reliable E -> db_nil = false ->
  let pg := ParsePaginationParams (query r) in
  paginate pg (order_by (fun x y => collate (loc_name x) (loc_name y)) (tget locations d)) = l :: ls ->
  loc_address l = None ->
  reply (run E (HandleGetLocations r) n d)
    = Some (page_json pg 2 (map location_json sample_locations)).
Proof.
  intros HE Hdb pg Hl Ha. unfold HandleGetLocations, exec. rewrite Hdb. cbn [bind run]. unfold answer.
  rewrite HE. unfold select_page. fold pg. rewrite Hl. cbn [bind run scan scanned]. unfold location_item.
  by rewrite Ha.
Qed.

(** The creations are answered 201 with the request and send no statement. *)
Lemma organization_not_stored rl rd rp :
  no_stmts (HandleCreateLocation rl) /\ no_stmts (HandleCreateDesignation rd) /\ no_stmts (HandleCreateDepartment rp).
Proof. done. Qed.
End Organization.
