(* ===== verification/Performance.v ===== *)
(** * internal/performance: cycles, goals, reviews and improvement plans

    The package keeps nothing: lists are samples, creations are echoed. *)

From S2P Require Import Prelude Float64 Go Sql Schema Calendar User.

#[local] Open Scope prog_scope.

Record PerformanceCycle := {
  pc_ID : string; pc_Title : string; pc_StartDate : string; pc_EndDate : string; pc_Status : string;
  pc_CreatedAt : Z
}.

Definition cycle_json (c : PerformanceCycle) : json :=
  JObj [("id", JStr (pc_ID c)); ("title", JStr (pc_Title c)); ("start_date", JStr (pc_StartDate c));
        ("end_date", JStr (pc_EndDate c)); ("status", JStr (pc_Status c)); ("created_at", JTime (pc_CreatedAt c))].

Record PerformanceGoal := {
  pg_ID : string; pg_EmployeeID : string; pg_EmployeeName : string; pg_CycleID : option string;
  pg_Title : string; pg_Description : string; pg_Category : string; pg_TargetValue : f64;
  pg_CurrentValue : f64; pg_Weightage : Z; pg_Status : string
}.

Definition goal_json (g : PerformanceGoal) : json :=
  JObj ([("id", JStr (pg_ID g)); ("employee_id", JStr (pg_EmployeeID g))]
        ++ opt_field "employee_name" (pg_EmployeeName g)
        ++ [("cycle_id", opt_json JStr (pg_CycleID g)); ("title", JStr (pg_Title g));
            ("description", JStr (pg_Description g)); ("category", JStr (pg_Category g));
            ("target_value", JNum (pg_TargetValue g)); ("current_value", JNum (pg_CurrentValue g));
            ("weightage", JInt (pg_Weightage g)); ("status", JStr (pg_Status g))]).

Record PerformanceReview := {
  pr_ID : string; pr_CycleID : string; pr_CycleTitle : string; pr_EmployeeID : string;
  pr_EmployeeName : string; pr_ReviewerID : option string; pr_SelfRating : option f64;
  pr_SelfComments : string; pr_ManagerRating : option f64; pr_ManagerComments : string;
  pr_FinalScore : option f64; pr_Status : string
}.

Definition review_json (r : PerformanceReview) : json :=
  JObj ([("id", JStr (pr_ID r)); ("cycle_id", JStr (pr_CycleID r))] ++ opt_field "cycle_title" (pr_CycleTitle r)
        ++ [("employee_id", JStr (pr_EmployeeID r))] ++ opt_field "employee_name" (pr_EmployeeName r)
        ++ [("reviewer_id", opt_json JStr (pr_ReviewerID r)); ("self_rating", opt_json JNum (pr_SelfRating r));
            ("self_comments", JStr (pr_SelfComments r)); ("manager_rating", opt_json JNum (pr_ManagerRating r));
            ("manager_comments", JStr (pr_ManagerComments r)); ("final_score", opt_json JNum (pr_FinalScore r));
            ("status", JStr (pr_Status r))]).

Record PipPlan := {
  pp_ID : string; pp_EmployeeID : string; pp_EmployeeName : string; pp_ManagerID : option string;
  pp_Reason : string; pp_StartDate : string; pp_EndDate : string; pp_Status : string; pp_Remarks : string;
  pp_CreatedAt : Z
}.

Definition pip_json (p : PipPlan) : json :=
  JObj ([("id", JStr (pp_ID p)); ("employee_id", JStr (pp_EmployeeID p))]
        ++ opt_field "employee_name" (pp_EmployeeName p)
        ++ [("manager_id", opt_json JStr (pp_ManagerID p)); ("reason", JStr (pp_Reason p));
            ("start_date", JStr (pp_StartDate p)); ("end_date", JStr (pp_EndDate p)); ("status", JStr (pp_Status p));
            ("remarks", JStr (pp_Remarks p)); ("created_at", JTime (pp_CreatedAt p))]).

Record CycleInput := { ci_Title : string; ci_StartDate : string; ci_EndDate : string }.
Record GoalInput := { gi_CurrentValue : f64; gi_Status : string }.

(** Responses of the package carry no success field. *)
Definition plain_json (fields : list (string * json)) : Response := json_response StatusOK (JObj fields).

(** [http.Error(w, err.Error(), 400)]: the text is the decoder's. *)
Definition decode_error (err : string) : Response := http_error err StatusBadRequest.

(** [t.AddDate(0, months, 0)] *)
Definition add_months (t months : Z) : Z := add_date (date_of_time t) 0 months 0 * day_us + t mod day_us.

(** [uuid.New().String()] *)
Definition new_uuid {D} : prog D string := Rand Ret.

Section Performance.
Context (decode_message : string).

(** ** Cycles *)

Definition sample_cycles (t1 t2 : Z) : list PerformanceCycle :=
  [{| pc_ID := "c0111111-1111-1111-1111-111111111111"; pc_Title := "FY26 Annual Performance Review";
      pc_StartDate := "2026-04-01"; pc_EndDate := "2027-03-31"; pc_Status := "ACTIVE";
      pc_CreatedAt := add_months t1 (-2) |};
   {| pc_ID := "c0222222-2222-2222-2222-222222222222"; pc_Title := "Q2 2026 Mid-Year Check-in";
      pc_StartDate := "2026-07-01"; pc_EndDate := "2026-09-30"; pc_Status := "REVIEW_IN_PROGRESS";
      pc_CreatedAt := add_months t2 (-1) |}].

Definition HandleGetCycles : prog Database Response :=
  t1 <- now; t2 <- now;
  Ret (plain_json [("data", JArr (map cycle_json (sample_cycles t1 t2)))]).

Definition HandleCreateCycle (r : Request CycleInput) : prog Database Response :=
  match body r with
  | None => Ret (decode_error decode_message)
  | Some input =>
      id <- new_uuid; t <- now;
      Ret (plain_json [("data", cycle_json {| pc_ID := id; pc_Title := ci_Title input;
             pc_StartDate := ci_StartDate input; pc_EndDate := ci_EndDate input; pc_Status := "ACTIVE";
             pc_CreatedAt := t |}); ("message", JStr "Cycle created successfully")])
  end.

(** ** Goals *)

Definition sample_goals : list PerformanceGoal :=
  let goal id emp name title descr cat target current weight status :=
    {| pg_ID := id; pg_EmployeeID := emp; pg_EmployeeName := name; pg_CycleID := None; pg_Title := title;
       pg_Description := descr; pg_Category := cat; pg_TargetValue := of_Z target; pg_CurrentValue := of_Z current;
       pg_Weightage := weight; pg_Status := status |} in
  [goal "g0111111-1111-1111-1111-111111111111" "e0111111-1111-1111-1111-111111111111" "Aarav Sharma"
     "Deliver Enterprise HRMS Microservices Architecture"
     "Refactor core modules to Go microservices with sub-50ms p99 latency." "INDIVIDUAL" 100 85 40 "IN_PROGRESS";
   goal "g0222222-2222-2222-2222-222222222222" "e0111111-1111-1111-1111-111111111111" "Aarav Sharma"
     "Achieve 95%+ Unit Test Coverage across Frontend Core"
     "Implement automated end-to-end component testing." "TEAM" 95 92 30 "IN_PROGRESS";
   goal "g0333333-3333-3333-3333-333333333333" "e0222222-2222-2222-2222-222222222222" "Priya Patel"
     "Automate Indian Statutory Tax Computation Engine"
     "Integrate Tax Regime 2026/27 deductions into payroll processing." "INDIVIDUAL" 100 100 30 "COMPLETED"].

Definition HandleGetGoals : prog Database Response :=
  Ret (plain_json [("data", JArr (map goal_json sample_goals))]).

Definition HandleCreateGoal (r : Request PerformanceGoal) : prog Database Response :=
  match body r with
  | None => Ret (decode_error decode_message)
  | Some g =>
      id <- new_uuid;
      Ret (plain_json [("data", goal_json {| pg_ID := id; pg_EmployeeID := pg_EmployeeID g;
             pg_EmployeeName := pg_EmployeeName g; pg_CycleID := pg_CycleID g; pg_Title := pg_Title g;
             pg_Description := pg_Description g; pg_Category := pg_Category g; pg_TargetValue := pg_TargetValue g;
             pg_CurrentValue := pg_CurrentValue g; pg_Weightage := pg_Weightage g; pg_Status := "IN_PROGRESS" |});
           ("message", JStr "Goal created successfully")])
  end.

Definition HandleUpdateGoal (r : Request GoalInput) : prog Database Response :=
  match body r with
  | None => Ret (decode_error decode_message)
  | Some input =>
      Ret (plain_json [("id", JStr (urlParam r "id")); ("current_value", JNum (gi_CurrentValue input));
                       ("status", JStr (gi_Status input)); ("message", JStr "Goal progress updated")])
  end.

(** ** Reviews *)

Definition sample_reviews : list PerformanceReview :=
  let review id emp name self selfc mgr mgrc final status :=
    {| pr_ID := id; pr_CycleID := "c0111111-1111-1111-1111-111111111111";
       pr_CycleTitle := "FY26 Annual Performance Review"; pr_EmployeeID := emp; pr_EmployeeName := name;
       pr_ReviewerID := None; pr_SelfRating := Some self; pr_SelfComments := selfc; pr_ManagerRating := Some mgr;
       pr_ManagerComments := mgrc; pr_FinalScore := final; pr_Status := status |} in
  [review "r0111111-1111-1111-1111-111111111111" "e0111111-1111-1111-1111-111111111111" "Aarav Sharma"
     (lit 45 10) "Successfully delivered core microservices and optimized API throughput."
     (lit 48 10) "Exceptional technical execution and leadership during major release."
     (Some (lit 465 100)) "SUBMITTED_MANAGER";
   review "r0222222-2222-2222-2222-222222222222" "e0222222-2222-2222-2222-222222222222" "Priya Patel"
     (of_Z 4) "Automated payroll statutory compliance engine ahead of deadline."
     (lit 42 10) "Great domain expertise and attention to regulatory details." None "SUBMITTED_SELF"].

Definition HandleGetReviews : prog Database Response :=
  Ret (plain_json [("data", JArr (map review_json sample_reviews))]).

Definition HandleSaveReview (r : Request PerformanceReview) : prog Database Response :=
  match body r with
  | None => Ret (decode_error decode_message)
  | Some v =>
      id <- new_uuid;
      Ret (plain_json [("data", review_json {| pr_ID := id; pr_CycleID := pr_CycleID v;
             pr_CycleTitle := pr_CycleTitle v; pr_EmployeeID := pr_EmployeeID v; pr_EmployeeName := pr_EmployeeName v;
             pr_ReviewerID := pr_ReviewerID v; pr_SelfRating := pr_SelfRating v; pr_SelfComments := pr_SelfComments v;
             pr_ManagerRating := pr_ManagerRating v; pr_ManagerComments := pr_ManagerComments v;
             pr_FinalScore := pr_FinalScore v; pr_Status := "SUBMITTED_SELF" |});
           ("message", JStr "Review submitted successfully")])
  end.

(** ** Improvement plans *)

Definition sample_pips (t : Z) : list PipPlan :=
  [{| pp_ID := "p0111111-1111-1111-1111-111111111111"; pp_EmployeeID := "e0333333-3333-3333-3333-333333333333";
      pp_EmployeeName := "Vikram Malhotra"; pp_ManagerID := None;
      pp_Reason := "Underperformance in Q2 SLA targets and missed sprint deliverables.";
      pp_StartDate := "2026-08-01"; pp_EndDate := "2026-10-31"; pp_Status := "ACTIVE";
      pp_Remarks := "Bi-weekly performance check-ins scheduled with engineering manager.";
      pp_CreatedAt := add_months t (-1) |}].

Definition HandleGetPipPlans : prog Database Response :=
  t <- now; Ret (plain_json [("data", JArr (map pip_json (sample_pips t)))]).

Definition HandleCreatePipPlan (r : Request PipPlan) : prog Database Response :=
  match body r with
  | None => Ret (decode_error decode_message)
  | Some p =>
      id <- new_uuid; t <- now;
      Ret (plain_json [("data", pip_json {| pp_ID := id; pp_EmployeeID := pp_EmployeeID p;
             pp_EmployeeName := pp_EmployeeName p; pp_ManagerID := pp_ManagerID p; pp_Reason := pp_Reason p;
             pp_StartDate := pp_StartDate p; pp_EndDate := pp_EndDate p; pp_Status := "ACTIVE";
             pp_Remarks := pp_Remarks p; pp_CreatedAt := t |}); ("message", JStr "PIP plan created successfully")])
  end.

(** ** Theorems *)

Inductive performance_request : prog Database Response -> Prop :=
  | pq_cycles : performance_request HandleGetCycles
  | pq_cycle r : performance_request (HandleCreateCycle r)
  | pq_goals : performance_request HandleGetGoals
  | pq_goal r : performance_request (HandleCreateGoal r)
  | pq_update r : performance_request (HandleUpdateGoal r)
  | pq_reviews : performance_request HandleGetReviews
  | pq_review r : performance_request (HandleSaveReview r)
  | pq_pips : performance_request HandleGetPipPlans
  | pq_pip r : performance_request (HandleCreatePipPlan r).

(** No request of the package sends a statement: what it reports as created, updated
    or submitted is kept nowhere, although the migrations have its tables. *)
Theorem performance_keeps_nothing p E n d : performance_request p -> db_of (run E p n d) = d.
Proof.
  intros Hp. apply run_no_stmts. unfold no_stmts.
  destruct Hp; unfold HandleCreateCycle, HandleCreateGoal, HandleUpdateGoal, HandleSaveReview, HandleCreatePipPlan;
    try destruct (body r); simpl; intros; exact I.
Qed.
End Performance.
