(* ===== verification/Recruitment.v ===== *)
(** * internal/recruitment: requisitions, candidates and offers

    Samples, and an offer that is acknowledged without being kept. *)

From S2P Require Import Prelude Float64 Go Sql Schema.

#[local] Open Scope prog_scope.

Record JobRequisition := {
  jr_ID : string; jr_Title : string; jr_Department : string; jr_Location : string; jr_Status : string;
  jr_Headcount : Z
}.

Definition requisition_json (j : JobRequisition) : json :=
  JObj [("id", JStr (jr_ID j)); ("title", JStr (jr_Title j)); ("department", JStr (jr_Department j));
        ("location", JStr (jr_Location j)); ("status", JStr (jr_Status j)); ("headcount", JInt (jr_Headcount j))].

Record Candidate := {
  ca_ID : string; ca_Name : string; ca_Email : string; ca_Role : string; ca_Status : string
}.

Definition candidate_json (c : Candidate) : json :=
  JObj [("id", JStr (ca_ID c)); ("name", JStr (ca_Name c)); ("email", JStr (ca_Email c));
        ("role", JStr (ca_Role c)); ("status", JStr (ca_Status c))].

Record OfferRequest := { or_CandidateID : string; or_SalaryOffered : f64 }.

Definition sample_jobs : list JobRequisition :=
  [{| jr_ID := "job-1"; jr_Title := "Senior Frontend Engineer"; jr_Department := "Engineering";
      jr_Location := "Bangalore"; jr_Status := "OPEN"; jr_Headcount := 2 |};
   {| jr_ID := "job-2"; jr_Title := "Product Manager"; jr_Department := "Product"; jr_Location := "Remote";
      jr_Status := "OPEN"; jr_Headcount := 1 |}].

Definition HandleGetJobs : prog Database Response :=
  Ret (ok_json [("data", JArr (map requisition_json sample_jobs))]).

Definition sample_candidates : list Candidate :=
  [{| ca_ID := "cand-1"; ca_Name := "Rahul Sharma"; ca_Email := "rahul@example.com";
      ca_Role := "Senior Frontend Engineer"; ca_Status := "APPLIED" |};
   {| ca_ID := "cand-2"; ca_Name := "Priya Patel"; ca_Email := "priya@example.com";
      ca_Role := "Senior Frontend Engineer"; ca_Status := "INTERVIEWING" |};
   {| ca_ID := "cand-3"; ca_Name := "Amit Kumar"; ca_Email := "amit@example.com"; ca_Role := "Product Manager";
      ca_Status := "OFFERED" |};
   {| ca_ID := "cand-4"; ca_Name := "Sneha Gupta"; ca_Email := "sneha@example.com"; ca_Role := "Product Manager";
      ca_Status := "HIRED" |}].

Definition HandleGetCandidates : prog Database Response :=
  Ret (ok_json [("data", JArr (map candidate_json sample_candidates))]).

Definition HandleCreateOffer (r : Request OfferRequest) : prog Database Response :=
  Ret (match body r with
     | None => http_error "invalid request" StatusBadRequest
     | Some _ => created_json [("message", JStr "Offer letter generated and workflow triggered.")]
     end).

(** The offer is acknowledged for any candidate, and no statement is sent. *)
Lemma offers_not_stored r : no_stmts (HandleCreateOffer r).
Proof. done. Qed.
