(* ===== verification/Configuration.v ===== *)
(** * internal/configuration: configuration values in force *)

From S2P Require Import Prelude Float64 Go Sql Schema.

#[local] Open Scope prog_scope.

Section Configuration.
Context `{Server}.

(** The rows of the key in force: a NULL date passes no comparison. *)
Definition in_force (key : string) (t : Z) (r : ConfigRow) : bool :=
  (cfg_key r =?s key) && match cfg_effective_from r with Some e => e <=? t | None => false end.

Definition effective_from (r : ConfigRow) : Z := default 0 (cfg_effective_from r).

Definition select_config (key : string) : stmt Database json := fun c d =>
  match order_by (desc effective_from) (where_ (in_force key (sc_now c)) (tget system_configurations d)) with
  | r :: _ => Ok (cfg_value r, d)
  | [] => Err no_rows
  end.

(** [json.Unmarshal] into a map: null leaves it nil, other values are errors. *)
Definition unmarshal_map (v : json) : result (option (list (string * json))) :=
  match v with
  | JObj l => Ok (Some l)
  | JNull => Ok None
  | _ => Err "json: cannot unmarshal value into Go value of type map[string]interface {}"
  end.

Definition GetConfig (key : string) : prog Database (result (option (list (string * json)))) :=
  row <- exec (select_config key);
  Ret (match row with
     | Err e => Err ("config " +:+ key +:+ " not found: " +:+ e)
     | Ok v => unmarshal_map v
     end).

(** A value returned is that of a row of the key in force, and no row of the key in
    force is newer. *)
Theorem GetConfig_newest E key n d v : db_nil = false ->
  out (run E (GetConfig key) n d) = Done (Ok v) ->
  let t := sc_now (env_ctx E n) in
  exists r, r ∈ tget system_configurations d /\ in_force key t r = true /\ unmarshal_map (cfg_value r) = Ok v
  /\ forall r', r' ∈ tget system_configurations d -> in_force key t r' = true ->
       effective_from r' <= effective_from r.
Proof.
  intros Hdb. unfold GetConfig, exec. rewrite Hdb. simpl. unfold answer. destruct (env_fail E n); [done|].
  unfold select_config. set (t := sc_now _).
  destruct (order_by _ _) as [|r l] eqn:Eo; [done|]. cbn. intros [= Hv]. exists r.
  assert (Hin : forall x, x ∈ r :: l <-> x ∈ tget system_configurations d /\ in_force key t x = true).
  { intros x. by rewrite <- Eo, elem_of_order_by, elem_of_where. }
  destruct (proj1 (Hin r)) as [Hr Hf]; [apply list_elem_of_here|]. split_and!; try done.
  intros r' Hr' Hf'. eapply (order_by_desc_head effective_from _ r l r' Eo).
  apply elem_of_where. by split.
Qed.
End Configuration.
