(* ===== verification/Helpdesk.v ===== *)
(** * internal/helpdesk: tickets, their numbers, deadlines and states *)

From S2P Require Import Prelude Float64 Go Sql Schema Calendar Auth Authz AuditTrail.

#[local] Open Scope prog_scope.

(** ** Pure rules *)

(** The year is that of the clock. *)
Definition GenerateTicketNumber (year seq : Z) : string := "TICK-" +:+ itoa year +:+ "-" +:+ pad0 3 seq.

(** Times are in microseconds, a [time.Duration] in 64-bit nanoseconds:
    [time.Duration(slaHours) * time.Hour] wraps around. *)
Definition sla_duration (slaHours : Z) : Z := wrap64 (slaHours * (3600 * 10 ^ 9)).

Definition EvaluateSLABreach (now createdAt slaHours : Z) (status : string) : bool :=
  if (status =?s "RESOLVED") || (status =?s "CLOSED") then false
  else if slaHours <=? 0 then false
  else createdAt * 1000 + sla_duration slaHours <? now * 1000.

Definition ProcessTicketTransition (currentStatus action : string) : string :=
  if (action =?s "ASSIGN") || (action =?s "START_PROGRESS") then "IN_PROGRESS"
  else if action =?s "RESOLVE" then "RESOLVED"
  else if action =?s "CLOSE" then "CLOSED"
  else if action =?s "REOPEN" then "OPEN"
  else currentStatus.

(** ** Data *)

Record HelpdeskCategory := {
  hc_ID : string;
  hc_Name : string;
  hc_Description : string;
  hc_SLAHours : Z
}.

Definition category_json (c : HelpdeskCategory) : json :=
  JObj [("id", JStr (hc_ID c)); ("name", JStr (hc_Name c)); ("description", JStr (hc_Description c));
        ("sla_hours", JInt (hc_SLAHours c))].

Record HelpdeskTicket := {
  ht_ID : string;
  ht_TicketNumber : string;
  ht_EmployeeID : string;
  ht_EmployeeCode : string;
  ht_EmployeeName : string;
  ht_CategoryID : string;
  ht_CategoryName : string;
  ht_Subject : string;
  ht_Description : string;
  ht_Priority : string;
  ht_Status : string;
  ht_AssignedTo : string;
  ht_AssignedToName : string;
  ht_SLAHours : Z;
  ht_IsSLABreached : bool;
  ht_ResolvedAt : string;
  ht_ResolutionNotes : string;
  ht_CreatedAt : string;
  ht_CommentsCount : Z
}.

Definition ticket_json (t : HelpdeskTicket) : json :=
  JObj ([("id", JStr (ht_ID t)); ("ticket_number", JStr (ht_TicketNumber t));
         ("employee_id", JStr (ht_EmployeeID t))]
        ++ opt_field "employee_code" (ht_EmployeeCode t) ++ opt_field "employee_name" (ht_EmployeeName t)
        ++ [("category_id", JStr (ht_CategoryID t))] ++ opt_field "category_name" (ht_CategoryName t)
        ++ [("subject", JStr (ht_Subject t)); ("description", JStr (ht_Description t));
            ("priority", JStr (ht_Priority t)); ("status", JStr (ht_Status t))]
        ++ opt_field "assigned_to" (ht_AssignedTo t) ++ opt_field "assigned_to_name" (ht_AssignedToName t)
        ++ [("sla_hours", JInt (ht_SLAHours t)); ("is_sla_breached", JBool (ht_IsSLABreached t))]
        ++ opt_field "resolved_at" (ht_ResolvedAt t) ++ opt_field "resolution_notes" (ht_ResolutionNotes t)
        ++ [("created_at", JStr (ht_CreatedAt t)); ("comments_count", JInt (ht_CommentsCount t))]).

Record TicketAction := { ta_Action : string; ta_ResolutionNotes : string }.

Section Helpdesk.
Context `{Server}.

(** ** Categories *)

Definition category_item (r : HdCatRow) : HelpdeskCategory :=
  {| hc_ID := hdc_id r; hc_Name := hdc_name r; hc_Description := default "" (hdc_description r);
   hc_SLAHours := hdc_sla_hours r |}.

Definition HandleGetCategories : prog Database Response :=
  if db_nil then Ret db_unavailable else
  rows <- exec (select (fun d => map category_item
          (order_by (fun x y => collate (hdc_name x) (hdc_name y)) (tget helpdesk_categories d))));
  Ret (match rows with
     | Err e => fail_json StatusInternalServerError e
     | Ok items => ok_json [("data", JArr (map category_json items))]
     end).

Definition insert_category (c : HelpdeskCategory) : stmt Database HdCatRow :=
  with_varchar 100 (hc_Name c) (fun name => with_int4 (hc_SLAHours c)
  (insert helpdesk_categories (fun x d =>
     if existsb (fun r => hdc_name r =?s name) (tget helpdesk_categories d) then Err unique_error
     else Ok {| hdc_id := sc_uuid x; hdc_name := name; hdc_description := Some (hc_Description c);
                hdc_sla_hours := hc_SLAHours c |}))).

Definition HandleCreateCategory (r : Request HelpdeskCategory) : prog Database Response :=
  if negb (HasRole (claims r) ["SUPER_ADMIN"; "HR_ADMIN"])
  then Ret (ForbiddenResponse "FORBIDDEN_ROLE" "Only HR and Super Admins can manage helpdesk categories.")
  else
  match body r with
  | None => Ret (http_error "invalid category payload" StatusBadRequest)
  | Some req =>
    if hc_Name req =?s "" then Ret (http_error "invalid category payload" StatusBadRequest) else
    let req := {| hc_ID := hc_ID req; hc_Name := hc_Name req; hc_Description := hc_Description req;
                  hc_SLAHours := if hc_SLAHours req <=? 0 then 24 else hc_SLAHours req |} in
    let created id :=
      ok_json [("message", JStr "Helpdesk category created successfully.");
               ("data", category_json {| hc_ID := id; hc_Name := hc_Name req;
                          hc_Description := hc_Description req; hc_SLAHours := hc_SLAHours req |})] in
    if db_nil then Ret (created (hc_ID req)) else
    res <- exec (insert_category req);
    match res with
    | Err e => Ret (fail_json StatusInternalServerError e)
    | Ok row => Ret (created (hdc_id row))
    end
  end.

(** ** Tickets *)

(** helpdesk_tickets t JOIN employees e JOIN helpdesk_categories c *)
Definition ticket_rows (d : Database) : list (HdTicketRow * EmpRow * HdCatRow) :=
  flat_map (fun t =>
  flat_map (fun e =>
    map (fun c => (t, e, c)) (where_ (fun c => hdc_id c =?s hdt_category_id t) (tget helpdesk_categories d)))
    (where_ (fun e => emp_id e =?s hdt_employee_id t) (tget employees d)))
  (tget helpdesk_tickets d).

(** A row as the handlers show it: the deadline is judged by the clock at the
    time of the response. *)
Definition ticket_item (d : Database) (t : Z) (comments : Z) (p : HdTicketRow * EmpRow * HdCatRow)
  : HelpdeskTicket :=
  let '(k, e, c) := p in
  {| ht_ID := hdt_id k; ht_TicketNumber := hdt_ticket_number k; ht_EmployeeID := hdt_employee_id k;
   ht_EmployeeCode := emp_employee_id e; ht_EmployeeName := full_name e;
   ht_CategoryID := hdt_category_id k; ht_CategoryName := hdc_name c; ht_Subject := hdt_subject k;
   ht_Description := hdt_description k; ht_Priority := hdt_priority k; ht_Status := hdt_status k;
   ht_AssignedTo := default "" (hdt_assigned_to k);
   ht_AssignedToName := default "" (hdt_assigned_to k ≫= fun u =>
      usr_email <$> List.find (fun x => usr_id x =?s u) (tget users d));
   ht_SLAHours := hdc_sla_hours c;
   ht_IsSLABreached := EvaluateSLABreach t (hdt_created_at k) (hdc_sla_hours c) (hdt_status k);
   ht_ResolvedAt := from_option datetime_text "" (hdt_resolved_at k);
   ht_ResolutionNotes := default "" (hdt_resolution_notes k);
   ht_CreatedAt := datetime_text (hdt_created_at k); ht_CommentsCount := comments |}.

Definition comments_of (id : string) (d : Database) : list HdCommentRow :=
  where_ (fun m => hdm_ticket_id m =?s id) (tget helpdesk_ticket_comments d).

(** The clock is read for each row, after the query. *)
Definition HandleGetTickets : prog Database Response :=
  if db_nil then Ret db_unavailable else
  rows <- exec (select (fun d => map (fun p =>
          let id := hdt_id (fst (fst p)) in
          (p, fun t => ticket_item d t (Z.of_nat (length (comments_of id d))) p))
          (order_by (desc (fun p => hdt_created_at (fst (fst p)))) (ticket_rows d))));
  match rows with
  | Err e => Ret (fail_json StatusInternalServerError e)
  | Ok rows =>
    items <- for_each rows [] (fun acc p => t <- now; Ret (acc ++ [ticket_json (snd p t)]));
    Ret (ok_json [("data", JArr items)])
  end.

Definition insert_ticket (number empID : string) (req : HelpdeskTicket) (priority : string)
  : stmt Database HdTicketRow :=
  with_varchar 50 number (fun number => with_uuid empID (fun eu => with_uuid (ht_CategoryID req) (fun cu =>
  with_varchar 255 (ht_Subject req) (fun subject => with_varchar 20 priority (fun priority =>
  insert helpdesk_tickets (fun c d =>
  if existsb (fun t => hdt_ticket_number t =?s number) (tget helpdesk_tickets d) then Err unique_error
  else if negb (ref_employee eu d && existsb (fun k => hdc_id k =?s cu) (tget helpdesk_categories d))
  then Err fk_error
  else Ok {| hdt_id := sc_uuid c; hdt_ticket_number := number; hdt_employee_id := eu;
             hdt_category_id := cu; hdt_subject := subject; hdt_description := ht_Description req;
             hdt_priority := priority; hdt_status := "OPEN"; hdt_assigned_to := None;
             hdt_resolved_at := None; hdt_resolution_notes := None; hdt_created_at := sc_now c;
             hdt_updated_at := sc_now c |})))))).

Definition submitted (t : HelpdeskTicket) : Response :=
  ok_json [("message", JStr ("Helpdesk ticket " +:+ ht_TicketNumber t +:+ " submitted successfully."));
         ("data", ticket_json t)].

Definition HandleCreateTicket (r : Request HelpdeskTicket) : prog Database Response :=
  match claims r with
  | None => Ret (http_error "unauthorized" StatusUnauthorized)
  | Some k =>
  match body r with
  | None => Ret (http_error "invalid ticket payload" StatusBadRequest)
  | Some req =>
    if (ht_CategoryID req =?s "") || (ht_Subject req =?s "") || (ht_Description req =?s "")
    then Ret (http_error "invalid ticket payload" StatusBadRequest)
    else
    let priority := if ht_Priority req =?s "" then "MEDIUM" else ht_Priority req in
    let answer id number empID st created :=
      submitted {| ht_ID := id; ht_TicketNumber := number; ht_EmployeeID := empID;
                   ht_EmployeeCode := ht_EmployeeCode req; ht_EmployeeName := ht_EmployeeName req;
                   ht_CategoryID := ht_CategoryID req; ht_CategoryName := ht_CategoryName req;
                   ht_Subject := ht_Subject req; ht_Description := ht_Description req;
                   ht_Priority := priority; ht_Status := st; ht_AssignedTo := ht_AssignedTo req;
                   ht_AssignedToName := ht_AssignedToName req; ht_SLAHours := ht_SLAHours req;
                   ht_IsSLABreached := ht_IsSLABreached req; ht_ResolvedAt := ht_ResolvedAt req;
                   ht_ResolutionNotes := ht_ResolutionNotes req; ht_CreatedAt := created;
                   ht_CommentsCount := ht_CommentsCount req |} in
    if db_nil then
      Ret (answer (ht_ID req) (ht_TicketNumber req) (ht_EmployeeID req) (ht_Status req) (ht_CreatedAt req))
    else
    mine <- exec (employee_of_user (UserID k));
    empID <- (if scan "" mine =?s ""
              then x <- exec any_employee; Ret (scan "" x)
              else Ret (scan "" mine));
    cnt <- exec (select (fun d => Z.of_nat (length (tget helpdesk_tickets d))));
    t <- now;
    let ticketNum := GenerateTicketNumber (year_of (date_of_time t)) (scan 0 cnt + 1) in
    res <- exec (insert_ticket ticketNum empID req priority);
    match res with
    | Err e => Ret (fail_json StatusInternalServerError e)
    | Ok row =>
        t <- now;
        audited {| le_UserID := UserID k; le_Action := "HELPDESK_TICKET_SUBMITTED";
                   le_Module := "HELPDESK"; le_EntityName := "helpdesk_tickets";
                   le_EntityID := hdt_id row; le_AfterState := [];
                   le_Reason := "Submitted helpdesk ticket " +:+ ticketNum +:+ ": " +:+ ht_Subject req |} ;;;
        Ret (answer (hdt_id row) ticketNum empID "OPEN" (datetime_text t))
    end
  end
  end.

Definition find_ticket (ticketID : string) : stmt Database (Database * (HdTicketRow * EmpRow * HdCatRow)) :=
  with_uuid ticketID (fun u => select_row (fun d =>
  pair d <$> List.find (fun p => hdt_id (fst (fst p)) =?s u) (ticket_rows d))).

Definition comment_json (p : HdCommentRow * UserRow) : json :=
  let '(m, u) := p in
  JObj [("id", JStr (hdm_id m)); ("ticket_id", JStr (hdm_ticket_id m)); ("user_id", JStr (hdm_user_id m));
      ("user_name", JStr (usr_email u)); ("user_role", JStr "USER"); ("comment", JStr (hdm_comment m));
      ("created_at", JStr (datetime_text (hdm_created_at m)))].

(** The query names the column [users.role], which no migration creates; were it
    to exist, every user's would be NULL. *)
Definition ticket_comments (ticketID : string) : stmt Database (list json) :=
  with_uuid ticketID (fun u =>
  checked (names "users" ["role"])
  (select (fun d => map comment_json
   (order_by (asc (fun p => hdm_created_at (fst p)))
     (flat_map (fun m => map (pair m) (where_ (fun x => usr_id x =?s hdm_user_id m) (tget users d)))
        (comments_of u d)))))).

Definition HandleGetTicketDetails {B} (r : Request B) : prog Database Response :=
  let ticketID := urlParam r "id" in
  if ticketID =?s "" then Ret (http_error "missing ticket id" StatusBadRequest) else
  if db_nil then Ret db_unavailable else
  row <- exec (find_ticket ticketID);
  match row with
  | Err _ => Ret (fail_json StatusNotFound "ticket not found")
  | Ok (d, p) =>
    t <- now;
    comments <- exec (ticket_comments ticketID);
    Ret (ok_json [("ticket", ticket_json (ticket_item d t 0 p)); ("comments", JArr (scan [] comments))])
  end.

(** ** Comments and transitions *)

Definition insert_comment (ticketID userID comment : string) : stmt Database HdCommentRow :=
  with_uuid ticketID (fun tu => with_uuid userID (fun uu =>
  insert helpdesk_ticket_comments (fun c d =>
  if existsb (fun t => hdt_id t =?s tu) (tget helpdesk_tickets d) && ref_user uu d
  then Ok {| hdm_id := sc_uuid c; hdm_ticket_id := tu; hdm_user_id := uu; hdm_comment := comment;
             hdm_created_at := sc_now c |}
  else Err fk_error))).

Definition HandleAddComment (r : Request string) : prog Database Response :=
  match claims r with
  | None => Ret (http_error "unauthorized" StatusUnauthorized)
  | Some k =>
  match body r with
  | None => Ret (http_error "invalid comment payload" StatusBadRequest)
  | Some comment =>
    if comment =?s "" then Ret (http_error "invalid comment payload" StatusBadRequest) else
    let posted := ok_json [("message", JStr "Comment posted to helpdesk ticket.")] in
    if db_nil then Ret posted else
    res <- exec (insert_comment (urlParam r "id") (UserID k) comment);
    match res with
    | Err e => Ret (fail_json StatusInternalServerError e)
    | Ok _ => Ret posted
    end
  end
  end.

Definition ticket_status (ticketID : string) : stmt Database string :=
  with_uuid ticketID (fun u => select_row (fun d =>
  hdt_status <$> List.find (fun t => hdt_id t =?s u) (tget helpdesk_tickets d))).

Definition set_ticket (status userID ticketID : string) (notes : option string) : stmt Database Z :=
  with_varchar 20 status (fun status => with_uuid userID (fun uu => with_uuid ticketID (fun tu =>
  update_chk helpdesk_tickets (fun t => hdt_id t =?s tu)
  (fun c t =>
     let t := set_hdt_updated_at (sc_now c) (set_hdt_assigned_to (Some uu) (set_hdt_status status t)) in
     match notes with
     | Some n => set_hdt_resolution_notes (Some n) (set_hdt_resolved_at (Some (sc_now c)) t)
     | None => t
     end)
  (fun d _ => if ref_user uu d then None else Some fk_error)))).

Definition HandleTransitionTicket (r : Request TicketAction) : prog Database Response :=
  if negb (HasRole (claims r) ["SUPER_ADMIN"; "HR_ADMIN"])
  then Ret (ForbiddenResponse "FORBIDDEN_ROLE" "Only HR and Support Admins can update ticket status.")
  else
  let uid := from_option UserID "" (claims r) in
  let ticketID := urlParam r "id" in
  match body r with
  | None => Ret (http_error "invalid transition payload" StatusBadRequest)
  | Some req =>
    if ta_Action req =?s "" then Ret (http_error "invalid transition payload" StatusBadRequest) else
    let updated := ok_json [("message", JStr "Ticket status updated.")] in
    if db_nil then Ret updated else
    cur <- exec (ticket_status ticketID);
    let targetStatus := ProcessTicketTransition (scan "" cur) (ta_Action req) in
    let notes := if (ta_Action req =?s "RESOLVE") || (ta_Action req =?s "CLOSE")
                 then Some (ta_ResolutionNotes req) else None in
    _ <- exec (set_ticket targetStatus uid ticketID notes);
    audited {| le_UserID := uid; le_Action := "HELPDESK_TICKET_TRANSITION"; le_Module := "HELPDESK";
               le_EntityName := "helpdesk_tickets"; le_EntityID := ticketID; le_AfterState := [];
               le_Reason := "Ticket status transitioned to " +:+ targetStatus |} ;;;
    Ret updated
  end.
End Helpdesk.
