(* ===== verification/HelpdeskProps.v ===== *)
(** * Properties of the helpdesk *)

From S2P Require Import Prelude Float64 Go Sql Schema Calendar Demo Common Auth Authz AuditTrail Helpdesk.

#[local] Open Scope prog_scope.

(** ** Deadlines *)

(** The hours of a 64-bit count of nanoseconds. *)
Definition max_sla_hours : Z := (2 ^ 63 - 1) / (3600 * 10 ^ 9).

(** With an agreed time of at most 2562047 hours, a ticket is in breach exactly when
    it is neither RESOLVED nor CLOSED and the time has passed since its creation;
    the next hour wraps around, and breaches as soon as the ticket exists. *)
Theorem sla_breach_exact now createdAt slaHours status :
  (slaHours <= max_sla_hours ->
   EvaluateSLABreach now createdAt slaHours status
   = negb (mem_s status ["RESOLVED"; "CLOSED"]) && (0 <? slaHours)
     && (createdAt + slaHours * 3600000000 <? now))
  /\ EvaluateSLABreach createdAt createdAt (max_sla_hours + 1) "OPEN" = true.
Proof.
  split.
  - intros Hs. unfold EvaluateSLABreach. unfold mem_s. cbn [existsb]. rewrite orb_false_r.
    destruct (_ || _); [done|]. cbn [negb andb].
    destruct (Z.leb_spec slaHours 0).
    { by rewrite (proj2 (Z.ltb_ge _ _)). }
    rewrite (proj2 (Z.ltb_lt 0 _)) by done. cbn [andb].
    assert (Hw : sla_duration slaHours = slaHours * (3600 * 10 ^ 9)).
    { apply wrap64_id. unfold max_sla_hours in Hs. Z.to_euclidean_division_equations; lia. }
    rewrite Hw. apply eq_true_iff_eq. rewrite !Z.ltb_lt. lia.
  - unfold EvaluateSLABreach. cbn [String.eqb Ascii.eqb Bool.eqb orb].
    assert (Hw : sla_duration (max_sla_hours + 1) < 0) by by vm_compute.
    destruct (Z.leb_spec (max_sla_hours + 1) 0) as [Hle|_]; [by vm_compute in Hle|].
    apply Z.ltb_lt. lia.
Qed.

(** ** Ticket numbers *)

Definition network : HdCatRow :=
  {| hdc_id := uid 51; hdc_name := "Network"; hdc_description := None; hdc_sla_hours := 24 |}.

Definition desk_db : Database := tput helpdesk_categories [network] demo_db.

Definition ticket_request (n : Z) : Request HelpdeskTicket :=
  demo_request (Some (demo_claims n ["EMPLOYEE"]))
    (Some {| ht_ID := ""; ht_TicketNumber := ""; ht_EmployeeID := ""; ht_EmployeeCode := ""; ht_EmployeeName := "";
             ht_CategoryID := uid 51; ht_CategoryName := ""; ht_Subject := "VPN"; ht_Description := "drops";
             ht_Priority := ""; ht_Status := ""; ht_AssignedTo := ""; ht_AssignedToName := ""; ht_SLAHours := 0;
             ht_IsSLABreached := false; ht_ResolvedAt := ""; ht_ResolutionNotes := ""; ht_CreatedAt := "";
             ht_CommentsCount := 0 |}) "".

Definition moment (n : Z) : StmtCtx := {| sc_now := demo_time; sc_uuid := uid n |}.

(** Two tickets submitted at the same time read the same count and take the same
    number: one of the two submissions is refused with a database error and its
    ticket is lost. *)
Theorem concurrent_tickets_collide :
  let ps := [HandleCreateTicket (ticket_request 1); HandleCreateTicket (ticket_request 2)] in
  exists ps' d', steps (ps, desk_db) (ps', d')
    /\ map hdt_ticket_number (tget helpdesk_tickets d') = ["TICK-2026-001"]
    /\ map hdt_employee_id (tget helpdesk_tickets d') = [uid 11]
    /\ ps' !! 1%nat = Some (Ret (fail_json StatusInternalServerError unique_error)).
Proof.
  intros ps.
  set (c := run_schedule (map (fun i => (i, moment 900)) [0; 0; 1; 1; 0; 0; 1; 1]%nat) (ps, desk_db)).
  exists (fst c), (snd c). split.
  - rewrite <- surjective_pairing. apply run_schedule_steps.
  - by vm_compute.
Qed.
