(* ===== verification/Leave.v ===== *)
(** * internal/leave: leave types, balances and applications (leave.go), accrual
    policies (policy.go) and encashment (encashment.go) *)

From S2P Require Import Prelude Float64 Go Sql Schema Calendar Common Auth Authz AuditTrail.

#[local] Open Scope prog_scope.

(** ** Pure rules *)

(** *** policy.go: the sandwich rule

    Times are microseconds, in UTC; the loop counts days in a float64. *)

(** [curr.AddDate(0, 0, 1)] *)
Definition next_day (t : Z) : Z := add_date (date_of_time t) 0 0 1 * day_us + t mod day_us.

Definition is_weekend (t : Z) : bool :=
  let w := weekday (date_of_time t) in (w =? 6) || (w =? 0).

(** The rounds of the loop, at most [fuel] of them. *)
Fixpoint sandwich_loop (fuel : nat) (curr endDate : Z) (isSandwichEnabled : bool) (days : f64) : option f64 :=
  if endDate <? curr then Some days else
  match fuel with
  | O => None
  | S fuel =>
      let days := if negb (is_weekend curr) then (days + of_Z 1)%f64
                  else if isSandwichEnabled then (days + of_Z 1)%f64 else days in
      sandwich_loop fuel (next_day curr) endDate isSandwichEnabled days
  end.

(** A round per day started. *)
Definition sandwich_rounds (startDate endDate : Z) : nat :=
  Z.to_nat ((endDate - startDate) / day_us + 1).

Definition EvaluateSandwichRule (startDate endDate : Z) (isSandwichEnabled : bool) : option f64 :=
  if endDate <? startDate then Some f0
  else sandwich_loop (sandwich_rounds startDate endDate) startDate endDate isSandwichEnabled f0.

(** *** encashment.go *)

(** (per-day rate, total) *)
Definition CalculateEncashmentAmount (days monthlyGross : f64) : f64 * f64 :=
  if (days <=? f0)%f64 || (monthlyGross <=? f0)%f64 then (f0, f0)
  else let perDayRate := (monthlyGross / of_Z 30)%f64 in (perDayRate, (days * perDayRate)%f64).

Definition ProcessMultiLevelApproval (currentLevel maxLevels : Z) (action : string) : Z * string :=
  if action =?s "REJECT" then (currentLevel, "REJECTED")
  else if action =?s "APPROVE" then
    if currentLevel <? maxLevels then (currentLevel + 1, "PENDING") else (currentLevel, "APPROVED")
  else (currentLevel, "PENDING").

(** ** Data *)

Record LeaveType := {
  lt_ID : string;
  lt_Name : string;
  lt_Code : string;
  lt_AccrualFrequency : string;
  lt_AccrualDays : f64;
  lt_MaxCarryForward : f64;
  lt_SandwichRule : bool;
  lt_AllowHalfDay : bool;
  lt_Encashable : bool
}.

Definition type_json (t : LeaveType) : json :=
  JObj [("id", JStr (lt_ID t)); ("name", JStr (lt_Name t)); ("code", JStr (lt_Code t));
        ("accrual_frequency", JStr (lt_AccrualFrequency t)); ("accrual_days", JNum (lt_AccrualDays t));
        ("max_carry_forward", JNum (lt_MaxCarryForward t)); ("sandwich_rule", JBool (lt_SandwichRule t));
        ("allow_half_day", JBool (lt_AllowHalfDay t)); ("encashable", JBool (lt_Encashable t))].

(** The body of HandleCreateApplication. *)
Record ApplicationRequest := {
  ap_LeaveTypeID : string;
  ap_LeaveType : string;
  ap_StartDate : string;
  ap_EndDate : string;
  ap_TotalDays : Z;
  ap_Reason : string
}.

Record LeavePolicyItem := {
  lp_ID : string;
  lp_LeaveTypeID : string;
  lp_LeaveTypeName : string;
  lp_LeaveTypeCode : string;
  lp_PolicyName : string;
  lp_AccrualFrequency : string;
  lp_AccrualRate : f64;
  lp_MaxCarryForwardDays : Z;
  lp_SandwichRuleEnabled : bool;
  lp_IsEncashable : bool
}.

Definition policy_json (p : LeavePolicyItem) : json :=
  JObj ([("id", JStr (lp_ID p)); ("leave_type_id", JStr (lp_LeaveTypeID p))]
        ++ opt_field "leave_type_name" (lp_LeaveTypeName p) ++ opt_field "leave_type_code" (lp_LeaveTypeCode p)
        ++ [("policy_name", JStr (lp_PolicyName p)); ("accrual_frequency", JStr (lp_AccrualFrequency p));
            ("accrual_rate", JNum (lp_AccrualRate p)); ("max_carry_forward_days", JInt (lp_MaxCarryForwardDays p));
            ("sandwich_rule_enabled", JBool (lp_SandwichRuleEnabled p));
            ("is_encashable", JBool (lp_IsEncashable p))]).

Record LeaveEncashmentItem := {
  lei_ID : string;
  lei_EmployeeID : string;
  lei_EmployeeCode : string;
  lei_EmployeeName : string;
  lei_LeaveTypeID : string;
  lei_LeaveTypeName : string;
  lei_DaysToEncash : f64;
  lei_PerDayRate : f64;
  lei_TotalAmount : f64;
  lei_Status : string;
  lei_Reason : string;
  lei_ApprovedBy : string;
  lei_ApprovedAt : string;
  lei_CreatedAt : string
}.

Definition encashment_json (e : LeaveEncashmentItem) : json :=
  JObj ([("id", JStr (lei_ID e)); ("employee_id", JStr (lei_EmployeeID e))]
        ++ opt_field "employee_code" (lei_EmployeeCode e) ++ opt_field "employee_name" (lei_EmployeeName e)
        ++ [("leave_type_id", JStr (lei_LeaveTypeID e))] ++ opt_field "leave_type_name" (lei_LeaveTypeName e)
        ++ [("days_to_encash", JNum (lei_DaysToEncash e)); ("per_day_rate", JNum (lei_PerDayRate e));
            ("total_amount", JNum (lei_TotalAmount e)); ("status", JStr (lei_Status e));
            ("reason", JStr (lei_Reason e))]
        ++ opt_field "approved_by" (lei_ApprovedBy e) ++ opt_field "approved_at" (lei_ApprovedAt e)
        ++ opt_field "created_at" (lei_CreatedAt e)).

Record ReviewRequest := { rv_EncashmentID : string; rv_Action : string }.

(** A NUMERIC(p, 2) scanned into an [int]: an error unless it is integral. *)
Definition int_of_num (n : Z) : option Z := if n mod 100 =? 0 then Some (n / 100) else None.

Section Leave.
Context `{Server}.

(** ** leave.go *)

Definition type_item (r : TypeRow) : LeaveType :=
  {| lt_ID := lty_id r; lt_Name := lty_name r; lt_Code := default "" (lty_code r);
   lt_AccrualFrequency := default "N/A" (lty_accrual_frequency r);
   lt_AccrualDays := num_out 2 (default 0 (lty_accrual_days r));
   lt_MaxCarryForward := num_out 2 (default 0 (lty_max_carry_forward r));
   lt_SandwichRule := default false (lty_sandwich_rule r);
   lt_AllowHalfDay := default false (lty_allow_half_day r);
   lt_Encashable := default false (lty_encashable r) |}.

Definition by_type_name {A} (ty : A -> TypeRow) (x y : A) : bool := collate (lty_name (ty x)) (lty_name (ty y)).

Definition HandleGetTypes : prog Database Response :=
  if db_nil then Ret (JSONError "Database connection unavailable" StatusInternalServerError) else
  rows <- exec (checked (names "leave_types" ["code"; "accrual_frequency"; "accrual_days"; "max_carry_forward";
                                            "sandwich_rule"; "allow_half_day"; "encashable"])
          (select (fun d => map type_item (order_by (by_type_name id) (tget leave_types d)))));
  Ret (match rows with
     | Err _ => JSONError "Failed to query leave types" StatusInternalServerError
     | Ok types => ok_json [("data", JArr (map type_json types))]
     end).

(** The types of a row: [JOIN leave_types lt ON lt.id = id] *)
Definition types_of (id : string) (d : Database) : list TypeRow :=
  where_ (fun t => lty_id t =?s id) (tget leave_types d).

Definition employees_of (id : string) (d : Database) : list EmpRow :=
  where_ (fun e => emp_id e =?s id) (tget employees d).

(** A row whose columns do not scan, a NULL code or a fractional number of days,
    ends the list. *)
Definition balance_json (p : BalRow * TypeRow) : option json :=
  let '(b, t) := p in
  code ← lty_code t; accrued ← int_of_num (bal_total_accrued b); used ← int_of_num (bal_total_used b);
  balance ← int_of_num (bal_balance b);
  Some (JObj [("id", JStr (bal_id b)); ("leave_type_id", JStr (lty_id t)); ("leave_type", JStr (lty_name t));
            ("code", JStr code); ("total_accrued", JInt accrued); ("total_used", JInt used);
            ("balance", JInt balance); ("year", JInt (bal_year b))]).

Definition balance_rows (userID : string) (d : Database) : list (BalRow * TypeRow) :=
  order_by (by_type_name snd)
  (flat_map (fun b => flat_map (fun t =>
     map (fun _ => (b, t)) (where_ (is_caller userID) (employees_of (bal_employee_id b) d)))
       (types_of (bal_leave_type_id b) d)) (tget leave_balances d)).

Definition HandleGetBalances {B} (r : Request B) : prog Database Response :=
  if db_nil then Ret (JSONError "Database connection unavailable" StatusInternalServerError) else
  match claims r with
  | None => Ret (JSONError "Unauthorized" StatusUnauthorized)
  | Some k =>
    rows <- exec (checked (names "leave_types" ["code"])
              (checked (names "leave_balances" ["total_accrued"; "total_used"; "balance"; "year"])
              (select (fun d => scanned balance_json (balance_rows (UserID k) d)))));
    Ret (match rows with
         | Err _ => JSONError "Failed to query balances" StatusInternalServerError
         | Ok balances => ok_json [("data", JArr balances)]
         end)
  end.

(** *** Applications *)

Definition application_matches (userID statusFilter search : string) (p : LeaveRow * TypeRow * EmpRow) : bool :=
  let '(a, t, e) := p in
  is_caller userID e
  && ((statusFilter =?s "") || (lap_status a =?s statusFilter))
  && ((search =?s "")
    || (let pat := "%" +:+ search +:+ "%" in
        from_option (fun reason => ilike reason pat) false (lap_reason a) || ilike (lty_name t) pat)).

Definition application_rows (userID statusFilter search : string) (d : Database)
  : list (LeaveRow * TypeRow * EmpRow) :=
  where_ (application_matches userID statusFilter search)
  (flat_map (fun a => flat_map (fun t =>
     map (fun e => (a, t, e)) (employees_of (lap_employee_id a) d))
       (types_of (lap_leave_type_id a) d)) (tget leave_applications d)).

Definition application_json (p : LeaveRow * TypeRow * EmpRow) : option json :=
  let '(a, t, _) := p in
  code ← lty_code t; days ← int_of_num (lap_total_days a);
  Some (JObj [("id", JStr (lap_id a)); ("leave_type", JStr (lty_name t)); ("code", JStr code);
            ("start_date", JStr (date_text (lap_start_date a))); ("end_date", JStr (date_text (lap_end_date a)));
            ("total_days", JInt days); ("status", JStr (lap_status a));
            ("reason", JStr (default "" (lap_reason a)));
            ("applied_on", JStr (date_text (date_of_time (lap_created_at a))))]).

Definition HandleGetApplications {B} (r : Request B) : prog Database Response :=
  if db_nil then Ret (JSONError "Database connection unavailable" StatusInternalServerError) else
  let pg := ParsePaginationParams (query r) in
  let statusFilter := query r "status" in
  match claims r with
  | None => Ret (JSONError "Unauthorized" StatusUnauthorized)
  | Some k =>
    cnt <- exec (select (fun d => Z.of_nat (length (application_rows (UserID k) statusFilter (Search pg) d))));
    rows <- exec (checked (names "leave_types" ["code"])
              (select_page pg (fun d =>
                 order_by (desc (fun p => lap_created_at (fst (fst p))))
                   (application_rows (UserID k) statusFilter (Search pg) d))));
    Ret (match rows with
         | Err _ => JSONError "Failed to query applications" StatusInternalServerError
         | Ok apps => page_json pg (scan 0 cnt) (scanned application_json apps)
         end)
  end.

(** SELECT id FROM leave_types WHERE name = $1 OR code = $1 LIMIT 1 *)
Definition type_by_name (name : string) : stmt Database string :=
  checked (names "leave_types" ["code"])
  (select_row (fun d => lty_id <$>
     List.find (fun t => (lty_name t =?s name) || opt_is (lty_code t) name) (tget leave_types d))).

(** The query names the columns [work_email] and [personal_email] of [employees],
    which no migration creates; were they to exist, they would be NULL. *)
Definition employee_by_email : stmt Database string :=
  checked (names "employees" ["work_email"; "personal_email"]) (select_row (fun _ => None)).

Definition ref_type (id : string) (d : Database) : bool :=
  existsb (fun t => lty_id t =?s id) (tget leave_types d).

(** [total_days] is NUMERIC(5, 2). *)
Definition insert_application (empID typeID : string) (req : ApplicationRequest) : stmt Database LeaveRow :=
  with_uuid empID (fun eu => with_uuid typeID (fun tu =>
  with_date (ap_StartDate req) (fun from => with_date (ap_EndDate req) (fun to =>
  insert leave_applications (fun c d =>
  if 1000 <=? Z.abs (ap_TotalDays req) then Err num_overflow
  else if negb (ref_employee eu d && ref_type tu d) then Err fk_error
  else Ok {| lap_id := sc_uuid c; lap_employee_id := eu; lap_leave_type_id := tu;
             lap_start_date := from; lap_end_date := to; lap_total_days := ap_TotalDays req * 100;
             lap_reason := Some (ap_Reason req); lap_status := "PENDING";
             lap_created_at := sc_now c |}))))).

Definition HandleCreateApplication (r : Request ApplicationRequest) : prog Database Response :=
  if db_nil then Ret (JSONError "Database connection unavailable" StatusInternalServerError) else
  match claims r with
  | None => Ret (JSONError "Unauthorized" StatusUnauthorized)
  | Some k =>
  match body r with
  | None => Ret (JSONError "invalid request payload" StatusBadRequest)
  | Some req =>
    if (ap_StartDate req =?s "") || (ap_EndDate req =?s "")
    then Ret (JSONError "Start date and end date are required" StatusBadRequest)
    else if ap_TotalDays req <=? 0
    then Ret (JSONError "Total days must be greater than zero" StatusBadRequest)
    else if ap_Reason req =?s "" then Ret (JSONError "Reason is required" StatusBadRequest)
    else
    typeID <- (if (ap_LeaveTypeID req =?s "") && negb (ap_LeaveType req =?s "")
               then x <- exec (type_by_name (ap_LeaveType req)); Ret (scan (ap_LeaveTypeID req) x)
               else Ret (ap_LeaveTypeID req));
    mine <- exec (caller_employee (UserID k));
    mine <- (match mine with Ok _ => Ret mine | Err _ => exec employee_by_email end);
    match mine with
    | Err _ => Ret (JSONError "Employee record not found for active user session" StatusBadRequest)
    | Ok empID =>
        res <- exec (insert_application empID typeID req);
        Ret (match res with
             | Err _ => JSONError "Failed to create leave application" StatusInternalServerError
             | Ok row => created_json [("message", JStr "Leave application submitted successfully for manager approval.");
                           ("data", JObj [("id", JStr (lap_id row)); ("status", JStr "PENDING")])]
             end)
    end
  end
  end.

(** ** policy.go *)

Definition policy_item (p : PolRow * TypeRow) : option LeavePolicyItem :=
  let '(p, t) := p in
  code ← lty_code t;
  Some {| lp_ID := pol_id p; lp_LeaveTypeID := pol_leave_type_id p; lp_LeaveTypeName := lty_name t;
        lp_LeaveTypeCode := code; lp_PolicyName := pol_policy_name p;
        lp_AccrualFrequency := pol_accrual_frequency p; lp_AccrualRate := num_out 2 (pol_accrual_rate p);
        lp_MaxCarryForwardDays := pol_max_carry_forward_days p;
        lp_SandwichRuleEnabled := pol_sandwich_rule_enabled p; lp_IsEncashable := pol_is_encashable p |}.

Definition HandleGetPolicies : prog Database Response :=
  if db_nil then Ret db_unavailable else
  rows <- exec (checked (names "leave_types" ["code"])
          (select (fun d => scanned policy_item (order_by (by_type_name snd)
            (flat_map (fun p => map (pair p) (types_of (pol_leave_type_id p) d)) (tget leave_policies d))))));
  Ret (match rows with
     | Err e => fail_json StatusInternalServerError e
     | Ok items => ok_json [("data", JArr (map policy_json items))]
     end).

(** INSERT INTO leave_policies ... ON CONFLICT (leave_type_id) DO UPDATE: the
    identifier of an existing policy stays. *)
Definition upsert_policy (req : LeavePolicyItem) : stmt Database PolRow :=
  with_uuid (lp_LeaveTypeID req) (fun tu =>
  with_varchar 100 (lp_PolicyName req) (fun name => with_varchar 50 (lp_AccrualFrequency req) (fun freq =>
  with_num 4 2 (lp_AccrualRate req) (fun rate => with_int4 (lp_MaxCarryForwardDays req)
  (upsert leave_policies
  (fun c d => if ref_type tu d
              then Ok {| pol_id := sc_uuid c; pol_leave_type_id := tu; pol_policy_name := name;
                         pol_accrual_frequency := freq; pol_accrual_rate := rate;
                         pol_max_carry_forward_days := lp_MaxCarryForwardDays req;
                         pol_sandwich_rule_enabled := lp_SandwichRuleEnabled req;
                         pol_is_encashable := lp_IsEncashable req; pol_updated_at := sc_now c |}
              else Err fk_error)
  (fun r old => pol_leave_type_id old =?s pol_leave_type_id r)
  (fun _ r old => {| pol_id := pol_id old; pol_leave_type_id := pol_leave_type_id r;
                     pol_policy_name := pol_policy_name r; pol_accrual_frequency := pol_accrual_frequency r;
                     pol_accrual_rate := pol_accrual_rate r;
                     pol_max_carry_forward_days := pol_max_carry_forward_days r;
                     pol_sandwich_rule_enabled := pol_sandwich_rule_enabled r;
                     pol_is_encashable := pol_is_encashable r; pol_updated_at := pol_updated_at r |})))))).

Definition HandleUpsertPolicy (r : Request LeavePolicyItem) : prog Database Response :=
  if negb (HasRole (claims r) ["SUPER_ADMIN"; "HR_ADMIN"])
  then Ret (ForbiddenResponse "FORBIDDEN_ROLE" "Only HR and Super Admins can update leave policies.")
  else
  match body r with
  | None => Ret (http_error "invalid policy payload" StatusBadRequest)
  | Some req =>
    if lp_LeaveTypeID req =?s "" then Ret (http_error "invalid policy payload" StatusBadRequest) else
    let with_id id :=
      {| lp_ID := id; lp_LeaveTypeID := lp_LeaveTypeID req; lp_LeaveTypeName := lp_LeaveTypeName req;
         lp_LeaveTypeCode := lp_LeaveTypeCode req;
         lp_PolicyName := if lp_PolicyName req =?s "" then "Standard Policy" else lp_PolicyName req;
         lp_AccrualFrequency := if lp_AccrualFrequency req =?s "" then "MONTHLY" else lp_AccrualFrequency req;
         lp_AccrualRate := lp_AccrualRate req; lp_MaxCarryForwardDays := lp_MaxCarryForwardDays req;
         lp_SandwichRuleEnabled := lp_SandwichRuleEnabled req; lp_IsEncashable := lp_IsEncashable req |} in
    let configured id := ok_json [("message", JStr "Leave policy configured successfully.");
                                  ("data", policy_json (with_id id))] in
    let req := with_id (lp_ID req) in
    if db_nil then Ret (configured (lp_ID req)) else
    res <- exec (upsert_policy req);
    match res with
    | Err e => Ret (fail_json StatusInternalServerError ("failed to save policy: " +:+ e))
    | Ok row =>
        audited {| le_UserID := from_option UserID "" (claims r); le_Action := "LEAVE_POLICY_UPDATE";
                   le_Module := "LEAVE"; le_EntityName := "leave_policies"; le_EntityID := pol_id row;
                   le_AfterState := [("policy_name", JStr (lp_PolicyName req));
                                     ("accrual_frequency", JStr (lp_AccrualFrequency req));
                                     ("accrual_rate", JNum (lp_AccrualRate req));
                                     ("sandwich_rule", JBool (lp_SandwichRuleEnabled req))];
                   le_Reason := "" |} ;;;
        Ret (configured (pol_id row))
    end
  end.

(** *** Batch accruals *)

(** (leave_type_id, accrual_rate) *)
Definition active_policies (d : Database) : list (string * f64) :=
  map (fun p => (pol_leave_type_id p, num_out 2 (pol_accrual_rate p)))
  (where_ (fun p => 0 <? pol_accrual_rate p) (tget leave_policies d)).

Definition active_employees (d : Database) : list string :=
  map emp_id (where_ (fun e => emp_status e =?s "ACTIVE") (tget employees d)).

(** INSERT INTO leave_balances (employee_id, leave_type_id, total_allocated, used, pending)
    ... ON CONFLICT (employee_id, leave_type_id) DO UPDATE *)
Definition accrue_balance (empID typeID : string) (rate : f64) : stmt Database BalRow :=
  checked (inserts "leave_balances" ["employee_id"; "leave_type_id"; "total_allocated"; "used"; "pending"])
  (with_uuid empID (fun eu => with_uuid typeID (fun tu => with_num 5 2 rate (fun n =>
  upsert leave_balances
  (fun c d => if ref_employee eu d && ref_type tu d
              then Ok {| bal_id := sc_uuid c; bal_employee_id := eu; bal_leave_type_id := tu; bal_year := 0;
                         bal_total_accrued := 0; bal_total_used := 0; bal_balance := 0; bal_leave_type := None;
                         bal_total_allocated := n; bal_used := 0; bal_pending := 0;
                         bal_updated_at := sc_now c |}
              else Err fk_error)
  (fun r old => (bal_employee_id old =?s bal_employee_id r) && (bal_leave_type_id old =?s bal_leave_type_id r))
  (fun c r old => set_bal_updated_at (sc_now c)
     (set_bal_total_allocated (bal_total_allocated old + bal_total_allocated r) old)))))).

Definition log_accrual (empID typeID today : string) (rate : f64) : stmt Database AccRow :=
  with_uuid empID (fun eu => with_uuid typeID (fun tu => with_date today (fun day => with_num 5 2 rate (fun n =>
  insert leave_accrual_logs (fun c d =>
  if ref_employee eu d && ref_type tu d
  then Ok {| acc_id := sc_uuid c; acc_employee_id := eu; acc_leave_type_id := tu; acc_accrual_date := day;
             acc_days_added := n; acc_reason := Some "Monthly Automated Accrual Run";
             acc_created_at := sc_now c |}
  else Err fk_error))))).

(** One round of the inner loop; both errors are dropped. *)
Definition accrue_one (today empID : string) (count : Z) (p : string * f64) : prog Database Z :=
  _ <- exec (accrue_balance empID (fst p) (snd p));
  _ <- exec (log_accrual empID (fst p) today (snd p));
  Ret (count + 1).

Definition accrual_reason (count : Z) : string :=
  "Executed batch leave accruals for " +:+ itoa count +:+ " employee-leave records.".

Definition HandleProcessBatchAccruals {B} (r : Request B) : prog Database Response :=
  if negb (HasRole (claims r) ["SUPER_ADMIN"; "HR_ADMIN"])
  then Ret (ForbiddenResponse "FORBIDDEN_ROLE" "Only HR and Super Admins can execute batch leave accruals.")
  else if db_nil then Ret db_unavailable else
  pols <- exec (select active_policies);
  match pols with
  | Err e => Ret (fail_json StatusInternalServerError e)
  | Ok pols =>
    emps <- exec (select active_employees);
    match emps with
    | Err e => Ret (fail_json StatusInternalServerError e)
    | Ok empIDs =>
        t <- now;
        let todayStr := date_text (date_of_time t) in
        accruedCount <- for_each empIDs 0 (fun count empID =>
                          for_each pols count (accrue_one todayStr empID));
        audited {| le_UserID := from_option UserID "" (claims r); le_Action := "LEAVE_BATCH_ACCRUAL";
                   le_Module := "LEAVE"; le_EntityName := ""; le_EntityID := ""; le_AfterState := [];
                   le_Reason := accrual_reason accruedCount |} ;;;
        Ret (ok_json [("message", JStr ("Batch leave accrual complete. Updated " +:+ itoa accruedCount
                                        +:+ " leave balances."));
                      ("count", JInt accruedCount)])
    end
  end.

Definition accrual_json (p : AccRow * EmpRow * TypeRow) : json :=
  let '(l, e, t) := p in
  JObj [("id", JStr (acc_id l)); ("employee_id", JStr (acc_employee_id l));
      ("employee_code", JStr (emp_employee_id e)); ("employee_name", JStr (full_name e));
      ("leave_type_name", JStr (lty_name t)); ("accrual_date", JStr (date_text (acc_accrual_date l)));
      ("days_added", JNum (num_out 2 (acc_days_added l))); ("reason", JStr (default "" (acc_reason l)))].

Definition HandleGetAccrualLogs : prog Database Response :=
  if db_nil then Ret db_unavailable else
  rows <- exec (select (fun d => map accrual_json (take 100
          (order_by (desc (fun p => acc_created_at (fst (fst p))))
            (flat_map (fun l => flat_map (fun e => map (pair (l, e)) (types_of (acc_leave_type_id l) d))
              (employees_of (acc_employee_id l) d)) (tget leave_accrual_logs d))))));
  Ret (match rows with
     | Err e => fail_json StatusInternalServerError e
     | Ok logs => ok_json [("data", JArr logs)]
     end).

(** ** encashment.go *)

Definition encashment_item (p : EncRow * EmpRow * TypeRow) : LeaveEncashmentItem :=
  let '(r, e, t) := p in
  {| lei_ID := enc_id r; lei_EmployeeID := enc_employee_id r; lei_EmployeeCode := emp_employee_id e;
   lei_EmployeeName := full_name e; lei_LeaveTypeID := enc_leave_type_id r; lei_LeaveTypeName := lty_name t;
   lei_DaysToEncash := num_out 2 (enc_days_to_encash r); lei_PerDayRate := num_out 2 (enc_per_day_rate r);
   lei_TotalAmount := num_out 2 (enc_total_amount r); lei_Status := enc_status r;
   lei_Reason := default "" (enc_reason r); lei_ApprovedBy := ""; lei_ApprovedAt := "";
   lei_CreatedAt := datetime_text (enc_created_at r) |}.

Definition HandleGetEncashments : prog Database Response :=
  if db_nil then Ret db_unavailable else
  rows <- exec (select (fun d => map encashment_item
          (order_by (desc (fun p => enc_created_at (fst (fst p))))
            (flat_map (fun r => flat_map (fun e => map (pair (r, e)) (types_of (enc_leave_type_id r) d))
              (employees_of (enc_employee_id r) d)) (tget leave_encashment_requests d)))));
  Ret (match rows with
     | Err e => fail_json StatusInternalServerError e
     | Ok items => ok_json [("data", JArr (map encashment_json items))]
     end).

Definition insert_encashment (empID : string) (req : LeaveEncashmentItem) (rate total : f64)
  : stmt Database EncRow :=
  with_uuid empID (fun eu => with_uuid (lei_LeaveTypeID req) (fun tu =>
  with_num 5 2 (lei_DaysToEncash req) (fun days => with_num 12 2 rate (fun rate => with_num 12 2 total (fun total =>
  insert leave_encashment_requests (fun c d =>
  if ref_employee eu d && ref_type tu d
  then Ok {| enc_id := sc_uuid c; enc_employee_id := eu; enc_leave_type_id := tu; enc_days_to_encash := days;
             enc_per_day_rate := rate; enc_total_amount := total; enc_status := "PENDING";
             enc_reason := Some (lei_Reason req); enc_approved_by := None; enc_approved_at := None;
             enc_created_at := sc_now c; enc_updated_at := sc_now c |}
  else Err fk_error)))))).

(** The request of [empID], valued and stored. *)
Definition file_encashment (empID : string) (req : LeaveEncashmentItem) : prog Database Response :=
  let '(perDayRate, totalAmount) := CalculateEncashmentAmount (lei_DaysToEncash req) (of_Z 60000) in
  res <- exec (insert_encashment empID req perDayRate totalAmount);
  Ret (match res with
     | Err e => fail_json StatusInternalServerError e
     | Ok row =>
         ok_json [("message", JStr "Leave encashment request submitted for HR approval.");
                  ("data", encashment_json
                    {| lei_ID := enc_id row; lei_EmployeeID := empID; lei_EmployeeCode := lei_EmployeeCode req;
                       lei_EmployeeName := lei_EmployeeName req; lei_LeaveTypeID := lei_LeaveTypeID req;
                       lei_LeaveTypeName := lei_LeaveTypeName req; lei_DaysToEncash := lei_DaysToEncash req;
                       lei_PerDayRate := perDayRate; lei_TotalAmount := totalAmount; lei_Status := "PENDING";
                       lei_Reason := lei_Reason req; lei_ApprovedBy := lei_ApprovedBy req;
                       lei_ApprovedAt := lei_ApprovedAt req; lei_CreatedAt := lei_CreatedAt req |})]
     end).

Definition HandleSubmitEncashment (r : Request LeaveEncashmentItem) : prog Database Response :=
  match claims r with
  | None => Ret (http_error "unauthorized" StatusUnauthorized)
  | Some k =>
  match body r with
  | None => Ret (http_error "invalid encashment request payload" StatusBadRequest)
  | Some req =>
    if (lei_LeaveTypeID req =?s "") || (lei_DaysToEncash req <=? f0)%f64
    then Ret (http_error "invalid encashment request payload" StatusBadRequest)
    else if db_nil then Ret db_unavailable else
    mine <- exec (employee_of_user (UserID k));
    empID <- (if scan "" mine =?s "" then x <- exec any_employee; Ret (scan "" x) else Ret (scan "" mine));
    file_encashment empID req
  end
  end.

(** UPDATE leave_encashment_requests ... WHERE id = $3::uuid *)
Definition review_encashment (targetStatus userID encashmentID : string) : stmt Database Z :=
  with_uuid userID (fun uu => with_uuid encashmentID (fun id =>
  update_chk leave_encashment_requests (fun e => enc_id e =?s id)
  (fun c e => set_enc_updated_at (sc_now c) (set_enc_approved_at (Some (sc_now c))
                (set_enc_approved_by (Some uu) (set_enc_status targetStatus e))))
  (fun d _ => if ref_user uu d then None else Some fk_error))).

Definition review_status (action : string) : string :=
  if action =?s "APPROVE" then "APPROVED" else "REJECTED".

Definition HandleReviewEncashment (r : Request ReviewRequest) : prog Database Response :=
  if negb (HasRole (claims r) ["SUPER_ADMIN"; "HR_ADMIN"])
  then Ret (ForbiddenResponse "FORBIDDEN_ROLE" "Only HR and Super Admins can review leave encashment requests.")
  else
  let uid := from_option UserID "" (claims r) in
  match body r with
  | None => Ret (http_error "invalid review payload" StatusBadRequest)
  | Some req =>
    if rv_EncashmentID req =?s "" then Ret (http_error "invalid review payload" StatusBadRequest) else
    let targetStatus := review_status (rv_Action req) in
    let marked := ok_json [("message", JStr ("Leave encashment request marked as " +:+ targetStatus +:+ "."));
                           ("status", JStr targetStatus)] in
    if db_nil then Ret marked else
    res <- exec (review_encashment targetStatus uid (rv_EncashmentID req));
    match res with
    | Err e => Ret (fail_json StatusInternalServerError e)
    | Ok _ =>
        audited {| le_UserID := uid; le_Action := "LEAVE_ENCASHMENT_REVIEW"; le_Module := "LEAVE";
                   le_EntityName := "leave_encashment_requests"; le_EntityID := rv_EncashmentID req;
                   le_AfterState := [];
                   le_Reason := "Encashment request status updated to " +:+ targetStatus |} ;;;
        Ret marked
    end
  end.
End Leave.
