(* ===== verification/LeaveProps.v ===== *)
(** * Properties of leave management *)

From S2P Require Import Prelude Float64 Go Sql Schema Calendar Common Auth Authz AuditTrail Leave.

#[local] Open Scope prog_scope.

(** ** The sandwich rule *)

(** The days of a leave: one from the start and every 24 hours. *)
Definition leave_days (startDate endDate : Z) : list Z :=
  map (fun i => startDate + Z.of_nat i * day_us) (seq 0 (sandwich_rounds startDate endDate)).

(** Every day, or those from Monday to Friday. *)
Definition counted (isSandwichEnabled : bool) (t : Z) : bool :=
  isSandwichEnabled || ((1 <=? weekday (date_of_time t)) && (weekday (date_of_time t) <=? 5)).

Lemma counted_weekend s t : counted s t = s || negb (is_weekend t).
Proof.
  unfold counted, is_weekend. pose proof (weekday_range (date_of_time t)). destruct s; [done|].
  cbn [orb]. set (w := weekday (date_of_time t)) in *.
  assert (w = 0 \/ w = 1 \/ w = 2 \/ w = 3 \/ w = 4 \/ w = 5 \/ w = 6) as Hw by lia. clearbody w.
  repeat (destruct Hw as [-> | Hw]; [done|]). by rewrite Hw.
Qed.

(** [k] times [days += 1.0]. *)
Definition ones (k : nat) (days : f64) : f64 := Nat.iter k (fun x => (x + of_Z 1)%f64) days.

Lemma ones_exact k : (k <= 3660)%nat -> ones k f0 = of_Z (Z.of_nat k).
Proof.
  assert (Hstep : forallb (fun k => bool_decide ((of_Z (Z.of_nat k) + of_Z 1)%f64 = of_Z (Z.of_nat k + 1)))
                   (seq 0 3660) = true) by by vm_compute.
  induction k as [|k IH]; intros Hk; [done|].
  change (ones (S k) f0) with (ones k f0 + of_Z 1)%f64. rewrite IH by lia.
  rewrite forallb_forall in Hstep. specialize (Hstep k).
  rewrite in_seq, bool_decide_eq_true in Hstep. rewrite Hstep by lia. f_equal. lia.
Qed.

Lemma next_day_plus t : next_day t = t + day_us.
Proof.
  unfold next_day. rewrite add_days. unfold date_of_time.
  pose proof (Z.div_mod t day_us ltac:(done)). lia.
Qed.

Lemma sandwich_rounds_S curr endDate : curr <= endDate ->
  sandwich_rounds curr endDate = S (sandwich_rounds (curr + day_us) endDate).
Proof.
  intros H. unfold sandwich_rounds. replace (endDate - (curr + day_us)) with (endDate - curr + (-1) * day_us) by lia.
  rewrite Z.div_add by done. pose proof (Z.div_pos (endDate - curr) day_us ltac:(lia) ltac:(done)). lia.
Qed.

Lemma leave_days_cons curr endDate : curr <= endDate ->
  leave_days curr endDate = curr :: leave_days (curr + day_us) endDate.
Proof.
  intros H. unfold leave_days. rewrite sandwich_rounds_S by done. cbn [seq map].
  f_equal; [lia|]. rewrite <- seq_shift, map_map. apply map_ext. intros i. lia.
Qed.

Lemma sandwich_rounds_O curr endDate : endDate < curr -> curr <= endDate + day_us ->
  sandwich_rounds curr endDate = O.
Proof.
  intros H1 H2. unfold sandwich_rounds.
  assert ((endDate - curr) / day_us = -1) as ->; [|done].
  symmetry. apply (Z.div_unique_pos _ _ _ (endDate - curr + day_us)); unfold day_us in *; lia.
Qed.

Lemma ones_add a b x : ones a (ones b x) = ones (a + b) x.
Proof. symmetry. apply Nat.iter_add. Qed.

Lemma ones_succ a x : ones (S a) x = ones a (x + of_Z 1)%f64.
Proof. rewrite <- Nat.add_1_r, <- ones_add. done. Qed.

Lemma sandwich_loop_spec fuel curr endDate s days :
  fuel = sandwich_rounds curr endDate -> curr <= endDate + day_us ->
  sandwich_loop fuel curr endDate s days
  = Some (ones (length (where_ (counted s) (leave_days curr endDate))) days).
Proof.
  revert curr days. induction fuel as [|fuel IH]; intros curr days Hf Hc.
  - assert (Hlt : endDate < curr).
    { destruct (Z.lt_ge_cases endDate curr); [done|]. rewrite sandwich_rounds_S in Hf; done. }
    simpl. rewrite (proj2 (Z.ltb_lt _ _) Hlt). unfold leave_days. by rewrite <- Hf.
  - assert (Hle : curr <= endDate).
    { destruct (Z.lt_ge_cases endDate curr); [|done]. rewrite sandwich_rounds_O in Hf; done. }
    cbn [sandwich_loop]. rewrite (proj2 (Z.ltb_ge _ _) Hle). rewrite next_day_plus.
    rewrite sandwich_rounds_S in Hf by done. injection Hf as Hf. rewrite IH by (try done; lia).
    rewrite (leave_days_cons curr) by done. unfold where_. cbn [List.filter].
    destruct (counted s curr) eqn:Ec; rewrite counted_weekend in Ec; cbn [length]; rewrite ?ones_succ;
      by destruct s, (is_weekend curr).
Qed.

(** C34: EvaluateSandwichRule ends, with exactly the number of days of the leave that
    are counted: every day with the rule, the days from Monday to Friday without,
    and none when the leave ends before it starts. *)
Theorem sandwich_rule_counts startDate endDate s :
  let k := count_where (counted s) (leave_days startDate endDate) in
  k <= 3660 ->
  EvaluateSandwichRule startDate endDate s = Some (if endDate <? startDate then f0 else of_Z k).
Proof.
  intros k Hk. unfold EvaluateSandwichRule. destruct (Z.ltb_spec endDate startDate); [done|].
  rewrite sandwich_loop_spec; [|done|unfold day_us; lia].
  unfold k, count_where in *. rewrite ones_exact by lia. done.
Qed.

(** A leave of whole weeks: seven days a week with the rule, five without. *)
Lemma week_counts s t : count_where (counted s)
    (map (fun i => t + Z.of_nat i * day_us) (seq 0 7)) = if s then 7 else 5.
Proof.
  unfold count_where, where_, counted, date_of_time.
  assert (Hw : forall i, weekday ((t + i * day_us) / day_us) = (weekday (t / day_us) + i) mod 7).
  { intros i. rewrite Z.div_add by done. unfold weekday.
    rewrite Zplus_mod_idemp_l. f_equal. lia. }
  pose proof (weekday_range (t / day_us)) as Hr. cbn [map seq List.filter]. rewrite !Hw.
  assert (weekday (t / day_us) = 0 \/ weekday (t / day_us) = 1 \/ weekday (t / day_us) = 2
    \/ weekday (t / day_us) = 3 \/ weekday (t / day_us) = 4 \/ weekday (t / day_us) = 5
    \/ weekday (t / day_us) = 6) as Hcases by lia.
  repeat (destruct Hcases as [-> | Hcases]; [by destruct s|]). rewrite Hcases. by destruct s.
Qed.

(** ** Approval levels *)

(** [n] approvals in a row, stopping at a final answer. *)
Fixpoint approvals (n : nat) (level maxLevels : Z) : Z * string :=
  match n with
  | O => (level, "PENDING")
  | S n => let '(l, st) := ProcessMultiLevelApproval level maxLevels "APPROVE" in
           if st =?s "PENDING" then approvals n l maxLevels else (l, st)
  end.

(** A request of [m + 1] levels is pending after [n <= m] approvals, one level
    further after each, and approved after any more. *)
Theorem approval_levels_terminate (m : nat) n :
  approvals n 1 (Z.of_nat m + 1) =
    if Nat.leb n m then (Z.of_nat n + 1, "PENDING") else (Z.of_nat m + 1, "APPROVED").
Proof.
  assert (Hgen : forall n l, (l <= m)%nat -> approvals n (Z.of_nat l + 1) (Z.of_nat m + 1) =
    if Nat.leb (l + n) m then (Z.of_nat (l + n) + 1, "PENDING") else (Z.of_nat m + 1, "APPROVED")).
  { clear n. induction n as [|n IH]; intros l Hl.
    - simpl. rewrite Nat.add_0_r. by rewrite (proj2 (Nat.leb_le _ _) Hl).
    - cbn [approvals]. unfold ProcessMultiLevelApproval. cbn [String.eqb Ascii.eqb Bool.eqb].
      destruct (Z.ltb_spec (Z.of_nat l + 1) (Z.of_nat m + 1)).
      + simpl. replace (Z.of_nat l + 1 + 1) with (Z.of_nat (S l) + 1) by lia.
        rewrite IH by lia. by replace (S l + n)%nat with (l + S n)%nat by lia.
      + assert (l = m) as -> by lia. simpl.
        rewrite (proj2 (Nat.leb_gt (m + S n) m)); [done|lia]. }
  specialize (Hgen n 0%nat ltac:(lia)). exact Hgen.
Qed.

Section LeaveProperties.
Context `{Server}.

(** ** Applications *)

(** What a leave application asks for, as a row. *)
Definition applied (req : ApplicationRequest) (empID typeID : string) (from to : Z) (c : StmtCtx) : LeaveRow :=
  {| lap_id := sc_uuid c; lap_employee_id := empID; lap_leave_type_id := typeID; lap_start_date := from;
   lap_end_date := to; lap_total_days := ap_TotalDays req * 100; lap_reason := Some (ap_Reason req);
   lap_status := "PENDING"; lap_created_at := sc_now c |}.

(** An application with a reason, two dates and between 1 and 999 days creates
    one PENDING application of the caller, of exactly the requested days; neither the
    dates, their order, the balance nor other applications are looked at. *)
Theorem application_created E (r : Request ApplicationRequest) k req n d emp eu tu from to :
  reliable E -> db_nil = false -> claims r = Some k -> body r = Some req ->
  ap_StartDate req <> "" -> ap_EndDate req <> "" -> 1 <= ap_TotalDays req < 1000 -> ap_Reason req <> "" ->
  ap_LeaveTypeID req <> "" -> List.find (is_caller (UserID k)) (tget employees d) = Some emp ->
  uuid_in (emp_id emp) = Some eu -> uuid_in (ap_LeaveTypeID req) = Some tu ->
  date_in (ap_StartDate req) = Some from -> date_in (ap_EndDate req) = Some to ->
  ref_employee eu d = true -> ref_type tu d = true ->
  let x := run E (HandleCreateApplication r) n d in
  (exists resp, out x = Done resp /\ status resp = StatusCreated)
  /\ exists c, db_of x = tput leave_applications
     (tget leave_applications d ++ [applied req eu tu from to c]) d.
Proof.
  intros HE Hdb Hc Hb Hs He Hd Hr Ht Hf Heu Htu Hfrom Hto Hre Hrt.
  apply (wp_run false E (HandleCreateApplication r) n d (fun o d' =>
  (exists resp, o = Done resp /\ status resp = StatusCreated) /\ exists c, d' = _)); [done|].
  unfold HandleCreateApplication. rewrite Hc, Hb, Hdb.
  rewrite (proj2 (String.eqb_neq _ _) Hs), (proj2 (String.eqb_neq _ _) He), (proj2 (String.eqb_neq _ _) Hr),
  (proj2 (String.eqb_neq _ _) Ht), (proj2 (Z.leb_gt _ _)) by lia. cbn [orb andb bind].
  apply wp_bind, wp_exec_det; [done|]. intros c. unfold caller_employee, select_row. rewrite Hf.
  cbn [fmap option_fmap option_map wp_then bind].
  apply wp_bind, wp_exec_det; [done|]. intros c'.
  unfold insert_application, with_uuid, with_date. rewrite Heu, Htu, Hfrom, Hto. unfold insert.
  rewrite (proj2 (Z.leb_gt _ _)) by lia. rewrite Hre, Hrt. cbn [andb negb wp_then wp].
  split; [by eexists|]. by exists c'.
Qed.

(** ** Batch accruals *)

Definition batch_report (k : Z) : Response :=
  ok_json [("message", JStr ("Batch leave accrual complete. Updated " +:+ itoa k +:+ " leave balances."));
         ("count", JInt k)].

Lemma accrue_one_wp fl today empID count p d0 d :
  db_nil = false -> mem_s "total_allocated" (columns "leave_balances") = false ->
  unchanged leave_balances d0 d ->
  wp fl (accrue_one today empID count p) d
  (fun o d' => o = Done (count + 1) /\ unchanged leave_balances d0 d').
Proof.
  intros Hdb Hcol Hd. unfold accrue_one. apply wp_bind, wp_exec; [congruence| |].
  - intros c b d' Hst. exfalso. apply checked_ok in Hst as [Hi _].
  revert Hi. unfold inserts. cbn [forallb]. by rewrite Hcol, !andb_false_r.
  - intros e _. cbn [wp_then]. apply wp_bind, wp_exec; [congruence| |].
  + intros c b d' Hst. unfold log_accrual in Hst. sql_inv Hst. subst. cbn [wp_then wp].
    split; [done|]. unfold unchanged in *. by rewrite indep.
  + intros e' _. done.
Qed.

(** On a schema whose leave_balances has no column total_allocated, which is the
    one the migrations create, the batch accrual reports to have updated a balance
    for every active employee and policy, and updates none. *)
Theorem batch_accrual_updates_nothing {B} E (r : Request B) n d :
  reliable E -> db_nil = false -> HasRole (claims r) ["SUPER_ADMIN"; "HR_ADMIN"] = true ->
  mem_s "total_allocated" (columns "leave_balances") = false ->
  let x := run E (HandleProcessBatchAccruals r) n d in
  out x = Done (batch_report (Z.of_nat (length (active_employees d)) * Z.of_nat (length (active_policies d))))
  /\ tget leave_balances (db_of x) = tget leave_balances d.
Proof.
  intros HE Hdb Hr Hcol.
  apply (wp_run false E (HandleProcessBatchAccruals r) n d (fun o d' => o = _ /\ unchanged leave_balances d d'));
  [done|].
  unfold HandleProcessBatchAccruals. rewrite Hr, Hdb. cbn [negb].
  apply wp_bind, wp_exec_det; [done|]. intros c. unfold select. cbn [wp_then].
  apply wp_bind, wp_exec_det; [done|]. intros c'. cbn [wp_then].
  apply wp_bind. simpl. intros t.
  set (P := Z.of_nat (length (active_policies d))).
  apply wp_bind, (wp_for_each _ (fun pre _ acc d' =>
  acc = Z.of_nat (length pre) * P /\ unchanged leave_balances d d')).
  - done.
  - intros pre empID post acc d1 _ [-> Hd1].
  apply (wp_for_each _ (fun pre' _ acc d' =>
    acc = Z.of_nat (length pre) * P + Z.of_nat (length pre') /\ unchanged leave_balances d d')).
  + split; [simpl; lia|done].
  + intros pre' p post' acc d2 _ [-> Hd2]. eapply wp_mono; [|by apply accrue_one_wp].
    intros o d3 [-> Hd3]. split; [rewrite length_app; simpl; lia|done].
  + intros acc d2 [-> Hd2]. split; [rewrite length_app; simpl; unfold P; lia|done].
  - intros acc d1 [-> Hd1]. cbn [wp_then]. apply wp_bind, wp_audited; [done|].
  intros d2 [->|[row ->]]; cbn [wp_then wp]; (split; [done|]); [done|].
  unfold unchanged in *. by rewrite indep.
Qed.

(** ** Encashment *)

(** The employee a request is filed for: the record of the caller, or the first of
    the table when there is none. *)
Definition filed_for (userID : string) (d : Database) : option string :=
  match List.find (fun e => opt_is (emp_user_id e) userID) (tget employees d) with
  | Some e => Some (emp_id e)
  | None => emp_id <$> head (tget employees d)
  end.

(** A valid encashment request creates one PENDING request, at the daily rate of a
    salary of 60000 whatever the employee earns, for the employee record of the caller,
    and for the first employee of the table when the caller has none. *)
Theorem encashment_submitted E (r : Request LeaveEncashmentItem) k req n d emp eu tu days rate total :
  let amounts := CalculateEncashmentAmount (lei_DaysToEncash req) (of_Z 60000) in
  reliable E -> db_nil = false -> claims r = Some k -> body r = Some req ->
  lei_LeaveTypeID req <> "" -> (lei_DaysToEncash req <=? f0)%f64 = false ->
  Forall (fun e => emp_id e <> "") (tget employees d) -> filed_for (UserID k) d = Some emp ->
  uuid_in emp = Some eu -> uuid_in (lei_LeaveTypeID req) = Some tu ->
  num_in 5 2 (lei_DaysToEncash req) = Some days -> num_in 12 2 (fst amounts) = Some rate ->
  num_in 12 2 (snd amounts) = Some total -> ref_employee eu d = true -> ref_type tu d = true ->
  let x := run E (HandleSubmitEncashment r) n d in
  (exists resp, out x = Done resp /\ succeeded resp = true)
  /\ exists row, db_of x = tput leave_encashment_requests (tget leave_encashment_requests d ++ [row]) d
  /\ enc_employee_id row = eu /\ enc_status row = "PENDING" /\ enc_days_to_encash row = days
  /\ enc_per_day_rate row = rate /\ enc_total_amount row = total.
Proof.
  intros amounts HE Hdb Hc Hb Ht Hd Hids Hfor Heu Htu Hdays Hrate Htotal Hre Hrt.
  apply (wp_run false E (HandleSubmitEncashment r) n d (fun o d' =>
  (exists resp, o = Done resp /\ succeeded resp = true) /\ exists row, d' = _ /\ _)); [done|].
  unfold HandleSubmitEncashment. rewrite Hc, Hb, Hdb, (proj2 (String.eqb_neq _ _) Ht), Hd. cbn [orb].
  assert (Hins : wp false (file_encashment emp req) d (fun o d' => (exists resp, o = Done resp /\ succeeded resp = true)
  /\ exists row, d' = tput leave_encashment_requests (tget leave_encashment_requests d ++ [row]) d
  /\ enc_employee_id row = eu /\ enc_status row = "PENDING" /\ enc_days_to_encash row = days
  /\ enc_per_day_rate row = rate /\ enc_total_amount row = total)).
  { unfold file_encashment. fold amounts. destruct amounts as [a b]. simpl in Hrate, Htotal.
  apply wp_bind, wp_exec_det; [done|]. intros c.
  unfold insert_encashment, with_uuid, with_num. rewrite Heu, Htu, Hdays, Hrate, Htotal.
  unfold insert. rewrite Hre, Hrt. cbn [andb wp_then wp]. split; [by eexists|]. by eexists. }
  apply wp_bind, wp_exec_det; [done|]. intros c. unfold employee_of_user, select_row, filed_for in *.
  destruct (List.find _ _) as [e|] eqn:Ef; cbn [fmap option_fmap option_map wp_then scan].
  - injection Hfor as Hfor. apply find_some_elem in Ef as [Hin _].
  rewrite Forall_forall in Hids. specialize (Hids e Hin).
  rewrite (proj2 (String.eqb_neq _ _) Hids). cbn [bind]. rewrite Hfor. apply Hins.
  - cbn [String.eqb]. apply wp_bind, wp_bind, wp_exec_det; [done|]. intros c'.
  unfold any_employee, select_row. rewrite Hfor. cbn [wp_then wp scan]. apply Hins.
Qed.

(** A request after its review. *)
Definition reviewed (t : Z) (u status : string) (e : EncRow) : EncRow :=
  set_enc_updated_at t (set_enc_approved_at (Some t) (set_enc_approved_by (Some u) (set_enc_status status e))).

(** A review sets the status of the request to APPROVED for the action APPROVE and
    to REJECTED for every other, whatever the status was, decided or PAID included,
    and changes no other request. *)
Theorem review_overwrites_status E (r : Request ReviewRequest) req n d u id :
  reliable E -> db_nil = false -> HasRole (claims r) ["SUPER_ADMIN"; "HR_ADMIN"] = true ->
  body r = Some req -> rv_EncashmentID req <> "" -> uuid_in (from_option UserID "" (claims r)) = Some u ->
  uuid_in (rv_EncashmentID req) = Some id -> ref_user u d = true ->
  let x := run E (HandleReviewEncashment r) n d in
  (exists resp, out x = Done resp /\ field "status" resp = Some (JStr (review_status (rv_Action req))))
  /\ exists t, tget leave_encashment_requests (db_of x) =
     set_where (fun e => enc_id e =?s id) (reviewed t u (review_status (rv_Action req)))
       (tget leave_encashment_requests d).
Proof.
  intros HE Hdb Hr Hb Hne Hu Hid Href.
  apply (wp_run false E (HandleReviewEncashment r) n d (fun o d' =>
  (exists resp, o = Done resp /\ _) /\ exists t, tget leave_encashment_requests d' = _)); [done|].
  unfold HandleReviewEncashment. rewrite Hr, Hb, Hdb, (proj2 (String.eqb_neq _ _) Hne). cbn [negb].
  apply wp_bind, wp_exec_det; [done|]. intros c. unfold review_encashment, with_uuid, update_chk.
  rewrite Hu, Hid, Href. cbv zeta.
  destruct (List.find _ _) as [e|] eqn:Ef; [by apply find_some_elem in Ef as [_ ?]|].
  cbn [wp_then]. apply wp_bind, wp_audited; [done|].
  intros d2 [->|[row ->]]; cbn [wp_then wp]; (split; [by eexists|]); exists (sc_now c);
  rewrite ?indep; by rewrite tget_tput.
Qed.
End LeaveProperties.
