(* ===== verification/Attendance.v ===== *)
(** * internal/attendance: punches (attendance.go) and regularization requests (requests.go) *)

From S2P Require Import Prelude Float64 Go Sql Schema Calendar Common Auth Authz AuditTrail.

#[local] Open Scope prog_scope.

(** ** Times *)

(** [n / d] rounded half away from zero, for [d > 0]. *)
Definition round_half (n d : Z) : Z :=
  if 0 <=? n then (2 * n + d) / (2 * d) else - ((2 * - n + d) / (2 * d)).

(** EXTRACT(EPOCH FROM (b - a))/3600.0, stored as NUMERIC(5, 2): hundredths of
    an hour. *)
Definition hours_between (a b : Z) : Z := round_half ((b - a) * 100) (3600 * 1000000).

(** [to_char(t, 'HH12:MI AM')] *)
Definition clock12 (t : Z) : string :=
  let s := (t mod day_us) / 1000000 in
  let h := s / 3600 in
  pad0 2 (if h mod 12 =? 0 then 12 else h mod 12) +:+ ":" +:+ pad0 2 (s / 60 mod 60)
  +:+ (if h <? 12 then " AM" else " PM").

(** [to_char(t, 'HH24:MI:SS')] *)
Definition clock24 (t : Z) : string :=
  let s := (t mod day_us) / 1000000 in
  pad0 2 (s / 3600) +:+ ":" +:+ pad0 2 (s / 60 mod 60) +:+ ":" +:+ pad0 2 (s mod 60).

Example clock_ex : clock12 (45296 * 1000000) = "12:34 PM" /\ clock24 (45296 * 1000000) = "12:34:56"
  /\ hours_between 0 (9 * 3600 * 1000000 + 1800 * 1000000) = 950.
Proof. by vm_compute. Qed.

(** ** Data *)

Record PunchRequest := { pn_Action : string; pn_Notes : string }.

Record AttendanceRequest := {
  at_EmployeeID : string;
  at_Date : string;
  at_CheckIn : string;
  at_CheckOut : string;
  at_Reason : string
}.

Record RegularizeRequest := { rg_LogID : string; rg_CheckIn : string; rg_CheckOut : string; rg_Reason : string }.

Section Attendance.
Context `{Server}.

(** ** attendance.go: punches *)

Definition HandleCheckIn : prog Database Response :=
  Ret (created_json [("message", JStr "Checked in successfully."); ("time", JStr "09:00 AM")]).

Definition HandleCheckOut : prog Database Response :=
  Ret (ok_json [("message", JStr "Checked out successfully."); ("time", JStr "06:00 PM")]).

Definition HandleRegularize (r : Request RegularizeRequest) : prog Database Response :=
  match body r with
  | None => Ret (http_error "invalid request" StatusBadRequest)
  | Some _ => Ret (created_json [("message", JStr "Regularization request submitted and workflow triggered.")])
  end.

(** SELECT id::text FROM employees WHERE user_id = $1 AND deleted_at IS NULL *)
Definition live_record (userID : string) : stmt Database string :=
  with_uuid userID (fun u => select_row (fun d => emp_id <$>
    List.find (fun e => opt_is (emp_user_id e) u && negb (bool_decide (is_Some (emp_deleted_at e))))
      (tget employees d))).

(** getCallerIDs: the employee record of the caller, empty when there is none. *)
Definition attendance_getCallerIDs (userID : string) : prog Database string :=
  r <- exec (live_record userID);
  Ret (scan "" r).

(** [fmt.Sprintf(`{"notes": "%s"}`, notes)] *)
Definition punch_payload (notes : string) : string :=
  "{" +:+ quoted "notes" +:+ ": " +:+ quoted notes +:+ "}".

Definition insert_punch (empID punchType notes : string) : stmt Database RawRow :=
  with_uuid empID (fun eu => with_varchar 20 punchType (fun punchType => with_jsonb (punch_payload notes) (fun j =>
  insert attendance_raw_logs (fun c d =>
    if ref_employee eu d
    then Ok {| raw_id := sc_uuid c; raw_employee_id := eu; raw_provider := "MANUAL_WEB";
               raw_punch_time := sc_now c; raw_punch_type := Some punchType; raw_raw_payload := j |}
    else Err fk_error)))).

(** A row of attendance_daily_status with the defaults of the other columns; a NULL
  worked_hours, which every reader takes for 0, is kept as 0. *)
Definition new_day (c : StmtCtx) (empID : string) (date : Z) (first_in last_out : option Z)
    (status validation : string) (worked : Z) : DayRow :=
  {| day_id := sc_uuid c; day_employee_id := empID; day_date := date; day_first_in := first_in;
     day_last_out := last_out; day_status := status; day_late_by_minutes := 0;
     day_validation_status := validation; day_worked_hours := worked; day_expected_hours := 800;
     day_ot_hours := 0; day_validated_by := None; day_validated_at := None;
     day_validation_comments := None; day_updated_at := sc_now c |}.

Definition same_day (r old : DayRow) : bool :=
  (day_employee_id old =?s day_employee_id r) && (day_date old =? day_date r).

(** INSERT ... ON CONFLICT (employee_id, date) DO UPDATE ... WHERE first_in IS NULL *)
Definition punch_in (empID today : string) : stmt Database DayRow :=
  with_uuid empID (fun eu => with_date today (fun date =>
  upsert attendance_daily_status
    (fun c d => if ref_employee eu d
                then Ok (new_day c eu date (Some (sc_now c)) None "PRESENT" "TO_VALIDATE" 0)
                else Err fk_error)
    same_day
    (fun c r old => match day_first_in old with
                    | None => set_day_updated_at (sc_now c) (set_day_status "PRESENT"
                                (set_day_first_in (day_first_in r) old))
                    | Some _ => old
                    end))).

(** UPDATE attendance_daily_status SET last_out = NOW(), worked_hours = ... *)
Definition punch_out (empID today : string) : stmt Database Z :=
  with_uuid empID (fun eu => with_date today (fun date =>
  update_chk attendance_daily_status (fun x => (day_employee_id x =?s eu) && (day_date x =? date))
    (fun c x => set_day_updated_at (sc_now c)
                  (set_day_worked_hours (from_option (fun i => hours_between i (sc_now c)) 0 (day_first_in x))
                    (set_day_last_out (Some (sc_now c)) x)))
    (fun _ x => if Z.abs (day_worked_hours x) <? 100000 then None else Some num_overflow))).

Definition HandlePunch (r : Request PunchRequest) : prog Database Response :=
  match body r with
  | None => Ret (http_error "invalid request" StatusBadRequest)
  | Some req =>
  match claims r with
  | None => Ret UnauthorizedResponse
  | Some k =>
      if db_nil then Ret (JSONError "Database connection unavailable" StatusInternalServerError) else
      callerEmpID <- attendance_getCallerIDs (UserID k);
      if callerEmpID =?s "" then Ret (JSONError "Employee profile not found" StatusBadRequest) else
      let punchType := if pn_Action req =?s "CHECK_OUT" then "OUT" else "IN" in
      raw <- exec (insert_punch callerEmpID punchType (pn_Notes req));
      match raw with
      | Err _ => Ret (JSONError "Failed to record raw punch" StatusInternalServerError)
      | Ok _ =>
          t <- now;
          let today := date_text (date_of_time t) in
          res <- (if punchType =?s "IN"
                  then x <- exec (punch_in callerEmpID today); Ret (is_ok x)
                  else x <- exec (punch_out callerEmpID today); Ret (is_ok x));
          Ret (if negb res then JSONError "Failed to update daily status" StatusInternalServerError
               else created_json [("message", JStr "Punch recorded successfully")])
      end
  end
  end.

(** *** The punch status of the navigation bar *)

(** The columns first_in and last_out of the caller's day, as clock texts. *)
Definition punch_times (empID today : string) : stmt Database (string * string) :=
  with_date today (fun date => with_uuid empID (fun eu => select_row (fun d =>
    (fun x => (from_option clock24 "" (day_first_in x), from_option clock24 "" (day_last_out x))) <$>
    List.find (fun x => (day_date x =? date) && (day_employee_id x =?s eu)) (tget attendance_daily_status d)))).

Definition punch_json (userID checkIn checkOut : string) (isCheckedIn : bool) (elapsed : Z) : Response :=
  ok_json [("is_checked_in", JBool isCheckedIn); ("check_in_time", JStr checkIn);
           ("check_out_time", JStr checkOut); ("elapsed_seconds", JInt elapsed); ("user_id", JStr userID)].

(** [time.Parse("15:04:05", s)] on the texts of [clock24]: seconds of the day. *)
Definition parse_clock (s : string) : option Z :=
  if negb (Nat.eqb (String.length s) 8) then None else
  h ← Atoi (String.substring 0 2 s); m ← Atoi (String.substring 3 2 s); c ← Atoi (String.substring 6 2 s);
  Some (h * 3600 + m * 60 + c).

Definition HandlePunchStatus {B} (r : Request B) : prog Database Response :=
  match claims r with
  | None => Ret UnauthorizedResponse
  | Some k =>
      callerEmpID <- attendance_getCallerIDs (UserID k);
      if callerEmpID =?s "" then Ret (punch_json (UserID k) "" "" false 0) else
      t <- now;
      row <- exec (punch_times callerEmpID (date_text (date_of_time t)));
      let '(checkIn, checkOut) := scan ("", "") row in
      let isCheckedIn := negb (checkIn =?s "") && (checkOut =?s "") in
      elapsedSeconds <- (if isCheckedIn
                         then match parse_clock checkIn with
                              | Some s =>
                                  t <- now;
                                  let checkInToday := date_of_time t * day_us + s * 1000000 in
                                  Ret (Z.max 0 (Z.quot (t - checkInToday) 1000000))
                              | None => Ret 0
                              end
                         else Ret 0);
      Ret (punch_json (UserID k) checkIn checkOut isCheckedIn elapsedSeconds)
  end.

(** ** requests.go *)

Definition find_employee (id : string) : stmt Database string :=
  select_row (fun d => emp_id <$>
    List.find (fun e => (emp_employee_id e =?s id) || (emp_id e =?s id)) (tget employees d)).

Definition insert_request (empID checkIn checkOut reason : string) : stmt Database RegRow :=
  checked (inserts "regularization_requests"
             ["employee_id"; "requested_check_in"; "requested_check_out"; "reason"; "status"])
  (with_uuid empID (fun eu => with_timestamp checkIn (fun from => with_timestamp checkOut (fun to =>
  insert regularization_requests (fun c d =>
    if ref_employee eu d
    then Ok {| reg_id := sc_uuid c; reg_employee_id := eu; reg_requested_check_in := Some from;
               reg_requested_check_out := Some to; reg_reason := Some reason; reg_status := "PENDING";
               reg_created_at := sc_now c |}
    else Err fk_error))))).

Definition HandleSubmitRequest (r : Request AttendanceRequest) : prog Database Response :=
  match claims r with
  | None => Ret UnauthorizedResponse
  | Some k =>
      callerEmpID <- attendance_getCallerIDs (UserID k);
      match body r with
      | None => Ret (http_error "invalid request" StatusBadRequest)
      | Some req =>
          targetEmpID <- (if negb (at_EmployeeID req =?s "")
                             && HasRole (claims r) ["HR_ADMIN"; "SUPER_ADMIN"; "MANAGER"]
                          then x <- exec (find_employee (at_EmployeeID req)); Ret (scan callerEmpID x)
                          else Ret callerEmpID);
          let checkInTS := at_Date req +:+ " " +:+ at_CheckIn req +:+ ":00" in
          let checkOutTS := at_Date req +:+ " " +:+ at_CheckOut req +:+ ":00" in
          res <- exec (insert_request targetEmpID checkInTS checkOutTS (at_Reason req));
          Ret (match res with
               | Err _ => JSONError "Failed to submit request" StatusInternalServerError
               | Ok row => created_json [("message", JStr "Regularization request submitted successfully");
                             ("data", JObj [("id", JStr (reg_id row)); ("status", JStr "PENDING")])]
               end)
      end
  end.

(** *** Lists of requests *)

(** A row whose times are NULL does not scan. [at_work] is printed with two decimals. *)
Definition request_json (p : RegRow * EmpRow) : option json :=
  let '(q, e) := p in
  from ← reg_requested_check_in q; to ← reg_requested_check_out q;
  Some (JObj [("id", JStr (reg_id q)); ("employee_code", JStr (emp_employee_id e));
              ("employee_name", JStr (full_name e)); ("date", JStr (date_text (date_of_time from)));
              ("check_in", JStr (clock12 from)); ("check_out", JStr (clock12 to));
              ("shift", JStr "Regular Shift");
              ("at_work", JStr (fmt_float 2 (of_Z (to - from) / of_Z 3600000000)%f64));
              ("status", JStr (reg_status q)); ("reason", JStr (default "" (reg_reason q)))]).

Definition request_rows (where_clause : RegRow -> EmpRow -> bool) (d : Database) : list (RegRow * EmpRow) :=
  take 100 (order_by (desc (fun p => reg_created_at (fst p)))
    (flat_map (fun q => map (pair q)
       (where_ (fun e => (emp_id e =?s reg_employee_id q) && where_clause q e) (tget employees d)))
       (tget regularization_requests d))).

(** Empty when the query fails. *)
Definition queryRequests (where_clause : RegRow -> EmpRow -> bool) : prog Database (list json) :=
  rows <- exec (select (request_rows where_clause));
  Ret (scanned request_json (scan [] rows)).

Definition HandleMyRequests {B} (r : Request B) : prog Database Response :=
  match claims r with
  | None => Ret UnauthorizedResponse
  | Some k =>
      callerEmpID <- attendance_getCallerIDs (UserID k);
      data <- queryRequests (fun _ e =>
        if HasRole (claims r) ["HR_ADMIN"; "SUPER_ADMIN"; "PAYROLL_ADMIN"] then true
        else if HasRole (claims r) ["MANAGER"; "DEPT_HEAD"]
        then (emp_id e =?s callerEmpID) || opt_is (emp_manager_id e) callerEmpID
        else emp_id e =?s callerEmpID);
      Ret (ok_json [("data", JArr data)])
  end.

Definition HandlePendingApprovals {B} (r : Request B) : prog Database Response :=
  match claims r with
  | None => Ret UnauthorizedResponse
  | Some k =>
      callerEmpID <- attendance_getCallerIDs (UserID k);
      data <- queryRequests (fun q e =>
        (reg_status q =?s "PENDING")
        && (if HasRole (claims r) ["HR_ADMIN"; "SUPER_ADMIN"; "PAYROLL_ADMIN"] then true
            else if HasRole (claims r) ["MANAGER"; "DEPT_HEAD"] then opt_is (emp_manager_id e) callerEmpID
            else false));
      Ret (ok_json [("data", JArr data)])
  end.

(** *** Decisions *)

(** UPDATE regularization_requests SET status = ... WHERE id = $1 *)
Definition decide_request (status reqID : string) : stmt Database Z :=
  with_uuid reqID (fun u =>
    update regularization_requests (fun q => reg_id q =?s u) (fun _ => set_reg_status status)).

(** The day that an approved request stands for, if its columns allow it. *)
Definition day_of_request (c : StmtCtx) (q : RegRow) : result DayRow :=
  match reg_requested_check_in q with
  | None => Err "null value in column date"
  | Some from =>
      let worked := from_option (hours_between from) 0 (reg_requested_check_out q) in
      if Z.abs worked <? 100000
      then Ok (new_day c (reg_employee_id q) (date_of_time from) (Some from) (reg_requested_check_out q)
                 "PRESENT" "VALIDATED" worked)
      else Err num_overflow
  end.

(** INSERT INTO attendance_daily_status ... SELECT ... FROM regularization_requests
  WHERE id = $1 ON CONFLICT (employee_id, date) DO UPDATE. Without such a request
  nothing is inserted; the caller drops the answer either way. *)
Definition sync_day (reqID : string) : stmt Database DayRow :=
  with_uuid reqID (fun u =>
  upsert attendance_daily_status
    (fun c d => match List.find (fun q => reg_id q =?s u) (tget regularization_requests d) with
                | None => Err no_rows
                | Some q => day_of_request c q
                end)
    same_day
    (fun _ r old => set_day_validation_status "VALIDATED" (set_day_status "PRESENT"
       (set_day_worked_hours (day_worked_hours r) (set_day_last_out (day_last_out r)
         (set_day_first_in (day_first_in r) old)))))).

Definition HandleApproveRequest {B} (r : Request B) : prog Database Response :=
  let reqID := urlParam r "id" in
  res <- exec (decide_request "APPROVED" reqID);
  match res with
  | Err _ => Ret (JSONError "Failed to approve" StatusInternalServerError)
  | Ok _ =>
      _ <- exec (sync_day reqID);
      Ret (ok_json [("message", JStr "Request approved")])
  end.

Definition HandleRejectRequest {B} (r : Request B) : prog Database Response :=
  let reqID := urlParam r "id" in
  res <- exec (decide_request "REJECTED" reqID);
  Ret (match res with
       | Err _ => JSONError "Failed to reject" StatusInternalServerError
       | Ok _ => ok_json [("message", JStr "Request rejected")]
       end).
End Attendance.
