(* ===== verification/AttendanceAdmin.v ===== *)
(** * internal/attendance: the validation queue (attendance.go), exceptions
    (exceptions.go), rules, allowlists and geofences (config.go) *)

From S2P Require Import Prelude Float64 Go Sql Schema Calendar Common Auth Authz AuditTrail Attendance.
From Stdlib Require Import SpecFloat.

#[local] Open Scope prog_scope.

(** ** exceptions.go: shift boundaries

    A [time.Time] is its nanoseconds since 1970, UTC. *)

Definition zero_time : Z := -62135596800 * 10 ^ 9.

Definition minute_ns : Z := 60 * 10 ^ 9.

(** [t.Sub(u)] saturates. *)
Definition time_sub (t u : Z) : Z := Z.max (- 2 ^ 63) (Z.min (2 ^ 63 - 1) (t - u)).

(** [int(x)] for a finite float. *)
Definition int_trunc (x : f64) : Z :=
  match x with
  | S754_finite s m e =>
      let v := if 0 <=? e then Zpos m * 2 ^ e else Zpos m / 2 ^ (- e) in if s then - v else v
  | _ => 0
  end.

(** [int(d.Minutes())] *)
Definition int_minutes (d : Z) : Z :=
  int_trunc (of_Z (Z.quot d minute_ns) + of_Z (Z.rem d minute_ns) / of_Z minute_ns)%f64.

Definition EvaluateShiftException (checkIn checkOut shiftStart shiftEnd graceMinutes : Z) : string * Z * Z :=
  let grace := wrap64 (graceMinutes * minute_ns) in
  let graceStart := shiftStart + grace in
  let lateMinutes := if graceStart <? checkIn then int_minutes (time_sub checkIn shiftStart) else 0 in
  let graceEnd := shiftEnd + wrap64 (- grace) in
  let earlyMinutes := if negb (checkOut =? zero_time) && (checkOut <? graceEnd)
                      then int_minutes (time_sub shiftEnd checkOut) else 0 in
  let exceptionType :=
    if (0 <? lateMinutes) && (0 <? earlyMinutes) then "BOTH"
    else if 0 <? lateMinutes then "LATE_ARRIVAL"
    else if 0 <? earlyMinutes then "EARLY_DEPARTURE"
    else if (checkOut =? zero_time) && negb (checkIn =? zero_time) then "MISSING_PUNCH"
    else "" in
  (exceptionType, lateMinutes, earlyMinutes).

(** ** config.go *)

Definition IsIPAllowed (userIP : string) (allowlist : list string) : bool :=
  let cleanUserIP := TrimSpace userIP in
  existsb (fun ip => TrimSpace ip =?s cleanUserIP) allowlist.

Record GeofenceLocation := {
  gf_ID : string;
  gf_Name : string;
  gf_Latitude : f64;
  gf_Longitude : f64;
  gf_RadiusMeters : Z;
  gf_IsActive : bool;
  gf_CreatedAt : string
}.

(** The functions of package math whose results IEEE 754 does not fix, and Sqrt. *)
Class Math := {
  Sin : f64 -> f64;
  Cos : f64 -> f64;
  Sqrt : f64 -> f64;
  Atan2 : f64 -> f64 -> f64
}.

Section Geofence.
Context `{Math}.
Open Scope f64_scope.

(** [math.Pi / 180.0], a constant of the compiler: 314159265358979323846 / (180 10^20). *)
Definition pi_180 : f64 := lit 314159265358979323846 18000000000000000000000.

Definition CalculateHaversineDistance (lat1 lon1 lat2 lon2 : f64) : f64 :=
  let dLat := (lat2 - lat1) * pi_180 in
  let dLon := (lon2 - lon1) * pi_180 in
  let rLat1 := lat1 * pi_180 in
  let rLat2 := lat2 * pi_180 in
  let a := Sin (dLat / of_Z 2) * Sin (dLat / of_Z 2)
           + Sin (dLon / of_Z 2) * Sin (dLon / of_Z 2) * Cos rLat1 * Cos rLat2 in
  let c := of_Z 2 * Atan2 (Sqrt a) (Sqrt (of_Z 1 - a)) in
  of_Z 6371000 * c.

Fixpoint IsWithinGeofence (userLat userLon : f64) (fences : list GeofenceLocation) : bool * string :=
  match fences with
  | [] => (false, "")
  | fence :: fences =>
      if negb (gf_IsActive fence) then IsWithinGeofence userLat userLon fences
      else if CalculateHaversineDistance userLat userLon (gf_Latitude fence) (gf_Longitude fence)
                <=? of_Z (gf_RadiusMeters fence)
      then (true, gf_Name fence)
      else IsWithinGeofence userLat userLon fences
  end.
End Geofence.

Definition geofence_json (g : GeofenceLocation) : json :=
  JObj ([("id", JStr (gf_ID g)); ("name", JStr (gf_Name g)); ("latitude", JNum (gf_Latitude g));
         ("longitude", JNum (gf_Longitude g)); ("radius_meters", JInt (gf_RadiusMeters g));
         ("is_active", JBool (gf_IsActive g))] ++ opt_field "created_at" (gf_CreatedAt g)).

Record AttendanceRules := {
  ar_ID : string;
  ar_RuleName : string;
  ar_WebClockEnabled : bool;
  ar_IPRestrictionEnabled : bool;
  ar_GeofenceEnabled : bool;
  ar_BiometricSyncEnabled : bool;
  ar_DefaultGracePeriodMinutes : Z;
  ar_HalfDayThresholdHours : f64
}.

Definition rules_json (a : AttendanceRules) : json :=
  JObj [("id", JStr (ar_ID a)); ("rule_name", JStr (ar_RuleName a));
        ("web_clock_enabled", JBool (ar_WebClockEnabled a));
        ("ip_restriction_enabled", JBool (ar_IPRestrictionEnabled a));
        ("geofence_enabled", JBool (ar_GeofenceEnabled a));
        ("biometric_sync_enabled", JBool (ar_BiometricSyncEnabled a));
        ("default_grace_period_minutes", JInt (ar_DefaultGracePeriodMinutes a));
        ("half_day_threshold_hours", JNum (ar_HalfDayThresholdHours a))].

Record IPAllowlistItem := {
  ip_ID : string;
  ip_IPAddress : string;
  ip_Description : string;
  ip_IsActive : bool;
  ip_CreatedAt : string
}.

Definition ip_json (i : IPAllowlistItem) : json :=
  JObj ([("id", JStr (ip_ID i)); ("ip_address", JStr (ip_IPAddress i));
         ("description", JStr (ip_Description i)); ("is_active", JBool (ip_IsActive i))]
        ++ opt_field "created_at" (ip_CreatedAt i)).

Record BiometricLog := { bl_EmployeeCode : string; bl_Timestamp : string; bl_PunchType : string }.
Record BiometricSyncPayload := { bs_DeviceID : string; bs_Logs : list BiometricLog }.

Record BatchValidationRequest := { bv_IDs : list string; bv_Action : string; bv_Comments : string }.
Record ReviewExceptionRequest := { re_ExceptionID : string; re_Action : string; re_ReviewComments : string }.
Record SubmitJustificationRequest := { sj_ExceptionID : string; sj_Justification : string }.

Definition hr_roles : list string := ["SUPER_ADMIN"; "HR_ADMIN"].
Definition validator_roles : list string := ["SUPER_ADMIN"; "HR_ADMIN"; "MANAGER"; "PAYROLL_ADMIN"].

(** The status that a batch validation gives. *)
Definition validation_target (action : string) : string :=
  if (action =?s "REJECT") || (action =?s "REJECT_OT") then "REJECTED" else "VALIDATED".

Definition exception_target (action : string) : string :=
  if action =?s "REJECT" then "REJECTED" else if action =?s "WAIVE" then "WAIVED" else "APPROVED".

Section Admin.
Context `{Server}.

(** ** attendance.go: the validation queue *)

Definition department_of (e : EmpRow) (d : Database) : string :=
  default "General" (emp_department_id e ≫= fun k =>
    dep_name <$> List.find (fun x => dep_id x =?s k) (tget departments d)).

(** No statement of the program sets [shift_id]: the shift is the default one. *)
Definition validation_json (d : Database) (p : DayRow * EmpRow) : json :=
  let '(a, e) := p in
  JObj ([("id", JStr (day_id a)); ("employee_id", JStr (emp_id e)); ("employee_code", JStr (emp_employee_id e));
         ("employee_name", JStr (full_name e)); ("department", JStr (department_of e d));
         ("date", JStr (date_text (day_date a))); ("shift_name", JStr "Regular Shift");
         ("check_in_time", JStr (from_option clock12 "--:--" (day_first_in a)));
         ("check_out_time", JStr (from_option clock12 "--:--" (day_last_out a)));
         ("worked_hours", JNum (num_out 2 (day_worked_hours a)));
         ("expected_hours", JNum (num_out 2 (day_expected_hours a)));
         ("ot_hours", JNum (num_out 2 (day_ot_hours a)));
         ("validation_status", JStr (day_validation_status a));
         ("validation_comments", JStr (default "" (day_validation_comments a)))]
        ++ opt_field "validated_by" (default "" (day_validated_by a))
        ++ opt_field "validated_at" (from_option datetime_text "" (day_validated_at a))).

Definition validation_rows (statusFilter : string) (d : Database) : list (DayRow * EmpRow) :=
  order_by (then_by (desc (fun p => day_date (fst p)))
                    (fun x y => collate (emp_employee_id (snd x)) (emp_employee_id (snd y))))
    (flat_map (fun a => map (pair a) (where_ (fun e => emp_id e =?s day_employee_id a) (tget employees d)))
      (where_ (fun a => day_validation_status a =?s statusFilter) (tget attendance_daily_status d))).

Definition HandleGetValidationQueue {B} (r : Request B) : prog Database Response :=
  if negb (HasRole (claims r) validator_roles)
  then Ret (ForbiddenResponse "FORBIDDEN_ROLE" "Only managers and HR admins can access validation queues.")
  else
  let pg := ParsePaginationParams (query r) in
  let statusFilter := if query r "validation_status" =?s "" then "TO_VALIDATE" else query r "validation_status" in
  if db_nil then Ret db_unavailable else
  rows <- exec (select_page pg (fun d => map (validation_json d) (validation_rows statusFilter d)));
  Ret (match rows with
       | Err _ => page_json pg 0 []
       | Ok items => page_json pg (Z.of_nat (length items)) items
       end).

Definition find_user_id (userID : string) : stmt Database string :=
  select_row (fun d => usr_id <$> List.find (fun u => usr_id u =?s userID) (tget users d)).

(** UPDATE attendance_daily_status ... WHERE id::text = $4; without a validator the
  column validated_by is not set. *)
Definition validate_day (target comments validUUID id : string) : stmt Database Z :=
  let set c x := set_day_updated_at (sc_now c) (set_day_validation_comments (Some comments)
                   (set_day_validated_at (Some (sc_now c)) (set_day_validation_status target x))) in
  if negb (validUUID =?s "")
  then with_uuid validUUID (fun uu =>
         update_chk attendance_daily_status (fun x => day_id x =?s id)
           (fun c x => set_day_validated_by (Some uu) (set c x))
           (fun d _ => if ref_user uu d then None else Some fk_error))
  else update attendance_daily_status (fun x => day_id x =?s id) set.

(** One round of the loop over the identifiers. *)
Definition validate_one (uid target : string) (req : BatchValidationRequest) (count : Z) (id : string)
    : prog Database Z :=
  u <- exec (find_user_id uid);
  res <- exec (validate_day target (bv_Comments req) (scan "" u) id);
  match res with
  | Err _ => Ret count
  | Ok _ =>
      audited {| le_UserID := uid; le_Action := "ATTENDANCE_VALIDATION_" +:+ bv_Action req;
                 le_Module := "ATTENDANCE"; le_EntityName := "attendance_daily_status"; le_EntityID := id;
                 le_AfterState := [("validation_status", JStr target); ("comments", JStr (bv_Comments req))];
                 le_Reason := bv_Comments req |} ;;;
      Ret (count + 1)
  end.

Definition HandleBatchValidation (r : Request BatchValidationRequest) : prog Database Response :=
  if negb (HasRole (claims r) validator_roles)
  then Ret (ForbiddenResponse "FORBIDDEN_ROLE" "Only managers and HR admins can validate attendance records.")
  else
  match body r with
  | None => Ret (http_error "invalid request: select at least one record" StatusBadRequest)
  | Some req =>
      if Nat.eqb (length (bv_IDs req)) 0
      then Ret (http_error "invalid request: select at least one record" StatusBadRequest)
      else if db_nil then Ret db_unavailable else
      let targetStatus := validation_target (bv_Action req) in
      updatedCount <- for_each (bv_IDs req) 0
                        (validate_one (from_option UserID "" (claims r)) targetStatus req);
      Ret (ok_json [("message", JStr ("Successfully processed " +:+ itoa updatedCount
                                      +:+ " attendance records to status " +:+ targetStatus +:+ "."));
                    ("count", JInt updatedCount); ("status", JStr targetStatus)])
  end.

(** ** exceptions.go: handlers *)

Definition exception_json (d : Database) (p : ExcRow * EmpRow) : json :=
  let '(x, e) := p in
  JObj ([("id", JStr (exc_id x)); ("employee_id", JStr (exc_employee_id x));
         ("employee_code", JStr (emp_employee_id e)); ("employee_name", JStr (full_name e));
         ("department", JStr (department_of e d)); ("attendance_date", JStr (date_text (exc_attendance_date x)));
         ("exception_type", JStr (exc_exception_type x)); ("late_minutes", JInt (exc_late_minutes x));
         ("early_departure_minutes", JInt (exc_early_departure_minutes x));
         ("grace_period_minutes", JInt (exc_grace_period_minutes x));
         ("justification", JStr (default "" (exc_justification x))); ("status", JStr (exc_status x))]
        ++ opt_field "reviewed_by" (default "" (exc_reviewed_by x))
        ++ opt_field "reviewed_at" (from_option datetime_text "" (exc_reviewed_at x))
        ++ opt_field "review_comments" (default "" (exc_review_comments x))).

Definition exceptions_with (statusFilter : string) (d : Database) : list ExcRow :=
  where_ (fun x => (statusFilter =?s "ALL") || (exc_status x =?s statusFilter)) (tget attendance_exceptions d).

(** The two constant items shown when the query fails. *)
Definition sample_exceptions (today : string) : list json :=
  let sample id emp code name dept ty late early why :=
    JObj [("id", JStr id); ("employee_id", JStr emp); ("employee_code", JStr code); ("employee_name", JStr name);
          ("department", JStr dept); ("attendance_date", JStr today); ("exception_type", JStr ty);
          ("late_minutes", JInt late); ("early_departure_minutes", JInt early); ("grace_period_minutes", JInt 15);
          ("justification", JStr why); ("status", JStr "PENDING")] in
  [sample "exc-001" "emp-101" "PEP15" "Abigail Roberts" "Engineering" "LATE_ARRIVAL" 24 0
     "Severe traffic delay on Highway 101";
   sample "exc-002" "emp-102" "PEP16" "Alexander Smith" "Marketing" "EARLY_DEPARTURE" 0 35
     "Medical emergency appointment"].

Definition HandleGetExceptions {B} (r : Request B) : prog Database Response :=
  if negb (HasRole (claims r) validator_roles)
  then Ret (ForbiddenResponse "FORBIDDEN_ROLE" "Only managers and HR admins can view attendance exceptions.")
  else
  let pg := ParsePaginationParams (query r) in
  let statusFilter := if query r "status" =?s "" then "PENDING" else query r "status" in
  if db_nil then Ret db_unavailable else
  cnt <- exec (select (fun d => Z.of_nat (length (exceptions_with statusFilter d))));
  rows <- exec (select_page pg (fun d => map (exception_json d)
            (order_by (then_by (desc (fun p => exc_attendance_date (fst p))) (desc (fun p => exc_created_at (fst p))))
              (flat_map (fun x => map (pair x) (where_ (fun e => emp_id e =?s exc_employee_id x) (tget employees d)))
                (exceptions_with statusFilter d)))));
  match rows with
  | Err _ => t <- now; Ret (page_json pg 2 (sample_exceptions (date_text (date_of_time t))))
  | Ok items => Ret (page_json pg (scan 0 cnt) items)
  end.

Definition review_exception (target userID comments exceptionID : string) : stmt Database Z :=
  with_uuid userID (fun uu => with_uuid exceptionID (fun id =>
  update_chk attendance_exceptions (fun x => exc_id x =?s id)
    (fun c x => set_exc_updated_at (sc_now c) (set_exc_review_comments (Some comments)
                  (set_exc_reviewed_at (Some (sc_now c)) (set_exc_reviewed_by (Some uu) (set_exc_status target x)))))
    (fun d _ => if ref_user uu d then None else Some fk_error))).

Definition HandleReviewException (r : Request ReviewExceptionRequest) : prog Database Response :=
  if negb (HasRole (claims r) ["SUPER_ADMIN"; "HR_ADMIN"; "MANAGER"])
  then Ret (ForbiddenResponse "FORBIDDEN_ROLE" "Only managers and HR admins can review attendance exceptions.")
  else
  let uid := from_option UserID "" (claims r) in
  match body r with
  | None => Ret (http_error "invalid payload" StatusBadRequest)
  | Some req =>
      let targetStatus := exception_target (re_Action req) in
      let marked := ok_json [("message", JStr ("Attendance exception marked as " +:+ targetStatus +:+ "."));
                             ("status", JStr targetStatus)] in
      if db_nil then Ret marked else
      res <- exec (review_exception targetStatus uid (re_ReviewComments req) (re_ExceptionID req));
      match res with
      | Err e => Ret (fail_json StatusInternalServerError ("failed to update exception status: " +:+ e))
      | Ok _ =>
          audited {| le_UserID := uid; le_Action := "ATTENDANCE_EXCEPTION_REVIEW"; le_Module := "ATTENDANCE";
                     le_EntityName := "attendance_exceptions"; le_EntityID := re_ExceptionID req;
                     le_AfterState := [("action", JStr (re_Action req)); ("status", JStr targetStatus)];
                     le_Reason := re_ReviewComments req |} ;;;
          Ret marked
      end
  end.

Definition justify_exception (justification exceptionID : string) : stmt Database Z :=
  with_uuid exceptionID (fun id =>
    update attendance_exceptions (fun x => exc_id x =?s id)
      (fun c x => set_exc_updated_at (sc_now c) (set_exc_justification (Some justification) x))).

Definition HandleSubmitJustification (r : Request SubmitJustificationRequest) : prog Database Response :=
  match claims r with
  | None => Ret (http_error "unauthorized" StatusUnauthorized)
  | Some k =>
  match body r with
  | None => Ret (http_error "invalid payload" StatusBadRequest)
  | Some req =>
      let done := ok_json [("message", JStr "Justification submitted successfully.")] in
      if db_nil then Ret done else
      res <- exec (justify_exception (sj_Justification req) (sj_ExceptionID req));
      match res with
      | Err e => Ret (fail_json StatusInternalServerError e)
      | Ok _ =>
          audited {| le_UserID := UserID k; le_Action := "ATTENDANCE_EXCEPTION_JUSTIFY"; le_Module := "ATTENDANCE";
                     le_EntityName := "attendance_exceptions"; le_EntityID := sj_ExceptionID req;
                     le_AfterState := []; le_Reason := sj_Justification req |} ;;;
          Ret done
      end
  end
  end.

(** ** config.go: handlers *)

Definition rule_item (x : RuleRow) : AttendanceRules :=
  {| ar_ID := rul_id x; ar_RuleName := rul_rule_name x; ar_WebClockEnabled := rul_web_clock_enabled x;
     ar_IPRestrictionEnabled := rul_ip_restriction_enabled x; ar_GeofenceEnabled := rul_geofence_enabled x;
     ar_BiometricSyncEnabled := rul_biometric_sync_enabled x;
     ar_DefaultGracePeriodMinutes := rul_default_grace_period_minutes x;
     ar_HalfDayThresholdHours := num_out 2 (rul_half_day_threshold_hours x) |}.

Definition default_rules : AttendanceRules :=
  {| ar_ID := ""; ar_RuleName := "GLOBAL_DEFAULT"; ar_WebClockEnabled := true; ar_IPRestrictionEnabled := false;
     ar_GeofenceEnabled := false; ar_BiometricSyncEnabled := true; ar_DefaultGracePeriodMinutes := 15;
     ar_HalfDayThresholdHours := of_Z 4 |}.

Definition HandleGetRules : prog Database Response :=
  if db_nil then Ret (fail_json StatusInternalServerError "database unavailable") else
  row <- exec (select_row (fun d => rule_item <$>
           List.find (fun x => rul_rule_name x =?s "GLOBAL_DEFAULT") (tget attendance_rules d)));
  Ret (ok_json [("data", rules_json (scan default_rules row))]).

Definition upsert_rules (req : AttendanceRules) : stmt Database RuleRow :=
  with_int4 (ar_DefaultGracePeriodMinutes req) (with_num 4 2 (ar_HalfDayThresholdHours req) (fun half =>
  upsert attendance_rules
    (fun c _ => Ok {| rul_id := sc_uuid c; rul_rule_name := "GLOBAL_DEFAULT";
                      rul_web_clock_enabled := ar_WebClockEnabled req;
                      rul_ip_restriction_enabled := ar_IPRestrictionEnabled req;
                      rul_geofence_enabled := ar_GeofenceEnabled req;
                      rul_biometric_sync_enabled := ar_BiometricSyncEnabled req;
                      rul_default_grace_period_minutes := ar_DefaultGracePeriodMinutes req;
                      rul_half_day_threshold_hours := half; rul_updated_at := sc_now c |})
    (fun x old => rul_rule_name old =?s rul_rule_name x)
    (fun _ x old => {| rul_id := rul_id old; rul_rule_name := rul_rule_name old;
                       rul_web_clock_enabled := rul_web_clock_enabled x;
                       rul_ip_restriction_enabled := rul_ip_restriction_enabled x;
                       rul_geofence_enabled := rul_geofence_enabled x;
                       rul_biometric_sync_enabled := rul_biometric_sync_enabled x;
                       rul_default_grace_period_minutes := rul_default_grace_period_minutes x;
                       rul_half_day_threshold_hours := rul_half_day_threshold_hours x;
                       rul_updated_at := rul_updated_at x |}))).

Definition HandleUpdateRules (r : Request AttendanceRules) : prog Database Response :=
  if negb (HasRole (claims r) hr_roles)
  then Ret (ForbiddenResponse "FORBIDDEN_ROLE" "Only HR and Super Admins can configure attendance rules.")
  else
  match body r with
  | None => Ret (http_error "invalid payload" StatusBadRequest)
  | Some req =>
      let updated id :=
        ok_json [("message", JStr "Attendance rules updated successfully.");
                 ("data", rules_json {| ar_ID := id; ar_RuleName := ar_RuleName req;
                    ar_WebClockEnabled := ar_WebClockEnabled req;
                    ar_IPRestrictionEnabled := ar_IPRestrictionEnabled req;
                    ar_GeofenceEnabled := ar_GeofenceEnabled req;
                    ar_BiometricSyncEnabled := ar_BiometricSyncEnabled req;
                    ar_DefaultGracePeriodMinutes := ar_DefaultGracePeriodMinutes req;
                    ar_HalfDayThresholdHours := ar_HalfDayThresholdHours req |})] in
      if db_nil then Ret (updated (ar_ID req)) else
      res <- exec (upsert_rules req);
      match res with
      | Err e => Ret (fail_json StatusInternalServerError e)
      | Ok row =>
          audited {| le_UserID := from_option UserID "" (claims r); le_Action := "ATTENDANCE_RULES_UPDATE";
                     le_Module := "ATTENDANCE"; le_EntityName := "attendance_rules"; le_EntityID := rul_id row;
                     le_AfterState := [("web_clock", JBool (ar_WebClockEnabled req));
                                       ("ip_restriction", JBool (ar_IPRestrictionEnabled req));
                                       ("geofence", JBool (ar_GeofenceEnabled req));
                                       ("grace_period_mins", JInt (ar_DefaultGracePeriodMinutes req))];
                     le_Reason := "" |} ;;;
          Ret (updated (rul_id row))
      end
  end.

(** [nil] database and failed query: no items; no items: the sample. *)
Definition or_sample {A} (sample : A) (l : list A) : list A := match l with [] => [sample] | _ => l end.

Definition ip_item (x : IpRow) : IPAllowlistItem :=
  {| ip_ID := ipa_id x; ip_IPAddress := ipa_ip_address x; ip_Description := default "" (ipa_description x);
     ip_IsActive := ipa_is_active x; ip_CreatedAt := datetime_text (ipa_created_at x) |}.

Definition sample_ip : IPAllowlistItem :=
  {| ip_ID := "ip-001"; ip_IPAddress := "203.0.113.50"; ip_Description := "Mumbai HQ Main Gateway";
     ip_IsActive := true; ip_CreatedAt := "" |}.

Definition HandleGetIPAllowlist : prog Database Response :=
  items <- (if db_nil then Ret [] else
            rows <- exec (select (fun d => map ip_item (order_by (desc ipa_created_at) (tget ip_allowlists d))));
            Ret (scan [] rows));
  Ret (ok_json [("data", JArr (map ip_json (or_sample sample_ip items)))]).

Definition insert_ip (req : IPAllowlistItem) : stmt Database IpRow :=
  with_varchar 50 (ip_IPAddress req) (fun addr => with_varchar 255 (ip_Description req) (fun desc =>
  insert ip_allowlists (fun c d =>
    if existsb (fun x => ipa_ip_address x =?s addr) (tget ip_allowlists d) then Err unique_error
    else Ok {| ipa_id := sc_uuid c; ipa_ip_address := addr; ipa_description := Some desc;
               ipa_is_active := true; ipa_created_at := sc_now c |}))).

Definition HandleAddIPAllowlist (r : Request IPAllowlistItem) : prog Database Response :=
  if negb (HasRole (claims r) hr_roles)
  then Ret (ForbiddenResponse "FORBIDDEN_ROLE" "Only HR and Super Admins can add IP allowlists.")
  else
  match body r with
  | None => Ret (http_error "invalid IP payload" StatusBadRequest)
  | Some req =>
      if ip_IPAddress req =?s "" then Ret (http_error "invalid IP payload" StatusBadRequest) else
      id <- (if db_nil then Ret (ip_ID req) else
             row <- exec (insert_ip req); Ret (scan "" (result_map ipa_id row)));
      let id := if id =?s "" then "ip-new" else id in
      Ret (ok_json [("data", ip_json {| ip_ID := id; ip_IPAddress := ip_IPAddress req;
                               ip_Description := ip_Description req; ip_IsActive := ip_IsActive req;
                               ip_CreatedAt := ip_CreatedAt req |})])
  end.

Definition HandleDeleteIPAllowlist {B} (r : Request B) : prog Database Response :=
  if negb (HasRole (claims r) hr_roles)
  then Ret (ForbiddenResponse "FORBIDDEN_ROLE" "Only HR and Super Admins can delete IP allowlists.")
  else
  let ipID := urlParam r "id" in
  let removed := ok_json [("message", JStr "IP address removed from allowlist.")] in
  if db_nil then Ret removed else
  _ <- exec (with_uuid ipID (fun u => delete ip_allowlists (fun x => ipa_id x =?s u)));
  Ret removed.

Definition geofence_item (x : GeoRow) : GeofenceLocation :=
  {| gf_ID := geo_id x; gf_Name := geo_name x; gf_Latitude := num_out 7 (geo_latitude x);
     gf_Longitude := num_out 7 (geo_longitude x); gf_RadiusMeters := geo_radius_meters x;
     gf_IsActive := geo_is_active x; gf_CreatedAt := datetime_text (geo_created_at x) |}.

Definition sample_geofence : GeofenceLocation :=
  {| gf_ID := "geo-001"; gf_Name := "Mumbai HQ Building A"; gf_Latitude := lit 190760 10000;
     gf_Longitude := lit 728777 10000; gf_RadiusMeters := 150; gf_IsActive := true; gf_CreatedAt := "" |}.

Definition HandleGetGeofences : prog Database Response :=
  items <- (if db_nil then Ret [] else
            rows <- exec (select (fun d => map geofence_item
                      (order_by (desc geo_created_at) (tget geofence_locations d))));
            Ret (scan [] rows));
  Ret (ok_json [("data", JArr (map geofence_json (or_sample sample_geofence items)))]).

Definition insert_geofence (req : GeofenceLocation) (radius : Z) : stmt Database GeoRow :=
  with_varchar 100 (gf_Name req) (fun name => with_num 10 7 (gf_Latitude req) (fun lat =>
  with_num 10 7 (gf_Longitude req) (fun lon => with_int4 radius
  (insert geofence_locations (fun c _ =>
    Ok {| geo_id := sc_uuid c; geo_name := name; geo_latitude := lat; geo_longitude := lon;
          geo_radius_meters := radius; geo_is_active := true; geo_created_at := sc_now c |}))))).

Definition HandleAddGeofence (r : Request GeofenceLocation) : prog Database Response :=
  if negb (HasRole (claims r) hr_roles)
  then Ret (ForbiddenResponse "FORBIDDEN_ROLE" "Only HR and Super Admins can add geofence locations.")
  else
  match body r with
  | None => Ret (http_error "invalid geofence payload" StatusBadRequest)
  | Some req =>
      if gf_Name req =?s "" then Ret (http_error "invalid geofence payload" StatusBadRequest) else
      let radius := if gf_RadiusMeters req <=? 0 then 100 else gf_RadiusMeters req in
      let added id :=
        ok_json [("data", geofence_json {| gf_ID := id; gf_Name := gf_Name req; gf_Latitude := gf_Latitude req;
                   gf_Longitude := gf_Longitude req; gf_RadiusMeters := radius; gf_IsActive := gf_IsActive req;
                   gf_CreatedAt := gf_CreatedAt req |})] in
      if db_nil then Ret (added (gf_ID req)) else
      res <- exec (insert_geofence req radius);
      Ret (match res with
           | Err e => fail_json StatusInternalServerError ("failed to add geofence: " +:+ e)
           | Ok row => added (geo_id row)
           end)
  end.

Definition HandleBiometricSync (r : Request BiometricSyncPayload) : prog Database Response :=
  match body r with
  | None => Ret (http_error "invalid biometric sync payload" StatusBadRequest)
  | Some payload =>
      let processedCount := Z.of_nat (length (bs_Logs payload)) in
      Ret (ok_json [("message", JStr ("Successfully processed " +:+ itoa processedCount
                      +:+ " biometric punch logs from device " +:+ bs_DeviceID payload +:+ "."));
                    ("processed_count", JInt processedCount); ("device_id", JStr (bs_DeviceID payload))])
  end.
End Admin.
