(* ===== verification/AttendanceProps.v ===== *)
(** * Properties of attendance *)

From S2P Require Import Prelude Float64 Go Sql Schema Calendar Common Auth Authz AuditTrail Attendance AttendanceAdmin.

#[local] Open Scope prog_scope.

Example pi_180_value : pi_180 = SpecFloat.S754_finite false 5030569068109113 (-58).
Proof. by vm_compute. Qed.

(** ** Shift exceptions *)

(** A time on the clock: [s] seconds, in nanoseconds. *)
Definition at_second (s : Z) : Z := s * 10 ^ 9.

Fixpoint minutes_exact_from (n : nat) (c : f64) (q : Z) : bool :=
  match n with
  | O => true
  | S n => (int_trunc (of_Z q + c)%f64 =? q) && minutes_exact_from n c (q + 1)
  end.

Lemma minutes_exact_from_spec n c q k : minutes_exact_from n c q = true -> q <= k < q + Z.of_nat n ->
  int_trunc (of_Z k + c)%f64 = k.
Proof.
  revert q. induction n as [|n IH]; intros q Hn Hk; [lia|]. cbn [minutes_exact_from] in Hn.
  apply andb_true_iff in Hn as [Hq Hn]. apply Z.eqb_eq in Hq.
  destruct (decide (k = q)) as [->|]; [done|]. apply (IH (q + 1)); [done|lia].
Qed.

Lemma minutes_table :
  forallb (fun r => minutes_exact_from 720 (of_Z (r * 10 ^ 9) / of_Z minute_ns)%f64 0)
    (map Z.of_nat (seq 0 60)) = true.
Proof. by vm_compute. Qed.

(** Below twelve hours the float computation of whole minutes is exact. *)
Lemma int_minutes_exact s : 0 <= s < 43200 -> int_minutes (at_second s) = s / 60.
Proof.
  intros Hs. unfold int_minutes, at_second.
  assert (Hq : Z.quot (s * 10 ^ 9) minute_ns = s / 60).
  { rewrite Z.quot_div_nonneg by (unfold minute_ns; lia). unfold minute_ns.
    rewrite Z.div_mul_cancel_r; lia. }
  assert (Hr : Z.rem (s * 10 ^ 9) minute_ns = (s mod 60) * 10 ^ 9).
  { rewrite Z.rem_mod_nonneg by (unfold minute_ns; lia). unfold minute_ns.
    rewrite Z.mul_mod_distr_r; lia. }
  rewrite Hq, Hr. pose proof minutes_table as Ht. rewrite forallb_forall in Ht.
  apply (minutes_exact_from_spec 720 _ 0); [|Z.to_euclidean_division_equations; lia].
  apply Ht. apply in_map_iff. exists (Z.to_nat (s mod 60)).
  pose proof (Z.mod_pos_bound s 60 ltac:(lia)). split; [lia|]. apply in_seq. lia.
Qed.

(** The exception of [late] and [early] minutes, [missing] when the check-out is. *)
Definition exception_of (late early : Z) (missing : bool) : string :=
  match (0 <? late)%Z, (0 <? early)%Z with
  | true, true => "BOTH"
  | true, false => "LATE_ARRIVAL"
  | false, true => "EARLY_DEPARTURE"
  | false, false => if missing then "MISSING_PUNCH" else ""
  end.

(** For times in whole seconds less than twelve hours apart and a grace period of
    at most twelve hours, EvaluateShiftException counts the whole minutes from the
    start of the shift to an arrival more than the grace period late, and from a
    departure more than the grace period early to its end, and classifies them; a
    punch missing altogether shows only when the arrival is not late by a minute. *)
Theorem shift_exception_spec checkIn (checkOut : option Z) shiftStart shiftEnd grace :
  0 <= grace <= 720 -> 0 <= checkIn -> - 43200 < checkIn - shiftStart < 43200 ->
  from_option (fun co => 0 <= co /\ - 43200 < shiftEnd - co < 43200) True checkOut ->
  let late := if 60 * grace <? checkIn - shiftStart then (checkIn - shiftStart) / 60 else 0 in
  let early := from_option (fun co => if 60 * grace <? shiftEnd - co then (shiftEnd - co) / 60 else 0) 0 checkOut in
  EvaluateShiftException (at_second checkIn) (from_option at_second zero_time checkOut)
    (at_second shiftStart) (at_second shiftEnd) grace
  = (exception_of late early (bool_decide (checkOut = None)), late, early).
Proof.
  intros Hg Hci Hin Hco late early. unfold EvaluateShiftException.
  assert (Hgrace : forall s, 0 <= s <= 720 -> wrap64 (s * minute_ns) = at_second (60 * s)).
  { intros s Hs. rewrite wrap64_id; unfold minute_ns, at_second; lia. }
  assert (Hneg : wrap64 (- at_second (60 * grace)) = - at_second (60 * grace)).
  { apply wrap64_id. unfold at_second. lia. }
  assert (Hsub : forall a b, 0 <= a - b < 43200 -> int_minutes (time_sub (at_second a) (at_second b)) = (a - b) / 60).
  { intros a b Hab. rewrite <- int_minutes_exact by done. f_equal. unfold time_sub, at_second. lia. }
  rewrite Hgrace, Hneg by done.
  assert (Hlate : (if at_second shiftStart + at_second (60 * grace) <? at_second checkIn
    then int_minutes (time_sub (at_second checkIn) (at_second shiftStart)) else 0) = late).
  { unfold late. unfold at_second at 1 2 3. destruct (Z.ltb_spec (60 * grace) (checkIn - shiftStart)).
    - rewrite (proj2 (Z.ltb_lt _ _)) by lia. apply Hsub. lia.
    - by rewrite (proj2 (Z.ltb_ge _ _)) by lia. }
  rewrite Hlate. clearbody late.
  assert (Hci0 : (at_second checkIn =? zero_time) = false) by (apply Z.eqb_neq; unfold at_second, zero_time; lia).
  rewrite Hci0. destruct checkOut as [co|]; simpl in Hco; simpl from_option in *.
  - assert (Hco0 : (at_second co =? zero_time) = false) by (apply Z.eqb_neq; unfold at_second, zero_time; lia).
    assert (Hearly : (if at_second co <? at_second shiftEnd + - at_second (60 * grace)
      then int_minutes (time_sub (at_second shiftEnd) (at_second co)) else 0) = early).
    { unfold early. unfold at_second at 1 2 3. destruct (Z.ltb_spec (60 * grace) (shiftEnd - co)).
      - rewrite (proj2 (Z.ltb_lt _ _)) by lia. apply Hsub. lia.
      - by rewrite (proj2 (Z.ltb_ge _ _)) by lia. }
    rewrite Hco0. cbn [negb andb]. rewrite Hearly. clearbody early.
    unfold exception_of. by destruct (0 <? late), (0 <? early).
  - cbn [negb andb]. unfold early, exception_of. simpl. by destruct (0 <? late).
Qed.

Section AttendanceProperties.
Context `{Server}.

(** ** Punches *)

(** Every day is still there, with its employee and date, and with its first punch
  once there was one. *)
Definition first_in_kept (l l' : list DayRow) : Prop :=
  forall x, x ∈ l -> exists y, y ∈ l' /\ day_employee_id y = day_employee_id x /\ day_date y = day_date x
    /\ (is_Some (day_first_in x) -> day_first_in y = day_first_in x).

#[export] Instance first_in_kept_preorder : PreOrder first_in_kept.
Proof.
  split.
  - intros l x Hx. by exists x.
  - intros l1 l2 l3 H1 H2 x Hx. destruct (H1 x Hx) as (y & Hy & Ey & Dy & Fy).
    destruct (H2 y Hy) as (z & Hz & Ez & Dz & Fz). exists z. split_and!; try congruence.
    intros Hi. rewrite <- (Fy Hi). apply Fz. by rewrite (Fy Hi).
Qed.

Lemma first_in_kept_app l r : first_in_kept l (l ++ [r]).
Proof. intros x Hx. exists x. split; [apply elem_of_app; by left|done]. Qed.

Lemma first_in_kept_set p f l :
  (forall x, p x = true -> day_employee_id (f x) = day_employee_id x /\ day_date (f x) = day_date x
     /\ (is_Some (day_first_in x) -> day_first_in (f x) = day_first_in x)) ->
  first_in_kept l (set_where p f l).
Proof.
  intros Hf x Hx. exists (if p x then f x else x). split.
  - unfold set_where. apply list_elem_of_fmap. by exists x.
  - destruct (p x) eqn:E; [by apply Hf|done].
Qed.

Lemma punch_in_keeps empID today : respects (on attendance_daily_status first_in_kept) (punch_in empID today).
Proof.
  unfold punch_in. walk. apply respects_upsert.
  - intros c d r _ _. apply (on_same attendance_daily_status); [done|]. apply first_in_kept_app.
  - intros c d r _. apply (on_same attendance_daily_status); [done|]. apply first_in_kept_set.
    intros x _. destruct (day_first_in x) eqn:E; [done|]. by split_and!.
Qed.

Lemma punch_out_keeps empID today : respects (on attendance_daily_status first_in_kept) (punch_out empID today).
Proof.
  unfold punch_out. walk. apply respects_update_chk. intros c d _.
  apply (on_same attendance_daily_status); [done|]. by apply first_in_kept_set.
Qed.

Lemma insert_punch_keeps empID ty notes :
  respects (on attendance_daily_status first_in_kept) (insert_punch empID ty notes).
Proof.
  unfold insert_punch. walk. apply respects_insert. intros c d r _. by apply on_indep; apply _.
Qed.

Definition is_punch (p : prog Database Response) : Prop := exists r, p = HandlePunch r.

#[local] Opaque punch_in punch_out insert_punch.

(** C33: in every interleaving of any number of punches, whatever fails, no employee's
  day loses its row or the time of the first punch it has: checking in again, even
  after checking out, never moves it. *)
Theorem punches_keep_first_in ps d ps' d' :
  Forall is_punch ps -> steps (ps, d) (ps', d') ->
  first_in_kept (tget attendance_daily_status d) (tget attendance_daily_status d').
Proof.
  intros Hps Hst. apply (steps_respect (on attendance_daily_status first_in_kept) ps d ps' d'); [|done].
  eapply Forall_impl; [exact Hps|]. intros p [r ->]. unfold HandlePunch, attendance_getCallerIDs, live_record.
  walk; auto using punch_in_keeps, punch_out_keeps, insert_punch_keeps.
Qed.

(** ** Regularization requests *)

(** Where regularization_requests requires an attendance_log_id, as the migrations
  do, no regularization request can be submitted: HandleSubmitRequest never succeeds
  and never changes the database. *)
Theorem submit_request_fails E (r : Request AttendanceRequest) n d :
  mem_s "attendance_log_id" (required "regularization_requests") = true ->
  let x := run E (HandleSubmitRequest r) n d in
  db_of x = d /\ forall resp, reply x = Some resp -> succeeded resp = false.
Proof.
  intros Hreq.
  apply (wp_run true E (HandleSubmitRequest r) n d (fun o d' => d' = d /\
    forall resp, replied o = Some resp -> succeeded resp = false)); [done|].
  assert (Hins : forall emp a b reason, wp true (res <- exec (insert_request emp a b reason);
     Ret (match res with
          | Err _ => JSONError "Failed to submit request" StatusInternalServerError
          | Ok row => created_json [("message", JStr "Regularization request submitted successfully");
                        ("data", JObj [("id", JStr (reg_id row)); ("status", JStr "PENDING")])]
          end)) d (fun o d' => d' = d /\ forall resp, replied o = Some resp -> succeeded resp = false)).
  { intros emp a b reason. apply wp_bind, wp_exec; [done| |].
    - intros c row d' Hst. exfalso. apply checked_ok in Hst as [Hi _]. revert Hi. unfold inserts.
      destruct (forallb _ _); [|done].
      destruct (forallb (fun c0 => mem_s c0 _) (required _)) eqn:Ef; [|done].
      rewrite forallb_forall in Ef. apply existsb_exists in Hreq as (x & Hx & <-%String.eqb_eq).
      by specialize (Ef _ Hx).
    - intros e _. split; [done|]. by intros resp [= <-]. }
  unfold HandleSubmitRequest. destruct (claims r) as [k|]; [|split; [done|by intros resp [= <-]]].
  apply wp_bind. unfold attendance_getCallerIDs, live_record.
  apply wp_bind, wp_exec; [by split|intros c b d' Hst; sql_inv Hst; subst|intros e _];
    cbn [wp_then wp];
    (destruct (body r) as [req|]; [|split; [done|by intros resp [= <-]]]);
    apply wp_bind; destruct (_ && _); cbn [wp wp_then]; try apply Hins;
    unfold find_employee; apply wp_bind, wp_exec;
    [by split|intros c' b' d'' Hst'; sql_inv Hst'; subst|intros e' _
    |by split|intros c' b' d'' Hst'; sql_inv Hst'; subst|intros e' _]; cbn [wp_then wp]; apply Hins.
Qed.

(** The employee attended on the day of the request, with its times, and the day is
  VALIDATED. *)
Definition attended (q : RegRow) (from to : Z) (d : Database) : Prop :=
  exists x, x ∈ tget attendance_daily_status d /\ day_employee_id x = reg_employee_id q
    /\ day_date x = date_of_time from /\ day_first_in x = Some from /\ day_last_out x = Some to
    /\ day_status x = "PRESENT" /\ day_validation_status x = "VALIDATED"
    /\ day_worked_hours x = hours_between from to.

Lemma find_set_where_key {A} (key : A -> string) (f : A -> A) u l x :
  (forall y, key (f y) = key y) -> List.find (fun y => key y =?s u) l = Some x ->
  List.find (fun y => key y =?s u) (set_where (fun y => key y =?s u) f l) = Some (f x).
Proof.
  intros Hk. induction l as [|y l IH]; [done|]. cbn [List.find]. unfold set_where. cbn [map].
  destruct (key y =?s u) eqn:E; intros Hf.
  - injection Hf as <-. cbn [List.find]. by rewrite Hk, E.
  - cbn [List.find]. rewrite E. by apply IH.
Qed.

Lemma sync_day_attends reqID u q from to d :
  db_nil = false -> uuid_in reqID = Some u ->
  List.find (fun x => reg_id x =?s u) (tget regularization_requests d) = Some q ->
  reg_requested_check_in q = Some from -> reg_requested_check_out q = Some to ->
  Z.abs (hours_between from to) < 100000 ->
  wp false (exec (sync_day reqID)) d (fun o d' => (exists r, o = Done r)
    /\ tget regularization_requests d' = tget regularization_requests d /\ attended q from to d').
Proof.
  intros Hdb Hu Hq Hfrom Hto Hh. apply wp_exec_det; [done|]. intros c.
  unfold sync_day, with_uuid, upsert, day_of_request. rewrite Hu, Hq, Hfrom, Hto. simpl from_option.
  rewrite (proj2 (Z.ltb_lt _ _) Hh). cbv beta iota zeta. destruct (List.find (same_day _) _) as [old|] eqn:Ef.
  - cbv beta iota zeta. apply find_some_elem in Ef as [Hin Hs]. split; [by eexists|]. rewrite indep. split; [done|].
    unfold attended. rewrite tget_tput.
    eexists. split; [unfold set_where; apply list_elem_of_fmap; exists old; rewrite Hs; by split|].
    unfold same_day in Hs. apply andb_true_iff in Hs as [H1%String.eqb_eq H2%Z.eqb_eq].
    by split_and!.
  - cbv beta iota zeta. split; [by eexists|]. rewrite indep. split; [done|]. unfold attended. rewrite tget_tput.
    eexists. split; [apply elem_of_app; right; by apply list_elem_of_singleton|]. by split_and!.
Qed.

(** HandleApproveRequest asks for no identity, role or pending status: anyone who
  reaches it approves a request, one they filed themselves or one that was rejected
  included, and the day of the request becomes a VALIDATED day of attendance with
  the times requested. *)
Theorem approval_needs_no_role {B} E (r : Request B) n d u q from to :
  reliable E -> db_nil = false -> uuid_in (urlParam r "id") = Some u ->
  List.find (fun x => reg_id x =?s u) (tget regularization_requests d) = Some q ->
  reg_requested_check_in q = Some from -> reg_requested_check_out q = Some to ->
  Z.abs (hours_between from to) < 100000 ->
  let x := run E (HandleApproveRequest r) n d in
  out x = Done (ok_json [("message", JStr "Request approved")])
  /\ List.find (fun x => reg_id x =?s u) (tget regularization_requests (db_of x)) = Some (set_reg_status "APPROVED" q)
  /\ attended q from to (db_of x).
Proof.
  intros HE Hdb Hu Hq Hfrom Hto Hh.
  apply (wp_run false E (HandleApproveRequest r) n d (fun o d' =>
    o = _ /\ List.find _ (tget regularization_requests d') = _ /\ attended q from to d')); [done|].
  unfold HandleApproveRequest. apply wp_bind, wp_exec_det; [done|]. intros c.
  unfold decide_request, with_uuid, update. rewrite Hu. cbn [wp_then].
  set (d1 := tput regularization_requests _ d).
  assert (Hq1 : List.find (fun x => reg_id x =?s u) (tget regularization_requests d1)
                = Some (set_reg_status "APPROVED" q)).
  { unfold d1. rewrite tget_tput. by apply (find_set_where_key reg_id). }
  apply wp_bind. eapply wp_mono;
    [|by apply (sync_day_attends _ u (set_reg_status "APPROVED" q) from to d1)].
  intros o d' ([x ->] & Hreg & Hatt). cbn [wp_then wp]. split; [done|]. by rewrite Hreg.
Qed.

(** ** Batch validation *)

(** The fate of a day under a batch: the named days get the status, the others stay. *)
Definition validated (ids : list string) (target : string) (x y : DayRow) : Prop :=
  day_id y = day_id x /\ day_employee_id y = day_employee_id x /\ day_date y = day_date x
  /\ day_first_in y = day_first_in x /\ day_last_out y = day_last_out x
  /\ day_worked_hours y = day_worked_hours x
  /\ if bool_decide (day_id x ∈ ids) then day_validation_status y = target else y = x.

Lemma validated_step ids target id f l0 l :
  (forall y, day_id y = id -> validated [id] target y (f y)) ->
  Forall2 (validated ids target) l0 l ->
  Forall2 (validated (ids ++ [id]) target) l0 (set_where (fun y => day_id y =?s id) f l).
Proof.
  intros Hf. unfold set_where. induction 1 as [|x y l0 l Hxy Hl IH]; simpl; constructor; [|done].
  destruct Hxy as (H1 & H2 & H3 & H4 & H5 & H6 & H7). destruct (String.eqb_spec (day_id y) id) as [Heq|Hne].
  - destruct (Hf y Heq) as (G1 & G2 & G3 & G4 & G5 & G6 & G7). rewrite bool_decide_eq_true_2 in G7 by set_solver.
    unfold validated. split_and!; try congruence. rewrite bool_decide_eq_true_2; [done|].
    rewrite <- H1, Heq. set_solver.
  - unfold validated. split_and!; try done. case_bool_decide as Hin.
    + rewrite bool_decide_eq_true_2; [done|set_solver].
    + rewrite bool_decide_eq_false_2; [done|]. rewrite <- H1 in *. set_solver.
Qed.

Definition batch_done (count : Z) (target : string) : Response :=
  ok_json [("message", JStr ("Successfully processed " +:+ itoa count
                             +:+ " attendance records to status " +:+ target +:+ "."));
           ("count", JInt count); ("status", JStr target)].

(** Identifiers of users are UUIDs in canonical form. *)
Definition canonical_users (d : Database) : Prop := Forall (fun u => uuid_in (usr_id u) = Some (usr_id u)) (tget users d).

Lemma validate_day_wp target comments uid id ids l0 d :
  db_nil = false -> canonical_users d -> Forall2 (validated ids target) l0 (tget attendance_daily_status d) ->
  wp false (exec (validate_day target comments (scan "" (match usr_id <$> List.find (fun u => usr_id u =?s uid) (tget users d)
                                                        with Some u => Ok u | None => Err no_rows end)) id)) d
    (fun o d' => (exists k, o = Done (Ok k)) /\ tget users d' = tget users d
       /\ Forall2 (validated (ids ++ [id]) target) l0 (tget attendance_daily_status d')).
Proof.
  intros Hdb Hcan Hl. apply wp_exec_det; [done|]. intros c. unfold validate_day.
  destruct (List.find _ _) as [u|] eqn:Ef; cbn [fmap option_fmap option_map scan].
  - apply find_some_elem in Ef as [Hin _]. unfold canonical_users in Hcan. rewrite Forall_forall in Hcan.
    destruct (negb _).
    + unfold with_uuid, update_chk. rewrite (Hcan u Hin).
      assert (Href : ref_user (usr_id u) d = true).
      { apply existsb_exists. exists u. split; [by apply list_elem_of_In|apply eqb_refl_s]. }
      rewrite Href. cbv zeta. destruct (List.find _ _) as [x|] eqn:Ef; [by apply find_some_elem in Ef as [_ ?]|].
      split; [by eexists|]. rewrite indep, tget_tput. split; [done|]. apply validated_step; [|done].
      intros y <-. unfold validated. split_and!; try done. by rewrite bool_decide_eq_true_2 by set_solver.
    + unfold update. split; [by eexists|]. rewrite indep, tget_tput. split; [done|].
      apply validated_step; [|done].
      intros y <-. unfold validated. split_and!; try done. by rewrite bool_decide_eq_true_2 by set_solver.
  - cbn [String.eqb negb]. unfold update. split; [by eexists|]. rewrite indep, tget_tput. split; [done|].
    apply validated_step; [|done].
    intros y <-. unfold validated. split_and!; try done. by rewrite bool_decide_eq_true_2 by set_solver.
Qed.

#[local] Opaque validate_day.

(** A batch validation gives every day it names the status of its action, VALIDATED
  for every action but REJECT and REJECT_OT, whatever the status was, and touches no
  other day; the number it reports counts the identifiers, those of no day included. *)
Theorem batch_validation_effect E (r : Request BatchValidationRequest) req n d :
  reliable E -> db_nil = false -> HasRole (claims r) validator_roles = true -> body r = Some req ->
  bv_IDs req <> [] -> canonical_users d ->
  let target := validation_target (bv_Action req) in
  let x := run E (HandleBatchValidation r) n d in
  out x = Done (batch_done (Z.of_nat (length (bv_IDs req))) target)
  /\ Forall2 (validated (bv_IDs req) target) (tget attendance_daily_status d)
       (tget attendance_daily_status (db_of x)).
Proof.
  intros HE Hdb Hr Hb Hne Hcan target.
  apply (wp_run false E (HandleBatchValidation r) n d (fun o d' =>
    o = _ /\ Forall2 _ _ (tget attendance_daily_status d'))); [done|].
  unfold HandleBatchValidation. rewrite Hr, Hb, Hdb. cbn [negb].
  destruct (Nat.eqb_spec (length (bv_IDs req)) 0) as [Hl|_]; [by apply nil_length_inv in Hl|].
  apply wp_bind, (wp_for_each _ (fun pre _ acc d' => acc = Z.of_nat (length pre) /\ tget users d' = tget users d
    /\ Forall2 (validated pre target) (tget attendance_daily_status d) (tget attendance_daily_status d'))).
  - split_and!; try done. apply Forall_Forall2_diag, Forall_true. intros x. unfold validated. by split_and!.
  - intros pre id post acc d1 _ (-> & Hus & Hd1). unfold validate_one.
    apply wp_bind, wp_exec_det; [done|]. intros c. unfold find_user_id, select_row.
    assert (Hcan1 : canonical_users d1) by (unfold canonical_users; by rewrite Hus).
    pose proof (validate_day_wp target (bv_Comments req) (from_option UserID "" (claims r)) id pre _ d1 Hdb Hcan1 Hd1)
      as Hwp.
    destruct (usr_id <$> _) as [u|]; cbn [wp_then]; apply wp_bind; (eapply wp_mono; [|exact Hwp]);
      intros o d2 ([k ->] & Hus2 & Hd2); cbn [wp_then]; apply wp_bind, wp_audited; try done;
      intros d3 [->|[row ->]]; cbn [wp_then wp]; rewrite ?indep;
      (split_and!; [rewrite length_app; simpl; lia|by rewrite Hus2|done]).
  - intros acc d1 (-> & _ & Hd1). cbn [wp_then wp]. by split.
Qed.
End AttendanceProperties.
