(* ===== verification/AttendanceReports.v ===== *)
(** * internal/attendance: the reports

    HandleGetLogs, HandleDailyStatus, HandleDashboardMetrics, HandleGetActivities and
    HandleGetMonthlySummary of attendance.go, with their theorems. Groups come in the
    order of their first rows where the query orders none. *)

From S2P Require Import Prelude Float64 Go Sql Schema Calendar Common Auth Authz Attendance.

#[local] Open Scope prog_scope.

(** [count * 100.0 / NULLIF(total, 0)] in NUMERIC, as the driver gives it to a
    float64. *)
Class NumericRatio := { percent_of : Z -> Z -> f64 }.

(** [math.Round]: half away from zero. *)
Definition math_round (x : f64) : f64 :=
  match x with
  | SpecFloat.S754_finite s m e =>
      if 0 <=? e then x
      else let k := (Zpos m * 2 + 2 ^ (- e)) / 2 ^ (1 - e) in
           if k =? 0 then SpecFloat.S754_zero s else of_Z (if s then - k else k)
  | _ => x
  end.

(** [math.Round(x*10) / 10] *)
Definition round1 (x : f64) : f64 := (math_round (x * of_Z 10) / of_Z 10)%f64.

Example round1_ex : round1 (lit 6667 100) = lit 667 10 /\ round1 (of_Z 100) = of_Z 100.
Proof. by vm_compute. Qed.

(** [to_char(d, 'YYYY-MM')], [Format("2006-01")] *)
Definition month_text (z : Z) : string := let '(y, m, _) := civil z in pad0 4 y +:+ "-" +:+ pad0 2 m.

(** [GROUP BY key] *)
Definition groups {A K} `{EqDecision K} (key : A -> K) (l : list A) : list (list A) :=
  map (fun k => where_ (fun x => bool_decide (key x = k)) l) (rev (remove_dups (rev (map key l)))).

Section Reports.
Context `{Server} `{NumericRatio}.

(** ** Logs *)

(** A NULL check-in or status does not scan. *)
Definition log_json (l : AttLogRow) : option json :=
  check_in ← atl_check_in_time l; st ← atl_status l;
  Some (JObj [("id", JStr (atl_id l)); ("date", JStr (date_text (atl_date l)));
              ("check_in_time", JStr (clock12 check_in));
              ("check_out_time", JStr (from_option clock12 "--:-- --" (atl_check_out_time l)));
              ("status", JStr st); ("shift_name", JStr "General Shift")]).

Definition logs_of (p : AttLogRow -> bool) (d : Database) : list AttLogRow :=
  firstn 30 (order_by (desc atl_date) (where_ p (tget attendance_logs d))).

Definition select_logs (empID : string) : stmt Database (list AttLogRow) :=
  if empID =?s "" then select (logs_of (fun _ => true))
  else with_uuid empID (fun u => select (logs_of (fun l => atl_employee_id l =?s u))).

Definition HandleGetLogs (r : Request unit) : prog Database Response :=
  if db_nil then Ret db_unavailable else
  rows <- exec (select_logs (query r "employee_id"));
  Ret (match rows with
     | Err e => fail_json StatusInternalServerError ("database query failed: " +:+ e)
     | Ok ls => ok_json [("data", JArr (scanned log_json ls))]
     end).

(** ** The day *)

Definition department_or (dflt : string) (d : Database) (e : EmpRow) : string :=
  default dflt (k ← emp_department_id e; dep_name <$> List.find (fun x => dep_id x =?s k) (tget departments d)).

Definition daily_json (d : Database) (p : AttLogRow * EmpRow) : option json :=
  let '(l, e) := p in
  check_in ← atl_check_in_time l; st ← atl_status l;
  Some (JObj [("id", JStr (atl_id l)); ("employee_id", JStr (emp_employee_id e)); ("employee_name", JStr (full_name e));
              ("department", JStr (department_or "Unassigned" d e)); ("date", JStr (date_text (atl_date l)));
              ("first_in", JStr (clock12 check_in));
              ("last_out", JStr (from_option clock12 "--:--" (atl_check_out_time l)));
              ("status", JStr st); ("late_by_minutes", JInt 0)]).

(** attendance_logs al JOIN employees e, under the conditions of the request; a date
    that does not parse is no condition. *)
Definition daily_rows (date : option Z) (search st : string) (d : Database) : list (AttLogRow * EmpRow) :=
  where_ (fun p => match date with Some z => atl_date (fst p) =? z | None => true end
                   && ((search =?s "") || existsb (fun f => ilike f ("%" +:+ search +:+ "%"))
                         [emp_first_name (snd p); emp_last_name (snd p); emp_employee_id (snd p)])
                   && ((st =?s "") || opt_is (atl_status (fst p)) st))
    (flat_map (fun l => map (pair l) (where_ (fun e => emp_id e =?s atl_employee_id l) (tget employees d)))
       (tget attendance_logs d)).

(** A date that parses is a condition, which PostgreSQL casts again. *)
Definition date_filter {B} (q : string) (f : option Z -> stmt Database B) : stmt Database B :=
  match parse_day q with Some _ => with_date q (fun z => f (Some z)) | None => f None end.

Definition daily_page (pg : PaginationParams) (st : string) (date : option Z) : stmt Database (list (option json)) :=
  select_page pg (fun d => map (daily_json d)
    (order_by (fun p q => collate (emp_employee_id (snd p)) (emp_employee_id (snd q)))
      (daily_rows date (Search pg) st d))).

Definition HandleDailyStatus (r : Request unit) : prog Database Response :=
  let pg := ParsePaginationParams (query r) in
  let date := query r "date" in
  let st := query r "status" in
  if db_nil then Ret db_unavailable else
  total <- exec (date_filter date (fun date => select (fun d => Z.of_nat (length (daily_rows date (Search pg) st d)))));
  rows <- exec (date_filter date (daily_page pg st));
  Ret (match rows with
     | Err _ => page_json pg 0 []
     | Ok l => page_json pg (scan 0 total) (scanned id l)
     end).

(** ** The scope of the other reports *)

Definition report_scope (c : Claims) (callerEmpID : string) (e : EmpRow) : bool :=
  if HasRole (Some c) ["SUPER_ADMIN"; "HR_ADMIN"; "PAYROLL_ADMIN"] then true
  else if HasRole (Some c) ["MANAGER"; "DEPT_HEAD"] && negb (callerEmpID =?s "")
       then opt_is (emp_manager_id e) callerEmpID
  else emp_id e =?s callerEmpID.

(** employees e LEFT JOIN attendance_daily_status a ON e.id = a.employee_id AND p a *)
Definition left_days (p : DayRow -> bool) (d : Database) (e : EmpRow) : list (EmpRow * option DayRow) :=
  match where_ (fun a => (emp_id e =?s day_employee_id a) && p a) (tget attendance_daily_status d) with
  | [] => [(e, None)]
  | l => map (fun a => (e, Some a)) l
  end.

(** The rows of the active employees in scope. *)
Definition scoped_days (scope : EmpRow -> bool) (p : DayRow -> bool) (d : Database) : list (EmpRow * option DayRow) :=
  flat_map (left_days p d) (where_ (fun e => (emp_status e =?s "ACTIVE") && scope e) (tget employees d)).

(** [COUNT(a.id) FILTER (WHERE q)] *)
Definition count_days (q : DayRow -> bool) (l : list (EmpRow * option DayRow)) : Z :=
  count_where (fun p => match snd p with Some a => q a | None => false end) l.

Definition is_present (a : DayRow) : bool := (day_status a =?s "PRESENT") || (day_status a =?s "LATE").
Definition is_late (a : DayRow) : bool := (day_status a =?s "LATE") || (0 <? day_late_by_minutes a).

(** ** The dashboard *)

Record DayCounts := {
  total_employees : Z; present_today : Z; late_arrivals : Z; pending_validation : Z; ot_pending : Z
}.

Definition day_counts (scope : EmpRow -> bool) (today : Z) (d : Database) : DayCounts :=
  let l := scoped_days scope (fun a => day_date a =? today) d in
  {| total_employees := Z.of_nat (length l); present_today := count_days is_present l;
     late_arrivals := count_days is_late l;
     pending_validation := count_days (fun a => day_validation_status a =?s "TO_VALIDATE") l;
     ot_pending := count_days (fun a => 0 <? day_ot_hours a) l |}.

Definition dept_name_of (d : Database) (e : EmpRow) : option string :=
  k ← emp_department_id e; dep_name <$> List.find (fun x => dep_id x =?s k) (tget departments d).

Definition dept_rates (scope : EmpRow -> bool) (today : Z) (d : Database) : list json :=
  map (fun g => JObj [("department", JStr (default "General" (p ← head g; dept_name_of d (fst p))));
                      ("rate", JNum (round1 (percent_of (count_days is_present g) (Z.of_nat (length g)))))])
    (groups (fun p => dept_name_of d (fst p)) (scoped_days scope (fun a => day_date a =? today) d)).

(** Employees with absences in the month of [today], whatever their status. *)
Definition absentees (scope : EmpRow -> bool) (today : Z) (d : Database) : list (EmpRow * Z) :=
  firstn 5 (order_by (desc snd)
    (where_ (fun p => 0 <? snd p)
      (map (fun e => (e, count_where (fun a => (emp_id e =?s day_employee_id a) && (day_status a =?s "ABSENT")
                                               && (month_text (day_date a) =?s month_text today))
                           (tget attendance_daily_status d)))
        (where_ scope (tget employees d))))).

Definition absentee_json (d : Database) (p : EmpRow * Z) : json :=
  JObj [("absent_days", JInt (snd p)); ("department", JStr (department_or "General" d (fst p)));
        ("employee_name", JStr (full_name (fst p)))].

(** A slice that was never appended to. *)
Definition nil_or_array (l : list json) : json := match l with [] => JNull | _ => JArr l end.

Definition metrics_json (x : DayCounts) (rates absent : list json) : json :=
  let onTime := present_today x - late_arrivals x in
  let onTime := if onTime <? 0 then 0 else onTime in
  let pct := if 0 <? total_employees x
             then (of_Z (present_today x) / of_Z (total_employees x) * of_Z 100)%f64 else f0 in
  let slot hour n := JObj [("count", JInt n); ("hour", JStr hour)] in
  JObj [("clock_in_distribution", JArr [slot "08:00" (Z.quot (present_today x) 4);
           slot "08:30" (Z.quot (present_today x) 2); slot "09:00" (Z.quot (present_today x) 4)]);
        ("dept_attendance_rate", nil_or_array rates); ("early_departures", JInt 0);
        ("late_arrivals", JInt (late_arrivals x)); ("on_leave", JInt 0); ("on_time", JInt onTime);
        ("ot_pending", JInt (ot_pending x)); ("pending_validation", JInt (pending_validation x));
        ("present_percentage", JNum (round1 pct)); ("present_today", JInt (present_today x));
        ("top_absentees", nil_or_array absent); ("total_employees", JInt (total_employees x))].

Definition HandleDashboardMetrics (r : Request unit) : prog Database Response :=
  match claims r with
  | None => Ret UnauthorizedResponse
  | Some c =>
      callerEmpID <- attendance_getCallerIDs (UserID c);
      let scope := report_scope c callerEmpID in
      t <- now;
      let today := date_of_time t in
      counts <- exec (select (day_counts scope today));
      match counts with
      | Err _ => Ret (JSONError "Failed to load dashboard metrics" StatusInternalServerError)
      | Ok x =>
          rates <- exec (select (dept_rates scope today));
          absent <- exec (select (fun d => map (absentee_json d) (absentees scope today d)));
          Ret (ok_json [("data", metrics_json x (scan [] rates) (scan [] absent))])
      end
  end.

(** ** Activities *)

(** [ORDER BY first_in DESC]: NULL comes first. *)
Definition later_in (p q : DayRow * EmpRow) : bool :=
  match day_first_in (fst p), day_first_in (fst q) with
  | None, _ => true
  | Some _, None => false
  | Some a, Some b => b <=? a
  end.

Definition activity_rows (scope : EmpRow -> bool) (today : Z) (d : Database) : list (DayRow * EmpRow) :=
  firstn 50 (order_by later_in
    (flat_map (fun a => map (pair a) (where_ (fun e => (emp_id e =?s day_employee_id a) && scope e) (tget employees d)))
       (where_ (fun a => day_date a =? today) (tget attendance_daily_status d)))).

Definition activity_json (p : DayRow * EmpRow) : json :=
  let '(a, e) := p in
  let date := JStr (date_text (day_date a)) in
  let active := bool_decide (day_last_out a = None) && bool_decide (is_Some (day_first_in a)) in
  let duration := if bool_decide (day_last_out a = None) then "Running"
                  else fmt_float 2 (num_out 2 (day_worked_hours a)) +:+ " hrs" in
  JObj [("attendance_date", date); ("check_in", JStr (from_option clock24 "-" (day_first_in a)));
        ("check_out", JStr (from_option clock24 "-" (day_last_out a))); ("duration", JStr duration);
        ("employee_code", JStr (emp_employee_id e)); ("employee_name", JStr (full_name e)); ("id", JStr (day_id a));
        ("in_date", date); ("is_active", JBool active); ("out_date", date)].

Definition HandleGetActivities (r : Request unit) : prog Database Response :=
  match claims r with
  | None => Ret UnauthorizedResponse
  | Some c =>
      callerEmpID <- attendance_getCallerIDs (UserID c);
      t <- now;
      rows <- exec (select (activity_rows (report_scope c callerEmpID) (date_of_time t)));
      Ret (ok_json [("data", JArr (map activity_json (scan [] rows)))])
  end.

(** ** The month *)

Record MonthRow := {
  mr_code : string; mr_name : string; mr_dept : string; mr_present : Z; mr_absent : Z; mr_working : Z;
  mr_worked : f64; mr_ot : f64
}.

Definition month_group (d : Database) (g : list (EmpRow * option DayRow)) : option MonthRow :=
  p ← head g;
  let sum f := sum_Z (map (fun p => from_option f 0 (snd p)) g) in
  Some {| mr_code := emp_employee_id (fst p); mr_name := full_name (fst p);
          mr_dept := department_or "General" d (fst p); mr_present := count_days is_present g;
          mr_absent := count_days (fun a => day_status a =?s "ABSENT") g; mr_working := count_days (fun _ => true) g;
          mr_worked := num_out 2 (sum day_worked_hours); mr_ot := num_out 2 (sum day_ot_hours) |}.

Definition month_groups (scope : EmpRow -> bool) (month : string) (d : Database)
  : list (list (EmpRow * option DayRow)) :=
  order_by (fun g g' => collate (from_option (fun p => emp_first_name (fst p)) "" (head g))
                                (from_option (fun p => emp_first_name (fst p)) "" (head g')))
    (groups (fun p => (emp_employee_id (fst p), emp_first_name (fst p), emp_last_name (fst p), dept_name_of d (fst p)))
       (scoped_days scope (fun a => month_text (day_date a) =?s month) d)).

Definition month_rows (scope : EmpRow -> bool) (month : string) (d : Database) : list MonthRow :=
  omap (month_group d) (month_groups scope month d).

Definition month_json (m : MonthRow) : json :=
  JObj [("absent_days", JInt (mr_absent m)); ("department", JStr (mr_dept m)); ("employee_code", JStr (mr_code m));
        ("employee_name", JStr (mr_name m)); ("ot_hours", JStr (fmt_float 1 (mr_ot m))); ("paid_leave", JInt 0);
        ("present_days", JInt (mr_present m)); ("unpaid_leave", JInt 0);
        ("worked_hours", JStr (fmt_float 1 (mr_worked m))); ("working_days", JInt (mr_working m))].

(** The sum of the percentages, in the order of the rows. *)
Definition sum_attendance (l : list MonthRow) : f64 :=
  fold_left (fun s m => if 0 <? mr_working m
                        then (s + of_Z (mr_present m) / of_Z (mr_working m) * of_Z 100)%f64 else s) l f0.

Definition totals_json (l : list MonthRow) : json :=
  let n := Z.of_nat (length l) in
  let avg := if 0 <? n then (sum_attendance l / of_Z n)%f64 else f0 in
  JObj [("avg_attendance", JStr (fmt_float 1 avg +:+ "%")); ("total_employees", JInt n);
        ("working_days", JInt (sum_Z (map mr_working l)))].

Definition HandleGetMonthlySummary (r : Request unit) : prog Database Response :=
  match claims r with
  | None => Ret UnauthorizedResponse
  | Some c =>
      callerEmpID <- attendance_getCallerIDs (UserID c);
      month <- (if query r "month" =?s "" then t <- now; Ret (month_text (date_of_time t))
                else Ret (query r "month"));
      rows <- exec (select (month_rows (report_scope c callerEmpID) month));
      let l := scan [] rows in
      Ret (ok_json [("data", JArr (map month_json l)); ("totals", totals_json l)])
  end.

(** ** Theorems *)

(** What a caller with the employee record [emp] may see of [e]. *)
Definition report_allowed (c : Claims) (emp : string) (e : EmpRow) : Prop :=
  HasRole (Some c) ["SUPER_ADMIN"; "HR_ADMIN"; "PAYROLL_ADMIN"] = true
  \/ (HasRole (Some c) ["MANAGER"; "DEPT_HEAD"] = true /\ emp_manager_id e = Some emp)
  \/ emp_id e = emp.

Lemma report_scope_allowed c emp e : report_scope c emp e = true -> report_allowed c emp e.
Proof.
  unfold report_scope, report_allowed. destruct (HasRole _ [_; _; _]); [by left|]. right.
  destruct (HasRole _ _ && _) eqn:Em; bool_prop; [left; split; [done|by apply opt_is_spec]|by right].
Qed.

(** The employee record of the caller, or none. *)
Definition caller_record_of (c : Claims) (d : Database) (emp : string) : Prop :=
  emp = "" \/ exists e, e ∈ tget employees d /\ emp_id e = emp /\ emp_deleted_at e = None
    /\ exists u, uuid_in (UserID c) = Some u /\ emp_user_id e = Some u.

Lemma live_record_caller c x d b d' : live_record (UserID c) x d = Ok (b, d') -> caller_record_of c d b /\ d' = d.
Proof.
  intros (u & Hu & Hs)%with_uuid_ok. apply select_row_ok in Hs as [Hf ->]. split; [|done].
  destruct (List.find _ _) as [e|] eqn:E; [|done]. apply find_some_elem in E as [He Hp]. injection Hf as <-.
  bool_prop. right. exists e. split_and!; try done.
  - by apply bool_decide_eq_false, eq_None_not_Some in H2.
  - exists u. split; [done|]. by apply opt_is_spec.
Qed.

Lemma wp_caller fl c d (Q : outcome string -> Database -> Prop) : db_nil = false ->
  (forall emp, caller_record_of c d emp -> Q (Done emp) d) -> wp fl (attendance_getCallerIDs (UserID c)) d Q.
Proof.
  intros Hdb HQ. unfold attendance_getCallerIDs. apply wp_bind, wp_exec; [congruence| |].
  - intros x b d' [Hb ->]%live_record_caller. by apply HQ.
  - intros e _. apply HQ. by left.
Qed.

(** The activities of the day are those of employees that the caller may see: all
    for administrators, the direct reports of a manager, the caller otherwise. *)
Theorem activities_in_scope E r c n d resp l : db_nil = false -> claims r = Some c ->
  reply (run E (HandleGetActivities r) n d) = Some resp -> field "data" resp = Some (JArr l) ->
  exists emp, caller_record_of c d emp
  /\ Forall (fun j => exists a e, a ∈ tget attendance_daily_status d /\ e ∈ tget employees d
                       /\ emp_id e = day_employee_id a /\ report_allowed c emp e /\ j = activity_json (a, e)) l.
Proof.
  intros Hdb Hc. set (Q := fun (o : outcome Response) (_ : Database) => forall resp l,
    replied o = Some resp -> field "data" resp = Some (JArr l) -> exists emp, caller_record_of c d emp
    /\ Forall (fun j => exists a e, a ∈ tget attendance_daily_status d /\ e ∈ tget employees d
                       /\ emp_id e = day_employee_id a /\ report_allowed c emp e /\ j = activity_json (a, e)) l).
  cut (Q (out (run E (HandleGetActivities r) n d)) (db_of (run E (HandleGetActivities r) n d))).
  { intros HQ Hr Hf. by eapply HQ. }
  apply (wp_run true E (HandleGetActivities r) n d Q); [done|]. unfold HandleGetActivities. rewrite Hc.
  apply wp_bind, wp_caller; [done|]. intros emp Hemp. cbn [wp_then]. simpl. intros t.
  apply wp_bind, wp_exec; [congruence| |].
  - intros x b d' [-> ->]%select_ok resp' l' [= <-] [= <-]. exists emp. split; [done|]. cbn [scan].
    apply Forall_forall. intros j (p & -> & Hp)%list_elem_of_fmap_1.
    unfold activity_rows in Hp. apply elem_of_take in Hp as (i & Hi & _). apply list_elem_of_lookup_2 in Hi.
    apply elem_of_order_by, list_elem_of_In, in_flat_map in Hi as (a & Ha & Hp).
    apply list_elem_of_In, elem_of_where in Ha as [Ha _]. apply list_elem_of_In in Hp.
    apply list_elem_of_fmap_1 in Hp as (e & -> & He). apply elem_of_where in He as [He Hs]. bool_prop.
    exists a, e. split_and!; try done. by apply report_scope_allowed.
  - intros e _ resp' l' [= <-] [= <-]. exists emp. by split.
Qed.

(** *** The counts of the dashboard *)

(** One day per employee and date: the key of the table. *)
Definition unique_days (d : Database) : Prop :=
  NoDup (map (fun a => (day_employee_id a, day_date a)) (tget attendance_daily_status d)).

Lemma unique_day {K} (key : DayRow -> K) l a p : NoDup (map key l) -> a ∈ where_ p l ->
  (forall b, b ∈ l -> p b = true -> key b = key a) -> where_ p l = [a].
Proof.
  intros Hnd. induction l as [|b l IH]; intros Ha Hk; [by apply not_elem_of_nil in Ha|].
  simpl in Hnd. apply NoDup_cons in Hnd as [Hb Hnd]. unfold where_ in *. cbn [List.filter] in *.
  destruct (p b) eqn:Ep.
  - assert (E : forall x, x ∈ l -> p x = false).
    { intros x Hx. destruct (p x) eqn:Ex; [|done]. exfalso. apply Hb.
      rewrite (Hk b), <- (Hk x); [by apply list_elem_of_fmap_2|by apply list_elem_of_further|done
        |apply list_elem_of_here|done]. }
    assert (Hn : List.filter p l = []) by (apply (where_none p l), Forall_forall, E).
    rewrite Hn in *. by apply list_elem_of_singleton in Ha as ->.
  - apply IH; [done|done|]. intros x Hx. apply Hk. by apply list_elem_of_further.
Qed.

(** The day of the employee, when there is one. *)
Definition day_on (today : Z) (d : Database) (e : EmpRow) : option DayRow :=
  List.find (fun a => (emp_id e =?s day_employee_id a) && (day_date a =? today)) (tget attendance_daily_status d).

Lemma left_days_unique today d e : unique_days d ->
  left_days (fun a => day_date a =? today) d e = [(e, day_on today d e)].
Proof.
  intros Hu. unfold left_days, day_on. set (p := fun a => _ && _).
  destruct (List.find p (tget attendance_daily_status d)) as [a|] eqn:Ef.
  - apply find_some_elem in Ef as [Ha Hp].
    assert (Hw : where_ p (tget attendance_daily_status d) = [a]).
    { apply (unique_day (fun a => (day_employee_id a, day_date a))); [done|by apply elem_of_where|].
      intros b _ Hb. unfold p in *. bool_prop. congruence. }
    unfold p in *. by rewrite Hw.
  - apply find_none_Forall in Ef. apply where_none in Ef. unfold p in *. by rewrite Ef.
Qed.

(** With one day per employee and date the dashboard counts people: the active
    employees in scope, and those among them with a day of attendance, a late day, a
    day to validate, overtime; so that nobody is present who is not counted. *)
Theorem dashboard_counts_people scope today d : unique_days d ->
  let staff := where_ (fun e => (emp_status e =?s "ACTIVE") && scope e) (tget employees d) in
  let with_day q := count_where (fun e => match day_on today d e with Some a => q a | None => false end) staff in
  let x := day_counts scope today d in
  total_employees x = Z.of_nat (length staff)
  /\ present_today x = with_day is_present /\ late_arrivals x = with_day is_late
  /\ pending_validation x = with_day (fun a => day_validation_status a =?s "TO_VALIDATE")
  /\ ot_pending x = with_day (fun a => 0 <? day_ot_hours a)
  /\ 0 <= present_today x <= total_employees x.
Proof.
  intros Hu staff with_day x.
  assert (Hl : scoped_days scope (fun a => day_date a =? today) d = map (fun e => (e, day_on today d e)) staff).
  { unfold scoped_days. fold staff. induction staff as [|e l IH]; simpl; [done|].
    rewrite left_days_unique by done. simpl. by rewrite IH. }
  assert (Hc : forall q, count_days q (scoped_days scope (fun a => day_date a =? today) d) = with_day q).
  { intros q. rewrite Hl. clear Hl. unfold count_days, with_day, count_where, where_. f_equal.
    induction staff as [|e l IH]; simpl; [done|]. destruct (day_on today d e) as [a|]; simpl; [destruct (q a); simpl|]; by rewrite ?IH. }
  unfold x, day_counts. cbn [total_employees present_today late_arrivals pending_validation ot_pending].
  rewrite !Hc, Hl, length_map. split_and!; try done; unfold with_day; [apply count_where_nonneg|].
  unfold count_where, where_. pose proof (filter_length_le (fun e => match day_on today d e with Some a => is_present a | None => false end) staff).
  lia.
Qed.

(** *** The page of the day does not see the punches *)

(** HandleDailyStatus depends on three tables only. *)
Lemma daily_status_ext E r n d d' :
  tget attendance_logs d' = tget attendance_logs d -> tget employees d' = tget employees d ->
  tget departments d' = tget departments d ->
  reply (run E (HandleDailyStatus r) n d') = reply (run E (HandleDailyStatus r) n d).
Proof.
  intros Hl He Hd. unfold HandleDailyStatus, exec. destruct db_nil; [done|].
  assert (Hrows : forall date s st, daily_rows date s st d' = daily_rows date s st d)
    by (intros; unfold daily_rows; by rewrite Hl, He).
  assert (Hj : forall l, map (daily_json d') l = map (daily_json d) l).
  { intros l. apply map_ext. intros [a e]. unfold daily_json, department_or. by rewrite Hd. }
  cbn [bind run]. unfold answer, date_filter, daily_page, select, select_page, with_date.
  destruct (env_fail E n), (env_fail E (S n)), (parse_day (query r "date")); try destruct (date_in _);
    cbn; rewrite ?Hrows, ?Hj; done.
Qed.

(** A punch does not show on the page of the day: punches are stored in
    attendance_daily_status, and the page, like the logs, reads attendance_logs,
    which nothing writes. *)
Theorem punches_not_on_daily_page E E' r r' n n' d :
  reply (run E' (HandleDailyStatus r') n' (db_of (run E (HandlePunch r) n d)))
  = reply (run E' (HandleDailyStatus r') n' d).
Proof.
  assert (Hk : forall (Row : Type) (t : table Database Row), 
    all_stmts (fun _ s => respects (unchanged t) s) (HandlePunch r) ->
    tget t (db_of (run E (HandlePunch r) n d)) = tget t d)
    by (intros Row t Ht; apply (run_respects (unchanged t)), Ht).
  apply daily_status_ext; apply Hk;
    unfold HandlePunch, attendance_getCallerIDs, live_record, insert_punch, punch_in, punch_out; frame.
Qed.
End Reports.
