(* ===== verification/Reports.v ===== *)
(** * internal/reports: dashboards, data quality and exports

    The package reads the database for the dashboards and answers the data quality
    page and the exports from constants. Groups come in the order of their first rows,
    as the queries order none. *)

From S2P Require Import Prelude Float64 Go Sql Schema Calendar Auth Authz Attendance AttendanceReports Leave.

#[local] Open Scope Z_scope.
#[local] Open Scope prog_scope.

Record DataQualityIssue := {
  dq_ID : string; dq_EmployeeID : string; dq_EmployeeName : string; dq_Department : string;
  dq_IssueType : string; dq_Severity : string; dq_Description : string; dq_FixUrl : string
}.

Record DataQualitySummary := {
  HealthScore : Z; TotalEmployees : Z; CleanRecordCount : Z; TotalIssuesCount : Z; MissingManagerCount : Z;
  MissingBankPanCount : Z; MissingShiftCount : Z; DuplicateEmailCount : Z; MissingDocsCount : Z;
  Issues : list DataQualityIssue
}.

(** [to_char(t, 'HH24:MI')], [Format("15:04")] *)
Definition clock_hm (t : Z) : string :=
  let s := (t mod day_us) / 1000000 in pad0 2 (s / 3600) +:+ ":" +:+ pad0 2 (s / 60 mod 60).

Section Reports.
Context `{Server}.

Definition getEmployeeID (userID : string) : prog Database (result string) := exec (live_record userID).

(** ** The feed *)

(** A NULL type makes the text NULL, which does not scan. *)
Definition feed_json (p : RawRow * EmpRow) : option json :=
  let '(a, e) := p in
  ty ← raw_punch_type a;
  Some (JObj [("text", JStr (emp_employee_id e +:+ " (" +:+ emp_first_name e +:+ " " +:+ emp_last_name e +:+ ") "
                             +:+ ty +:+ " via " +:+ raw_provider a));
              ("time", JStr (clock_hm (raw_punch_time a)))]).

(** The employee and those whose manager he or she is. *)
Definition team_of (id : string) (e : EmpRow) : bool :=
  (emp_id e =?s id) || opt_is (emp_manager_id e) id || opt_is (emp_reporting_manager_id e) id.

Definition feed_rows (p : EmpRow -> bool) (today : Z) (d : Database) : list (RawRow * EmpRow) :=
  firstn 5 (order_by (desc (fun x => raw_punch_time (fst x)))
    (flat_map (fun a => map (pair a) (where_ (fun e => (emp_id e =?s raw_employee_id a) && p e) (tget employees d)))
       (where_ (fun a => date_of_time (raw_punch_time a) =? today) (tget attendance_raw_logs d)))).

Definition select_feed (p : EmpRow -> bool) : stmt Database (list json) :=
  fun c d => Ok (scanned feed_json (feed_rows p (date_of_time (sc_now c)) d), d).

Definition getRecentActivityFeed (managerOrEmpID : string) : prog Database json :=
  rows <- exec (if managerOrEmpID =?s "" then select_feed (fun _ => true)
                else with_uuid managerOrEmpID (fun u => select_feed (team_of u)));
  match scan [] rows with
  | [] => t <- now;
          Ret (JArr [JObj [("text", JStr "System ready. No recent activity."); ("time", JStr (clock_hm t))]])
  | feed => Ret (JArr feed)
  end.

(** ** The dashboards *)

Definition name_count (name : string) (n : Z) : json := JObj [("count", JInt n); ("name", JStr name)].

(** [SELECT name, COUNT(e.id) ... GROUP BY name] *)
Definition group_counts (l : list (string * EmpRow)) : list json :=
  map (fun g => name_count (from_option fst "" (head g)) (Z.of_nat (length g))) (groups fst l).

(** departments d LEFT JOIN employees e WHERE e.status = 'ACTIVE' *)
Definition department_members (d : Database) : list (string * EmpRow) :=
  flat_map (fun x => map (pair (dep_name x))
     (where_ (fun e => opt_is (emp_department_id e) (dep_id x) && (emp_status e =?s "ACTIVE")) (tget employees d)))
    (tget departments d).

(** [net_pay] since the first of January of the year of [t], in hundredths. *)
Definition paid_this_year (t : Z) (d : Database) : Z :=
  match where_ (fun p => days_of (year_of (date_of_time t)) 1 1 * day_us <=? slp_created_at p) (tget payslips d) with
  | [] => 412000000
  | l => sum_Z (map slp_net_pay l)
  end.

(** A list that came out empty is replaced. *)
Definition rows_or (sample : json) (l : list json) : json := match l with [] => JArr [sample] | _ => JArr l end.

Definition is_zero (x : f64) : bool := match x with SpecFloat.S754_zero _ => true | _ => false end.

Definition getAdminDashboardData : prog Database json :=
  total <- exec (select (fun d => count_where (fun e => emp_status e =?s "ACTIVE") (tget employees d)));
  pending <- exec (select (fun d => count_where (fun l => lap_status l =?s "PENDING") (tget leave_applications d)));
  payroll <- exec (fun c d => Ok (num_out 2 (paid_this_year (sc_now c) d), d));
  let totalPayroll := if is_zero (scan f0 payroll) then of_Z 4120000 else scan f0 payroll in
  headcount <- exec (select (fun d => group_counts (department_members d)));
  feed <- getRecentActivityFeed "";
  Ret (JObj [("activity_feed", feed);
             ("headcount_data", rows_or (name_count "General" (scan 0 total)) (scan [] headcount));
             ("open_jobs", JInt 14); ("pending_approvals", JInt (scan 0 pending));
             ("total_employees", JInt (scan 0 total)); ("total_payroll", JNum totalPayroll)]).

(** [reporting_manager_id = $1 OR manager_id = $1] *)
Definition reports_to (id : string) (e : EmpRow) : bool :=
  opt_is (emp_reporting_manager_id e) id || opt_is (emp_manager_id e) id.

(** [reporting_manager_id = $1 OR manager_id = $1 AND status = 'ACTIVE'], where AND
    binds more tightly. *)
Definition team_member (id : string) (e : EmpRow) : bool :=
  opt_is (emp_reporting_manager_id e) id || (opt_is (emp_manager_id e) id && (emp_status e =?s "ACTIVE")).

Definition team_pending (id : string) (d : Database) : Z :=
  Z.of_nat (length (flat_map (fun l =>
      where_ (fun e => (emp_id e =?s lap_employee_id l) && reports_to id e && (lap_status l =?s "PENDING"))
        (tget employees d)) (tget leave_applications d))).

Definition designation_members (id : string) (d : Database) : list (string * EmpRow) :=
  flat_map (fun x => map (pair (des_name x))
     (where_ (fun e => opt_is (emp_designation_id e) (des_id x) && reports_to id e && (emp_status e =?s "ACTIVE"))
        (tget employees d)))
    (tget designations d).

Definition getManagerDashboardData (userID : string) : prog Database json :=
  empID <- getEmployeeID userID;
  match empID with
  | Err _ => Ret (JObj [])
  | Ok empID =>
      team <- exec (with_uuid empID (fun u => select (fun d => count_where (team_member u) (tget employees d))));
      pending <- exec (with_uuid empID (fun u => select (team_pending u)));
      designations <- exec (with_uuid empID (fun u => select (fun d => group_counts (designation_members u d))));
      feed <- getRecentActivityFeed empID;
      Ret (JObj [("activity_feed", feed);
                 ("designation_data", rows_or (name_count "Team" (scan 0 team)) (scan [] designations));
                 ("pending_approvals", JInt (scan 0 pending)); ("team_attendance", JInt 95);
                 ("total_team_members", JInt (scan 0 team))])
  end.

(** [SELECT COALESCE(SUM(balance), dflt) FROM leave_balances WHERE employee_id = $1 AND
    leave_type = kind], scanned into an int. *)
Definition leave_left (empID kind : string) (dflt : Z) : stmt Database Z :=
  checked (names "leave_balances" ["balance"; "leave_type"]) (with_uuid empID (fun u => fun _ d =>
    match map bal_balance (where_ (fun b => (bal_employee_id b =?s u) && opt_is (bal_leave_type b) kind)
                             (tget leave_balances d)) with
    | [] => Ok (dflt, d)
    | l => match int_of_num (sum_Z l) with Some n => Ok (n, d) | None => Err "cannot convert to int" end
    end)).

Definition getEmployeeDashboardData (userID : string) : prog Database json :=
  empID <- getEmployeeID userID;
  match empID with
  | Err _ => Ret (JObj [])
  | Ok empID =>
      pending <- exec (with_uuid empID (fun u => select (fun d =>
        count_where (fun l => (lap_employee_id l =?s u) && (lap_status l =?s "PENDING")) (tget leave_applications d))));
      casual <- exec (leave_left empID "CASUAL" 12);
      sick <- exec (leave_left empID "SICK" 6);
      feed <- getRecentActivityFeed empID;
      Ret (JObj [("activity_feed", feed); ("casual_leave", JInt (scan 0 casual)); ("my_attendance_rate", JInt 98);
                 ("pending_requests", JInt (scan 0 pending)); ("sick_leave", JInt (scan 0 sick))])
  end.

Definition dashboard_role (c : Claims) : string := default "EMPLOYEE" (head (Roles c)).

Definition HandleGetDashboardData (r : Request unit) : prog Database Response :=
  match claims r with
  | None => Ret (http_error "Unauthorized" StatusUnauthorized)
  | Some c =>
      let role := dashboard_role c in
      data <- (if mem_s role ["SUPER_ADMIN"; "HR_ADMIN"] then getAdminDashboardData
               else if role =?s "MANAGER" then getManagerDashboardData (UserID c)
               else getEmployeeDashboardData (UserID c));
      Ret (ok_json [("data", data); ("role", JStr role)])
  end.

(** ** Data quality *)

Definition issue (id emp name dept ty sev text : string) : DataQualityIssue :=
  {| dq_ID := id; dq_EmployeeID := emp; dq_EmployeeName := name; dq_Department := dept; dq_IssueType := ty;
     dq_Severity := sev; dq_Description := text; dq_FixUrl := "/employees/" +:+ emp |}.

Definition quality_issues : list DataQualityIssue :=
  [issue "issue-1" "EMP-1088" "Bob Smith" "Design" "MISSING_MANAGER" "HIGH"
     "Reporting manager not assigned in org chart";
   issue "issue-2" "EMP-1090" "Carol Danvers" "Product" "MISSING_PAN" "HIGH"
     "PAN Card details missing for statutory TDS calculation";
   issue "issue-3" "EMP-1024" "Alice Walker" "Engineering" "MISSING_SHIFT" "MEDIUM"
     "Work shift policy default fallback active";
   issue "issue-4" "EMP-1010" "David Miller" "Sales" "MISSING_BANK" "HIGH"
     "Bank IFSC & Account Number pending verification";
   issue "issue-5" "EMP-1095" "Eva Green" "Finance" "DUPLICATE_EMAIL" "HIGH"
     "Corporate email conflicts with secondary alias record"].

Definition quality_summary : DataQualitySummary :=
  {| HealthScore := 94; TotalEmployees := 128; CleanRecordCount := 123; TotalIssuesCount := 5;
     MissingManagerCount := 1; MissingBankPanCount := 2; MissingShiftCount := 1; DuplicateEmailCount := 1;
     MissingDocsCount := 0; Issues := quality_issues |}.

Definition issue_json (i : DataQualityIssue) : json :=
  JObj [("id", JStr (dq_ID i)); ("employee_id", JStr (dq_EmployeeID i)); ("employee_name", JStr (dq_EmployeeName i));
        ("department", JStr (dq_Department i)); ("issue_type", JStr (dq_IssueType i));
        ("severity", JStr (dq_Severity i)); ("description", JStr (dq_Description i)); ("fix_url", JStr (dq_FixUrl i))].

Definition summary_json (s : DataQualitySummary) : json :=
  JObj [("health_score", JInt (HealthScore s)); ("total_employees", JInt (TotalEmployees s));
        ("clean_record_count", JInt (CleanRecordCount s)); ("total_issues_count", JInt (TotalIssuesCount s));
        ("missing_manager_count", JInt (MissingManagerCount s));
        ("missing_bank_pan_count", JInt (MissingBankPanCount s)); ("missing_shift_count", JInt (MissingShiftCount s));
        ("duplicate_email_count", JInt (DuplicateEmailCount s)); ("missing_docs_count", JInt (MissingDocsCount s));
        ("issues", JArr (map issue_json (Issues s)))].

Definition HandleGetDataQuality : prog Database Response :=
  Ret (ok_json [("data", summary_json quality_summary)]).

(** ** Exports *)

(** What writeReportCSV writes. *)
Definition writeReportCSV (reportType : string) : list (list string) :=
  if reportType =?s "headcount" then
    [["Employee ID"; "Name"; "Department"; "Designation"; "Joining Date"; "Status"];
     ["EMP-1024"; "Alice Walker"; "Engineering"; "Senior Engineer"; "2024-01-15"; "ACTIVE"];
     ["EMP-1088"; "Bob Smith"; "Design"; "UI Lead"; "2024-03-01"; "ACTIVE"];
     ["EMP-1090"; "Carol Danvers"; "Product"; "Product Manager"; "2024-05-10"; "ACTIVE"]]
  else if reportType =?s "payroll" then
    [["Employee ID"; "Name"; "Basic Pay"; "HRA"; "Gross Pay"; "Deductions"; "Net Disbursed"];
     ["EMP-1024"; "Alice Walker"; "45000"; "22500"; "80000"; "10200"; "69800"];
     ["EMP-1088"; "Bob Smith"; "40000"; "20000"; "70000"; "6833"; "63167"]]
  else if reportType =?s "attendance" then
    [["Employee ID"; "Name"; "Total Days"; "Present"; "Absent"; "LOP Days"; "OT Hours"];
     ["EMP-1024"; "Alice Walker"; "31"; "22"; "0"; "0"; "4.5"];
     ["EMP-1088"; "Bob Smith"; "31"; "20"; "2"; "1.0"; "0.0"]]
  else if reportType =?s "leave" then
    [["Employee ID"; "Name"; "Casual Leave"; "Sick Leave"; "Earned Leave"; "Encashable Days"];
     ["EMP-1024"; "Alice Walker"; "8.0"; "6.0"; "12.0"; "10.0"];
     ["EMP-1088"; "Bob Smith"; "6.5"; "5.0"; "10.0"; "8.0"]]
  else if reportType =?s "tax" then
    [["Employee ID"; "Name"; "Annual Gross"; "80C Deductions"; "80D Deductions"; "Taxable Income"; "TDS Deducted"];
     ["EMP-1024"; "Alice Walker"; "1200000"; "150000"; "25000"; "1025000"; "117500"];
     ["EMP-1088"; "Bob Smith"; "960000"; "150000"; "20000"; "790000"; "70500"]]
  else [["Field 1"; "Field 2"; "Field 3"]; ["Data 1"; "Data 2"; "Data 3"]].

Definition newline : string := String (ascii_of_nat 10) "".

Definition pdf_text (reportType : string) (t : Z) : string :=
  "%PDF-1.4 %Enterprise HRMS Report: " +:+ reportType +:+ newline +:+ "Generated: " +:+ datetime_text t +:+ newline
  +:+ "Total Records: 128" +:+ newline.

Definition report_row (id name dept desig joined st : string) : json :=
  JObj [("department", JStr dept); ("designation", JStr desig); ("employee_id", JStr id);
        ("joining_date", JStr joined); ("name", JStr name); ("status", JStr st)].

Definition report_json (reportType : string) (t : Z) : json :=
  JObj [("columns", JArr (map JStr ["Employee ID"; "Name"; "Department"; "Designation"; "Joining Date"; "Status"]));
        ("generated_at", JTime t); ("report_type", JStr reportType);
        ("rows", JArr [report_row "EMP-1024" "Alice Walker" "Engineering" "Senior Engineer" "2024-01-15" "ACTIVE";
                       report_row "EMP-1088" "Bob Smith" "Design" "UI Lead" "2024-03-01" "ACTIVE";
                       report_row "EMP-1090" "Carol Danvers" "Product" "Product Manager" "2024-05-10" "ACTIVE";
                       report_row "EMP-1010" "David Miller" "Sales" "Sales Executive" "2024-06-01" "CONFIRMED"]);
        ("total_records", JInt 128)].

Definition sheet_type : string := "application/vnd.openxmlformats-officedocument.spreadsheetml.sheet".

(** The header Content-Disposition carries the time as well. *)
Definition HandleExportReport (r : Request unit) : prog Database Response :=
  if negb (CanExportReports (claims r))
  then Ret (ForbiddenResponse "FORBIDDEN_ROLE" "Only HR/Payroll Administrators can export organizational reports.")
  else
  let reportType := if query r "type" =?s "" then "headcount" else query r "type" in
  let format := query r "format" in
  let file ty c := {| status := StatusOK; ctype := ty; content := c |} in
  t <- now;
  Ret (if format =?s "csv" then file "text/csv" (BCsv (writeReportCSV reportType))
       else if mem_s format ["xlsx"; "excel"] then file sheet_type (BCsv (writeReportCSV reportType))
       else if format =?s "pdf" then file "application/pdf" (BText (pdf_text reportType t))
       else ok_json [("data", report_json reportType t)]).
End Reports.

(** ** Theorems *)

Section ReportsProps.
Context `{Server}.

(** A counted list splits by any test. *)
Lemma count_where_split {A} (p q : A -> bool) l :
  count_where p l = count_where (fun x => p x && q x) l + count_where (fun x => p x && negb (q x)) l.
Proof.
  unfold count_where, where_. induction l as [|x l IH]; simpl; [done|].
  destruct (p x), (q x); simpl; lia.
Qed.

Lemma count_where_ext {A} (p q : A -> bool) l : (forall x, p x = q x) -> count_where p l = count_where q l.
Proof. intros E. unfold count_where, where_. by rewrite (filter_ext _ _ E). Qed.

Definition is_active_emp (e : EmpRow) : bool := emp_status e =?s "ACTIVE".

(** The size of the team on the dashboard of a manager counts the active reports and,
    as AND binds before OR, those who are no longer active but name the manager as
    reporting manager. *)
Theorem team_counts_inactive id d :
  count_where (team_member id) (tget employees d)
  = count_where (fun e => reports_to id e && is_active_emp e) (tget employees d)
    + count_where (fun e => opt_is (emp_reporting_manager_id e) id && negb (is_active_emp e)) (tget employees d).
Proof.
  rewrite (count_where_split (team_member id) is_active_emp). f_equal; apply count_where_ext; intros e;
    unfold team_member, reports_to, is_active_emp; destruct (opt_is _ _), (opt_is _ _), (_ =?s _); done.
Qed.

(** The leave shown on the dashboard of an employee: where leave_balances has no column
    leave_type, as in the migrations, both figures are 0, not the defaults of 12 and 6. *)
Theorem employee_dashboard_no_leave E userID n d j : db_nil = false ->
  mem_s "leave_type" (columns "leave_balances") = false ->
  out (run E (getEmployeeDashboardData userID) n d) = Done j ->
  j = JObj [] \/ exists feed pending, j = JObj [("activity_feed", feed); ("casual_leave", JInt 0);
    ("my_attendance_rate", JInt 98); ("pending_requests", JInt pending); ("sick_leave", JInt 0)].
Proof.
  intros Hdb Hcol. set (Q := fun (o : outcome json) (_ : Database) => forall j, o = Done j ->
    j = JObj [] \/ exists feed pending, j = JObj [("activity_feed", feed); ("casual_leave", JInt 0);
      ("my_attendance_rate", JInt 98); ("pending_requests", JInt pending); ("sick_leave", JInt 0)]).
  cut (Q (out (run E (getEmployeeDashboardData userID) n d)) (db_of (run E (getEmployeeDashboardData userID) n d)));
    [auto|].
  apply (wp_run true); [done|]. unfold getEmployeeDashboardData, getEmployeeID.
  assert (Hnone : forall fl id k x d (P : outcome (result Z) -> Database -> Prop),
             (forall e, P (Done (Err e)) d) -> wp fl (exec (leave_left id k x)) d P).
  { intros fl id k x d1 P HP. apply wp_exec; [congruence| |auto].
    intros c b d2. unfold leave_left, checked, names. simpl. by rewrite Hcol, Bool.andb_false_r. }
  apply wp_bind, wp_exec; [congruence| |intros e _ ? [= <-]; by left].
  intros x b d1 _. simpl wp_then. apply wp_bind, wp_exec; [congruence| |].
  all: intros; simpl wp_then; apply wp_bind, Hnone; intros; simpl wp_then; apply wp_bind, Hnone; intros;
    simpl wp_then; apply wp_bind; eapply wp_mono; [|apply wp_True]; intros [] ? _; try done;
    simpl; intros ? [= <-]; right; by eexists _, _.
Qed.

(** The entries of a feed that is not the sample are punches of the team. *)
Theorem feed_of_team E id n d j l : db_nil = false -> id <> "" ->
  out (run E (getRecentActivityFeed id) n d) = Done (JArr l) -> j ∈ l ->
  (exists t, j = JObj [("text", JStr "System ready. No recent activity."); ("time", JStr (clock_hm t))])
  \/ exists a e u, uuid_in id = Some u /\ a ∈ tget attendance_raw_logs d /\ e ∈ tget employees d
       /\ emp_id e = raw_employee_id a /\ team_of u e = true /\ feed_json (a, e) = Some j.
Proof.
  intros Hdb Hid%String.eqb_neq Ho Hj.
  set (sample := fun j => exists t, j = JObj [("text", JStr "System ready. No recent activity."); ("time", JStr (clock_hm t))]).
  set (punch := fun j => exists a e u, uuid_in id = Some u /\ a ∈ tget attendance_raw_logs d /\ e ∈ tget employees d
       /\ emp_id e = raw_employee_id a /\ team_of u e = true /\ feed_json (a, e) = Some j).
  set (Q := fun (o : outcome json) (_ : Database) => forall l j, o = Done (JArr l) -> j ∈ l -> sample j \/ punch j).
  cut (Q (out (run E (getRecentActivityFeed id) n d)) (db_of (run E (getRecentActivityFeed id) n d)));
    [intros HQ; by apply (HQ l)|].
  apply (wp_run true); [done|]. unfold getRecentActivityFeed. rewrite Hid.
  assert (Hs : forall rows, Forall punch rows -> wp true (match rows with
      | [] => t <- now; Ret (JArr [JObj [("text", JStr "System ready. No recent activity."); ("time", JStr (clock_hm t))]])
      | x :: xs => Ret (JArr (x :: xs)) end) d Q).
  { intros [|x rows] Hrows; simpl; [intros t|]; intros l' j' [= <-] Hj'.
    - left. apply list_elem_of_singleton in Hj' as ->. by exists t.
    - right. by apply (proj1 (Forall_forall _ _) Hrows). }
  apply wp_bind, wp_exec; [congruence| |intros e _; apply Hs, Forall_nil_2].
  intros c b d' (u & Hu & Hst)%with_uuid_ok. injection Hst as <- <-. cbn [wp_then scan]. apply Hs.
  apply Forall_forall. intros x (p & Hp & Hx)%elem_of_scanned. destruct p as [a e].
  unfold feed_rows in Hp. apply elem_of_take in Hp as (i & Hi & _). apply list_elem_of_lookup_2 in Hi.
  apply elem_of_order_by, list_elem_of_In, in_flat_map in Hi as (a' & Ha & Hp).
  apply list_elem_of_In, elem_of_where in Ha as [Ha _]. apply list_elem_of_In in Hp.
  apply list_elem_of_fmap_1 in Hp as (e' & [= <- <-] & He). apply elem_of_where in He as [He Hs']. bool_prop.
  exists a, e, u. by split_and!.
Qed.

(** The dashboards only read. *)
Theorem dashboards_write_nothing E r n d : db_of (run E (HandleGetDashboardData r) n d) = d.
Proof.
  symmetry. apply (run_respects eq). unfold HandleGetDashboardData, getAdminDashboardData,
    getManagerDashboardData, getEmployeeDashboardData, getRecentActivityFeed, getEmployeeID, live_record, leave_left.
  walk; intros ? ? ? ? Hst; unfold select_feed in Hst; repeat case_match; by simplify_eq.
Qed.

(** An export shows nothing of the database: for the same request and time it is the
    same in any two companies. *)
Theorem exports_are_constant E r n d d' :
  reply (run E (HandleExportReport r) n d) = reply (run E (HandleExportReport r) n d').
Proof. unfold HandleExportReport. by destruct (negb _). Qed.
End ReportsProps.
