(* ===== verification/Api.v ===== *)
(** * cmd/api: the routes of the server

    The router of main.go with the routes that the packages register, as data: each
    route has a method, a pattern, the handler that serves it, and whether the
    middleware RequireAuth is in front of it. Which route the router of chi picks for
    a path is a parameter, as is the decoding of bodies. *)

From stdpp Require Import gmap.
From S2P Require Import Prelude Float64 Go Sql Tx Schema Calendar Common Auth Authz AuditTrail Matrix Payroll Workflow User Importer Employee Jobs Security Lifecycle Document Onboarding Organization Performance Recruitment Helpdesk Leave Attendance AttendanceAdmin AttendanceReports Reports.

#[local] Open Scope Z_scope.
#[local] Open Scope prog_scope.

(** What the handlers use of [*http.Request]. *)
Record HttpRequest := {
  hr_Method : string;
  hr_Path : string;
  hr_Authorization : string;
  hr_query : string -> string;
  hr_Body : string;
  hr_RemoteAddr : string;
  hr_UserAgent : string
}.

(** The decoding of bodies, by encoding/json and mime/multipart into the type that a
    handler declares; [body_field] is for a body of one string field. *)
Class Bodies := {
  body_field : string -> string -> option string;
  body_login : string -> option LoginRequest;
  body_reset : string -> option ResetRequest;
  body_regularize : string -> option RegularizeRequest;
  body_punch : string -> option PunchRequest;
  body_attendance : string -> option AttendanceRequest;
  body_validation : string -> option BatchValidationRequest;
  body_exception : string -> option ReviewExceptionRequest;
  body_justification : string -> option SubmitJustificationRequest;
  body_rules : string -> option AttendanceRules;
  body_allowlist : string -> option IPAllowlistItem;
  body_geofence : string -> option GeofenceLocation;
  body_biometric : string -> option BiometricSyncPayload;
  body_doctype : string -> option DocumentType;
  body_hire : string -> option CreateEmployeeRequest;
  body_update : string -> option UpdateEmployeeRequest;
  body_grade : string -> option CreateDesignationRequest;
  body_category : string -> option HelpdeskCategory;
  body_ticket : string -> option HelpdeskTicket;
  body_action : string -> option TicketAction;
  body_upload : string -> option Upload;
  body_job : string -> option TriggerJobRequest;
  body_leave : string -> option ApplicationRequest;
  body_policy : string -> option LeavePolicyItem;
  body_encashment : string -> option LeaveEncashmentItem;
  body_review : string -> option ReviewRequest;
  body_currency : string -> option CurrencyItem;
  body_preview : string -> option PreviewRequest;
  body_structure : string -> option StructureRequest;
  body_template : string -> option Template;
  body_task : string -> option TemplateTask;
  body_location : string -> option Location;
  body_designation : string -> option Designation;
  body_department : string -> option Department;
  body_process : string -> option ProcessRequest;
  body_advance : string -> option AdvanceRequest;
  body_cycle : string -> option CycleInput;
  body_goal : string -> option PerformanceGoal;
  body_progress : string -> option GoalInput;
  body_appraisal : string -> option PerformanceReview;
  body_pip : string -> option PipPlan;
  body_offer : string -> option OfferRequest;
  body_access : string -> option AccessReq;
  body_account : string -> option CreateUserRequest;
  body_invite : string -> option InviteUserRequest;
  body_bulk : string -> option BulkActionRequest
}.

(** What a handler is given: what RequireAuth left in the context, the parameters of the
    path and the request. *)
Record Call := { cl_claims : option Claims; cl_param : string -> string; cl_http : HttpRequest }.

(** A handler is a program over the database, or over the memory of the job service. *)
Definition action : Type := prog Database Response + prog JobService Response.
Definition handler : Type := (Call -> prog Database Response) + (Call -> prog JobService Response).

Record Route := {
  rt_method : string;
  rt_pattern : string;
  rt_auth : bool;
  rt_handler : handler
}.

Definition path_of (rt : Route) : string * string := (rt_method rt, rt_pattern rt).

Definition request {B} (dec : string -> option B) (c : Call) : Request B :=
  {| claims := cl_claims c; urlParam := cl_param c; query := hr_query (cl_http c); body := dec (hr_Body (cl_http c)) |}.

(** The handler reads no body. *)
Definition no_body (_ : string) : option unit := None.

Definition serves {B} (dec : string -> option B) (f : Request B -> prog Database Response) : handler :=
  inl (fun c => f (request dec c)).
Definition reads (f : Request unit -> prog Database Response) : handler := serves no_body f.
Definition plain (p : prog Database Response) : handler := inl (fun _ => p).

(** [r.Get], [r.Post] and the like *)
Definition route (method pattern : string) (f : handler) : Route :=
  {| rt_method := method; rt_pattern := pattern; rt_auth := false; rt_handler := f |}.
Definition GET := route "GET".
Definition POST := route "POST".
Definition PATCH := route "PATCH".
Definition DELETE := route "DELETE".

(** [r.Route(prefix, ...)]: the patterns go below the prefix. *)
Definition mount (prefix : string) (l : list Route) : list Route :=
  map (fun r => {| rt_method := rt_method r; rt_pattern := prefix +:+ rt_pattern r; rt_auth := rt_auth r;
                   rt_handler := rt_handler r |}) l.

(** [r.Group(func(r) { r.Use(authService.RequireAuth); ... })] *)
Definition protected (l : list Route) : list Route :=
  map (fun r => {| rt_method := rt_method r; rt_pattern := rt_pattern r; rt_auth := true;
                   rt_handler := rt_handler r |}) l.

Section Api.
Context `{Server} `{Crypto} `{Driver} `{NumericRatio} `{Math} `{Bodies} (decode_message : string).

(** ** RegisterRoutes of the packages *)

Definition auth_routes : list Route :=
  [POST "/login" (serves body_login HandleLogin);
   POST "/forgot-password" (serves (body_field "email") HandleForgotPassword);
   POST "/reset-password" (serves body_reset HandleResetPassword);
   POST "/logout" (plain HandleLogout);
   GET "/me" (reads HandleMe)].

Definition organization_routes : list Route :=
  [GET "/locations" (reads HandleGetLocations);
   POST "/locations" (serves body_location HandleCreateLocation);
   GET "/designations" (reads HandleGetDesignations);
   POST "/designations" (serves body_designation Organization.HandleCreateDesignation);
   GET "/departments" (reads HandleGetDepartments);
   POST "/departments" (serves body_department HandleCreateDepartment)].

Definition employee_routes : list Route :=
  [GET "/" (reads HandleListEmployees);
   POST "/" (serves body_hire HandleCreateEmployee);
   GET "/export" (reads HandleExportCSV);
   GET "/stats" (plain HandleStats);
   GET "/{id}" (reads HandleGetEmployee);
   PATCH "/{id}" (serves body_update HandleUpdateEmployee);
   GET "/designations" (plain HandleListDesignations);
   POST "/designations" (serves body_grade Employee.HandleCreateDesignation)].

Definition workflow_routes : list Route :=
  [GET "/universal-approvals" (reads HandleGetUniversalApprovals);
   POST "/tasks/bulk-action" (serves body_bulk HandleBulkAction);
   POST "/tasks/{id}/approve" (reads HandleApproveTask);
   POST "/tasks/{id}/reject" (reads HandleRejectTask);
   GET "/hr-tasks" (plain HandleGetHRTasks);
   GET "/notifications" (plain HandleGetNotifications);
   POST "/notifications/mark-read" (plain HandleMarkNotificationsRead)].

(** RegisterPolicyRoutes and RegisterEncashmentRoutes *)
Definition policy_routes : list Route :=
  [GET "/policies" (plain HandleGetPolicies);
   POST "/policies" (serves body_policy HandleUpsertPolicy);
   POST "/accrue-batch" (reads HandleProcessBatchAccruals);
   GET "/accrual-logs" (plain HandleGetAccrualLogs)].
Definition encashment_routes : list Route :=
  [GET "/encashment" (plain HandleGetEncashments);
   POST "/encashment" (serves body_encashment HandleSubmitEncashment);
   POST "/encashment/review" (serves body_review HandleReviewEncashment)].
Definition leave_routes : list Route :=
  [GET "/types" (plain Leave.HandleGetTypes);
   GET "/balances" (reads HandleGetBalances);
   GET "/applications" (reads HandleGetApplications);
   POST "/applications" (serves body_leave HandleCreateApplication)] ++ policy_routes ++ encashment_routes.

(** RegisterExceptionRoutes and RegisterConfigRoutes *)
Definition exception_routes : list Route :=
  [GET "/exceptions" (reads HandleGetExceptions);
   POST "/exceptions/review" (serves body_exception HandleReviewException);
   POST "/exceptions/justification" (serves body_justification HandleSubmitJustification)].
Definition config_routes : list Route :=
  [GET "/config" (plain HandleGetRules);
   GET "/config/rules" (plain HandleGetRules);
   POST "/config/rules" (serves body_rules HandleUpdateRules);
   GET "/config/ip-allowlist" (plain HandleGetIPAllowlist);
   POST "/config/ip-allowlist" (serves body_allowlist HandleAddIPAllowlist);
   DELETE "/config/ip-allowlist/{id}" (reads HandleDeleteIPAllowlist);
   GET "/config/geofences" (plain HandleGetGeofences);
   POST "/config/geofences" (serves body_geofence HandleAddGeofence);
   POST "/biometric/sync" (serves body_biometric HandleBiometricSync)].
Definition attendance_routes : list Route :=
  [GET "/logs" (reads HandleGetLogs);
   POST "/check-in" (plain HandleCheckIn);
   POST "/check-out" (plain HandleCheckOut);
   POST "/regularize" (serves body_regularize HandleRegularize);
   POST "/punch" (serves body_punch HandlePunch);
   GET "/punch-status" (reads HandlePunchStatus);
   GET "/daily" (reads HandleDailyStatus);
   GET "/dashboard-metrics" (reads HandleDashboardMetrics);
   GET "/activities" (reads HandleGetActivities);
   GET "/monthly-summary" (reads HandleGetMonthlySummary);
   GET "/validation-queue" (reads HandleGetValidationQueue);
   POST "/validate-batch" (serves body_validation HandleBatchValidation)]
  ++ exception_routes ++ config_routes ++
  [POST "/requests" (serves body_attendance HandleSubmitRequest);
   GET "/requests/me" (reads HandleMyRequests);
   GET "/requests/pending" (reads HandlePendingApprovals);
   POST "/requests/{id}/approve" (reads HandleApproveRequest);
   POST "/requests/{id}/reject" (reads HandleRejectRequest)].

(** RegisterMatrixRoutes *)
Definition matrix_routes : list Route :=
  [GET "/currencies" (plain HandleGetCurrencies);
   POST "/currencies" (serves body_currency HandleUpdateCurrency);
   GET "/components" (plain HandleGetComponents);
   POST "/calculate-preview" (serves body_preview HandleCalculatePreview);
   POST "/structures" (serves body_structure HandleSaveStructure);
   GET "/structures/{employee_id}" (reads HandleGetStructure)].
Definition payroll_routes : list Route :=
  [GET "/runs" (reads HandleGetRuns);
   POST "/runs/process" (serves body_process HandleProcessPayroll);
   POST "/runs/{id}/transition" (serves (body_field "action") HandleTransitionState);
   GET "/runs/{id}/readiness" (reads HandleGetRunReadiness);
   GET "/readiness" (reads HandleGetReadiness);
   GET "/advances" (reads HandleGetAdvances);
   POST "/advances" (serves body_advance HandleCreateAdvance);
   POST "/advances/{id}/approve" (reads HandleApproveAdvance);
   GET "/payslips" (reads HandleGetPayslips);
   GET "/payslips/{id}" (reads HandleGetPayslipDetails)] ++ matrix_routes.

Definition recruitment_routes : list Route :=
  [GET "/jobs" (plain HandleGetJobs);
   GET "/candidates" (plain HandleGetCandidates);
   POST "/offers" (serves body_offer HandleCreateOffer)].

Definition lifecycle_routes : list Route :=
  [GET "/probation-due" (plain HandleGetProbationDue);
   GET "/employees/{id}/timeline" (reads HandleGetEmployeeTimeline);
   POST "/exits" (plain HandleSubmitResignation);
   GET "/exits" (plain HandleListExits);
   POST "/exits/{id}/approve" (plain HandleApproveExit);
   GET "/exits/{id}/clearance" (plain HandleGetClearance)].

Definition reports_routes : list Route :=
  [GET "/dashboard" (reads HandleGetDashboardData);
   GET "/data-quality" (plain HandleGetDataQuality);
   GET "/export" (reads HandleExportReport)].

Definition helpdesk_routes : list Route :=
  [GET "/categories" (plain HandleGetCategories);
   POST "/categories" (serves body_category HandleCreateCategory);
   GET "/tickets" (plain HandleGetTickets);
   POST "/tickets" (serves body_ticket HandleCreateTicket);
   GET "/tickets/{id}" (reads HandleGetTicketDetails);
   POST "/tickets/{id}/comments" (serves (body_field "comment") HandleAddComment);
   POST "/tickets/{id}/transition" (serves body_action HandleTransitionTicket)].

Definition security_routes : list Route :=
  [GET "/access-logs" (reads HandleGetAccessLogs);
   POST "/log-access" (inl (fun c =>
     HandleLogAccess (request body_access c) (hr_RemoteAddr (cl_http c)) (hr_UserAgent (cl_http c))));
   GET "/rbac-matrix" (plain HandleGetRbacMatrix)].

Definition user_routes : list Route :=
  [GET "/" (reads HandleListUsers);
   POST "/" (serves body_account HandleCreateUser);
   POST "/invite" (serves body_invite HandleInviteUser);
   GET "/roles" (plain HandleListRoles);
   POST "/{id}/suspend" (reads HandleSuspendUser);
   POST "/{id}/activate" (reads HandleActivateUser);
   PATCH "/{id}/role" (serves (body_field "role") HandleUpdateRole);
   DELETE "/{id}" (reads HandleDeleteUser)].

Definition document_routes : list Route :=
  [GET "/types" (plain Document.HandleGetTypes);
   POST "/types" (serves body_doctype HandleCreateType);
   GET "/employees/{id}" (reads HandleGetEmployeeDocuments);
   PATCH "/{id}/verify" (plain HandleVerifyDocument)].

Definition importer_routes : list Route :=
  [POST "/upload" (serves body_upload HandleUpload);
   GET "/batches" (plain HandleGetBatches);
   GET "/batches/{id}" (reads HandleGetBatchDetail);
   POST "/batches/{id}/process" (reads HandleProcessBatch)].

Definition onboarding_routes : list Route :=
  [GET "/templates" (plain HandleGetTemplates);
   POST "/templates" (serves body_template HandleCreateTemplate);
   POST "/templates/{id}/tasks" (serves body_task HandleCreateTemplateTask);
   GET "/instances" (plain HandleGetInstances);
   GET "/instances/{id}" (reads HandleGetInstanceDetail);
   PATCH "/instances/{id}/tasks/{taskId}" (plain HandleCompleteTask)].

Definition performance_routes : list Route :=
  [GET "/cycles" (plain HandleGetCycles);
   POST "/cycles" (serves body_cycle (HandleCreateCycle decode_message));
   GET "/goals" (plain HandleGetGoals);
   POST "/goals" (serves body_goal (HandleCreateGoal decode_message));
   PATCH "/goals/{id}" (serves body_progress (HandleUpdateGoal decode_message));
   GET "/reviews" (plain HandleGetReviews);
   POST "/reviews" (serves body_appraisal (HandleSaveReview decode_message));
   GET "/pip" (plain HandleGetPipPlans);
   POST "/pip" (serves body_pip (HandleCreatePipPlan decode_message))].

Definition jobs_routes : list Route :=
  [POST "/trigger" (inr (fun c => HandleTriggerJob (request body_job c)));
   GET "/history" (inr (fun _ => HandleGetJobHistory))].

(** ** main.go *)

Definition health : Response :=
  {| status := StatusOK; ctype := "application/json";
     content := BText ("{" +:+ quoted "status" +:+ ":" +:+ quoted "ok" +:+ "}") |}.
Definition pong : Response :=
  {| status := StatusOK; ctype := "text/plain; charset=utf-8"; content := BText "pong" |}.

Definition session_routes : list Route :=
  protected [GET "/auth/me" (reads HandleMe); POST "/auth/logout" (plain HandleLogout)].

Definition module_routes : list Route :=
  protected
    (mount "/organization" organization_routes ++ mount "/employees" employee_routes
     ++ mount "/workflows" workflow_routes ++ mount "/workflow" workflow_routes
     ++ mount "/leave" leave_routes ++ mount "/attendance" attendance_routes
     ++ mount "/payroll" payroll_routes ++ mount "/recruitment" recruitment_routes
     ++ mount "/lifecycle" lifecycle_routes ++ mount "/reports" reports_routes
     ++ mount "/helpdesk" helpdesk_routes ++ mount "/security" security_routes
     ++ mount "/users" user_routes ++ mount "/documents" document_routes
     ++ mount "/import" importer_routes ++ mount "/onboarding" onboarding_routes
     ++ mount "/performance" performance_routes ++ mount "/jobs" jobs_routes).

Definition api_routes : list Route :=
  GET "/health" (plain (Ret health))
  :: mount "/api/v1" (GET "/ping" (plain (Ret pong)) :: mount "/auth" auth_routes ++ session_routes ++ module_routes).

(** Tokens expire by the clock in microseconds; that of the job service is in
    nanoseconds. *)
Definition guarded {D} (unit_us : Z) (auth : bool) (f : Call -> prog D Response) (param : string -> string)
  (h : HttpRequest) : prog D Response :=
  let call c := f {| cl_claims := c; cl_param := param; cl_http := h |} in
  if auth then
    t <- now;
    match RequireAuth (hr_Authorization h) (t / unit_us) with
    | inl resp => Ret resp
    | inr ctx => call (Some (ctx_claims ctx))
    end
  else call None.

Definition serve (rt : Route) (param : string -> string) (h : HttpRequest) : action :=
  match rt_handler rt with
  | inl f => inl (guarded 1 (rt_auth rt) f param h)
  | inr f => inr (guarded 1000 (rt_auth rt) f param h)
  end.
End Api.

(** The router of chi: the position of the route for a method and a path with the
    parameters of the path, and its own answer when there is none. *)
Class Mux := {
  match_route : list (string * string) -> string -> string -> option (nat * (string -> string));
  unmatched : HttpRequest -> Response
}.

Record App := { app_db : Database; app_jobs : JobService }.

(** The clock of [E] has the unit of the component that serves the request. *)
Definition run_action (E : Env) (a : action) (n : nat) (x : App) : outcome Response * nat * App :=
  match a with
  | inl p => let '(o, m, d) := run E p n (app_db x) in (o, m, {| app_db := d; app_jobs := app_jobs x |})
  | inr p => let '(o, m, s) := run E p n (app_jobs x) in (o, m, {| app_db := app_db x; app_jobs := s |})
  end.

Section Server.
Context `{Server} `{C : Crypto} `{Driver} `{NumericRatio} `{Math} `{Bodies} `{Mux} (decode_message : string).

Definition find_route (h : HttpRequest) : option (Route * (string -> string)) :=
  let routes := api_routes decode_message in
  found ← match_route (map path_of routes) (hr_Method h) (hr_Path h);
  rt ← routes !! (fst found); Some (rt, snd found).

Definition run_api (E : Env) (h : HttpRequest) (n : nat) (x : App) : outcome Response * nat * App :=
  match find_route h with
  | None => (Done (unmatched h), n, x)
  | Some (rt, param) => run_action E (serve rt param h) n x
  end.
End Server.
