(* ===== verification/ApiProps.v ===== *)
(** * cmd/api: theorems

    What needs a token, what a token opens, and the routes that do not look at the
    caller. Each theorem holds for every router that answers a request with one of the
    registered routes or with an answer of its own. *)

From stdpp Require Import gmap.
From S2P Require Import Prelude Float64 Go Sql Schema Auth AttendanceAdmin AttendanceReports Employee Api.

#[local] Open Scope Z_scope.

Section Server.
Context `{Server} `{C : Crypto} `{Driver} `{NumericRatio} `{Math} `{Bodies} `{Mux} (decode_message : string).

#[local] Abbreviation api_routes := (api_routes decode_message).
#[local] Abbreviation find_route := (find_route decode_message).
#[local] Abbreviation run_api := (run_api decode_message).

(** What is reached without a token. *)
Definition public_paths : list (string * string) :=
  [("GET", "/health"); ("GET", "/api/v1/ping"); ("POST", "/api/v1/auth/login");
   ("POST", "/api/v1/auth/forgot-password"); ("POST", "/api/v1/auth/reset-password");
   ("POST", "/api/v1/auth/logout"); ("GET", "/api/v1/auth/me")].

Definition protects (rt : Route) : bool := rt_auth rt || bool_decide (path_of rt ∈ public_paths).

Lemma routes_protected rt : rt ∈ api_routes -> path_of rt ∉ public_paths -> rt_auth rt = true.
Proof.
  intros Hrt Hp. assert (Hr : protects rt = true) by (apply (forallb_elem _ api_routes); [by vm_compute|done]).
  unfold protects in Hr. by rewrite bool_decide_eq_false_2, Bool.orb_false_r in Hr.
Qed.

Lemma find_route_elem h rt param : find_route h = Some (rt, param) -> rt ∈ api_routes.
Proof.
  unfold find_route. intros ((i & p) & _ & (r & Hr & [= <- <-])%bind_Some)%bind_Some. by eapply list_elem_of_lookup_2.
Qed.

Definition clock_unit (rt : Route) : Z := match rt_handler rt with inl _ => 1 | inr _ => 1000 end.

Lemma refused_401 hdr t resp : RequireAuth hdr t = inl resp -> status resp = StatusUnauthorized.
Proof. unfold RequireAuth, unauthorized_text. intros Hr. repeat case_match; by simplify_eq. Qed.

(** C23: a request without a valid token to any route apart from the seven public ones
    is answered 401 and reaches no handler: neither the database nor the memory of the
    job service is read or written. *)
Theorem unauthenticated_requests_stopped E h n x rt param resp :
  find_route h = Some (rt, param) -> path_of rt ∉ public_paths ->
  RequireAuth (hr_Authorization h) (env_clock E n / clock_unit rt) = inl resp ->
  run_api E h n x = (Done resp, S n, x) /\ status resp = StatusUnauthorized.
Proof.
  intros Hf Hp Hr. split; [|by eapply refused_401].
  pose proof (routes_protected rt (find_route_elem _ _ _ Hf) Hp) as Ha.
  unfold run_api, serve, clock_unit in *. rewrite Hf, Ha. destruct x as [d s].
  destruct (rt_handler rt); unfold run_action, guarded; simpl; by rewrite Hr.
Qed.

(** ** Routes that do not look at the caller *)

(** Every employee may use them, whatever the roles. *)
Definition open_paths : list (string * string) :=
  [("GET", "/api/v1/helpdesk/tickets"); ("GET", "/api/v1/helpdesk/tickets/{id}");
   ("GET", "/api/v1/payroll/structures/{employee_id}"); ("GET", "/api/v1/payroll/advances");
   ("GET", "/api/v1/leave/encashment"); ("GET", "/api/v1/leave/accrual-logs");
   ("GET", "/api/v1/attendance/logs"); ("GET", "/api/v1/attendance/daily");
   ("GET", "/api/v1/lifecycle/employees/{id}/timeline");
   ("POST", "/api/v1/organization/locations"); ("POST", "/api/v1/organization/designations");
   ("POST", "/api/v1/organization/departments"); ("POST", "/api/v1/employees/designations");
   ("POST", "/api/v1/onboarding/templates"); ("POST", "/api/v1/onboarding/templates/{id}/tasks");
   ("POST", "/api/v1/import/upload"); ("GET", "/api/v1/import/batches"); ("GET", "/api/v1/import/batches/{id}");
   ("POST", "/api/v1/import/batches/{id}/process")].

(** The program of a handler does not depend on the claims. *)
Definition ignores_caller (f : handler) : Prop :=
  match f with
  | inl f => forall c c' param h, f {| cl_claims := c; cl_param := param; cl_http := h |}
                                  = f {| cl_claims := c'; cl_param := param; cl_http := h |}
  | inr f => forall c c' param h, f {| cl_claims := c; cl_param := param; cl_http := h |}
                                  = f {| cl_claims := c'; cl_param := param; cl_http := h |}
  end.

Lemma open_routes_ignore_caller rt : rt ∈ api_routes -> path_of rt ∈ open_paths ->
  ignores_caller (rt_handler rt).
Proof.
  intros Hrt Hp.
  assert (Hall : Forall (fun rt => path_of rt ∈ open_paths -> ignores_caller (rt_handler rt)) api_routes).
  { repeat (apply Forall_cons; split;
      [first [ intros _ c c' param h; reflexivity
             | intros Hin; exfalso; revert Hin; apply (bool_decide_unpack _); by vm_compute]|]). apply Forall_nil_2. }
  by apply (proj1 (Forall_forall _ _) Hall).
Qed.

Definition with_authorization (hdr : string) (h : HttpRequest) : HttpRequest :=
  {| hr_Method := hr_Method h; hr_Path := hr_Path h; hr_Authorization := hdr; hr_query := hr_query h;
     hr_Body := hr_Body h; hr_RemoteAddr := hr_RemoteAddr h; hr_UserAgent := hr_UserAgent h |}.

(** The handlers see the token through the claims only. *)
Lemma handlers_ignore_header rt hdr c param h : rt ∈ api_routes ->
  match rt_handler rt with
  | inl f => f {| cl_claims := c; cl_param := param; cl_http := with_authorization hdr h |}
             = f {| cl_claims := c; cl_param := param; cl_http := h |}
  | inr f => f {| cl_claims := c; cl_param := param; cl_http := with_authorization hdr h |}
             = f {| cl_claims := c; cl_param := param; cl_http := h |}
  end.
Proof.
  intros Hrt. set (P := fun rt : Route => match rt_handler rt with
    | inl f => f {| cl_claims := c; cl_param := param; cl_http := with_authorization hdr h |}
               = f {| cl_claims := c; cl_param := param; cl_http := h |}
    | inr f => f {| cl_claims := c; cl_param := param; cl_http := with_authorization hdr h |}
               = f {| cl_claims := c; cl_param := param; cl_http := h |}
    end).
  assert (Hall : Forall P api_routes)
    by (repeat (apply Forall_cons; split; [reflexivity|]); apply Forall_nil_2).
  by apply (proj1 (Forall_forall _ _) Hall rt).
Qed.

(** On the routes of [open_paths] every account has the rights of an administrator:
    whoever's valid token it carries, a request has the same answer and effect, be it to
    read the tickets, the advances and the salary structures of others, or to stage and
    process an import of accounts. *)
Theorem open_routes_serve_everybody E h hdr ctx ctx' n x rt param :
  find_route h = Some (rt, param) -> path_of rt ∈ open_paths ->
  RequireAuth (hr_Authorization h) (env_clock E n / clock_unit rt) = inr ctx ->
  RequireAuth hdr (env_clock E n / clock_unit rt) = inr ctx' ->
  run_api E (with_authorization hdr h) n x = run_api E h n x.
Proof.
  intros Hf Hp Ha Hb. pose proof (find_route_elem _ _ _ Hf) as Hrt.
  pose proof (open_routes_ignore_caller rt Hrt Hp) as Hi.
  pose proof (fun c => handlers_ignore_header rt hdr c param h Hrt) as Hh.
  assert (Hf' : find_route (with_authorization hdr h) = Some (rt, param)) by done.
  unfold run_api. rewrite Hf, Hf'. unfold serve, clock_unit, ignores_caller in *.
  destruct (rt_handler rt) as [f|f]; unfold run_action, guarded; destruct (rt_auth rt); cbn [run bind now];
    try (by rewrite Hh); simpl; rewrite Ha, Hb, Hh, (Hi _ (Some (ctx_claims ctx))); done.
Qed.

(** ** Sessions *)

(** What a route does for an authenticated caller. *)
Definition handle (rt : Route) (c : Claims) (param : string -> string) (h : HttpRequest) : action :=
  let call := {| cl_claims := Some c; cl_param := param; cl_http := h |} in
  match rt_handler rt with inl f => inl (f call) | inr f => inr (f call) end.

Lemma serve_authenticated E rt param h ctx n x : rt_auth rt = true ->
  RequireAuth (hr_Authorization h) (env_clock E n / clock_unit rt) = inr ctx ->
  run_action E (serve rt param h) n x = run_action E (handle rt (ctx_claims ctx) param h) (S n) x.
Proof.
  unfold serve, handle, clock_unit. intros ->. destruct (rt_handler rt); intros Hr; unfold run_action, guarded;
    simpl; by rewrite Hr.
Qed.

Definition login_path : string * string := ("POST", "/api/v1/auth/login").

Lemma login_route rt param h : rt ∈ api_routes -> path_of rt = login_path ->
  serve rt param h = inl (HandleLogin (request body_login {| cl_claims := None; cl_param := param; cl_http := h |})).
Proof.
  intros Hrt Hp. set (P := fun rt => path_of rt = login_path -> serve rt param h
    = inl (HandleLogin (request body_login {| cl_claims := None; cl_param := param; cl_http := h |}))).
  assert (Hall : Forall P api_routes).
  { repeat (apply Forall_cons; split; [unfold P; first [intros _; reflexivity | intros Hx; exfalso; discriminate Hx]|]).
    apply Forall_nil_2. }
  by apply (proj1 (Forall_forall _ _) Hall rt).
Qed.

(** C22: a login opens a session: with the token of its response every request to a
    protected route is served, during 24 hours (in whole seconds), with the claims of
    the account that logged in and the roles that the response shows. *)
Theorem login_opens_session `{!CryptoLaws C} E hl n x rtl pl resp tok t0 :
  find_route hl = Some (rtl, pl) -> path_of rtl = login_path ->
  reply (run_api E hl n x) = Some resp -> field "token" resp = Some (JStr tok) -> tok <> "" ->
  (forall k, (n <= k)%nat -> t0 <= env_clock E k) ->
  exists req c, body_login (hr_Body hl) = Some req /\ Email c = lr_email req
  /\ Scope c = GetScopeForRoles (Roles c) /\ resp = login_ok tok (UserID c) (Email c) (Roles c)
  /\ (ascii_claims c -> forall E' h n' x' rt param,
       find_route h = Some (rt, param) -> path_of rt ∉ public_paths -> hr_Authorization h = "Bearer " +:+ tok ->
       env_clock E' n' / clock_unit rt < second * ((t0 + 24 * hour) / second) ->
       run_api E' h n' x' = run_action E' (handle rt c param h) (S n') x').
Proof.
  intros Hf Hp Hr Htok Hne Ht0. unfold run_api in Hr. rewrite Hf in Hr.
  rewrite (login_route rtl pl hl (find_route_elem _ _ _ Hf) Hp) in Hr. unfold run_action in Hr.
  set (r := request body_login _) in Hr.
  destruct (login_token E r n (app_db x) resp tok) as (req & userID & roles & k & iat & Hb & Hk & -> & Hs); [|done|done|].
  { destruct (run E (HandleLogin r) n (app_db x)) as [[o m] d]. exact Hr. }
  exists req, {| UserID := userID; Email := lr_email req; Roles := roles; Scope := GetScopeForRoles roles |}.
  split_and!; [exact Hb|done|done|done|]. intros Hascii E' h n' x' rt param Hf' Hp' Hh Ht.
  set (c := {| UserID := userID |}) in *. unfold run_api. rewrite Hf'.
  assert (Hle : second * ((t0 + 24 * hour) / second) <= second * ((env_clock E k + 24 * hour) / second)).
  { apply Z.mul_le_mono_nonneg_l; [done|]. apply Z.div_le_mono; [done|]. specialize (Ht0 k Hk). lia. }
  rewrite (serve_authenticated E' rt param h {| ctx_claims := c; ctx_scope := Scope c |}); [done| |].
  - by apply (routes_protected rt), Hp'; eapply find_route_elem.
  - rewrite Hh. eapply token_authenticates; [done|done|exact Hs|]. unfold second in *. lia.
Qed.
End Server.
