(* ===== verification/References.v ===== *)
(** * References between the tables

    The foreign keys of the migrations as an invariant of the database, and the rules by
    which the statements keep it: a row that is added refers to rows that are there, an
    update keeps the keys, and the deletion of a user leaves no row that names it. *)

From stdpp Require Import gmap.
From S2P Require Import Prelude Float64 Go Sql Tx Schema.

#[local] Open Scope Z_scope.

(** ** The keys and the foreign keys *)

(** The column that other tables refer to. *)
Definition key (t : tbl) : row t -> option string :=
  match t with
  | T_organizations => fun r => Some (org_id r)
  | T_users => fun r => Some (usr_id r)
  | T_roles => fun r => Some (rol_id r)
  | T_departments => fun r => Some (dep_id r)
  | T_designations => fun r => Some (des_id r)
  | T_locations => fun r => Some (loc_id r)
  | T_employees => fun r => Some (emp_id r)
  | T_payroll_runs => fun r => Some (run_id r)
  | T_currencies => fun r => Some (cur_code r)
  | T_leave_types => fun r => Some (lty_id r)
  | T_helpdesk_categories => fun r => Some (hdc_id r)
  | T_helpdesk_tickets => fun r => Some (hdt_id r)
  | T_import_batches => fun r => Some (imb_id r)
  | T_document_types => fun r => Some (dct_id r)
  | T_onboarding_templates => fun r => Some (obt_id r)
  | _ => fun _ => None
  end.

Definition nullable (p : string -> bool) (o : option string) : bool := match o with Some k => p k | None => true end.

(** The foreign keys of a row, [known] being the keys that exist. *)
Definition linked (known : tbl -> string -> bool) (t : tbl) : row t -> bool :=
  match t with
  | T_user_roles => fun r => known T_users (uro_user_id r) && known T_roles (uro_role_id r)
  | T_departments => fun r => known T_organizations (dep_organization_id r)
  | T_designations => fun r => known T_organizations (des_organization_id r)
  | T_employees => fun r =>
      nullable (known T_users) (emp_user_id r) && nullable (known T_departments) (emp_department_id r)
      && nullable (known T_designations) (emp_designation_id r) && nullable (known T_locations) (emp_location_id r)
      && nullable (known T_employees) (emp_manager_id r) && nullable (known T_employees) (emp_reporting_manager_id r)
  | T_employee_personal_details => fun r => known T_employees (per_employee_id r)
  | T_employee_statutory_details => fun r => known T_employees (sta_employee_id r)
  | T_audit_logs => fun r => known T_users (aud_user_id r)
  | T_payroll_runs => fun r =>
      known T_organizations (run_organization_id r) && nullable (known T_users) (run_processed_by r)
      && nullable (known T_users) (run_approved_by r)
  | T_payslips => fun r => known T_payroll_runs (slp_payroll_run_id r) && known T_employees (slp_employee_id r)
  | T_payroll_advances => fun r => known T_employees (adv_employee_id r) && nullable (known T_users) (adv_approved_by r)
  | T_employee_salary_structures => fun r => known T_employees (ess_employee_id r) && known T_currencies (ess_currency_code r)
  | T_attendance_raw_logs => fun r => known T_employees (raw_employee_id r)
  | T_attendance_daily_status => fun r =>
      known T_employees (day_employee_id r) && nullable (known T_users) (day_validated_by r)
  | T_attendance_exceptions => fun r =>
      known T_employees (exc_employee_id r) && nullable (known T_users) (exc_reviewed_by r)
  | T_leave_balances => fun r => known T_employees (bal_employee_id r) && known T_leave_types (bal_leave_type_id r)
  | T_leave_applications => fun r => known T_employees (lap_employee_id r) && known T_leave_types (lap_leave_type_id r)
  | T_leave_policies => fun r => known T_leave_types (pol_leave_type_id r)
  | T_leave_accrual_logs => fun r => known T_employees (acc_employee_id r) && known T_leave_types (acc_leave_type_id r)
  | T_leave_encashment_requests => fun r =>
      known T_employees (enc_employee_id r) && known T_leave_types (enc_leave_type_id r)
      && nullable (known T_users) (enc_approved_by r)
  | T_regularization_requests => fun r => known T_employees (reg_employee_id r)
  | T_helpdesk_tickets => fun r =>
      known T_employees (hdt_employee_id r) && known T_helpdesk_categories (hdt_category_id r)
      && nullable (known T_users) (hdt_assigned_to r)
  | T_helpdesk_ticket_comments => fun r => known T_helpdesk_tickets (hdm_ticket_id r) && known T_users (hdm_user_id r)
  | T_data_access_logs => fun r => known T_users (dal_user_id r)
  | T_import_batches => fun r => known T_organizations (imb_organization_id r) && known T_users (imb_user_id r)
  | T_import_rows => fun r =>
      known T_import_batches (imr_batch_id r) && nullable (known T_employees) (imr_created_employee_id r)
  | T_employee_lifecycle_events => fun r =>
      known T_employees (evt_employee_id r) && nullable (known T_users) (evt_created_by r)
  | T_od_requests => fun r => known T_employees (odr_employee_id r)
  | T_wfh_requests => fun r => known T_employees (wfh_employee_id r)
  | T_exit_requests => fun r => known T_employees (exr_employee_id r)
  | T_attendance_logs => fun r => known T_employees (atl_employee_id r)
  | T_employee_documents => fun r => known T_employees (doc_employee_id r) && known T_document_types (doc_document_type_id r)
  | T_onboarding_instances => fun r =>
      known T_employees (obi_employee_id r) && nullable (known T_onboarding_templates) (obi_template_id r)
  | T_locations => fun r => known T_organizations (loc_organization_id r)
  | T_onboarding_templates => fun r => known T_organizations (obt_organization_id r)
  | _ => fun _ => true
  end.

Definition has (d : Database) (t : tbl) (k : string) : bool :=
  existsb (fun r => opt_is (key t r) k) (tget (tab t) d).

(** Every foreign key names a row that exists. *)
Definition refs_hold (d : Database) : Prop := forall t, Forall (fun r => linked (has d) t r = true) (tget (tab t) d).

Definition refs_kept : relation Database := fun d d' => refs_hold d -> refs_hold d'.

#[export] Instance refs_kept_preorder : PreOrder refs_kept.
Proof. split; unfold refs_kept; [by intros d|intros d1 d2 d3; auto]. Qed.

(** ** Rules *)

Lemma linked_mono (known known' : tbl -> string -> bool) t r :
  (forall u k, known u k = true -> known' u k = true) -> linked known t r = true -> linked known' t r = true.
Proof.
  intros Hk. assert (Hn : forall u o, nullable (known u) o = true -> nullable (known' u) o = true).
  { intros u [k|]; [apply Hk|done]. }
  destruct t; simpl; try done; rewrite ?andb_true_iff; naive_solver.
Qed.

Lemma has_spec d t k : has d t k = true <-> exists r, r ∈ tget (tab t) d /\ key t r = Some k.
Proof.
  unfold has. rewrite existsb_exists. split; intros (r & Hr & Hk); exists r; apply list_elem_of_In in Hr || apply list_elem_of_In;
  (split; [done|]); by apply opt_is_spec.
Qed.

(** The rows of a table are written: no key is lost, and the rows refer to old ones. *)
Lemma refs_put t l d :
  (forall r, r ∈ tget (tab t) d -> exists r', r' ∈ l /\ (key t r' = key t r \/ key t r = None)) ->
  (refs_hold d -> Forall (fun r => linked (has d) t r = true) l) -> refs_kept d (tput (tab t) l d).
Proof.
  intros Hkeys Hl Hd.
  assert (Hm : forall u k, has d u k = true -> has (tput (tab t) l d) u k = true).
  { intros u k [r [Hr Hk]]%has_spec. apply has_spec. destruct (decide (t = u)) as [<-|Hne].
    - rewrite tget_tput. destruct (Hkeys r Hr) as (r' & Hr' & [E|E]); [exists r'; by rewrite E|congruence].
    - rewrite (tab_indep t u Hne). by exists r. }
  intros u. apply (Forall_impl (fun r => linked (has d) u r = true)); [|intros r; by apply linked_mono].
  destruct (decide (t = u)) as [<-|Hne]; [rewrite tget_tput; auto|rewrite (tab_indep t u Hne); apply Hd].
Qed.

Lemma refs_app t r d : (refs_hold d -> linked (has d) t r = true) -> refs_kept d (tput (tab t) (tget (tab t) d ++ [r]) d).
Proof.
  intros Hr. apply refs_put.
  - intros x Hx. exists x. split; [by apply elem_of_app; left|by left].
  - intros Hd. apply Forall_app. split; [apply Hd|by apply Forall_singleton; auto].
Qed.

Lemma refs_set_where t p f d :
  (forall r, r ∈ tget (tab t) d -> p r = true ->
    key t (f r) = key t r /\ (linked (has d) t r = true -> linked (has d) t (f r) = true)) ->
  refs_kept d (tput (tab t) (set_where p f (tget (tab t) d)) d).
Proof.
  intros Hf. unfold set_where. apply refs_put.
  - intros r Hr. exists (if p r then f r else r).
    split; [apply list_elem_of_fmap; by exists r|]. left. destruct (p r) eqn:E; [by apply Hf|done].
  - intros Hd. apply Forall_map. specialize (Hd t). rewrite Forall_forall in Hd |- *. intros r Hr. specialize (Hd r Hr).
    simpl. destruct (p r) eqn:E; [by apply Hf|done].
Qed.

(** Nothing refers to the rows that go. *)
Lemma refs_where t p d : (forall r, key t r = None) -> refs_kept d (tput (tab t) (where_ p (tget (tab t) d)) d).
Proof.
  intros Hk Hd. assert (Hh : forall u k, has d u k = true -> has (tput (tab t) (where_ p (tget (tab t) d)) d) u k = true).
  { intros u k [r [Hr Hrk]]%has_spec. apply has_spec. destruct (decide (t = u)) as [<-|Hne]; [by rewrite Hk in Hrk|].
    rewrite (tab_indep t u Hne). by exists r. }
  intros u. apply (Forall_impl (fun r => linked (has d) u r = true)); [|intros r; by apply linked_mono].
  specialize (Hd u). destruct (decide (t = u)) as [<-|Hne]; [|by rewrite (tab_indep t u Hne)].
  rewrite tget_tput. rewrite Forall_forall in Hd |- *. intros r Hr. apply Hd.
  unfold where_ in Hr. by apply list_elem_of_In, filter_In, proj1, list_elem_of_In in Hr.
Qed.

(** ** Automation *)

(** A row that an update takes has passed its check. *)
Lemma checked_row {A} (chk : A -> option string) p l r :
  Forall (fun r => chk r = None) (where_ p l) -> r ∈ l -> p r = true -> chk r = None.
Proof.
  rewrite Forall_forall. intros H Hr Hp. apply H. unfold where_. apply list_elem_of_In, filter_In.
  by rewrite <- list_elem_of_In.
Qed.

(** A row that a query of the statement found. *)
Lemma has_head t d r k : head (tget (tab t) d) = Some r -> key t r = Some k -> has d t k = true.
Proof. intros Hr Hk. apply has_spec. exists r. split; [|done]. destruct (tget (tab t) d); [done|]. injection Hr as ->. by left. Qed.

Lemma has_cons t d r l k : tget (tab t) d = r :: l -> key t r = Some k -> has d t k = true.
Proof. intros Hr. apply has_head. by rewrite Hr. Qed.

Lemma has_find t d p r k : List.find p (tget (tab t) d) = Some r -> key t r = Some k -> has d t k = true.
Proof. intros [Hr _]%find_some Hk. apply has_spec. exists r. split; [by apply list_elem_of_In|done]. Qed.

(** The tests of a statement, in the hypotheses. *)
Ltac tests :=
  repeat match goal with H : context [(if ?b then _ else _)] |- _ => destruct b eqn:?; [try discriminate|try discriminate] end;
  repeat match goal with H : context [match ?x with _ => _ end] |- _ => destruct x eqn:?; try discriminate end;
  simplify_eq; bool_prop.

(** The checks of a statement are the foreign keys of its row, up to the definition of
    [has]. *)
Ltac refs_linked :=
  cbn [linked nullable]; repeat case_match; repeat (apply andb_true_intro; split); 
  first [exact eq_refl | assumption | eapply has_head; [eassumption|reflexivity]
  | eapply has_cons; [eassumption|reflexivity] | eapply has_find; [eassumption|reflexivity]].

Ltac refs_updated :=
  let r := fresh "r" in let Hr := fresh "Hr" in let Hp := fresh "Hp" in let Hl := fresh "Hl" in
  intros r Hr Hp; split; [first [done | cbn [key]; cbv beta in *; bool_prop; repeat case_match; simpl in *; congruence]|intros Hl];
  try match goal with H : Forall _ (where_ _ _) |- _ => pose proof (checked_row _ _ _ _ H Hr Hp); clear H end;
  cbv beta in *; cbn [linked] in Hl |- *; try exact Hl; tests; try refs_linked.

(** The obligations of a write, after the checks of its statement. *)
Ltac refs_rows :=
  intros; try match goal with H : _ = Ok _ |- _ => revert H; intros H; tests end;
  first
  [ apply refs_app; intros _; refs_linked
  | apply refs_set_where; refs_updated
  | apply refs_where; done
  | idtac ].
