(* ===== verification/History.v ===== *)
(** * What no request may undo

    The records that the whole server only ever adds to, as a relation between the
    databases before and after, with the rules by which the statements and the
    transactions of the handlers respect it. *)

From stdpp Require Import gmap.
From S2P Require Import Prelude Float64 Go Sql Tx Schema References.

#[local] Open Scope Z_scope.
#[local] Open Scope prog_scope.

(** ** Relations between the rows of a table *)

(** The rows of the old table are the first of the new one, up to [key]: none is lost
    or moved, and [key] of none is changed. *)
Definition grows {A K} (key : A -> K) : relation (list A) := fun l l' => map key l `prefix_of` map key l'.

(** No two rows have the same [key], if none had. *)
Definition stays_unique {A K} (key : A -> K) : relation (list A) := fun l l' => NoDup (map key l) -> NoDup (map key l').

Definition both {A} (Q Q' : relation A) : relation A := fun x y => Q x y /\ Q' x y.

#[export] Instance grows_preorder {A K} (key : A -> K) : PreOrder (grows key).
Proof. split; unfold grows; [intros l; reflexivity|intros x y z; apply transitivity]. Qed.

#[export] Instance stays_unique_preorder {A K} (key : A -> K) : PreOrder (stays_unique key).
Proof. split; unfold stays_unique; repeat intro; auto. Qed.

#[export] Instance both_preorder {A} (Q Q' : relation A) `{!PreOrder Q} `{!PreOrder Q'} : PreOrder (both Q Q').
Proof.
  split; unfold both; [by intros x; split|]. intros x y z [H1 H2] [H3 H4]. split; by etransitivity.
Qed.

Section Rows.
Context {A K : Type} (key : A -> K).
Implicit Types (l : list A).

Lemma grows_app l r : grows key l (l ++ [r]).
Proof. unfold grows. rewrite map_app. by apply prefix_app_r. Qed.

Lemma grows_set_where p f l : (forall r, p r = true -> key (f r) = key r) -> grows key l (set_where p f l).
Proof. intros Hf. unfold grows. by rewrite map_set_where. Qed.

Lemma stays_unique_set_where p f l :
  (forall r, p r = true -> key (f r) = key r) -> stays_unique key l (set_where p f l).
Proof. intros Hf. unfold stays_unique. by rewrite map_set_where. Qed.

Lemma stays_unique_app l r : Forall (fun x => key x <> key r) l -> stays_unique key l (l ++ [r]).
Proof.
  intros Hl Hnd. rewrite map_app. apply NoDup_app. split_and!; [done| |apply NoDup_singleton].
  intros k Hk ->%list_elem_of_singleton. apply list_elem_of_fmap_1 in Hk as (x & E & Hx).
  rewrite Forall_forall in Hl. by apply (Hl x).
Qed.

Lemma stays_unique_where p l : stays_unique key l (where_ p l).
Proof.
  intros Hnd. unfold where_. induction l as [|x l IH]; simpl; [done|].
  simpl in Hnd. apply NoDup_cons in Hnd as [Hx Hnd]. destruct (p x); simpl; [|by apply IH].
  apply NoDup_cons. split; [|by apply IH]. intros Hin. apply Hx.
  apply list_elem_of_fmap_1 in Hin as (y & -> & Hy). apply list_elem_of_fmap_2.
  by apply list_elem_of_In, filter_In, proj1, list_elem_of_In in Hy.
Qed.
End Rows.

(** ** The history of the database *)

(** What stays of the rows of each table. *)
Definition recorded (t : tbl) : relation (list (row t)) :=
  match t with
  | T_audit_logs => grows (fun r => r)
  | T_attendance_raw_logs => grows (fun r => r)
  | T_leave_accrual_logs => grows (fun r => r)
  | T_users => stays_unique usr_email
  | T_user_roles => stays_unique (fun r => (uro_user_id r, uro_role_id r))
  | T_employees => both (grows (fun e => (emp_id e, emp_employee_id e, emp_joining_date e, emp_created_at e)))
                        (stays_unique emp_employee_id)
  | T_employee_personal_details => both (grows per_employee_id) (stays_unique per_employee_id)
  | T_employee_statutory_details => both (grows sta_employee_id) (stays_unique sta_employee_id)
  | T_payroll_runs => both (grows (fun r => (run_id r, run_organization_id r, run_month r, run_year r)))
                           (stays_unique (fun r => (run_organization_id r, run_month r, run_year r)))
  | T_payslips => both (grows (fun s => (slp_id s, slp_payroll_run_id s, slp_employee_id s, slp_created_at s)))
                       (stays_unique (fun s => (slp_payroll_run_id s, slp_employee_id s)))
  | T_payroll_advances => grows (fun a => (adv_id a, adv_employee_id a, adv_amount a, adv_reason a,
                                           adv_deduct_from_month a, adv_deduct_from_year a, adv_created_at a))
  | T_employee_salary_structures => grows (fun s => (ess_id s, ess_employee_id s, ess_currency_code s,
                                                     ess_base_salary s, ess_created_at s))
  | T_attendance_daily_status => both (grows (fun a => (day_id a, day_employee_id a, day_date a)))
                                      (stays_unique (fun a => (day_employee_id a, day_date a)))
  | T_attendance_exceptions => grows (fun x => (exc_id x, exc_employee_id x, exc_attendance_date x,
                                               exc_exception_type x, exc_late_minutes x, exc_created_at x))
  | T_leave_applications => grows (fun l => (lap_id l, lap_employee_id l, lap_leave_type_id l, lap_start_date l,
                                             lap_end_date l, lap_total_days l, lap_reason l, lap_created_at l))
  | T_leave_encashment_requests => grows (fun e => (enc_id e, enc_employee_id e, enc_leave_type_id e,
                                     enc_days_to_encash e, enc_total_amount e, enc_reason e, enc_created_at e))
  | T_regularization_requests => grows (fun q => (reg_id q, reg_employee_id q, reg_requested_check_in q,
                                                  reg_requested_check_out q, reg_reason q, reg_created_at q))
  | T_helpdesk_tickets => both (grows (fun t => (hdt_id t, hdt_ticket_number t, hdt_employee_id t, hdt_category_id t,
                                                 hdt_subject t, hdt_description t, hdt_created_at t)))
                               (stays_unique hdt_ticket_number)
  | T_import_batches => grows (fun b => (imb_id b, imb_user_id b, imb_total_rows b, imb_created_at b))
  | T_import_rows => grows (fun x => (imr_id x, imr_batch_id x, imr_row_number x, imr_raw_data x))
  | T_leave_policies => both (grows (fun p => (pol_id p, pol_leave_type_id p))) (stays_unique pol_leave_type_id)
  | T_currencies => stays_unique cur_code
  | T_ip_allowlists => stays_unique ipa_ip_address
  | T_attendance_rules => stays_unique rul_rule_name
  | T_organizations | T_roles | T_salary_components | T_leave_types | T_leave_requests
  | T_attendance_logs | T_employee_lifecycle_events | T_system_configurations => eq
  | _ => fun _ _ => True
  end.

#[export] Instance recorded_preorder t : PreOrder (recorded t).
Proof. destruct t; simpl; try apply _; by split. Qed.

Definition history_kept (d d' : Database) : Prop := forall t, recorded t (tget (tab t) d) (tget (tab t) d').

#[export] Instance history_kept_preorder : PreOrder history_kept.
Proof.
  split; [by intros d t|]. intros d1 d2 d3 H1 H2 t. etransitivity; [apply H1|apply H2].
Qed.

(** A write keeps the history when the rows it leaves do. *)
Lemma history_put t l d : recorded t (tget (tab t) d) l -> history_kept d (tput (tab t) l d).
Proof.
  intros Hl u. destruct (decide (t = u)) as [<-|Hne].
  - by rewrite tget_tput.
  - pose proof (tab_indep t u Hne) as Hi. by rewrite Hi.
Qed.

(** The history is kept, and the references between the tables hold if they did. *)
Definition undamaged : relation Database := both history_kept refs_kept.

#[export] Instance undamaged_preorder : PreOrder undamaged.
Proof. unfold undamaged. apply _. Qed.

Lemma undamaged_put t l d : recorded t (tget (tab t) d) l -> refs_kept d (tput (tab t) l d) -> undamaged d (tput (tab t) l d).
Proof. intros Hl Hr. split; [by apply history_put|done]. Qed.

(** ** Statements *)

Lemma existsb_false_Forall {A} (p : A -> bool) l : existsb p l = false -> Forall (fun x => p x = false) l.
Proof.
  induction l as [|x l IH]; simpl; [constructor|]. intros [Hx Hl]%orb_false_iff. constructor; auto.
Qed.

(** A key that no row has yet. *)
Lemma unique_app_existsb {A K} (key : A -> K) (p : A -> bool) l r :
  existsb p l = false -> (forall x, key x = key r -> p x = true) -> stays_unique key l (l ++ [r]).
Proof.
  intros Hl Hp. apply stays_unique_app. eapply Forall_impl; [by apply existsb_false_Forall|].
  intros x Hx Hk. specialize (Hp x Hk). simpl in Hx. congruence.
Qed.

Lemma unique_app_same {A K} (key : A -> K) (p : A -> bool) l r :
  Forall (fun x => p x = false) l -> (forall x, key x = key r -> p x = true) -> stays_unique key l (l ++ [r]).
Proof.
  intros Hl Hp. apply stays_unique_app. eapply Forall_impl; [exact Hl|].
  intros x Hx Hk. specialize (Hp x Hk). simpl in Hx. congruence.
Qed.

(** Rows with the same key pass the test of the conflict. *)
Ltac new_key :=
  simpl; intros; simplify_eq; repeat (apply andb_true_intro; split);
  first [by apply String.eqb_eq | by apply Z.eqb_eq].

(** A row that passes the test of an update and its new version have the same key. *)
Ltac same_key := intros; bool_prop; repeat case_match; simpl in *; congruence.

(** The obligations of a write: the rows of its table as [recorded] asks. *)
Ltac rows_recorded :=
  intros; apply history_put; cbn [recorded]; repeat match goal with |- both _ _ _ _ => split end;
  repeat match goal with H : context [(if ?b then _ else _)] |- _ => destruct b eqn:?; [try discriminate|try discriminate] end;
  repeat match goal with H : context [match ?x with _ => _ end] |- _ => destruct x eqn:?; try discriminate end;
  simplify_eq; bool_prop;
  first
  [ exact I
  | apply grows_app
  | apply grows_set_where; same_key
  | apply stays_unique_set_where; same_key
  | apply stays_unique_where
  | match goal with H : existsb _ _ = false |- _ => apply (unique_app_existsb _ _ _ _ H); new_key end
  | match goal with H : Forall _ _ |- _ => apply (unique_app_same _ _ _ _ H); new_key end
  | idtac ].

(** Both obligations of a write. *)
Ltac undamaged_rows := intros; split; [rows_recorded|refs_rows].

(** Walks a statement to its write. *)
Ltac keep_path :=
  repeat (cbv beta iota zeta;
    first
    [ match goal with |- respects _ (if ?b then _ else _) => destruct b end
    | apply respects_checked | apply respects_with_uuid; intros ? | apply respects_with_varchar; intros ?
    | apply respects_with_date; intros ? | apply respects_with_timestamp; intros ?
    | apply respects_with_jsonb; intros ? | apply respects_with_int4 | apply respects_with_num; intros ?
    | apply respects_select; typeclasses eauto | apply respects_select_row; typeclasses eauto ]).

Ltac keep_stmt :=
  keep_path; try
  first
  [ apply respects_update; undamaged_rows | apply respects_update_chk; undamaged_rows
  | apply respects_insert; undamaged_rows | apply respects_delete; undamaged_rows
  | apply respects_upsert; undamaged_rows ].

(** A statement that answers something else than the row. *)
Lemma respects_map {D B C} (R : relation D) (s : stmt D B) (g : B * D -> C * D) :
  respects R s -> (forall x, snd (g x) = snd x) -> respects R (fun c d => result_map g (s c d)).
Proof.
  intros Hs Hg c d b d' Hst. unfold result_map in Hst. destruct (s c d) as [[b1 d1]|e] eqn:E; [|done].
  injection Hst as Hst. eapply Hs. rewrite E. f_equal. pose proof (Hg (b1, d1)) as Hg1. rewrite Hst in Hg1.
  simpl in Hg1. by subst.
Qed.

(** ** Programs with transactions

    A transaction is safe for a relation when what it would commit respects it. The
    postcondition of a program carries this through the handles that it threads. *)

Section Posts.
Context {D : Type} `{Server} (R : relation D) `{!PreOrder R}.

Fixpoint all_post {A} (Q : A -> Prop) (p : prog D A) : Prop :=
  match p with
  | Ret a => Q a
  | Sql s k => respects R s /\ forall r, all_post Q (k r)
  | Clock k => forall t, all_post Q (k t)
  | Rand k => forall t, all_post Q (k t)
  | Halt _ | Crash _ => True
  end.

Lemma post_bind {A B} (Q : A -> Prop) (Q' : B -> Prop) (p : prog D A) f :
  all_post Q p -> (forall a, Q a -> all_post Q' (f a)) -> all_post Q' (bind p f).
Proof. induction p; simpl; naive_solver. Qed.

Lemma post_mono {A} (Q Q' : A -> Prop) (p : prog D A) : (forall a, Q a -> Q' a) -> all_post Q p -> all_post Q' p.
Proof. intros HQ. induction p; simpl; naive_solver. Qed.

Lemma post_stmts {A} (p : prog D A) : all_stmts (fun _ s => respects R s) p <-> all_post (fun _ => True) p.
Proof. induction p; simpl; naive_solver. Qed.

Lemma post_for_each {X S} (Q : S -> Prop) (l : list X) acc body :
  Q acc -> (forall acc x, Q acc -> all_post Q (body acc x)) -> all_post Q (for_each l acc body).
Proof.
  intros Ha Hb. revert acc Ha. induction l as [|x l IH]; intros acc Ha; simpl; [done|].
  by eapply post_bind; [apply Hb|apply IH].
Qed.

Definition tx_safe (tx : Tx D) : Prop := tx_aborted tx = false -> forall d d', tx_log tx d = Some d' -> R d d'.

Definition handle_safe {B} (x : B * Tx D) : Prop := tx_safe (snd x).

Lemma post_begin : all_post (fun r => match r with Ok tx => tx_safe tx | Err _ => True end) tx_begin.
Proof.
  unfold tx_begin, exec. destruct db_nil; [done|]. simpl. split; [by intros c d b d' [= _ <-]|].
  intros [t|e]; simpl; [|done]. intros _ d d' [= <-]. reflexivity.
Qed.

Lemma tx_fail_safe tx e : tx_safe tx -> tx_safe (tx_fail tx e).
Proof. unfold tx_fail. by destruct (e =?s no_rows). Qed.

Lemma post_query {B} tx (s : stmt D B) : tx_safe tx -> all_post handle_safe (tx_query tx s).
Proof.
  intros Ht. split; [apply (respects_view R tx s (fun b _ => b))|].
  intros [b|e]; simpl; [done|]. by apply tx_fail_safe.
Qed.

Lemma post_exec {B} `{EqDecision B} tx (s : stmt D B) :
  tx_safe tx -> respects R s -> all_post handle_safe (tx_exec tx s).
Proof.
  intros Ht Hs. split; [apply (respects_view R tx s pair)|]. intros [[b c]|e]; simpl; [|done].
  intros Ha d d' (v & Hv & Hw)%tx_write_log. etransitivity; [by apply Ht|]. by eapply Hs.
Qed.

Lemma post_direct {B} tx (s : stmt D B) : tx_safe tx -> respects R s -> all_post handle_safe (tx_direct tx s).
Proof.
  intros Ht Hs. split.
  - intros c d b d'. destruct (tx_aborted tx); [done|]. apply Hs.
  - intros [b|e]; simpl; [done|]. by apply tx_fail_safe.
Qed.

Lemma post_commit tx : tx_safe tx -> all_post (fun _ => True) (tx_commit tx).
Proof.
  intros Ht. split; [|done]. intros c d b d'. unfold tx_commit_stmt. destruct (tx_aborted tx) eqn:Ha; [done|].
  destruct (tx_log tx d) eqn:E; [|done]. intros [= _ <-]. by apply Ht.
Qed.
End Posts.
