(* ===== verification/HistoryStmts.v ===== *)
(** * What no request may undo: the statements

    Every statement with which the packages write keeps the history of the database. *)

From stdpp Require Import gmap.
From S2P Require Import Prelude Float64 Go Sql Tx Schema Common Auth AuditTrail Matrix Payroll Workflow User Importer Employee Security Document Onboarding Organization Helpdesk Leave Attendance AttendanceAdmin References History.

#[local] Open Scope Z_scope.

Lemma respects_opt_cast {A B} (R : relation Database) (cast : string -> (A -> stmt Database B) -> stmt Database B)
  (o : option string) (f : option A -> stmt Database B) :
  (forall a g, (forall b, respects R (g b)) -> respects R (cast a g)) ->
  (forall b, respects R (f b)) -> respects R (opt_cast cast o f).
Proof. intros Hc Hf. destruct o as [a|]; simpl; [apply Hc; intros b; apply Hf|apply Hf]. Qed.

Section Stmts.
Context `{Server}.
#[local] Abbreviation kept s := (respects undamaged s).

Lemma keep_insert_user email hash active inv : kept (insert_user email hash active inv).
Proof. apply respects_map; [|done]. unfold email_taken. keep_stmt. Qed.

Lemma keep_insert_user_role u r : kept (insert_user_role u r).
Proof. apply respects_map; [|done]. keep_stmt. Qed.

Lemma keep_link_employee u e : kept (link_employee u e).
Proof. unfold link_employee. keep_stmt. Qed.

Lemma keep_set_active a i : kept (set_active a i).
Proof. unfold set_active. keep_stmt. Qed.

Lemma keep_delete_user_roles i : kept (delete_user_roles i).
Proof. unfold delete_user_roles. keep_stmt. Qed.

Lemma keep_unlink_user i : kept (unlink_user i).
Proof. unfold unlink_user. keep_stmt. Qed.

Lemma deleted_history i d : history_kept d (user_deleted i d).
Proof.
  unfold user_deleted.
  repeat (etransitivity; [|apply history_put]; [|cbn [recorded]; repeat match goal with |- both _ _ _ _ => split end;
    first [exact I | apply stays_unique_where
          | apply grows_set_where; intros; reflexivity | apply stays_unique_set_where; intros; reflexivity]]).
  reflexivity.
Qed.

(** The keys that are left when a user is deleted. *)
Definition other_than (i : string) (t : tbl) (k : string) : bool :=
  match t with T_users => negb (k =?s i) | _ => true end.

Definition known_but (i : string) (d : Database) (t : tbl) (k : string) : bool := has d t k && other_than i t k.

Lemma linked_but i d t r :
  linked (has d) t r = true -> linked (other_than i) t r = true -> linked (known_but i d) t r = true.
Proof.
  assert (Hn : forall u o, nullable (has d u) o = true -> nullable (other_than i u) o = true ->
    nullable (known_but i d u) o = true).
  { intros u [k|]; [|done]. simpl. intros H1 H2. unfold known_but. by rewrite H1, H2. }
  intros H1 H2. destruct t; cbn [linked] in *; try done; unfold known_but in *; rewrite ?andb_true_iff in *; naive_solver.
Qed.

Lemma known_but_left i d t k : known_but i d t k = true -> has (user_deleted i d) t k = true.
Proof.
  unfold known_but. intros [[r [Hr Hk]]%has_spec Hu]%andb_true_iff. apply has_spec.
  destruct t; try (by exists r).
  - exists r. split; [|done]. change (r ∈ where_ (fun r => negb (usr_id r =?s i)) (tget users d)).
    apply list_elem_of_In, filter_In. split; [by apply list_elem_of_In|]. injection Hk as ->. done.
  - exists (if opt_is (hdt_assigned_to r) i then set_hdt_assigned_to None r else r). split; [|by destruct (opt_is _ _)].
    change (?x ∈ _) with (x ∈ set_where (fun r => opt_is (hdt_assigned_to r) i) (set_hdt_assigned_to None) (tget helpdesk_tickets d)).
    apply list_elem_of_fmap. by exists r.
Qed.

(** A reference to no user, or to another one. *)
Lemma nullable_other i o : opt_is o i = false -> nullable (other_than i T_users) o = true.
Proof. destruct o as [k|]; [|done]. simpl. intros ->. done. Qed.

Lemma nullable_any p o : (forall k, p k = true) -> nullable p o = true.
Proof. destruct o; simpl; auto. Qed.

Lemma forall_set_where {A} (P Q : A -> Prop) p f l :
  Forall P l -> (forall r, P r -> p r = true -> Q (f r)) -> (forall r, P r -> p r = false -> Q r) -> Forall Q (set_where p f l).
Proof.
  intros Hl Hf Hr. apply Forall_map. eapply Forall_impl; [exact Hl|]. intros r HP. simpl. destruct (p r) eqn:E; auto.
Qed.

Lemma forall_where {A} (P Q : A -> Prop) p l :
  Forall P l -> (forall r, P r -> p r = true -> Q r) -> Forall Q (where_ p l).
Proof.
  rewrite !Forall_forall. intros Hl HQ r Hr. unfold where_ in Hr. apply list_elem_of_In, filter_In in Hr as [Hr Hp].
  apply HQ; [|done]. by apply Hl, list_elem_of_In.
Qed.

Ltac other_user :=
  cbn [linked other_than]; repeat match goal with H : (_ || _)%bool = false |- _ => apply orb_false_iff in H as [? ?] end;
  repeat (apply andb_true_intro; split);
  first [done | assumption | by apply nullable_other | by apply negb_true_iff | by apply nullable_any].

Lemma deleted_rows i d t : user_referenced i d = false -> refs_hold d ->
  Forall (fun r => linked (known_but i d) t r = true) (tget (tab t) (user_deleted i d)).
Proof.
  intros Hu Hd. specialize (Hd t). unfold user_referenced in Hu. bool_prop.
  repeat match goal with H : existsb _ _ = false |- _ => apply existsb_false_Forall in H end.
  destruct t;
  first
  [ eapply Forall_impl; [exact Hd|]; intros r Hr; apply linked_but; [exact Hr|]; solve [other_user]
  | match goal with H : Forall _ (tget _ d) |- _ =>
      eapply Forall_impl; [apply Forall_and; exact (conj Hd H)|]; intros r [Hr Hk]; apply linked_but; [exact Hr|]; solve [other_user]
    end
  | by apply Forall_true
  | eapply forall_where; [exact Hd|]; intros r Hr Hp; apply linked_but; [exact Hr|]; solve [other_user]
  | eapply forall_set_where; [exact Hd| |]; intros r Hr Hp; (apply linked_but; [|]); [|solve [other_user]|exact Hr|solve [other_user]];
    cbn [linked] in Hr |- *; bool_prop; refs_linked ].
Qed.

Lemma keep_delete_user i : kept (delete_user i).
Proof.
  apply respects_with_uuid. intros u c d b d'. destruct (negb (ref_user u d)); [intros [= _ <-]; reflexivity|].
  destruct (user_referenced u d) eqn:Hu; [done|]. intros [= _ <-]. split; [apply deleted_history|].
  intros Hd t. eapply Forall_impl; [by apply deleted_rows|]. intros r. apply linked_mono, known_but_left.
Qed.

(** Parameters that may be NULL, and the statement below them. *)
Ltac keep_cast :=
  repeat first [apply respects_opt_cast; [intros; keep_stmt; by auto|intros ?] | progress keep_stmt].

(** The check of [employees] is that of its foreign keys, but for the user and the
    reporting manager. *)
Lemma employee_fk_linked d e : employee_fk d e = None ->
  linked (has d) T_employees e =
    nullable (has d T_users) (emp_user_id e) && nullable (has d T_employees) (emp_reporting_manager_id e).
Proof.
  unfold employee_fk. destruct (_ && _) eqn:E; [|done]. intros _. cbn [linked].
  apply andb_true_iff in E as [[[E1 E2]%andb_true_iff E3]%andb_true_iff E4].
  assert (Hr : forall t (l : list (row t)) (k : row t -> string) o, l = tget (tab t) d -> (forall r, key t r = Some (k r)) ->
    ref_in k l o = true -> nullable (has d t) o = true).
  { intros t l k [x|] -> Hk Ho; [|done]. simpl in *. apply existsb_exists in Ho as (r & Hr & Ho). apply existsb_exists.
    exists r. split; [done|]. by rewrite Hk. }
  rewrite (Hr T_departments _ dep_id _ eq_refl (fun _ => eq_refl) E1), (Hr T_designations _ des_id _ eq_refl (fun _ => eq_refl) E2),
    (Hr T_locations _ loc_id _ eq_refl (fun _ => eq_refl) E3), (Hr T_employees _ emp_id _ eq_refl (fun _ => eq_refl) E4).
  by rewrite !andb_true_r.
Qed.

Lemma keep_insert_employee code req ty p : kept (insert_employee code req ty p).
Proof. apply respects_map; [|done]. keep_cast. apply refs_app. intros _. by rewrite employee_fk_linked. Qed.

Lemma keep_insert_personal i req : kept (insert_personal i req).
Proof. apply respects_map; [|done]. keep_cast. Qed.

Lemma keep_insert_statutory i : kept (insert_statutory i).
Proof.
  intros c d b d'. unfold insert_statutory. destruct (existsb _ _) eqn:E; [intros [= _ <-]; reflexivity|].
  destruct (ref_employee i d) eqn:Er; [|done]. intros [= _ <-]. apply undamaged_put.
  - cbn [recorded]. split; [apply grows_app|]. eapply unique_app_existsb; [exact E|new_key].
  - apply (refs_app T_employee_statutory_details). intros _. refs_linked.
Qed.

(** The columns of [employees] that stay. *)
Definition emp_key (e : EmpRow) := (emp_id e, emp_employee_id e, emp_joining_date e, emp_created_at e).

(** Those, and the references that no update changes. *)
Definition emp_fixed (e : EmpRow) := (emp_key e, emp_user_id e, emp_reporting_manager_id e).

Lemma assign_fixed {A} (set : A -> EmpRow -> EmpRow) o e :
  (forall v x, emp_fixed (set v x) = emp_fixed x) -> emp_fixed (assign set o e) = emp_fixed e.
Proof. intros Hs. destruct o; [apply Hs|done]. Qed.

(** An update of employees that keeps these and whose result is checked. *)
Lemma update_employees_undamaged p f d :
  (forall e, emp_fixed (f e) = emp_fixed e) ->
  Forall (fun r => employee_fk d (f r) = None) (where_ p (tget employees d)) ->
  undamaged d (tput employees (set_where p f (tget employees d)) d).
Proof.
  intros Hf Hfk. assert (Hk : forall e, emp_key (f e) = emp_key e) by (intros e; specialize (Hf e); unfold emp_fixed in Hf; congruence).
  apply undamaged_put.
  - split; [apply (grows_set_where emp_key); auto|].
    apply stays_unique_set_where. intros e _. specialize (Hk e). unfold emp_key in Hk. congruence.
  - apply (refs_set_where T_employees). intros e He Hp. split; [simpl; specialize (Hk e); unfold emp_key in Hk; congruence|].
    rewrite (employee_fk_linked d (f e)) by (by apply (checked_row _ p _ e Hfk)). intros Hl. cbn [linked] in Hl. bool_prop.
    assert (Hu : emp_user_id (f e) = emp_user_id e /\ emp_reporting_manager_id (f e) = emp_reporting_manager_id e)
      by (specialize (Hf e); unfold emp_fixed in Hf; split; congruence).
    destruct Hu as [-> ->]. by apply andb_true_intro.
Qed.

Lemma keep_update_employee req i : kept (update_employee req i).
Proof.
  unfold update_employee.
  repeat first [apply respects_opt_cast; [intros; keep_path; by auto|intros ?] | progress keep_path].
  apply respects_update_chk. intros c d Hfk. apply update_employees_undamaged; [|exact Hfk]. intros e.
  change (emp_fixed (set_emp_updated_at (sc_now c) ?x)) with (emp_fixed x).
  repeat (rewrite assign_fixed; [|done]). done.
Qed.

Lemma keep_insert_imported u e f l j : kept (insert_imported u e f l j).
Proof. apply respects_map; [|done]. keep_stmt. Qed.

Lemma keep_insert_batch n : kept (insert_batch n).
Proof. apply respects_map; [|done]. keep_stmt. Qed.

Lemma keep_insert_import_row b n raw st e : kept (insert_import_row b n raw st e).
Proof. apply respects_map; [|done]. keep_stmt. Qed.

Lemma keep_ready_batch v e b : kept (ready_batch v e b).
Proof. unfold ready_batch. keep_stmt. Qed.

Lemma keep_fail_row m i : kept (fail_row m i).
Proof. unfold fail_row. keep_stmt. Qed.

Lemma keep_complete_row e i : kept (complete_row e i).
Proof. unfold complete_row. keep_stmt. Qed.

Lemma keep_complete_batch i : kept (complete_batch i).
Proof. unfold complete_batch. keep_stmt. Qed.

(** *** Workflow *)

Lemma keep_decisions status id : Forall (fun s => respects undamaged s) (decisions status id).
Proof.
  unfold decisions, decide_in. repeat apply Forall_cons_2; try apply Forall_nil_2; keep_stmt.
Qed.

(** *** AuditTrail *)

Lemma keep_insert_audit e t : kept (insert_audit e t).
Proof. unfold insert_audit. keep_stmt. Qed.

(** *** Payroll *)

Lemma keep_insert_run o m y u : kept (insert_run o m y u).
Proof. unfold insert_run. keep_stmt. Qed.

Lemma keep_deduct_advance i : kept (deduct_advance i).
Proof. unfold deduct_advance. keep_stmt. Qed.

Lemma keep_upsert_payslip r e a : kept (upsert_payslip r e a).
Proof. unfold upsert_payslip. keep_stmt. Qed.

Lemma keep_finish_run r n t u : kept (finish_run r n t u).
Proof. unfold finish_run. keep_stmt. Qed.

Lemma keep_set_status i st : kept (Payroll.set_status i st).
Proof. unfold Payroll.set_status. keep_stmt. Qed.

Lemma keep_approve_run u i : kept (approve_run u i).
Proof. unfold approve_run. keep_stmt. Qed.

Lemma keep_lock_run i : kept (lock_run i).
Proof. unfold lock_run. keep_stmt. Qed.

Lemma keep_publish_slips i : kept (publish_slips i).
Proof. unfold publish_slips. keep_stmt. Qed.

Lemma keep_insert_advance e r : kept (insert_advance e r).
Proof. unfold insert_advance. keep_stmt. Qed.

Lemma keep_approve_advance u i : kept (approve_advance u i).
Proof. unfold approve_advance. keep_stmt. Qed.

(** *** Matrix *)

Lemma keep_upsert_currency r : kept (upsert_currency r).
Proof. unfold upsert_currency. keep_stmt. Qed.

Lemma keep_deactivate_structures e : kept (deactivate_structures e).
Proof. unfold deactivate_structures. keep_stmt. Qed.

Lemma keep_insert_structure r c : kept (insert_structure r c).
Proof. unfold insert_structure. keep_stmt. Qed.

(** *** Leave *)

Lemma keep_insert_application e t r : kept (insert_application e t r).
Proof. unfold insert_application. keep_stmt. Qed.

Lemma keep_upsert_policy r : kept (upsert_policy r).
Proof. unfold upsert_policy. keep_stmt. Qed.

Lemma keep_accrue_balance e t x : kept (accrue_balance e t x).
Proof. unfold accrue_balance. keep_stmt. Qed.

Lemma keep_log_accrual e t d x : kept (log_accrual e t d x).
Proof. unfold log_accrual. keep_stmt. Qed.

Lemma keep_insert_encashment e r x y : kept (insert_encashment e r x y).
Proof. unfold insert_encashment. keep_stmt. Qed.

Lemma keep_review_encashment s u i : kept (review_encashment s u i).
Proof. unfold review_encashment. keep_stmt. Qed.

(** *** Attendance *)

Lemma keep_insert_punch e t n : kept (insert_punch e t n).
Proof. unfold insert_punch. keep_stmt. Qed.

Lemma keep_punch_in e t : kept (punch_in e t).
Proof. unfold punch_in. keep_stmt. Qed.

Lemma keep_punch_out e t : kept (punch_out e t).
Proof. unfold punch_out. keep_stmt. Qed.

Lemma keep_insert_request e i o r : kept (insert_request e i o r).
Proof. unfold insert_request. keep_stmt. Qed.

Lemma keep_decide_request s i : kept (decide_request s i).
Proof. unfold decide_request. keep_stmt. Qed.

Lemma keep_sync_day i : kept (sync_day i).
Proof.
  unfold sync_day. keep_stmt. apply refs_app. intros Hd. specialize (Hd T_regularization_requests).
  rewrite Forall_forall in Hd. match goal with Hq : List.find _ _ = Some ?q |- _ => apply find_some in Hq as [Hq _]; specialize (Hd q) end.
  match goal with Hq : day_of_request _ ?q = Ok _ |- _ => unfold day_of_request in Hq; tests end.
  cbn [linked] in *. simpl. rewrite andb_true_r. by apply Hd, list_elem_of_In.
Qed.

(** *** AttendanceAdmin *)

Lemma keep_validate_day t c v i : kept (validate_day t c v i).
Proof. unfold validate_day. keep_stmt. Qed.

Lemma keep_review_exception t u c i : kept (review_exception t u c i).
Proof. unfold review_exception. keep_stmt. Qed.

Lemma keep_justify_exception j i : kept (justify_exception j i).
Proof. unfold justify_exception. keep_stmt. Qed.

Lemma keep_upsert_rules r : kept (upsert_rules r).
Proof. unfold upsert_rules. keep_stmt. Qed.

Lemma keep_insert_ip r : kept (insert_ip r).
Proof. unfold insert_ip. keep_stmt. Qed.

Lemma keep_insert_geofence r x : kept (insert_geofence r x).
Proof. unfold insert_geofence. keep_stmt. Qed.

(** *** Helpdesk *)

Lemma keep_insert_category c : kept (Helpdesk.insert_category c).
Proof. unfold Helpdesk.insert_category. keep_stmt. Qed.

Lemma keep_insert_ticket n e r p : kept (insert_ticket n e r p).
Proof. unfold insert_ticket. keep_stmt. Qed.

Lemma keep_insert_comment t u c : kept (insert_comment t u c).
Proof. unfold insert_comment. keep_stmt. Qed.

Lemma keep_set_ticket s u t n : kept (set_ticket s u t n).
Proof. unfold set_ticket. keep_stmt. Qed.

(** *** Employee *)

Lemma keep_insert_designation r : kept (insert_designation r).
Proof. unfold insert_designation. keep_cast. Qed.

Lemma keep_nextval : kept nextval.
Proof.
  intros c d b d' [= _ <-]. apply (undamaged_put T_employee_id_seq); [done|]. apply (refs_put T_employee_id_seq).
  - intros r _. eexists. split; [by left|by right].
  - intros _. by apply Forall_singleton.
Qed.

(** *** Onboarding *)

Lemma keep_insert_template n d : kept (insert_template n d).
Proof. unfold insert_template. keep_stmt. Qed.

(** *** Security *)

Lemma keep_insert_access u r i a : kept (Security.insert_access u r i a).
Proof. unfold Security.insert_access. keep_stmt. Qed.

End Stmts.
