(* ===== verification/HistoryRoutes.v ===== *)
(** * What no request may undo: the routes

    Every program over the database that a route runs keeps the history of the
    database, in any interleaving with the programs of other requests. *)

From stdpp Require Import gmap.
From S2P Require Import Prelude Float64 Go Sql Tx Schema Calendar Common Auth Authz AuditTrail Matrix Payroll Workflow WorkflowProps User Importer Employee Jobs Security Lifecycle Document Onboarding Organization Performance Recruitment Helpdesk Leave Attendance AttendanceAdmin AttendanceReports Reports Api ApiProps References History HistoryStmts.

#[local] Open Scope Z_scope.
#[local] Open Scope prog_scope.

Create HintDb history.
#[export] Hint Resolve
  keep_insert_user keep_insert_user_role keep_link_employee keep_set_active keep_delete_user_roles
  keep_unlink_user keep_delete_user keep_insert_employee keep_insert_personal keep_insert_statutory
  keep_update_employee keep_insert_imported keep_insert_batch keep_insert_import_row keep_ready_batch
  keep_fail_row keep_complete_row keep_complete_batch keep_insert_audit keep_insert_run keep_deduct_advance
  keep_upsert_payslip keep_finish_run keep_set_status keep_approve_run keep_lock_run keep_publish_slips
  keep_insert_advance keep_approve_advance keep_upsert_currency keep_deactivate_structures
  keep_insert_structure keep_insert_application keep_upsert_policy keep_accrue_balance keep_log_accrual
  keep_insert_encashment keep_review_encashment keep_insert_punch keep_punch_in keep_punch_out
  keep_insert_request keep_decide_request keep_sync_day keep_validate_day keep_review_exception
  keep_justify_exception keep_upsert_rules keep_insert_ip keep_insert_geofence keep_insert_category
  keep_insert_ticket keep_insert_comment keep_set_ticket keep_insert_designation keep_nextval
  keep_insert_template keep_insert_access : history.

Ltac head_of t := lazymatch t with ?f _ => head_of f | _ => t end.

(** A statement is known, or is read, or is the body of a definition. *)
Ltac kept_stmt :=
  cbv beta iota zeta;
  first
  [ solve [eauto 2 with history]
  | lazymatch goal with
    | |- respects _ (fun _ _ => _) =>
        intros ?c ?d ?b ?d' ?Hst; cbv beta iota zeta in Hst;
        first [injection Hst as _ <-; reflexivity | repeat case_match; simplify_eq; reflexivity]
    | |- respects _ ?s => first [progress keep_stmt; kept_stmt | let h := head_of s in unfold h; kept_stmt]
    end ].

(** Walks a program, and the programs it calls, to its statements. *)
Ltac kept_prog :=
  try solve [eauto 2 with history]; walk;
  lazymatch goal with
  | |- all_stmts _ (Clock _) => intros ?; kept_prog
  | |- all_stmts _ (Rand _) => intros ?; kept_prog
  | |- all_stmts _ ?p => let h := head_of p in unfold h; kept_prog
  | |- respects _ _ => solve [kept_stmt]
  | |- _ => idtac
  end.

(** Walks a program with transactions: its writes are known, so is what it commits. *)
Ltac safe_tx := first [eassumption | assumption | by apply tx_fail_safe].

Ltac safe_prog :=
  repeat (cbv beta iota zeta;
    first
    [ exact I
    | lazymatch goal with
      | |- all_post _ _ (bind tx_begin _) => eapply post_bind; [apply post_begin; typeclasses eauto|intros [?|?] ?]
      | |- all_post _ _ (bind (tx_query _ _) _) =>
          eapply post_bind; [apply post_query; [typeclasses eauto|safe_tx]|intros [? ?] ?]
      | |- all_post _ _ (bind (tx_exec _ _) _) =>
          eapply post_bind; [apply post_exec; [typeclasses eauto|safe_tx|kept_stmt]|intros [? ?] ?]
      | |- all_post _ _ (bind (tx_direct _ _) _) =>
          eapply post_bind; [apply post_direct; [safe_tx|kept_stmt]|intros [? ?] ?]
      | |- all_post _ _ (bind (tx_commit _) _) => eapply post_bind; [apply post_commit; safe_tx|intros ? _]
      | |- all_post _ _ (match ?x with _ => _ end) => destruct x
      | |- all_post _ _ (Ret _) => first [exact I | assumption]
      | |- all_post _ _ (bind (link_if_given _ _ _) _) =>
          eapply post_bind; [solve [eauto 2 with history]|intros [? ?] ?]
      | |- all_post _ _ (bind (createUserTx _ _ _ _ _) _) =>
          eapply post_bind; [solve [eauto 2 with history]|intros ? _]
      | |- all_post _ _ (bind ?p _) => eapply post_bind; [apply post_stmts; solve [kept_prog]|intros ? _]
      end ]).

Section Routes.
Context `{Server} `{Crypto} `{Driver} `{NumericRatio} `{Math} `{Bodies} (decode_message : string).

(** *** Decisions *)

Lemma update_task_kept id status : all_stmts (fun _ s => respects undamaged s) (updateTaskStatus id status).
Proof. apply all_stmts_try_updates, keep_decisions. Qed.

#[local] Hint Resolve update_task_kept : history.

(** *** Transactions *)

Lemma link_post tx u emp : tx_safe undamaged tx ->
  all_post undamaged (handle_safe undamaged) (link_if_given tx u emp).
Proof. intros Htx. unfold link_if_given. safe_prog. Qed.

#[local] Hint Resolve link_post : history.

Lemma createUserTx_post email password role emp inv :
  all_post undamaged (fun _ => True) (createUserTx email password role emp inv).
Proof. unfold createUserTx. safe_prog. Qed.

#[local] Hint Resolve createUserTx_post : history.

Lemma create_user_kept r : all_stmts (fun _ s => respects undamaged s) (HandleCreateUser r).
Proof. apply post_stmts. unfold HandleCreateUser. safe_prog. Qed.

Lemma invite_user_kept r : all_stmts (fun _ s => respects undamaged s) (HandleInviteUser r).
Proof. apply post_stmts. unfold HandleInviteUser. safe_prog. Qed.

Lemma update_role_kept r : all_stmts (fun _ s => respects undamaged s) (HandleUpdateRole r).
Proof. apply post_stmts. unfold HandleUpdateRole. safe_prog. Qed.

Lemma create_employee_kept r : all_stmts (fun _ s => respects undamaged s) (HandleCreateEmployee r).
Proof. apply post_stmts. unfold HandleCreateEmployee, store_employee. safe_prog. Qed.

Definition progress_safe (p : Progress) : Prop := tx_safe undamaged (up_tx p).

Lemma upload_row_post headers b p x : progress_safe p ->
  all_post undamaged progress_safe (upload_row headers b p x).
Proof. intros Hp. unfold progress_safe in Hp. destruct x. unfold upload_row. safe_prog. Qed.

Lemma upload_kept r : all_stmts (fun _ s => respects undamaged s) (HandleUpload r).
Proof.
  apply post_stmts. unfold HandleUpload, store_upload. safe_prog.
  eapply post_bind; [apply (post_for_each _ progress_safe); [assumption|intros; by apply upload_row_post]|].
  intros p Hp. unfold progress_safe in Hp. safe_prog.
Qed.

#[local] Hint Resolve create_user_kept invite_user_kept update_role_kept create_employee_kept upload_kept : history.

(** *** Packages *)

Definition handler_kept (f : handler) : Prop :=
  match f with
  | inl f => forall c, all_stmts (fun _ s => respects undamaged s) (f c)
  | inr _ => True
  end.

Definition routes_kept (l : list Route) : Prop := Forall (fun rt => handler_kept (rt_handler rt)) l.

Ltac walk_routes :=
  unfold routes_kept; repeat (apply Forall_cons; split; [intros c; simpl|]); try apply Forall_nil_2; kept_prog.

Lemma auth_kept : routes_kept auth_routes.
Proof. walk_routes. Qed.

Lemma organization_kept : routes_kept organization_routes.
Proof. walk_routes. Qed.

Lemma employee_kept : routes_kept employee_routes.
Proof. walk_routes. Qed.

Lemma workflow_kept : routes_kept workflow_routes.
Proof. walk_routes. Qed.

Lemma leave_kept : routes_kept leave_routes.
Proof. unfold leave_routes, policy_routes, encashment_routes; simpl app. walk_routes. Qed.

Lemma attendance_kept : routes_kept attendance_routes.
Proof. unfold attendance_routes, exception_routes, config_routes; simpl app. walk_routes. Qed.

Lemma payroll_kept : routes_kept payroll_routes.
Proof. unfold payroll_routes, matrix_routes; simpl app. walk_routes. Qed.

Lemma recruitment_kept : routes_kept recruitment_routes.
Proof. walk_routes. Qed.

Lemma lifecycle_kept : routes_kept lifecycle_routes.
Proof. walk_routes. Qed.

Lemma reports_kept : routes_kept reports_routes.
Proof. walk_routes. Qed.

Lemma helpdesk_kept : routes_kept helpdesk_routes.
Proof. walk_routes. Qed.

Lemma security_kept : routes_kept security_routes.
Proof. walk_routes. Qed.

Lemma user_kept : routes_kept user_routes.
Proof. walk_routes. Qed.

Lemma document_kept : routes_kept document_routes.
Proof. walk_routes. Qed.

Lemma importer_kept : routes_kept importer_routes.
Proof. walk_routes. Qed.

Lemma onboarding_kept : routes_kept onboarding_routes.
Proof. walk_routes. Qed.

Lemma performance_kept : routes_kept (performance_routes decode_message).
Proof. unfold performance_routes. walk_routes. Qed.

Lemma jobs_kept : routes_kept jobs_routes.
Proof. by repeat constructor. Qed.

Lemma kept_mount prefix l : routes_kept l -> routes_kept (mount prefix l).
Proof. intros Hl. apply Forall_map. exact Hl. Qed.

Lemma kept_protected l : routes_kept l -> routes_kept (protected l).
Proof. intros Hl. apply Forall_map. exact Hl. Qed.

Lemma session_kept : routes_kept session_routes.
Proof. apply kept_protected. walk_routes. Qed.

Lemma api_kept : routes_kept (api_routes decode_message).
Proof.
  unfold api_routes, module_routes.
  apply Forall_cons; split; [done|]. apply kept_mount, Forall_cons; split; [done|].
  apply Forall_app; split; [apply kept_mount, auth_kept|].
  apply Forall_app; split; [apply session_kept|]. apply kept_protected.
  repeat (apply Forall_app; split; [apply kept_mount|]).
  all: try apply kept_mount.
  all: first [apply organization_kept|apply employee_kept|apply workflow_kept|apply leave_kept|apply attendance_kept
    |apply payroll_kept|apply recruitment_kept|apply lifecycle_kept|apply reports_kept|apply helpdesk_kept
    |apply security_kept|apply user_kept|apply document_kept|apply importer_kept|apply onboarding_kept
    |apply performance_kept|apply jobs_kept].
Qed.

(** *** Requests *)

Lemma guarded_kept f unit auth param h :
  (forall c, all_stmts (fun _ s => respects undamaged s) (f c)) ->
  all_stmts (fun _ s => respects undamaged s) (guarded (D := Database) unit auth f param h).
Proof. intros Hf. unfold guarded. destruct auth; [|apply Hf]. simpl. intros t. destruct (RequireAuth _ _); [done|apply Hf]. Qed.

Lemma serve_kept rt param h p : rt ∈ api_routes decode_message -> serve rt param h = inl p ->
  all_stmts (fun _ s => respects undamaged s) p.
Proof.
  intros Hrt Hp. pose proof (proj1 (Forall_forall _ _) api_kept rt Hrt) as Hk.
  cbv beta in Hk. unfold serve in Hp. destruct (rt_handler rt) as [f|f]; [|discriminate]. injection Hp as <-. by apply guarded_kept.
Qed.
End Routes.

(** ** What no request may undo *)

Section Requests.
Context `{Server} `{Crypto} `{Driver} `{NumericRatio} `{Math} `{Bodies} `{Mux} (decode_message : string).

(** The program over the database with which the server answers a request. *)
Definition answers (h : HttpRequest) (p : prog Database Response) : Prop :=
  exists rt param, find_route decode_message h = Some (rt, param) /\ serve rt param h = inl p.

Definition requests (ps : list (prog Database Response)) : Prop := Forall (fun p => exists h, answers h p) ps.

Lemma requests_kept ps : requests ps -> Forall (all_stmts (fun _ s => respects undamaged s)) ps.
Proof.
  intros Hps. eapply Forall_impl; [exact Hps|]. intros p (h & rt & param & Hf & Hs). eapply serve_kept; [exact (find_route_elem _ _ _ _ Hf)|done].
Qed.

Lemma requests_undamaged ps d ps' d' : requests ps -> steps (ps, d) (ps', d') -> undamaged d d'.
Proof. intros Hps Hst. exact (proj1 (steps_respect undamaged _ _ _ _ (requests_kept _ Hps) Hst)). Qed.

Lemma requests_keep ps d ps' d' : requests ps -> steps (ps, d) (ps', d') -> history_kept d d'.
Proof. intros Hps Hst. apply (requests_undamaged ps d ps' d' Hps Hst). Qed.

(** C1: what no request may undo, on any route, in any interleaving of the statements of
    any number of requests, whatever fails: the audit trail, the punches and the accrual
    log only grow, row by row; no employee, payroll run, payslip, advance, salary
    structure, day of attendance, exception, leave, encashment, regularization, ticket,
    policy or import disappears or changes what identifies it; and the reference data
    that no route may edit stays as it is. *)
Theorem history_survives ps d ps' d' : requests ps -> steps (ps, d) (ps', d') -> history_kept d d'.
Proof. apply requests_keep. Qed.

(** The keys that the program takes for unique. *)
Definition unique_keys (d : Database) : Prop :=
  NoDup (map usr_email (tget users d))
  /\ NoDup (map (fun r => (uro_user_id r, uro_role_id r)) (tget user_roles d))
  /\ NoDup (map emp_employee_id (tget employees d))
  /\ NoDup (map per_employee_id (tget employee_personal_details d))
  /\ NoDup (map sta_employee_id (tget employee_statutory_details d))
  /\ NoDup (map (fun r => (run_organization_id r, run_month r, run_year r)) (tget payroll_runs d))
  /\ NoDup (map (fun s => (slp_payroll_run_id s, slp_employee_id s)) (tget payslips d))
  /\ NoDup (map (fun a => (day_employee_id a, day_date a)) (tget attendance_daily_status d))
  /\ NoDup (map hdt_ticket_number (tget helpdesk_tickets d))
  /\ NoDup (map pol_leave_type_id (tget leave_policies d))
  /\ NoDup (map cur_code (tget currencies d))
  /\ NoDup (map ipa_ip_address (tget ip_allowlists d))
  /\ NoDup (map rul_rule_name (tget attendance_rules d)).

(** C2: under any interleaving of any requests there is one account per email, one
    payroll run per organization and month, one payslip per run and employee, one day per
    employee and date, one ticket per number, one policy per leave type, one rate per
    currency: two requests that race to create the same never both do. *)
Theorem keys_stay_unique ps d ps' d' :
  requests ps -> steps (ps, d) (ps', d') -> unique_keys d -> unique_keys d'.
Proof.
  intros Hps Hst (?&?&?&?&?&?&?&?&?&?&?&?&?). pose proof (requests_keep _ _ _ _ Hps Hst) as Hk.
  unfold unique_keys. split_and!;
  [ apply (Hk T_users) | apply (Hk T_user_roles) | apply (Hk T_employees) | apply (Hk T_employee_personal_details)
  | apply (Hk T_employee_statutory_details) | apply (Hk T_payroll_runs) | apply (Hk T_payslips)
  | apply (Hk T_attendance_daily_status) | apply (Hk T_helpdesk_tickets) | apply (Hk T_leave_policies)
  | apply (Hk T_currencies) | apply (Hk T_ip_allowlists) | apply (Hk T_attendance_rules) ]; assumption.
Qed.

(** C3: every foreign key of the migrations that the model has names a row that exists,
    in every state that any interleaving of any requests reaches from a database where
    it does: whatever is inserted, updated or deleted meanwhile, accounts included, no
    employee, run, payslip, punch, leave, ticket or log is left pointing at nothing. *)
Theorem references_hold ps d ps' d' : requests ps -> steps (ps, d) (ps', d') -> refs_hold d -> refs_hold d'.
Proof. intros Hps Hst. apply (requests_undamaged ps d ps' d' Hps Hst). Qed.

(** C4: the dashboard of the attendance counts people, whatever has happened: after any
    interleaving of any requests, from a database with one day per employee and date,
    the employees present today are no more than the active employees in scope, and they
    are the ones among them whose day says so. *)
Theorem dashboard_stays_true ps d ps' d' scope today :
  requests ps -> steps (ps, d) (ps', d') -> unique_days d ->
  let staff := where_ (fun e => (emp_status e =?s "ACTIVE") && scope e) (tget employees d') in
  let with_day q := count_where (fun e => match day_on today d' e with Some a => q a | None => false end) staff in
  let x := day_counts scope today d' in
  total_employees x = Z.of_nat (length staff)
  /\ present_today x = with_day is_present /\ late_arrivals x = with_day is_late
  /\ 0 <= present_today x <= total_employees x.
Proof.
  intros Hps Hst Hu. pose proof (requests_keep _ _ _ _ Hps Hst) as Hk.
  assert (Hu' : unique_days d') by (apply (Hk T_attendance_daily_status), Hu).
  pose proof (dashboard_counts_people scope today d' Hu') as (? & ? & ? & _ & _ & Hb).
  intros staff with_day x. do 3 (split; [assumption|]). exact Hb.
Qed.
End Requests.
