(* ===== verification/Witnesses.v ===== *)
(** * Witnesses

    Each theorem with hypotheses applied to the concrete server, database and
    requests of [Demo], where the hypotheses hold. *)

From S2P Require Import Prelude Float64 Go Sql Schema Calendar Demo Common Auth DemoCrypto Authz AuditTrail Matrix Payroll PayrollProps PayrollScenarios PayrollLoop Workflow WorkflowProps Helpdesk HelpdeskProps Leave LeaveProps Attendance AttendanceAdmin AttendanceProps.
From Stdlib Require Import SpecFloat.

(** ** Authentication *)

Lemma asha_ascii : ascii_claims asha.
Proof.
  unfold ascii_claims, ascii_text.
  split_and!; apply (bool_decide_eq_true_1 _); by vm_compute.
Qed.

Definition asha_row : UserRow := demo_user 1 "asha@company.com".

Definition login (password : string) : Request LoginRequest :=
  demo_request None (Some {| lr_email := "asha@company.com"; lr_password := password |}) "".

Lemma salary_scope_unreachable_witness :
  exists ctx, RequireAuth "Bearer token" 0 = inr ctx
    /\ RequireScope ScopeSalaryAccess (Some ctx) =
         Some (http_error (error_text "forbidden: insufficient data scope") StatusForbidden).
Proof.
  eexists. split; [by vm_compute|]. apply (salary_scope_unreachable "Bearer token" 0). by vm_compute.
Defined.

Lemma token_roundtrip_witness :
  RequireAuth "Bearer token" (demo_time + hour) =
    inr {| ctx_claims := asha; ctx_scope := GetScopeForRoles (Roles asha) |}.
Proof.
  refine (token_roundtrip (demo_env 0) (uid 1) "asha@company.com" (Roles asha) 0 demo_db "token" 2
            demo_db (demo_time + hour) _ _ _).
  - exact asha_ascii.
  - by vm_compute.
  - by vm_compute.
Defined.

Lemma login_needs_credentials_witness :
  let x := run (demo_env 0) (HandleLogin (login "secret-1")) 0
             (tput user_roles [{| uro_user_id := uid 1; uro_role_id := uid 3 |};
                               {| uro_user_id := uid 1; uro_role_id := uid 4 |}]
             (tput roles [{| rol_id := uid 3; rol_name := "HR_MANAGER"; rol_description := None |};
                          {| rol_id := uid 4; rol_name := "EMPLOYEE"; rol_description := None |}] demo_db)) in
  exists resp, reply x = Some resp /\ succeeded resp = true
    /\ exists req, body (login "secret-1") = Some req
        /\ credentials (tput user_roles [{| uro_user_id := uid 1; uro_role_id := uid 3 |};
                                         {| uro_user_id := uid 1; uro_role_id := uid 4 |}]
             (tput roles [{| rol_id := uid 3; rol_name := "HR_MANAGER"; rol_description := None |};
                          {| rol_id := uid 4; rol_name := "EMPLOYEE"; rol_description := None |}] demo_db)) req.
Proof.
  eexists. split; [by vm_compute|]. split; [by vm_compute|].
  eapply (login_needs_credentials (demo_env 0) (login "secret-1") 0); [by vm_compute|by vm_compute].
Defined.

Definition suspended_db : Database := tput users [set_usr_is_active false asha_row] demo_db.

Lemma suspended_login_refused_witness :
  run (demo_env 0) (HandleLogin (login "secret-1")) 0 suspended_db =
    (Done (jsonError "account is suspended" StatusForbidden), 1%nat, suspended_db).
Proof.
  apply (suspended_login_refused (demo_env 0) (login "secret-1")
           {| lr_email := "asha@company.com"; lr_password := "secret-1" |} 0 suspended_db
           (set_usr_is_active false asha_row)); done.
Defined.

Definition reset_row : UserRow :=
  forgot_user (hashToken "t0") (demo_time + hour) (set_usr_is_active false asha_row).
Definition reset_request : ResetRequest := {| rr_token := "t0"; rr_password := "new-secret" |}.

Lemma reset_password_effect_witness :
  let x := run (demo_env 0) (HandleResetPassword (demo_request None (Some reset_request) "")) 0
             (tput users [reset_row] demo_db) in
  out x = Done reset_done
  /\ forall v, v ∈ tget users (db_of x) ->
       (usr_id v <> usr_id reset_row -> v ∈ tget users (tput users [reset_row] demo_db))
       /\ (usr_id v = usr_id reset_row ->
            usr_is_active v = true /\ bcrypt_compare (usr_password_hash v) "new-secret" = true
            /\ forall hash t, reset_matches hash t v = false).
Proof.
  apply (reset_password_effect (demo_env 0) (demo_request None (Some reset_request) "") reset_request 0
           (tput users [reset_row] demo_db) reset_row "h:new-secret"); try done.
  vm_compute. lia.
Defined.

Lemma forgot_reset_takeover_witness :
  let x := run (demo_env 500) (HandleForgotPassword (demo_request None (Some "asha@company.com") "")) 0 demo_db in
  let y := run (demo_env 900) (HandleResetPassword (demo_request None
             (Some {| rr_token := uid 500; rr_password := "new-secret" |}) "")) 0 (db_of x) in
  (exists resp, out x = Done resp /\ field "debug_token" resp = Some (JStr (uid 500)))
  /\ out y = Done reset_done
  /\ exists v, v ∈ tget users (db_of y) /\ usr_id v = uid 1 /\ usr_email v = "asha@company.com"
               /\ usr_password_hash v = "h:new-secret" /\ usr_is_active v = true.
Proof.
  apply (forgot_reset_takeover (demo_env 500) (demo_request None (Some "asha@company.com") "") 0 demo_db
           asha_row "asha@company.com" (demo_env 900)
           (demo_request None (Some {| rr_token := uid 500; rr_password := "new-secret" |}) "") 0
           {| rr_token := uid 500; rr_password := "new-secret" |} "h:new-secret"); try done.
  - by apply (bool_decide_eq_true_1 _); vm_compute.
  - by apply (bool_decide_eq_true_1 _); vm_compute.
  - by left.
  - repeat constructor; done.
  - vm_compute. lia.
Defined.

(** ** Authorization *)

Definition leaver : EmpRow :=
  {| emp_id := uid 13; emp_user_id := Some (uid 1); emp_employee_id := "EMP-3";
     emp_first_name := "Asha"; emp_last_name := "Rao"; emp_department_id := None;
     emp_designation_id := None; emp_manager_id := None; emp_reporting_manager_id := None; emp_status := "EXITED";
     emp_joining_date := 0; emp_deleted_at := Some demo_time; emp_location_id := None;
     emp_work_phone := None; emp_employment_type := "PERMANENT"; emp_probation_end_date := None;
     emp_confirmation_date := None; emp_notice_period_days := Some 30; emp_nationality := Some "Indian";
     emp_created_at := 0; emp_updated_at := 0 |}.

Lemma scope_condition_conjunct_witness :
  eval_where [not_deleted; cond_of (rule_of (Some (demo_claims 1 ["EMPLOYEE"])) (uid 11) "")] leaver =
    holds not_deleted leaver
    && holds (cond_of (rule_of (Some (demo_claims 1 ["EMPLOYEE"])) (uid 11) "")) leaver && true.
Proof. by apply (scope_condition_conjunct (Some (demo_claims 1 ["EMPLOYEE"])) (uid 11) "" []). Defined.

Lemma department_fallback_lists_deleted_witness :
  emp_deleted_at leaver <> None
  /\ eval_where [not_deleted; cond_of (rule_of (Some asha) (uid 11) "")] leaver = true.
Proof. split; [done|]. by apply (department_fallback_lists_deleted asha (uid 11) leaver). Defined.

Lemma listed_rows_in_scope_witness :
  in_scope asha (uid 11) "" leaver.
Proof. apply (listed_rows_in_scope asha (uid 11) "" [] leaver); by vm_compute. Defined.

Lemma no_claims_no_rows_witness :
  eval_where [not_deleted; cond_of (rule_of None "" "")] leaver = false.
Proof. by apply (no_claims_no_rows "" "" [] leaver). Defined.

(** ** Audit and salary structures *)

Definition rate_entry : LogEntry :=
  {| le_UserID := uid 1; le_Action := "CURRENCY_RATE_UPDATE"; le_Module := "PAYROLL";
     le_EntityName := "currencies"; le_EntityID := "USD"; le_AfterState := [];
     le_Reason := "Exchange rate updated" |}.

Lemma audit_lost_without_uuid_witness :
  out (run (demo_env 0) (audited rate_entry) 0 demo_db) = Done tt
  /\ db_of (run (demo_env 0) (audited rate_entry) 0 demo_db) = demo_db.
Proof. apply (audit_lost_without_uuid (demo_env 0) rate_entry 0 demo_db); [by right|done]. Defined.

Definition structure_of (currency : string) : StructureRequest :=
  {| sr_EmployeeID := uid 11; sr_CurrencyCode := currency; sr_BaseSalary := of_Z 75000 |}.
Definition save (currency : string) : Request StructureRequest :=
  demo_request hr_admin (Some (structure_of currency)) "".

Lemma save_structure_single_active_witness :
  exists row, active_structures (uid 11)
      (db_of (run (demo_env 500) (HandleSaveStructure (save "")) 0 demo_db)) = [row]
    /\ ess_employee_id row = uid 11 /\ ess_base_salary row = 7500000.
Proof.
  apply (save_structure_single_active (demo_env 500) (save "") (structure_of "") 0 demo_db); try done.
  eexists. split; [vm_compute; reflexivity|done].
Defined.

Lemma save_structure_not_atomic_witness :
  out (run (demo_env 500) (HandleSaveStructure (save "XAU")) 0 demo_db)
    = Done (fail_json StatusInternalServerError fk_error)
  /\ active_structures (uid 11)
       (db_of (run (demo_env 500) (HandleSaveStructure (save "XAU")) 0 demo_db)) = [].
Proof.
  by apply (save_structure_not_atomic (demo_env 500) (save "XAU") (structure_of "XAU") 0 demo_db
              (uid 11) 7500000 "XAU").
Defined.

(** ** Payroll *)

Definition employee_request {B} (b : B) : Request B :=
  demo_request (Some (demo_claims 2 ["EMPLOYEE"])) (Some b) (uid 41).

Lemma payroll_writes_need_role_witness :
  refused (demo_env 0) (HandleTransitionState (employee_request "PUBLISH")) 0 august.
Proof.
  apply (payroll_writes_need_role (demo_env 0) 0 august
           (employee_request {| pr_Month := 9; pr_Year := 2026 |}) (employee_request "PUBLISH")
           (employee_request tt)); done.
Defined.

Definition locked_september : RunRow :=
  {| run_id := uid 42; run_organization_id := uid 100; run_month := 9; run_year := 2026;
     run_status := "LOCKED"; run_processed_at := None; run_processed_by := None;
     run_approved_by := None; run_approved_at := None; run_locked_at := Some demo_time;
     run_total_employees := 2; run_total_gross := 0; run_total_deductions := 0;
     run_total_net_pay := 0; run_total_lop_days := 0; run_total_advances_deducted := 0;
     run_variance_percentage := 0; run_created_at := demo_time |}.

Lemma processing_keeps_locked_runs_witness :
  locked_september ∈ tget payroll_runs
    (db_of (run (demo_env 1000) (HandleProcessPayroll september) 0
              (tput payroll_runs [locked_september] demo_db))).
Proof.
  apply (processing_keeps_locked_runs (demo_env 1000) september 0
           (tput payroll_runs [locked_september] demo_db) locked_september).
  - by apply (bool_decide_eq_true_1 _); vm_compute.
  - by left.
  - by left.
Defined.

Lemma transition_respects_states_witness :
  runs_evolve august (db_of (run (demo_env 0) (HandleTransitionState (run_request "LOCK")) 0 august)).
Proof.
  apply (transition_respects_states (demo_env 0) (run_request "LOCK") 0 august).
  by apply (bool_decide_eq_true_1 _); vm_compute.
Defined.

Definition paid_db : Database := db_of (process_september 1000 demo_db).
Definition ravi : Claims := demo_claims 2 ["EMPLOYEE"].
Definition ravi_list : Request unit := demo_request (Some ravi) None "".

Lemma payslips_scoped_to_caller_witness :
  exists resp l, reply (run (demo_env 0) (HandleGetPayslips ravi_list) 0 paid_db) = Some resp
    /\ field "data" resp = Some (JArr l) /\ length l = 1%nat /\ Forall (own_payslip ravi paid_db) l.
Proof.
  eexists _, _. split; [by vm_compute|]. split; [by vm_compute|]. split; [done|].
  eapply (payslips_scoped_to_caller (demo_env 0) ravi_list ravi 0 paid_db).
  - done.
  - done.
  - apply (bool_decide_eq_true_1 _). by vm_compute.
  - by vm_compute.
  - by vm_compute.
Defined.

Definition claim_on_asha : AdvanceRequest :=
  {| ar_EmployeeID := "EMP-1"; ar_Amount := of_Z 9000; ar_Reason := "festival";
     ar_DeductFromMonth := 10; ar_DeductFromYear := 2026 |}.

Lemma advance_for_anyone_witness :
  let x := run (demo_env 700) (HandleCreateAdvance (employee_request claim_on_asha)) 0 demo_db in
  (exists resp, out x = Done resp /\ succeeded resp = true)
  /\ charged (db_of x) (demo_employee 11 1 "EMP-1" "Asha") 900000 10 2026.
Proof.
  apply (advance_for_anyone (demo_env 700) (employee_request claim_on_asha) ravi claim_on_asha 0 demo_db
           (demo_employee 11 1 "EMP-1" "Asha") 900000); try done.
  by left.
Defined.

Definition opened_db : Database := tput payroll_runs [demo_run 41 "PROCESSING"] demo_db.

Definition slip_amounts (basic hra earnings deductions net : Z) : SlipRow :=
  {| slp_id := ""; slp_payroll_run_id := ""; slp_employee_id := ""; slp_basic_pay := basic;
     slp_hra := hra; slp_total_earnings := earnings; slp_total_deductions := deductions;
     slp_net_pay := net; slp_status := ""; slp_created_at := 0; slp_updated_at := 0 |}.

Lemma opened_payable : payable opened_db (uid 41) 9 2026.
Proof.
  split.
  - by vm_compute.
  - by vm_compute.
  - by apply (bool_decide_eq_true_1 _); vm_compute.
  - split; [by apply (bool_decide_eq_true_1 _); vm_compute|]. by repeat constructor.
  - apply Forall_cons; split; [|apply Forall_cons; split; [|apply Forall_nil; done]];
      (split; [by vm_compute|]; split; [by vm_compute|]).
    + exists (slip_amounts 3000000 1200000 6000000 1480000 4520000). by vm_compute.
    + exists (slip_amounts 3000000 1200000 6000000 980000 5020000). by vm_compute.
Qed.

Lemma payroll_loop_pays_everyone_witness :
  let x := run (demo_env 1000) (for_each (pay_rows opened_db) no_totals
             (process_employee (uid 41) 9 2026)) 0 opened_db in
  (exists t, out x = Done t)
  /\ (forall ep, ep ∈ pay_rows opened_db -> paid opened_db (uid 41) 9 2026 (db_of x) ep)
  /\ spends opened_db 9 2026 (pay_rows opened_db) (db_of x).
Proof.
  apply (payroll_loop_pays_everyone opened_db (uid 41) 9 2026 (demo_env 1000) 0).
  - done.
  - done.
  - exact opened_payable.
Defined.

(** ** Workflow *)

Definition asha_decides : Request unit :=
  demo_request (Some (demo_claims 1 ["HR_ADMIN"])) None (uid 71).

Lemma asha_may_decide : may_decide (claims asha_decides) (uid 71) leave_db.
Proof.
  exists (demo_claims 1 ["HR_ADMIN"]), (uid 12), (uid 2), (uid 11), (uid 1).
  split_and!; try by vm_compute. by left.
Qed.

Lemma decisions_are_final_witness :
  let ps := [HandleApproveTask asha_decides; HandleRejectTask asha_decides] in
  let c := run_schedule (map (fun i => (i, at_time 1)) [0; 1; 0; 1; 0; 1; 0; 1; 0; 1; 0; 1]%nat) (ps, leave_db) in
  steps (ps, leave_db) c /\ tasks_kept leave_db (snd c).
Proof.
  intros ps c. assert (Hst : steps (ps, leave_db) c) by apply run_schedule_steps. split; [exact Hst|].
  apply (decisions_are_final ps leave_db (fst c) (snd c)).
  - apply Forall_cons_2; [right; by eexists _, _, _, _, _|].
    apply Forall_cons_2; [right; by eexists _, _, _, _, _|apply Forall_nil_2].
  - by rewrite <- surjective_pairing.
Defined.

Lemma decision_needs_other_person_witness :
  may_decide (claims asha_decides) (uid 71) leave_db.
Proof.
  apply (decision_needs_other_person (demo_env 0) asha_decides "APPROVED" "approve" "approved" 0 leave_db).
  - by apply (bool_decide_eq_true_1 _); vm_compute.
  - intros Heq. assert (Hl : map lap_status (tget leave_applications (db_of (run (demo_env 0)
      (decide_task "APPROVED" "approve" "approved" asha_decides) 0 leave_db))) =
      map lap_status (tget leave_applications leave_db)) by (by rewrite Heq).
    by vm_compute in Hl.
Defined.

Lemma leave_approval_effect_witness :
  let x := run (demo_env 0) (HandleApproveTask asha_decides) 0 leave_db in
  out x = Done (ok_json [("message", JStr "Task approved successfully")])
  /\ db_of x = tput leave_applications
      (set_where (fun a => (lap_id a =?s uid 71) && (lap_status a =?s "PENDING")) (set_lap_status "APPROVED")
         (tget leave_applications leave_db)) leave_db.
Proof.
  apply (leave_approval_effect (demo_env 0) asha_decides 0 leave_db (uid 71) "APPROVED"); try done.
  exact asha_may_decide.
Defined.

(** ** Leave *)

Definition casual_type : TypeRow :=
  {| lty_id := uid 61; lty_name := "Casual"; lty_code := None; lty_accrual_frequency := None;
     lty_accrual_days := None; lty_max_carry_forward := Some 0; lty_sandwich_rule := None;
     lty_allow_half_day := None; lty_encashable := None |}.

Definition casual_policy : PolRow :=
  {| pol_id := uid 62; pol_leave_type_id := uid 61; pol_policy_name := "Casual Default Policy";
     pol_accrual_frequency := "MONTHLY"; pol_accrual_rate := 125; pol_max_carry_forward_days := 5;
     pol_sandwich_rule_enabled := false; pol_is_encashable := true; pol_updated_at := demo_time |}.

Definition types_db : Database :=
  tput leave_policies [casual_policy] (tput leave_types [casual_type] demo_db).

(** Friday to Monday: two days, or four with the rule. *)
Lemma sandwich_rule_counts_witness :
  let friday := days_of 2026 9 4 * day_us in
  let monday := days_of 2026 9 7 * day_us in
  EvaluateSandwichRule friday monday false = Some (of_Z 2)
  /\ EvaluateSandwichRule friday monday true = Some (of_Z 4).
Proof.
  split; [apply (sandwich_rule_counts (days_of 2026 9 4 * day_us) (days_of 2026 9 7 * day_us) false)
         |apply (sandwich_rule_counts (days_of 2026 9 4 * day_us) (days_of 2026 9 7 * day_us) true)];
    by vm_compute.
Defined.

(** 999 days of leave between two dates in the wrong order. *)
Definition odd_application : ApplicationRequest :=
  {| ap_LeaveTypeID := uid 61; ap_LeaveType := ""; ap_StartDate := "2026-10-09"; ap_EndDate := "2026-10-05";
     ap_TotalDays := 999; ap_Reason := "family" |}.

Lemma application_created_witness :
  let x := run (demo_env 900) (HandleCreateApplication (employee_request odd_application)) 0 types_db in
  (exists resp, out x = Done resp /\ status resp = StatusCreated)
  /\ exists c, db_of x = tput leave_applications
       (tget leave_applications types_db
        ++ [applied odd_application (uid 12) (uid 61) (days_of 2026 10 9) (days_of 2026 10 5) c]) types_db.
Proof.
  apply (application_created (demo_env 900) (employee_request odd_application) ravi odd_application 0 types_db
           (demo_employee 12 2 "EMP-2" "Ravi") (uid 12) (uid 61) (days_of 2026 10 9) (days_of 2026 10 5)); try done; by vm_compute.
Defined.

Definition admin_request {B} (b : B) : Request B :=
  demo_request (Some (demo_claims 1 ["HR_ADMIN"])) (Some b) "".

Lemma batch_accrual_updates_nothing_witness :
  let x := run (demo_env 900) (HandleProcessBatchAccruals (admin_request tt)) 0 types_db in
  out x = Done (batch_report 2) /\ tget leave_balances (db_of x) = tget leave_balances types_db.
Proof.
  apply (batch_accrual_updates_nothing (demo_env 900) (admin_request tt) 0 types_db); done.
Defined.

(** A user without an employee record asks, the first employee is credited. *)
Definition stranger : Claims := demo_claims 9 ["EMPLOYEE"].
Definition two_days : LeaveEncashmentItem :=
  {| lei_ID := ""; lei_EmployeeID := ""; lei_EmployeeCode := ""; lei_EmployeeName := "";
     lei_LeaveTypeID := uid 61; lei_LeaveTypeName := ""; lei_DaysToEncash := of_Z 2; lei_PerDayRate := f0;
     lei_TotalAmount := f0; lei_Status := ""; lei_Reason := ""; lei_ApprovedBy := ""; lei_ApprovedAt := "";
     lei_CreatedAt := "" |}.

Lemma encashment_submitted_witness :
  let r := demo_request (Some stranger) (Some two_days) "" in
  let x := run (demo_env 900) (HandleSubmitEncashment r) 0 types_db in
  (exists resp, out x = Done resp /\ succeeded resp = true)
  /\ exists row, db_of x = tput leave_encashment_requests (tget leave_encashment_requests types_db ++ [row]) types_db
    /\ enc_employee_id row = uid 11 /\ enc_status row = "PENDING" /\ enc_days_to_encash row = 200
    /\ enc_per_day_rate row = 200000 /\ enc_total_amount row = 400000.
Proof.
  apply (encashment_submitted (demo_env 900) (demo_request (Some stranger) (Some two_days) "") stranger two_days 0
           types_db (uid 11) (uid 11) (uid 61)); try done; try by vm_compute.
  by apply (bool_decide_eq_true_1 _); vm_compute.
Defined.

(** A request already paid out is marked REJECTED by the action PAY. *)
Definition paid_request : EncRow :=
  {| enc_id := uid 81; enc_employee_id := uid 12; enc_leave_type_id := uid 61; enc_days_to_encash := 200;
     enc_per_day_rate := 200000; enc_total_amount := 400000; enc_status := "PAID"; enc_reason := None;
     enc_approved_by := Some (uid 1); enc_approved_at := Some demo_time; enc_created_at := demo_time;
     enc_updated_at := demo_time |}.

Lemma review_overwrites_status_witness :
  let r := admin_request {| rv_EncashmentID := uid 81; rv_Action := "PAY" |} in
  let d := tput leave_encashment_requests [paid_request] types_db in
  let x := run (demo_env 900) (HandleReviewEncashment r) 0 d in
  (exists resp, out x = Done resp /\ field "status" resp = Some (JStr "REJECTED"))
  /\ exists t, tget leave_encashment_requests (db_of x) = [reviewed t (uid 1) "REJECTED" paid_request].
Proof.
  apply (review_overwrites_status (demo_env 900) (admin_request {| rv_EncashmentID := uid 81; rv_Action := "PAY" |})
           {| rv_EncashmentID := uid 81; rv_Action := "PAY" |} 0
           (tput leave_encashment_requests [paid_request] types_db) (uid 1) (uid 81)); done.
Defined.

(** ** Attendance and helpdesk *)

Definition punch_request (action : string) : Request PunchRequest :=
  employee_request {| pn_Action := action; pn_Notes := "gate" |}.

(** In, out, and in again: the first punch stays. *)
Definition punched (n : Z) : StmtCtx := {| sc_now := demo_time + n * 3600000000; sc_uuid := uid (900 + n) |}.

Lemma punches_keep_first_in_witness :
  let ps := [HandlePunch (punch_request "CHECK_IN"); HandlePunch (punch_request "CHECK_OUT");
             HandlePunch (punch_request "CHECK_IN")] in
  let c1 := run_schedule (map (fun i => (i, punched (Z.of_nat i))) [0; 0; 0; 0; 1; 1; 1; 1]%nat) (ps, demo_db) in
  let c2 := run_schedule (map (fun i => (i, punched (Z.of_nat i))) [2; 2; 2; 2]%nat) c1 in
  map day_first_in (tget attendance_daily_status (snd c1)) = [Some demo_time]
  /\ first_in_kept (tget attendance_daily_status (snd c1)) (tget attendance_daily_status (snd c2)).
Proof.
  intros ps c1 c2. split; [by vm_compute|].
  set (ps1 := [HandlePunch (punch_request "CHECK_IN")]).
  set (s1 := run_schedule (map (fun i => (0%nat, punched (Z.of_nat i))) [2; 2; 2; 2]%nat) (ps1, snd c1)).
  assert (Heq : tget attendance_daily_status (snd c2) = tget attendance_daily_status (snd s1)) by by vm_compute.
  rewrite Heq. apply (punches_keep_first_in ps1 (snd c1) (fst s1) (snd s1)).
  - apply Forall_cons_2; [by eexists|apply Forall_nil_2].
  - rewrite <- surjective_pairing. apply run_schedule_steps.
Defined.

Definition demo_day (n emp : Z) (st : string) : DayRow :=
  {| day_id := uid n; day_employee_id := uid emp; day_date := days_of 2026 9 29; day_first_in := None;
     day_last_out := None; day_status := "ABSENT"; day_late_by_minutes := 0; day_validation_status := st;
     day_worked_hours := 0; day_expected_hours := 800; day_ot_hours := 0; day_validated_by := None;
     day_validated_at := None; day_validation_comments := None; day_updated_at := demo_time |}.

Definition days_db : Database :=
  tput attendance_daily_status [demo_day 91 11 "REJECTED"; demo_day 92 12 "TO_VALIDATE"] demo_db.

(** A rejected day is validated by an unknown action; an unknown identifier counts. *)
Definition odd_batch : BatchValidationRequest :=
  {| bv_IDs := [uid 91; "nothing"]; bv_Action := "SKIP"; bv_Comments := "ok" |}.

Lemma batch_validation_effect_witness :
  let x := run (demo_env 900) (HandleBatchValidation (admin_request odd_batch)) 0 days_db in
  out x = Done (batch_done 2 "VALIDATED")
  /\ Forall2 (validated [uid 91; "nothing"] "VALIDATED") [demo_day 91 11 "REJECTED"; demo_day 92 12 "TO_VALIDATE"]
       (tget attendance_daily_status (db_of x)).
Proof.
  apply (batch_validation_effect (demo_env 900) (admin_request odd_batch) odd_batch 0 days_db); try done.
  by repeat constructor.
Defined.

(** A rejected request of Ravi, approved without any identity. *)
Definition ravi_request : RegRow :=
  {| reg_id := uid 95; reg_employee_id := uid 12; reg_requested_check_in := Some (demo_time + 9 * 3600000000);
     reg_requested_check_out := Some (demo_time + 18 * 3600000000); reg_reason := Some "forgot";
     reg_status := "REJECTED"; reg_created_at := demo_time |}.

Lemma approval_needs_no_role_witness :
  let d := tput regularization_requests [ravi_request] days_db in
  let x := run (demo_env 900) (HandleApproveRequest (demo_request (B := unit) None None (uid 95))) 0 d in
  out x = Done (ok_json [("message", JStr "Request approved")])
  /\ List.find (fun q => reg_id q =?s uid 95) (tget regularization_requests (db_of x))
       = Some (set_reg_status "APPROVED" ravi_request)
  /\ attended ravi_request (demo_time + 9 * 3600000000) (demo_time + 18 * 3600000000) (db_of x).
Proof.
  apply (approval_needs_no_role (demo_env 900) (demo_request (B := unit) None None (uid 95)) 0
           (tput regularization_requests [ravi_request] days_db) (uid 95)); done.
Defined.

(** Shift 09:00 to 18:00 with 15 minutes of grace: 09:24:30 to 17:25. *)
Lemma shift_exception_spec_witness :
  let day := days_of 2026 9 30 * 86400 in
  EvaluateShiftException (at_second (day + 33870)) (at_second (day + 62700)) (at_second (day + 32400))
    (at_second (day + 64800)) 15 = ("BOTH", 24, 35).
Proof.
  apply (shift_exception_spec (days_of 2026 9 30 * 86400 + 33870) (Some (days_of 2026 9 30 * 86400 + 62700))
           (days_of 2026 9 30 * 86400 + 32400) (days_of 2026 9 30 * 86400 + 64800) 15).
  - done.
  - done.
  - lia.
  - by vm_compute.
Defined.

Definition monday_request : AttendanceRequest :=
  {| at_EmployeeID := ""; at_Date := "2026-09-28"; at_CheckIn := "09:00"; at_CheckOut := "18:00"; at_Reason := "forgot" |}.

Lemma submit_request_fails_witness :
  let x := run (demo_env 900) (HandleSubmitRequest (employee_request monday_request)) 0 demo_db in
  db_of x = demo_db /\ forall resp, reply x = Some resp -> succeeded resp = false.
Proof. by apply (submit_request_fails (demo_env 900) (employee_request monday_request) 0 demo_db). Defined.

Lemma sla_breach_exact_witness :
  EvaluateSLABreach 86400000001 0 24 "OPEN" = true /\ EvaluateSLABreach 86400000000 0 24 "OPEN" = false.
Proof.
  assert (Hmax : 24 <= max_sla_hours) by (apply Z.leb_le; by vm_compute).
  split.
  - rewrite (proj1 (sla_breach_exact 86400000001 0 24 "OPEN") Hmax). by vm_compute.
  - rewrite (proj1 (sla_breach_exact 86400000000 0 24 "OPEN") Hmax). by vm_compute.
Defined.
