(* ===== verification/PeopleWitnesses.v ===== *)
(** * Witnesses: accounts, employees, imports, jobs and the log of accesses

    The theorems of these components that have hypotheses, applied to the concrete
    server and databases of [Demo], where the hypotheses hold. *)

From stdpp Require Import gmap.
From S2P Require Import Prelude Float64 Go Csv CsvProps Fairness Sql Tx Schema Calendar Demo Common Auth DemoCrypto Authz User UserProps Importer ImporterProps ImportScenarios Employee EmployeeProps Jobs JobsProps Security Lifecycle Document Onboarding Organization Configuration Attendance AttendanceReports.

#[local] Open Scope Z_scope.

(** Dates come out of the driver as text. *)
#[local] Instance demo_driver : Driver := {| date_to_string := fun z => Some (date_text z); time_to_string := fun t => Some (iso_text t) |}.

(** [demo_db] with roles: Asha is an administrator, Ravi an employee. *)
Definition staffed_db : Database :=
  tput user_roles [{| uro_user_id := uid 1; uro_role_id := uid 3 |};
                   {| uro_user_id := uid 2; uro_role_id := uid 4 |}]
  (tput roles [{| rol_id := uid 3; rol_name := "SUPER_ADMIN"; rol_description := None |};
               {| rol_id := uid 4; rol_name := "EMPLOYEE"; rol_description := None |}] demo_db).

Definition admin_claims : Claims := demo_claims 1 ["SUPER_ADMIN"].

(** ** Accounts *)

Definition create_meera : Request CreateUserRequest :=
  demo_request (Some admin_claims)
    (Some {| cu_Email := "meera@company.com"; cu_Password := "secret-77"; cu_Role := "EMPLOYEE";
             cu_EmployeeID := None |}) "".

Definition promote_ravi : Request string := demo_request (Some admin_claims) (Some "SUPER_ADMIN") (uid 2).

(** An account is created while a role is changed and an account deleted. *)
Definition account_requests : list (prog Database Response) :=
  [HandleCreateUser create_meera; HandleUpdateRole promote_ravi;
   HandleDeleteUser (demo_request (Some admin_claims) (Some tt) (uid 2))].
Definition account_schedule : list (nat * StmtCtx) :=
  map (fun k => (k mod 3, {| sc_now := demo_time; sc_uuid := uid (500 + Z.of_nat k) |})%nat) (seq 0 36).

Lemma staffed_have_roles : users_have_roles staffed_db.
Proof.
  intros u Hu. change (tget users staffed_db) with [demo_user 1 "asha@company.com"; demo_user 2 "ravi@company.com"] in Hu.
  apply elem_of_cons in Hu as [->|Hu]; [eexists; split; [apply list_elem_of_here|done]|].
  apply elem_of_cons in Hu as [->|Hu]; [|by apply elem_of_nil in Hu].
  eexists; split; [apply list_elem_of_further, list_elem_of_here|done].
Qed.



Lemma role_change_effect_witness :
  role_changed (uid 2) (uid 3) staffed_db
    (db_of (run (demo_env 500) (HandleUpdateRole promote_ravi) 0 staffed_db)).
Proof.
  by eapply (role_change_effect (demo_env 500) promote_ravi "SUPER_ADMIN"
            {| rol_id := uid 3; rol_name := "SUPER_ADMIN"; rol_description := None |} 0 staffed_db).
Defined.

Definition ravi_audited : AuditRow :=
  {| aud_id := uid 900; aud_user_id := uid 2; aud_action := "CREATE"; aud_module := "LEAVE";
     aud_entity_name := "leave"; aud_entity_id := uid 901; aud_after_state := []; aud_reason := "";
     aud_created_at := demo_time |}.
Definition audited_db : Database := tput audit_logs [ravi_audited] staffed_db.

Lemma deleted_account_remains_witness :
  let x := run (demo_env 500) (HandleDeleteUser (demo_request (Some admin_claims) (Some tt) (uid 2))) 0 audited_db in
  reply x = Some (ok_json [("message", JStr "User deleted")]) /\ tget users (db_of x) = tget users audited_db.
Proof.
  assert (Hin : ravi_audited ∈ tget audit_logs audited_db) by apply list_elem_of_here.
  destruct (deleted_account_remains (demo_env 500) (demo_request (Some admin_claims) (Some tt) (uid 2)) (uid 2)
              ravi_audited 0 audited_db) as (Hr & Hu & _); try done.
Defined.

(** ** Imports *)

Definition people_header : list string := ["email"; "first_name"; "last_name"; "join_date"].
Definition people_rows : list (list string) :=
  [["meera@company.com"; "Meera"; "Iyer"; "2020-01-15"]; [""; "Kiran"; "Das"; ""]].

Lemma upload_stored_whole_witness :
  let x := upload (people_header :: people_rows) in
  exists b, stored people_header people_rows b demo_db (db_of x).
Proof.
  destruct (upload_stored_whole (demo_env 1000) (csv_upload (people_header :: people_rows))
              (csv.write_file (people_header :: people_rows)) 0 demo_db) as [H|H]; try done.
  - exfalso. destruct H as [_ (resp & Hr & Hs)]. vm_compute in Hr. injection Hr as <-. by vm_compute in Hs.
  - destruct H as (headers & rows & b & Hf & _ & _ & Hb). exists b.
    assert (Hr : csv.read_file (csv.write_file (people_header :: people_rows)) = Some (people_header :: people_rows))
      by by vm_compute.
    rewrite Hr in Hf. injection Hf as <- <-. exact Hb.
Defined.

Definition uploaded_db : Database := db_of (run (demo_env 1000) (store_upload people_header people_rows) 0 demo_db).

Lemma uploaded_ids : NoDup (map imr_id (tget import_rows uploaded_db)).
Proof.
  replace (map imr_id (tget import_rows uploaded_db)) with [uid 1002; uid 1003] by (vm_compute; reflexivity).
  apply (bool_decide_eq_true_1 _). by vm_compute.
Qed.

Lemma processing_settles_rows_witness :
  let id := first_batch uploaded_db in
  let x := run (demo_env 2000) (HandleProcessBatch (process_request id)) 0 uploaded_db in
  length (valid_rows_of id uploaded_db) = 1%nat /\ valid_rows_of id (db_of x) = []
  /\ forall y, y ∈ valid_rows_of id uploaded_db -> settled_as (db_of x) y.
Proof.
  split; [by vm_compute|].
  destruct (processing_settles_rows (demo_env 2000) (process_request (first_batch uploaded_db)) 0 uploaded_db
              (demo_reliable 2000) demo_no_failure uploaded_ids) as [H|H].
  - exfalso. destruct H as (m & y & k & Hp & _). by vm_compute in Hp.
  - exact (proj2 H).
Defined.

(** ** Employees *)

Definition get_request (c : Claims) (id : string) : Request unit := demo_request (Some c) (Some tt) id.

Definition self_claims : Claims := demo_claims 2 ["EMPLOYEE"].

Lemma employee_list_in_scope_witness :
  let x := run (demo_env 500) (HandleListEmployees (get_request self_claims "")) 0 demo_db in
  exists resp l, reply x = Some resp /\ field "data" resp = Some (JArr l) /\ length l = 1%nat
  /\ exists k, caller_known self_claims demo_db k
     /\ Forall (fun j => exists e, e ∈ tget employees demo_db /\ in_scope self_claims (fst k) (snd k) e
                        /\ j = JObj (employee_fields demo_db [] e)) l.
Proof.
  eexists _, _. split; [by vm_compute|]. split; [by vm_compute|]. split; [by vm_compute|].
  eapply (employee_list_in_scope (demo_env 500) (get_request self_claims "") self_claims 0 demo_db);
    [by vm_compute|by vm_compute|by vm_compute].
Defined.

(** The two employees of the company, for an administrator. *)
Lemma export_reads_back_witness :
  exists table, csv.read_file (csv.write_file table)
    = Some (export_header :: map (fun e => map lf_text (export_row demo_db e)) (exported demo_db)).
Proof.
  destruct (export_reads_back (demo_env 500) (get_request (demo_claims 1 ["HR_ADMIN"]) "") 0 demo_db
              (default db_unavailable (reply (run (demo_env 500) (HandleExportCSV (get_request (demo_claims 1 ["HR_ADMIN"]) "")) 0 demo_db))))
    as (table & _ & Ht & _); [by vm_compute|by vm_compute|]. by exists table.
Defined.

Lemma profile_within_rights_witness :
  status (default db_unavailable (reply (run (demo_env 500) (HandleGetEmployee (get_request self_claims "me")) 0 demo_db))) = 200
  /\ profile_answer self_claims demo_db
    (out (run (demo_env 500) (HandleGetEmployee (get_request self_claims "me")) 0 demo_db)).
Proof. split; [by vm_compute|]. by apply profile_within_rights. Defined.

(** An HR manager reads the profile of an employee of no department of hers. *)
Lemma department_scope_reads_any_profile_witness :
  exists resp phone rest,
    reply (run (demo_env 500) (HandleGetEmployee (get_request asha (uid 12))) 0 demo_db) = Some resp
    /\ status resp = StatusOK
    /\ field "data" resp = Some (JObj (employee_fields demo_db phone (demo_employee 12 2 "EMP-2" "Ravi") ++ rest)).
Proof.
  eapply (department_scope_reads_any_profile (demo_env 500) (get_request asha (uid 12)) asha); try done.
Defined.

Definition hire_meera : Request CreateEmployeeRequest :=
  demo_request (Some admin_claims)
    (Some {| ce_FirstName := "Meera"; ce_LastName := "Iyer"; ce_WorkEmail := "meera@company.com";
             ce_JoiningDate := "2026-10-01"; ce_DepartmentID := None; ce_DesignationID := None;
             ce_LocationID := None; ce_ManagerID := Some (uid 11); ce_EmploymentType := ""; ce_Gender := None;
             ce_DateOfBirth := Some "1995-05-05"; ce_PhoneNumber := None |}) "".


Definition no_change : UpdateEmployeeRequest :=
  {| ue_FirstName := None; ue_LastName := None; ue_WorkEmail := None; ue_DepartmentID := None;
     ue_DesignationID := None; ue_LocationID := None; ue_ManagerID := None; ue_EmploymentType := None;
     ue_NoticePeriodDays := None; ue_ProbationEndDate := None; ue_Status := Some "NOTICE_PERIOD" |}.

Definition update_ravi (id : string) : Request UpdateEmployeeRequest :=
  demo_request (Some admin_claims) (Some no_change) id.

Lemma employee_update_partial_witness :
  let x := run (demo_env 500) (HandleUpdateEmployee (update_ravi (uid 12))) 0 demo_db in
  exists l, db_of x = tput employees l demo_db
  /\ Forall2 (fun e e' => if emp_id e =?s uid 12 then patched no_change e e' else e' = e)
       (tget employees demo_db) l.
Proof.
  destruct (employee_update_partial (demo_env 500) (update_ravi (uid 12)) 0 demo_db demo_no_failure) as [H|H].
  - exfalso. destruct H as [_ (resp & Hr & Hs)]. vm_compute in Hr. injection Hr as <-. by vm_compute in Hs.
  - destruct H as (req & u & l & Hb & _ & Hu & _ & Hd & Hl). injection Hb as <-. injection Hu as <-. by exists l.
Defined.

(** An identifier that nobody has is reported as updated. *)
Example unknown_employee_updated :
  let x := run (demo_env 500) (HandleUpdateEmployee (update_ravi (uid 999))) 0 demo_db in
  reply x = Some (ok_json [("message", JStr "Employee updated")])
  /\ map emp_status (tget employees (db_of x)) = map emp_status (tget employees demo_db).
Proof. by vm_compute. Qed.

(** ** Jobs *)

Definition trigger (key : string) : Request TriggerJobRequest :=
  demo_request (Some admin_claims) (Some {| tj_JobName := "LEAVE_ACCRUAL"; tj_IdempotencyKey := key |}) "".

(** 30 September 2026, in nanoseconds. *)
Definition job_time : Z := days_of 2026 9 30 * day_ns.

(** Two triggers of one key and one of another, taking turns. *)
Definition job_schedule : list (nat * StmtCtx) :=
  map (fun k => (k mod 3, {| sc_now := job_time + Z.of_nat k; sc_uuid := "" |})%nat) (seq 0 12).

Lemma scheduled_triggers_answered_witness :
  let '(ps, s) := run_schedule job_schedule (triggers job_time [trigger "a"; trigger "b"; trigger "a"]) in
  Forall (fun p => is_Some (answered p)) ps /\ forall k, is_active s k = false.
Proof.
  apply (scheduled_triggers_answered job_time [trigger "a"; trigger "b"; trigger "a"] job_schedule).
  intros i Hi. simpl in Hi. destruct i as [|[|[|i]]]; [by vm_compute; lia|by vm_compute; lia|by vm_compute; lia|lia].
Defined.

Definition trigger_a : TriggerJobRequest := {| tj_JobName := "LEAVE_ACCRUAL"; tj_IdempotencyKey := "a" |}.

Lemma trigger_a_admissible : admissible (trigger "a") trigger_a.
Proof. by unfold admissible. Qed.

Lemma trigger_runs_once_witness :
  let s := NewService job_time in
  exists e, je_IdempotencyKey e = "a"
    /\ history (db_of (run (calm job_time (fun _ => "")) (HandleTriggerJob (trigger "a")) 0 s)) = e :: history s.
Proof.
  assert (Hold : Forall (fun h => recent job_time "a" h = false) (history (NewService job_time))).
  { apply Forall_forall. intros h Hh. repeat (apply elem_of_cons in Hh as [->|Hh]; [done|]). by apply elem_of_nil in Hh. }
  destruct (trigger_runs_once (calm job_time (fun _ => "")) (calm job_time (fun _ => "")) (trigger "a") trigger_a 0 10
              (NewService job_time) (fun _ => eq_refl) (fun _ => eq_refl) trigger_a_admissible eq_refl Hold)
    as (e & _ & Hk & _ & Hh & _); [by vm_compute|]. exists e. exact (conj Hk Hh).
Defined.

(** ** The log of accesses and the masks *)

Lemma identifier_masked_witness :
  MaskSensitiveField "123456789012" "bank_account" = "********9012"
  /\ String.length (MaskSensitiveField "123456789012" "bank_account") = 12%nat.
Proof.
  split; [by vm_compute|].
  assert (Hv : TrimSpace "123456789012" <> "") by (vm_compute; congruence).
  pose proof (identifier_masked "123456789012" "bank_account" eq_refl Hv) as Hm.
  vm_compute in Hm |- *. exact (proj1 Hm).
Defined.

Definition log_export : Request AccessReq :=
  demo_request (Some self_claims)
    (Some {| ar_Module := "PAYROLL"; ar_Action := "EXPORT"; ar_ResourceID := uid 11 |}) "".

Lemma access_acknowledged_witness :
  exists d', reply (run (demo_env 500) (HandleLogAccess log_export "10.0.0.7:51000" "curl") 0 demo_db)
    = Some (ok_json [("message", JStr "Data access logged.")])
  /\ (d' = demo_db \/ exists row, is_access self_claims
        {| ar_Module := "PAYROLL"; ar_Action := "EXPORT"; ar_ResourceID := uid 11 |} "10.0.0.7:51000" "curl" row
        /\ d' = tput data_access_logs (tget data_access_logs demo_db ++ [row]) demo_db).
Proof.
  exists (db_of (run (demo_env 500) (HandleLogAccess log_export "10.0.0.7:51000" "curl") 0 demo_db)).
  destruct (wp_run true (demo_env 500) (HandleLogAccess log_export "10.0.0.7:51000" "curl") 0 demo_db _
    (fun _ => demo_reliable 500)
    (access_acknowledged log_export self_claims
       {| ar_Module := "PAYROLL"; ar_Action := "EXPORT"; ar_ResourceID := uid 11 |} "10.0.0.7:51000" "curl"
       demo_db demo_no_failure eq_refl eq_refl ltac:(done) ltac:(done))) as (Ho & Hd & _).
  split; [by vm_compute|exact Hd].
Defined.

(** ** Probation, and the columns that the migrations leave out *)

Definition on_probation (days : Z) (e : EmpRow) : EmpRow :=
  set_emp_status "PROBATION" (set_emp_probation_end_date (Some (days_of 2026 9 30 + days)) e).

Definition probation_db : Database :=
  tput employees [on_probation 9 (demo_employee 11 1 "EMP-1" "Asha"); on_probation (-2) (demo_employee 12 2 "EMP-2" "Ravi")]
    demo_db.

Lemma probation_dashboard_witness :
  let today := date_of_time demo_time in
  exists l, length l = 2%nat /\ l ≡ₚ where_ (probation_due today) (tget employees probation_db)
  /\ reply (run (demo_env 500) HandleGetProbationDue 0 probation_db) = Some (ok_json [("data", dashboard_json
       {| Overdue := map (probation_item today probation_db) (where_ (fun e => days_left today e <? 0) l);
          Next7Days := map (probation_item today probation_db) (where_ (among today 0 7) l);
          Next15Days := map (probation_item today probation_db) (where_ (among today 8 15) l);
          Next30Days := map (probation_item today probation_db) (where_ (among today 16 30) l) |})]).
Proof.
  destruct (probation_dashboard (demo_env 500) 0 probation_db (demo_reliable 500) demo_no_failure)
    as (l & Hp & _ & Hr).
  exists l. split; [rewrite Hp; by vm_compute|]. exact (conj Hp Hr).
Defined.

(** On the migrated schema no document and no onboarding instance is ever found, and
    the departments are always the samples. *)
Example migrated_lists : 
  mem_s "document_type_id" (columns "employee_documents") = false
  /\ mem_s "id" (columns "onboarding_instances") = false
  /\ mem_s "description" (columns "departments") = false.
Proof. done. Qed.

(** ** Reports of attendance *)

#[local] Instance demo_ratio : NumericRatio := {| percent_of := fun n total => (of_Z (100 * n) / of_Z total)%f64 |}.

Definition present_day (n emp : Z) : DayRow :=
  {| day_id := uid n; day_employee_id := uid emp; day_date := date_of_time demo_time; day_first_in := Some demo_time;
     day_last_out := None; day_status := "PRESENT"; day_late_by_minutes := 0; day_validation_status := "TO_VALIDATE";
     day_worked_hours := 0; day_expected_hours := 800; day_ot_hours := 0; day_validated_by := None;
     day_validated_at := None; day_validation_comments := None; day_updated_at := demo_time |}.

(** Ravi, an employee, sees his own day and not that of Asha. *)
Lemma activities_in_scope_witness :
  let d := tput attendance_daily_status [present_day 41 11; present_day 42 12] demo_db in
  exists resp l, reply (run (demo_env 500) (HandleGetActivities (get_request self_claims "")) 0 d) = Some resp
  /\ field "data" resp = Some (JArr l) /\ length l = 1%nat
  /\ exists emp, caller_record_of self_claims d emp
     /\ Forall (fun j => exists a e, a ∈ tget attendance_daily_status d /\ e ∈ tget employees d
                          /\ emp_id e = day_employee_id a /\ report_allowed self_claims emp e
                          /\ j = activity_json (a, e)) l.
Proof.
  intros d. eexists _, _. split; [by vm_compute|]. split; [by vm_compute|]. split; [by vm_compute|].
  eapply (activities_in_scope (demo_env 500) (get_request self_claims "") self_claims 0 d);
    [exact demo_no_failure|reflexivity|by vm_compute|by vm_compute].
Defined.
