(* ===== verification/ApiWitnesses.v ===== *)
(** * Witnesses: the server

    One router, one decoding of bodies and the company of [Demo], at which the theorems
    of [ApiProps] apply. *)

From stdpp Require Import gmap.
From S2P Require Import Prelude Float64 Go Sql Schema Calendar Demo Auth DemoCrypto User Importer Employee Jobs Helpdesk Attendance AttendanceAdmin AttendanceReports Api ApiProps References History HistoryRoutes Witnesses.

#[local] Open Scope Z_scope.

(** The first route whose pattern is the path itself. *)
Fixpoint exact_route (i : nat) (l : list (string * string)) (m p : string) : option (nat * (string -> string)) :=
  match l with
  | [] => None
  | (m', p') :: l' => if (m =?s m') && (p =?s p') then Some (i, fun _ => "") else exact_route (S i) l' m p
  end.

#[local] Instance demo_mux : Mux :=
  {| match_route := exact_route 0; unmatched := fun _ => http_error "404 page not found" StatusNotFound |}.

#[local] Instance demo_driver : Driver :=
  {| date_to_string := fun z => Some (date_text z); time_to_string := fun t => Some (iso_text t) |}.
#[local] Instance demo_ratio : NumericRatio := {| percent_of := fun n total => (of_Z (100 * n) / of_Z total)%f64 |}.
#[local] Instance demo_math : Math := {| Sin := fun x => x; Cos := fun x => x; Sqrt := fun x => x; Atan2 := fun x _ => x |}.

(** The body of a login is the password of Asha, that of a punch its action; the other
    bodies are not decoded. *)
#[local] Instance demo_bodies : Bodies := {|
    body_login := fun s => Some {| lr_email := "asha@company.com"; lr_password := s |};
    body_field := fun _ _ => None; body_reset := fun _ => None; body_regularize := fun _ => None;
    body_punch := fun s => Some {| pn_Action := s; pn_Notes := "gate" |}; body_attendance := fun _ => None; body_validation := fun _ => None;
    body_exception := fun _ => None; body_justification := fun _ => None; body_rules := fun _ => None;
    body_allowlist := fun _ => None; body_geofence := fun _ => None; body_biometric := fun _ => None;
    body_doctype := fun _ => None; body_hire := fun _ => None; body_update := fun _ => None;
    body_grade := fun _ => None; body_category := fun _ => None; body_ticket := fun _ => None;
    body_action := fun _ => None; body_upload := fun _ => None; body_job := fun _ => None;
    body_leave := fun _ => None; body_policy := fun _ => None; body_encashment := fun _ => None;
    body_review := fun _ => None; body_currency := fun _ => None; body_preview := fun _ => None;
    body_structure := fun _ => None; body_template := fun _ => None; body_task := fun _ => None;
    body_location := fun _ => None; body_designation := fun _ => None; body_department := fun _ => None;
    body_process := fun _ => None; body_advance := fun _ => None; body_cycle := fun _ => None;
    body_goal := fun _ => None; body_progress := fun _ => None; body_appraisal := fun _ => None;
    body_pip := fun _ => None; body_offer := fun _ => None; body_access := fun _ => None;
    body_account := fun _ => None; body_invite := fun _ => None; body_bulk := fun _ => None
  |}.

Definition http (m p auth b : string) : HttpRequest :=
  {| hr_Method := m; hr_Path := p; hr_Authorization := auth; hr_query := fun _ => ""; hr_Body := b;
     hr_RemoteAddr := "10.0.0.1"; hr_UserAgent := "test" |}.

Definition demo_app : App :=
  {| app_db := tput user_roles [{| uro_user_id := uid 1; uro_role_id := uid 3 |};
                                {| uro_user_id := uid 1; uro_role_id := uid 4 |}]
               (tput roles [{| rol_id := uid 3; rol_name := "HR_MANAGER"; rol_description := None |};
                            {| rol_id := uid 4; rol_name := "EMPLOYEE"; rol_description := None |}] demo_db);
     app_jobs := {| history := []; active := ∅ |} |}.

(** The list of employees without a token. *)
Lemma unauthenticated_requests_stopped_witness :
  exists resp, run_api "" (demo_env 500) (http "GET" "/api/v1/employees/" "" "") 0 demo_app = (Done resp, 1%nat, demo_app)
  /\ status resp = StatusUnauthorized.
Proof.
  eexists. eapply (unauthenticated_requests_stopped "" (demo_env 500) (http "GET" "/api/v1/employees/" "" "") 0 demo_app).
  - reflexivity.
  - apply (bool_decide_unpack _). by vm_compute.
  - reflexivity.
Defined.

Definition tickets_call : HttpRequest := http "GET" "/api/v1/helpdesk/tickets" "Bearer token" "".

(** The tickets, for Asha with two writings of her token. *)
Lemma open_routes_serve_everybody_witness :
  run_api "" (demo_env 500) (with_authorization "Bearer token" tickets_call) 0 demo_app
  = run_api "" (demo_env 500) tickets_call 0 demo_app.
Proof.
  eapply (open_routes_serve_everybody "" (demo_env 500) tickets_call "Bearer token" _ _ 0 demo_app).
  - reflexivity.
  - apply (bool_decide_unpack _). by vm_compute.
  - reflexivity.
  - reflexivity.
Defined.

Definition asha_login : HttpRequest := http "POST" "/api/v1/auth/login" "" "secret-1".

(** Asha logs in and asks who she is an hour later. *)
Lemma login_opens_session_witness :
  exists resp c, reply (run_api "" (demo_env 500) asha_login 0 demo_app) = Some resp
  /\ resp = login_ok "token" (UserID c) (Email c) (Roles c)
  /\ exists rt, run_api "" (demo_env 500) (http "GET" "/api/v1/attendance/punch-status" "Bearer token" "") 0 demo_app
      = run_action (demo_env 500) (handle rt c (fun _ => "") (http "GET" "/api/v1/attendance/punch-status" "Bearer token" "")) 1 demo_app.
Proof.
  pose (resp := login_ok "token" (uid 1) "asha@company.com" ["HR_MANAGER"; "EMPLOYEE"]).
  assert (Hr : reply (run_api "" (demo_env 500) asha_login 0 demo_app) = Some resp) by by vm_compute.
  assert (Hf : exists rt param, find_route "" asha_login = Some (rt, param) /\ path_of rt = login_path)
    by (eexists _, _; split; reflexivity).
  destruct Hf as (rt & param & Hf & Hp).
  destruct (login_opens_session "" (demo_env 500) asha_login 0 demo_app rt param resp "token" demo_time Hf Hp Hr eq_refl)
    as (req & c & _ & _ & Hscope & Hresp & Hs); [done|intros; reflexivity|].
  exists resp, c. split; [exact Hr|]. split; [exact Hresp|]. eexists. apply Hs.
  - assert (Hc : c = asha); [|rewrite Hc; exact asha_ascii].
    destruct c as [u e [|r1 [|r2 [|r3 rs]]] sc]; try discriminate Hresp. injection Hresp as <- <- <- <- _. simpl in Hscope. by rewrite Hscope.
  - reflexivity.
  - apply (bool_decide_unpack _). by vm_compute.
  - reflexivity.
  - by vm_compute.
Defined.

(** ** What no request may undo *)

Definition program (h : HttpRequest) : prog Database Response :=
  match find_route "" h with
  | Some (rt, param) => match serve rt param h with inl p => p | inr _ => Ret (unmatched h) end
  | None => Ret (unmatched h)
  end.

Definition punch_call : HttpRequest := http "POST" "/api/v1/attendance/punch" "Bearer token" "CHECK_IN".

(** Asha punches in twice, at the same time, while the tickets are read. *)
Definition racing : list (prog Database Response) := [program punch_call; program punch_call; program tickets_call].

Definition race : config (D := Database) :=
  run_schedule (map (fun i => (i, punched (Z.of_nat i))) (flat_map (fun _ => [0; 1; 2]%nat) (seq 0 8))) (racing, demo_db).

Lemma racing_requests : requests "" racing.
Proof.
  repeat apply Forall_cons_2; try apply Forall_nil_2;
  [exists punch_call|exists punch_call|exists tickets_call]; eexists _, _; split; reflexivity.
Qed.

Lemma race_steps : steps (racing, demo_db) (fst race, snd race).
Proof. rewrite <- surjective_pairing. apply run_schedule_steps. Qed.

Lemma history_survives_witness :
  length (tget attendance_raw_logs (snd race)) = 2%nat /\ history_kept demo_db (snd race).
Proof.
  split; [by vm_compute|]. exact (history_survives "" racing demo_db (fst race) (snd race) racing_requests race_steps).
Defined.

Lemma keys_stay_unique_witness :
  length (tget attendance_daily_status (snd race)) = 1%nat /\ unique_keys (snd race).
Proof.
  split; [by vm_compute|].
  apply (keys_stay_unique "" racing demo_db (fst race) (snd race) racing_requests race_steps).
  apply (bool_decide_unpack _). by vm_compute.
Defined.

Lemma references_hold_witness :
  length (tget attendance_raw_logs (snd race)) = 2%nat /\ refs_hold (snd race).
Proof.
  split; [by vm_compute|].
  apply (references_hold "" racing demo_db (fst race) (snd race) racing_requests race_steps).
  intros t. apply (bool_decide_unpack _). destruct t; by vm_compute.
Defined.

Lemma dashboard_stays_true_witness :
  let x := day_counts (fun _ => true) (date_of_time demo_time) (snd race) in
  present_today x = 1 /\ 0 <= present_today x <= total_employees x.
Proof.
  split; [by vm_compute|].
  apply (dashboard_stays_true "" racing demo_db (fst race) (snd race) (fun _ => true) (date_of_time demo_time) racing_requests race_steps).
  apply (bool_decide_unpack _). by vm_compute.
Defined.
