(* ===== verification/Seeds.v ===== *)
(** * scripts/*.go: the programs that fill a database

    The five seed programs of [src/backend/scripts]: each connects to the database and
    sends its statements one after the other, without a transaction. A program is its
    [main] (or, for [seed_50_employees.go], the function it exports) over the open pool;
    what it prints on its standard output at the end is its result. [log.Fatalf] writes
    its message and ends the process with status 1: the early end of a program. The
    environment variable, the opening of the pool and the messages on the way are left
    out. Literals fit the columns they are stored in, and [db.Exec] and [QueryRow.Scan]
    whose error is dropped leave their variables as they were. *)

From stdpp Require Import gmap.
From S2P Require Import Gotime Prelude Float64 Go Sql Tx Schema Calendar Auth Importer User Employee Payroll.

#[local] Open Scope Z_scope.
#[local] Open Scope prog_scope.

(** [log.Fatalf]: status 1. *)
Definition Fatalf {A} (msg : string) : prog Database A := Halt (http_error msg 1).

(** [INSERT ... RETURNING id] *)
Definition returning {R B} (f : R -> B) (s : stmt Database R) : stmt Database B := fun c d =>
  result_map (fun x => (f (fst x), snd x)) (s c d).

(** A statement that the schema of the migrations refuses, whatever the rows. *)
Definition refused_by_schema {B} (why : string) : stmt Database B := fun _ _ => Err why.

Definition no_column (col : string) : string := "column does not exist: " +:+ col.
Definition null_value (col : string) : string := "null value violates not-null constraint: " +:+ col.

Definition role_list : list string := ["SUPER_ADMIN"; "HR_ADMIN"; "MANAGER"; "EMPLOYEE"].

(** [for i := lo; i < lo + n; i++] *)
Definition upto (lo : Z) (n : nat) : list Z := map (fun i => lo + Z.of_nat i) (seq 0 n).

(** [for i, x := range l] *)
Definition indexed {A} (l : list A) : list (Z * A) := combine (upto 0 (length l)) l.

Section Scripts.
Context `{Server} `{Crypto}.

(** ** Statements *)

(** *** Roles and accounts *)

(** INSERT INTO roles ... ON CONFLICT (name) DO UPDATE SET name, or description, RETURNING id *)
Definition upsert_role (name : string) (description : option string) : stmt Database string :=
  returning rol_id (upsert roles
    (fun c _ => Ok {| rol_id := sc_uuid c; rol_name := name; rol_description := description |})
    (fun new old => rol_name old =?s rol_name new)
    (fun _ new old => match rol_description new with
                      | Some _ => {| rol_id := rol_id old; rol_name := rol_name old;
                                     rol_description := rol_description new |}
                      | None => old
                      end)).

(** [hash, _ := bcrypt.GenerateFromPassword(...)]: an error leaves an empty hash. *)
Definition hash_of (password : string) : prog Database string :=
  salt <- rand_hex;
  Ret (scan "" (bcrypt_hash salt password)).

(** INSERT INTO users (email, password_hash) ... ON CONFLICT (email) DO UPDATE
    SET password_hash = EXCLUDED.password_hash RETURNING id *)
Definition upsert_user (email hash : string) : stmt Database string :=
  with_varchar 255 email (fun email => with_varchar 255 hash (fun hash =>
  returning usr_id (upsert users
    (fun c _ => Ok {| usr_id := sc_uuid c; usr_email := email; usr_password_hash := hash;
                      usr_is_active := true; usr_last_login := None; usr_password_reset_token := None;
                      usr_password_reset_expires_at := None; usr_created_at := sc_now c;
                      usr_invited_at := None; usr_invitation_token := None;
                      usr_invitation_expires_at := None |})
    (fun new old => usr_email old =?s usr_email new)
    (fun _ new => set_usr_password_hash (usr_password_hash new))))).

(** INSERT INTO user_roles (user_id, role_id) VALUES ($1, $2) ON CONFLICT DO NOTHING *)
Definition grant_role (userID roleID : string) : stmt Database Z :=
  with_uuid userID (fun u => with_uuid roleID (fun ro _ d =>
  if existsb (fun ur => (uro_user_id ur =?s u) && (uro_role_id ur =?s ro)) (tget user_roles d)
  then Ok (0, d)
  else if ref_user u d && ref_role ro d
       then Ok (1, tput user_roles (tget user_roles d ++ [{| uro_user_id := u; uro_role_id := ro |}]) d)
       else Err fk_error)).

(** INSERT INTO user_roles (user_id, role_id) VALUES ($1, $2) *)
Definition assign_role (userID roleID : string) : stmt Database Z :=
  with_uuid userID (fun u => with_uuid roleID (fun ro => insert_user_role u ro)).

(** *** The organization *)

Definition ref_org (id : string) (d : Database) : bool :=
  existsb (fun o => org_id o =?s id) (tget organizations d).

Definition upsert_org (name code : string) : stmt Database string :=
  returning org_id (upsert organizations
    (fun c _ => Ok {| org_id := sc_uuid c; org_name := name; org_code := code |})
    (fun new old => org_code old =?s org_code new)
    (fun _ new => set_org_name (org_name new))).

(** ON CONFLICT DO NOTHING: the table has no constraint that a new row could violate. *)
Definition insert_location (orgID name city : string) (state country : option string) : stmt Database string :=
  with_uuid orgID (fun org =>
  returning loc_id (insert locations (fun c d =>
    if ref_org org d
    then Ok {| loc_id := sc_uuid c; loc_name := name; loc_organization_id := org; loc_address := None;
               loc_city := Some city; loc_state := state; loc_country := country; loc_zip_code := None |}
    else Err fk_error))).

Definition find_location (orgID name : string) : stmt Database string :=
  with_uuid orgID (fun org => select_row (fun d =>
  loc_id <$> List.find (fun l => (loc_organization_id l =?s org) && (loc_name l =?s name)) (tget locations d))).

Definition upsert_department (orgID name code : string) : stmt Database string :=
  with_uuid orgID (fun org =>
  returning dep_id (upsert departments
    (fun c d => if ref_org org d
                then Ok {| dep_id := sc_uuid c; dep_name := name; dep_code := code; dep_description := None;
                           dep_organization_id := org |}
                else Err fk_error)
    (fun new old => (dep_organization_id old =?s dep_organization_id new) && (dep_code old =?s dep_code new))
    (fun _ new => set_dep_name (dep_name new)))).

(** ON CONFLICT DO NOTHING, as for the locations. *)
Definition insert_designation (orgID name : string) : stmt Database string :=
  with_uuid orgID (fun org =>
  returning des_id (insert designations (fun c d =>
    if ref_org org d
    then Ok {| des_id := sc_uuid c; des_name := name; des_organization_id := org; des_grade := None;
               des_deleted_at := None; des_level_grade := None |}
    else Err fk_error))).

Definition find_designation (orgID name : string) : stmt Database string :=
  with_uuid orgID (fun org => select_row (fun d =>
  des_id <$> List.find (fun x => (des_organization_id x =?s org) && (des_name x =?s name)) (tget designations d))).

(** [INSERT ... ON CONFLICT DO NOTHING RETURNING id], and [SELECT id] when it gave none. *)
Definition insert_or_find (ins sel : stmt Database string) : prog Database string :=
  res <- exec ins;
  match res with
  | Ok id => Ret id
  | Err _ => found <- exec sel; Ret (scan "" found)
  end.

(** *** Employees *)

(** What the scripts give of an employee; the other columns have their defaults. *)
Record SeedEmployee := {
  se_code : string;
  se_first : string;
  se_last : string;
  se_joining : Z;
  se_type : string;
  se_status : string;
  se_phone : option string;
  se_notice : Z
}.

Definition employee_row (c : StmtCtx) (s : SeedEmployee) (user : string)
  (dept loc desig mgr : option string) : EmpRow :=
  {| emp_id := sc_uuid c; emp_user_id := Some user; emp_employee_id := se_code s;
     emp_first_name := se_first s; emp_last_name := se_last s; emp_department_id := dept;
     emp_designation_id := desig; emp_manager_id := mgr; emp_status := se_status s;
     emp_joining_date := se_joining s; emp_deleted_at := None; emp_location_id := loc;
     emp_work_phone := se_phone s; emp_employment_type := se_type s; emp_probation_end_date := None;
     emp_confirmation_date := None; emp_notice_period_days := Some (se_notice s);
     emp_nationality := Some "Indian"; emp_created_at := sc_now c; emp_updated_at := sc_now c;
     emp_reporting_manager_id := None |}.

Definition same_code (new old : EmpRow) : bool := emp_employee_id old =?s emp_employee_id new.

(** Another employee of the account [user]. *)
Definition account_taken (user code : string) (d : Database) : bool :=
  existsb (fun x => opt_is (emp_user_id x) user && negb (emp_employee_id x =?s code)) (tget employees d).

Definition new_employee (c : StmtCtx) (name : string * string * string) (mgr : option string)
  (user dept : string) (loc desig : option string) : EmpRow :=
  let '(code, first, last) := name in
  employee_row c {| se_code := code; se_first := first; se_last := last; se_joining := sc_now c / day_us;
                    se_type := "PERMANENT"; se_status := "ACTIVE"; se_phone := None; se_notice := 30 |}
    user (Some dept) loc desig mgr.

(** INSERT INTO employees (...) VALUES (..., 'ACTIVE', NOW()) ON CONFLICT (employee_id)
    DO UPDATE SET user_id = EXCLUDED.user_id RETURNING id: an employee that is updated
    keeps its department and its manager, so only the account is checked. *)
Definition upsert_employee (code first last user dept : string) (loc desig mgr : option string)
  : stmt Database string :=
  with_uuid user (fun u => with_uuid dept (fun dp => opt_cast with_uuid loc (fun lo =>
  opt_cast with_uuid desig (fun de => opt_cast with_uuid mgr (fun mg =>
  returning emp_id (upsert employees
    (fun c d =>
       let e := new_employee c (code, first, last) mg u dp lo de in
       if account_taken u code d then Err unique_error
       else if negb (ref_user u d) then Err fk_error
       else if existsb (same_code e) (tget employees d) then Ok e
       else match employee_fk d e with Some err => Err err | None => Ok e end)
    same_code
    (fun _ new => set_emp_user_id (emp_user_id new)))))))).

(** *** Deletions *)

Fixpoint ends_with (suffix s : string) : bool :=
  (s =?s suffix) || match s with EmptyString => false | String _ s => ends_with suffix s end.

(** DELETE FROM users WHERE email LIKE '%...': one account that another row refers to
    refuses the statement, else all of them go with the rows that follow them. *)
Definition delete_users_like (suffix : string) : stmt Database Z := fun _ d =>
  let ids := map usr_id (where_ (fun u => ends_with suffix (usr_email u)) (tget users d)) in
  if existsb (fun id => user_referenced id d) ids then Err fk_error
  else Ok (Z.of_nat (length ids), fold_left (fun d id => user_deleted id d) ids d).

(** The employee that a row follows, ON DELETE CASCADE. *)
Definition follows (t : tbl) : row t -> option string :=
  match t with
  | T_employees => fun r => Some (emp_id r)
  | T_employee_personal_details => fun r => Some (per_employee_id r)
  | T_employee_statutory_details => fun r => Some (sta_employee_id r)
  | T_payslips => fun r => Some (slp_employee_id r)
  | T_employee_salary_structures => fun r => Some (ess_employee_id r)
  | T_attendance_raw_logs => fun r => Some (raw_employee_id r)
  | T_attendance_daily_status => fun r => Some (day_employee_id r)
  | T_attendance_exceptions => fun r => Some (exc_employee_id r)
  | T_leave_balances => fun r => Some (bal_employee_id r)
  | T_leave_applications => fun r => Some (lap_employee_id r)
  | T_leave_accrual_logs => fun r => Some (acc_employee_id r)
  | T_leave_encashment_requests => fun r => Some (enc_employee_id r)
  | T_regularization_requests => fun r => Some (reg_employee_id r)
  | T_helpdesk_tickets => fun r => Some (hdt_employee_id r)
  | T_employee_lifecycle_events => fun r => Some (evt_employee_id r)
  | T_od_requests => fun r => Some (odr_employee_id r)
  | T_wfh_requests => fun r => Some (wfh_employee_id r)
  | T_exit_requests => fun r => Some (exr_employee_id r)
  | T_attendance_logs => fun r => Some (atl_employee_id r)
  | T_employee_documents => fun r => Some (doc_employee_id r)
  | T_onboarding_instances => fun r => Some (obi_employee_id r)
  | _ => fun _ => None
  end.

Definition followers : list tbl :=
  [T_employees; T_employee_personal_details; T_employee_statutory_details; T_payslips;
   T_employee_salary_structures; T_attendance_raw_logs; T_attendance_daily_status; T_attendance_exceptions;
   T_leave_balances; T_leave_applications; T_leave_accrual_logs; T_leave_encashment_requests;
   T_regularization_requests; T_helpdesk_tickets; T_employee_lifecycle_events; T_od_requests;
   T_wfh_requests; T_exit_requests; T_attendance_logs; T_employee_documents; T_onboarding_instances].

Definition names_one (ids : list string) (o : option string) : bool :=
  match o with Some k => mem_s k ids | None => false end.

(** The rows of [t] that do not follow one of the employees [ids]. *)
Definition drop_followers (ids : list string) (d : Database) (t : tbl) : Database :=
  tput (tab t) (where_ (fun r => negb (names_one ids (follows t r))) (tget (tab t) d)) d.

(** The comments of the tickets that go, then the rows of every table. *)
Definition employees_deleted (ids : list string) (d : Database) : Database :=
  let tickets := map hdt_id (where_ (fun t => mem_s (hdt_employee_id t) ids) (tget helpdesk_tickets d)) in
  let d := tput helpdesk_ticket_comments
    (where_ (fun m => negb (mem_s (hdm_ticket_id m) tickets)) (tget helpdesk_ticket_comments d)) d in
  fold_left (drop_followers ids) followers d.

(** Rows that refer to the employees without ON DELETE, once the cascade is done. *)
Definition employees_referenced (ids : list string) (d : Database) : bool :=
  existsb (fun e => negb (mem_s (emp_id e) ids)
    && (names_one ids (emp_manager_id e) || names_one ids (emp_reporting_manager_id e))) (tget employees d)
  || existsb (fun a => mem_s (adv_employee_id a) ids) (tget payroll_advances d)
  || existsb (fun x => names_one ids (imr_created_employee_id x)) (tget import_rows d).

(** DELETE FROM employees WHERE ... *)
Definition delete_employees (p : EmpRow -> bool) : stmt Database Z := fun _ d =>
  let ids := map emp_id (where_ p (tget employees d)) in
  if employees_referenced ids d then Err fk_error
  else Ok (Z.of_nat (length ids), employees_deleted ids d).

(** SELECT EXISTS(SELECT 1 FROM employees WHERE employee_id = $1) *)
Definition employee_exists (code : string) : stmt Database bool :=
  select (fun d => existsb (fun e => emp_employee_id e =?s code) (tget employees d)).
End Scripts.
