(* ===== verification/SeedDemo.v ===== *)
(** * scripts/seed.go: the demo accounts

    The [main] of [seed.go]. Of its statements only those on the roles, the accounts, their
    roles and the review cycle fit the schema of the migrations; the other ones are refused,
    and the program goes on and prints that it has seeded. *)

From stdpp Require Import gmap.
From S2P Require Import Gotime Prelude Float64 Go Sql Tx Schema Calendar Auth Importer User Employee Attendance Payroll Seeds.

#[local] Open Scope Z_scope.
#[local] Open Scope prog_scope.

Module Seed.
Section Main.
Context `{Server} `{Crypto}.

Definition accounts : list (string * string * string) :=
  [("admin@company.com", "admin123", "SUPER_ADMIN"); ("hr@company.com", "hr123", "HR_ADMIN");
   ("manager@company.com", "mgr123", "MANAGER"); ("employee@company.com", "emp123", "EMPLOYEE");
   ("aarav@company.com", "password123", "EMPLOYEE"); ("priya@company.com", "password123", "EMPLOYEE");
   ("vikram@company.com", "password123", "EMPLOYEE"); ("neha@company.com", "password123", "EMPLOYEE")].

Definition seed_roles : prog Database (gmap string string) :=
  for_each role_list ∅ (fun roleIDs r =>
    res <- exec (upsert_role r None);
    Ret (match res with Ok id => <[r := id]> roleIDs | Err _ => roleIDs end)).

Definition seed_account (roleIDs : gmap string string) (userIDs : gmap string string)
  (u : string * string * string) : prog Database (gmap string string) :=
  let '(email, password, role) := u in
  hash <- hash_of password;
  res <- exec (upsert_user email hash);
  match res with
  | Err _ => Ret userIDs
  | Ok id =>
      match roleIDs !! role with
      | None => Ret tt
      | Some rID => _ <- exec (grant_role id rID); Ret tt
      end ;;;
      Ret (<[email := id]> userIDs)
  end.

Definition locations : list (string * string * string * string) :=
  [("Mumbai HQ", "Mumbai", "Maharashtra", "India"); ("Bengaluru Tech Hub", "Bengaluru", "Karnataka", "India");
   ("Hyderabad R&D Center", "Hyderabad", "Telangana", "India");
   ("Delhi Regional Office", "New Delhi", "Delhi", "India")].
Definition departments : list string :=
  ["Engineering"; "Product Management"; "HR & People Ops"; "Finance & Payroll"; "Sales & Marketing"].
Definition designations : list string :=
  ["VP of Engineering"; "Lead System Architect"; "Senior Fullstack Developer"; "HR Business Partner";
   "Senior Payroll Specialist"].
Definition employees : list (string * string * string * string * string) :=
  [("EMP-000", "System", "Admin", "admin@company.com", "+91 98765 00000");
   ("EMP-000B", "HR", "Admin", "hr@company.com", "+91 98765 00001");
   ("EMP-000C", "Engineering", "Manager", "manager@company.com", "+91 98765 00002");
   ("EMP-000D", "Standard", "Employee", "employee@company.com", "+91 98765 00003");
   ("EMP-001", "Aarav", "Sharma", "aarav@company.com", "+91 98765 43210");
   ("EMP-002", "Priya", "Patel", "priya@company.com", "+91 98765 43211");
   ("EMP-003", "Vikram", "Malhotra", "vikram@company.com", "+91 98765 43212");
   ("EMP-004", "Neha", "Gupta", "neha@company.com", "+91 98765 43213");
   ("EMP-005", "Rohan", "Verma", "rohan@company.com", "+91 98765 43214")].
Definition leaveTypes : list (string * string * Z) :=
  [("Casual Leave", "CL", 12); ("Sick Leave", "SL", 10); ("Earned Leave", "EL", 15); ("Maternity Leave", "ML", 180)].

(** INSERT INTO locations (name, city, state, country), departments (name),
    designations (name): without [organization_id], which is NOT NULL. *)
Definition insert_unowned (tbl : string) : stmt Database string :=
  refused_by_schema (null_value (tbl +:+ ".organization_id")).

(** INSERT INTO employees (employee_code, ..., work_email, phone_number, ...) *)
Definition insert_by_work_email : stmt Database Z := refused_by_schema (no_column "employees.employee_code").

(** INSERT INTO leave_types (name, code, default_days, is_paid) ... ON CONFLICT (code) *)
Definition insert_leave_type : stmt Database Z := refused_by_schema (no_column "leave_types.default_days").

(** INSERT INTO onboarding_templates (title, description, is_default) *)
Definition insert_template : stmt Database Z := refused_by_schema (no_column "onboarding_templates.title").

(** ON CONFLICT DO NOTHING: the table has no constraint but its key. *)
Definition insert_cycle : stmt Database Z := returning (fun _ => 1)
  (insert performance_cycles (fun c _ =>
    Ok {| pcy_id := sc_uuid c; pcy_title := "FY26 Annual Performance Review";
          pcy_start_date := days_of 2026 4 1; pcy_end_date := days_of 2027 3 31; pcy_status := "ACTIVE";
          pcy_created_at := sc_now c |})).

(** [if err == nil { ids = append(ids, id) }] *)
Definition collect {A} (s : A -> stmt Database string) (ids : list string) (x : A) : prog Database (list string) :=
  res <- exec (s x);
  Ret (match res with Ok id => ids ++ [id] | Err _ => ids end).

Definition main : prog Database (list string) :=
  roleIDs <- seed_roles;
  userIDs <- for_each accounts ∅ (seed_account roleIDs);
  _ <- for_each locations [] (collect (fun _ => insert_unowned "locations"));
  _ <- for_each departments [] (collect (fun _ => insert_unowned "departments"));
  _ <- for_each designations [] (collect (fun _ => insert_unowned "designations"));
  _ <- for_each employees tt (fun _ _ => _ <- exec insert_by_work_email; Ret tt);
  _ <- for_each leaveTypes tt (fun _ _ => _ <- exec insert_leave_type; Ret tt);
  _ <- exec insert_template;
  _ <- exec insert_cycle;
  Ret ["✓ Seeded User Roles"; "✓ Seeded Demo User Credentials";
       "✓ Seeded Organization Hierarchy (Locations, Departments, Designations)";
       "✓ Seeded Employee Directory Profiles"; "✓ Seeded Leave Configuration & Types";
       "✓ Seeded Onboarding & Workflow Templates"; "✓ Seeded Performance Cycles & OKR Framework";
       "🎉 Demo data seeding complete! Ready for live demonstrations."].
End Main.
End Seed.
