(* ===== verification/SeedTestEmployees.v ===== *)
(** * scripts/seed_50_test_employees.go: the test employees

    The [main] that [src/scripts/seed-50-employees.sh] runs: an organization with its
    structure, four demo accounts, an HR administrator, five managers and fifty employees, and
    the [--reset] before them. *)

From stdpp Require Import gmap.
From S2P Require Import Gotime Prelude Float64 Go Sql Tx Schema Calendar Auth Importer User Employee Attendance Payroll Seeds.

#[local] Open Scope Z_scope.
#[local] Open Scope prog_scope.

Module TestEmployees.
Section Main.
Context `{Server} `{Crypto}.

(** DELETE FROM employees WHERE work_email LIKE ... *)
Definition delete_by_work_email : stmt Database Z := refused_by_schema (no_column "employees.work_email").

(** SELECT id FROM roles WHERE name = $1, and the upsert when there is none. *)
Definition ensure_role (roleIDs : gmap string string) (r : string) : prog Database (gmap string string) :=
  res <- exec (find_role r);
  let id := scan "" res in
  id <- (if id =?s "" then res <- exec (upsert_role r None); Ret (scan "" res) else Ret id);
  Ret (<[r := id]> roleIDs).

Definition locs : list string := ["Mumbai"; "Pune"; "Bengaluru"; "Hyderabad"].
Definition depts : list string :=
  ["Engineering"; "Human Resources"; "Finance"; "Sales"; "Marketing"; "Operations"; "IT Support"; "Administration"].
Definition desigs : list string :=
  ["Intern"; "Junior Executive"; "Executive"; "Senior Executive"; "Team Lead"; "Assistant Manager"; "Manager";
   "Senior Manager"].

Record Preset := { email : string; pass : string; role : string; empID : string; fName : string; lName : string }.

Definition demoPresets : list Preset :=
  [{| email := "admin@company.com"; pass := "admin123"; role := "SUPER_ADMIN"; empID := "SYS_ADMIN";
      fName := "System"; lName := "Admin" |};
   {| email := "hr@company.com"; pass := "hr123"; role := "HR_ADMIN"; empID := "DEMO_HR";
      fName := "Demo"; lName := "HR" |};
   {| email := "manager@company.com"; pass := "mgr123"; role := "MANAGER"; empID := "DEMO_MGR";
      fName := "Demo"; lName := "Manager" |};
   {| email := "employee@company.com"; pass := "emp123"; role := "EMPLOYEE"; empID := "DEMO_EMP";
      fName := "Demo"; lName := "Employee" |}].

(** The account of a person, with its role, and the profile. *)
Definition person (label tag : string) (email hash roleID : string) (profile : string -> stmt Database string)
  : prog Database string :=
  uID <- exec (upsert_user email hash);
  match uID with
  | Err e => Fatalf (label +:+ " user" +:+ tag +:+ ": " +:+ e)
  | Ok uID =>
      _ <- exec (grant_role uID roleID);
      eID <- exec (profile uID);
      match eID with
      | Err e => Fatalf (label +:+ " employee" +:+ tag +:+ ": " +:+ e)
      | Ok eID => Ret eID
      end
  end.

Definition roleID (roleIDs : gmap string string) (r : string) : string := default "" (roleIDs !! r).

Definition seed_preset (roleIDs : gmap string string) (deptIDs : list string) (_ : unit) (p : Preset)
  : prog Database unit :=
  presetHash <- hash_of (pass p);
  dept <- index deptIDs 0;
  _ <- person "Demo" (" " +:+ email p) (email p) presetHash (roleID roleIDs (role p))
         (fun uID => upsert_employee (empID p) (fName p) (lName p) uID dept None None None);
  Ret tt.

Definition seed_hr (roleIDs : gmap string string) (deptIDs : list string) (passHash : string) : prog Database unit :=
  dept <- index deptIDs 1;
  _ <- person "HR" "" "hr_admin@test.hrms.local" passHash (roleID roleIDs "HR_ADMIN")
         (fun uID => upsert_employee "TEST_HR_01" "HR" "Admin" uID dept None None None);
  Ret tt.

Definition seed_manager (roleIDs : gmap string string) (deptIDs locIDs desigIDs : list string) (passHash : string)
  (mgrEmpIDs : list string) (i : Z) : prog Database (list string) :=
  dept <- index deptIDs 0;
  loc <- index locIDs 0;
  desig <- index desigIDs 6;
  eID <- person "Mgr" (" " +:+ itoa i) ("manager_" +:+ pad0 2 i +:+ "@test.hrms.local") passHash (roleID roleIDs "MANAGER")
           (fun uID => upsert_employee ("TEST_MGR_" +:+ pad0 2 i) "Manager" (itoa i) uID dept (Some loc)
                         (Some desig) None);
  Ret (mgrEmpIDs ++ [eID]).

(** [l[i%len(l)]] *)
Definition cycled (l : list string) (i : Z) : prog Database string := index l (Z.to_nat (i mod Z.of_nat (length l))).

Definition test_code (i : Z) : string := "TEST_EMP_" +:+ pad0 3 i.

(** [created] and [skipped] *)
Definition seed_employee (roleIDs : gmap string string) (deptIDs locIDs desigIDs mgrEmpIDs : list string)
  (passHash : string) (reset : bool) (counts : Z * Z) (i : Z) : prog Database (Z * Z) :=
  let '(created, skipped) := counts in
  res <- exec (employee_exists (test_code i));
  if scan false res && negb reset then Ret (created, skipped + 1) else
  mgrID <- index mgrEmpIDs (Z.to_nat ((i - 1) / 10));
  deptID <- cycled deptIDs i;
  locID <- cycled locIDs i;
  desigID <- cycled desigIDs i;
  _ <- person "Emp" (" " +:+ itoa i) ("employee_" +:+ pad0 3 i +:+ "@test.hrms.local") passHash (roleID roleIDs "EMPLOYEE")
         (fun uID => upsert_employee (test_code i) "Test" ("Emp " +:+ itoa i) uID deptID (Some locID)
                       (Some desigID) (Some mgrID));
  Ret (created + 1, skipped).

Definition append_id (ids : list string) (p : prog Database string) : prog Database (list string) :=
  id <- p;
  Ret (ids ++ [id]).

Definition delete_test_data (reset : bool) : prog Database unit :=
  if reset
  then _ <- exec (delete_users_like "@test.hrms.local");
       _ <- exec delete_by_work_email;
       Ret tt
  else Ret tt.

Definition main (reset : bool) : prog Database (list string) :=
  delete_test_data reset ;;;
  roleIDs <- for_each role_list ∅ ensure_role;
  org <- exec (upsert_org "Test Corp" "TESTCORP");
  match org with
  | Err e => Fatalf ("Organization: " +:+ e)
  | Ok orgID =>
      locIDs <- for_each locs [] (fun ids l =>
        append_id ids (insert_or_find (insert_location orgID l l None None) (find_location orgID l)));
      deptIDs <- for_each (indexed depts) [] (fun ids '(i, d) =>
        append_id ids (res <- exec (upsert_department orgID d ("DEPT" +:+ pad0 2 i)); Ret (scan "" res)));
      desigIDs <- for_each desigs [] (fun ids d =>
        append_id ids (insert_or_find (insert_designation orgID d) (find_designation orgID d)));
      passHash <- hash_of "password123";
      _ <- for_each demoPresets tt (seed_preset roleIDs deptIDs);
      seed_hr roleIDs deptIDs passHash ;;;
      mgrEmpIDs <- for_each (upto 1 5) [] (seed_manager roleIDs deptIDs locIDs desigIDs passHash);
      counts <- for_each (upto 1 50) (0, 0)
                  (seed_employee roleIDs deptIDs locIDs desigIDs mgrEmpIDs passHash reset);
      let '(created, skipped) := counts in
      Ret ["Employees: 50"; "Departments: " +:+ itoa (Z.of_nat (length depts)); "Managers: 5";
           "Locations: " +:+ itoa (Z.of_nat (length locs)); "Created: " +:+ itoa created;
           "Skipped: " +:+ itoa skipped; "Failed: 0"; "SEED COMPLETE"]
  end.
End Main.
End TestEmployees.
