(* ===== verification/SeedPayroll.v ===== *)
(** * scripts/seed_payroll_test_data.go: a payroll month

    Salary structures, attendance and advances of a month for the active employees, with the
    scenarios by which the payroll is tested, and the [--reset] of the month. *)

From stdpp Require Import gmap.
From S2P Require Import Gotime Prelude Float64 Go Sql Tx Schema Calendar Auth Importer User Employee Attendance Payroll Seeds.

#[local] Open Scope Z_scope.
#[local] Open Scope prog_scope.

Module PayrollData.
Section Main.
Context `{Server}.

(** *** [--reset] *)

Definition run_in (month year : Z) (p : RunRow) : bool := (run_month p =? month) && (run_year p =? year).

Definition delete_payslips (month year : Z) : stmt Database Z :=
  with_int4 month (with_int4 year (fun c d =>
  let runs := map run_id (where_ (run_in month year) (tget payroll_runs d)) in
  delete payslips (fun p => mem_s (slp_payroll_run_id p) runs) c d)).

(** The payslips of a run go with it. *)
Definition delete_runs (month year : Z) : stmt Database Z :=
  with_int4 month (with_int4 year (fun _ d =>
  let runs := map run_id (where_ (run_in month year) (tget payroll_runs d)) in
  let d' := tput payslips (where_ (fun p => negb (mem_s (slp_payroll_run_id p) runs)) (tget payslips d)) d in
  Ok (Z.of_nat (length runs),
      tput payroll_runs (where_ (fun p => negb (run_in month year p)) (tget payroll_runs d')) d'))).

Definition delete_advances (month year : Z) : stmt Database Z :=
  with_int4 month (with_int4 year (delete payroll_advances (fun a =>
    (adv_deduct_from_month a =? month) && (adv_deduct_from_year a =? year)))).

Definition delete_attendance (month year : Z) : stmt Database Z :=
  delete attendance_daily_status (fun a => in_month month year (day_date a)).

Definition reset_period (month year : Z) (reset : bool) : prog Database unit :=
  if reset
  then _ <- exec (delete_payslips month year);
       _ <- exec (delete_runs month year);
       _ <- exec (delete_advances month year);
       _ <- exec (delete_attendance month year);
       Ret tt
  else Ret tt.

(** *** Salary structures *)

Record EmpInfo := { ID : string; Code : string }.

(** ORDER BY employee_id ASC *)
Definition active_employees : stmt Database (list EmpInfo) :=
  select (fun d => map (fun e => {| ID := emp_id e; Code := emp_employee_id e |})
    (order_by (fun x y => collate (emp_employee_id x) (emp_employee_id y)) (where_ live (tget employees d)))).

Definition base_salary (i : Z) : Z :=
  if (10 <=? i) && (i <? 20) then 75000
  else if (20 <=? i) && (i <? 30) then 100000
  else if (30 <=? i) && (i <? 40) then 120000
  else if 40 <=? i then 150000
  else 50000.

(** ON CONFLICT DO NOTHING: the table has no constraint but its key. *)
Definition insert_active_structure (empID : string) (base : f64) : stmt Database string :=
  with_uuid empID (fun u => with_num 12 2 base (fun n =>
  returning ess_id (insert employee_salary_structures (fun c d =>
    if ref_employee u d && existsb (fun k => cur_code k =?s "INR") (tget currencies d)
    then Ok {| ess_id := sc_uuid c; ess_employee_id := u; ess_currency_code := "INR"; ess_base_salary := n;
               ess_is_active := true; ess_created_at := sc_now c; ess_updated_at := sc_now c |}
    else Err fk_error)))).

Definition find_structure (empID : string) : stmt Database string :=
  with_uuid empID (fun u => select_row (fun d =>
  ess_id <$> List.find (fun s => (ess_employee_id s =?s u) && ess_is_active s) (tget employee_salary_structures d))).

Definition seed_structure (salaryConfigured : Z) (x : Z * EmpInfo) : prog Database Z :=
  let '(i, emp) := x in
  _ <- insert_or_find (insert_active_structure (ID emp) (of_Z (base_salary i))) (find_structure (ID emp));
  Ret (salaryConfigured + 1).

(** *** Attendance *)

(** [daysInMonth]: February has 28 days in every year. *)
Definition daysInMonth (month : Z) : Z :=
  if month =? 2 then 28
  else if (month =? 4) || (month =? 6) || (month =? 9) || (month =? 11) then 30
  else 31.

(** [time.Date(year, month, d, 0, 0, 0, 0, time.UTC)] *)
Definition attDate (month year d : Z) : time.Time := time.Date year month d 0 0 0 0.

(** The time as a parameter of type DATE. *)
Definition date_param (t : time.Time) : Z := time.unixSec t / time.secondsPerDay.

Definition weekend (t : time.Time) : bool := (time.Weekday t =? 6) || (time.Weekday t =? 0).

Definition seeded_day (c : StmtCtx) (empID : string) (date : Z) (status validation : string) : DayRow :=
  Attendance.new_day c empID date None None status validation 0.

(** INSERT ... 'WEEKEND', 'VALIDATED' ... ON CONFLICT (employee_id, date) DO NOTHING *)
Definition insert_weekend (empID : string) (date : Z) : stmt Database Z :=
  with_uuid empID (fun u => returning (fun _ => 1) (upsert attendance_daily_status
    (fun c d => if ref_employee u d then Ok (seeded_day c u date "WEEKEND" "VALIDATED") else Err fk_error)
    Attendance.same_day (fun _ _ old => old))).

(** ON CONFLICT (employee_id, date) DO UPDATE SET status, validation_status *)
Definition upsert_weekday (empID : string) (date : Z) (status validation : string) : stmt Database Z :=
  with_uuid empID (fun u => returning (fun _ => 1) (upsert attendance_daily_status
    (fun c d => if ref_employee u d then Ok (seeded_day c u date status validation) else Err fk_error)
    Attendance.same_day
    (fun _ new old => set_day_validation_status (day_validation_status new)
                        (set_day_status (day_status new) old)))).

(** Scenario groups B (approved leave) and C (unapproved absence). *)
Definition on_leave (i d : Z) : bool := (25 <=? i) && (i <? 35) && ((d =? 10) || (d =? 11)).
Definition absent (i d : Z) : bool := (35 <=? i) && (i <? 42) && ((d =? 15) || (d =? 16)).

Definition day_status_of (i d : Z) : string :=
  if absent i d then "ABSENT" else if on_leave i d then "ON_LEAVE" else "PRESENT".

Definition day_validation_of (unvalidate : bool) (code : string) (d : Z) : string :=
  if unvalidate && (code =?s "TEST_EMP_037") && (d =? 22) then "TO_VALIDATE" else "VALIDATED".

(** [attendanceCreated], [lopCreated], [leaveCreated] and [advancesCreated] *)
Record Counters := { attendanceCreated : Z; lopCreated : Z; leaveCreated : Z; advancesCreated : Z }.

Definition count_day (i d : Z) (weekend : bool) (k : Counters) : Counters :=
  {| attendanceCreated := attendanceCreated k + 1;
     lopCreated := if negb weekend && absent i d && (d =? 15) then lopCreated k + 1 else lopCreated k;
     leaveCreated := if negb weekend && on_leave i d && (d =? 10) then leaveCreated k + 1 else leaveCreated k;
     advancesCreated := advancesCreated k |}.

Definition seed_day (month year : Z) (unvalidate : bool) (i : Z) (emp : EmpInfo) (k : Counters) (d : Z)
  : prog Database Counters :=
  let t := attDate month year d in
  if weekend t then
    _ <- exec (insert_weekend (ID emp) (date_param t));
    Ret (count_day i d true k)
  else
    _ <- exec (upsert_weekday (ID emp) (date_param t) (day_status_of i d) (day_validation_of unvalidate (Code emp) d));
    Ret (count_day i d false k).

(** *** Advances *)

(** ON CONFLICT DO NOTHING: the table has no constraint but its key. *)
Definition insert_festival_advance (empID : string) (month year : Z) : stmt Database Z :=
  with_uuid empID (fun u => with_num 12 2 (of_Z 15000) (fun amount =>
  with_int4 month (with_int4 year (returning (fun _ => 1) (insert payroll_advances (fun c d =>
    if ref_employee u d
    then Ok {| adv_id := sc_uuid c; adv_employee_id := u; adv_amount := amount; adv_recovery_months := 1;
               adv_reason := "Festival Advance"; adv_deduct_from_month := month;
               adv_deduct_from_year := year; adv_status := "APPROVED"; adv_approved_by := None;
               adv_created_at := sc_now c; adv_updated_at := sc_now c |}
    else Err fk_error)))))).

Definition count_advance (k : Counters) : Counters :=
  {| attendanceCreated := attendanceCreated k; lopCreated := lopCreated k; leaveCreated := leaveCreated k;
     advancesCreated := advancesCreated k + 1 |}.

(** Scenario group D. *)
Definition seed_advance (month year i : Z) (emp : EmpInfo) (k : Counters) : prog Database Counters :=
  if (42 <=? i) && (i <? 47) then
    res <- exec (insert_festival_advance (ID emp) month year);
    Ret (match res with Ok _ => count_advance k | Err _ => k end)
  else Ret k.

(** The body of the loop over the employees. *)
Definition seed_employee_month (month year : Z) (unvalidate : bool) (k : Counters) (x : Z * EmpInfo)
  : prog Database Counters :=
  let '(i, emp) := x in
  k <- for_each (upto 1 (Z.to_nat (daysInMonth month))) k (seed_day month year unvalidate i emp);
  seed_advance month year i emp k.

Definition no_counts : Counters :=
  {| attendanceCreated := 0; lopCreated := 0; leaveCreated := 0; advancesCreated := 0 |}.

Definition find_org : stmt Database string := select_row (fun d => org_id <$> head (tget organizations d)).

(** [flag.Int("month", int(time.Now().Month()), ...)]: the flags given, or the clock's. *)
Definition main (monthFlag yearFlag : option Z) (reset unvalidate : bool) : prog Database (list string) :=
  t1 <- now;
  t2 <- now;
  let month := default (month_of (date_of_time t1)) monthFlag in
  let year := default (year_of (date_of_time t2)) yearFlag in
  reset_period month year reset ;;;
  rows <- exec active_employees;
  match rows with
  | Err e => Fatalf ("Failed to query employees: " +:+ e)
  | Ok employees =>
      if Nat.eqb (length employees) 0
      then Fatalf "No active employees found! Run scripts/seed-50-employees.sh first."
      else
        salaryConfigured <- for_each (indexed employees) 0 seed_structure;
        _ <- exec find_org;
        k <- for_each (indexed employees) no_counts (seed_employee_month month year unvalidate);
        Ret (["Configured salary structures for " +:+ itoa salaryConfigured +:+ " employees.";
              "Created/Updated " +:+ itoa (attendanceCreated k) +:+ " daily attendance records.";
              "Scenarios: " +:+ itoa (leaveCreated k) +:+ " employees with Approved Leave, "
              +:+ itoa (lopCreated k) +:+ " employees with LOP, "
              +:+ itoa (advancesCreated k) +:+ " employees with Salary Advances."]
             ++ if unvalidate
                then ["WARNING: Intentionally marked TEST_EMP_037 attendance on day 20 as 'TO_VALIDATE' for testing readiness block."]
                else [])
  end.
End Main.
End PayrollData.
