(* ===== verification/SeedRbac.v ===== *)
(** * scripts/seed_rbac_audit.go: accounts for the audit of roles

    Nine accounts with their profiles, each deleted and created anew on every run. *)

From stdpp Require Import gmap.
From S2P Require Import Gotime Prelude Float64 Go Sql Tx Schema Calendar Auth Importer User Employee Attendance Payroll Seeds SeedTestEmployees.

#[local] Open Scope Z_scope.
#[local] Open Scope prog_scope.

Module Rbac.
Section Main.
Context `{Server} `{Crypto}.

(** INSERT INTO employees (user_id, ..., manager_id, CURRENT_DATE, 'ACTIVE') RETURNING id *)
Definition insert_profile (user code first last dept : string) (mgr : option string) : stmt Database string :=
  with_uuid user (fun u => with_uuid dept (fun dp => opt_cast with_uuid mgr (fun mg =>
  returning emp_id (insert employees (fun c d =>
    let e := new_employee c (code, first, last) mg u dp None None in
    if existsb (same_code e) (tget employees d) || account_taken u code d then Err unique_error
    else if negb (ref_user u d) then Err fk_error
    else match employee_fk d e with Some err => Err err | None => Ok e end))))).

(** DELETE FROM employees WHERE user_id = $1 OR employee_id = $2 *)
Definition delete_profile (user code : string) : stmt Database Z :=
  with_uuid user (fun u => delete_employees (fun e => opt_is (emp_user_id e) u || (emp_employee_id e =?s code))).

Definition createUser (roleIDs : gmap string string) (deptID email pass role empID first last : string)
  (managerID : option string) : prog Database string :=
  hash <- hash_of pass;
  uid <- exec (upsert_user email hash);
  match uid with
  | Err e => Fatalf ("Failed user " +:+ email +:+ ": " +:+ e)
  | Ok uid =>
      _ <- exec (delete_user_roles uid);
      _ <- exec (assign_role uid (TestEmployees.roleID roleIDs role));
      _ <- exec (delete_profile uid empID);
      eid <- exec (insert_profile uid empID first last deptID managerID);
      match eid with
      | Err e => Fatalf ("Failed employee " +:+ empID +:+ ": " +:+ e)
      | Ok eid => Ret eid
      end
  end.

Definition seed_role (roleIDs : gmap string string) (r : string) : prog Database (gmap string string) :=
  res <- exec (upsert_role r (Some (r +:+ " Role")));
  match res with
  | Err e => Fatalf ("Failed role " +:+ r +:+ ": " +:+ e)
  | Ok id => Ret (<[r := id]> roleIDs)
  end.

Definition hr_admin : string := "hr_admin_001@company.com".

Definition main : prog Database (list string) :=
  roleIDs <- for_each role_list ∅ seed_role;
  org <- exec (upsert_org "RBAC Audit Org" "RBAC_ORG");
  dept <- exec (upsert_department (scan "" org) "Audit Dept" "RBAC_DEPT");
  let deptID := scan "" dept in
  let create := createUser roleIDs deptID in
  _ <- create hr_admin "pass123" "HR_ADMIN" "RBAC-HR001" "HR" "Admin" None;
  mgr1ID <- create "manager_001@company.com" "pass123" "MANAGER" "RBAC-MGR001" "Manager" "One" None;
  mgr2ID <- create "manager_002@company.com" "pass123" "MANAGER" "RBAC-MGR002" "Manager" "Two" None;
  _ <- create "employee_001@company.com" "pass123" "EMPLOYEE" "RBAC-EMP001" "Employee" "One" (Some mgr1ID);
  _ <- create "employee_002@company.com" "pass123" "EMPLOYEE" "RBAC-EMP002" "Employee" "Two" (Some mgr1ID);
  _ <- create "employee_003@company.com" "pass123" "EMPLOYEE" "RBAC-EMP003" "Employee" "Three" (Some mgr1ID);
  _ <- create "employee_004@company.com" "pass123" "EMPLOYEE" "RBAC-EMP004" "Employee" "Four" (Some mgr2ID);
  _ <- create "employee_005@company.com" "pass123" "EMPLOYEE" "RBAC-EMP005" "Employee" "Five" (Some mgr2ID);
  _ <- create "employee_006@company.com" "pass123" "EMPLOYEE" "RBAC-EMP006" "Employee" "Six" (Some mgr2ID);
  Ret ["✅ Done!"].
End Main.
End Rbac.
