(* ===== verification/SeedEnterprise.v ===== *)
(** * scripts/seed_50_employees.go: a demo company

    [Seed50Employees], which the file exports from a package without a [main]: fifty
    employees with their accounts and a published payroll of August 2026. *)

From stdpp Require Import gmap.
From S2P Require Import Gotime Prelude Float64 Go Sql Tx Schema Calendar Auth Importer User Employee Attendance Payroll Seeds SeedDemo.

#[local] Open Scope Z_scope.
#[local] Open Scope prog_scope.

Module Enterprise.
Section Main.
Context `{Server} `{Crypto}.

Definition locs : list (string * string * string) :=
  [("Bengaluru HQ", "Bengaluru", "Karnataka"); ("Gurugram Office", "Gurugram", "Haryana");
   ("Mumbai Branch", "Mumbai", "Maharashtra"); ("Hyderabad Tech Hub", "Hyderabad", "Telangana")].
Definition depts : list (string * string) :=
  [("Engineering", "ENG"); ("Human Resources", "HR"); ("Sales & Business", "SALES");
   ("Product Management", "PROD"); ("Finance & Operations", "FIN")].
Definition desigs : list string :=
  ["Staff Engineer"; "Senior Fullstack Engineer"; "Backend Developer"; "QA Automation Lead"; "DevOps Engineer";
   "HR Operations Manager"; "Talent Acquisition Lead"; "HR Business Partner"; "Payroll Specialist";
   "Enterprise Account Exec"; "Sales Development Rep"; "Regional Sales Manager"; "Customer Success Lead";
   "Senior Product Manager"; "Product Owner"; "UI/UX Designer"; "Product Analyst";
   "Finance Controller"; "Senior Accountant"; "Operations Analyst"; "Compliance Officer"].

Definition firstNames : list string :=
  ["Aarav"; "Priya"; "Rohan"; "Ananya"; "Vikram"; "Neha"; "Rahul"; "Kavya";
   "Siddharth"; "Pooja"; "Aditya"; "Sneha"; "Karan"; "Riya"; "Amit"; "Divya";
   "Manish"; "Isha"; "Rajesh"; "Tanvi"; "Suresh"; "Meera"; "Deepak"; "Anushka";
   "Nikhil"; "Simran"; "Alok"; "Swati"; "Gaurav"; "Preeti"; "Varun"; "Shweta";
   "Yash"; "Monika"; "Tarun"; "Nisha"; "Harsh"; "Rashmi"; "Abhishek"; "Sonam";
   "Arjun"; "Komal"; "Mayank"; "Shalini"; "Pranav"; "Richa"; "Saurabh"; "Payal";
   "Vineet"; "Bhavna"].
Definition lastNames : list string :=
  ["Sharma"; "Verma"; "Gupta"; "Iyer"; "Malhotra"; "Patel"; "Singh"; "Reddy";
   "Joshi"; "Deshmukh"; "Kumar"; "Chawla"; "Mehta"; "Bhasin"; "Nair"; "Saxena";
   "Rao"; "Kapoor"; "Bhat"; "Shah"; "Trivedi"; "Dutta"; "Mukherjee"; "Roy";
   "Agarwal"; "Bansal"; "Choudhury"; "Pillai"; "Menon"; "Kulkarni"; "Shenoy"; "Hegde";
   "Gowda"; "Naidu"; "Sen"; "Das"; "Biswas"; "Mishra"; "Pandey"; "Tripathi";
   "Tiwari"; "Shukla"; "Dubey"; "Yadav"; "Chauhan"; "Rathore"; "Solanki"; "Vaghela";
   "Jain"; "Bhattacharya"].
Definition locationsList : list string := map (fun l => fst (fst l)) locs.
Definition deptList : list string := map fst depts.

(** [corePasswords] and [coreRoles] *)
Definition core : list (string * (string * string)) :=
  [("admin@company.com", ("admin123", "SUPER_ADMIN")); ("hr@company.com", ("hr123", "HR_ADMIN"));
   ("manager@company.com", ("mgr123", "MANAGER")); ("employee@company.com", ("emp123", "EMPLOYEE"))].

Definition email_of (i : Z) (fn ln : string) : string :=
  if i =? 0 then "admin@company.com"
  else if i =? 1 then "hr@company.com"
  else if i =? 2 then "manager@company.com"
  else if i =? 3 then "employee@company.com"
  else ToLower fn +:+ "." +:+ ToLower ln +:+ "@company.com".

(** [pass] and [roleName] *)
Definition account_of (email : string) : string * string :=
  default ("password123", "EMPLOYEE") (snd <$> List.find (fun x => fst x =?s email) core).

(** INSERT INTO employees (...) ... ON CONFLICT (employee_id) DO UPDATE SET first_name, last_name,
    department_id, designation_id, location_id, status RETURNING id; [$4] is a text cast to DATE. *)
Definition upsert_full (code first last joinDate empType status user dept desig loc phone : string)
  : stmt Database string :=
  with_date joinDate (fun joined =>
  with_uuid user (fun u => with_uuid dept (fun dp => with_uuid desig (fun de => with_uuid loc (fun lo =>
  returning emp_id (upsert employees
    (fun c d =>
       let e := employee_row c {| se_code := code; se_first := first; se_last := last; se_joining := joined;
                                  se_type := empType; se_status := status; se_phone := Some phone;
                                  se_notice := 60 |} u (Some dp) (Some lo) (Some de) None in
       match employee_fk d e with
       | Some err => Err err
       | None =>
           if existsb (same_code e) (tget employees d) then Ok e
           else if account_taken u code d then Err unique_error
           else if ref_user u d then Ok e else Err fk_error
       end)
    same_code
    (fun _ new old =>
       set_emp_first_name (emp_first_name new) (set_emp_last_name (emp_last_name new)
       (set_emp_department_id (emp_department_id new) (set_emp_designation_id (emp_designation_id new)
       (set_emp_location_id (emp_location_id new) (set_emp_status (emp_status new) old)))))))))))).

Definition find_employee (code : string) : stmt Database string :=
  select_row (fun d => emp_id <$> List.find (fun e => emp_employee_id e =?s code) (tget employees d)).
Definition find_user (email : string) : stmt Database string :=
  select_row (fun d => usr_id <$> List.find (fun u => usr_email u =?s email) (tget users d)).

Definition status_of (i : Z) : string :=
  if i mod 7 =? 0 then "PROBATION" else if i mod 19 =? 0 then "NOTICE_PERIOD" else "ACTIVE".

Definition at_cycle {A} (l : list A) (i : Z) : prog Database A := index l (Z.to_nat (i mod Z.of_nat (length l))).

Definition get (m : gmap string string) (k : string) : string := default "" (m !! k).

(** The body of the loop: [empIDs[i] = empID]. *)
Definition seed_full (roleIDs deptIDs desigIDs locIDs : gmap string string) (empIDs : list string) (i : Z)
  : prog Database (list string) :=
  fn <- index firstNames (Z.to_nat i);
  ln <- index lastNames (Z.to_nat i);
  let empCode := "EMP-" +:+ pad0 4 (1001 + i) in
  let email := email_of i fn ln in
  let '(pass, roleName) := account_of email in
  hash <- hash_of pass;
  uID <- insert_or_find (upsert_user email hash) (find_user email);
  match roleIDs !! roleName with
  | Some rID => if uID =?s "" then Ret tt else _ <- exec (grant_role uID rID); Ret tt
  | None => Ret tt
  end ;;;
  dName <- at_cycle deptList i;
  desName <- at_cycle desigs i;
  lName <- at_cycle locationsList i;
  let empType := if i mod 11 =? 0 then "CONTRACT" else "PERMANENT" in
  let joinDate := "2023-" +:+ pad0 2 (i mod 12 + 1) +:+ "-" +:+ pad0 2 (i mod 25 + 1) in
  let phone := "+91 98765 " +:+ pad0 5 (10000 + i) in
  empID <- insert_or_find
             (upsert_full empCode fn ln joinDate empType (status_of i) uID (get deptIDs dName)
                (get desigIDs desName) (get locIDs lName) phone)
             (find_employee empCode);
  Ret (empIDs ++ [empID]).

(** INSERT INTO payroll_runs (...) VALUES ($1, 8, 2026, 'PUBLISHED', 14.5, 75000.00, 1.8, $2)
    ON CONFLICT (organization_id, month, year) DO UPDATE SET status = 'PUBLISHED' RETURNING id *)
Definition same_period (new old : RunRow) : bool :=
  (run_organization_id old =?s run_organization_id new) && (run_month old =? run_month new)
  && (run_year old =? run_year new).

Definition upsert_run (orgID : string) (now : Z) : stmt Database string :=
  with_uuid orgID (fun org =>
  returning run_id (upsert payroll_runs
    (fun c d =>
       if ref_org org d
       then Ok {| run_id := sc_uuid c; run_organization_id := org; run_month := 8; run_year := 2026;
                  run_status := "PUBLISHED"; run_processed_at := None; run_processed_by := None;
                  run_approved_by := None; run_approved_at := None; run_locked_at := None;
                  run_total_employees := 0; run_total_gross := 0; run_total_deductions := 0;
                  run_total_net_pay := 0; run_total_lop_days := 1450;
                  run_total_advances_deducted := 7500000; run_variance_percentage := 180;
                  run_created_at := now |}
       else Err fk_error)
    same_period (fun _ _ => set_run_status "PUBLISHED"))).

Definition find_run (orgID : string) : stmt Database string :=
  with_uuid orgID (fun org => select_row (fun d => run_id <$> List.find (fun p =>
    (run_organization_id p =?s org) && (run_month p =? 8) && (run_year p =? 2026)) (tget payroll_runs d))).

(** [basic], [hra], [totalGross], [totalDeductions] and [netPay] of the i-th employee *)
Definition slip_amounts (i : Z) : PayAmounts :=
  (let basic := of_Z (60000 + i mod 5 * 15000) in
   let hra := basic * lit 5 10 in
   let special := basic * lit 25 100 in
   let totalGross := basic + hra + special in
   let pf := basic * lit 12 100 in
   let tds := totalGross * lit 10 100 in
   let ptax := of_Z 200 in
   let lop := if (i mod 6 =? 0)%Z then totalGross / of_Z 30 * of_Z (i mod 3 + 1) else f0 in
   let totalDeductions := pf + tds + ptax + lop in
   {| basicPay := basic; pay_hra := hra; gross := totalGross; totalDed := totalDeductions;
      netPay := totalGross - totalDeductions |})%f64.

(** INSERT INTO payslips ... ON CONFLICT (payroll_run_id, employee_id) DO UPDATE SET basic_pay,
    total_earnings, net_pay: the house rent and the deductions of an older payslip stay. *)
Definition publish_payslip (runID empID : string) (a : PayAmounts) : stmt Database Z :=
  with_uuid runID (fun ru => with_uuid empID (fun eu =>
  with_num 12 2 (basicPay a) (fun nb => with_num 12 2 (pay_hra a) (fun nh =>
  with_num 12 2 (gross a) (fun ng => with_num 12 2 (totalDed a) (fun nd =>
  with_num 12 2 (netPay a) (fun nn =>
  returning (fun _ => 1) (upsert payslips
    (fun c d => if existsb (fun p => run_id p =?s ru) (tget payroll_runs d) && ref_employee eu d
                then Ok {| slp_id := sc_uuid c; slp_payroll_run_id := ru; slp_employee_id := eu;
                           slp_basic_pay := nb; slp_hra := nh; slp_total_earnings := ng;
                           slp_total_deductions := nd; slp_net_pay := nn; slp_status := "PUBLISHED";
                           slp_created_at := sc_now c; slp_updated_at := sc_now c |}
                else Err fk_error)
    (fun new old => (slp_payroll_run_id old =?s slp_payroll_run_id new)
                    && (slp_employee_id old =?s slp_employee_id new))
    (fun _ new old => {| slp_id := slp_id old; slp_payroll_run_id := slp_payroll_run_id old;
                         slp_employee_id := slp_employee_id old; slp_basic_pay := slp_basic_pay new;
                         slp_hra := slp_hra old; slp_total_earnings := slp_total_earnings new;
                         slp_total_deductions := slp_total_deductions old; slp_net_pay := slp_net_pay new;
                         slp_status := slp_status old; slp_created_at := slp_created_at old;
                         slp_updated_at := slp_updated_at old |}))))))))).

Definition seed_slip (runID : string) (_ : unit) (x : Z * string) : prog Database unit :=
  let '(i, eID) := x in
  if eID =?s "" then Ret tt else _ <- exec (publish_payslip runID eID (slip_amounts i)); Ret tt.

Definition Seed50Employees : prog Database (list string) :=
  org <- exec (upsert_org "Enterprise Corp" "ENT_CORP");
  match org with
  | Err e => Fatalf ("Failed to create org: " +:+ e)
  | Ok orgID =>
      roleIDs <- for_each role_list ∅ (fun roleIDs r =>
        res <- exec (upsert_role r (Some (r +:+ " Role")));
        Ret (match res with Ok id => <[r := id]> roleIDs | Err _ => roleIDs end));
      locIDs <- for_each locs ∅ (fun ids '(name, city, state) =>
        id <- insert_or_find (insert_location orgID name city (Some state) (Some "India")) (find_location orgID name);
        Ret (<[name := id]> ids));
      deptIDs <- for_each depts ∅ (fun ids '(name, code) =>
        res <- exec (upsert_department orgID name code);
        Ret (match res with Ok id => <[name := id]> ids | Err _ => ids end));
      desigIDs <- for_each desigs ∅ (fun ids d =>
        id <- insert_or_find (insert_designation orgID d) (find_designation orgID d);
        Ret (<[d := id]> ids));
      empIDs <- for_each (upto 0 50) [] (seed_full roleIDs deptIDs desigIDs locIDs);
      t <- now;
      runID <- insert_or_find (upsert_run orgID t) (find_run orgID);
      _ <- for_each (indexed empIDs) tt (seed_slip runID);
      _ <- for_each Seed.leaveTypes tt (fun _ _ => _ <- exec Seed.insert_leave_type; Ret tt);
      Ret ["✓ Seeded Roles"; "✓ Seeded Organization Master Data"; "✓ Seeded 50 Full Employees into `employees` table";
           "✓ Seeded Payroll Runs & 50 Payslips into `payslips` table"; "✓ Seeded Leave Types";
           "🎉 Database successfully populated with 50 persistent employees!"]
  end.
End Main.
End Enterprise.
