(* ===== verification/SeedsProps.v ===== *)
(** * The seed programs: what they leave of a database

    Whatever the connection does, the five programs keep the foreign keys and the unique
    keys of the tables. *)

From stdpp Require Import gmap.
From S2P Require Import Gotime Prelude Float64 Go Sql Tx Schema Calendar Auth Importer User Employee Attendance Payroll References History HistoryStmts HistoryRoutes Seeds SeedDemo SeedTestEmployees SeedPayroll SeedRbac SeedEnterprise.

#[local] Open Scope Z_scope.
#[local] Open Scope prog_scope.

(** ** The unique keys of the tables that the programs write *)

(** UNIQUE (employee_id) and UNIQUE (user_id), of which NULLs are free. *)
Definition unique_employees (l : list EmpRow) : Prop :=
  NoDup (map emp_employee_id l) /\ NoDup (omap emp_user_id l).

Definition employees_stay_unique : relation (list EmpRow) := fun l l' => unique_employees l -> unique_employees l'.

#[export] Instance employees_stay_unique_preorder : PreOrder employees_stay_unique.
Proof. split; unfold employees_stay_unique; repeat intro; auto. Qed.

Lemma NoDup_omap_where {A B} (f : A -> option B) p l : NoDup (omap f l) -> NoDup (omap f (where_ p l)).
Proof.
  unfold where_. induction l as [|x l IH]; csimpl; [done|]. destruct (f x) as [z|] eqn:E.
  - intros [Hz Hl]%NoDup_cons. destruct (p x); csimpl; [|by apply IH]. rewrite E. constructor; [|by apply IH].
    intros (y & Hy & Hf)%list_elem_of_omap. apply Hz, list_elem_of_omap. exists y. split; [|done].
    by apply elem_of_where in Hy as [Hy _].
  - intros Hl. destruct (p x); csimpl; rewrite ?E; by apply IH.
Qed.

Lemma employees_where p l : employees_stay_unique l (where_ p l).
Proof. intros [H1 H2]. split; [by apply stays_unique_where|by apply NoDup_omap_where]. Qed.

Lemma omap_ext_in {A B} (f : A -> option B) (g : A -> A) l : (forall x, x ∈ l -> f (g x) = f x) -> omap f (map g l) = omap f l.
Proof.
  induction l as [|x l IH]; intros Hg; [done|]. csimpl. rewrite Hg by by left. rewrite IH; [done|]. intros y Hy. apply Hg. by right.
Qed.

Lemma employees_set_where p f l : (forall x, x ∈ l -> p x = true -> emp_employee_id (f x) = emp_employee_id x /\ emp_user_id (f x) = emp_user_id x) ->
  employees_stay_unique l (set_where p f l).
Proof.
  intros Hf [H1 H2]. unfold set_where. split.
  - rewrite map_map. replace (map _ l) with (map emp_employee_id l); [done|]. apply map_ext_in. intros x Hx%list_elem_of_In.
    destruct (p x) eqn:E; [|done]. by rewrite (proj1 (Hf x Hx E)).
  - rewrite omap_ext_in; [done|]. intros x Hx. destruct (p x) eqn:E; [|done]. apply (Hf x Hx E).
Qed.

(** A new employee, of a code and an account that no other one has. *)
Lemma employees_app l r : Forall (fun x => emp_employee_id x <> emp_employee_id r) l ->
  (forall x u, x ∈ l -> emp_user_id x = Some u -> emp_user_id r <> Some u) -> employees_stay_unique l (l ++ [r]).
Proof.
  intros Hc Hu [H1 H2]. split; [by apply stays_unique_app|]. rewrite omap_app. apply NoDup_app. split; [done|]. csimpl.
  destruct (emp_user_id r) as [u|] eqn:E; (split; [|by repeat constructor; intros ?%not_elem_of_nil]).
  - intros v (x & Hx & Hv)%list_elem_of_omap ->%list_elem_of_singleton. by apply (Hu x u).
  - intros v _ Hv. by apply not_elem_of_nil in Hv.
Qed.

(** The employee of a code gets an account that no employee of another code has. *)
Lemma employees_take code u f l : (forall x, emp_employee_id (f x) = emp_employee_id x /\ emp_user_id (f x) = Some u) ->
  (forall x, x ∈ l -> emp_user_id x = Some u -> emp_employee_id x = code) ->
  employees_stay_unique l (set_where (fun x => emp_employee_id x =?s code) f l).
Proof.
  intros Hf Hu [H1 H2]. split.
  { rewrite map_set_where; [done|]. intros x _. apply Hf. }
  unfold set_where. induction l as [|x l IH]; [done|]. csimpl in H1. csimpl. apply NoDup_cons in H1 as [Hx H1].
  assert (H2' : NoDup (omap emp_user_id l)) by (csimpl in H2; destruct (emp_user_id x); [by apply NoDup_cons in H2 as [_ ?]|done]).
  assert (Hu' : forall y, y ∈ l -> emp_user_id y = Some u -> emp_employee_id y = code) by (intros y Hy; apply Hu; by right).
  destruct (emp_employee_id x =?s code) eqn:E.
  - apply String.eqb_eq in E. subst code. rewrite (proj2 (Hf x)).
    assert (Hother : forall y, y ∈ l -> (emp_employee_id y =?s emp_employee_id x) = false).
    { intros y Hy. apply String.eqb_neq. intros Heq. apply Hx. rewrite <- Heq. by apply list_elem_of_In, in_map, list_elem_of_In. }
    rewrite omap_ext_in by (intros y Hy; by rewrite Hother). constructor; [|done].
    intros (y & Hy & Hv)%list_elem_of_omap. specialize (Hother y Hy). apply String.eqb_neq in Hother. by apply Hother, Hu'.
  - destruct (emp_user_id x) as [v|] eqn:Ev; [|by apply IH]. constructor; [|by apply IH].
    intros (z & Hz & Hv)%list_elem_of_omap. apply list_elem_of_fmap in Hz as (y & -> & Hy).
    csimpl in H2. rewrite Ev in H2. apply NoDup_cons in H2 as [Hnot _].
    destruct (emp_employee_id y =?s code) eqn:Ey.
    + rewrite (proj2 (Hf y)) in Hv. injection Hv as ->. apply String.eqb_neq in E. apply E, Hu; [by left|done].
    + apply Hnot, list_elem_of_omap. by exists y.
Qed.

Lemma account_free u code d : account_taken u code d = false ->
  forall x, x ∈ tget employees d -> emp_user_id x = Some u -> emp_employee_id x = code.
Proof.
  intros Ha x Hx Hu. unfold account_taken in Ha. apply existsb_false_Forall in Ha. rewrite Forall_forall in Ha.
  specialize (Ha x Hx). cbv beta in Ha. rewrite Hu in Ha. simpl in Ha. rewrite String.eqb_refl in Ha. simpl in Ha.
  apply negb_false_iff in Ha. by apply String.eqb_eq.
Qed.

Definition keyed (t : tbl) : relation (list (row t)) :=
  match t with
  | T_roles => stays_unique rol_name
  | T_users => stays_unique usr_email
  | T_user_roles => stays_unique (fun r => (uro_user_id r, uro_role_id r))
  | T_organizations => stays_unique org_code
  | T_departments => stays_unique (fun r => (dep_organization_id r, dep_code r))
  | T_employees => employees_stay_unique
  | T_payroll_runs => stays_unique (fun r => (run_organization_id r, run_month r, run_year r))
  | T_payslips => stays_unique (fun s => (slp_payroll_run_id s, slp_employee_id s))
  | T_attendance_daily_status => stays_unique (fun a => (day_employee_id a, day_date a))
  | _ => fun _ _ => True
  end.

#[export] Instance keyed_preorder t : PreOrder (keyed t).
Proof. destruct t; simpl; try apply _; by split. Qed.

Definition keys_kept (d d' : Database) : Prop := forall t, keyed t (tget (tab t) d) (tget (tab t) d').

#[export] Instance keys_kept_preorder : PreOrder keys_kept.
Proof. split; [by intros d t|]. intros d1 d2 d3 H1 H2 t. etransitivity; [apply H1|apply H2]. Qed.

Lemma keys_put t l d : keyed t (tget (tab t) d) l -> keys_kept d (tput (tab t) l d).
Proof.
  intros Hl u. destruct (decide (t = u)) as [<-|Hne]; [by rewrite tget_tput|]. pose proof (tab_indep t u Hne) as Hi. by rewrite Hi.
Qed.

(** The constraints between the rows hold if they did. *)
Definition sound : relation Database := both refs_kept keys_kept.

#[export] Instance sound_preorder : PreOrder sound.
Proof. unfold sound. apply _. Qed.

Lemma keyed_where t p l : keyed t l (where_ p l).
Proof. destruct t; simpl; try done; first [apply stays_unique_where | apply employees_where]. Qed.

(** ** Automation *)

Lemma respects_returning {R B} (Q : relation Database) (f : R -> B) (s : stmt Database R) :
  respects Q s -> respects Q (returning f s).
Proof. intros Hs. by apply respects_map. Qed.

Lemma respects_refused {B} (Q : relation Database) why : respects Q (refused_by_schema (B := B) why).
Proof. done. Qed.

Ltac rows_keyed :=
  intros; apply keys_put; cbn [keyed]; try exact I; tests;
  first
  [ apply stays_unique_set_where; same_key
  | apply stays_unique_where
  | match goal with H : Forall _ _ |- _ => apply (unique_app_same _ _ _ _ H); new_key end
  | match goal with H : existsb _ _ = false |- _ => apply (unique_app_existsb _ _ _ _ H); new_key end
  | idtac ].

Ltac sound_rows := intros; split; [refs_rows|rows_keyed].

Ltac sound_stmt :=
  repeat first
  [ progress keep_path | apply respects_returning | apply respects_refused
  | apply respects_opt_cast; [intros; keep_path; by auto|intros ?] ];
  try first
  [ apply respects_insert; sound_rows | apply respects_delete; sound_rows
  | apply respects_upsert; sound_rows ].

Section Sound.
Context `{Server} `{Crypto}.
#[local] Abbreviation kept s := (respects sound s).

Lemma sound_upsert_role name desc : kept (upsert_role name desc).
Proof. unfold upsert_role. sound_stmt. Qed.

Lemma sound_upsert_user email hash : kept (upsert_user email hash).
Proof. unfold upsert_user. sound_stmt. Qed.

Lemma sound_grant_role u r : kept (grant_role u r).
Proof.
  unfold grant_role. keep_path. intros c d b d'. destruct (existsb _ _) eqn:E; [intros [= _ <-]; reflexivity|].
  destruct (_ && _) eqn:Er; [|done]. intros [= _ <-]. bool_prop. split.
  - apply (refs_app T_user_roles). intros _. refs_linked.
  - apply keys_put. cbn [keyed]. eapply unique_app_existsb; [exact E|new_key].
Qed.

Lemma sound_assign_role u r : kept (assign_role u r).
Proof. unfold assign_role. keep_path. apply respects_map; [|done]. sound_stmt. Qed.

Lemma sound_delete_user_roles i : kept (delete_user_roles i).
Proof. unfold delete_user_roles. sound_stmt. Qed.

Lemma sound_upsert_org name code : kept (upsert_org name code).
Proof. unfold upsert_org. sound_stmt. Qed.

Lemma sound_insert_location o n ci s co : kept (insert_location o n ci s co).
Proof. unfold insert_location. sound_stmt. Qed.

Lemma sound_find_location o n : kept (find_location o n).
Proof. unfold find_location. sound_stmt. Qed.

Lemma sound_upsert_department o n c : kept (upsert_department o n c).
Proof. unfold upsert_department. sound_stmt. Qed.

Lemma sound_insert_designation o n : kept (Seeds.insert_designation o n).
Proof. unfold Seeds.insert_designation. sound_stmt. Qed.

Lemma sound_find_designation o n : kept (find_designation o n).
Proof. unfold find_designation. sound_stmt. Qed.

(** *** Employees *)

Lemma opt_cast_sound {A B} (cast : string -> (A -> stmt Database B) -> stmt Database B) o (f : option A -> stmt Database B) :
  (forall a g, (forall b, kept (g b)) -> kept (cast a g)) -> (forall b, kept (f b)) -> kept (opt_cast cast o f).
Proof. apply respects_opt_cast. Qed.

Lemma existsb_none {A} (p : A -> bool) l : Forall (fun x => p x = false) l -> existsb p l = false.
Proof. induction 1 as [|x l Hx Hl IH]; simpl; [done|]. by rewrite Hx. Qed.

Lemma same_code_spec new old : same_code new old = true <-> emp_employee_id old = emp_employee_id new.
Proof. unfold same_code. apply String.eqb_eq. Qed.

(** The row of a statement is a new employee, or updates one of its code; it keeps its
    account or takes one that no other employee has. *)
Lemma sound_employees (mk : StmtCtx -> Database -> result EmpRow) (upd : StmtCtx -> EmpRow -> EmpRow -> EmpRow) :
  (forall c d r, mk c d = Ok r -> Forall (fun x => same_code r x = false) (tget employees d) ->
     linked (has d) T_employees r = true
     /\ forall x u, x ∈ tget employees d -> emp_user_id r = Some u -> emp_user_id x = Some u -> emp_employee_id x = emp_employee_id r) ->
  (forall c d r, mk c d = Ok r -> forall old, old ∈ tget employees d -> same_code r old = true ->
     emp_id (upd c r old) = emp_id old
     /\ (linked (has d) T_employees old = true -> linked (has d) T_employees (upd c r old) = true)) ->
  (forall c d r, mk c d = Ok r -> (forall old, emp_employee_id (upd c r old) = emp_employee_id old)
     /\ ((forall old, emp_user_id (upd c r old) = emp_user_id old)
         \/ exists u, (forall old, emp_user_id (upd c r old) = Some u)
            /\ forall x, x ∈ tget employees d -> emp_user_id x = Some u -> emp_employee_id x = emp_employee_id r)) ->
  kept (upsert employees mk same_code upd).
Proof.
  intros Hnew Hupd Hacc. apply respects_upsert.
  - intros c d r Hr Hl. destruct (Hnew c d r Hr Hl) as [Hlink Hfree]. split; [apply (refs_app T_employees); eauto|].
    apply keys_put. cbn [keyed]. rewrite Forall_forall in Hl.
    assert (Hne : forall x, x ∈ tget employees d -> emp_employee_id x <> emp_employee_id r).
    { intros x Hx Hk%same_code_spec. specialize (Hl x Hx). simpl in Hl. congruence. }
    apply employees_app; [by apply Forall_forall|]. intros x u Hx Hu Hr'. by apply (Hne x Hx), (Hfree x u).
  - intros c d r Hr. split.
    + apply (refs_set_where T_employees). intros old Ho Hs. destruct (Hupd c d r Hr old Ho Hs) as (Hi & Hl).
      split; [|done]. cbn [key]. by rewrite Hi.
    + apply (keys_put T_employees). cbn [keyed]. destruct (Hacc c d r Hr) as [Hcode [Hsame|(u & Hu & Hfree)]].
      * apply employees_set_where. intros x _ _. by split.
      * apply (employees_take (emp_employee_id r) u); [by split|done].
Qed.

Lemma linked_user d u e : linked (has d) T_employees e = true -> has d T_users u = true ->
  linked (has d) T_employees (set_emp_user_id (Some u) e) = true.
Proof. cbn [linked nullable]. simpl. intros Hl ->. rewrite ?andb_true_iff in *. tauto. Qed.

(** The row of [upsert_employee]: its account is there, and no other employee's. *)
Lemma upserted_account d u code e r :
  (if account_taken u code d then Err unique_error
   else if negb (ref_user u d) then Err fk_error
   else if existsb (same_code e) (tget employees d) then Ok e
   else match employee_fk d e with Some err => Err err | None => Ok e end) = Ok r ->
  emp_user_id e = Some u -> emp_employee_id e = code ->
  r = e /\ ref_user u d = true
  /\ (existsb (same_code e) (tget employees d) = false -> employee_fk d e = None)
  /\ forall x, x ∈ tget employees d -> emp_user_id x = Some u -> emp_employee_id x = emp_employee_id r.
Proof.
  intros Hr Hu Hc. destruct (account_taken u code d) eqn:Ea; [done|]. destruct (ref_user u d); [|done]. cbn [negb] in Hr.
  assert (r = e /\ (existsb (same_code e) (tget employees d) = false -> employee_fk d e = None)) as [-> Hfk].
  { destruct (existsb _ _); [by injection Hr as <-|]. destruct (employee_fk d e); [done|]. by injection Hr as <-. }
  split_and!; [done|done|done|]. rewrite Hc. by apply account_free.
Qed.

Lemma sound_upsert_employee code f l u dp lo de mg : kept (upsert_employee code f l u dp lo de mg).
Proof.
  unfold upsert_employee. keep_path.
  repeat (apply opt_cast_sound; [intros; keep_path; by auto|intros ?]). apply respects_returning, sound_employees.
  - intros c d r Hr Hl. apply upserted_account in Hr as (-> & Hu & Hfk & Hfree); [|done..].
    split; [|intros x v Hx [= <-]; by apply Hfree]. rewrite employee_fk_linked.
    + simpl. rewrite andb_true_r. exact Hu.
    + apply Hfk. by apply existsb_none.
  - intros c d r Hr old Ho Hs. apply upserted_account in Hr as (-> & Hu & _); [|done..]. split; [done|]. intros Hl. by apply linked_user.
  - intros c d r Hr. apply upserted_account in Hr as (-> & _ & _ & Hfree); [|done..]. split; [done|]. right.
    eexists. split; [done|exact Hfree].
Qed.

(** *** The employees that go, with the rows that follow them *)

Lemma follows_none t r : t ∉ followers -> follows t r = None.
Proof. intros Ht. destruct t; try reflexivity; exfalso; apply Ht; unfold followers; set_solver. Qed.

Lemma fold_drop ids t l d : NoDup l ->
  tget (tab t) (fold_left (drop_followers ids) l d) =
    if bool_decide (t ∈ l) then where_ (fun r => negb (names_one ids (follows t r))) (tget (tab t) d) else tget (tab t) d.
Proof.
  intros Hl. revert d. induction Hl as [|u l Hu Hl IH]; intros d; [done|]. cbn [fold_left]. rewrite IH.
  unfold drop_followers. destruct (decide (u = t)) as [<-|Hne].
  - rewrite (bool_decide_false (u ∈ l)) by done.
    rewrite (bool_decide_true (u ∈ u :: l)) by (apply elem_of_cons; by left). apply tget_tput.
  - rewrite !(tab_indep u t Hne). 
    rewrite (bool_decide_ext (t ∈ u :: l) (t ∈ l)); [done|]. rewrite elem_of_cons. naive_solver.
Qed.

Lemma where_true {A} (p : A -> bool) l : (forall x, p x = true) -> where_ p l = l.
Proof. intros Hp. unfold where_. induction l as [|x l IH]; simpl; [done|]. by rewrite Hp, IH. Qed.

Lemma drop_rows ids t d : tget (tab t) (fold_left (drop_followers ids) followers d)
  = where_ (fun r => negb (names_one ids (follows t r))) (tget (tab t) d).
Proof.
  rewrite fold_drop by (unfold followers; apply (bool_decide_unpack _); vm_compute; exact I).
  destruct (decide (t ∈ followers)) as [Ht|Ht]; [by rewrite bool_decide_true|].
  rewrite bool_decide_false, where_true by (done || by intros r; rewrite follows_none). done.
Qed.

Definition tickets_of (ids : list string) (d : Database) : list string :=
  map hdt_id (where_ (fun t => mem_s (hdt_employee_id t) ids) (tget helpdesk_tickets d)).

Lemma deleted_tables ids t d : t <> T_helpdesk_ticket_comments ->
  tget (tab t) (employees_deleted ids d) = where_ (fun r => negb (names_one ids (follows t r))) (tget (tab t) d).
Proof.
  intros Ht. unfold employees_deleted. rewrite drop_rows. unfold helpdesk_ticket_comments at 1.
  by rewrite (tab_indep T_helpdesk_ticket_comments t) by done.
Qed.

Lemma deleted_comments ids d : tget helpdesk_ticket_comments (employees_deleted ids d)
  = where_ (fun m => negb (mem_s (hdm_ticket_id m) (tickets_of ids d))) (tget helpdesk_ticket_comments d).
Proof.
  etransitivity; [apply (drop_rows ids T_helpdesk_ticket_comments)|]. rewrite where_true by done.
  apply (tget_tput (t := helpdesk_ticket_comments)).
Qed.

(** The keys that are left. *)
Definition remains (ids tickets : list string) (t : tbl) (k : string) : bool :=
  match t with
  | T_employees => negb (mem_s k ids)
  | T_helpdesk_tickets => negb (mem_s k tickets)
  | _ => true
  end.

Lemma linked_and (p q : tbl -> string -> bool) t r :
  linked p t r = true -> linked q t r = true -> linked (fun u k => p u k && q u k) t r = true.
Proof.
  assert (Hn : forall u o, nullable (p u) o = true -> nullable (q u) o = true ->
    nullable (fun k => p u k && q u k) o = true).
  { intros u [k|]; [|done]. simpl. by intros -> ->. }
  intros H1 H2. destruct t; cbn [linked] in *; try done; rewrite ?andb_true_iff in *; naive_solver.
Qed.

Lemma has_remains ids d t k : has d t k = true -> remains ids (tickets_of ids d) t k = true ->
  has (employees_deleted ids d) t k = true.
Proof.
  intros [r [Hr Hk]]%has_spec Hm. apply has_spec. exists r. split; [|done].
  destruct (decide (t = T_helpdesk_ticket_comments)) as [->|Hne]; [done|].
  rewrite deleted_tables by done. apply elem_of_where. split; [done|].
  destruct t; try reflexivity; cbn [key] in Hk; try discriminate; injection Hk as <-; simpl in *; [done|].
  destruct (mem_s (hdt_employee_id r) ids) eqn:E; [|done]. apply negb_true_iff in Hm.
  assert (Hin : hdt_id r ∈ tickets_of ids d).
  { apply list_elem_of_fmap. exists r. split; [done|]. by apply elem_of_where. }
  apply mem_s_spec in Hin. congruence.
Qed.

Lemma nullable_remains ids tickets o : names_one ids o = false -> nullable (remains ids tickets T_employees) o = true.
Proof. destruct o as [k|]; [|done]. simpl. by intros ->. Qed.

Lemma row_remains ids d t r : employees_referenced ids d = false ->
  r ∈ tget (tab t) (employees_deleted ids d) ->
  r ∈ tget (tab t) d /\ linked (remains ids (tickets_of ids d)) t r = true.
Proof.
  intros Href Hr. unfold employees_referenced in Href. bool_prop.
  repeat match goal with H : existsb _ _ = false |- _ => apply existsb_false_Forall in H; rewrite Forall_forall in H end.
  destruct (decide (t = T_helpdesk_ticket_comments)) as [->|Hne].
  - change (tab T_helpdesk_ticket_comments) with helpdesk_ticket_comments in *. rewrite deleted_comments in Hr.
    apply elem_of_where in Hr as [Hr Hm]. split; [done|]. cbn [linked remains]. by rewrite Hm.
  - rewrite deleted_tables in Hr by done. apply elem_of_where in Hr as [Hr Hm]. split; [done|].
    destruct t; try done; cbn [linked]; cbn [follows names_one] in Hm; try (simpl; rewrite ?Hm, ?nullable_any by done; done);
      match goal with H : forall x, x ∈ _ -> _ |- _ => specialize (H r Hr); cbv beta in H end.
    + rewrite Hm in *. simpl in *. bool_prop. rewrite !nullable_any, !nullable_remains by done. done.
    + simpl in *. rewrite nullable_any by done. by match goal with H : mem_s _ _ = false |- _ => rewrite H end.
    + simpl in *. by rewrite nullable_remains.
Qed.

Lemma keyed_fold ids l d : keys_kept d (fold_left (drop_followers ids) l d).
Proof.
  revert d. induction l as [|t l IH]; intros d; [intros t; reflexivity|]. cbn [fold_left].
  etransitivity; [|apply IH]. apply keys_put, keyed_where.
Qed.

Lemma sound_delete_employees p : kept (delete_employees p).
Proof.
  intros c d b d'. unfold delete_employees. destruct (employees_referenced _ _) eqn:Er; [done|]. intros [= _ <-]. split.
  - intros Hd t. apply Forall_forall. intros r Hr. apply (row_remains _ _ t) in Hr as [Hr Hl]; [|done].
    specialize (Hd t). rewrite Forall_forall in Hd. specialize (Hd r Hr).
    eapply linked_mono; [|exact (linked_and _ _ _ _ Hd Hl)]. intros u k [Hk Hu]%andb_true_iff. by apply has_remains.
  - unfold employees_deleted. etransitivity; [|apply keyed_fold]. apply keys_put, (keyed_where T_helpdesk_ticket_comments).
Qed.

(** *** The accounts that go *)

Lemma user_deleted_sound i d : user_referenced i d = false -> sound d (user_deleted i d).
Proof.
  intros Hu. split.
  - intros Hd t. eapply Forall_impl; [by apply deleted_rows|]. intros r. apply linked_mono, known_but_left.
  - unfold user_deleted. repeat (etransitivity; [|apply keys_put]; [|cbn [keyed];
      first [exact I | apply stays_unique_where | apply stays_unique_set_where; intros; reflexivity
            | apply employees_where | apply employees_set_where; intros; by split]]). reflexivity.
Qed.

Lemma referenced_elsewhere i j d : user_referenced j (user_deleted i d) = user_referenced j d.
Proof. reflexivity. Qed.

Lemma sound_delete_users_like s : kept (delete_users_like s).
Proof.
  intros c d b d'. unfold delete_users_like. destruct (existsb _ _) eqn:E; [done|]. intros [= _ <-].
  set (ids := map usr_id _) in *. clearbody ids. revert d E. induction ids as [|i ids IH]; intros d E; [reflexivity|]. cbn [fold_left existsb] in *. bool_prop.
  etransitivity; [by apply user_deleted_sound|]. apply IH. done.
Qed.


Lemma sound_insert_profile u code f l dp mg : kept (Rbac.insert_profile u code f l dp mg).
Proof.
  unfold Rbac.insert_profile. keep_path. apply opt_cast_sound; [intros; keep_path; by auto|intros ?].
  apply respects_returning, respects_insert. intros c d r. destruct (_ || _) eqn:Ex; [done|].
  destruct (negb _) eqn:Eu; [done|]. destruct (employee_fk d _) eqn:Ef; [done|]. intros [= <-]. bool_prop. split.
  - apply (refs_app T_employees). intros _. rewrite employee_fk_linked by done. simpl. rewrite andb_true_r. exact Eu.
  - apply keys_put. cbn [keyed]. match goal with H : account_taken _ _ _ = false |- _ => pose proof (account_free _ _ _ H) as Hfree end.
    match goal with H : existsb (same_code _) _ = false |- _ => apply existsb_false_Forall in H; rename H into Hl end.
    assert (Hne : forall x, x ∈ tget employees d -> emp_employee_id x <> code).
    { intros x Hx Hk. rewrite Forall_forall in Hl. specialize (Hl x Hx). cbv beta in Hl.
      rewrite (proj2 (same_code_spec _ _)) in Hl; done. }
    apply employees_app; [by apply Forall_forall|]. intros x v Hx Hv [= <-]. by apply (Hne x Hx), Hfree.
Qed.

Lemma sound_delete_profile u code : kept (Rbac.delete_profile u code).
Proof. unfold Rbac.delete_profile. keep_path. apply sound_delete_employees. Qed.

Lemma sound_upsert_full code f l j ty st u dp de lo ph : kept (Enterprise.upsert_full code f l j ty st u dp de lo ph).
Proof.
  unfold Enterprise.upsert_full. keep_path. apply respects_returning, sound_employees.
  - intros c d r. destruct (employee_fk d _) eqn:Ef; [done|]. destruct (existsb _ _) eqn:Ex.
    + intros [= <-] Hl. apply existsb_exists in Ex as (x & Hx%list_elem_of_In & Hs).
      rewrite Forall_forall in Hl. specialize (Hl x Hx). discriminate (eq_trans (eq_sym Hs) Hl).
    + destruct (account_taken _ _ _) eqn:Ea; [done|]. destruct (ref_user _ d) eqn:Eu; [|done]. intros [= <-] _.
      split; [|intros x v Hx [= <-]; by apply (account_free _ _ _ Ea)].
      rewrite employee_fk_linked by done. simpl. rewrite andb_true_r. exact Eu.
  - intros c d r Hr old Ho Hs. split; [done|]. intros Hl. destruct (employee_fk d _) eqn:Ef; [done|].
    assert (Hl' : linked (has d) T_employees (set_emp_user_id None r) = true).
    { destruct (existsb _ _); [|destruct (account_taken _ _ _); [done|]; destruct (ref_user _ d); [|done]];
      injection Hr as <-; by rewrite employee_fk_linked. }
    cbn [linked] in *. simpl in *. rewrite ?andb_true_iff in *. tauto.
  - intros c d r _. split; [done|]. by left.
Qed.

(** *** The payroll data *)

Lemma sound_delete_payslips m y : kept (PayrollData.delete_payslips m y).
Proof.
  unfold PayrollData.delete_payslips. keep_path. intros c d b d' [= _ <-]. split; [by apply (refs_where T_payslips)|].
  apply keys_put, (keyed_where T_payslips).
Qed.

(** The keys that are left when the runs go with their payslips. *)
Definition other_runs (runs : list string) (t : tbl) (k : string) : bool :=
  match t with T_payroll_runs => negb (mem_s k runs) | _ => true end.

Lemma sound_delete_runs m y : kept (PayrollData.delete_runs m y).
Proof.
  unfold PayrollData.delete_runs. keep_path. intros c d b d' [= _ <-].
  set (runs := map run_id _). set (p := fun s : SlipRow => negb (mem_s (slp_payroll_run_id s) runs)).
  set (q := fun r : RunRow => negb (PayrollData.run_in m y r)). split.
  - intros Hd.
    set (d2 := tput payroll_runs _ _).
    assert (Hh : forall t k, has d t k && other_runs runs t k = true -> has d2 t k = true).
    { intros t k [[r [Hr Hk]]%has_spec Hn]%andb_true_iff. apply has_spec. exists r. split; [|done].
      destruct t; try exact Hr; [|done]. apply (elem_of_where q). split; [exact Hr|]. unfold q.
      destruct (PayrollData.run_in m y r) eqn:E; [|done]. injection Hk as <-. simpl in Hn. apply negb_true_iff in Hn.
      assert (Hin : run_id r ∈ runs) by (apply list_elem_of_fmap; exists r; split; [done|]; by apply elem_of_where).
      apply mem_s_spec in Hin. congruence. }
    intros t. specialize (Hd t). rewrite Forall_forall in Hd. apply Forall_forall. intros r Hr.
    enough (r ∈ tget (tab t) d /\ linked (other_runs runs) t r = true) as [Hr' Hl].
    { eapply linked_mono; [exact Hh|]. by apply linked_and; [apply Hd|]. }
    destruct t; try (split; [exact Hr|simpl; by rewrite ?nullable_any]).
    + apply (elem_of_where q) in Hr as [Hr _]. split; [exact Hr|]. simpl. by rewrite !nullable_any.
    + apply (elem_of_where p) in Hr as [Hr Hp]. split; [exact Hr|]. cbn [linked other_runs]. unfold p in Hp. by rewrite Hp.
  - etransitivity; [|apply keys_put, (keyed_where T_payroll_runs)]. apply keys_put, (keyed_where T_payslips).
Qed.

Lemma sound_delete_advances m y : kept (PayrollData.delete_advances m y).
Proof. unfold PayrollData.delete_advances. sound_stmt. Qed.

Lemma sound_delete_attendance m y : kept (PayrollData.delete_attendance m y).
Proof. unfold PayrollData.delete_attendance. sound_stmt. Qed.

Lemma sound_insert_active_structure i b : kept (PayrollData.insert_active_structure i b).
Proof. unfold PayrollData.insert_active_structure. sound_stmt. Qed.

Lemma sound_insert_weekend i t : kept (PayrollData.insert_weekend i t).
Proof. unfold PayrollData.insert_weekend. sound_stmt. Qed.

Lemma sound_upsert_weekday i t s v : kept (PayrollData.upsert_weekday i t s v).
Proof. unfold PayrollData.upsert_weekday. sound_stmt. Qed.

Lemma sound_insert_festival_advance i m y : kept (PayrollData.insert_festival_advance i m y).
Proof. unfold PayrollData.insert_festival_advance. sound_stmt. Qed.

Lemma sound_upsert_run o t : kept (Enterprise.upsert_run o t).
Proof. unfold Enterprise.upsert_run, Enterprise.same_period. sound_stmt. Qed.

Lemma sound_publish_payslip r e a : kept (Enterprise.publish_payslip r e a).
Proof. unfold Enterprise.publish_payslip. sound_stmt. Qed.

Lemma sound_insert_cycle : kept Seed.insert_cycle.
Proof. unfold Seed.insert_cycle. sound_stmt. Qed.
End Sound.

(** ** The programs *)

Create HintDb seeds.
#[export] Hint Resolve sound_upsert_role sound_upsert_user sound_grant_role sound_assign_role sound_delete_user_roles
  sound_upsert_org sound_insert_location sound_find_location sound_upsert_department sound_insert_designation
  sound_find_designation sound_upsert_employee sound_delete_users_like sound_insert_profile sound_delete_profile
  sound_upsert_full sound_delete_payslips sound_delete_runs sound_delete_advances sound_delete_attendance
  sound_insert_active_structure sound_insert_weekend sound_upsert_weekday sound_insert_festival_advance
  sound_upsert_run sound_publish_payslip sound_insert_cycle respects_refused : seeds.

Ltac seed_stmt :=
  cbv beta;
  first
  [ solve [eauto 2 with seeds]
  | lazymatch goal with |- respects _ ?s => first [progress keep_path; seed_stmt | let h := head_of s in unfold h; seed_stmt] end ].

(** Walks a program, and the functions it calls, to its statements. *)
Ltac seed_prog :=
  walk;
  lazymatch goal with
  | |- all_stmts _ (Clock _) => intros ?; seed_prog
  | |- all_stmts _ (Rand _) => intros ?; seed_prog
  | |- all_stmts _ ?p => let h := head_of p in unfold h; seed_prog
  | |- respects _ _ => solve [seed_stmt]
  | |- _ => idtac
  end.

Section Scripts.
Context `{Server} `{Crypto}.

(** The programs of the directory, with their flags. *)
Inductive script : Type :=
  | DemoSeed
  | TestEmployeesSeed (reset : bool)
  | PayrollSeed (month year : option Z) (reset pending : bool)
  | RbacSeed
  | EnterpriseSeed.

Definition script_main (s : script) : prog Database (list string) :=
  match s with
  | DemoSeed => Seed.main
  | TestEmployeesSeed reset => TestEmployees.main reset
  | PayrollSeed month year reset pending => PayrollData.main month year reset pending
  | RbacSeed => Rbac.main
  | EnterpriseSeed => Enterprise.Seed50Employees
  end.

Lemma script_sound s : all_stmts (fun _ s => respects sound s) (script_main s).
Proof. destruct s; cbn [script_main]; seed_prog. Qed.

(** C37: Whatever the connection, the clock and the random bytes, and wherever a program ends, its
    run leaves a database whose foreign keys hold if they held before, and so does each UNIQUE
    constraint of the tables in which the program inserts or updates: the names of roles, the
    addresses of accounts, the roles of an account, the codes of organisations and
    departments, the codes and the accounts of employees, the months of payroll runs, the
    payslips of a run and the days of an employee. *)
Theorem seeds_keep_constraints E s n d : sound d (db_of (run E (script_main s) n d)).
Proof. apply run_respects; [apply _|]. apply script_sound. Qed.
End Scripts.
