(* ===== verification/SeedPayrollProps.v ===== *)
(** * The attendance that the payroll seed leaves, and the readiness check

    With [--reset], [seed_payroll_test_data.go] leaves exactly the planned attendance of the
    month: a row for each active employee and day, with the status and the validation of its
    scenario. The readiness check of the payroll then counts them. *)

From stdpp Require Import gmap.
From S2P Require Import Gotime GotimeProps Prelude Float64 Go Sql Tx Schema Calendar Auth User Employee Attendance Payroll History Seeds SeedDemo SeedTestEmployees SeedPayroll SeedRbac SeedEnterprise.

#[local] Open Scope Z_scope.
#[local] Open Scope prog_scope.

Import PayrollData.

(** ** The days of the month *)

Lemma daysInMonth_valid year month d : 1 <= month <= 12 -> 1 <= d <= daysInMonth month -> valid year month d.
Proof.
  intros Hm Hd. split; [done|]. unfold daysInMonth in Hd. unfold month_days. repeat case_match; bool_prop; lia.
Qed.

Lemma attDate_spec year month d : - 2 ^ 35 <= year <= 2 ^ 35 -> valid year month d ->
  date_param (attDate month year d) = days_of year month d
  /\ weekend (attDate month year d) = (weekday (days_of year month d) =? 6) || (weekday (days_of year month d) =? 0).
Proof.
  intros Hy Hv. assert (Ha : date_args year month d 0 0 0 0).
  { destruct Hv as [Hm Hd]. unfold month_days in Hd. unfold date_args. repeat case_match; lia. }
  destruct (Date_spec _ _ _ _ _ _ _ Ha) as (Hs & Hu & _).
  assert (Hd : date_unix year month d 0 0 0 0 = days_of year month d * 86400).
  { unfold date_unix. destruct Hv as [Hm _]. rewrite (Z.div_small (month - 1)), (Z.mod_small (month - 1)) by lia.
    rewrite (Z.div_small 0) by done. rewrite !Z.add_0_r, Z.sub_add. lia. }
  assert (Hday : unix_day (attDate month year d) = days_of year month d).
  { unfold unix_day, attDate. rewrite Hu, Hd. apply Z.div_mul. done. }
  split.
  - unfold date_param, attDate. rewrite unixSec_unix by done. exact Hday.
  - unfold weekend, attDate in *. by rewrite shown_weekday, Hday.
Qed.

Lemma in_month_day year month d : valid year month d -> in_month month year (days_of year month d) = true.
Proof. intros Hv. unfold in_month, month_of, year_of. rewrite civil_days_of by done. simpl. by rewrite !Z.eqb_refl. Qed.

Lemma days_of_inj year month d d' : valid year month d -> valid year month d' ->
  days_of year month d = days_of year month d' -> d = d'.
Proof. intros Hv Hv' Hd. pose proof (civil_days_of _ _ _ Hv) as H1. rewrite Hd, civil_days_of in H1 by done. congruence. Qed.

(** ** The plan *)

(** Employee, date, status and validation of a day. *)
Definition cell : Type := string * Z * string * string.

Definition cell_of (a : DayRow) : cell := (day_employee_id a, day_date a, day_status a, day_validation_status a).

Definition day_of (c : cell) : string * Z := (fst (fst c)).

Definition month_cells (month year : Z) (d : Database) : list cell :=
  map cell_of (where_ (fun a => in_month month year (day_date a)) (tget attendance_daily_status d)).

Definition planned_day (month year : Z) (pending : bool) (i : Z) (emp : EmpInfo) (d : Z) : cell :=
  let date := days_of year month d in
  if (weekday date =? 6) || (weekday date =? 0)
  then (ID emp, date, "WEEKEND", "VALIDATED")
  else (ID emp, date, day_status_of i d, day_validation_of pending (Code emp) d).

Definition month_list (month : Z) : list Z := upto 1 (Z.to_nat (daysInMonth month)).

Definition planned_month (month year : Z) (pending : bool) (x : Z * EmpInfo) : list cell :=
  map (planned_day month year pending (fst x) (snd x)) (month_list month).

Definition plan (month year : Z) (pending : bool) (emps : list EmpInfo) : list cell :=
  flat_map (planned_month month year pending) (indexed emps).

Lemma elem_of_month_list month d : d ∈ month_list month -> 1 <= d <= daysInMonth month.
Proof.
  unfold month_list, upto. intros (i & -> & Hi%elem_of_seq)%list_elem_of_fmap. lia.
Qed.

Lemma indexed_snd {A} (l : list A) : map snd (indexed l) = l.
Proof.
  unfold indexed. assert (Hl : length (upto 0 (length l)) = length l) by (unfold upto; by rewrite length_map, length_seq).
  revert Hl. generalize (upto 0 (length l)). induction l as [|x l IH]; intros [|i is_]; try done.
  simpl. intros [= Hl]. by rewrite IH.
Qed.

Section Statements.
Context `{Server}.

(** *** A day that is not there yet *)

Lemma find_new month year (r : DayRow) rows :
  in_month month year (day_date r) = true ->
  (day_employee_id r, day_date r) ∉
    map day_of (map cell_of (where_ (fun a => in_month month year (day_date a)) rows)) ->
  List.find (same_day r) rows = None.
Proof.
  intros Hm Hn. destruct (List.find _ _) as [a|] eqn:E; [|done]. exfalso. apply Hn.
  apply find_some_elem in E as [Ha Hs]. unfold same_day in Hs. bool_prop. rewrite map_map.
  apply list_elem_of_fmap. exists a. split; [unfold day_of, cell_of; simpl; congruence|].
  apply elem_of_where. split; [done|]. by match goal with H : day_date a = _ |- _ => rewrite H end.
Qed.

Definition stays (d d' : Database) : Prop := unchanged employees d d' /\ unchanged attendance_daily_status d d'.

#[local] Instance stays_preorder : PreOrder stays.
Proof.
  split; [intros d; by split|]. intros d1 d2 d3 [H1 H2] [H3 H4].
  split; [transitivity d2; [exact H1|exact H3]|transitivity d2; [exact H2|exact H4]].
Qed.

(** A statement of the seed for a day, of any kind. *)
Lemma wp_day month year (s : stmt Database Z) (mk : string -> StmtCtx -> DayRow) u c0 d (Q : outcome (result Z) -> Database -> Prop) :
  db_nil = false -> uuid_in u = Some u -> ref_employee u d = true ->
  (exists upd, s = with_uuid u (fun v => returning (fun _ => 1) (upsert attendance_daily_status
     (fun c d => if ref_employee v d then Ok (mk v c) else Err fk_error) same_day upd))) ->
  (forall c, cell_of (mk u c) = c0) -> in_month month year (snd (day_of c0)) = true ->
  day_of c0 ∉ map day_of (month_cells month year d) ->
  (forall d', unchanged employees d d' -> month_cells month year d' = month_cells month year d ++ [c0] -> Q (Done (Ok 1)) d') ->
  wp false (exec s) d Q.
Proof.
  intros Hdb Hu Href [upd ->] Hmk Hm Hn HQ. apply wp_exec_det; [done|]. intros c.
  unfold with_uuid. rewrite Hu. unfold returning, upsert. rewrite Href.
  rewrite (find_new month year).
  - simpl. apply HQ; [apply indep|]. unfold month_cells. rewrite tget_tput. unfold where_. rewrite List.filter_app, map_app.
    f_equal. simpl. pose proof (Hmk c) as Hc. assert (day_date (mk u c) = snd (day_of c0)) as -> by (by rewrite <- Hc).
    rewrite Hm. simpl. by rewrite Hc.
  - assert (day_date (mk u c) = snd (day_of c0)) as -> by (by rewrite <- (Hmk c)). done.
  - rewrite <- (Hmk c) in Hn. exact Hn.
Qed.

Section Month.
Variables (month year : Z) (pending : bool) (d0 : Database).
Hypothesis (Hdb : db_nil = false) (Hm : 1 <= month <= 12) (Hy : - 2 ^ 35 <= year <= 2 ^ 35).

Lemma day_of_planned i emp d : day_of (planned_day month year pending i emp d) = (ID emp, days_of year month d).
Proof. unfold planned_day. by destruct (_ || _). Qed.

Lemma wp_seed_day i emp d k db (Q : outcome Counters -> Database -> Prop) :
  uuid_in (ID emp) = Some (ID emp) -> ref_employee (ID emp) db = true -> 1 <= d <= daysInMonth month ->
  (ID emp, days_of year month d) ∉ map day_of (month_cells month year db) ->
  (forall k' d', unchanged employees db d' ->
     month_cells month year d' = month_cells month year db ++ [planned_day month year pending i emp d] -> Q (Done k') d') ->
  wp false (seed_day month year pending i emp k d) db Q.
Proof.
  intros Hu Href Hd Hn HQ. pose proof (daysInMonth_valid year month d Hm Hd) as Hv.
  destruct (attDate_spec year month d Hy Hv) as [Hp Hw]. unfold seed_day. rewrite Hp, Hw.
  destruct (_ || _) eqn:E; apply wp_bind;
    [ apply (wp_day month year (insert_weekend _ _) (fun v c => seeded_day c v (days_of year month d) "WEEKEND" "VALIDATED")
        (ID emp) (planned_day month year pending i emp d))
    | apply (wp_day month year (upsert_weekday _ _ _ _)
        (fun v c => seeded_day c v (days_of year month d) (day_status_of i d) (day_validation_of pending (Code emp) d))
        (ID emp) (planned_day month year pending i emp d)) ];
    try done; rewrite ?day_of_planned; try (by apply in_month_day); try exact Hn;
    try (eexists; reflexivity); try (intros c; unfold planned_day; by rewrite E).
  all: intros d' He Hc; simpl; by apply HQ.
Qed.

Lemma ref_unchanged u d d' : unchanged employees d d' -> ref_employee u d' = ref_employee u d.
Proof. intros He. unfold ref_employee. by rewrite He. Qed.

(** The month of an employee. *)
Lemma wp_seed_month i emp k db (Q : outcome Counters -> Database -> Prop) :
  uuid_in (ID emp) = Some (ID emp) -> ref_employee (ID emp) db = true ->
  (forall c, c ∈ month_cells month year db -> fst (day_of c) <> ID emp) ->
  (forall k' d', unchanged employees db d' ->
     month_cells month year d' = month_cells month year db ++ planned_month month year pending (i, emp) -> Q (Done k') d') ->
  wp false (for_each (month_list month) k (seed_day month year pending i emp)) db Q.
Proof.
  intros Hu Href Hfresh HQ.
  apply (wp_for_each false (fun pre post k d => unchanged employees db d
    /\ month_cells month year d = month_cells month year db ++ map (planned_day month year pending i emp) pre)).
  - split; [done|]. by rewrite app_nil_r.
  - intros pre d post k1 d1 Hl [He Hc].
    assert (Hd : d ∈ month_list month) by (rewrite Hl; apply elem_of_app; right; apply list_elem_of_here).
    apply wp_seed_day; [done|by rewrite (ref_unchanged _ db)|by apply elem_of_month_list| |].
    + rewrite Hc, map_app. intros [Hin|Hin]%elem_of_app.
      * apply list_elem_of_fmap in Hin as (c & Hk & Hin). apply (Hfresh c Hin). by rewrite <- Hk.
      * rewrite map_map in Hin. apply list_elem_of_fmap in Hin as (d2 & Hk & Hd2). rewrite day_of_planned in Hk.
        injection Hk as Hk. apply days_of_inj in Hk as ->;
          [|apply daysInMonth_valid; [done|by apply elem_of_month_list]
           |apply daysInMonth_valid; [done|apply elem_of_month_list; rewrite Hl; by apply elem_of_app; left]].
        assert (Hnd : NoDup (month_list month)).
        { unfold month_list, upto. apply NoDup_fmap_2; [intros ? ?; lia|apply NoDup_seq]. }
        rewrite Hl in Hnd. apply NoDup_app in Hnd as (_ & Hnd & _). apply (Hnd d2 Hd2). apply list_elem_of_here.
    + intros k' d' He' Hc'. split; [by transitivity d1|]. by rewrite Hc', Hc, map_app, app_assoc.
  - intros k1 d1 [He Hc]. by apply HQ.
Qed.

(** *** The other statements leave the attendance and the employees alone *)

Lemma wp_quiet {B} (s : stmt Database B) db (Q : outcome (result B) -> Database -> Prop) :
  respects stays s -> (forall r d', stays db d' -> Q (Done r) d') -> wp false (exec s) db Q.
Proof.
  intros Hs HQ. apply wp_exec_det; [done|]. intros c. destruct (s c db) as [[b d']|e] eqn:E; apply HQ; [by eapply Hs|reflexivity].
Qed.

Lemma stays_cells d d' : stays d d' -> month_cells month year d' = month_cells month year d.
Proof. intros [_ Ha]. unfold month_cells. by rewrite Ha. Qed.

Ltac quiet :=
  repeat first [progress keep_path | apply respects_map; [|done]];
  try apply respects_insert; try apply respects_delete; intros; split; apply indep.

Lemma quiet_structure u b : respects stays (insert_active_structure u b).
Proof. unfold insert_active_structure, returning. quiet. Qed.

Lemma quiet_find u : respects stays (find_structure u).
Proof. unfold find_structure. keep_path. Qed.

Lemma quiet_advance u : respects stays (insert_festival_advance u month year).
Proof. unfold insert_festival_advance, returning. quiet. Qed.

Lemma quiet_payslips : respects stays (delete_payslips month year).
Proof. unfold delete_payslips. keep_path. intros c d b d' [= _ <-]. split; apply indep. Qed.

Lemma quiet_runs : respects stays (delete_runs month year).
Proof. unfold delete_runs. keep_path. intros c d b d' [= _ <-]. split; reflexivity. Qed.

Lemma quiet_advances : respects stays (delete_advances month year).
Proof. unfold delete_advances. quiet. Qed.

Lemma wp_seed_structure acc x db (Q : outcome Z -> Database -> Prop) :
  (forall d', stays db d' -> Q (Done (acc + 1)) d') -> wp false (seed_structure acc x) db Q.
Proof.
  intros HQ. destruct x as [i emp]. unfold seed_structure, insert_or_find.
  apply wp_bind, wp_bind, wp_quiet; [apply quiet_structure|]. intros r d1 H1. destruct r as [id|e]; simpl; [by apply HQ|].
  apply wp_bind, wp_quiet; [apply quiet_find|]. intros r d2 H2. simpl. apply HQ. by transitivity d1.
Qed.

Lemma wp_structures l acc db (Q : outcome Z -> Database -> Prop) :
  (forall n d', stays db d' -> Q (Done n) d') -> wp false (for_each l acc seed_structure) db Q.
Proof.
  intros HQ. apply (wp_for_each false (fun _ _ _ d => stays db d)); [reflexivity| |by intros n d' Hd; apply HQ].
  intros pre x post n d1 _ Hd. apply wp_seed_structure. intros d' Hd'. by transitivity d1.
Qed.

Lemma wp_seed_advance i emp k db (Q : outcome Counters -> Database -> Prop) :
  (forall k' d', stays db d' -> Q (Done k') d') -> wp false (seed_advance month year i emp k) db Q.
Proof.
  intros HQ. unfold seed_advance. destruct (_ && _); [|by apply HQ]. apply wp_bind, wp_quiet; [apply quiet_advance|].
  intros [n|e] d' Hd; simpl; by apply HQ.
Qed.

(** *** The reset *)

Lemma wp_reset db (Q : outcome unit -> Database -> Prop) :
  (forall d', unchanged employees db d' -> month_cells month year d' = [] -> Q (Done tt) d') ->
  wp false (reset_period month year true) db Q.
Proof.
  intros HQ. unfold reset_period.
  apply wp_bind, wp_quiet; [apply quiet_payslips|]. intros r1 d1 H1. cbn [wp_then].
  apply wp_bind, wp_quiet; [apply quiet_runs|]. intros r2 d2 H2. cbn [wp_then].
  apply wp_bind, wp_quiet; [apply quiet_advances|]. intros r3 d3 H3. cbn [wp_then].
  apply wp_bind, wp_exec_det; [done|]. intros c. unfold delete_attendance, delete. cbn [wp_then wp]. apply HQ.
  - assert (Hs : stays db d3) by (transitivity d2; [by transitivity d1|done]).
    transitivity d3; [exact (proj1 Hs)|apply indep].
  - unfold month_cells. rewrite tget_tput. unfold where_. induction (tget attendance_daily_status d3) as [|a l IH]; [done|].
    simpl. destruct (in_month month year (day_date a)) eqn:E; simpl; [done|]. by rewrite E.
Qed.

(** *** The employees *)

Lemma wp_seed_employees emps db (Q : outcome Counters -> Database -> Prop) :
  NoDup (map ID emps) ->
  Forall (fun e => uuid_in (ID e) = Some (ID e) /\ ref_employee (ID e) db = true) emps ->
  month_cells month year db = [] ->
  (forall k d', unchanged employees db d' -> month_cells month year d' = plan month year pending emps -> Q (Done k) d') ->
  wp false (for_each (indexed emps) no_counts (seed_employee_month month year pending)) db Q.
Proof.
  intros Hnd He Hc HQ. rewrite Forall_forall in He.
  pose proof (indexed_snd emps) as Hsnd.
  apply (wp_for_each false (fun pre post _ d => unchanged employees db d
    /\ month_cells month year d = flat_map (planned_month month year pending) pre)); [done| |by intros k d' [H1 H2]; apply HQ].
  intros pre [i emp] post k d1 Hl [H1 H2]. rewrite Hl, map_app in Hsnd. simpl in Hsnd. rewrite <- Hsnd in Hnd, He.
  destruct (He emp) as [Hu Href]; [apply elem_of_app; right; apply list_elem_of_here|].
  unfold seed_employee_month. fold (month_list month). apply wp_bind, wp_seed_month; [done|by rewrite (ref_unchanged _ db)| |].
  - rewrite H2. intros c Hc' Heq. apply list_elem_of_In, in_flat_map in Hc' as ([j x] & Hx & Hc').
    apply in_map_iff in Hc' as (d & <- & _). rewrite day_of_planned in Heq. simpl in Heq.
    rewrite map_app, map_map in Hnd. apply NoDup_app in Hnd as (_ & Hnd & _). apply (Hnd (ID x)).
    + apply list_elem_of_In, in_map_iff. by exists (j, x).
    + simpl. rewrite <- Heq. apply list_elem_of_here.
  - intros k' d2 H3 H4. simpl. apply wp_seed_advance. intros k2 d3 H5. split.
    + transitivity d2; [by transitivity d1|apply H5].
    + rewrite (stays_cells _ _ H5), H4, H2, flat_map_app. simpl. by rewrite app_nil_r.
Qed.
End Month.
End Statements.

(** ** The program *)

(** The active employees in the order of their codes. *)
Definition roster `{Server} (d : Database) : list EmpInfo :=
  map (fun e => {| ID := emp_id e; Code := emp_employee_id e |})
    (order_by (fun x y => collate (emp_employee_id x) (emp_employee_id y)) (where_ live (tget employees d))).

Lemma elem_of_roster `{Server} d x : x ∈ roster d ->
  exists e, e ∈ tget employees d /\ live e = true /\ x = {| ID := emp_id e; Code := emp_employee_id e |}.
Proof.
  unfold roster. intros (e & -> & He)%list_elem_of_fmap. apply elem_of_order_by, elem_of_where in He as [He Hl]. eauto.
Qed.

Lemma roster_nodup `{Server} d : NoDup (map emp_id (tget employees d)) -> NoDup (map ID (roster d)).
Proof.
  intros Hnd. unfold roster. rewrite map_map. simpl.
  assert (Hp : map emp_id (order_by (fun x y => collate (emp_employee_id x) (emp_employee_id y)) (where_ live (tget employees d)))
               ≡ₚ map emp_id (where_ live (tget employees d))) by (by apply Permutation_map, order_by_perm).
  rewrite Hp. by apply stays_unique_where.
Qed.

Section Program.
Context `{Server}.
Variables (month year : Z) (pending : bool).

(** What the database needs: unique identifiers in canonical form, and an active employee. *)
Record seedable (d : Database) : Prop := {
  sd_ids : NoDup (map emp_id (tget employees d));
  sd_canonical : Forall (fun e => uuid_in (emp_id e) = Some (emp_id e)) (tget employees d);
  sd_active : roster d <> []
}.

Definition seeded_month (d : Database) (o : outcome (list string)) (d' : Database) : Prop :=
  (exists lines, o = Done lines) /\ unchanged employees d d'
  /\ month_cells month year d' = plan month year pending (roster d).

Lemma wp_payroll_seed d : db_nil = false -> 1 <= month <= 12 -> - 2 ^ 35 <= year <= 2 ^ 35 -> seedable d ->
  wp false (main (Some month) (Some year) true pending) d (seeded_month d).
Proof.
  intros Hdb Hm Hy [Hnd Hcan Hact]. unfold main. apply wp_now. intros t1. apply wp_now. intros t2. cbv zeta. simpl default.
  apply wp_bind, wp_reset; [done|]. intros d1 He1 Hc1. cbn [wp_then].
  apply wp_bind, wp_exec_det; [done|]. intros c. unfold active_employees, select. cbn [wp_then].
  assert (Hr : map (fun e => {| ID := emp_id e; Code := emp_employee_id e |})
    (order_by (fun x y => collate (emp_employee_id x) (emp_employee_id y)) (where_ live (tget employees d1))) = roster d)
    by (unfold roster; by rewrite He1).
  rewrite Hr. destruct (Nat.eqb _ _) eqn:E; [apply Nat.eqb_eq, length_zero_iff_nil in E; done|].
  apply wp_bind, wp_structures; [done|]. intros n d2 [He2 Ha2]. cbn [wp_then].
  apply wp_bind, wp_exec_det; [done|]. intros c3.
  assert (Hc2 : month_cells month year d2 = []) by (unfold month_cells in *; by rewrite Ha2).
  assert (He : unchanged employees d d2) by (by transitivity d1).
  unfold find_org, select_row. destruct (org_id <$> head (tget organizations d2)); cbn [wp_then];
  (apply wp_bind, wp_seed_employees; [done..|by apply roster_nodup| |done|];
   [|intros k d3 He3 Hc3; cbn [wp_then wp]; split; [by eexists|]; split; [by transitivity d2|done]]).
  all: apply Forall_forall; intros x (e & Hin & _ & ->)%elem_of_roster; rewrite Forall_forall in Hcan; split; [by apply Hcan|];
    rewrite (ref_unchanged _ d) by done; unfold ref_employee; apply existsb_exists; exists e;
    (split; [by apply list_elem_of_In|by apply String.eqb_eq]).
Qed.

(** C38: With [--reset], the seed of a month that exists ends normally on reliable connections,
    and the attendance of the month is then exactly the plan: for each active employee in
    the order of the codes and each day of the month a row with its status and
    validation, whatever was there before. *)
Theorem payroll_seed_plan E n d : reliable E -> db_nil = false -> 1 <= month <= 12 -> - 2 ^ 35 <= year <= 2 ^ 35 ->
  seedable d -> let x := run E (main (Some month) (Some year) true pending) n d in seeded_month d (out x) (db_of x).
Proof. 
  intros HE Hdb Hm Hy Hd. apply (wp_run false E (main (Some month) (Some year) true pending) n d (seeded_month d)); [done|].
  by apply wp_payroll_seed.
Qed.

(** ** The readiness check *)

Definition to_validate (c : cell) : bool := mem_s (snd c) ["TO_VALIDATE"; "OT_PENDING"].

Lemma count_cells (p : string -> bool) d :
  count_where (fun a => p (day_validation_status a))
    (where_ (fun a => in_month month year (day_date a)) (tget attendance_daily_status d))
  = Z.of_nat (length (List.filter (fun c => p (snd c)) (month_cells month year d))).
Proof.
  unfold count_where, month_cells. f_equal. generalize (where_ (fun a => in_month month year (day_date a)) (tget attendance_daily_status d)).
  intros l. unfold where_. induction l as [|a l IH]; [done|]. simpl. destruct (p (day_validation_status a)); simpl; by rewrite IH.
Qed.

Lemma length_month_list : 1 <= month <= 12 -> Z.of_nat (length (month_list month)) = daysInMonth month.
Proof.
  intros Hm. unfold month_list, upto. rewrite length_map, length_seq, Z2Nat.id; [done|]. unfold daysInMonth. repeat case_match; lia.
Qed.

Lemma length_plan emps : 1 <= month <= 12 ->
  Z.of_nat (length (plan month year pending emps)) = Z.of_nat (length emps) * daysInMonth month.
Proof.
  intros Hm. rewrite <- (length_month_list Hm). unfold plan.
  assert (Hl : length (indexed emps) = length emps) by (by rewrite <- (indexed_snd emps) at 2; rewrite length_map).
  rewrite <- Hl. clear Hl. induction (indexed emps) as [|x l IH]; [done|]. cbn [flat_map length].
  rewrite length_app, Nat2Z.inj_add, IH, Nat2Z.inj_succ. unfold planned_month. rewrite length_map. ring.
Qed.

(** The one day that the plan may leave to be validated. *)
Definition held_back (emps : list EmpInfo) : bool :=
  let w := weekday (days_of year month 22) in
  pending && negb ((w =? 6) || (w =? 0)) && existsb (fun e => Code e =?s "TEST_EMP_037") emps.

Lemma to_validate_planned i e d : to_validate (planned_day month year pending i e d)
  = pending && (Code e =?s "TEST_EMP_037") && (d =? 22)
    && negb ((weekday (days_of year month d) =? 6) || (weekday (days_of year month d) =? 0)).
Proof.
  unfold to_validate, planned_day, day_validation_of. destruct (_ || _); simpl; [by rewrite !andb_false_r|].
  rewrite andb_true_r. by destruct (_ && _).
Qed.

Lemma plan_pending emps : 1 <= month <= 12 -> existsb to_validate (plan month year pending emps) = held_back emps.
Proof.
  intros Hm. apply eq_true_iff_eq. unfold held_back, plan. rewrite existsb_exists, !andb_true_iff, existsb_exists. split.
  - intros (c & ([i e] & Hx & Hc)%in_flat_map & Hv). apply in_map_iff in Hc as (d & <- & _). simpl in Hv.
    rewrite to_validate_planned, !andb_true_iff in Hv. destruct Hv as (((-> & He) & Hd%Z.eqb_eq) & Hw). subst d.
    split; [done|]. exists e. split; [|done]. rewrite <- (indexed_snd emps). apply in_map_iff. by exists (i, e).
  - intros ((Hp & Hw) & e & Hin & He). rewrite <- (indexed_snd emps), in_map_iff in Hin. destruct Hin as ([i e'] & Heq & Hin).
    simpl in Heq. subst e'. exists (planned_day month year pending i e 22). split.
    + apply in_flat_map. exists (i, e). split; [done|]. apply in_map. apply list_elem_of_In. unfold month_list, upto.
      apply list_elem_of_fmap. exists 21%nat. split; [done|]. apply elem_of_seq. unfold daysInMonth. repeat case_match; lia.
    + by rewrite to_validate_planned, Hp, He, Hw.
Qed.

(** A reading statement changes nothing. *)
Lemma wp_read {B} (s : stmt Database B) d (Q : outcome (result B) -> Database -> Prop) : db_nil = false ->
  respects eq s -> (forall r, Q (Done r) d) -> wp false (exec s) d Q.
Proof.
  intros Hdb Hs HQ. apply wp_exec_det; [done|]. intros c. destruct (s c d) as [[b d']|e] eqn:E; [|by apply HQ].
  apply Hs in E. subst. apply HQ.
Qed.

(** What the check says of the planned month. *)
Definition judged (d : Database) (rep : ReadinessResponse) : Prop :=
  let count := Z.of_nat (length (roster d)) in
  Ready rep = negb (held_back (roster d))
  /\ ("active_employees", JInt count) ∈ Statistics rep
  /\ ("total_attendance_records", JInt (count * daysInMonth month)) ∈ Statistics rep.

Lemma pending_count (l : list cell) :
  (0 <? Z.of_nat (length (List.filter (fun c => mem_s (snd c) ["TO_VALIDATE"; "OT_PENDING"]) l))) = existsb to_validate l.
Proof.
  induction l as [|c l IH]; [done|]. cbn [List.filter existsb]. unfold to_validate at 1.
  destruct (mem_s (snd c) _); [done|exact IH].
Qed.

Lemma wp_readiness d d' : db_nil = false -> 1 <= month <= 12 -> roster d <> [] -> unchanged employees d d' ->
  month_cells month year d' = plan month year pending (roster d) ->
  wp false (checkPayrollReadiness month year) d' (fun o _ => exists rep, o = Done rep /\ judged d rep).
Proof.
  intros Hdb Hm Hne He Hc. unfold checkPayrollReadiness. rewrite Hdb.
  apply wp_bind, wp_exec_det; [done|]. intros c1. unfold select at 1. cbn [wp_then].
  apply wp_bind, wp_exec_det; [done|]. intros c2. unfold select at 1. cbn [wp_then].
  apply wp_bind, wp_exec_det; [done|]. intros c3. unfold count_attendance, select at 1. cbn [wp_then scan].
  apply wp_bind, wp_read; [done|unfold count_leaves; keep_path|]. intros r1. cbn [wp_then].
  apply wp_bind, wp_read; [done|unfold sum_advances; keep_path|]. intros r2. cbn [wp_then].
  destruct (scan (0, f0) r2) as [n a]. cbn [wp total Payroll.pending]. eexists. split; [reflexivity|].
  assert (Ht : Z.of_nat (length (where_ (fun a => in_month month year (day_date a)) (tget attendance_daily_status d')))
    = Z.of_nat (length (roster d)) * daysInMonth month).
  { rewrite <- length_plan, <- Hc by done. unfold month_cells. by rewrite length_map. }
  assert (Hl : count_where live (tget employees d') = Z.of_nat (length (roster d))).
  { rewrite He. unfold count_where, roster. by rewrite length_map, order_by_perm. }
  assert (Hpos : (Z.of_nat (length (roster d)) * daysInMonth month =? 0) = false).
  { destruct (roster d); [done|]. apply Z.eqb_neq. unfold daysInMonth. simpl length. repeat case_match; lia. }
  rewrite Ht, Hpos, Hl, (count_cells (fun s => mem_s s ["TO_VALIDATE"; "OT_PENDING"])), Hc, pending_count, plan_pending by done.
  unfold judged. cbn [Ready Statistics negb andb]. split_and!.
  - by destruct (held_back (roster d)).
  - apply list_elem_of_here.
  - do 2 apply list_elem_of_further. apply list_elem_of_here.
Qed.

(** C39: After a run of the seed with [--reset] on reliable connections and a database with an
    active employee ([seedable]), the readiness check counts every active employee on every
    day that the seed fills ([daysInMonth]: the days of the month, but 28 in every February,
    that of a leap year included), and declares the month ready for the payroll exactly when
    no record was held back: without [-pending-attendance] always, with it unless the employee
    TEST_EMP_037 is missing or the 22nd falls on a weekend. *)
Theorem seeded_month_judged E n E' m d : reliable E -> reliable E' -> db_nil = false -> 1 <= month <= 12 ->
  - 2 ^ 35 <= year <= 2 ^ 35 -> seedable d ->
  let x := run E (main (Some month) (Some year) true pending) n d in
  exists rep, out (run E' (checkPayrollReadiness month year) m (db_of x)) = Done rep /\ judged d rep.
Proof.
  intros HE HE' Hdb Hm Hy Hd x.
  destruct (wp_run false E (main (Some month) (Some year) true pending) n d (seeded_month d)) as (_ & He & Hc);
    [done|by apply wp_payroll_seed|].
  apply (wp_run false E' (checkPayrollReadiness month year) m (db_of x) (fun o _ => exists rep, o = Done rep /\ judged d rep)); [done|].
  apply wp_readiness; [done|done|apply (sd_active d Hd)|done|done].
Qed.

(** ** The salary structures *)

(** Employee, activity and amount of a structure. *)
Definition structure_of (s : StructRow) : string * bool * Z := (ess_employee_id s, ess_is_active s, ess_base_salary s).

(** [l] has one active structure for each employee. *)
Definition one_each (emps : list EmpInfo) (l : list StructRow) : Prop :=
  map (fun s => (ess_employee_id s, ess_is_active s)) l = map (fun e => (ID e, true)) emps.

Definition payable_in_rupees (d : Database) : Prop :=
  existsb (fun k => cur_code k =?s "INR") (tget currencies d) = true
  /\ forall i, exists n, num_in 12 2 (of_Z (base_salary i)) = Some n.

Lemma wp_add_structure acc i emp d (Q : outcome Z -> Database -> Prop) : db_nil = false ->
  uuid_in (ID emp) = Some (ID emp) -> ref_employee (ID emp) d = true -> payable_in_rupees d ->
  (forall s d', one_each [emp] [s] -> stays d d' -> unchanged currencies d d' ->
     tget employee_salary_structures d' = tget employee_salary_structures d ++ [s] -> Q (Done (acc + 1)) d') ->
  wp false (seed_structure acc (i, emp)) d Q.
Proof.
  intros Hdb Hu Href [Hcur Hnum] HQ. unfold seed_structure, insert_or_find. apply wp_bind, wp_bind, wp_exec_det; [done|].
  intros c. unfold insert_active_structure, with_uuid, with_num. rewrite Hu. destruct (Hnum i) as [n ->].
  unfold returning, insert. rewrite Href, Hcur. simpl. eapply HQ; [|split; apply indep|apply indep|apply tget_tput]. done.
Qed.

Lemma rest_quiet emps : all_stmts (fun _ s => respects (unchanged employee_salary_structures) s)
  (for_each (indexed emps) no_counts (seed_employee_month month year pending)).
Proof.
  apply all_stmts_for_each. intros k [i emp] _. unfold seed_employee_month. walk.
  - unfold seed_day. walk; [unfold insert_weekend|unfold upsert_weekday]; keep_path; (apply respects_map; [|done]);
    apply respects_upsert; intros; apply indep.
  - unfold seed_advance. walk. unfold insert_festival_advance. keep_path. apply respects_map; [|done].
    apply respects_insert; intros; apply indep.
Qed.

Lemma wp_add_structures emps d (Q : outcome Z -> Database -> Prop) : db_nil = false -> payable_in_rupees d ->
  Forall (fun e => uuid_in (ID e) = Some (ID e) /\ ref_employee (ID e) d = true) emps ->
  (forall k d' l, one_each emps l -> tget employee_salary_structures d' = tget employee_salary_structures d ++ l ->
     Q (Done k) d') ->
  wp false (for_each (indexed emps) 0 seed_structure) d Q.
Proof.
  intros Hdb Hpay He HQ. rewrite Forall_forall in He.
  apply (wp_for_each false (fun pre post _ d' => unchanged employees d d' /\ unchanged currencies d d'
    /\ exists l, one_each (map snd pre) l /\ tget employee_salary_structures d' = tget employee_salary_structures d ++ l)).
  - split_and!; [done..|]. exists []. split; [done|]. by rewrite app_nil_r.
  - intros pre [i emp] post k d1 Hl (H1 & H2 & l & H3 & H4).
    assert (Hin : emp ∈ emps).
    { rewrite <- (indexed_snd emps), Hl, map_app. apply elem_of_app. right. apply list_elem_of_here. }
    destruct (He emp Hin) as [Hu Href]. apply wp_add_structure; [done|done|by rewrite (ref_unchanged _ d)| |].
    + destruct Hpay as [Hc Hn]. split; [by rewrite H2|done].
    + intros s d2 H5 [H6 _] H7 H8. split_and!; [by transitivity d1|by transitivity d1|]. exists (l ++ [s]). split.
      * unfold one_each in *. by rewrite !map_app, H3, H5.
      * by rewrite H8, H4, app_assoc.
  - intros k d1 (_ & _ & l & H3 & H4). rewrite indexed_snd in H3. by eapply HQ.
Qed.

(** Every run of the seed, with [--reset] or after an earlier run, gives each active employee
    one more active salary structure: [ON CONFLICT DO NOTHING] never finds a conflict. *)
Theorem structures_added_again E n d : reliable E -> db_nil = false -> seedable d -> payable_in_rupees d ->
  let x := run E (main (Some month) (Some year) true pending) n d in
  exists l, one_each (roster d) l
  /\ tget employee_salary_structures (db_of x) = tget employee_salary_structures d ++ l.
Proof.
  intros HE Hdb [_ Hcan Hact] Hpay x.
  apply (wp_run false E (main (Some month) (Some year) true pending) n d (fun _ d' => exists l, one_each (roster d) l
    /\ tget employee_salary_structures d' = tget employee_salary_structures d ++ l)); [done|].
  unfold main. apply wp_now. intros t1. apply wp_now. intros t2. cbv zeta. simpl default.
  set (kept := both (unchanged currencies) (unchanged employee_salary_structures)).
  assert (Hkept : PreOrder kept) by (unfold kept; apply _).
  apply wp_bind. eapply wp_mono; [|apply wp_and; [apply (wp_respects kept)|apply (wp_reset month year Hdb d
    (fun o d' => o = Done tt /\ unchanged employees d d')); by auto]].
  - intros o d1 [[Hcur Hst] [-> He1]]. cbn [wp_then].
    apply wp_bind, wp_exec_det; [done|]. intros c. unfold active_employees, select. cbn [wp_then].
    assert (Hr : map (fun e => {| ID := emp_id e; Code := emp_employee_id e |})
      (order_by (fun x y => collate (emp_employee_id x) (emp_employee_id y)) (where_ live (tget employees d1))) = roster d)
      by (unfold roster; by rewrite He1).
    rewrite Hr. destruct (Nat.eqb _ _) eqn:E0; [apply Nat.eqb_eq, length_zero_iff_nil in E0; done|].
    apply wp_bind, wp_add_structures; [done| | |].
    + destruct Hpay as [Hc Hn]. split; [by rewrite Hcur|done].
    + apply Forall_forall. intros y (e & Hin & _ & ->)%elem_of_roster. rewrite Forall_forall in Hcan. split; [by apply Hcan|].
      rewrite (ref_unchanged _ d) by done. apply existsb_exists. exists e. split; [by apply list_elem_of_In|by apply String.eqb_eq].
    + intros k d2 l Hl H2. cbn [wp_then]. eapply wp_mono; [|apply (wp_respects (unchanged employee_salary_structures))].
      * intros o d3 H3. exists l. split; [done|]. rewrite H3, H2. by rewrite Hst.
      * apply all_stmts_bind; [apply all_stmts_exec; unfold find_org; keep_path|intros ?].
        apply all_stmts_bind; [apply rest_quiet|intros ?; exact I].
  - unfold reset_period. walk; [unfold delete_payslips|unfold delete_runs|unfold delete_advances|unfold delete_attendance];
    keep_path; try (apply respects_delete; intros; split; apply indep); intros ? ? ? ? [= _ <-]; split; reflexivity.
Qed.
End Program.
