(* ===== verification/SeedUsersProps.v ===== *)
(** * The accounts that the seed programs leave

    [seed.go] touches nothing but roles, accounts and a review cycle, whatever it prints,
    and sets the published passwords again on every run; the reset of the test employees
    removes nothing once they exist; [seed_rbac_audit.go] ends with an error as soon as a
    manager that it creates has a report. *)

From stdpp Require Import gmap.
From S2P Require Import Gotime Prelude Float64 Go Sql Tx Schema Calendar Auth User Employee Payroll History Seeds SeedDemo SeedTestEmployees SeedPayroll SeedRbac SeedEnterprise.

#[local] Open Scope Z_scope.
#[local] Open Scope prog_scope.

Section Accounts.
Context `{Server} {C : Crypto}.

(** ** The frame of seed.go *)

(** The tables that [seed.go] writes. *)
Definition seed_tables : list tbl := [T_roles; T_users; T_user_roles; T_performance_cycles].

Definition frame_of (ts : list tbl) (d d' : Database) : Prop :=
  forall t, t ∉ ts -> tget (tab t) d' = tget (tab t) d.

#[local] Instance frame_of_preorder ts : PreOrder (frame_of ts).
Proof. split; [by intros d t|]. intros d1 d2 d3 H1 H2 t Ht. by rewrite H2, H1. Qed.

Lemma frame_of_put ts t l d : t ∈ ts -> frame_of ts d (tput (tab t) l d).
Proof. intros Ht u Hu. apply tab_indep. intros ->. by apply Hu. Qed.

Lemma frame_role name : respects (frame_of seed_tables) (upsert_role name None).
Proof.
  apply respects_map; [|done]. apply respects_upsert; intros; apply (frame_of_put _ T_roles); unfold seed_tables; set_solver.
Qed.

Lemma frame_user email hash : respects (frame_of seed_tables) (upsert_user email hash).
Proof.
  unfold upsert_user. keep_path. apply respects_map; [|done].
  apply respects_upsert; intros; apply (frame_of_put _ T_users); unfold seed_tables; set_solver.
Qed.

Lemma frame_grant u r : respects (frame_of seed_tables) (grant_role u r).
Proof.
  unfold grant_role. keep_path. intros c d b d'. destruct (existsb _ _); [intros [= _ <-]; reflexivity|].
  destruct (_ && _); [|done]. intros [= _ <-]. apply (frame_of_put _ T_user_roles). unfold seed_tables. set_solver.
Qed.

(** Whatever the connection does, [seed.go] leaves every table but those of the roles, the
    accounts, their roles and the review cycles as it was: it creates no location, no
    department, no designation, no employee, no leave type and no template. *)
Theorem demo_seed_frame E n d : frame_of seed_tables d (db_of (run E Seed.main n d)).
Proof.
  apply run_respects; [apply _|]. unfold Seed.main. walk.
  all: try done.
  all: unfold Seed.seed_roles, Seed.seed_account, Seed.collect, hash_of in *; walk; try apply frame_role; try apply frame_user;
    try apply frame_grant; try done.
  apply respects_map; [|done]. apply respects_insert. intros. apply (frame_of_put _ T_performance_cycles). unfold seed_tables. set_solver.
Qed.

(** ** The published passwords *)

(** The account of an address, as a login finds it. *)
Definition account (email : string) (d : Database) : option UserRow :=
  List.find (fun u => usr_email u =?s email) (tget users d).

Definition active_account (email : string) (d : Database) : bool :=
  match account email d with Some u => usr_is_active u | None => true end.

Lemma account_unchanged email d d' : unchanged users d d' -> account email d' = account email d.
Proof. intros Hu. unfold account. by rewrite Hu. Qed.

Lemma find_set_password email email' h l :
  List.find (fun u => usr_email u =?s email') (set_where (fun u => usr_email u =?s email) (set_usr_password_hash h) l)
  = (if email =?s email' then set_usr_password_hash h else id) <$> List.find (fun u => usr_email u =?s email') l.
Proof.
  induction l as [|u l IH]; [done|]. simpl. destruct (String.eqb_spec (usr_email u) email) as [<-|Hne]; simpl.
  - destruct (usr_email u =?s email') eqn:E; [done|]. by rewrite IH.
  - destruct (String.eqb_spec (usr_email u) email') as [<-|Hne']; simpl; [|done].
    by rewrite (proj2 (String.eqb_neq email (usr_email u))) by done.
Qed.

Lemma find_app_last {A} (p : A -> bool) l x : List.find p (l ++ [x]) =
  match List.find p l with Some y => Some y | None => if p x then Some x else None end.
Proof. induction l as [|y l IH]; simpl; [done|]. by destruct (p y). Qed.

Lemma wp_set_password email hash d (Q : outcome (result string) -> Database -> Prop) : db_nil = false ->
  varchar_in 255 email = Some email -> varchar_in 255 hash = Some hash ->
  (forall id d', (exists u, account email d' = Some u /\ usr_password_hash u = hash
                            /\ usr_is_active u = active_account email d) ->
     (forall email', email' <> email -> account email' d' = account email' d) -> Q (Done (Ok id)) d') ->
  wp false (exec (upsert_user email hash)) d Q.
Proof.
  intros Hdb He Hh HQ. apply wp_exec_det; [done|]. intros c. unfold upsert_user, with_varchar. rewrite He, Hh.
  unfold returning, upsert. cbn [usr_email]. destruct (List.find _ _) as [old|] eqn:E; simpl; apply HQ.
  - assert (Ea : account email d = Some old) by exact E.
    exists (set_usr_password_hash hash old). unfold active_account. rewrite Ea. unfold account. rewrite tget_tput.
    cbn [usr_password_hash]. rewrite find_set_password, String.eqb_refl. unfold account in Ea. rewrite Ea. by destruct old.
  - intros email' Hne. unfold account. rewrite tget_tput. cbn [usr_password_hash]. rewrite find_set_password.
    rewrite (proj2 (String.eqb_neq email email')) by done. apply option_fmap_id.
  - assert (Ea : account email d = None) by exact E.
    eexists. unfold active_account. rewrite Ea. unfold account in *. rewrite tget_tput, find_app_last, Ea. simpl. by rewrite String.eqb_refl.
  - intros email' Hne. unfold account. rewrite tget_tput, find_app_last. simpl.
    rewrite (proj2 (String.eqb_neq email email')) by done. by case_match.
Qed.

(** The account of the address takes the published password, and is suspended if it was
    suspended before. *)
Definition renewed (d0 d : Database) (a : string * string * string) : Prop :=
  let '(email, password, _) := a in
  exists u, account email d = Some u /\ bcrypt_compare (usr_password_hash u) password = true
            /\ usr_is_active u = active_account email d0.

Lemma renewed_unchanged d0 d d' a : unchanged users d d' -> renewed d0 d a -> renewed d0 d' a.
Proof. destruct a as [[email password] role]. intros Hu (u & Ha & Hrest). exists u. by rewrite (account_unchanged _ d). Qed.

(** The answer to a login that the handler accepts: the token that the library signs for the
    account, or the error of the signature. *)
Definition accepted (email : string) (resp : Response) : Prop :=
  exists id roles exp iat,
  resp = match jwt_sign {| UserID := id; Email := email; Roles := roles; Scope := GetScopeForRoles roles |} exp iat with
         | Ok tok => login_ok tok id email roles
         | Err _ => jsonError "failed to generate token" StatusInternalServerError
         end.

(** What a login with the published password is answered. *)
Definition logs_in (active : bool) (d : Database) (a : string * string * string) : Prop :=
  let '(email, password, _) := a in
  forall (r : Request LoginRequest) E n, reliable E -> body r = Some {| lr_email := email; lr_password := password |} ->
  exists resp, out (run E (HandleLogin r) n d) = Done resp
  /\ if active then accepted email resp else resp = jsonError "account is suspended" StatusForbidden.

Lemma renewed_logs_in d0 d a : db_nil = false -> renewed d0 d a -> logs_in (active_account (fst (fst a)) d0) d a.
Proof.
  destruct a as [[email password] role]. intros Hdb (u & Ha & Hcmp & Hact) r E n HE Hb. simpl fst.
  apply (wp_run false E (HandleLogin r) n d (fun o _ => exists resp, o = Done resp
    /\ if active_account email d0 then accepted email resp else resp = jsonError "account is suspended" StatusForbidden)); [done|].
  unfold HandleLogin. rewrite Hb, Hdb. apply wp_bind, wp_exec_det; [done|]. intros c. cbn [lr_email lr_password].
  unfold Auth.find_user, select_row. fold (account email d). rewrite Ha. cbn [fmap option_fmap option_map wp_then].
  rewrite Hact. destruct (active_account email d0); cbn [negb]; [|by eexists]. rewrite Hcmp. cbn [negb].
  apply wp_bind, wp_exec_det; [done|]. intros c1. cbn [select scan wp_then].
  apply wp_bind, wp_exec_det; [done|]. intros c2. cbn [update wp_then]. set (roles := match role_names _ _ with [] => _ | _ => _ end).
  unfold GenerateToken. apply wp_bind, wp_bind, wp_now. intros t1. cbn [wp wp_then]. apply wp_bind, wp_now. intros t2.
  cbn [wp wp_then]. destruct (jwt_sign _ _ _) as [tok|e] eqn:Et; simpl; eexists; (split; [done|]);
    eexists (usr_id u), roles, _, _; by rewrite Et.
Qed.

(** The literals of the script and their hashes fit the columns. *)
Definition fits_columns (a : string * string * string) : Prop :=
  let '(email, password, _) := a in
  varchar_in 255 email = Some email
  /\ forall salt, exists h, bcrypt_hash salt password = Ok h /\ varchar_in 255 h = Some h.

Definition address (a : string * string * string) : string := fst (fst a).

Lemma quiet_role name : respects (unchanged users) (upsert_role name None).
Proof. apply respects_map; [|done]. apply respects_upsert; intros; apply indep. Qed.

Lemma quiet_grant u r : respects (unchanged users) (grant_role u r).
Proof.
  unfold grant_role. keep_path. intros c d b d'. destruct (existsb _ _); [intros [= _ <-]; done|].
  destruct (_ && _); [|done]. intros [= _ <-]. apply indep.
Qed.

Lemma wp_grant (o : option string) id d (Q : outcome unit -> Database -> Prop) : db_nil = false ->
  (forall d', unchanged users d d' -> Q (Done tt) d') ->
  wp false (match o with None => Ret tt | Some rID => _ <- exec (grant_role id rID); Ret tt end) d Q.
Proof.
  intros Hdb HQ. destruct o as [rID|]; [|by apply HQ]. apply wp_bind, wp_exec_det; [done|]. intros c.
  destruct (grant_role id rID c d) as [[b d']|e] eqn:E; simpl; apply HQ; [by eapply quiet_grant|done].
Qed.

Lemma wp_seed_account `{!CryptoLaws C} roleIDs ids a d0 d (Q : outcome (gmap string string) -> Database -> Prop) :
  db_nil = false -> fits_columns a -> account (address a) d = account (address a) d0 ->
  (forall ids' d', renewed d0 d' a -> (forall email, email <> address a -> account email d' = account email d) -> Q (Done ids') d') ->
  wp false (Seed.seed_account roleIDs ids a) d Q.
Proof.
  destruct a as [[email password] role]. intros Hdb [He Hh] Hsame HQ. unfold Seed.seed_account, hash_of.
  apply wp_bind, wp_rand. intros salt. cbn [wp]. destruct (Hh salt) as (h & Hsalt & Hfit). rewrite Hsalt. cbn [scan wp_then].
  apply wp_bind, wp_set_password; [done..|]. intros id d' (u & Hu & Hhash & Hact) Hothers. cbn [wp_then].
  apply wp_bind, wp_grant; [done|]. intros d2 Hd2. cbn [wp_then wp]. apply HQ.
  - apply (renewed_unchanged _ d'); [done|]. exists u. split_and!; [done| |].
    + rewrite Hhash. by eapply bcrypt_correct.
    + rewrite Hact. unfold active_account. unfold address in Hsame. simpl in Hsame. by rewrite Hsame.
  - intros email' Hne. rewrite (account_unchanged _ d') by done. by apply Hothers.
Qed.

Lemma addresses_distinct pre a post : Seed.accounts = pre ++ a :: post -> address a ∉ map address pre.
Proof.
  intros Hl Ha. assert (Hnd : NoDup (map address Seed.accounts)) by (apply (bool_decide_unpack _); by vm_compute).
  rewrite Hl, map_app in Hnd. apply NoDup_app in Hnd as (_ & Hnd & _). apply (Hnd (address a)); [done|].
  apply list_elem_of_here.
Qed.

(** The accounts seen so far are renewed, and the others are as they were. *)
Definition renewed_so_far (d0 : Database) (pre : list (string * string * string)) (d : Database) : Prop :=
  Forall (renewed d0 d) pre /\ forall email, email ∉ map address pre -> account email d = account email d0.

Lemma renewed_next d0 pre a d d' : address a ∉ map address pre -> renewed_so_far d0 pre d -> renewed d0 d' a ->
  (forall email, email <> address a -> account email d' = account email d) -> renewed_so_far d0 (pre ++ [a]) d'.
Proof.
  intros Hnew [Hpre Hothers] Ha Hsame. split.
  - apply Forall_app. split; [|by apply Forall_singleton]. rewrite Forall_forall in Hpre |- *.
    intros [[email password] role] Hb. destruct (Hpre _ Hb) as (u & Hu & Hrest). exists u. split; [|done].
    rewrite Hsame; [done|]. intros He. apply Hnew. rewrite <- He. apply list_elem_of_fmap. by eexists (email, password, role).
  - intros email Hin. rewrite map_app, not_elem_of_app in Hin. destruct Hin as [Hin1 Hin2]. simpl in Hin2.
    rewrite not_elem_of_cons in Hin2. rewrite Hsame by tauto. by apply Hothers.
Qed.

(** C40: On reliable connections, after [seed.go] the eight published addresses have accounts
    whose passwords are the published ones, whatever they were before: the run on a database
    in use sets the password of [admin@company.com] to [admin123] again. A login with the
    published password is accepted from then on, except for an account that was suspended
    before the run: the seed leaves it suspended, and the login is answered 403. *)
Theorem demo_passwords_reset `{!CryptoLaws C} E n d : reliable E -> db_nil = false -> Forall fits_columns Seed.accounts ->
  let x := run E Seed.main n d in
  Forall (fun a => renewed d (db_of x) a /\ logs_in (active_account (address a) d) (db_of x) a) Seed.accounts.
Proof.
  intros HE Hdb Hst x. enough (Hall : Forall (renewed d (db_of x)) Seed.accounts).
  { eapply Forall_impl; [exact Hall|]. intros a Ha. split; [done|]. by apply renewed_logs_in. }
  apply (wp_run false E Seed.main n d (fun _ d' => Forall (renewed d d') Seed.accounts)); [done|].
  unfold Seed.main. rewrite Forall_forall in Hst.
  apply wp_bind, (wp_for_each false (fun _ _ _ d' => unchanged users d d')); [done| |].
  { intros pre r post ids d1 _ Hd1. apply wp_bind, wp_exec_det; [done|]. intros c.
    destruct (upsert_role r None c d1) as [[b d']|e] eqn:Er; cbn [wp_then]; [|done].
    apply quiet_role in Er. unfold unchanged in *. congruence. }
  intros roleIDs d1 Hd1. cbn [wp_then].
  apply wp_bind, (wp_for_each false (fun pre _ _ d' => renewed_so_far d pre d')).
  { split; [by apply Forall_nil|]. intros email _. by apply account_unchanged. }
  - intros pre a post ids d2 Hl Hpre. pose proof (addresses_distinct _ _ _ Hl) as Hnew. apply (wp_seed_account _ _ _ d).
    + done.
    + apply Hst. rewrite Hl. apply elem_of_app. right. apply list_elem_of_here.
    + by apply Hpre.
    + intros ids' d3 Ha Hothers. by eapply renewed_next.
  - intros userIDs d2 [Ha _]. cbn [wp_then]. eapply wp_mono; [|apply (wp_respects (unchanged users))].
    + intros o d3 Hd3. eapply Forall_impl; [exact Ha|]. intros a. by apply renewed_unchanged.
    + walk; unfold Seed.collect; walk; try done. apply respects_map; [|done]. apply respects_insert. intros. apply indep.
Qed.

(** ** The reset of the test employees *)

(** Once an account of the test employees has its profile, [--reset] removes nothing: the
    accounts are referred to, and the profiles have no column [work_email]. *)
Theorem reset_deletes_nothing E n d u e : u ∈ tget users d -> ends_with "@test.hrms.local" (usr_email u) = true ->
  e ∈ tget employees d -> emp_user_id e = Some (usr_id u) ->
  forall reset, db_of (run E (TestEmployees.delete_test_data reset) n d) = d.
Proof.
  intros Hu Hs He Hue reset. set (Q := fun d' => d' = d). enough (HQ : Q (db_of (run E (TestEmployees.delete_test_data reset) n d))) by done.
  apply (wp_run true E (TestEmployees.delete_test_data reset) n d (fun _ d' => Q d')); [done|]. destruct reset; [|done].
  unfold TestEmployees.delete_test_data. apply wp_bind, wp_exec; [done| |].
  - intros c b d' Hst. exfalso. unfold delete_users_like in Hst.
    assert (Hr : existsb (fun id => user_referenced id d)
      (map usr_id (where_ (fun u => ends_with "@test.hrms.local" (usr_email u)) (tget users d))) = true); [|by rewrite Hr in Hst].
    apply existsb_exists. exists (usr_id u). split.
    + apply in_map, list_elem_of_In, elem_of_where. done.
    + unfold user_referenced. rewrite (proj2 (existsb_exists _ (tget employees d))); [done|]. exists e.
      split; [by apply list_elem_of_In|by apply opt_is_spec].
  - intros err _. cbn [wp_then]. apply wp_bind, wp_exec; [done|done|]. done.
Qed.

(** ** seed_rbac_audit.go *)

(** The profile that a run of the script has left for an account, with a report. *)
Record has_report (email code : string) (d : Database) : Prop := {
  hr_email : varchar_in 255 email = Some email;
  hr_account : exists u, List.find (fun x => usr_email x =?s email) (tget users d) = Some u
    /\ uuid_in (usr_id u) = Some (usr_id u)
    /\ exists e, e ∈ tget employees d /\ emp_employee_id e = code
        /\ exists r, r ∈ tget employees d /\ emp_manager_id r = Some (emp_id e)
             /\ forall x, x ∈ tget employees d -> emp_user_id x = Some (usr_id u) \/ emp_employee_id x = code -> emp_id x <> emp_id r
}.

Lemma profile_kept user code d e r :
  e ∈ tget employees d -> emp_employee_id e = code -> r ∈ tget employees d -> emp_manager_id r = Some (emp_id e) ->
  (forall x, x ∈ tget employees d -> emp_user_id x = Some user \/ emp_employee_id x = code -> emp_id x <> emp_id r) ->
  forall c, delete_employees (fun x => opt_is (emp_user_id x) user || (emp_employee_id x =?s code)) c d = Err fk_error.
Proof.
  intros He Hc Hr Hm Hother c. unfold delete_employees.
  set (ids := map emp_id _). enough (employees_referenced ids d = true) as -> by done.
  unfold employees_referenced. rewrite (proj2 (existsb_exists _ (tget employees d))); [done|]. exists r.
  split; [by apply list_elem_of_In|].
  assert (Hin : emp_id e ∈ ids).
  { apply list_elem_of_fmap. exists e. split; [done|]. apply elem_of_where. split; [done|]. by rewrite Hc, String.eqb_refl, orb_true_r. }
  assert (Hout : emp_id r ∉ ids).
  { intros (x & Hx & [Hi Hp]%elem_of_where)%list_elem_of_fmap. apply (Hother x Hi); [|done].
    apply orb_true_iff in Hp as [Hp|Hp]; [left; by apply opt_is_spec|right; by apply String.eqb_eq]. }
  rewrite Hm. simpl. apply mem_s_false in Hout. apply mem_s_spec in Hin. by rewrite Hout, Hin.
Qed.

(** The account keeps its identifier. *)
Lemma wp_renew email hash u d (Q : outcome (result string) -> Database -> Prop) : db_nil = false ->
  varchar_in 255 email = Some email -> List.find (fun x => usr_email x =?s email) (tget users d) = Some u ->
  (forall d', unchanged employees d d' -> Q (Done (Ok (usr_id u))) d') -> (forall e, Q (Done (Err e)) d) ->
  wp true (exec (upsert_user email hash)) d Q.
Proof.
  intros Hdb Hmail Hf Hok Herr. apply wp_exec; [congruence| |by intros e _].
  intros c b d' Hst. unfold upsert_user in Hst. apply with_varchar_ok in Hst as (email' & Hv & Hst).
  rewrite Hmail in Hv. injection Hv as <-. apply with_varchar_ok in Hst as (hash' & _ & Hst).
  unfold returning, upsert in Hst. cbn [usr_email] in Hst. rewrite Hf in Hst. simpl in Hst. injection Hst as <- <-.
  destruct u. apply Hok, indep.
Qed.

(** A statement that leaves the employees alone, on any connection. *)
Lemma wp_aside {B} (s : stmt Database B) d0 d (Q : outcome (result B) -> Database -> Prop) : db_nil = false ->
  respects (unchanged employees) s -> unchanged employees d0 d ->
  (forall r d', unchanged employees d0 d' -> Q (Done r) d') -> wp true (exec s) d Q.
Proof.
  intros Hdb Hs Hd HQ. apply wp_exec; [congruence| |by intros e _; apply HQ].
  intros c b d' Hst. apply HQ. transitivity d; [done|by eapply Hs].
Qed.

Lemma aside_delete_roles u : respects (unchanged employees) (delete_user_roles u).
Proof. unfold delete_user_roles. keep_path. apply respects_delete. intros. apply indep. Qed.

Lemma aside_assign u r : respects (unchanged employees) (assign_role u r).
Proof. unfold assign_role. keep_path. apply respects_map; [|done]. apply respects_insert. intros. apply indep. Qed.

Lemma insert_profile_taken user code f l dp mg e d c : e ∈ tget employees d -> emp_employee_id e = code ->
  exists err, Rbac.insert_profile user code f l dp mg c d = Err err.
Proof.
  intros He Hc. destruct (Rbac.insert_profile user code f l dp mg c d) as [[b d']|err] eqn:E; [exfalso|by eexists].
  unfold Rbac.insert_profile in E. apply with_uuid_ok in E as (u & _ & E). apply with_uuid_ok in E as (dp' & _ & E).
  assert (Hrow : forall mg', returning emp_id (insert employees (fun c d =>
    let e := new_employee c (code, f, l) mg' u dp' None None in
    if existsb (same_code e) (tget employees d) || account_taken u code d then Err unique_error
    else if negb (ref_user u d) then Err fk_error
    else match employee_fk d e with Some err => Err err | None => Ok e end)) c d = Err unique_error).
  { intros mg'. unfold returning, insert. cbv zeta. rewrite (proj2 (existsb_exists _ (tget employees d))); [done|].
    exists e. split; [by apply list_elem_of_In|]. unfold same_code. rewrite Hc. apply String.eqb_refl. }
  destruct mg as [m|]; cbn [opt_cast] in E; [apply with_uuid_ok in E as (m' & _ & E)|]; by rewrite Hrow in E.
Qed.

(** A second run of [seed_rbac_audit.go] stops at the first manager: as long as an employee reports to
    the profile that an earlier run created, the profile can neither be deleted nor
    inserted again, and the script exits with status 1, with the account's roles deleted
    on the way and every employee as before. *)
Theorem profile_with_report_refused E n d roleIDs deptID email pass role code first last mgr :
  db_nil = false -> has_report email code d ->
  let x := run E (Rbac.createUser roleIDs deptID email pass role code first last mgr) n d in
  (exists resp, out x = Replied resp /\ status resp = 1) /\ unchanged employees d (db_of x).
Proof.
  intros Hdb [Hmail (u & Hu & Hid & e & He & Hc & r & Hr & Hm & Hother)].
  set (Q := fun (o : outcome string) d' => (exists resp, o = Replied resp /\ status resp = 1) /\ unchanged employees d d').
  apply (wp_run true E (Rbac.createUser roleIDs deptID email pass role code first last mgr) n d Q); [done|].
  unfold Rbac.createUser, hash_of. apply wp_bind, wp_rand. intros salt. cbn [wp wp_then].
  apply wp_bind, (wp_renew _ _ u); [done..| |].
  - intros d1 H1. cbn [wp_then].
    apply wp_bind, (wp_aside _ d); [done|apply aside_delete_roles|done|]. intros r1 d2 H2. cbn [wp_then].
    apply wp_bind, (wp_aside _ d); [done|apply aside_assign|done|]. intros r2 d3 H3. cbn [wp_then].
    assert (Hdel : forall c, Rbac.delete_profile (usr_id u) code c d3 = Err fk_error).
    { intros c. unfold Rbac.delete_profile, with_uuid. rewrite Hid. apply (profile_kept _ _ _ e r); rewrite ?H3; done. }
    apply wp_bind, wp_exec; [congruence|intros c b d' Hst; by rewrite Hdel in Hst|]. intros err _. cbn [wp_then].
    apply wp_bind, wp_exec; [congruence| |].
    + intros c b d' Hst. assert (He3 : e ∈ tget employees d3) by (by rewrite H3).
      destruct (insert_profile_taken (usr_id u) code first last deptID mgr e d3 c He3 Hc) as [err' Hi]. congruence.
    + intros err' _. simpl. split; [by eexists|done].
  - intros err. simpl. split; [by eexists|done].
Qed.
End Accounts.
