(* ===== verification/SeedScenarios.v ===== *)
(** * Runs of the seed programs

    The seed programs on concrete databases: the migrated database with its currencies, on
    which the test employees and then their payroll month are created, and the second runs
    that the scripts do not survive or do not need. The witnesses of the theorems on the
    seed programs are taken from these runs. *)

From stdpp Require Import gmap.
From S2P Require Import Gotime Prelude Float64 Go Sql Schema Calendar Demo Auth DemoCrypto Employee Payroll Seeds SeedDemo SeedTestEmployees SeedPayroll SeedRbac SeedEnterprise SeedsProps SeedPayrollProps SeedUsersProps.

#[local] Open Scope Z_scope.

Definition rupee_row : CurRow :=
  {| cur_code := "INR"; cur_name := "Indian Rupee"; cur_symbol := "₹"; cur_exchange_rate_to_base := 1000000;
     cur_is_base := true; cur_updated_at := demo_time |}.

(** The database after the migrations. *)
Definition migrated_db : Database := tput currencies [rupee_row] empty_db.

(** [scripts/seed-50-employees.sh] on it. *)
Definition staffed := run (demo_env 100000) (TestEmployees.main false) 0 migrated_db.
Definition staffed_db : Database := db_of staffed.

(** [seed_rbac_audit.go] on it. *)
Definition audited_db : Database := db_of (run (demo_env 100000) Rbac.main 0 migrated_db).

Example staffed_ex :
  out staffed = Done ["Employees: 50"; "Departments: 8"; "Managers: 5"; "Locations: 4"; "Created: 50"; "Skipped: 0";
                      "Failed: 0"; "SEED COMPLETE"]
  /\ length (tget employees staffed_db) = 60%nat /\ length (tget locations staffed_db) = 4%nat.
Proof. by vm_compute. Qed.

(** A second run skips the employees and adds the locations and the designations again. *)
Example staffed_again :
  let x := run (demo_env 200000) (TestEmployees.main false) 0 staffed_db in
  length (tget employees (db_of x)) = 60%nat /\ length (tget locations (db_of x)) = 8%nat
  /\ length (tget designations (db_of x)) = 16%nat
  /\ existsb (String.eqb "Skipped: 50") (match out x with Done l => l | _ => [] end) = true.
Proof. by vm_compute. Qed.

Lemma staffed_seedable : seedable staffed_db.
Proof.
  split.
  - apply (bool_decide_unpack _). by vm_compute.
  - apply (bool_decide_unpack (Forall (fun e => uuid_in (emp_id e) = Some (emp_id e)) (tget employees staffed_db))). by vm_compute.
  - intros Hr. assert (Hl : length (roster staffed_db) = 60%nat) by (by vm_compute). by rewrite Hr in Hl.
Qed.

Lemma staffed_count : Z.of_nat (length (roster staffed_db)) = 60.
Proof. by vm_compute. Qed.

Lemma staffed_month : 1 <= 9 <= 12 /\ - 2 ^ 35 <= 2026 <= 2 ^ 35.
Proof. lia. Qed.

Definition seeded_september (pending : bool) (d : Database) : Database :=
  db_of (run (demo_env 300000) (PayrollData.main (Some 9) (Some 2026) true pending) 0 d).

(** *** Witnesses *)

Lemma payroll_seed_plan_witness :
  month_cells 9 2026 (seeded_september false staffed_db) = plan 9 2026 false (roster staffed_db)
  /\ Z.of_nat (length (plan 9 2026 false (roster staffed_db))) = 1800.
Proof.
  split.
  - exact (proj2 (proj2 (payroll_seed_plan 9 2026 false (demo_env 300000) 0 staffed_db (demo_reliable 300000) demo_no_failure
      (proj1 staffed_month) (proj2 staffed_month) staffed_seedable))).
  - rewrite length_plan by lia. by rewrite staffed_count.
Defined.

(** The counts that the payroll runbook expects are 50 employees and 1500 records. *)
Lemma seeded_month_judged_witness :
  exists rep, out (run (demo_env 700000) (checkPayrollReadiness 9 2026) 0 (seeded_september true staffed_db)) = Done rep
  /\ Ready rep = false /\ ("active_employees", JInt 60) ∈ Statistics rep
  /\ ("total_attendance_records", JInt 1800) ∈ Statistics rep.
Proof.
  destruct (seeded_month_judged 9 2026 true (demo_env 300000) 0 (demo_env 700000) 0 staffed_db (demo_reliable 300000)
    (demo_reliable 700000) demo_no_failure (proj1 staffed_month) (proj2 staffed_month) staffed_seedable)
    as (rep & Hout & Hready & Hactive & Htotal).
  exists rep. rewrite staffed_count in Hactive, Htotal. split; [exact Hout|]. split; [|split; [exact Hactive|exact Htotal]].
  rewrite Hready. by vm_compute.
Defined.

Lemma staffed_payable : payable_in_rupees staffed_db.
Proof.
  split; [by vm_compute|]. intros i. unfold PayrollData.base_salary. repeat case_match; (eexists; vm_compute; reflexivity).
Qed.

Lemma structures_added_again_witness :
  exists l, one_each (roster staffed_db) l
  /\ tget employee_salary_structures (seeded_september false staffed_db) = tget employee_salary_structures staffed_db ++ l.
Proof.
  exact (structures_added_again 9 2026 false (demo_env 300000) 0 staffed_db (demo_reliable 300000) demo_no_failure
    staffed_seedable staffed_payable).
Defined.

(** Two runs for the two active employees of a small company leave five active structures:
    the one that Asha had, and two for each. *)
Example structures_doubled :
  let d1 := seeded_september false demo_db in
  let d2 := db_of (run (demo_env 500000) (PayrollData.main (Some 9) (Some 2026) false false) 0 d1) in
  map structure_of (tget employee_salary_structures d2)
    = [(uid 11, true, 6000000); (uid 11, true, 5000000); (uid 12, true, 5000000);
       (uid 11, true, 5000000); (uid 12, true, 5000000)]
  /\ length (tget attendance_daily_status d2) = 60%nat.
Proof. by vm_compute. Qed.

(** The 29th of February is left without attendance. *)
Example leap_day_missed :
  let d := db_of (run (demo_env 500000) (PayrollData.main (Some 2) (Some 2028) true false) 0 demo_db) in
  length (tget attendance_daily_status d) = 56%nat
  /\ existsb (fun a => day_date a =? days_of 2028 2 29) (tget attendance_daily_status d) = false.
Proof. by vm_compute. Qed.

Definition demo_storable : Forall fits_columns Seed.accounts.
Proof.
  apply Forall_forall. intros [[email password] role] Ha%list_elem_of_In.
  repeat (destruct Ha as [[= <- <- <-]|Ha]; [split; [by vm_compute|intros salt; by eexists]|]). destruct Ha.
Qed.

(** [admin@company.com] had a password of its own, and [hr@company.com] is suspended. *)
Definition guarded_db : Database :=
  tput users [demo_user 1 "admin@company.com"; set_usr_is_active false (demo_user 2 "hr@company.com")] migrated_db.

Definition demo_login (email password : string) : Request LoginRequest :=
  demo_request None (Some {| lr_email := email; lr_password := password |}) "".

Lemma demo_passwords_reset_witness :
  let d := db_of (run (demo_env 500000) Seed.main 0 guarded_db) in
  bcrypt_compare (usr_password_hash (demo_user 1 "admin@company.com")) "admin123" = false
  /\ renewed guarded_db d ("admin@company.com", "admin123", "SUPER_ADMIN")
  /\ (exists resp, out (run (demo_env 900000) (HandleLogin (demo_login "admin@company.com" "admin123")) 0 d) = Done resp
      /\ accepted "admin@company.com" resp)
  /\ exists resp, out (run (demo_env 900000) (HandleLogin (demo_login "hr@company.com" "hr123")) 0 d) = Done resp
     /\ resp = jsonError "account is suspended" StatusForbidden.
Proof.
  intros d.
  pose proof (demo_passwords_reset (demo_env 500000) 0 guarded_db (demo_reliable 500000) demo_no_failure demo_storable) as Hall.
  split; [by vm_compute|]. split; [exact (proj1 (Forall_inv Hall))|]. split.
  - exact (proj2 (Forall_inv Hall) (demo_login "admin@company.com" "admin123") (demo_env 900000) 0%nat (demo_reliable 900000) eq_refl).
  - exact (proj2 (Forall_inv (Forall_inv_tail Hall)) (demo_login "hr@company.com" "hr123") (demo_env 900000) 0%nat (demo_reliable 900000) eq_refl).
Defined.

Lemma reset_deletes_nothing_witness :
  let d := tput employees [demo_employee 11 1 "TEST_EMP_001" "Test"] (tput users [demo_user 1 "employee_001@test.hrms.local"] empty_db) in
  db_of (run (demo_env 500000) (TestEmployees.delete_test_data true) 0 d) = d.
Proof.
  set (d := tput employees _ _).
  exact (reset_deletes_nothing (demo_env 500000) 0 d (demo_user 1 "employee_001@test.hrms.local")
    (demo_employee 11 1 "TEST_EMP_001" "Test") (list_elem_of_here _ _) eq_refl (list_elem_of_here _ _) eq_refl true).
Defined.

(** The first run of [seed_rbac_audit.go] ends, the second one does not. *)
Example rbac_seed_twice :
  out (run (demo_env 100000) Rbac.main 0 migrated_db) = Done ["✅ Done!"]
  /\ out (run (demo_env 200000) Rbac.main 0 audited_db)
       = Replied (http_error ("Failed employee RBAC-MGR001: " +:+ unique_error) 1).
Proof. by vm_compute. Qed.

Definition audited_row (i : nat) : EmpRow := nth i (tget employees audited_db) (demo_employee 0 0 "" "").
Definition audited_account (i : nat) : UserRow := nth i (tget users audited_db) (demo_user 0 "").

Lemma audited_report : has_report "manager_001@company.com" "RBAC-MGR001" audited_db.
Proof.
  split; [by vm_compute|]. exists (audited_account 1). split; [by vm_compute|]. split; [by vm_compute|].
  exists (audited_row 1). split; [apply (list_elem_of_lookup_2 _ 1); by vm_compute|]. split; [by vm_compute|].
  exists (audited_row 3). split; [apply (list_elem_of_lookup_2 _ 3); by vm_compute|]. split; [by vm_compute|].
  assert (Hall : Forall (fun x => emp_user_id x = Some (usr_id (audited_account 1)) \/ emp_employee_id x = "RBAC-MGR001" ->
    emp_id x <> emp_id (audited_row 3)) (tget employees audited_db)) by (apply (bool_decide_unpack _); by vm_compute).
  intros x. rewrite Forall_forall in Hall. apply Hall.
Qed.

Lemma profile_with_report_refused_witness :
  let x := run (demo_env 200000) (Rbac.createUser ∅ "" "manager_001@company.com" "pass123" "MANAGER" "RBAC-MGR001" "Manager"
             "One" None) 0 audited_db in
  (exists resp, out x = Replied resp /\ status resp = 1) /\ unchanged employees audited_db (db_of x).
Proof.
  exact (profile_with_report_refused (demo_env 200000) 0 audited_db ∅ "" "manager_001@company.com" "pass123" "MANAGER"
    "RBAC-MGR001" "Manager" "One" None demo_no_failure audited_report).
Defined.
